(* ===== verification/_CoqProject ===== *)
-Q . S2P
Prelude.v
Machine.v
Sdk.v
TokenInstruction.v
TokenState.v
TokenProcessor.v
TokenCodec.v
TokenFacts.v
TokenRuns.v
TokenChanges.v
TokenLedger.v
PoolInstruction.v
PoolState.v
StakeProgram.v
PoolProcessor.v
Entry.v
PoolCodec.v
PoolMath.v
PoolFacts.v
Panics.v
PoolSpec.v
PoolFrame.v
PoolRefine.v
PoolSim.v
Models.v
PoolForward.v
Composition.v
Samples.v
Liquidity.v
SampleRuns.v
LiquidityTheorems.v
PoolTheorems.v
StakeTheorems.v
TokenFrame.v
TokenNative.v
TokenSamples.v
TokenTheorems.v
TokenAtomic.v
PanicTheorems.v
CompositionTheorems.v
Solvency.v
Client.v
Cli.v
MetaCli.v
Args.v
CliArgs.v
MetaCliArgs.v
ClientFacts.v
Transactions.v
ClientSamples.v
ClientTheorems.v
ClientDeposit.v
Bootstrap.v
LiquidityCreation.v
ArgsTheorems.v
