(* ===== verification/Prelude.v ===== *)
(** * MetaPool: a verified model of the stake-pool and token programs

    This library models the Rust code of the MetaPool repository: two Solana
    programs and their two command-line clients, and proves what makes them
    correct.

    ** The program and its parts

    - The token program, [token/program/src]: mints, token accounts and
      multisig owners, one handler per instruction.
    - The stake-pool program, [program/src]: a pool of stake accounts whose
      shares are tokens of a mint the program controls, a list of its
      validators, and a liquidity pool that buys the shares for wrapped SOL.
      It calls the token program and the native stake program through
      cross-program invocations.
    - The clients, [cli/src/main.rs] and [metacli/src/main.rs]: they read the
      chain, assemble instructions and sign transactions.

    ** How the code is modelled

    Rust's [Result] is [outcome], with a third case for panics (a failed
    [assert!], an [unwrap] of nothing, an index out of range, an arithmetic
    overflow).  A handler is a function of the state monad [stM] over the
    store of accounts ([Sdk.Store], a finite map from keys to lamports, data
    and owner), and its outcome does not undo the store: that is how a
    [RefCell] behaves.  Two [AccountInfo]s with one key alias the same cell.
    Integers are [Z] with their width written out: the checked operations
    return options, and the plain operators go through [Machine.plain_add] and
    [plain_sub], which panic or wrap according to the build ([BuildProfile]).
    The [f64]s are the standard library's executable IEEE doubles.

    What is not in the repository is an interface with laws: the
    [solana_program] crate ([SolanaSdk], [SolanaSdkLaws]), the runtime that
    executes invocations ([Runtime], [RuntimeLaws]), [bincode] ([Bincode]), the
    contents of struct padding ([StructPadding]), the RPC client and key
    generation ([Client], [ClientLaws]), the system program
    ([SystemProgram], [SystemLaws]), the command-line parser ([Clap],
    [ClapLaws]).  The [Pack] and [repr(C)] traits are classes whose laws
    ([PackLaws], [ReprCLaws]) the programs' types discharge.

    ** The files

    - [Prelude] (this file), [Machine], [Sdk]: outcomes, the monad, integers
      and bytes, the interfaces.
    - [TokenInstruction], [TokenState], [TokenProcessor]: error.rs and
      instruction.rs, state.rs, processor.rs and native_mint.rs of the token
      program, a definition per function.
    - [TokenCodec] (layouts and instruction bytes), [TokenFacts] and
      [TokenRuns] (what a successful handler has checked and leaves),
      [TokenChanges] (what it does to a mint and to other accounts' data),
      [TokenLedger] (the abstract ledger and the simulation), [TokenFrame]
      (what an instruction cannot touch), [TokenNative] (wrapped SOL).
    - [PoolInstruction], [PoolState], [StakeProgram], [PoolProcessor]: the same
      for [program/src]; [Entry]: the entrypoints, the lines printed for
      errors and the display of amounts.
    - [PoolCodec], [PoolMath], [PoolFacts], [PoolSpec] (the pool as a state
      machine), [PoolFrame], [PoolRefine], [PoolSim], [PoolForward],
      [Liquidity]: the layouts, the share arithmetic, the machine and the
      simulation, forward execution, the liquidity pool.
    - [Panics]: the outcomes a handler cannot have, on any store.
    - [Composition], [Solvency]: the pool run over the token program, for one
      instruction and along a chain of all programs' steps.
    - [Client], [Cli], [MetaCli], [ClientFacts]: the clients' shared helpers,
      their commands and the dispatch of their [main].
    - [Transactions], [Bootstrap], [LiquidityCreation]: the instructions of a
      transaction run one after the other over the models of the programs they
      address; the life of a pool from the transaction that creates it, and
      what the transaction that creates the liquidity pool leaves.
    - [Args], [CliArgs], [MetaCliArgs]: the declarations of the command-line
      arguments in the builder style of the sources, and how [main] reads the
      matched arguments and its configuration.
    - [Models], [Samples], [SampleRuns], [TokenSamples], [ClientSamples]:
      executable instances of the interfaces and the concrete accounts on which
      the theorems are witnessed.
    - [PoolTheorems], [LiquidityTheorems], [StakeTheorems], [TokenTheorems],
      [TokenAtomic], [PanicTheorems], [CompositionTheorems], [ClientTheorems],
      [ClientDeposit], [ArgsTheorems], and the last theorems of [Solvency], of
      [Bootstrap], of [LiquidityCreation] and of the two codec files: the properties, each with a
      witness where it has hypotheses.

    ** What is proved

    - Stake pool.  Each handler's behaviour on success, guard by guard; that
      deposits and withdrawals succeed when their guards hold; that every
      successful instruction is the step of the machine of [PoolSpec] that is
      named after it, whose invariants (records in range, no validator twice,
      at most a thousand, mint and fee fixed) therefore hold along every chain
      of events; what a deposit and a withdrawal do to the price of a token in
      any build, and that trading does not lower it until all tokens are
      redeemed; that the program touches only the pool and list it is passed
      and administration needs the owner.
    - Liquidity pool.  What adding liquidity and selling stSOL pay.
    - Token program.  Every successful instruction is an authorised event of
      the ledger; a mint's supply is the sum of its balances, always; the owner
      check is sound for keys and multisigs; frozen accounts stay; wrapped SOL
      is backed; lamports are conserved but for an account closed into itself.
    - Composition.  Run over the token program, the pool's count of its tokens
      is the supply its mint records, as long as the mint that deposits and
      withdrawals are passed is the pool's; and along the chains of
      [Solvency.solvency_step], in which any of the twelve instructions and
      other programs take turns, the tokens in existence never exceed that
      count, so that together they redeem for no more than the lamports managed.
    - Creation.  The transaction of the create-pool command, run instruction by
      instruction, succeeds exactly when the fee is at most one and leaves the
      initial pool with a mint that only the pool controls: the premise of the
      solvency invariant holds from the first transaction on.  The liquidity
      pool's creation succeeds too, but its accounts obey the address of the
      pool named in the source, and the state account it makes stays empty.
    - Failures.  In a build without overflow checks, the exact list of what makes
      either program panic; everything else that goes wrong is an error.  A
      token instruction that fails leaves every account as it was.
    - Bytes.  The layouts of all accounts and instructions round-trip; parsing
      is total, with the one panic of the token instructions characterised.
    - Stake arithmetic.  The warm-up and cool-down loops end and what they
      return adds up to the delegated stake.
    - Clients.  What the update command leaves when the program runs it: every
      record with the current epoch and the lamports of its vote account (where
      the documentation means its stake account); the choice of accounts for a
      withdrawal is the greedy one, wrap-around included; the conversions agree
      with the program's; what a withdrawal asks; the program accepts the
      deposit instruction that the deposit command builds.  On every command
      line the parser accepts, the client runs the command of the subcommand
      named, each argument reaching the parameter it is named for.

    ** What the theorems on chains assume

    No handler checks who owns the account it is passed as the pool, so an
    account of anybody that reads as an initialised pool and names a real
    pool's list can be used to rewrite the list's balances
    ([PoolTheorems.impostor_rewrites_list]).  The theorems that follow a pool
    through instructions therefore ask that none of them is passed such an
    impostor, or the list itself, as its pool ([PoolSpec.genuine]), that the
    pool's account is shorter than a
    list, as the clients create it, so that it cannot pass for one, and that
    the program is not among the accounts it is passed.  Where a sum of the
    pool's totals could wrap around, which a build with overflow checks rules
    out and the repository's release profile does not, the theorems say so.

    ** Bounds and fuel

    The loops of the stake activation run on fuel, the number of epochs they
    may pass: [StakeTheorems] proves that they end within it.  [Client.chunks]
    takes the length of its list as fuel, at most one chunk per element.  The
    multisig loops run over at most eleven positions, the validator list over
    at most a thousand records.

    ** Not modelled

    The handlers' log messages and the clients' printing; the splitting of the
    command line's words and the reading of key and configuration files, which
    are other crates' ([Args.Clap]); the borrow counts of [RefCell]s, as every
    borrow of the sources ends before the same cell is borrowed again; the [entrypoint!] macro's decoding of the loader's input; the
    generated C header [token.h]; tests and the performance monitor; what the
    sources keep in comments, such as metacli's copy of [command_create_pool].
    In [metacli] the helpers and commands copied unchanged are the definitions
    of [Client] and [Cli] under names of their own.  What the theorems on whole
    transactions do not run is the native stake program, which is not in the
    repository: the transactions that need it are followed up to its calls. *)
From stdpp Require Export base tactics option list list_numbers gmap numbers strings.
From Stdlib Require Export ZArith Lia.
From Stdlib Require Export Strings.Byte.

#[global] Set Default Goal Selector "!".
#[global] Open Scope Z_scope.

(** ** Outcomes: Rust's [Result] plus panics

    A Rust function of the programs ends in one of three ways: it returns
    [Ok], it returns [Err], or it panics (a failed [assert!], an index out of
    range, an [unwrap] of [None], an overflow in a build with overflow
    checks). *)
Inductive outcome (E A : Type) : Type :=
| Ok (a : A)
| Err (e : E)
| Panic.
Arguments Ok {_ _} _.
Arguments Err {_ _} _.
Arguments Panic {_ _}.

#[global] Instance outcome_eq_dec {E A} `{EqDecision E, EqDecision A} : EqDecision (outcome E A).
Proof. solve_decision. Defined.

#[global] Instance outcome_ret {E} : MRet (outcome E) := fun _ a => Ok a.
#[global] Instance outcome_bind {E} : MBind (outcome E) := fun _ _ f m =>
  match m with Ok a => f a | Err e => Err e | Panic => Panic end.
#[global] Instance outcome_fmap {E} : FMap (outcome E) := fun _ _ f m =>
  match m with Ok a => Ok (f a) | Err e => Err e | Panic => Panic end.

(** [result.map_err(f)] *)
Definition map_err {E E' A} (f : E -> E') (m : outcome E A) : outcome E' A :=
  match m with Ok a => Ok a | Err e => Err (f e) | Panic => Panic end.
(** [option.ok_or(e)] *)
Definition ok_or {E A} (e : E) (o : option A) : outcome E A :=
  match o with Some a => Ok a | None => Err e end.
(** [option.unwrap()] *)
Definition unwrap {E A} (o : option A) : outcome E A :=
  match o with Some a => Ok a | None => Panic end.
(** an early [return Err(e)] when the guard [b] holds *)
Definition err_if {E} (b : bool) (e : E) : outcome E unit := if b then Err e else Ok tt.
Definition is_ok {E A} (m : outcome E A) : bool := match m with Ok _ => true | _ => false end.

(** ** The state monad of the handlers

    A handler runs on a store and returns its outcome and the store it leaves;
    the store survives an error, as the mutated account cells do in Rust. *)
Definition stM (S E A : Type) : Type := S -> outcome E A * S.

Section StM.
Context {S E : Type}.
#[global] Instance stM_ret : MRet (stM S E) := fun _ a s => (Ok a, s).
#[global] Instance stM_bind : MBind (stM S E) := fun _ _ f m s =>
  match m s with
  | (Ok a, s') => f a s'
  | (Err e, s') => (Err e, s')
  | (Panic, s') => (Panic, s')
  end.
Definition lift {A} (o : outcome E A) : stM S E A := fun s => (o, s).
Definition throw {A} (e : E) : stM S E A := fun s => (Err e, s).
Definition panic {A} : stM S E A := fun s => (Panic, s).
(** an early [return Err(e)] when the guard [b] holds *)
Definition fail_if (b : bool) (e : E) : stM S E unit := lift (err_if b e).
(** [assert!(b)] *)
Definition assert (b : bool) : stM S E unit := if b then mret tt else panic.
Definition gets {A} (f : S -> A) : stM S E A := fun s => (Ok (f s), s).
Definition modify (f : S -> S) : stM S E unit := fun s => (Ok tt, f s).
End StM.

(** [for x in l { body }] over a list, threading a loop state. *)
Fixpoint foldM {S E A X} (body : A -> X -> stM S E A) (a : A) (l : list X) : stM S E A :=
  match l with
  | [] => mret a
  | x :: l' => a' ← body a x; foldM body a' l'
  end.
Fixpoint fold_outcome {E A X} (body : A -> X -> outcome E A) (a : A) (l : list X) : outcome E A :=
  match l with
  | [] => Ok a
  | x :: l' => a' ← body a x; fold_outcome body a' l'
  end.

(** ** Inversion and execution lemmas of the two monads *)
Lemma outcome_bind_Ok {E A B} (m : outcome E A) (f : A -> outcome E B) b :
  (m ≫= f) = Ok b <-> exists a, m = Ok a /\ f a = Ok b.
Proof. destruct m; cbn; naive_solver. Qed.
Lemma outcome_fmap_Ok {E A B} (m : outcome E A) (f : A -> B) b :
  (f <$> m) = Ok b <-> exists a, m = Ok a /\ f a = b.
Proof. destruct m; cbn; naive_solver. Qed.
Lemma map_err_Ok {E E' A} (f : E -> E') (m : outcome E A) a : map_err f m = Ok a <-> m = Ok a.
Proof. destruct m; cbn; naive_solver. Qed.
Lemma ok_or_Ok {E A} (e : E) (o : option A) a : ok_or e o = Ok a <-> o = Some a.
Proof. destruct o; cbn; naive_solver. Qed.
Lemma unwrap_Ok {E A} (o : option A) a : unwrap (E:=E) o = Ok a <-> o = Some a.
Proof. destruct o; cbn; naive_solver. Qed.
Lemma err_if_Ok {E} b (e : E) u : err_if b e = Ok u <-> b = false.
Proof. destruct b, u; cbn; naive_solver. Qed.

Section StMLemmas.
Context {S E : Type}.
Implicit Types s : S.
Lemma stM_bind_Ok {A B} (m : stM S E A) (f : A -> stM S E B) s b s' :
  (m ≫= f) s = (Ok b, s') <-> exists a s1, m s = (Ok a, s1) /\ f a s1 = (Ok b, s').
Proof. unfold mbind, stM_bind. destruct (m s) as [[] ]; naive_solver. Qed.
Lemma stM_bind_run {A B} (m : stM S E A) (f : A -> stM S E B) s a s1 :
  m s = (Ok a, s1) -> (m ≫= f) s = f a s1.
Proof. unfold mbind, stM_bind. by intros ->. Qed.
Lemma stM_bind_err {A B} (m : stM S E A) (f : A -> stM S E B) s e s1 :
  m s = (Err e, s1) -> (m ≫= f) s = (Err e, s1).
Proof. unfold mbind, stM_bind. by intros ->. Qed.
Lemma stM_bind_panic {A B} (m : stM S E A) (f : A -> stM S E B) s s1 :
  m s = (Panic, s1) -> (m ≫= f) s = (Panic, s1).
Proof. unfold mbind, stM_bind. by intros ->. Qed.
Lemma stM_ret_Ok {A} (a : A) s b s' : (mret a : stM S E A) s = (Ok b, s') <-> a = b /\ s = s'.
Proof. unfold mret, stM_ret. naive_solver. Qed.
Lemma lift_Ok {A} (o : outcome E A) s b s' : lift o s = (Ok b, s') <-> o = Ok b /\ s = s'.
Proof. unfold lift. naive_solver. Qed.
Lemma throw_Ok {A} e s (b : A) s' : throw (S:=S) (E:=E) e s = (Ok b, s') <-> False.
Proof. unfold throw. naive_solver. Qed.
Lemma panic_Ok {A} s (b : A) s' : panic (S:=S) (E:=E) s = (Ok b, s') <-> False.
Proof. unfold panic. naive_solver. Qed.
Lemma fail_if_Ok b e s u s' : fail_if (S:=S) (E:=E) b e s = (Ok u, s') <-> b = false /\ s = s'.
Proof. unfold fail_if. by rewrite lift_Ok, err_if_Ok. Qed.
Lemma assert_Ok b s u s' : assert (S:=S) (E:=E) b s = (Ok u, s') <-> b = true /\ s = s'.
Proof. destruct b, u; unfold assert, panic, mret, stM_ret; naive_solver. Qed.
Lemma gets_Ok {A} (f : S -> A) s a s' : gets (E:=E) f s = (Ok a, s') <-> f s = a /\ s = s'.
Proof. unfold gets. naive_solver. Qed.
Lemma modify_Ok (f : S -> S) s u s' : modify (E:=E) f s = (Ok u, s') <-> f s = s'.
Proof. destruct u; unfold modify. naive_solver. Qed.
End StMLemmas.

(** a property kept by every step of a loop holds when the loop is done *)
Lemma fold_outcome_invariant {E A X} (P : A -> Prop) (body : A -> X -> outcome E A) l a a' :
  (forall a x a', x ∈ l -> P a -> body a x = Ok a' -> P a') -> P a -> fold_outcome body a l = Ok a' -> P a'.
Proof.
  revert a. induction l as [|x l IH]; intros a Hstep Ha; cbn; [by intros [= <-]|].
  rewrite outcome_bind_Ok. intros (a1 & H1 & H2).
  apply (IH a1); [|by eapply (Hstep a x); [left|..]|done]. intros. eapply Hstep; [by right|done..].
Qed.

#[global] Typeclasses Opaque stM.

(** ** Proof automation *)
(** [inv_run] inverts every successful run in the context down to its
    primitive steps; [inv_run_ext] is extended by later files with the
    inversion lemmas of their own operations. *)
Ltac inv_run_ext := fail.
Ltac inv_run_step :=
  match goal with
  | H : (_ ≫= _) _ = (Ok _, _) |- _ => apply stM_bind_Ok in H as (? & ? & ? & H); cbv beta in H
  | H : mret _ _ = (Ok _, _) |- _ => apply stM_ret_Ok in H as [? ?]
  | H : lift _ _ = (Ok _, _) |- _ => apply lift_Ok in H as [H ?]
  | H : fail_if _ _ _ = (Ok _, _) |- _ => apply fail_if_Ok in H as [H ?]
  | H : assert _ _ = (Ok _, _) |- _ => apply assert_Ok in H as [H ?]
  | H : gets _ _ = (Ok _, _) |- _ => apply gets_Ok in H as [H ?]
  | H : modify _ _ = (Ok _, _) |- _ => apply modify_Ok in H
  | H : throw _ _ = (Ok _, _) |- _ => apply throw_Ok in H as []
  | H : panic _ = (Ok _, _) |- _ => apply panic_Ok in H as []
  | H : ok_or _ _ = Ok _ |- _ => apply ok_or_Ok in H
  | H : map_err _ _ = Ok _ |- _ => apply map_err_Ok in H
  | H : (_ ≫= _) = Ok _ |- _ => apply outcome_bind_Ok in H as (? & ? & H); cbv beta in H
  | H : (let '(_, _) := ?p in _) = _ |- _ => first [is_var p; destruct p | destruct p eqn:?]
  | H : (let '(_, _) := ?p in _) _ = _ |- _ => first [is_var p; destruct p | destruct p eqn:?]
  | u : unit |- _ => destruct u
  end.
Ltac inv_run := repeat (first [inv_run_step | progress inv_run_ext]; simplify_eq).
(** case analysis on the condition or scrutinee that blocks a successful run *)
Ltac case_run :=
  match goal with
  | H : (if ?b then _ else _) _ = (Ok _, _) |- _ => destruct b eqn:?
  | H : (match ?x with _ => _ end) _ = (Ok _, _) |- _ => destruct x eqn:?
  end.
Ltac bool_hyps :=
  repeat match goal with
  | H : negb _ = true |- _ => apply negb_true_iff in H
  | H : negb _ = false |- _ => apply negb_false_iff in H
  | H : _ || _ = false |- _ => apply orb_false_iff in H as [? ?]
  | H : _ && _ = true |- _ => apply andb_true_iff in H as [? ?]
  | H : bool_decide _ = true |- _ => apply bool_decide_eq_true in H
  | H : bool_decide _ = false |- _ => apply bool_decide_eq_false in H
  | H : (_ <? _) = true |- _ => apply Z.ltb_lt in H
  | H : (_ <? _) = false |- _ => apply Z.ltb_ge in H
  | H : (_ <=? _) = true |- _ => apply Z.leb_le in H
  | H : (_ <=? _) = false |- _ => apply Z.leb_gt in H
  | H : (_ =? _) = true |- _ => apply Z.eqb_eq in H
  | H : (_ =? _) = false |- _ => apply Z.eqb_neq in H
  end.
