(* ===== verification/Machine.v ===== *)
(** * Machine integers, bytes, slices and 32-byte keys

    The integers of the programs at their width ([u8], [u64], [u128]) as [Z]
    with the wrap-around, checked and panicking operations written out; byte
    buffers as [list byte] with little-endian codecs, the fixed slicing of
    [array_ref!]/[array_refs!] and in-place writes; [Pubkey] as an array of 32
    bytes. *)
From S2P Require Import Prelude.

(** ** Unsigned integers *)
Definition u8_range (z : Z) : Prop := 0 <= z < 2 ^ 8.
Definition u16_range (z : Z) : Prop := 0 <= z < 2 ^ 16.
Definition u64_range (z : Z) : Prop := 0 <= z < 2 ^ 64.
Definition u128_range (z : Z) : Prop := 0 <= z < 2 ^ 128.
#[global] Instance u8_range_dec z : Decision (u8_range z).
Proof. unfold u8_range. apply _. Defined.
#[global] Instance u64_range_dec z : Decision (u64_range z).
Proof. unfold u64_range. apply _. Defined.

Definition u64_MAX : Z := 2 ^ 64 - 1.
Definition wrap (w z : Z) : Z := z mod 2 ^ w.
(** [x as u8], [x as u16] of a wider unsigned integer *)
Definition as_u8 (z : Z) : Z := wrap 8 z.
Definition as_u16 (z : Z) : Z := wrap 16 z.

(** [u64::checked_add] and [u64::checked_sub] *)
Definition checked_add (a b : Z) : option Z := if a + b <? 2 ^ 64 then Some (a + b) else None.
Definition checked_sub (a b : Z) : option Z := if b <=? a then Some (a - b) else None.
(** [u64::saturating_sub] *)
Definition saturating_sub (a b : Z) : Z := Z.max 0 (a - b).
(** [u128::checked_mul], [u128::checked_div], [u64::try_from(u128)] *)
Definition checked_mul128 (a b : Z) : option Z := if a * b <? 2 ^ 128 then Some (a * b) else None.
Definition checked_div128 (a b : Z) : option Z := if b =? 0 then None else Some (a / b).
Definition u64_try_from (z : Z) : option Z := if z <? 2 ^ 64 then Some z else None.

(** The plain operators [+], [-], [+=], [-=] on [u64] panic in a build with
    overflow checks (debug, tests) and wrap in a release build: the flag is a
    parameter of the model. *)
Class BuildProfile := { overflow_checks : bool }.
Section Plain.
Context `{BuildProfile}.
Definition u64_result {E} (z : Z) : outcome E Z :=
  if decide (u64_range z) then Ok z
  else if overflow_checks then Panic else Ok (wrap 64 z).
Definition plain_add {E} (a b : Z) : outcome E Z := u64_result (a + b).
Definition plain_sub {E} (a b : Z) : outcome E Z := u64_result (a - b).
End Plain.

(** ** Bytes *)
#[global] Instance byte_eq_decision : EqDecision byte := Byte.byte_eq_dec.
Definition u8_of_byte (b : byte) : Z := Z.of_N (Byte.to_N b).
Definition byte_of_u8 (z : Z) : byte :=
  match Byte.of_N (Z.to_N (z mod 256)) with Some b => b | None => x00 end.

(** little-endian [to_le_bytes] / [from_le_bytes] *)
Fixpoint le_decode (l : list byte) : Z :=
  match l with [] => 0 | b :: l' => u8_of_byte b + 256 * le_decode l' end.
Fixpoint le_encode (n : nat) (z : Z) : list byte :=
  match n with O => [] | S n' => byte_of_u8 z :: le_encode n' (z / 256) end.
Definition u64_to_le_bytes (z : Z) : list byte := le_encode 8 z.
Definition u16_to_le_bytes (z : Z) : list byte := le_encode 2 z.
Definition byte_of_bool (b : bool) : byte := if b then x01 else x00.

(** ** Slices *)
(** [&l[off .. off + n]] (in range) and an in-place write of [bs] at [off] *)
Definition slice (off n : nat) (l : list byte) : list byte := take n (drop off l).
Definition write_at (off : nat) (bs l : list byte) : list byte :=
  take off l ++ bs ++ drop (off + length bs) l.
Definition len {A} (l : list A) : Z := Z.of_nat (length l).
(** the checked slice [&l[off .. off + n]]: a panic when it runs past the end *)
Definition slice_checked {E} (off n : nat) (l : list byte) : outcome E (list byte) :=
  if (off + n <=? length l)%nat then Ok (slice off n l) else Panic.
Definition write_checked {E} (off : nat) (bs l : list byte) : outcome E (list byte) :=
  if (off + length bs <=? length l)%nat then Ok (write_at off bs l) else Panic.
(** [array_ref![src, 0, n]]: the first [n] bytes, a panic on a shorter slice *)
Definition array_ref {E} (n : nat) (src : list byte) : outcome E (list byte) := slice_checked 0 n src.
(** [array_refs![src, n1, n2, ...]]: consecutive chunks of the given sizes *)
Fixpoint array_refs (sizes : list nat) (src : list byte) : list (list byte) :=
  match sizes with [] => [] | n :: ns => take n src :: array_refs ns (drop n src) end.

(** ** Fixed-size byte arrays and public keys *)
Fixpoint bytes_n (n : nat) : Type :=
  match n with O => unit | S n' => (byte * bytes_n n')%type end.
Fixpoint array_to_list (n : nat) : bytes_n n -> list byte :=
  match n with O => fun _ => [] | S n' => fun a => fst a :: array_to_list n' (snd a) end.
(** the array of the first [n] bytes of a list (zero where it is shorter) *)
Fixpoint array_of_list (n : nat) (l : list byte) : bytes_n n :=
  match n with O => tt | S n' => (default x00 (head l), array_of_list n' (tail l)) end.

Record Pubkey := mk_pubkey { pubkey_array : bytes_n 32 }.
Definition to_bytes (k : Pubkey) : list byte := array_to_list 32 (pubkey_array k).
(** [Pubkey::new_from_array], and [Pubkey::new] on a 32-byte slice *)
Definition new_from_array (l : list byte) : Pubkey := mk_pubkey (array_of_list 32 l).
(** the key whose bytes are [z] in little-endian order (for concrete states) *)
Definition key_of_Z (z : Z) : Pubkey := new_from_array (le_encode 32 z).
Definition default_pubkey : Pubkey := new_from_array [].

(** * Lemmas *)

Lemma checked_add_Some a b c : checked_add a b = Some c <-> c = a + b /\ a + b < 2 ^ 64.
Proof. unfold checked_add. destruct (Z.ltb_spec (a + b) (2 ^ 64)); naive_solver lia. Qed.
Lemma checked_sub_Some a b c : checked_sub a b = Some c <-> c = a - b /\ b <= a.
Proof. unfold checked_sub. destruct (Z.leb_spec b a); naive_solver lia. Qed.
Lemma checked_mul128_Some a b c : checked_mul128 a b = Some c <-> c = a * b /\ a * b < 2 ^ 128.
Proof. unfold checked_mul128. destruct (Z.ltb_spec (a * b) (2 ^ 128)); naive_solver lia. Qed.
Lemma checked_div128_Some a b c : checked_div128 a b = Some c <-> c = a / b /\ b <> 0.
Proof. unfold checked_div128. destruct (Z.eqb_spec b 0); naive_solver. Qed.
Lemma u64_try_from_Some a c : u64_try_from a = Some c <-> c = a /\ a < 2 ^ 64.
Proof. unfold u64_try_from. destruct (Z.ltb_spec a (2 ^ 64)); naive_solver lia. Qed.

Section PlainLemmas.
Context `{BuildProfile}.
Lemma u64_result_in {E} z : u64_range z -> u64_result (E:=E) z = Ok z.
Proof. intros ?. unfold u64_result. by rewrite decide_True. Qed.
Lemma u64_result_range {E} z r : u64_result (E:=E) z = Ok r -> u64_range r.
Proof.
  unfold u64_result, wrap. case_decide; [naive_solver|]. case_match; [done|].
  intros [= <-]. by apply Z.mod_pos_bound.
Qed.
Lemma plain_add_in {E} a b : u64_range (a + b) -> plain_add (E:=E) a b = Ok (a + b).
Proof. apply u64_result_in. Qed.
Lemma plain_sub_in {E} a b : u64_range (a - b) -> plain_sub (E:=E) a b = Ok (a - b).
Proof. apply u64_result_in. Qed.
End PlainLemmas.

Lemma u8_of_byte_range b : 0 <= u8_of_byte b < 256.
Proof. unfold u8_of_byte. pose proof (Byte.to_N_bounded b). lia. Qed.
Lemma byte_of_u8_of_byte b : byte_of_u8 (u8_of_byte b) = b.
Proof.
  unfold byte_of_u8. rewrite Z.mod_small by apply u8_of_byte_range.
  unfold u8_of_byte. by rewrite N2Z.id, Byte.of_to_N.
Qed.
Lemma u8_of_byte_of_u8 z : u8_of_byte (byte_of_u8 z) = z mod 256.
Proof.
  unfold byte_of_u8, u8_of_byte. pose proof (Z.mod_pos_bound z 256 eq_refl).
  destruct (Byte.of_N _) as [b|] eqn:E.
  - apply Byte.to_of_N in E. rewrite E. lia.
  - apply Byte.of_N_None_iff in E. lia.
Qed.
Lemma u8_of_byte_inj b b' : u8_of_byte b = u8_of_byte b' -> b = b'.
Proof. intros E. by rewrite <- (byte_of_u8_of_byte b), E, byte_of_u8_of_byte. Qed.
#[global] Instance byte_countable : Countable byte.
Proof. apply (inj_countable' Byte.to_N (fun n => default x00 (Byte.of_N n))). intros b. by rewrite Byte.of_to_N. Defined.

Lemma length_le_encode n z : length (le_encode n z) = n.
Proof. revert z. induction n; intros; cbn; auto. Qed.
Lemma le_decode_range l : 0 <= le_decode l < 256 ^ len l.
Proof.
  unfold len. induction l as [|b l IH]; [done|].
  cbn [le_decode length]. rewrite Nat2Z.inj_succ, Z.pow_succ_r by lia.
  pose proof (u8_of_byte_range b). nia.
Qed.
Lemma le_decode_encode n z : le_decode (le_encode n z) = z mod 256 ^ Z.of_nat n.
Proof.
  revert z. induction n as [|n IH]; intros z; [by rewrite Z.mod_1_r|].
  cbn [le_encode le_decode]. rewrite IH, u8_of_byte_of_u8, Nat2Z.inj_succ, Z.pow_succ_r by lia.
  rewrite Z.rem_mul_r by lia. done.
Qed.
Lemma le_encode_decode l : le_encode (length l) (le_decode l) = l.
Proof.
  induction l as [|b l IH]; [done|]. cbn [le_encode le_decode length].
  pose proof (u8_of_byte_range b).
  replace ((u8_of_byte b + 256 * le_decode l) / 256) with (le_decode l)
    by (Z.to_euclidean_division_equations; lia).
  rewrite IH. f_equal. transitivity (byte_of_u8 (u8_of_byte b)); [|apply byte_of_u8_of_byte].
  unfold byte_of_u8. by rewrite (Z.mul_comm 256), Z_mod_plus_full.
Qed.
Lemma le_encode_decode_n n l : length l = n -> le_encode n (le_decode l) = l.
Proof. intros <-. apply le_encode_decode. Qed.
Lemma le_decode_u64 l : length l = 8%nat -> u64_range (le_decode l).
Proof. intros Hl. pose proof (le_decode_range l) as R. unfold len in R. rewrite Hl in R. exact R. Qed.
Lemma u64_le_roundtrip z : u64_range z -> le_decode (u64_to_le_bytes z) = z.
Proof. intros R. unfold u64_to_le_bytes. rewrite le_decode_encode. by apply Z.mod_small. Qed.
Lemma u16_le_roundtrip z : u16_range z -> le_decode (u16_to_le_bytes z) = z.
Proof. intros R. unfold u16_to_le_bytes. rewrite le_decode_encode. by apply Z.mod_small. Qed.
Lemma byte_of_u8_roundtrip z : u8_range z -> u8_of_byte (byte_of_u8 z) = z.
Proof. intros R. rewrite u8_of_byte_of_u8. by apply Z.mod_small. Qed.

Lemma length_slice off n l : (off + n <= length l)%nat -> length (slice off n l) = n.
Proof. intros. unfold slice. rewrite length_take, length_drop. lia. Qed.
Lemma length_write_at off bs l : (off + length bs <= length l)%nat -> length (write_at off bs l) = length l.
Proof. intros. unfold write_at. rewrite !length_app, length_take, length_drop. lia. Qed.
Lemma slice_write_same off bs l n :
  length bs = n -> (off + n <= length l)%nat -> slice off n (write_at off bs l) = bs.
Proof.
  intros <- Hl. unfold slice, write_at.
  rewrite drop_app_length' by (rewrite length_take; lia). apply take_app_length.
Qed.
Lemma slice_write_before off bs l off' n :
  (off' + n <= off)%nat -> (off <= length l)%nat -> slice off' n (write_at off bs l) = slice off' n l.
Proof.
  intros. unfold slice, write_at. rewrite drop_app_le by (rewrite length_take; lia).
  rewrite take_app_le by (rewrite length_drop, length_take; lia).
  rewrite skipn_firstn_comm, take_take. f_equal. lia.
Qed.
Lemma slice_write_after off bs l off' n :
  (off + length bs <= off')%nat -> (off + length bs <= length l)%nat ->
  slice off' n (write_at off bs l) = slice off' n l.
Proof.
  intros. unfold slice, write_at. f_equal. rewrite app_assoc.
  rewrite drop_app_ge by (rewrite length_app, length_take; lia).
  rewrite drop_drop, length_app, length_take. f_equal. lia.
Qed.
Lemma slice_slice off n off' n' l : (off' + n' <= n)%nat -> slice off' n' (slice off n l) = slice (off + off') n' l.
Proof.
  intros. unfold slice. rewrite skipn_firstn_comm, take_take, drop_drop. f_equal. lia.
Qed.

Lemma length_array_refs sizes src : length (array_refs sizes src) = length sizes.
Proof. revert src. induction sizes; intros; cbn; auto. Qed.
Lemma concat_array_refs sizes src : length src = sum_list sizes -> concat (array_refs sizes src) = src.
Proof.
  revert src. induction sizes as [|n ns IH]; intros src; cbn.
  - by destruct src.
  - intros Hl. rewrite IH by (rewrite length_drop; lia). apply take_drop.
Qed.
Lemma array_refs_concat ls : array_refs (length <$> ls) (concat ls) = ls.
Proof. induction ls as [|l ls IH]; cbn; [done|]. by rewrite take_app_length, drop_app_length, IH. Qed.
Lemma array_refs_concat' sizes ls : length <$> ls = sizes -> array_refs sizes (concat ls) = ls.
Proof. intros <-. apply array_refs_concat. Qed.
Lemma array_refs_lengths sizes src :
  length src = sum_list sizes -> length <$> array_refs sizes src = sizes.
Proof.
  revert src. induction sizes as [|n ns IH]; intros src Hl; cbn in *; [done|].
  rewrite length_take, IH by (rewrite length_drop; lia). f_equal. lia.
Qed.

Lemma length_array_to_list n a : length (array_to_list n a) = n.
Proof. revert a. induction n; intros; cbn; auto. Qed.
Lemma array_of_to_list n a : array_of_list n (array_to_list n a) = a.
Proof. induction n as [|n IH]; destruct a; cbn; [done|]. by rewrite IH. Qed.
Lemma array_to_of_list n l : length l = n -> array_to_list n (array_of_list n l) = l.
Proof. revert l. induction n as [|n IH]; intros [|b l] [=]; cbn; [done|]. by rewrite IH. Qed.

Lemma length_to_bytes k : length (to_bytes k) = 32%nat.
Proof. apply length_array_to_list. Qed.
Lemma new_to_bytes k : new_from_array (to_bytes k) = k.
Proof. destruct k as [a]. unfold new_from_array, to_bytes. by rewrite (array_of_to_list 32). Qed.
Lemma to_bytes_new l : length l = 32%nat -> to_bytes (new_from_array l) = l.
Proof. intros. unfold new_from_array, to_bytes. by apply (array_to_of_list 32). Qed.
Lemma to_bytes_inj k k' : to_bytes k = to_bytes k' -> k = k'.
Proof. intros E. by rewrite <- (new_to_bytes k), E, new_to_bytes. Qed.
#[global] Instance Pubkey_eq_dec : EqDecision Pubkey.
Proof.
  refine (fun k k' => cast_if (decide (to_bytes k = to_bytes k'))); [by apply to_bytes_inj|congruence].
Defined.
#[global] Instance Pubkey_countable : Countable Pubkey.
Proof. apply (inj_countable' to_bytes new_from_array). apply new_to_bytes. Defined.
#[global] Instance Pubkey_inhabited : Inhabited Pubkey := populate default_pubkey.

#[global] Opaque bytes_n.
#[global] Arguments to_bytes : simpl never.
#[global] Arguments new_from_array : simpl never.
#[global] Arguments le_encode : simpl never.
#[global] Arguments u64_to_le_bytes : simpl never.
#[global] Arguments u16_to_le_bytes : simpl never.
#[global] Arguments le_decode : simpl never.
#[global] Arguments slice : simpl never.
#[global] Arguments write_at : simpl never.
#[global] Arguments len : simpl never.

Create Rewrite HintDb bytes.
#[export] Hint Rewrite length_to_bytes length_le_encode new_to_bytes u64_le_roundtrip
  byte_of_u8_roundtrip u16_le_roundtrip using done : bytes.
