(* ===== verification/Sdk.v ===== *)
(** * The interface to the Solana SDK and runtime

    Both programs are written against the [solana_program] crate and run by
    the Solana runtime; neither is in the repository.  This file models the
    crate's plain data types (errors, account cells, instructions) and
    collects every function of the crate the programs call as the operations
    of two type classes, [SolanaSdk] (pure library code) and [Runtime]
    (cross-program invocation).  What the programs rely on is stated as the
    laws [SolanaSdkLaws]: the documented behaviour of [next_account_info] and
    of the default methods of the [Pack] trait.

    Accounts live in one shared store addressed by key: two [AccountInfo]s
    with the same key alias the same lamports and data cells, as the runtime
    hands them to a program. *)
From S2P Require Import Prelude Machine.

(** ** Errors *)
(** the variants of [solana_program::program_error::ProgramError] *)
Inductive ProgramError :=
| Custom (code : Z)
| InvalidArgument
| InvalidInstructionData
| InvalidAccountData
| AccountDataTooSmall
| InsufficientFunds
| IncorrectProgramId
| MissingRequiredSignature
| AccountAlreadyInitialized
| UninitializedAccount
| NotEnoughAccountKeys
| AccountBorrowFailed
| MaxSeedLengthExceeded
| InvalidSeeds.
#[global] Instance ProgramError_eq_dec : EqDecision ProgramError.
Proof. solve_decision. Defined.

(** ** Accounts and the store *)
(** [AccountInfo]: the account's key and the transaction's view of it *)
Record AccountInfo := mk_info { key : Pubkey; is_signer : bool; is_writable : bool }.
(** the cells an [AccountInfo] points to *)
Record Cell := mk_cell { cell_lamports : Z; cell_data : list byte; cell_owner : Pubkey }.
#[global] Instance AccountInfo_eq_dec : EqDecision AccountInfo.
Proof. solve_decision. Defined.
#[global] Instance Cell_eq_dec : EqDecision Cell.
Proof. solve_decision. Defined.

Abbreviation Store := (gmap Pubkey Cell).
(** an address nobody funded: no lamports, no data, owned by the system program *)
Definition empty_cell : Cell := mk_cell 0 [] default_pubkey.
Definition get_cell (s : Store) (k : Pubkey) : Cell := default empty_cell (s !! k).

(** ** Instructions *)
Record AccountMeta := mk_meta { meta_pubkey : Pubkey; meta_is_signer : bool; meta_is_writable : bool }.
(** [AccountMeta::new] and [AccountMeta::new_readonly] *)
Definition meta_new (k : Pubkey) (signer : bool) : AccountMeta := mk_meta k signer true.
Definition meta_new_readonly (k : Pubkey) (signer : bool) : AccountMeta := mk_meta k signer false.
Record Instruction := mk_instruction {
  ix_program_id : Pubkey; ix_accounts : list AccountMeta; ix_data : list byte }.

(** ** The monad of the handlers *)
Abbreviation M := (stM Store ProgramError).
Abbreviation result := (outcome ProgramError).
(** [info.data.borrow()], [info.data_len()], [info.lamports()], [info.owner] *)
Definition borrow_data (i : AccountInfo) : M (list byte) := gets (fun s => cell_data (get_cell s (key i))).
Definition data_len (i : AccountInfo) : M Z := gets (fun s => len (cell_data (get_cell s (key i)))).
Definition lamports (i : AccountInfo) : M Z := gets (fun s => cell_lamports (get_cell s (key i))).
Definition owner_of (i : AccountInfo) : M Pubkey := gets (fun s => cell_owner (get_cell s (key i))).
Definition cell_of (i : AccountInfo) : M Cell := gets (fun s => get_cell s (key i)).
(** writes through [info.data.borrow_mut()] and [info.lamports.borrow_mut()] *)
Definition set_data (s : Store) (k : Pubkey) (d : list byte) : Store :=
  <[k := mk_cell (cell_lamports (get_cell s k)) d (cell_owner (get_cell s k))]> s.
Definition set_cell_lamports (s : Store) (k : Pubkey) (z : Z) : Store :=
  <[k := mk_cell z (cell_data (get_cell s k)) (cell_owner (get_cell s k))]> s.
Definition write_data (i : AccountInfo) (d : list byte) : M unit := modify (fun s => set_data s (key i) d).
Definition set_lamports (i : AccountInfo) (z : Z) : M unit := modify (fun s => set_cell_lamports s (key i) z).

(** ** The [Pack] trait *)
(** [Pack::LEN], the two required methods, and [IsInitialized] *)
Class Pack (T : Type) := {
  pack_LEN : nat;
  unpack_from_slice : list byte -> result T;
  pack_into_slice : T -> list byte -> result (list byte);
  pack_is_initialized : T -> bool;
}.
#[global] Arguments pack_LEN T {_}.

(** ** Sysvars *)
(** the field of [Clock] the programs read *)
Record Clock := mk_clock { epoch : Z }.
Record StakeHistoryEntry := mk_history_entry { effective : Z; activating : Z; deactivating : Z }.

(** ** The library operations *)
Class SolanaSdk := {
  (** [account_info::next_account_info] *)
  next_account_info : list AccountInfo -> result (AccountInfo * list AccountInfo);
  (** the provided methods of [Pack] *)
  pack_unpack : forall {T} `{Pack T}, list byte -> result T;
  pack_unpack_unchecked : forall {T} `{Pack T}, list byte -> result T;
  pack_pack : forall {T} `{Pack T}, T -> list byte -> result (list byte);
  (** the key [declare_id!] and [str::parse] make of a base-58 literal *)
  declare_id : string -> Pubkey;
  (** [Pubkey::create_program_address], [Pubkey::find_program_address] *)
  create_program_address : list (list byte) -> Pubkey -> option Pubkey;
  find_program_address : list (list byte) -> Pubkey -> Pubkey * Z;
  (** sysvars *)
  Rent : Type;
  StakeHistory : Type;
  clock_id : Pubkey;
  rent_id : Pubkey;
  stake_history_id : Pubkey;
  clock_from_account_info : AccountInfo -> Cell -> result Clock;
  rent_from_account_info : AccountInfo -> Cell -> result Rent;
  stake_history_from_account_info : AccountInfo -> Cell -> result StakeHistory;
  rent_is_exempt : Rent -> Z -> Z -> bool;
  rent_minimum_balance : Rent -> Z -> Z;
  stake_history_get : StakeHistory -> Z -> option StakeHistoryEntry;
  (** the system program *)
  system_program_id : Pubkey;
  system_create_account : Pubkey -> Pubkey -> Z -> Z -> Pubkey -> Instruction;
  (** [native_token::sol_to_lamports(1.0)] *)
  one_sol : Z;
}.

(** What the programs rely on. *)
Class SolanaSdkLaws (SDK : SolanaSdk) : Prop := {
  next_account_info_cons i l : next_account_info (i :: l) = Ok (i, l);
  next_account_info_nil : next_account_info [] = Err NotEnoughAccountKeys;
  pack_unpack_unchecked_spec {T} `{Pack T} (d : list byte) :
    pack_unpack_unchecked d =
      if decide (length d = pack_LEN T) then unpack_from_slice d else Err InvalidAccountData;
  pack_unpack_spec {T} `{Pack T} (d : list byte) :
    pack_unpack d =
      (v ← pack_unpack_unchecked d;
       if pack_is_initialized v then Ok v else Err UninitializedAccount);
  pack_pack_spec {T} `{Pack T} (v : T) (d : list byte) :
    pack_pack v d = if decide (length d = pack_LEN T) then pack_into_slice v d else Err InvalidAccountData;
  (** [Clock::epoch] is a [u64] *)
  clock_epoch_range i c clock : clock_from_account_info i c = Ok clock -> u64_range (epoch clock);
  (** [Rent::minimum_balance] is a [u64] *)
  rent_minimum_balance_range rent n : u64_range (rent_minimum_balance rent n);
  (** [system_instruction::create_account] addresses the system program *)
  system_create_account_program from to lam space owner :
    ix_program_id (system_create_account from to lam space owner) = system_program_id;
  (** [find_program_address] returns a [u8] bump with which
      [create_program_address] derives the same address *)
  find_program_address_bump seeds pid : u8_range (find_program_address seeds pid).2;
  find_program_address_create seeds pid k bump :
    find_program_address seeds pid = (k, bump) ->
    create_program_address (seeds ++ [[byte_of_u8 bump]]) pid = Some k;
}.

(** ** Cross-program invocation *)
Class Runtime := {
  invoke : Instruction -> list AccountInfo -> M unit;
  invoke_signed : Instruction -> list AccountInfo -> list (list (list byte)) -> M unit;
}.

(** every account's lamports are a [u64] *)
Definition store_wf (s : Store) : Prop := forall k, u64_range (cell_lamports (get_cell s k)).

(** What the program [program_id] relies on: lamports stay in range, and no
    other program changes the data or the owner of the accounts it owns. *)
Class RuntimeLaws (RT : Runtime) (program_id : Pubkey) : Prop := {
  invoke_wf ix infos s r s' : store_wf s -> invoke ix infos s = (r, s') -> store_wf s';
  invoke_signed_wf ix infos seeds s r s' :
    store_wf s -> invoke_signed ix infos seeds s = (r, s') -> store_wf s';
  invoke_frame ix infos s r s' k :
    ix_program_id ix <> program_id -> cell_owner (get_cell s k) = program_id ->
    invoke ix infos s = (r, s') ->
    cell_data (get_cell s' k) = cell_data (get_cell s k) /\ cell_owner (get_cell s' k) = program_id;
  invoke_signed_frame ix infos seeds s r s' k :
    ix_program_id ix <> program_id -> cell_owner (get_cell s k) = program_id ->
    invoke_signed ix infos seeds s = (r, s') ->
    cell_data (get_cell s' k) = cell_data (get_cell s k) /\ cell_owner (get_cell s' k) = program_id;
}.

Section SysvarReads.
Context `{SDK : SolanaSdk}.
(** [next_account_info(iter)?] *)
Definition next_info (it : list AccountInfo) : M (AccountInfo * list AccountInfo) :=
  lift (next_account_info it).
Definition read_clock (i : AccountInfo) : M Clock := c ← cell_of i; lift (clock_from_account_info i c).
Definition read_rent (i : AccountInfo) : M Rent := c ← cell_of i; lift (rent_from_account_info i c).
Definition read_stake_history (i : AccountInfo) : M StakeHistory :=
  c ← cell_of i; lift (stake_history_from_account_info i c).
End SysvarReads.

(** * Lemmas *)
Lemma get_cell_set_data s k d k' :
  get_cell (set_data s k d) k' =
    if decide (k = k') then mk_cell (cell_lamports (get_cell s k)) d (cell_owner (get_cell s k))
    else get_cell s k'.
Proof.
  unfold set_data. unfold get_cell at 1. rewrite lookup_insert.
  case_decide; subst; done.
Qed.
Lemma get_cell_set_lamports s k z k' :
  get_cell (set_cell_lamports s k z) k' =
    if decide (k = k') then mk_cell z (cell_data (get_cell s k)) (cell_owner (get_cell s k))
    else get_cell s k'.
Proof.
  unfold set_cell_lamports. unfold get_cell at 1. rewrite lookup_insert.
  case_decide; subst; done.
Qed.
Lemma data_set_data s k d k' :
  cell_data (get_cell (set_data s k d) k') = if decide (k = k') then d else cell_data (get_cell s k').
Proof. rewrite get_cell_set_data. by case_decide. Qed.
Lemma lamports_set_data s k d k' :
  cell_lamports (get_cell (set_data s k d) k') = cell_lamports (get_cell s k').
Proof. rewrite get_cell_set_data. case_decide; by subst. Qed.
Lemma owner_set_data s k d k' : cell_owner (get_cell (set_data s k d) k') = cell_owner (get_cell s k').
Proof. rewrite get_cell_set_data. case_decide; by subst. Qed.
Lemma data_set_lamports s k z k' :
  cell_data (get_cell (set_cell_lamports s k z) k') = cell_data (get_cell s k').
Proof. rewrite get_cell_set_lamports. case_decide; by subst. Qed.
Lemma owner_set_lamports s k z k' :
  cell_owner (get_cell (set_cell_lamports s k z) k') = cell_owner (get_cell s k').
Proof. rewrite get_cell_set_lamports. case_decide; by subst. Qed.
Lemma lamports_set_lamports s k z k' :
  cell_lamports (get_cell (set_cell_lamports s k z) k') =
    if decide (k = k') then z else cell_lamports (get_cell s k').
Proof. rewrite get_cell_set_lamports. by case_decide. Qed.

Section SdkLemmas.
Context `{SDK : SolanaSdk} {LAWS : SolanaSdkLaws SDK}.
Lemma next_account_info_Ok l i l' : next_account_info l = Ok (i, l') <-> l = i :: l'.
Proof.
  destruct l as [|j l]; [rewrite next_account_info_nil|rewrite next_account_info_cons];
    split; [done|done|by intros [= -> ->]|by intros [= -> ->]].
Qed.
Lemma next_info_Ok l s i l' s' : next_info l s = (Ok (i, l'), s') <-> l = i :: l' /\ s = s'.
Proof. unfold next_info. by rewrite lift_Ok, next_account_info_Ok. Qed.
Lemma next_info_run i l s : next_info (i :: l) s = (Ok (i, l), s).
Proof. unfold next_info, lift. by rewrite next_account_info_cons. Qed.
Lemma pack_unpack_unchecked_Ok {T} `{Pack T} d (v : T) :
  pack_unpack_unchecked d = Ok v <-> length d = pack_LEN T /\ unpack_from_slice d = Ok v.
Proof. rewrite pack_unpack_unchecked_spec. case_decide; naive_solver. Qed.
Lemma pack_unpack_Ok {T} `{Pack T} d (v : T) :
  pack_unpack d = Ok v <->
    length d = pack_LEN T /\ unpack_from_slice d = Ok v /\ pack_is_initialized v = true.
Proof.
  rewrite pack_unpack_spec, outcome_bind_Ok. setoid_rewrite pack_unpack_unchecked_Ok.
  split; [intros (a & [? ?] & E); destruct (pack_is_initialized a) eqn:?; naive_solver|].
  intros (? & ? & E). exists v. by rewrite E.
Qed.
Lemma pack_pack_Ok {T} `{Pack T} (v : T) d d' :
  pack_pack v d = Ok d' <-> length d = pack_LEN T /\ pack_into_slice v d = Ok d'.
Proof. rewrite pack_pack_spec. case_decide; naive_solver. Qed.
End SdkLemmas.
