(* ===== verification/TokenInstruction.v ===== *)
(** * The token program's errors and instructions

    Models [token/program/src/error.rs] and [token/program/src/instruction.rs]:
    the error enum and its codes, the instruction enum, its byte codec
    ([token_unpack], [token_pack]) and the client-side constructors. *)
From S2P Require Import Prelude Machine Sdk.

(** ** Errors (error.rs) *)
Inductive TokenError :=
| NotRentExempt | TokenInsufficientFunds | InvalidMint | MintMismatch | OwnerMismatch
| FixedSupply | TokenAlreadyInUse | InvalidNumberOfProvidedSigners
| InvalidNumberOfRequiredSigners | UninitializedState | NativeNotSupported
| NonNativeHasBalance | InvalidInstruction | TokenInvalidState | Overflow
| AuthorityTypeNotSupported | MintCannotFreeze | AccountFrozen | MintDecimalsMismatch.
(** [e as u32] *)
Definition token_error_code (e : TokenError) : Z :=
  match e with
  | NotRentExempt => 0 | TokenInsufficientFunds => 1 | InvalidMint => 2 | MintMismatch => 3
  | OwnerMismatch => 4 | FixedSupply => 5 | TokenAlreadyInUse => 6
  | InvalidNumberOfProvidedSigners => 7 | InvalidNumberOfRequiredSigners => 8
  | UninitializedState => 9 | NativeNotSupported => 10 | NonNativeHasBalance => 11
  | InvalidInstruction => 12 | TokenInvalidState => 13 | Overflow => 14
  | AuthorityTypeNotSupported => 15 | MintCannotFreeze => 16 | AccountFrozen => 17
  | MintDecimalsMismatch => 18
  end.
(** [impl From<TokenError> for ProgramError] *)
Definition token_err (e : TokenError) : ProgramError := Custom (token_error_code e).

(** ** Instructions (instruction.rs) *)
Definition MIN_SIGNERS : nat := 1.
Definition MAX_SIGNERS : nat := 11.

Inductive AuthorityType := MintTokens | FreezeAccountAuthority | AccountOwner | CloseAccountAuthority.
Definition authority_type_into (a : AuthorityType) : Z :=
  match a with MintTokens => 0 | FreezeAccountAuthority => 1 | AccountOwner => 2 | CloseAccountAuthority => 3 end.
Definition authority_type_from (index : Z) : result AuthorityType :=
  if index =? 0 then Ok MintTokens
  else if index =? 1 then Ok FreezeAccountAuthority
  else if index =? 2 then Ok AccountOwner
  else if index =? 3 then Ok CloseAccountAuthority
  else Err (token_err InvalidInstruction).

Inductive TokenInstruction :=
| InitializeMint (decimals : Z) (mint_authority : Pubkey) (freeze_authority : option Pubkey)
| InitializeAccount
| InitializeMultisig (m : Z)
| Transfer (amount : Z)
| Approve (amount : Z)
| Revoke
| SetAuthority (authority_type : AuthorityType) (new_authority : option Pubkey)
| MintTo (amount : Z)
| Burn (amount : Z)
| CloseAccount
| FreezeAccount
| ThawAccount
| TransferChecked (amount decimals : Z)
| ApproveChecked (amount decimals : Z)
| MintToChecked (amount decimals : Z)
| BurnChecked (amount decimals : Z)
| InitializeAccount2 (owner : Pubkey).

(** [slice.split_first()] *)
Definition split_first (l : list byte) : option (Z * list byte) :=
  match l with [] => None | b :: l' => Some (u8_of_byte b, l') end.
(** [slice.split_at(n)], which panics past the end *)
Definition split_at (n : nat) (l : list byte) : result (list byte * list byte) :=
  if (n <=? length l)%nat then Ok (take n l, drop n l) else Panic.

Definition unpack_pubkey (input : list byte) : result (Pubkey * list byte) :=
  if (32 <=? length input)%nat then
    '(k, rest) ← split_at 32 input; Ok (new_from_array k, rest)
  else Err (token_err InvalidInstruction).

Definition unpack_pubkey_option (input : list byte) : result (option Pubkey * list byte) :=
  match split_first input with
  | Some (t, rest) =>
      if t =? 0 then Ok (None, rest)
      else if (t =? 1) && (32 <=? length rest)%nat then
        '(k, rest) ← split_at 32 rest; Ok (Some (new_from_array k), rest)
      else Err (token_err InvalidInstruction)
  | None => Err (token_err InvalidInstruction)
  end.

(** [rest.get(..8)] read as a little-endian [u64] *)
Definition unpack_amount (rest : list byte) : result Z :=
  if (8 <=? length rest)%nat then Ok (le_decode (take 8 rest)) else Err (token_err InvalidInstruction).
(** the amount and decimals of the [Checked] variants: [rest.split_at(8)] *)
Definition unpack_amount_decimals (rest : list byte) : result (Z * Z) :=
  '(amount, rest) ← split_at 8 rest;
  '(decimals, _) ← ok_or (token_err InvalidInstruction) (split_first rest);
  Ok (le_decode amount, decimals).

Definition token_unpack (input : list byte) : result TokenInstruction :=
  '(tag, rest) ← ok_or (token_err InvalidInstruction) (split_first input);
  match tag with
  | 0 =>
      '(decimals, rest) ← ok_or (token_err InvalidInstruction) (split_first rest);
      '(mint_authority, rest) ← unpack_pubkey rest;
      '(freeze_authority, _) ← unpack_pubkey_option rest;
      Ok (InitializeMint decimals mint_authority freeze_authority)
  | 1 => Ok InitializeAccount
  | 2 => '(m, _) ← ok_or (token_err InvalidInstruction) (split_first rest); Ok (InitializeMultisig m)
  | 3 => Transfer <$> unpack_amount rest
  | 4 => Approve <$> unpack_amount rest
  | 5 => Ok Revoke
  | 6 =>
      '(t, rest) ← ok_or (token_err InvalidInstruction) (split_first rest);
      authority_type ← authority_type_from t;
      '(new_authority, _) ← unpack_pubkey_option rest;
      Ok (SetAuthority authority_type new_authority)
  | 7 => MintTo <$> unpack_amount rest
  | 8 => Burn <$> unpack_amount rest
  | 9 => Ok CloseAccount
  | 10 => Ok FreezeAccount
  | 11 => Ok ThawAccount
  | 12 => '(amount, decimals) ← unpack_amount_decimals rest; Ok (TransferChecked amount decimals)
  | 13 => '(amount, decimals) ← unpack_amount_decimals rest; Ok (ApproveChecked amount decimals)
  | 14 => '(amount, decimals) ← unpack_amount_decimals rest; Ok (MintToChecked amount decimals)
  | 15 => '(amount, decimals) ← unpack_amount_decimals rest; Ok (BurnChecked amount decimals)
  | 16 => '(owner, _) ← unpack_pubkey rest; Ok (InitializeAccount2 owner)
  | _ => Err (token_err InvalidInstruction)
  end.

Definition pack_pubkey_option (value : option Pubkey) : list byte :=
  match value with Some k => x01 :: to_bytes k | None => [x00] end.

Definition token_pack (i : TokenInstruction) : list byte :=
  match i with
  | InitializeMint decimals mint_authority freeze_authority =>
      byte_of_u8 0 :: byte_of_u8 decimals :: to_bytes mint_authority ++ pack_pubkey_option freeze_authority
  | InitializeAccount => [byte_of_u8 1]
  | InitializeMultisig m => [byte_of_u8 2; byte_of_u8 m]
  | Transfer amount => byte_of_u8 3 :: u64_to_le_bytes amount
  | Approve amount => byte_of_u8 4 :: u64_to_le_bytes amount
  | MintTo amount => byte_of_u8 7 :: u64_to_le_bytes amount
  | Burn amount => byte_of_u8 8 :: u64_to_le_bytes amount
  | Revoke => [byte_of_u8 5]
  | SetAuthority authority_type new_authority =>
      byte_of_u8 6 :: byte_of_u8 (authority_type_into authority_type) :: pack_pubkey_option new_authority
  | CloseAccount => [byte_of_u8 9]
  | FreezeAccount => [byte_of_u8 10]
  | ThawAccount => [byte_of_u8 11]
  | TransferChecked amount decimals => byte_of_u8 12 :: u64_to_le_bytes amount ++ [byte_of_u8 decimals]
  | ApproveChecked amount decimals => byte_of_u8 13 :: u64_to_le_bytes amount ++ [byte_of_u8 decimals]
  | MintToChecked amount decimals => byte_of_u8 14 :: u64_to_le_bytes amount ++ [byte_of_u8 decimals]
  | BurnChecked amount decimals => byte_of_u8 15 :: u64_to_le_bytes amount ++ [byte_of_u8 decimals]
  | InitializeAccount2 owner => byte_of_u8 16 :: to_bytes owner
  end.

(** [(MIN_SIGNERS..=MAX_SIGNERS).contains(&index)] *)
Definition is_valid_signer_index (index : Z) : bool :=
  (Z.of_nat MIN_SIGNERS <=? index) && (index <=? Z.of_nat MAX_SIGNERS).

(** ** Client-side constructors *)
Section Builders.
Context `{SDK : SolanaSdk}.
Implicit Types (token_program_id : Pubkey) (signer_pubkeys : list Pubkey).

Definition signer_metas signer_pubkeys : list AccountMeta :=
  (fun k => meta_new_readonly k true) <$> signer_pubkeys.
Definition no_signers signer_pubkeys : bool := bool_decide (signer_pubkeys = []).

Definition initialize_mint token_program_id (mint_pubkey mint_authority_pubkey : Pubkey)
    (freeze_authority_pubkey : option Pubkey) (decimals : Z) : result Instruction :=
  let data := token_pack (InitializeMint decimals mint_authority_pubkey freeze_authority_pubkey) in
  let accounts := [meta_new mint_pubkey false; meta_new_readonly rent_id false] in
  Ok (mk_instruction token_program_id accounts data).

Definition initialize_account token_program_id (account_pubkey mint_pubkey owner_pubkey : Pubkey) :
    result Instruction :=
  let data := token_pack InitializeAccount in
  let accounts := [meta_new account_pubkey false; meta_new_readonly mint_pubkey false;
                   meta_new_readonly owner_pubkey false; meta_new_readonly rent_id false] in
  Ok (mk_instruction token_program_id accounts data).

Definition initialize_account2 token_program_id (account_pubkey mint_pubkey owner_pubkey : Pubkey) :
    result Instruction :=
  let data := token_pack (InitializeAccount2 owner_pubkey) in
  let accounts := [meta_new account_pubkey false; meta_new_readonly mint_pubkey false;
                   meta_new_readonly rent_id false] in
  Ok (mk_instruction token_program_id accounts data).

Definition initialize_multisig token_program_id (multisig_pubkey : Pubkey) signer_pubkeys (m : Z) :
    result Instruction :=
  if negb (is_valid_signer_index m) || negb (is_valid_signer_index (len signer_pubkeys))
     || (len signer_pubkeys <? m)
  then Err MissingRequiredSignature
  else
    let data := token_pack (InitializeMultisig m) in
    let accounts := meta_new multisig_pubkey false :: meta_new_readonly rent_id false ::
      ((fun k => meta_new_readonly k false) <$> signer_pubkeys) in
    Ok (mk_instruction token_program_id accounts data).

Definition transfer token_program_id (source_pubkey destination_pubkey authority_pubkey : Pubkey)
    signer_pubkeys (amount : Z) : result Instruction :=
  let data := token_pack (Transfer amount) in
  let accounts := [meta_new source_pubkey false; meta_new destination_pubkey false;
                   meta_new_readonly authority_pubkey (no_signers signer_pubkeys)]
                  ++ signer_metas signer_pubkeys in
  Ok (mk_instruction token_program_id accounts data).

Definition approve token_program_id (source_pubkey delegate_pubkey owner_pubkey : Pubkey)
    signer_pubkeys (amount : Z) : result Instruction :=
  let data := token_pack (Approve amount) in
  let accounts := [meta_new source_pubkey false; meta_new_readonly delegate_pubkey false;
                   meta_new_readonly owner_pubkey (no_signers signer_pubkeys)]
                  ++ signer_metas signer_pubkeys in
  Ok (mk_instruction token_program_id accounts data).

Definition revoke token_program_id (source_pubkey owner_pubkey : Pubkey) signer_pubkeys :
    result Instruction :=
  let data := token_pack Revoke in
  let accounts := [meta_new source_pubkey false;
                   meta_new_readonly owner_pubkey (no_signers signer_pubkeys)]
                  ++ signer_metas signer_pubkeys in
  Ok (mk_instruction token_program_id accounts data).

Definition set_authority token_program_id (owned_pubkey : Pubkey) (new_authority_pubkey : option Pubkey)
    (authority_type : AuthorityType) (owner_pubkey : Pubkey) signer_pubkeys : result Instruction :=
  let data := token_pack (SetAuthority authority_type new_authority_pubkey) in
  let accounts := [meta_new owned_pubkey false;
                   meta_new_readonly owner_pubkey (no_signers signer_pubkeys)]
                  ++ signer_metas signer_pubkeys in
  Ok (mk_instruction token_program_id accounts data).

Definition mint_to token_program_id (mint_pubkey account_pubkey owner_pubkey : Pubkey)
    signer_pubkeys (amount : Z) : result Instruction :=
  let data := token_pack (MintTo amount) in
  let accounts := [meta_new mint_pubkey false; meta_new account_pubkey false;
                   meta_new_readonly owner_pubkey (no_signers signer_pubkeys)]
                  ++ signer_metas signer_pubkeys in
  Ok (mk_instruction token_program_id accounts data).

Definition burn token_program_id (account_pubkey mint_pubkey authority_pubkey : Pubkey)
    signer_pubkeys (amount : Z) : result Instruction :=
  let data := token_pack (Burn amount) in
  let accounts := [meta_new account_pubkey false; meta_new mint_pubkey false;
                   meta_new_readonly authority_pubkey (no_signers signer_pubkeys)]
                  ++ signer_metas signer_pubkeys in
  Ok (mk_instruction token_program_id accounts data).

Definition close_account token_program_id (account_pubkey destination_pubkey owner_pubkey : Pubkey)
    signer_pubkeys : result Instruction :=
  let data := token_pack CloseAccount in
  let accounts := [meta_new account_pubkey false; meta_new destination_pubkey false;
                   meta_new_readonly owner_pubkey (no_signers signer_pubkeys)]
                  ++ signer_metas signer_pubkeys in
  Ok (mk_instruction token_program_id accounts data).

Definition freeze_account token_program_id (account_pubkey mint_pubkey owner_pubkey : Pubkey)
    signer_pubkeys : result Instruction :=
  let data := token_pack FreezeAccount in
  let accounts := [meta_new account_pubkey false; meta_new_readonly mint_pubkey false;
                   meta_new_readonly owner_pubkey (no_signers signer_pubkeys)]
                  ++ signer_metas signer_pubkeys in
  Ok (mk_instruction token_program_id accounts data).

Definition thaw_account token_program_id (account_pubkey mint_pubkey owner_pubkey : Pubkey)
    signer_pubkeys : result Instruction :=
  let data := token_pack ThawAccount in
  let accounts := [meta_new account_pubkey false; meta_new_readonly mint_pubkey false;
                   meta_new_readonly owner_pubkey (no_signers signer_pubkeys)]
                  ++ signer_metas signer_pubkeys in
  Ok (mk_instruction token_program_id accounts data).

Definition transfer_checked token_program_id
    (source_pubkey mint_pubkey destination_pubkey authority_pubkey : Pubkey)
    signer_pubkeys (amount decimals : Z) : result Instruction :=
  let data := token_pack (TransferChecked amount decimals) in
  let accounts := [meta_new source_pubkey false; meta_new_readonly mint_pubkey false;
                   meta_new destination_pubkey false;
                   meta_new_readonly authority_pubkey (no_signers signer_pubkeys)]
                  ++ signer_metas signer_pubkeys in
  Ok (mk_instruction token_program_id accounts data).

Definition approve_checked token_program_id
    (source_pubkey mint_pubkey delegate_pubkey owner_pubkey : Pubkey)
    signer_pubkeys (amount decimals : Z) : result Instruction :=
  let data := token_pack (ApproveChecked amount decimals) in
  let accounts := [meta_new source_pubkey false; meta_new_readonly mint_pubkey false;
                   meta_new_readonly delegate_pubkey false;
                   meta_new_readonly owner_pubkey (no_signers signer_pubkeys)]
                  ++ signer_metas signer_pubkeys in
  Ok (mk_instruction token_program_id accounts data).

Definition mint_to_checked token_program_id (mint_pubkey account_pubkey owner_pubkey : Pubkey)
    signer_pubkeys (amount decimals : Z) : result Instruction :=
  let data := token_pack (MintToChecked amount decimals) in
  let accounts := [meta_new mint_pubkey false; meta_new account_pubkey false;
                   meta_new_readonly owner_pubkey (no_signers signer_pubkeys)]
                  ++ signer_metas signer_pubkeys in
  Ok (mk_instruction token_program_id accounts data).

Definition burn_checked token_program_id (account_pubkey mint_pubkey authority_pubkey : Pubkey)
    signer_pubkeys (amount decimals : Z) : result Instruction :=
  let data := token_pack (BurnChecked amount decimals) in
  let accounts := [meta_new account_pubkey false; meta_new mint_pubkey false;
                   meta_new_readonly authority_pubkey (no_signers signer_pubkeys)]
                  ++ signer_metas signer_pubkeys in
  Ok (mk_instruction token_program_id accounts data).
End Builders.
