(* ===== verification/TokenState.v ===== *)
(** * The token program's account state

    Models [token/program/src/state.rs]: mints, token accounts and multisig
    accounts and their fixed byte layouts (the [Pack] implementations). *)
From S2P Require Import Prelude Machine Sdk TokenInstruction.

(** ** Data *)
Record Mint := mk_mint {
  mint_authority : option Pubkey;
  mint_supply : Z;
  mint_decimals : Z;
  mint_is_initialized : bool;
  mint_freeze_authority : option Pubkey;
}.

Inductive AccountState := Uninitialized | Initialized | Frozen.

Record Account := mk_account {
  acc_mint : Pubkey;
  acc_owner : Pubkey;
  acc_amount : Z;
  acc_delegate : option Pubkey;
  acc_state : AccountState;
  acc_is_native : option Z;
  acc_delegated_amount : Z;
  acc_close_authority : option Pubkey;
}.

Record Multisig := mk_multisig {
  ms_m : Z;
  ms_n : Z;
  ms_is_initialized : bool;
  ms_signers : list Pubkey;
}.
#[global] Instance AccountState_eq_dec : EqDecision AccountState.
Proof. solve_decision. Defined.
#[global] Instance Mint_eq_dec : EqDecision Mint.
Proof. solve_decision. Defined.
#[global] Instance Account_eq_dec : EqDecision Account.
Proof. solve_decision. Defined.
#[global] Instance Multisig_eq_dec : EqDecision Multisig.
Proof. solve_decision. Defined.

Definition is_frozen (a : Account) : bool := bool_decide (acc_state a = Frozen).
Definition is_native (a : Account) : bool := bool_decide (is_Some (acc_is_native a)).
Definition account_is_initialized (a : Account) : bool := negb (bool_decide (acc_state a = Uninitialized)).

(** ** Field assignment: [account.field = v] and [mint.field = v] *)
Definition set_acc_mint v (a : Account) : Account := mk_account v (acc_owner a) (acc_amount a) (acc_delegate a) (acc_state a) (acc_is_native a) (acc_delegated_amount a) (acc_close_authority a).
Definition set_acc_owner v (a : Account) : Account := mk_account (acc_mint a) v (acc_amount a) (acc_delegate a) (acc_state a) (acc_is_native a) (acc_delegated_amount a) (acc_close_authority a).
Definition set_acc_amount v (a : Account) : Account := mk_account (acc_mint a) (acc_owner a) v (acc_delegate a) (acc_state a) (acc_is_native a) (acc_delegated_amount a) (acc_close_authority a).
Definition set_acc_delegate v (a : Account) : Account := mk_account (acc_mint a) (acc_owner a) (acc_amount a) v (acc_state a) (acc_is_native a) (acc_delegated_amount a) (acc_close_authority a).
Definition set_acc_state v (a : Account) : Account := mk_account (acc_mint a) (acc_owner a) (acc_amount a) (acc_delegate a) v (acc_is_native a) (acc_delegated_amount a) (acc_close_authority a).
Definition set_acc_is_native v (a : Account) : Account := mk_account (acc_mint a) (acc_owner a) (acc_amount a) (acc_delegate a) (acc_state a) v (acc_delegated_amount a) (acc_close_authority a).
Definition set_acc_delegated_amount v (a : Account) : Account := mk_account (acc_mint a) (acc_owner a) (acc_amount a) (acc_delegate a) (acc_state a) (acc_is_native a) v (acc_close_authority a).
Definition set_acc_close_authority v (a : Account) : Account := mk_account (acc_mint a) (acc_owner a) (acc_amount a) (acc_delegate a) (acc_state a) (acc_is_native a) (acc_delegated_amount a) v.
Definition set_mint_authority v (a : Mint) : Mint := mk_mint v (mint_supply a) (mint_decimals a) (mint_is_initialized a) (mint_freeze_authority a).
Definition set_mint_supply v (a : Mint) : Mint := mk_mint (mint_authority a) v (mint_decimals a) (mint_is_initialized a) (mint_freeze_authority a).
Definition set_mint_decimals v (a : Mint) : Mint := mk_mint (mint_authority a) (mint_supply a) v (mint_is_initialized a) (mint_freeze_authority a).
Definition set_mint_is_initialized v (a : Mint) : Mint := mk_mint (mint_authority a) (mint_supply a) (mint_decimals a) v (mint_freeze_authority a).
Definition set_mint_freeze_authority v (a : Mint) : Mint := mk_mint (mint_authority a) (mint_supply a) (mint_decimals a) (mint_is_initialized a) v.
Definition set_ms_m v (a : Multisig) : Multisig := mk_multisig v (ms_n a) (ms_is_initialized a) (ms_signers a).
Definition set_ms_n v (a : Multisig) : Multisig := mk_multisig (ms_m a) v (ms_is_initialized a) (ms_signers a).
Definition set_ms_is_initialized v (a : Multisig) : Multisig := mk_multisig (ms_m a) (ms_n a) v (ms_signers a).
Definition set_ms_signers v (a : Multisig) : Multisig := mk_multisig (ms_m a) (ms_n a) (ms_is_initialized a) v.

(** [AccountState as u8] and [AccountState::try_from_primitive] *)
Definition account_state_to_u8 (st : AccountState) : Z :=
  match st with Uninitialized => 0 | Initialized => 1 | Frozen => 2 end.
Definition account_state_try_from (z : Z) : option AccountState :=
  match z with 0 => Some Uninitialized | 1 => Some Initialized | 2 => Some Frozen | _ => None end.

(** ** Field codecs *)
Definition tag_none : list byte := [x00; x00; x00; x00].
Definition tag_some : list byte := [x01; x00; x00; x00].
(** [dst] is the 36-byte destination: [None] leaves the body as it is *)
Definition pack_coption_key (src : option Pubkey) (dst : list byte) : list byte :=
  match src with
  | Some k => tag_some ++ to_bytes k
  | None => tag_none ++ drop 4 dst
  end.
Definition unpack_coption_key (src : list byte) : result (option Pubkey) :=
  if decide (take 4 src = tag_none) then Ok None
  else if decide (take 4 src = tag_some) then Ok (Some (new_from_array (drop 4 src)))
  else Err InvalidAccountData.
Definition pack_coption_u64 (src : option Z) (dst : list byte) : list byte :=
  match src with
  | Some amount => tag_some ++ u64_to_le_bytes amount
  | None => tag_none ++ drop 4 dst
  end.
Definition unpack_coption_u64 (src : list byte) : result (option Z) :=
  if decide (take 4 src = tag_none) then Ok None
  else if decide (take 4 src = tag_some) then Ok (Some (le_decode (drop 4 src)))
  else Err InvalidAccountData.
(** a boolean byte: [[0] => false, [1] => true, _ => error] *)
Definition unpack_bool (src : list byte) : result bool :=
  if decide (src = [x00]) then Ok false
  else if decide (src = [x01]) then Ok true
  else Err InvalidAccountData.

(** ** [impl Pack for Mint] *)
Definition MINT_LEN : nat := 82.
Definition mint_sizes : list nat := [36; 8; 1; 1; 36]%nat.
Definition mint_unpack_from_slice (src : list byte) : result Mint :=
  src ← array_ref MINT_LEN src;
  match array_refs mint_sizes src with
  | [mint_authority; supply; decimals; is_initialized; freeze_authority] =>
      mint_authority ← unpack_coption_key mint_authority;
      is_initialized ← unpack_bool is_initialized;
      freeze_authority ← unpack_coption_key freeze_authority;
      Ok (mk_mint mint_authority (le_decode supply) (le_decode decimals) is_initialized freeze_authority)
  | _ => Panic
  end.
Definition mint_pack_into_slice (m : Mint) (dst : list byte) : result (list byte) :=
  dst' ← array_ref MINT_LEN dst;
  match array_refs mint_sizes dst' with
  | [mint_authority_dst; _; _; _; freeze_authority_dst] =>
      Ok (concat [pack_coption_key (mint_authority m) mint_authority_dst;
                  u64_to_le_bytes (mint_supply m);
                  [byte_of_u8 (mint_decimals m)];
                  [byte_of_bool (mint_is_initialized m)];
                  pack_coption_key (mint_freeze_authority m) freeze_authority_dst]
          ++ drop MINT_LEN dst)
  | _ => Panic
  end.

(** ** [impl Pack for Account] *)
Definition ACCOUNT_LEN : nat := 165.
Definition account_sizes : list nat := [32; 32; 8; 36; 1; 12; 8; 36]%nat.
Definition account_unpack_from_slice (src : list byte) : result Account :=
  src ← array_ref ACCOUNT_LEN src;
  match array_refs account_sizes src with
  | [mint; owner; amount; delegate; state; is_native; delegated_amount; close_authority] =>
      delegate ← unpack_coption_key delegate;
      state ← ok_or InvalidAccountData (account_state_try_from (le_decode state));
      is_native ← unpack_coption_u64 is_native;
      close_authority ← unpack_coption_key close_authority;
      Ok (mk_account (new_from_array mint) (new_from_array owner) (le_decode amount) delegate state
            is_native (le_decode delegated_amount) close_authority)
  | _ => Panic
  end.
Definition account_pack_into_slice (a : Account) (dst : list byte) : result (list byte) :=
  dst' ← array_ref ACCOUNT_LEN dst;
  match array_refs account_sizes dst' with
  | [_; _; _; delegate_dst; _; is_native_dst; _; close_authority_dst] =>
      Ok (concat [to_bytes (acc_mint a);
                  to_bytes (acc_owner a);
                  u64_to_le_bytes (acc_amount a);
                  pack_coption_key (acc_delegate a) delegate_dst;
                  [byte_of_u8 (account_state_to_u8 (acc_state a))];
                  pack_coption_u64 (acc_is_native a) is_native_dst;
                  u64_to_le_bytes (acc_delegated_amount a);
                  pack_coption_key (acc_close_authority a) close_authority_dst]
          ++ drop ACCOUNT_LEN dst)
  | _ => Panic
  end.

(** ** [impl Pack for Multisig] *)
Definition MULTISIG_LEN : nat := 355.
Definition signer_sizes : list nat := replicate MAX_SIGNERS 32%nat.
Definition multisig_sizes : list nat := ([1; 1; 1] ++ signer_sizes)%nat.
Definition multisig_unpack_from_slice (src : list byte) : result Multisig :=
  src ← array_ref MULTISIG_LEN src;
  match array_refs multisig_sizes src with
  | m :: n :: is_initialized :: signers_flat =>
      is_initialized ← unpack_bool is_initialized;
      Ok (mk_multisig (le_decode m) (le_decode n) is_initialized (new_from_array <$> signers_flat))
  | _ => Panic
  end.
Definition multisig_pack_into_slice (ms : Multisig) (dst : list byte) : result (list byte) :=
  _ ← array_ref MULTISIG_LEN dst;
  Ok (concat ([byte_of_u8 (ms_m ms)] :: [byte_of_u8 (ms_n ms)] :: [byte_of_bool (ms_is_initialized ms)]
              :: (to_bytes <$> ms_signers ms))
      ++ drop MULTISIG_LEN dst).

#[global] Instance Mint_Pack : Pack Mint := {|
  pack_LEN := MINT_LEN; unpack_from_slice := mint_unpack_from_slice;
  pack_into_slice := mint_pack_into_slice; pack_is_initialized := mint_is_initialized |}.
#[global] Instance Account_Pack : Pack Account := {|
  pack_LEN := ACCOUNT_LEN; unpack_from_slice := account_unpack_from_slice;
  pack_into_slice := account_pack_into_slice; pack_is_initialized := account_is_initialized |}.
#[global] Instance Multisig_Pack : Pack Multisig := {|
  pack_LEN := MULTISIG_LEN; unpack_from_slice := multisig_unpack_from_slice;
  pack_into_slice := multisig_pack_into_slice; pack_is_initialized := ms_is_initialized |}.
