(* ===== verification/TokenProcessor.v ===== *)
(** * The token program's instruction processor

    Models [token/program/src/processor.rs] and [native_mint.rs]: one
    definition per handler, in the order of the source, the owner check
    [validate_owner] and the dispatcher [token_process]. *)
From S2P Require Import Prelude Machine Sdk TokenInstruction TokenState.

Section TokenProcessor.
Context `{SDK : SolanaSdk}.
Implicit Types (program_id : Pubkey) (accounts : list AccountInfo).

(** [spl_token::id()] and [native_mint::id()] *)
Definition spl_token_id : Pubkey := declare_id "TokenkegQfeZyiNwAJbNbGKPFXCWuBvf9Ss623VQ5DA".
Definition native_mint_id : Pubkey := declare_id "So11111111111111111111111111111111111111112".

(** [T::unpack(&info.data.borrow())], [T::unpack_unchecked(..)] and
    [T::pack(v, &mut info.data.borrow_mut())] *)
Definition unpack_info (T : Type) `{Pack T} (i : AccountInfo) : M T :=
  d ← borrow_data i; lift (pack_unpack d).
Definition unpack_unchecked_info (T : Type) `{Pack T} (i : AccountInfo) : M T :=
  d ← borrow_data i; lift (pack_unpack_unchecked d).
Definition pack_info {T : Type} `{Pack T} (v : T) (i : AccountInfo) : M unit :=
  d ← borrow_data i; d' ← lift (pack_pack v d); write_data i d'.

(** the inner loop of [validate_owner]: one signer against every position *)
Definition match_signer (signer : AccountInfo) (st : list bool * Z) (pk : nat * Pubkey) :
    result (list bool * Z) :=
  let '(matched, num_signers) := st in
  let '(position, k) := pk in
  if bool_decide (k = key signer) && negb (default false (matched !! position)) then
    _ ← err_if (negb (is_signer signer)) MissingRequiredSignature;
    Ok (<[position := true]> matched, num_signers + 1)
  else Ok (matched, num_signers).

(** [multisig.signers[0..multisig.n as usize].iter().enumerate()] *)
Definition multisig_positions (ms : Multisig) : result (list (nat * Pubkey)) :=
  if (Z.to_nat (ms_n ms) <=? length (ms_signers ms))%nat
  then Ok (imap pair (take (Z.to_nat (ms_n ms)) (ms_signers ms))) else Panic.

(** Validates owner(s) are present *)
Definition validate_owner program_id (expected_owner : Pubkey) (owner_account_info : AccountInfo)
    (signers : list AccountInfo) : M unit :=
  fail_if (negb (bool_decide (expected_owner = key owner_account_info))) (token_err OwnerMismatch);;
  owner ← owner_of owner_account_info;
  dlen ← data_len owner_account_info;
  if bool_decide (program_id = owner) && (dlen =? Z.of_nat MULTISIG_LEN) then
    multisig ← unpack_info Multisig owner_account_info;
    '(_, num_signers) ← lift (
      fold_outcome (fun st signer =>
          positions ← multisig_positions multisig;
          fold_outcome (match_signer signer) st positions)
        (replicate MAX_SIGNERS false, 0) signers);
    fail_if (num_signers <? ms_m multisig) MissingRequiredSignature
  else fail_if (negb (is_signer owner_account_info)) MissingRequiredSignature.

(** the optional mint account of the [Checked] variants *)
Definition next_expected_mint (expected_decimals : option Z) (it : list AccountInfo) :
    M (option (AccountInfo * Z) * list AccountInfo) :=
  match expected_decimals with
  | Some d => '(mint_info, it) ← next_info it; mret (Some (mint_info, d), it)
  | None => mret (None, it)
  end.
Definition check_expected_mint (account : Account) (expected_mint_info : option (AccountInfo * Z)) : M unit :=
  match expected_mint_info with
  | Some (mint_info, expected_decimals) =>
      fail_if (negb (bool_decide (acc_mint account = key mint_info))) (token_err MintMismatch);;
      mint ← unpack_info Mint mint_info;
      fail_if (negb (expected_decimals =? mint_decimals mint)) (token_err MintDecimalsMismatch)
  | None => mret tt
  end.
Definition check_expected_decimals (expected_decimals : option Z) (mint : Mint) : M unit :=
  match expected_decimals with
  | Some d => fail_if (negb (d =? mint_decimals mint)) (token_err MintDecimalsMismatch)
  | None => mret tt
  end.

Definition process_initialize_mint accounts (decimals : Z) (mint_authority : Pubkey)
    (freeze_authority : option Pubkey) : M unit :=
  '(mint_info, it) ← next_info accounts;
  mint_data_len ← data_len mint_info;
  '(rent_info, _) ← next_info it;
  rent ← read_rent rent_info;
  mint ← unpack_unchecked_info Mint mint_info;
  fail_if (mint_is_initialized mint) (token_err TokenAlreadyInUse);;
  lam ← lamports mint_info;
  fail_if (negb (rent_is_exempt rent lam mint_data_len)) (token_err NotRentExempt);;
  let mint := mk_mint (Some mint_authority) (mint_supply mint) decimals true freeze_authority in
  pack_info mint mint_info.

Definition _process_initialize_account accounts (owner : option Pubkey) : M unit :=
  '(new_account_info, it) ← next_info accounts;
  '(mint_info, it) ← next_info it;
  '(owner, it) ←
    match owner with
    | Some owner => mret (owner, it)
    | None => '(owner_info, it) ← next_info it; mret (key owner_info, it)
    end;
  new_account_info_data_len ← data_len new_account_info;
  '(rent_info, _) ← next_info it;
  rent ← read_rent rent_info;
  account ← unpack_unchecked_info Account new_account_info;
  fail_if (account_is_initialized account) (token_err TokenAlreadyInUse);;
  lam ← lamports new_account_info;
  fail_if (negb (rent_is_exempt rent lam new_account_info_data_len)) (token_err NotRentExempt);;
  (if negb (bool_decide (key mint_info = native_mint_id)) then
     d ← borrow_data mint_info;
     _ ← lift (map_err (fun _ => token_err InvalidMint) (pack_unpack (T:=Mint) d));
     mret tt
   else mret tt);;
  '(is_native, amount) ←
    (if bool_decide (key mint_info = native_mint_id) then
       let rent_exempt_reserve := rent_minimum_balance rent new_account_info_data_len in
       lam ← lamports new_account_info;
       amount ← lift (ok_or (token_err Overflow) (checked_sub lam rent_exempt_reserve));
       mret (Some rent_exempt_reserve, amount)
     else mret (None, 0));
  let account := mk_account (key mint_info) owner amount None Initialized is_native 0
                   (acc_close_authority account) in
  pack_info account new_account_info.

Definition process_initialize_account accounts : M unit := _process_initialize_account accounts None.
Definition process_initialize_account2 accounts (owner : Pubkey) : M unit :=
  _process_initialize_account accounts (Some owner).

(** [multisig.signers[i] = key], a panic past the eleventh signer *)
Definition set_signer (signers : list Pubkey) (ik : nat * Pubkey) : result (list Pubkey) :=
  if (ik.1 <? length signers)%nat then Ok (<[ik.1 := ik.2]> signers) else Panic.

Definition process_initialize_multisig accounts (m : Z) : M unit :=
  '(multisig_info, it) ← next_info accounts;
  multisig_info_data_len ← data_len multisig_info;
  '(rent_info, signer_infos) ← next_info it;
  rent ← read_rent rent_info;
  multisig ← unpack_unchecked_info Multisig multisig_info;
  fail_if (ms_is_initialized multisig) (token_err TokenAlreadyInUse);;
  lam ← lamports multisig_info;
  fail_if (negb (rent_is_exempt rent lam multisig_info_data_len)) (token_err NotRentExempt);;
  let n := as_u8 (len signer_infos) in
  fail_if (negb (is_valid_signer_index n)) (token_err InvalidNumberOfProvidedSigners);;
  fail_if (negb (is_valid_signer_index m)) (token_err InvalidNumberOfRequiredSigners);;
  signers ← lift (fold_outcome set_signer (ms_signers multisig) (imap pair (key <$> signer_infos)));
  pack_info (mk_multisig m n true signers) multisig_info.

(** The authority check shared by transfer and burn: the account's delegate,
    within its allowance, or the account's owner. [spend] says whether the
    allowance is consumed. *)
Definition authorize_spend program_id (source_account : Account) (authority_info : AccountInfo)
    (signers : list AccountInfo) (amount : Z) (spend : bool) : M Account :=
  match acc_delegate source_account with
  | Some delegate =>
      if bool_decide (key authority_info = delegate) then
        validate_owner program_id delegate authority_info signers;;
        fail_if (acc_delegated_amount source_account <? amount) (token_err TokenInsufficientFunds);;
        if spend then
          delegated ← lift (ok_or (token_err Overflow)
                              (checked_sub (acc_delegated_amount source_account) amount));
          let source_account := set_acc_delegated_amount delegated source_account in
          mret (if delegated =? 0 then set_acc_delegate None source_account else source_account)
        else mret source_account
      else
        validate_owner program_id (acc_owner source_account) authority_info signers;;
        mret source_account
  | None =>
      validate_owner program_id (acc_owner source_account) authority_info signers;;
      mret source_account
  end.

Definition process_transfer program_id accounts (amount : Z) (expected_decimals : option Z) : M unit :=
  '(source_account_info, it) ← next_info accounts;
  '(expected_mint_info, it) ← next_expected_mint expected_decimals it;
  '(dest_account_info, it) ← next_info it;
  '(authority_info, it) ← next_info it;
  source_account ← unpack_info Account source_account_info;
  dest_account ← unpack_info Account dest_account_info;
  fail_if (is_frozen source_account || is_frozen dest_account) (token_err AccountFrozen);;
  fail_if (acc_amount source_account <? amount) (token_err TokenInsufficientFunds);;
  fail_if (negb (bool_decide (acc_mint source_account = acc_mint dest_account))) (token_err MintMismatch);;
  check_expected_mint source_account expected_mint_info;;
  let self_transfer := bool_decide (key source_account_info = key dest_account_info) in
  source_account ← authorize_spend program_id source_account authority_info it amount (negb self_transfer);
  if self_transfer then mret tt
  else
    source_amount ← lift (ok_or (token_err Overflow) (checked_sub (acc_amount source_account) amount));
    let source_account := set_acc_amount source_amount source_account in
    dest_amount ← lift (ok_or (token_err Overflow) (checked_add (acc_amount dest_account) amount));
    let dest_account := set_acc_amount dest_amount dest_account in
    (if is_native source_account then
       source_starting_lamports ← lamports source_account_info;
       l ← lift (ok_or (token_err Overflow) (checked_sub source_starting_lamports amount));
       set_lamports source_account_info l;;
       dest_starting_lamports ← lamports dest_account_info;
       l ← lift (ok_or (token_err Overflow) (checked_add dest_starting_lamports amount));
       set_lamports dest_account_info l
     else mret tt);;
    pack_info source_account source_account_info;;
    pack_info dest_account dest_account_info.

Definition process_approve program_id accounts (amount : Z) (expected_decimals : option Z) : M unit :=
  '(source_account_info, it) ← next_info accounts;
  '(expected_mint_info, it) ← next_expected_mint expected_decimals it;
  '(delegate_info, it) ← next_info it;
  '(owner_info, it) ← next_info it;
  source_account ← unpack_info Account source_account_info;
  fail_if (is_frozen source_account) (token_err AccountFrozen);;
  check_expected_mint source_account expected_mint_info;;
  validate_owner program_id (acc_owner source_account) owner_info it;;
  let source_account :=
    set_acc_delegated_amount amount (set_acc_delegate (Some (key delegate_info)) source_account) in
  pack_info source_account source_account_info.

Definition process_revoke program_id accounts : M unit :=
  '(source_account_info, it) ← next_info accounts;
  source_account ← unpack_info Account source_account_info;
  '(owner_info, it) ← next_info it;
  fail_if (is_frozen source_account) (token_err AccountFrozen);;
  validate_owner program_id (acc_owner source_account) owner_info it;;
  let source_account := set_acc_delegated_amount 0 (set_acc_delegate None source_account) in
  pack_info source_account source_account_info.

Definition set_account_authority program_id (account_info authority_info : AccountInfo)
    (signers : list AccountInfo) (authority_type : AuthorityType) (new_authority : option Pubkey) : M unit :=
  account ← unpack_info Account account_info;
  fail_if (is_frozen account) (token_err AccountFrozen);;
  account ←
    match authority_type with
    | AccountOwner =>
        validate_owner program_id (acc_owner account) authority_info signers;;
        match new_authority with
        | Some authority => mret (set_acc_owner authority account)
        | None => throw (token_err InvalidInstruction)
        end
    | CloseAccountAuthority =>
        let authority := default (acc_owner account) (acc_close_authority account) in
        validate_owner program_id authority authority_info signers;;
        mret (set_acc_close_authority new_authority account)
    | _ => throw (token_err AuthorityTypeNotSupported)
    end;
  pack_info account account_info.

Definition set_mint_authorities program_id (account_info authority_info : AccountInfo)
    (signers : list AccountInfo) (authority_type : AuthorityType) (new_authority : option Pubkey) : M unit :=
  mint ← unpack_info Mint account_info;
  mint ←
    match authority_type with
    | MintTokens =>
        authority ← lift (ok_or (token_err FixedSupply) (mint_authority mint));
        validate_owner program_id authority authority_info signers;;
        mret (set_mint_authority new_authority mint)
    | FreezeAccountAuthority =>
        authority ← lift (ok_or (token_err MintCannotFreeze) (mint_freeze_authority mint));
        validate_owner program_id authority authority_info signers;;
        mret (set_mint_freeze_authority new_authority mint)
    | _ => throw (token_err AuthorityTypeNotSupported)
    end;
  pack_info mint account_info.

Definition process_set_authority program_id accounts (authority_type : AuthorityType)
    (new_authority : option Pubkey) : M unit :=
  '(account_info, it) ← next_info accounts;
  '(authority_info, it) ← next_info it;
  dlen ← data_len account_info;
  if dlen =? Z.of_nat ACCOUNT_LEN then
    set_account_authority program_id account_info authority_info it authority_type new_authority
  else if dlen =? Z.of_nat MINT_LEN then
    set_mint_authorities program_id account_info authority_info it authority_type new_authority
  else throw InvalidArgument.

Definition process_mint_to program_id accounts (amount : Z) (expected_decimals : option Z) : M unit :=
  '(mint_info, it) ← next_info accounts;
  '(dest_account_info, it) ← next_info it;
  '(owner_info, it) ← next_info it;
  dest_account ← unpack_info Account dest_account_info;
  fail_if (is_frozen dest_account) (token_err AccountFrozen);;
  fail_if (is_native dest_account) (token_err NativeNotSupported);;
  fail_if (negb (bool_decide (key mint_info = acc_mint dest_account))) (token_err MintMismatch);;
  mint ← unpack_info Mint mint_info;
  check_expected_decimals expected_decimals mint;;
  match mint_authority mint with
  | Some authority => validate_owner program_id authority owner_info it
  | None => throw (token_err FixedSupply)
  end;;
  dest_amount ← lift (ok_or (token_err Overflow) (checked_add (acc_amount dest_account) amount));
  supply ← lift (ok_or (token_err Overflow) (checked_add (mint_supply mint) amount));
  pack_info (set_acc_amount dest_amount dest_account) dest_account_info;;
  pack_info (set_mint_supply supply mint) mint_info.

Definition process_burn program_id accounts (amount : Z) (expected_decimals : option Z) : M unit :=
  '(source_account_info, it) ← next_info accounts;
  '(mint_info, it) ← next_info it;
  '(authority_info, it) ← next_info it;
  source_account ← unpack_info Account source_account_info;
  mint ← unpack_info Mint mint_info;
  fail_if (is_frozen source_account) (token_err AccountFrozen);;
  fail_if (is_native source_account) (token_err NativeNotSupported);;
  fail_if (acc_amount source_account <? amount) (token_err TokenInsufficientFunds);;
  fail_if (negb (bool_decide (key mint_info = acc_mint source_account))) (token_err MintMismatch);;
  check_expected_decimals expected_decimals mint;;
  source_account ← authorize_spend program_id source_account authority_info it amount true;
  source_amount ← lift (ok_or (token_err Overflow) (checked_sub (acc_amount source_account) amount));
  supply ← lift (ok_or (token_err Overflow) (checked_sub (mint_supply mint) amount));
  pack_info (set_acc_amount source_amount source_account) source_account_info;;
  pack_info (set_mint_supply supply mint) mint_info.

Definition process_close_account program_id accounts : M unit :=
  '(source_account_info, it) ← next_info accounts;
  '(dest_account_info, it) ← next_info it;
  '(authority_info, it) ← next_info it;
  source_account ← unpack_info Account source_account_info;
  fail_if (negb (is_native source_account) && negb (acc_amount source_account =? 0))
    (token_err NonNativeHasBalance);;
  let authority := default (acc_owner source_account) (acc_close_authority source_account) in
  validate_owner program_id authority authority_info it;;
  dest_starting_lamports ← lamports dest_account_info;
  source_lamports ← lamports source_account_info;
  l ← lift (ok_or (token_err Overflow) (checked_add dest_starting_lamports source_lamports));
  set_lamports dest_account_info l;;
  set_lamports source_account_info 0;;
  pack_info (set_acc_amount 0 source_account) source_account_info.

Definition process_toggle_freeze_account program_id accounts (freeze : bool) : M unit :=
  '(source_account_info, it) ← next_info accounts;
  '(mint_info, it) ← next_info it;
  '(authority_info, it) ← next_info it;
  source_account ← unpack_info Account source_account_info;
  fail_if (freeze && is_frozen source_account || negb freeze && negb (is_frozen source_account))
    (token_err TokenInvalidState);;
  fail_if (is_native source_account) (token_err NativeNotSupported);;
  fail_if (negb (bool_decide (key mint_info = acc_mint source_account))) (token_err MintMismatch);;
  mint ← unpack_info Mint mint_info;
  match mint_freeze_authority mint with
  | Some authority => validate_owner program_id authority authority_info it
  | None => throw (token_err MintCannotFreeze)
  end;;
  pack_info (set_acc_state (if freeze then Frozen else Initialized) source_account) source_account_info.

(** Processes an instruction *)
Definition process_token_instruction program_id accounts (instruction : TokenInstruction) : M unit :=
  match instruction with
  | InitializeMint decimals mint_authority freeze_authority =>
      process_initialize_mint accounts decimals mint_authority freeze_authority
  | InitializeAccount => process_initialize_account accounts
  | InitializeAccount2 owner => process_initialize_account2 accounts owner
  | InitializeMultisig m => process_initialize_multisig accounts m
  | Transfer amount => process_transfer program_id accounts amount None
  | Approve amount => process_approve program_id accounts amount None
  | Revoke => process_revoke program_id accounts
  | SetAuthority authority_type new_authority =>
      process_set_authority program_id accounts authority_type new_authority
  | MintTo amount => process_mint_to program_id accounts amount None
  | Burn amount => process_burn program_id accounts amount None
  | CloseAccount => process_close_account program_id accounts
  | FreezeAccount => process_toggle_freeze_account program_id accounts true
  | ThawAccount => process_toggle_freeze_account program_id accounts false
  | TransferChecked amount decimals => process_transfer program_id accounts amount (Some decimals)
  | ApproveChecked amount decimals => process_approve program_id accounts amount (Some decimals)
  | MintToChecked amount decimals => process_mint_to program_id accounts amount (Some decimals)
  | BurnChecked amount decimals => process_burn program_id accounts amount (Some decimals)
  end.
Definition token_process program_id accounts (input : list byte) : M unit :=
  instruction ← lift (token_unpack input);
  process_token_instruction program_id accounts instruction.
End TokenProcessor.
