(* ===== verification/TokenCodec.v ===== *)
(** * The byte codecs of the token program are lossless

    The interface [PackLaws] states what a [Pack] implementation promises to
    the handlers: unpacking yields values in range, packing a value in range
    succeeds and unpacks to that value, and repacking what was read changes no
    byte.  The three account types of the token program discharge it; the
    instruction codec round-trips, and its panics are characterised. *)
From S2P Require Import Prelude Machine Sdk TokenInstruction TokenState.

Class PackLaws (T : Type) `{Pack T} := {
  pack_wf : T -> Prop;
  unpack_wf d v : length d = pack_LEN T -> unpack_from_slice d = Ok v -> pack_wf v;
  pack_roundtrip d v : length d = pack_LEN T -> pack_wf v ->
    exists d', pack_into_slice v d = Ok d' /\ length d' = pack_LEN T /\ unpack_from_slice d' = Ok v;
  pack_repack d v : length d = pack_LEN T -> unpack_from_slice d = Ok v -> pack_into_slice v d = Ok d;
}.

(** the values a Rust [Mint], [Account], [Multisig] can hold *)
Definition Mint_wf (m : Mint) : Prop := u64_range (mint_supply m) /\ u8_range (mint_decimals m).
Definition Account_wf (a : Account) : Prop :=
  u64_range (acc_amount a) /\ u64_range (acc_delegated_amount a) /\
  from_option u64_range True (acc_is_native a).
Definition Multisig_wf (ms : Multisig) : Prop :=
  u8_range (ms_m ms) /\ u8_range (ms_n ms) /\ length (ms_signers ms) = MAX_SIGNERS.
(** an instruction whose integer arguments are in range *)
Definition token_instruction_wf (i : TokenInstruction) : Prop :=
  match i with
  | InitializeMint decimals _ _ => u8_range decimals
  | InitializeMultisig m => u8_range m
  | Transfer a | Approve a | MintTo a | Burn a => u64_range a
  | TransferChecked a d | ApproveChecked a d | MintToChecked a d | BurnChecked a d =>
      u64_range a /\ u8_range d
  | _ => True
  end.

(** ** Field codecs *)
Lemma array_ref_exact {E} n d : length d = n -> array_ref (E:=E) n d = Ok d.
Proof.
  intros <-. unfold array_ref, slice_checked. rewrite Nat.leb_refl by done.
  unfold slice. by rewrite drop_0, firstn_all.
Qed.
Lemma length_pack_coption_key o d : length d = 36%nat -> length (pack_coption_key o d) = 36%nat.
Proof. intros. unfold pack_coption_key. destruct o; rewrite length_app, ?length_to_bytes, ?length_drop; simpl length; lia. Qed.
Lemma length_pack_coption_u64 o d : length d = 12%nat -> length (pack_coption_u64 o d) = 12%nat.
Proof. intros. unfold pack_coption_u64. destruct o; rewrite length_app, ?length_le_encode, ?length_drop; simpl length; lia. Qed.
Lemma take_tag_some l : take 4 (tag_some ++ l) = tag_some.
Proof. done. Qed.
Lemma drop_tag_some l : drop 4 (tag_some ++ l) = l.
Proof. done. Qed.
Lemma take_tag_none l : take 4 (tag_none ++ l) = tag_none.
Proof. done. Qed.
Lemma unpack_pack_coption_key o d : unpack_coption_key (pack_coption_key o d) = Ok o.
Proof.
  unfold unpack_coption_key, pack_coption_key. destruct o as [k|].
  - by rewrite take_tag_some, drop_tag_some, decide_False, decide_True, new_to_bytes by done.
  - by rewrite take_tag_none, decide_True.
Qed.
Lemma unpack_pack_coption_u64 o d :
  from_option u64_range True o -> unpack_coption_u64 (pack_coption_u64 o d) = Ok o.
Proof.
  unfold unpack_coption_u64, pack_coption_u64. destruct o as [k|]; intros.
  - by rewrite take_tag_some, drop_tag_some, decide_False, decide_True, u64_le_roundtrip by done.
  - by rewrite take_tag_none, decide_True.
Qed.
Lemma pack_unpack_coption_key o d :
  length d = 36%nat -> unpack_coption_key d = Ok o -> pack_coption_key o d = d.
Proof.
  unfold unpack_coption_key, pack_coption_key. intros Hl.
  destruct (decide _) as [E|_]; [|destruct (decide _) as [E|_]]; intros Ho; simplify_eq.
  - transitivity (take 4 d ++ drop 4 d); [by rewrite E|apply take_drop].
  - rewrite to_bytes_new by (rewrite length_drop; lia).
    transitivity (take 4 d ++ drop 4 d); [by rewrite E|apply take_drop].
Qed.
Lemma pack_unpack_coption_u64 o d :
  length d = 12%nat -> unpack_coption_u64 d = Ok o -> pack_coption_u64 o d = d.
Proof.
  unfold unpack_coption_u64, pack_coption_u64. intros Hl.
  destruct (decide _) as [E|_]; [|destruct (decide _) as [E|_]]; intros Ho; simplify_eq.
  - transitivity (take 4 d ++ drop 4 d); [by rewrite E|apply take_drop].
  - unfold u64_to_le_bytes. rewrite le_encode_decode_n by (rewrite length_drop; lia).
    transitivity (take 4 d ++ drop 4 d); [by rewrite E|apply take_drop].
Qed.
Lemma unpack_coption_u64_range o d :
  length d = 12%nat -> unpack_coption_u64 d = Ok o -> from_option u64_range True o.
Proof.
  unfold unpack_coption_u64. intros Hl. repeat case_decide; intros Ho; simplify_eq; [done|].
  apply le_decode_u64. rewrite length_drop. lia.
Qed.
Lemma unpack_bool_byte b : unpack_bool [byte_of_bool b] = Ok b.
Proof. by destruct b. Qed.
Lemma unpack_bool_Ok d b : unpack_bool d = Ok b <-> d = [byte_of_bool b].
Proof. unfold unpack_bool. repeat case_decide; destruct b; naive_solver. Qed.
Lemma account_state_roundtrip st : account_state_try_from (account_state_to_u8 st) = Some st.
Proof. by destruct st. Qed.
Lemma account_state_try_from_Some z st :
  account_state_try_from z = Some st -> z = account_state_to_u8 st.
Proof. unfold account_state_try_from. repeat case_match; naive_solver. Qed.
Lemma le_decode_singleton b : le_decode [b] = u8_of_byte b.
Proof. unfold le_decode. lia. Qed.
Lemma length_1 {A} (l : list A) : length l = 1%nat -> exists x, l = [x].
Proof. destruct l as [|x [|]]; naive_solver. Qed.
Lemma u8_bytes_roundtrip d : length d = 1%nat -> [byte_of_u8 (le_decode d)] = d.
Proof. intros [b ->]%length_1. by rewrite le_decode_singleton, byte_of_u8_of_byte. Qed.
Lemma u8_bytes_range d : length d = 1%nat -> u8_range (le_decode d).
Proof. intros [b ->]%length_1. rewrite le_decode_singleton. apply u8_of_byte_range. Qed.
Lemma u8_decode_roundtrip z : u8_range z -> le_decode [byte_of_u8 z] = z.
Proof. intros. by rewrite le_decode_singleton, byte_of_u8_roundtrip. Qed.
Lemma u64_bytes_roundtrip d : length d = 8%nat -> u64_to_le_bytes (le_decode d) = d.
Proof. apply le_encode_decode_n. Qed.

(** The chunks of a buffer of the right length. *)
Lemma buffer_chunks sizes (d : list byte) :
  length d = sum_list sizes -> exists cs : list (list byte), d = concat cs /\ length <$> cs = sizes.
Proof.
  intros Hl. exists (array_refs sizes d). by rewrite concat_array_refs, array_refs_lengths.
Qed.
Lemma length_concat_chunks (ls : list (list byte)) sizes :
  length <$> ls = sizes -> length (concat ls) = sum_list sizes.
Proof. intros <-. induction ls; cbn; rewrite ?length_app; auto. Qed.
(** Splits [H : length <$> cs = [n1; ...]] into named chunks and their lengths. *)
Ltac destruct_chunks cs H :=
  match type of H with _ = ?R => let R' := eval compute in R in change R with R' in H end;
  repeat lazymatch type of H with
  | _ <$> cs = [] => destruct cs; [clear H|discriminate H]
  | _ <$> cs = _ :: _ =>
      let c := fresh "c" in
      destruct cs as [|c cs]; [discriminate H|];
      let E := fresh "E" in
      rewrite fmap_cons in H; injection H as E H
  end.
Lemma length_u64_to_le_bytes z : length (u64_to_le_bytes z) = 8%nat.
Proof. apply length_le_encode. Qed.
(** The chunk lengths of a packed record. *)
Ltac solve_chunk_lengths :=
  rewrite ?fmap_cons, ?fmap_nil;
  rewrite ?length_to_bytes, ?length_u64_to_le_bytes;
  rewrite ?length_pack_coption_key, ?length_pack_coption_u64 by assumption; reflexivity.

(** ** Mint *)
Section MintCodec.
Implicit Types (m : Mint) (d : list byte).
Lemma mint_unpack_concat c1 c2 c3 c4 c5 :
  length <$> [c1; c2; c3; c4; c5] = mint_sizes ->
  mint_unpack_from_slice (concat [c1; c2; c3; c4; c5]) =
    (mint_authority ← unpack_coption_key c1;
     is_initialized ← unpack_bool c4;
     freeze_authority ← unpack_coption_key c5;
     Ok (mk_mint mint_authority (le_decode c2) (le_decode c3) is_initialized freeze_authority)).
Proof.
  intros Hs. unfold mint_unpack_from_slice. rewrite array_ref_exact.
  - cbn -[concat array_refs]. by rewrite array_refs_concat'.
  - by apply (length_concat_chunks _ _ Hs).
Qed.
Lemma mint_pack_concat m c1 c2 c3 c4 c5 :
  length <$> [c1; c2; c3; c4; c5] = mint_sizes ->
  mint_pack_into_slice m (concat [c1; c2; c3; c4; c5]) =
    Ok (concat [pack_coption_key (mint_authority m) c1; u64_to_le_bytes (mint_supply m);
                [byte_of_u8 (mint_decimals m)]; [byte_of_bool (mint_is_initialized m)];
                pack_coption_key (mint_freeze_authority m) c5]).
Proof.
  intros Hs. unfold mint_pack_into_slice.
  assert (Hl : length (concat [c1; c2; c3; c4; c5]) = MINT_LEN).
  { by apply (length_concat_chunks _ _ Hs). }
  rewrite array_ref_exact by done. cbn -[concat array_refs drop]. rewrite array_refs_concat' by done.
  rewrite drop_ge by lia. by rewrite app_nil_r.
Qed.

#[global] Program Instance Mint_PackLaws : PackLaws Mint := {| pack_wf := Mint_wf |}.
Next Obligation.
  intros d m Hl Hu. apply (buffer_chunks mint_sizes) in Hl as (cs & -> & Hs).
  pose proof Hs as Hs'. destruct_chunks cs Hs. cbn [unpack_from_slice Mint_Pack] in Hu.
  rewrite mint_unpack_concat in Hu by done.
  repeat (apply outcome_bind_Ok in Hu as (? & ? & Hu)). injection Hu as <-.
  split; [by apply le_decode_u64|by apply u8_bytes_range].
Qed.
Next Obligation.
  intros d m Hl [Hw1 Hw2]. apply (buffer_chunks mint_sizes) in Hl as (cs & -> & Hs).
  pose proof Hs as Hs'. destruct_chunks cs Hs. cbn [unpack_from_slice pack_into_slice Mint_Pack pack_LEN].
  rewrite mint_pack_concat by done. eexists. split; [done|].
  match goal with |- length (concat ?l) = _ /\ _ => assert (Hn : length <$> l = mint_sizes) end.
  { solve_chunk_lengths. }
  split; [by apply (length_concat_chunks _ _ Hn)|].
  rewrite mint_unpack_concat by done. rewrite !unpack_pack_coption_key, unpack_bool_byte. cbn -[le_decode u64_to_le_bytes].
  rewrite u64_le_roundtrip, u8_decode_roundtrip by done. by destruct m.
Qed.
Next Obligation.
  intros d m Hl Hu. apply (buffer_chunks mint_sizes) in Hl as (cs & -> & Hs).
  pose proof Hs as Hs'. destruct_chunks cs Hs. cbn [unpack_from_slice pack_into_slice Mint_Pack pack_LEN] in *.
  rewrite mint_unpack_concat in Hu by done. rewrite mint_pack_concat by done.
  repeat (apply outcome_bind_Ok in Hu as (? & ? & Hu)). injection Hu as <-.
  cbn -[concat le_decode u64_to_le_bytes].
  rewrite !pack_unpack_coption_key, u64_bytes_roundtrip, u8_bytes_roundtrip by done.
  repeat match goal with H : unpack_bool _ = Ok _ |- _ => apply unpack_bool_Ok in H as -> end. done.
Qed.
End MintCodec.

(** ** Account *)
Section AccountCodec.
Implicit Types (a : Account) (d : list byte).
Lemma account_unpack_concat c1 c2 c3 c4 c5 c6 c7 c8 :
  length <$> [c1; c2; c3; c4; c5; c6; c7; c8] = account_sizes ->
  account_unpack_from_slice (concat [c1; c2; c3; c4; c5; c6; c7; c8]) =
    (delegate ← unpack_coption_key c4;
     state ← ok_or InvalidAccountData (account_state_try_from (le_decode c5));
     is_native ← unpack_coption_u64 c6;
     close_authority ← unpack_coption_key c8;
     Ok (mk_account (new_from_array c1) (new_from_array c2) (le_decode c3) delegate state
           is_native (le_decode c7) close_authority)).
Proof.
  intros Hs. unfold account_unpack_from_slice. rewrite array_ref_exact.
  - cbn -[concat array_refs]. by rewrite array_refs_concat'.
  - by apply (length_concat_chunks _ _ Hs).
Qed.
Lemma account_pack_concat a c1 c2 c3 c4 c5 c6 c7 c8 :
  length <$> [c1; c2; c3; c4; c5; c6; c7; c8] = account_sizes ->
  account_pack_into_slice a (concat [c1; c2; c3; c4; c5; c6; c7; c8]) =
    Ok (concat [to_bytes (acc_mint a); to_bytes (acc_owner a); u64_to_le_bytes (acc_amount a);
                pack_coption_key (acc_delegate a) c4;
                [byte_of_u8 (account_state_to_u8 (acc_state a))];
                pack_coption_u64 (acc_is_native a) c6;
                u64_to_le_bytes (acc_delegated_amount a);
                pack_coption_key (acc_close_authority a) c8]).
Proof.
  intros Hs. unfold account_pack_into_slice.
  assert (Hl : length (concat [c1; c2; c3; c4; c5; c6; c7; c8]) = ACCOUNT_LEN).
  { by apply (length_concat_chunks _ _ Hs). }
  rewrite array_ref_exact by done. cbn -[concat array_refs drop]. rewrite array_refs_concat' by done.
  rewrite drop_ge by lia. by rewrite app_nil_r.
Qed.
Lemma account_state_u8_range st : u8_range (account_state_to_u8 st).
Proof. by destruct st. Qed.

#[global] Program Instance Account_PackLaws : PackLaws Account := {| pack_wf := Account_wf |}.
Next Obligation.
  intros d a Hl Hu. apply (buffer_chunks account_sizes) in Hl as (cs & -> & Hs).
  pose proof Hs as Hs'. destruct_chunks cs Hs. cbn [unpack_from_slice Account_Pack] in Hu.
  rewrite account_unpack_concat in Hu by done.
  repeat (apply outcome_bind_Ok in Hu as (? & ? & Hu)). injection Hu as <-.
  split; [by apply le_decode_u64|split; [by apply le_decode_u64|]].
  by eapply unpack_coption_u64_range.
Qed.
Next Obligation.
  intros d a Hl (Hw1 & Hw2 & Hw3). apply (buffer_chunks account_sizes) in Hl as (cs & -> & Hs).
  pose proof Hs as Hs'. destruct_chunks cs Hs.
  cbn [unpack_from_slice pack_into_slice Account_Pack pack_LEN].
  rewrite account_pack_concat by done. eexists. split; [done|].
  match goal with |- length (concat ?l) = _ /\ _ => assert (Hn : length <$> l = account_sizes) end.
  { solve_chunk_lengths. }
  split; [by apply (length_concat_chunks _ _ Hn)|].
  rewrite account_unpack_concat by done.
  rewrite !unpack_pack_coption_key, unpack_pack_coption_u64 by done.
  rewrite u8_decode_roundtrip, account_state_roundtrip by apply account_state_u8_range.
  cbn -[le_decode u64_to_le_bytes].
  rewrite !u64_le_roundtrip, !new_to_bytes by done. by destruct a.
Qed.
Next Obligation.
  intros d a Hl Hu. apply (buffer_chunks account_sizes) in Hl as (cs & -> & Hs).
  pose proof Hs as Hs'. destruct_chunks cs Hs.
  cbn [unpack_from_slice pack_into_slice Account_Pack pack_LEN] in *.
  rewrite account_unpack_concat in Hu by done. rewrite account_pack_concat by done.
  apply outcome_bind_Ok in Hu as (del & ? & Hu).
  apply outcome_bind_Ok in Hu as (st & Hst & Hu).
  repeat (apply outcome_bind_Ok in Hu as (? & ? & Hu)). injection Hu as <-.
  apply ok_or_Ok, account_state_try_from_Some in Hst.
  cbn -[concat le_decode u64_to_le_bytes].
  rewrite !pack_unpack_coption_key, pack_unpack_coption_u64, !u64_bytes_roundtrip, !to_bytes_new, <- Hst by done.
  by rewrite u8_bytes_roundtrip.
Qed.
End AccountCodec.

(** ** Multisig *)
Section MultisigCodec.
Implicit Types (ms : Multisig) (d : list byte) (ks : list (list byte)).
Lemma multisig_unpack_concat c1 c2 c3 ks :
  length <$> (c1 :: c2 :: c3 :: ks) = multisig_sizes ->
  multisig_unpack_from_slice (concat (c1 :: c2 :: c3 :: ks)) =
    (is_initialized ← unpack_bool c3;
     Ok (mk_multisig (le_decode c1) (le_decode c2) is_initialized (new_from_array <$> ks))).
Proof.
  intros Hs. unfold multisig_unpack_from_slice. rewrite array_ref_exact.
  - cbn -[concat array_refs multisig_sizes]. by rewrite array_refs_concat'.
  - by apply (length_concat_chunks _ _ Hs).
Qed.
Lemma multisig_pack_exact ms d :
  length d = MULTISIG_LEN ->
  multisig_pack_into_slice ms d =
    Ok (concat ([byte_of_u8 (ms_m ms)] :: [byte_of_u8 (ms_n ms)] ::
                [byte_of_bool (ms_is_initialized ms)] :: (to_bytes <$> ms_signers ms))).
Proof.
  intros Hl. unfold multisig_pack_into_slice. rewrite array_ref_exact by done.
  cbn -[concat drop]. rewrite drop_ge by (unfold MULTISIG_LEN in *; lia). by rewrite app_nil_r.
Qed.
Lemma signer_chunk_lengths (ks : list Pubkey) n :
  length ks = n -> length <$> (to_bytes <$> ks) = replicate n 32%nat.
Proof. intros <-. induction ks as [|k ks IH]; cbn; [done|]. by rewrite length_to_bytes, IH. Qed.
Lemma signers_new_to_bytes (ks : list Pubkey) : new_from_array <$> (to_bytes <$> ks) = ks.
Proof. induction ks as [|k ks IH]; cbn; [done|]. by rewrite new_to_bytes, IH. Qed.
Lemma signers_to_bytes_new ks n :
  length <$> ks = replicate n 32%nat -> to_bytes <$> (new_from_array <$> ks) = ks.
Proof.
  revert n. induction ks as [|k ks IH]; intros [|n] H; cbn in *; try done.
  injection H as ? ?. rewrite to_bytes_new by done. f_equal. by eapply IH.
Qed.
(** the chunks of a multisig buffer *)
Lemma multisig_chunks d :
  length d = MULTISIG_LEN -> exists c1 c2 c3 ks,
    d = concat (c1 :: c2 :: c3 :: ks) /\ length <$> (c1 :: c2 :: c3 :: ks) = multisig_sizes /\
    length c1 = 1%nat /\ length c2 = 1%nat /\ length c3 = 1%nat /\ length <$> ks = signer_sizes.
Proof.
  intros Hl. apply (buffer_chunks multisig_sizes) in Hl as (cs & -> & Hs).
  destruct cs as [|c1 [|c2 [|c3 ks]]]; try discriminate Hs.
  exists c1, c2, c3, ks. split_and!; try done; injection Hs as ? ? ? ?; try done.
Qed.

#[global] Program Instance Multisig_PackLaws : PackLaws Multisig := {| pack_wf := Multisig_wf |}.
Next Obligation.
  intros d ms (c1 & c2 & c3 & ks & -> & Hs & ? & ? & ? & Hks)%multisig_chunks Hu.
  cbn [unpack_from_slice Multisig_Pack] in Hu. rewrite multisig_unpack_concat in Hu by done.
  apply outcome_bind_Ok in Hu as (? & ? & [= <-]).
  split; [by apply u8_bytes_range|split; [by apply u8_bytes_range|]]. cbn [ms_signers].
  rewrite length_fmap. rewrite <- (length_fmap length ks), Hks. apply length_replicate.
Qed.
Next Obligation.
  intros d ms Hl (Hw1 & Hw2 & Hw3). cbn [unpack_from_slice pack_into_slice Multisig_Pack pack_LEN] in *.
  rewrite multisig_pack_exact by done. eexists. split; [done|].
  match goal with |- length (concat ?l) = _ /\ _ => assert (Hn : length <$> l = multisig_sizes) end.
  { rewrite !fmap_cons, (signer_chunk_lengths _ MAX_SIGNERS) by done. reflexivity. }
  split; [by apply (length_concat_chunks _ _ Hn)|].
  rewrite multisig_unpack_concat by done.
  rewrite unpack_bool_byte. cbn -[le_decode].
  rewrite !u8_decode_roundtrip, signers_new_to_bytes by done. by destruct ms.
Qed.
Next Obligation.
  intros d ms Hl Hu. cbn [unpack_from_slice pack_into_slice Multisig_Pack pack_LEN] in *.
  rewrite multisig_pack_exact by done.
  apply multisig_chunks in Hl as (c1 & c2 & c3 & ks & -> & Hs & ? & ? & ? & Hks).
  rewrite multisig_unpack_concat in Hu by done.
  apply outcome_bind_Ok in Hu as (b & Hb & [= <-]). apply unpack_bool_Ok in Hb as ->.
  cbn [ms_m ms_n ms_is_initialized ms_signers].
  by rewrite !u8_bytes_roundtrip, (signers_to_bytes_new _ MAX_SIGNERS) by done.
Qed.
End MultisigCodec.

(** ** Instructions *)
Lemma split_first_cons b l : split_first (b :: l) = Some (u8_of_byte b, l).
Proof. done. Qed.
Lemma split_at_app n l r : length l = n -> split_at n (l ++ r) = Ok (l, r).
Proof.
  intros <-. unfold split_at. rewrite length_app.
  replace (length l <=? length l + length r)%nat with true by (symmetry; apply Nat.leb_le; lia).
  by rewrite take_app_length, drop_app_length.
Qed.
Lemma unpack_pubkey_app k r : unpack_pubkey (to_bytes k ++ r) = Ok (k, r).
Proof.
  unfold unpack_pubkey. rewrite split_at_app by apply length_to_bytes.
  rewrite length_app, length_to_bytes. cbn -[to_bytes new_from_array]. by rewrite new_to_bytes.
Qed.
Lemma unpack_pack_pubkey_option o r : unpack_pubkey_option (pack_pubkey_option o ++ r) = Ok (o, r).
Proof.
  unfold unpack_pubkey_option. destruct o as [k|]; cbn -[to_bytes Nat.leb]; [|done].
  rewrite length_app, length_to_bytes. rewrite (proj2 (Nat.leb_le 32 (32 + length r))) by lia.
  rewrite split_at_app by apply length_to_bytes. cbn. by rewrite new_to_bytes.
Qed.
Lemma unpack_amount_bytes a : u64_range a -> unpack_amount (u64_to_le_bytes a) = Ok a.
Proof.
  intros. unfold unpack_amount. rewrite length_u64_to_le_bytes, Nat.leb_refl.
  rewrite take_ge by (by rewrite length_u64_to_le_bytes). by rewrite u64_le_roundtrip.
Qed.
Lemma unpack_amount_decimals_bytes a d :
  u64_range a -> u8_range d -> unpack_amount_decimals (u64_to_le_bytes a ++ [byte_of_u8 d]) = Ok (a, d).
Proof.
  intros. unfold unpack_amount_decimals. rewrite split_at_app by apply length_u64_to_le_bytes.
  cbn -[le_decode u64_to_le_bytes]. by rewrite u64_le_roundtrip, byte_of_u8_roundtrip.
Qed.
Lemma authority_type_roundtrip a : authority_type_from (authority_type_into a) = Ok a.
Proof. by destruct a. Qed.
Lemma authority_type_into_range a : u8_range (authority_type_into a).
Proof. by destruct a. Qed.

(** no-panic lemmas of the readers *)
Lemma outcome_bind_Panic {E A B} (m : outcome E A) (f : A -> outcome E B) :
  (m ≫= f) = Panic <-> m = Panic \/ exists a, m = Ok a /\ f a = Panic.
Proof. destruct m; cbn; naive_solver. Qed.
Lemma outcome_fmap_Panic {E A B} (m : outcome E A) (f : A -> B) : (f <$> m) = Panic <-> m = Panic.
Proof. destruct m; cbn; naive_solver. Qed.
Lemma ok_or_no_panic {E A} (e : E) (o : option A) : ok_or e o <> Panic.
Proof. by destruct o. Qed.
Lemma split_at_Panic n l : split_at n l = Panic <-> (length l < n)%nat.
Proof. unfold split_at. destruct (Nat.leb_spec n (length l)); naive_solver lia. Qed.
Lemma unpack_pubkey_no_panic l : unpack_pubkey l <> Panic.
Proof.
  unfold unpack_pubkey. destruct (Nat.leb_spec 32 (length l)) as [Hl|]; [|done].
  rewrite outcome_bind_Panic, split_at_Panic. intros [?|([] & ? & ?)]; [lia|done].
Qed.
Lemma unpack_pubkey_option_no_panic l : unpack_pubkey_option l <> Panic.
Proof.
  unfold unpack_pubkey_option. destruct (split_first l) as [[t r]|]; [|done].
  destruct (t =? 0); [done|]. destruct (t =? 1); cbn -[split_at Nat.leb]; [|done].
  destruct (Nat.leb_spec 32 (length r)) as [Hl|]; [|done].
  rewrite outcome_bind_Panic, split_at_Panic. intros [?|([] & ? & ?)]; [lia|done].
Qed.
Lemma unpack_amount_no_panic l : unpack_amount l <> Panic.
Proof. unfold unpack_amount. by case_match. Qed.
Lemma authority_type_from_no_panic z : authority_type_from z <> Panic.
Proof. unfold authority_type_from. by repeat case_match. Qed.
Lemma unpack_amount_decimals_Panic l : unpack_amount_decimals l = Panic <-> (length l < 8)%nat.
Proof.
  unfold unpack_amount_decimals. rewrite outcome_bind_Panic, split_at_Panic.
  split; [|auto]. intros [?|([a r] & ? & H)]; [done|].
  apply outcome_bind_Panic in H as [H|([] & ? & ?)]; [|done]. by apply ok_or_no_panic in H.
Qed.
Create HintDb no_panic discriminated.
#[export] Hint Resolve ok_or_no_panic unpack_pubkey_no_panic unpack_pubkey_option_no_panic
  unpack_amount_no_panic authority_type_from_no_panic : no_panic.

Lemma bind_no_panic {E A B} (m : outcome E A) (f : A -> outcome E B) :
  m <> Panic -> (forall a, f a <> Panic) -> (m ≫= f) <> Panic.
Proof. rewrite outcome_bind_Panic. naive_solver. Qed.
Lemma bind_Panic_first {E A B} (m : outcome E A) (f : A -> outcome E B) :
  (forall a, f a <> Panic) -> (m ≫= f) = Panic <-> m = Panic.
Proof. rewrite outcome_bind_Panic. naive_solver. Qed.
Ltac solve_no_panic :=
  repeat lazymatch goal with
  | |- _ ≫= _ <> Panic => apply bind_no_panic
  | |- forall _ : _ * _, _ => intros []
  | |- forall _ : AuthorityType, _ => intros ?
  | |- _ <> Panic => first [discriminate | solve [auto with no_panic]]
  end.

(** the tags whose payload is read with [split_at(8)] *)
Definition checked_tag (t : Z) : bool := (12 <=? t) && (t <=? 15).

(** each variant in turn *)
Lemma token_roundtrip (i : TokenInstruction) :
  token_instruction_wf i -> token_unpack (token_pack i) = Ok i.
Proof.
  destruct i; intros Hwf; cbn in Hwf; unfold token_unpack, token_pack;
    rewrite split_first_cons; cbn -[split_first to_bytes le_encode unpack_pubkey unpack_pubkey_option
      unpack_amount unpack_amount_decimals u64_to_le_bytes u8_of_byte byte_of_u8 pack_pubkey_option];
    rewrite u8_of_byte_of_u8, Z.mod_small by done;
    try (rewrite split_first_cons;
         cbn -[to_bytes unpack_pubkey unpack_pubkey_option u8_of_byte byte_of_u8 pack_pubkey_option];
         rewrite byte_of_u8_roundtrip by first [done | apply authority_type_into_range]);
    rewrite ?unpack_pubkey_app, ?unpack_amount_bytes by done; try done.
  - cbn -[unpack_pubkey_option pack_pubkey_option].
    rewrite <- (app_nil_r (pack_pubkey_option _)). by rewrite unpack_pack_pubkey_option.
  - rewrite authority_type_roundtrip. cbn -[unpack_pubkey_option pack_pubkey_option].
    rewrite <- (app_nil_r (pack_pubkey_option _)). by rewrite unpack_pack_pubkey_option.
  - destruct Hwf. by rewrite unpack_amount_decimals_bytes.
  - destruct Hwf. by rewrite unpack_amount_decimals_bytes.
  - destruct Hwf. by rewrite unpack_amount_decimals_bytes.
  - destruct Hwf. by rewrite unpack_amount_decimals_bytes.
  - rewrite <- (app_nil_r (to_bytes _)). by rewrite unpack_pubkey_app.
Qed.
(** C34: packing an instruction with in-range integers and unpacking the bytes
    gives the instruction back: the byte codec loses nothing. *)
Theorem token_unpack_pack (i : TokenInstruction) :
  token_instruction_wf i -> token_unpack (token_pack i) = Ok i.
Proof. apply token_roundtrip. Qed.
Lemma token_unpack_pack_witness :
  let i := TransferChecked 1000 9 in token_instruction_wf i /\ token_unpack (token_pack i) = Ok i.
Proof. cbn zeta. split; [|apply token_unpack_pack]; split; done. Defined.

(** [unpack] never panics on instruction data, except on the four [Checked]
    transfer, approve, mint and burn instructions with fewer than eight bytes
    of payload, where [split_at(8)] does: every other malformed input is
    answered with an error. *)
Lemma token_unpack_panics_iff (input : list byte) :
  token_unpack input = Panic <->
  exists t rest, split_first input = Some (t, rest) /\ checked_tag t = true /\ (length rest < 8)%nat.
Proof.
  destruct input as [|b rest]; [naive_solver|]. unfold token_unpack. rewrite split_first_cons.
  assert (Hex : forall P : Z -> list byte -> Prop,
    (exists t r, Some (u8_of_byte b, rest) = Some (t, r) /\ P t r) <-> P (u8_of_byte b) rest) by naive_solver.
  rewrite Hex. cbn [ok_or]. cbn -[checked_tag u8_of_byte unpack_amount_decimals unpack_amount unpack_pubkey
    unpack_pubkey_option authority_type_from split_first].
  generalize (u8_of_byte b). intros t. clear.
  repeat case_match; subst; cbn -[unpack_amount_decimals unpack_amount unpack_pubkey
    unpack_pubkey_option authority_type_from split_first]; rewrite ?outcome_fmap_Panic.
  all: first
    [ rewrite bind_Panic_first by (by intros []); rewrite unpack_amount_decimals_Panic; naive_solver
    | split; [intros Hp; exfalso; revert Hp; match goal with |- ?x = Panic -> False => change (x <> Panic) end; solve_no_panic|naive_solver] ].
Qed.
