(* ===== verification/TokenFacts.v ===== *)
(** * What the token handlers do when they succeed

    Views of a store through the token program's account layouts, and the
    inversion of the handlers' primitive steps: reading and writing packed
    accounts. *)
From S2P Require Import Prelude Machine Sdk TokenInstruction TokenState TokenCodec TokenProcessor.

(** ** Views of a store *)
(** the cell at [k] holds a [T] (initialised or not) *)
Definition decodes (T : Type) `{Pack T} (s : Store) (k : Pubkey) (v : T) : Prop :=
  length (cell_data (get_cell s k)) = pack_LEN T /\ unpack_from_slice (cell_data (get_cell s k)) = Ok v.
#[global] Arguments decodes T {_} s k v.
(** the cell at [k] holds an initialised [T] *)
Definition holds (T : Type) `{Pack T} (s : Store) (k : Pubkey) (v : T) : Prop :=
  decodes T s k v /\ pack_is_initialized v = true.
#[global] Arguments holds T {_} s k v.

Lemma decodes_inj {T} `{Pack T} s k (v v' : T) : decodes T s k v -> decodes T s k v' -> v = v'.
Proof. intros [_ E] [_ E']. congruence. Qed.
Lemma decodes_wf {T} `{PackLaws T} s k (v : T) : decodes T s k v -> pack_wf v.
Proof. intros [? ?]. by eapply unpack_wf. Qed.
Lemma decodes_get_cell {T} `{Pack T} s s' k (v : T) :
  cell_data (get_cell s k) = cell_data (get_cell s' k) -> decodes T s k v -> decodes T s' k v.
Proof. unfold decodes. by intros ->. Qed.

(** [s'] is [s] with [v] packed into the cell at [k] *)
Definition writes {T} `{Pack T} (s : Store) (k : Pubkey) (v : T) (s' : Store) : Prop :=
  exists d, pack_into_slice v (cell_data (get_cell s k)) = Ok d /\ s' = set_data s k d.

Section Writes.
Context {T : Type} `{PackLaws T}.
Implicit Types (v : T) (s : Store) (k : Pubkey).
Lemma writes_decodes s k v v0 s' :
  decodes T s k v0 -> pack_wf v -> writes s k v s' -> decodes T s' k v.
Proof.
  intros [Hl _] Hw (d & Hp & ->). destruct (pack_roundtrip _ v Hl Hw) as (d' & Hp' & ? & ?).
  rewrite Hp in Hp'. injection Hp' as <-. unfold decodes.
  by rewrite data_set_data, decide_True by done.
Qed.
Lemma writes_data_ne s k v s' k' :
  k <> k' -> writes s k v s' -> get_cell s' k' = get_cell s k'.
Proof. intros Hne (d & _ & ->). by rewrite get_cell_set_data, decide_False by done. Qed.
Lemma writes_lamports s k v s' k' :
  writes s k v s' -> cell_lamports (get_cell s' k') = cell_lamports (get_cell s k').
Proof. intros (d & _ & ->). by rewrite lamports_set_data. Qed.
Lemma writes_owner s k v s' k' :
  writes s k v s' -> cell_owner (get_cell s' k') = cell_owner (get_cell s k').
Proof. intros (d & _ & ->). by rewrite owner_set_data. Qed.
Lemma writes_same s k v s' : decodes T s k v -> writes s k v s' -> forall k', get_cell s' k' = get_cell s k'.
Proof.
  intros [Hl Hu] (d & Hp & ->) k'. rewrite (pack_repack _ v Hl Hu) in Hp. injection Hp as <-.
  rewrite get_cell_set_data. case_decide; [|done]. subst. by destruct (get_cell s k').
Qed.
End Writes.

Section TokenFacts.
Context `{SDK : SolanaSdk} {LAWS : SolanaSdkLaws SDK}.
Implicit Types (s : Store) (i : AccountInfo).

Lemma unpack_info_Ok (T : Type) `{Pack T} i s v s' :
  unpack_info T i s = (Ok v, s') <-> s = s' /\ holds T s (key i) v.
Proof.
  unfold unpack_info, borrow_data, holds, decodes. rewrite stM_bind_Ok. setoid_rewrite gets_Ok.
  setoid_rewrite lift_Ok. setoid_rewrite pack_unpack_Ok. naive_solver.
Qed.
Lemma unpack_unchecked_info_Ok (T : Type) `{Pack T} i s v s' :
  unpack_unchecked_info T i s = (Ok v, s') <-> s = s' /\ decodes T s (key i) v.
Proof.
  unfold unpack_unchecked_info, borrow_data, decodes. rewrite stM_bind_Ok. setoid_rewrite gets_Ok.
  setoid_rewrite lift_Ok. setoid_rewrite pack_unpack_unchecked_Ok. naive_solver.
Qed.
Lemma pack_info_Ok (T : Type) `{Pack T} (v : T) i s u s' :
  pack_info v i s = (Ok u, s') -> writes s (key i) v s'.
Proof.
  unfold pack_info, borrow_data, write_data, writes. intros Hr. inv_run.
  match goal with H : pack_pack _ _ = Ok _ |- _ => apply pack_pack_Ok in H as [? ?] end. eauto.
Qed.
End TokenFacts.

Ltac inv_run_token :=
  match goal with
  | H : next_info _ _ = (Ok ?p, _) |- _ =>
      is_var p; destruct p
  | H : next_info _ _ = (Ok (_, _), _) |- _ => apply next_info_Ok in H as [? ?]
  | H : unpack_info _ _ _ = (Ok _, _) |- _ => apply unpack_info_Ok in H as [? H]
  | H : unpack_unchecked_info _ _ _ = (Ok _, _) |- _ => apply unpack_unchecked_info_Ok in H as [? H]
  | H : pack_info _ _ _ = (Ok _, _) |- _ => apply pack_info_Ok in H
  | H : checked_add _ _ = Some _ |- _ => apply checked_add_Some in H as [? ?]
  | H : checked_sub _ _ = Some _ |- _ => apply checked_sub_Some in H as [? ?]
  | H : owner_of _ _ = (Ok _, _) |- _ => unfold owner_of in H
  | H : data_len _ _ = (Ok _, _) |- _ => unfold data_len in H
  | H : lamports _ _ = (Ok _, _) |- _ => unfold lamports in H
  | H : borrow_data _ _ = (Ok _, _) |- _ => unfold borrow_data in H
  | H : set_lamports _ _ _ = (Ok _, _) |- _ => unfold set_lamports in H
  | H : read_rent _ _ = (Ok _, _) |- _ => unfold read_rent, cell_of in H
  end.
Ltac inv_run_ext ::= inv_run_token.
