(* ===== verification/TokenRuns.v ===== *)
(** * Successful runs of the token handlers

    One lemma per handler: what a successful run has checked, whose signature
    it needed, and which packed accounts it leaves. *)
From S2P Require Import Prelude Machine Sdk TokenInstruction TokenState TokenCodec TokenProcessor TokenFacts.

(** ** Stores that differ in the data of some accounts *)
(** only the accounts at [K] have new data, no account has a new owner *)
Definition data_kept (K : list Pubkey) (s s' : Store) : Prop :=
  forall k, cell_owner (get_cell s' k) = cell_owner (get_cell s k) /\
            (k ∉ K -> cell_data (get_cell s' k) = cell_data (get_cell s k)).
#[global] Instance data_kept_preorder K : PreOrder (data_kept K).
Proof.
  split; [by intros s k|]. intros s1 s2 s3 H1 H2 k. destruct (H1 k) as [O1 D1], (H2 k) as [O2 D2].
  split; [congruence|]. intros HK. by rewrite (D2 HK), (D1 HK).
Qed.
Lemma data_kept_weaken K K' s s' : K ⊆ K' -> data_kept K s s' -> data_kept K' s s'.
Proof. intros HK H k. destruct (H k) as [? D]. split; [done|]. intros Hk. apply D. by intros ?%HK. Qed.
Lemma data_kept_lamports s k z : data_kept [] s (set_cell_lamports s k z).
Proof. intros k'. by rewrite owner_set_lamports, data_set_lamports. Qed.
Lemma data_kept_writes {T} `{Pack T} s k (v : T) s' : writes s k v s' -> data_kept [k] s s'.
Proof.
  intros (d & _ & ->) k'. rewrite owner_set_data, data_set_data. split; [done|].
  intros Hk. rewrite decide_False; [done|]. intros ->. apply Hk. by left.
Qed.
Lemma data_kept_decodes {T} `{Pack T} K s s' k (v : T) :
  data_kept K s s' -> k ∉ K -> decodes T s k v -> decodes T s' k v.
Proof. intros H1 Hk. apply decodes_get_cell. symmetry. by apply H1. Qed.
(** packed accounts of different layouts are different accounts *)
Lemma decodes_ne {T T'} `{Pack T} `{Pack T'} s k k' (v : T) (v' : T') :
  decodes T s k v -> decodes T' s k' v' -> pack_LEN T <> pack_LEN T' -> k <> k'.
Proof. intros [Hl _] [Hl' _] Hne ->. congruence. Qed.

(** ** Signatures *)
(** the owner account [i] stands for [expected]: it signed, or it is a
    multisig of the program and at least [m] of its positions are taken by
    accounts among [signers] that signed *)
Definition signed_by (s : Store) (program_id expected : Pubkey) (i : AccountInfo) (signers : list AccountInfo) : Prop :=
  key i = expected /\
  if bool_decide (program_id = cell_owner (get_cell s expected)) &&
     (len (cell_data (get_cell s expected)) =? Z.of_nat MULTISIG_LEN)
  then exists ms (positions : list nat),
         holds Multisig s expected ms /\ NoDup positions /\ ms_m ms <= Z.of_nat (length positions) /\
         forall n, n ∈ positions -> Z.of_nat n < ms_n ms /\
           exists signer, signer ∈ signers /\ is_signer signer = true /\ ms_signers ms !! n = Some (key signer)
  else is_signer i = true.

Section Owner.
Context `{SDK : SolanaSdk} {LAWS : SolanaSdkLaws SDK}.
Implicit Types (s : Store) (i : AccountInfo).

(** what the matching loop has established about its state *)
Definition matched_inv (ms : Multisig) (signers : list AccountInfo) (st : list bool * Z) : Prop :=
  length st.1 = MAX_SIGNERS /\
  exists positions : list nat,
    NoDup positions /\ st.2 = Z.of_nat (length positions) /\
    forall n, n ∈ positions -> st.1 !! n = Some true /\ Z.of_nat n < ms_n ms /\
      exists signer, signer ∈ signers /\ is_signer signer = true /\ ms_signers ms !! n = Some (key signer).
Lemma multisig_positions_Ok ms positions n k :
  u8_range (ms_n ms) -> length (ms_signers ms) = MAX_SIGNERS -> multisig_positions ms = Ok positions ->
  (n, k) ∈ positions -> ms_signers ms !! n = Some k /\ Z.of_nat n < ms_n ms /\ (n < MAX_SIGNERS)%nat.
Proof.
  intros Hn Hl. unfold multisig_positions, u8_range in *. case_match; [|done]. intros [= <-].
  intros Hin. apply elem_of_lookup_imap in Hin as (n' & k' & [= -> ->] & Hlk).
  apply lookup_take_Some in Hlk as [Hlk Hlt]. split; [done|]. split; [lia|].
  rewrite <- Hl. by eapply lookup_lt_Some.
Qed.
Lemma match_signer_inv ms signers signer st pk st' :
  signer ∈ signers -> ms_signers ms !! pk.1 = Some pk.2 -> Z.of_nat pk.1 < ms_n ms -> (pk.1 < MAX_SIGNERS)%nat ->
  matched_inv ms signers st -> match_signer signer st pk = Ok st' -> matched_inv ms signers st'.
Proof.
  destruct st as [matched num], pk as [n k]. cbn [fst snd]. intros Hs Hk Hn Hlt (Hl & ps & Hnd & Hnum & Hps).
  cbn [fst snd] in Hl, Hnum. unfold match_signer. destruct (bool_decide (k = key signer) && _) eqn:E.
  2: { intros [= <-]. split; [done|]. by exists ps. }
  destruct (is_signer signer) eqn:Es; [|done]. cbn. intros [= <-]. bool_hyps. subst k.
  assert (Hlook : matched !! n = Some false).
  { destruct (lookup_lt_is_Some_2 matched n) as [b Hb]; [by rewrite Hl|].
    match goal with H : default false _ = false |- _ => rewrite Hb in H; cbn in H; by subst b end. }
  split; [cbn; by rewrite length_insert|]. exists (n :: ps). split_and!.
  - apply NoDup_cons. split; [|done]. intros Hin. destruct (Hps n Hin) as [Ht _]. cbn in Ht. congruence.
  - cbn [snd length] in *. lia.
  - intros n' [->|Hin]%elem_of_cons.
    + cbn [fst]. rewrite list_lookup_insert_eq by (rewrite Hl; done). split_and!; [done|done|by exists signer].
    + destruct (Hps n' Hin) as (Ht & ? & ?). cbn [fst] in *. split_and!; [|done..].
      rewrite list_lookup_insert_ne; [done|]. intros ->. congruence.
Qed.

Lemma validate_owner_Ok program_id expected i signers s u s' :
  validate_owner program_id expected i signers s = (Ok u, s') ->
  s = s' /\ signed_by s program_id expected i signers.
Proof.
  unfold validate_owner. intros Hr. inv_run. bool_hyps. subst expected. unfold signed_by.
  case_run; inv_run; (split; [done|]); (split; [done|]); [|by bool_hyps].
  match goal with H : holds Multisig _ _ ?ms |- _ => rename H into Hms; exists ms end.
  pose proof (decodes_wf _ _ _ (proj1 Hms)) as (Hm & Hn & Hl).
  match goal with H : fold_outcome _ _ _ = Ok (?matched, ?num) |- _ =>
    assert (HI : matched_inv x (signers) (matched, num)) end.
  { match goal with H : fold_outcome _ _ _ = Ok _ |- _ => revert H end. apply fold_outcome_invariant.
    - intros st signer st' Hs HI (positions & Hpos & Hf)%outcome_bind_Ok. revert Hf.
      apply fold_outcome_invariant; [|done]. intros st1 [n k] st2 Hin HI1.
      destruct (multisig_positions_Ok _ _ n k Hn Hl Hpos Hin) as (? & ? & ?). by apply match_signer_inv.
    - split; [done|]. exists []. split_and!; [constructor|done|]. by intros n ?%elem_of_nil. }
  destruct HI as (_ & ps & Hnd & Hnum & Hps). exists ps. cbn [snd] in Hnum. bool_hyps. split_and!; [done|done|lia|].
  intros n Hin. destruct (Hps n Hin) as (_ & ? & ?). by split.
Qed.
End Owner.

(** ** Writing packed accounts *)
Section TwoWrites.
Context {T T' : Type} `{PackLaws T} `{PackLaws T'}.
Lemma decodes_set_lamports s k z k' (v : T) : decodes T s k' v -> decodes T (set_cell_lamports s k z) k' v.
Proof. intros Hd. eapply decodes_get_cell; [|exact Hd].
  by rewrite data_set_lamports. Qed.
Lemma write_one s k (v0 v : T) s' :
  decodes T s k v0 -> pack_wf v -> writes s k v s' -> decodes T s' k v /\ data_kept [k] s s'.
Proof. intros Hd Hw Hs. split; [by eapply writes_decodes|exact (data_kept_writes _ _ _ _ Hs)]. Qed.
Lemma write_two s s1 s' k k' (v0 v : T) (w0 w : T') :
  k <> k' -> decodes T s k v0 -> decodes T' s k' w0 -> pack_wf v -> pack_wf w ->
  writes s k v s1 -> writes s1 k' w s' ->
  decodes T s' k v /\ decodes T' s' k' w /\ data_kept [k; k'] s s'.
Proof.
  intros Hne Hv Hw Hvw Hww W1 W2.
  pose proof (data_kept_writes _ _ _ _ W1) as K1. pose proof (data_kept_writes _ _ _ _ W2) as K2.
  assert (Hw1 : decodes T' s1 k' w0).
  { apply (data_kept_decodes [k] s); [done| |done]. by rewrite list_elem_of_singleton. }
  split_and!.
  - apply (data_kept_decodes [k'] s1); [done|by rewrite list_elem_of_singleton|]. by eapply writes_decodes.
  - by eapply writes_decodes.
  - etrans; [eapply data_kept_weaken; [|exact K1]|eapply data_kept_weaken; [|exact K2]]; set_solver.
Qed.
End TwoWrites.

(** ** The handlers *)
(** the account after a spend: at most its delegation has changed *)
Definition spent (a a' : Account) : Prop :=
  acc_mint a' = acc_mint a /\ acc_owner a' = acc_owner a /\ acc_amount a' = acc_amount a /\
  acc_state a' = acc_state a /\ acc_is_native a' = acc_is_native a /\
  acc_close_authority a' = acc_close_authority a /\ (Account_wf a -> Account_wf a').
(** who may spend [amount] from [a]: its delegate within the allowance, or its owner *)
Definition spend_authority (s : Store) (program_id : Pubkey) (a : Account) (i : AccountInfo)
    (signers : list AccountInfo) (amount : Z) : Prop :=
  (exists d, acc_delegate a = Some d /\ signed_by s program_id d i signers /\ amount <= acc_delegated_amount a) \/
  signed_by s program_id (acc_owner a) i signers.
(** the mint account the [Checked] variants insert after the source *)
Definition mint_slot (expected_decimals : option Z) (mint_i : AccountInfo) : list AccountInfo :=
  match expected_decimals with Some _ => [mint_i] | None => [] end.

Lemma spent_refl a : spent a a.
Proof. by split_and!. Qed.
Lemma Account_wf_amount a z : Account_wf a -> u64_range z -> Account_wf (set_acc_amount z a).
Proof. unfold Account_wf. naive_solver. Qed.
Lemma Mint_wf_supply m z : Mint_wf m -> u64_range z -> Mint_wf (set_mint_supply z m).
Proof. unfold Mint_wf. naive_solver. Qed.
Lemma holds_Account_wf s k a : holds Account s k a -> Account_wf a.
Proof. intros [Ha _]. exact (decodes_wf _ _ _ Ha). Qed.
Lemma holds_Mint_wf s k m : holds Mint s k m -> Mint_wf m.
Proof. intros [Hm _]. exact (decodes_wf _ _ _ Hm). Qed.

Section Runs.
Context `{SDK : SolanaSdk} {LAWS : SolanaSdkLaws SDK}.
Implicit Types (s : Store) (i : AccountInfo) (signers : list AccountInfo).

Lemma authorize_spend_Ok program_id a i signers amount spend s a' s' :
  authorize_spend program_id a i signers amount spend s = (Ok a', s') -> 0 <= amount ->
  s = s' /\ spend_authority s program_id a i signers amount /\ spent a a' /\ (spend = false -> a' = a).
Proof.
  unfold authorize_spend. intros Hr H0.
  assert (Hown : forall s1, (validate_owner program_id (acc_owner a) i signers ≫= (fun _ => mret a)) s = (Ok a', s1) ->
    s = s1 /\ spend_authority s program_id a i signers amount /\ spent a a' /\ (spend = false -> a' = a)).
  { intros s1 Hr1. inv_run. match goal with H : validate_owner _ _ _ _ _ = _ |- _ => apply validate_owner_Ok in H as [<- ?] end.
    split_and!; [done|by right|apply spent_refl|done]. }
  destruct (acc_delegate a) as [d|] eqn:Ed; [|by apply Hown]. case_run; [|by apply Hown]. clear Hown. bool_hyps.
  inv_run. match goal with H : validate_owner _ _ _ _ _ = _ |- _ => apply validate_owner_Ok in H as [<- ?] end.
  bool_hyps. assert (Hauth : spend_authority s program_id a i signers amount) by (left; eauto).
  destruct spend; inv_run; (split; [done|]; split; [done|]; split; [|done]); [|apply spent_refl].
  assert (Hwf : Account_wf a -> Account_wf (set_acc_delegated_amount (acc_delegated_amount a - amount) a)).
  { unfold Account_wf, u64_range. cbn. naive_solver lia. }
  case_match; by split_and!.
Qed.

Lemma check_expected_mint_Ok a e s u s' : check_expected_mint a e s = (Ok u, s') -> s = s'.
Proof. unfold check_expected_mint. destruct e as [[mint_i d]|]; intros Hr; by inv_run. Qed.
Lemma check_expected_decimals_Ok d m s u s' :
  check_expected_decimals d m s = (Ok u, s') -> s = s' /\ forall x, d = Some x -> x = mint_decimals m.
Proof. unfold check_expected_decimals. destruct d; intros Hr; inv_run; bool_hyps; naive_solver. Qed.
Lemma next_expected_mint_Ok d it s e it' s' :
  next_expected_mint d it s = (Ok (e, it'), s') ->
  s = s' /\ exists mint_i, it = mint_slot d mint_i ++ it'.
Proof.
  unfold next_expected_mint. destruct d; intros Hr; inv_run; (split; [done|]); [by eexists|].
  by exists (mk_info default_pubkey false false).
Qed.
End Runs.

Ltac inv_run_owner :=
  match goal with
  | H : validate_owner _ _ _ _ _ = (Ok _, _) |- _ => apply validate_owner_Ok in H as [? H]
  | H : authorize_spend _ _ _ _ _ _ _ = (Ok _, _) |- _ => apply authorize_spend_Ok in H as (? & ? & ? & ?); [|assumption]
  | H : check_expected_mint _ _ _ = (Ok _, _) |- _ => apply check_expected_mint_Ok in H
  | H : check_expected_decimals _ _ _ = (Ok _, _) |- _ => apply check_expected_decimals_Ok in H as [? H]
  | H : next_expected_mint _ _ _ = (Ok ?p, _) |- _ => is_var p; destruct p
  | H : next_expected_mint _ _ _ = (Ok (_, _), _) |- _ => apply next_expected_mint_Ok in H as (? & ? & ?)
  end.
Ltac inv_run_ext ::= first [inv_run_owner | inv_run_token].

Section Handlers.
Context `{SDK : SolanaSdk} {LAWS : SolanaSdkLaws SDK}.
Context {program_id : Pubkey}.
Implicit Types (s : Store) (i : AccountInfo) (signers : list AccountInfo).

(** the lamports that follow a native transfer leave the data alone *)
Lemma native_lamports_kept (native : bool) src_i dst_i amount s u s' :
  (if native then
     source_starting_lamports ← lamports src_i;
     l ← lift (ok_or (token_err Overflow) (checked_sub source_starting_lamports amount));
     set_lamports src_i l;;
     dest_starting_lamports ← lamports dst_i;
     l ← lift (ok_or (token_err Overflow) (checked_add dest_starting_lamports amount));
     set_lamports dst_i l
   else mret tt : M unit) s = (Ok u, s') -> data_kept [] s s'.
Proof.
  intros Hr. destruct native; inv_run; [|reflexivity].
  etrans; apply data_kept_lamports.
Qed.

Lemma transfer_run accounts amount expected_decimals s u s' :
  process_transfer program_id accounts amount expected_decimals s = (Ok u, s') -> 0 <= amount ->
  exists src_i mint_i dst_i auth_i signers a b,
    accounts = src_i :: mint_slot expected_decimals mint_i ++ dst_i :: auth_i :: signers /\
    holds Account s (key src_i) a /\ holds Account s (key dst_i) b /\
    is_frozen a = false /\ is_frozen b = false /\ amount <= acc_amount a /\ acc_mint a = acc_mint b /\
    spend_authority s program_id a auth_i signers amount /\
    data_kept [key src_i; key dst_i] s s' /\
    if decide (key src_i = key dst_i) then s' = s
    else exists a1, spent a a1 /\ acc_amount b + amount < 2 ^ 64 /\
      decodes Account s' (key src_i) (set_acc_amount (acc_amount a - amount) a1) /\
      decodes Account s' (key dst_i) (set_acc_amount (acc_amount b + amount) b).
Proof.
  unfold process_transfer. intros Hr H0. inv_run.
  do 7 eexists. split; [reflexivity|]. split; [eassumption|]. split; [eassumption|]. bool_hyps.
  do 5 (split; [done|]).
  match goal with Hs : holds Account _ (key ?si) ?a, Hd : holds Account _ (key ?di) ?b, Ha : spent ?a ?a1 |- _ =>
    rename Hs into Hsrc, Hd into Hdst, Ha into Hspent end.
  rewrite bool_decide_decide in Hr. case_decide as Hkeys; inv_run; [done|].
  match goal with H : (if is_native _ then _ else _) _ = _ |- _ => apply native_lamports_kept in H as Hl end.
  pose proof (holds_Account_wf _ _ _ Hsrc) as Hwa. pose proof (holds_Account_wf _ _ _ Hdst) as Hwb.
  match goal with W1 : writes ?s1 (key ?si) ?v ?s2, W2 : writes ?s2 (key ?di) ?w ?s3 |- _ =>
    destruct (write_two s1 s2 s3 (key si) (key di) _ v _ w Hkeys
      (data_kept_decodes [] _ _ _ _ Hl (not_elem_of_nil _) (proj1 Hsrc))
      (data_kept_decodes [] _ _ _ _ Hl (not_elem_of_nil _) (proj1 Hdst))) as (? & ? & ?); [| |done|done|] end.
  - destruct Hspent as (_ & _ & Eamt & _ & _ & _ & Hws). destruct (Hws Hwa) as (Hra & _).
    apply (Account_wf_amount _ _ (Hws Hwa)). unfold u64_range in *. lia.
  - apply (Account_wf_amount _ _ Hwb). destruct Hwb as (? & _). unfold u64_range in *. lia.
  - split; [etrans; [eapply data_kept_weaken; [|exact Hl]; set_solver|done]|].
    eexists. split; [exact Hspent|]. destruct Hspent as (_ & _ & <- & _). by split_and!.
Qed.

Lemma mint_to_run accounts amount expected_decimals s u s' :
  process_mint_to program_id accounts amount expected_decimals s = (Ok u, s') -> 0 <= amount ->
  exists mint_i dst_i auth_i signers m b authority,
    accounts = mint_i :: dst_i :: auth_i :: signers /\
    holds Mint s (key mint_i) m /\ holds Account s (key dst_i) b /\
    is_frozen b = false /\ is_native b = false /\ acc_mint b = key mint_i /\
    mint_authority m = Some authority /\ signed_by s program_id authority auth_i signers /\
    acc_amount b + amount < 2 ^ 64 /\ mint_supply m + amount < 2 ^ 64 /\
    data_kept [key dst_i; key mint_i] s s' /\
    decodes Account s' (key dst_i) (set_acc_amount (acc_amount b + amount) b) /\
    decodes Mint s' (key mint_i) (set_mint_supply (mint_supply m + amount) m).
Proof.
  unfold process_mint_to. intros Hr H0. inv_run.
  match goal with H : match mint_authority ?m with _ => _ end _ = _ |- _ =>
    destruct (mint_authority m) as [authority|] eqn:Em; inv_run end.
  bool_hyps.
  match goal with Hs : holds Mint _ (key ?si) ?a, Hd : holds Account _ (key ?di) ?b |- _ =>
    rename Hs into Hm, Hd into Hdst end.
  pose proof (decodes_ne _ _ _ _ _ (proj1 Hdst) (proj1 Hm) ltac:(done)) as Hkeys.
  pose proof (holds_Mint_wf _ _ _ Hm) as Hwm. pose proof (holds_Account_wf _ _ _ Hdst) as Hwb.
  match goal with W1 : writes ?s1 (key ?di) ?v ?s2, W2 : writes ?s2 (key ?mi) ?w ?s3 |- _ =>
    destruct (write_two s1 s2 s3 (key di) (key mi) _ v _ w Hkeys (proj1 Hdst) (proj1 Hm)) as (? & ? & ?);
      [| |done|done|] end.
  - apply (Account_wf_amount _ _ Hwb). destruct Hwb as (? & _). unfold u64_range in *. lia.
  - apply (Mint_wf_supply _ _ Hwm). destruct Hwm as (? & _). unfold u64_range in *. lia.
  - do 7 eexists. split; [reflexivity|]. by split_and!.
Qed.

Lemma burn_run accounts amount expected_decimals s u s' :
  process_burn program_id accounts amount expected_decimals s = (Ok u, s') -> 0 <= amount ->
  exists src_i mint_i auth_i signers a m a1,
    accounts = src_i :: mint_i :: auth_i :: signers /\
    holds Account s (key src_i) a /\ holds Mint s (key mint_i) m /\
    is_frozen a = false /\ is_native a = false /\ acc_mint a = key mint_i /\
    amount <= acc_amount a /\ amount <= mint_supply m /\
    spend_authority s program_id a auth_i signers amount /\ spent a a1 /\
    data_kept [key src_i; key mint_i] s s' /\
    decodes Account s' (key src_i) (set_acc_amount (acc_amount a - amount) a1) /\
    decodes Mint s' (key mint_i) (set_mint_supply (mint_supply m - amount) m).
Proof.
  unfold process_burn. intros Hr H0. inv_run. bool_hyps.
  match goal with Hs : holds Mint _ (key ?si) ?a, Hd : holds Account _ (key ?di) ?b, Ha : spent ?b ?a1 |- _ =>
    rename Hs into Hm, Hd into Hsrc, Ha into Hspent end.
  pose proof (decodes_ne _ _ _ _ _ (proj1 Hsrc) (proj1 Hm) ltac:(done)) as Hkeys.
  pose proof (holds_Mint_wf _ _ _ Hm) as Hwm. pose proof (holds_Account_wf _ _ _ Hsrc) as Hwa.
  match goal with W1 : writes ?s1 (key ?di) ?v ?s2, W2 : writes ?s2 (key ?mi) ?w ?s3 |- _ =>
    destruct (write_two s1 s2 s3 (key di) (key mi) _ v _ w Hkeys (proj1 Hsrc) (proj1 Hm)) as (? & ? & ?);
      [| |done|done|] end.
  - destruct Hspent as (_ & _ & Eamt & _ & _ & _ & Hws). destruct (Hws Hwa) as (Hra & _).
    apply (Account_wf_amount _ _ (Hws Hwa)). unfold u64_range in *. lia.
  - apply (Mint_wf_supply _ _ Hwm). destruct Hwm as (? & _). unfold u64_range in *. lia.
  - do 7 eexists. split; [reflexivity|]. split; [eassumption|]. split; [eassumption|].
    do 4 (split; [done|]). split; [done|]. split; [eassumption|]. split; [exact Hspent|].
    destruct Hspent as (_ & _ & <- & _). by split_and!.
Qed.

(** the handlers that rewrite one token account *)
Ltac wrote_account :=
  lazymatch goal with
  | Hs : holds Account _ ?k ?a, W : writes _ ?k ?v _ |- _ =>
      let Hw := fresh "Hw" in let Hv := fresh "Hv" in
      pose proof (holds_Account_wf _ _ _ Hs) as Hw;
      assert (Hv : Account_wf v) by (destruct Hw as (? & ? & ?); split; [done|]; split; done);
      destruct (write_one (H0:=Account_PackLaws) _ _ _ v _ (proj1 Hs) Hv W) as [? ?]
  end.

Lemma approve_run accounts amount expected_decimals s u s' :
  process_approve program_id accounts amount expected_decimals s = (Ok u, s') -> u64_range amount ->
  exists src_i mint_i delegate_i owner_i signers a,
    accounts = src_i :: mint_slot expected_decimals mint_i ++ delegate_i :: owner_i :: signers /\
    holds Account s (key src_i) a /\ is_frozen a = false /\
    signed_by s program_id (acc_owner a) owner_i signers /\ data_kept [key src_i] s s' /\
    decodes Account s' (key src_i) (set_acc_delegated_amount amount (set_acc_delegate (Some (key delegate_i)) a)).
Proof.
  unfold process_approve. intros Hr H0. inv_run.
  wrote_account.
  do 6 eexists. split; [reflexivity|]. split; [eassumption|]. by split_and!.
Qed.
Lemma revoke_run accounts s u s' :
  process_revoke program_id accounts s = (Ok u, s') ->
  exists src_i owner_i signers a,
    accounts = src_i :: owner_i :: signers /\
    holds Account s (key src_i) a /\ is_frozen a = false /\
    signed_by s program_id (acc_owner a) owner_i signers /\ data_kept [key src_i] s s' /\
    decodes Account s' (key src_i) (set_acc_delegated_amount 0 (set_acc_delegate None a)).
Proof.
  unfold process_revoke. intros Hr. inv_run.
  wrote_account.
  do 4 eexists. split; [reflexivity|]. split; [eassumption|]. by split_and!.
Qed.
Lemma toggle_freeze_run accounts freeze s u s' :
  process_toggle_freeze_account program_id accounts freeze s = (Ok u, s') ->
  exists src_i mint_i auth_i signers a m authority,
    accounts = src_i :: mint_i :: auth_i :: signers /\
    holds Account s (key src_i) a /\ holds Mint s (key mint_i) m /\ is_frozen a = negb freeze /\
    is_native a = false /\ acc_mint a = key mint_i /\ mint_freeze_authority m = Some authority /\
    signed_by s program_id authority auth_i signers /\ data_kept [key src_i] s s' /\
    decodes Account s' (key src_i) (set_acc_state (if freeze then Frozen else Initialized) a).
Proof.
  unfold process_toggle_freeze_account. intros Hr. inv_run.
  match goal with H : match mint_freeze_authority ?m with _ => _ end _ = _ |- _ =>
    destruct (mint_freeze_authority m) as [authority|] eqn:Em; inv_run end.
  wrote_account.
  do 7 eexists. split; [reflexivity|]. split; [eassumption|]. split; [eassumption|].
  assert (Hf : is_frozen x = negb freeze) by (destruct freeze, (is_frozen x); done).
  bool_hyps. by split_and!.
Qed.
Lemma close_run accounts s u s' :
  process_close_account program_id accounts s = (Ok u, s') ->
  exists src_i dst_i auth_i signers a,
    accounts = src_i :: dst_i :: auth_i :: signers /\ holds Account s (key src_i) a /\
    (is_native a = true \/ acc_amount a = 0) /\
    signed_by s program_id (default (acc_owner a) (acc_close_authority a)) auth_i signers /\
    data_kept [key src_i] s s' /\ decodes Account s' (key src_i) (set_acc_amount 0 a).
Proof.
  unfold process_close_account. intros Hr. inv_run.
  match goal with Hs : holds Account ?s (key ?si) ?a, W : writes ?s1 _ ?v _ |- _ =>
    pose proof (holds_Account_wf _ _ _ Hs) as Hw;
    assert (Hl : data_kept [] s s1) by (etrans; apply data_kept_lamports);
    destruct (write_one (H0:=Account_PackLaws) _ _ _ v _ (data_kept_decodes [] _ _ _ _ Hl (not_elem_of_nil _) (proj1 Hs))
      (Account_wf_amount _ 0 Hw ltac:(done)) W) as [? ?] end.
  do 5 eexists. split; [reflexivity|]. split; [eassumption|]. split; [|split; [done|]].
  - destruct (is_native _); [by left|right]. cbn in *. by bool_hyps.
  - split; [|done]. etrans; [eapply data_kept_weaken; [|exact Hl]; set_solver|done].
Qed.

(** what [set_authority] may do to a token account, and to a mint *)
Definition account_authority_set (s : Store) (a a' : Account) (authority_type : AuthorityType)
    (new_authority : option Pubkey) (auth_i : AccountInfo) (signers : list AccountInfo) : Prop :=
  (authority_type = AccountOwner /\ signed_by s program_id (acc_owner a) auth_i signers /\
   exists k, new_authority = Some k /\ a' = set_acc_owner k a) \/
  (authority_type = CloseAccountAuthority /\
   signed_by s program_id (default (acc_owner a) (acc_close_authority a)) auth_i signers /\
   a' = set_acc_close_authority new_authority a).
Definition mint_authority_set (s : Store) (m m' : Mint) (authority_type : AuthorityType)
    (new_authority : option Pubkey) (auth_i : AccountInfo) (signers : list AccountInfo) : Prop :=
  (authority_type = MintTokens /\
   (exists k, mint_authority m = Some k /\ signed_by s program_id k auth_i signers) /\
   m' = set_mint_authority new_authority m) \/
  (authority_type = FreezeAccountAuthority /\
   (exists k, mint_freeze_authority m = Some k /\ signed_by s program_id k auth_i signers) /\
   m' = set_mint_freeze_authority new_authority m).

Lemma set_account_authority_run i auth_i signers authority_type new_authority s u s' :
  set_account_authority program_id i auth_i signers authority_type new_authority s = (Ok u, s') ->
  exists a a', holds Account s (key i) a /\ is_frozen a = false /\ data_kept [key i] s s' /\
    decodes Account s' (key i) a' /\ account_authority_set s a a' authority_type new_authority auth_i signers.
Proof.
  unfold set_account_authority. intros Hr. destruct authority_type; inv_run.
  - destruct new_authority as [k|]; inv_run. wrote_account.
    do 2 eexists. do 4 (split; [eassumption|]). left. split_and!; eauto.
  - wrote_account. do 2 eexists. do 4 (split; [eassumption|]). by right.
Qed.
Lemma set_mint_authorities_run i auth_i signers authority_type new_authority s u s' :
  set_mint_authorities program_id i auth_i signers authority_type new_authority s = (Ok u, s') ->
  exists m m', holds Mint s (key i) m /\ data_kept [key i] s s' /\
    decodes Mint s' (key i) m' /\ mint_authority_set s m m' authority_type new_authority auth_i signers.
Proof.
  unfold set_mint_authorities. intros Hr. destruct authority_type; inv_run.
  all: match goal with Hs : holds Mint _ _ _, W : writes _ _ ?v _ |- _ =>
    pose proof (holds_Mint_wf _ _ _ Hs) as Hw;
    destruct (write_one (H0:=Mint_PackLaws) _ _ _ v _ (proj1 Hs) Hw W) as [? ?] end.
  - do 2 eexists. do 3 (split; [eassumption|]). left. split_and!; eauto.
  - do 2 eexists. do 3 (split; [eassumption|]). right. split_and!; eauto.
Qed.
Lemma set_authority_run accounts authority_type new_authority s u s' :
  process_set_authority program_id accounts authority_type new_authority s = (Ok u, s') ->
  exists i auth_i signers,
    accounts = i :: auth_i :: signers /\ data_kept [key i] s s' /\
    ((exists a a', holds Account s (key i) a /\ is_frozen a = false /\ decodes Account s' (key i) a' /\
        account_authority_set s a a' authority_type new_authority auth_i signers) \/
     (exists m m', holds Mint s (key i) m /\ decodes Mint s' (key i) m' /\
        mint_authority_set s m m' authority_type new_authority auth_i signers)).
Proof.
  unfold process_set_authority. intros Hr. inv_run. do 3 eexists. split; [reflexivity|].
  case_run; [|case_run; inv_run].
  - apply set_account_authority_run in Hr as (a' & a'' & ? & ? & ? & ? & ?). split; [done|]. left. eauto 10.
  - apply set_mint_authorities_run in Hr as (m & m' & ? & ? & ? & ?). split; [done|]. right. eauto 10.
Qed.

Lemma initialize_mint_run accounts decimals authority freeze_authority s u s' :
  process_initialize_mint accounts decimals authority freeze_authority s = (Ok u, s') -> u8_range decimals ->
  exists mint_i rest m0,
    accounts = mint_i :: rest /\ decodes Mint s (key mint_i) m0 /\ mint_is_initialized m0 = false /\
    data_kept [key mint_i] s s' /\
    decodes Mint s' (key mint_i) (mk_mint (Some authority) (mint_supply m0) decimals true freeze_authority).
Proof.
  unfold process_initialize_mint. intros Hr Hd. inv_run.
  match goal with Hs : decodes Mint _ _ _, W : writes _ _ ?v _ |- _ =>
    pose proof (decodes_wf _ _ _ Hs) as [Hw _];
    destruct (write_one (H0:=Mint_PackLaws) _ _ _ v _ Hs (conj Hw Hd) W) as [? ?] end.
  do 3 eexists. split; [reflexivity|]. by split_and!.
Qed.

Lemma initialize_account_run accounts owner s u s' :
  _process_initialize_account accounts owner s = (Ok u, s') -> store_wf s ->
  exists new_i mint_i rest a0 owner' native amount,
    accounts = new_i :: mint_i :: rest /\ decodes Account s (key new_i) a0 /\
    account_is_initialized a0 = false /\
    (if decide (key mint_i = native_mint_id) then
       exists r, native = Some r /\ 0 <= r /\ amount = cell_lamports (get_cell s (key new_i)) - r
     else native = None /\ amount = 0 /\ exists m, holds Mint s (key mint_i) m) /\
    data_kept [key new_i] s s' /\
    decodes Account s' (key new_i)
      (mk_account (key mint_i) owner' amount None Initialized native 0 (acc_close_authority a0)).
Proof.
  unfold _process_initialize_account. intros Hr Hw. inv_run.
  match goal with H : match owner with _ => _ end x1 = (Ok _, ?s1) |- _ =>
    assert (x1 = s1) as <- by (destruct owner; inv_run; done); clear H end.
  rewrite !bool_decide_decide in *. destruct (decide (key a0 = native_mint_id)) as [Hn|Hn]; cbn [negb] in *; inv_run.
  - match goal with W : writes ?s0 _ ?v _ |- _ => assert (Hv : Account_wf v) end.
    { match goal with |- context [rent_minimum_balance ?r ?n] => pose proof (rent_minimum_balance_range r n) as Hb end.
      pose proof (Hw (key a)) as Hl. split; [|split]; cbn; [unfold u64_range in *; lia|done|done]. }
    destruct (write_one (H0:=Account_PackLaws) _ _ _ _ _ H5 Hv Hr) as [? ?].
    do 7 eexists. split; [reflexivity|]. rewrite decide_True by done. split; [eassumption|]. split; [done|].
    split; [|by split]. match goal with |- context [rent_minimum_balance ?r ?n] =>
      pose proof (rent_minimum_balance_range r n) as Hb end.
    eexists. split; [done|]. unfold u64_range in *. split; [lia|done].
  - match goal with H : pack_unpack _ = Ok _ |- _ => apply pack_unpack_Ok in H as (? & ? & ?) end.
    match goal with W : writes ?s0 _ ?v _ |- _ => assert (Hv : Account_wf v) by done end.
    destruct (write_one (H0:=Account_PackLaws) _ _ _ _ _ H5 Hv Hr) as [? ?].
    do 7 eexists. split; [reflexivity|]. rewrite decide_False by done. split; [eassumption|]. split; [done|]. split; [|by split].
    split_and!; [done|done|]. eexists. split; [split; eassumption|done].
Qed.

Lemma set_signers_Ok n0 ks l l' :
  fold_outcome set_signer l (imap (fun j k => ((n0 + j)%nat, k)) ks) = Ok l' -> (n0 <= length l)%nat ->
  (n0 + length ks <= length l)%nat /\ l' = take n0 l ++ ks ++ drop (n0 + length ks) l.
Proof.
  revert n0 l. induction ks as [|k ks IH]; intros n0 l; cbn [imap fold_outcome length].
  { intros [= <-] Hn. rewrite Nat.add_0_r. cbn. by rewrite take_drop. }
  rewrite outcome_bind_Ok. intros (l1 & H1 & H2) Hn. unfold set_signer in H1. cbn [fst snd] in H1.
  rewrite Nat.add_0_r in H1. destruct (Nat.ltb_spec n0 (length l)); [|done]. injection H1 as <-.
  assert (E : imap ((fun j k => ((n0 + j)%nat, k)) ∘ S) ks = imap (fun j k => ((S n0 + j)%nat, k)) ks).
  { apply imap_ext. intros j x _. cbn. f_equal. lia. }
  rewrite E in H2. apply IH in H2 as [Hlen ->]; rewrite length_insert in *; [|lia].
  split; [lia|]. rewrite (take_S_r _ n0 k) by by rewrite list_lookup_insert_eq.
  rewrite take_insert_ge by done. rewrite drop_insert_lt by lia.
  rewrite <- app_assoc. cbn. by rewrite Nat.add_succ_r.
Qed.
Lemma initialize_multisig_run accounts m s u s' :
  process_initialize_multisig accounts m s = (Ok u, s') -> u8_range m ->
  exists multisig_i rent_i signers ms0,
    accounts = multisig_i :: rent_i :: signers /\ decodes Multisig s (key multisig_i) ms0 /\
    ms_is_initialized ms0 = false /\ 1 <= m <= 11 /\ (1 <= length signers <= MAX_SIGNERS)%nat /\
    data_kept [key multisig_i] s s' /\
    decodes Multisig s' (key multisig_i)
      (mk_multisig m (len signers) true
         ((key <$> signers) ++ drop (length signers) (ms_signers ms0))).
Proof.
  unfold process_initialize_multisig. intros Hr Hm. inv_run. bool_hyps.
  match goal with H : fold_outcome _ _ _ = Ok _ |- _ => apply (set_signers_Ok 0) in H as [Hl ->]; [|lia] end.
  match goal with H : decodes Multisig _ _ ?ms |- _ => pose proof (decodes_wf _ _ _ H) as (_ & Hn0 & Hl0); rename H into Hd end.
  cbn [plus] in Hl. rewrite Hl0, length_fmap in Hl. rewrite length_fmap, take_0 in *. cbn [app plus] in *.
  assert (Hlen : as_u8 (len l0) = len l0).
  { unfold as_u8, wrap, len, MAX_SIGNERS in *. apply Z.mod_small. lia. }
  rewrite Hlen in *. unfold is_valid_signer_index in *. bool_hyps.
  match goal with W : writes _ _ ?v _ |- _ => assert (Hv : Multisig_wf v) end.
  { unfold Multisig_wf, u8_range, len, MAX_SIGNERS in *. cbn. split_and!; [lia..|].
    rewrite length_app, length_fmap, length_drop. lia. }
  destruct (write_one (H0:=Multisig_PackLaws) _ _ _ _ _ Hd Hv Hr) as [? ?].
  unfold MIN_SIGNERS, MAX_SIGNERS, len in *.
  do 4 eexists. split; [reflexivity|]. split; [exact Hd|]. split; [done|]. split; [lia|]. split; [lia|]. by split.
Qed.
End Handlers.
