(* ===== verification/TokenChanges.v ===== *)
(** * What a token instruction writes

    One lemma for all instructions: an account whose data a successful run
    changed holds a record of the same type before and after, and the record
    changed in one of a few ways.  The size of multisigs and the authority
    over a mint follow. *)
From S2P Require Import Prelude Machine Sdk TokenInstruction TokenState TokenCodec TokenProcessor TokenFacts TokenRuns.

Section Changes.
Context `{SDK : SolanaSdk} {LAWS : SolanaSdkLaws SDK}.
Context {program_id : Pubkey}.
Implicit Types (s : Store) (accounts signers : list AccountInfo) (k : Pubkey).

(** the passed accounts carry the signature of a mint's minting authority *)
Definition minting_signed s accounts (m : Mint) : Prop :=
  exists k i signers, mint_authority m = Some k /\ i ∈ accounts /\ signed_by s program_id k i signers.
(** a mint is set up, changed with the minting authority's signature, or has
    its supply lowered or its freeze authority changed *)
Definition mint_changed s accounts (m m' : Mint) : Prop :=
  mint_is_initialized m = false \/ minting_signed s accounts m \/
  (mint_authority m' = mint_authority m /\ mint_is_initialized m' = mint_is_initialized m /\
   mint_supply m' <= mint_supply m).
Definition cell_changed s s' accounts k : Prop :=
  cell_data (get_cell s' k) = cell_data (get_cell s k) \/
  (exists a a', decodes Account s k a /\ decodes Account s' k a') \/
  (exists m m', decodes Mint s k m /\ decodes Mint s' k m' /\ mint_changed s accounts m m') \/
  (exists ms ms', decodes Multisig s k ms /\ decodes Multisig s' k ms' /\ ms_n ms' <= Z.of_nat MAX_SIGNERS).

Lemma cell_same s s' accounts k K : data_kept K s s' -> k ∉ K -> cell_changed s s' accounts k.
Proof. intros HK Hk. left. by apply HK. Qed.
Lemma cell_account s s' accounts k k0 a a' :
  data_kept [k0] s s' -> decodes Account s k0 a -> decodes Account s' k0 a' -> cell_changed s s' accounts k.
Proof.
  intros HK Ha Ha'. destruct (decide (k = k0)) as [->|Hne]; [right; left; eauto|].
  eapply cell_same; [exact HK|]. by rewrite list_elem_of_singleton.
Qed.
Lemma cell_mint s s' accounts k k0 m m' :
  data_kept [k0] s s' -> decodes Mint s k0 m -> decodes Mint s' k0 m' -> mint_changed s accounts m m' ->
  cell_changed s s' accounts k.
Proof.
  intros HK Hm Hm' Hc. destruct (decide (k = k0)) as [->|Hne]; [right; right; left; eauto 10|].
  eapply cell_same; [exact HK|]. by rewrite list_elem_of_singleton.
Qed.
Lemma cell_account_mint s s' accounts k k0 k1 a a' m m' :
  data_kept [k0; k1] s s' -> decodes Account s k0 a -> decodes Account s' k0 a' ->
  decodes Mint s k1 m -> decodes Mint s' k1 m' -> mint_changed s accounts m m' -> cell_changed s s' accounts k.
Proof.
  intros HK Ha Ha' Hm Hm' Hc. destruct (decide (k = k0)) as [->|?]; [right; left; eauto|].
  destruct (decide (k = k1)) as [->|?]; [right; right; left; eauto 10|].
  eapply cell_same; [exact HK|]. set_solver.
Qed.

Lemma transfer_changes accounts amount d s u s' k :
  process_transfer program_id accounts amount d s = (Ok u, s') -> 0 <= amount -> cell_changed s s' accounts k.
Proof.
  intros Hr H0. destruct (transfer_run _ _ _ _ _ _ Hr H0)
    as (si & mi & di & ai & sg & a & b & _ & Ha & Hb & _ & _ & _ & _ & _ & HK & Hc).
  case_decide; [subst s'; by left|]. destruct Hc as (a1 & _ & _ & Ha' & Hb').
  destruct (decide (k = key si)) as [->|?]; [right; left; exact (ex_intro _ _ (ex_intro _ _ (conj (proj1 Ha) Ha')))|].
  destruct (decide (k = key di)) as [->|?]; [right; left; exact (ex_intro _ _ (ex_intro _ _ (conj (proj1 Hb) Hb')))|].
  eapply cell_same; [exact HK|]. set_solver.
Qed.
Lemma mint_to_changes accounts amount d s u s' k :
  process_mint_to program_id accounts amount d s = (Ok u, s') -> 0 <= amount -> cell_changed s s' accounts k.
Proof.
  intros Hr H0. destruct (mint_to_run _ _ _ _ _ _ Hr H0)
    as (mi & di & ai & sg & m & b & au & -> & Hm & Hb & _ & _ & _ & Hau & Hs & _ & _ & HK & Hb' & Hm').
  eapply cell_account_mint; [exact HK|exact (proj1 Hb)|exact Hb'|exact (proj1 Hm)|exact Hm'|].
  right. left. exists au, ai, sg. split; [done|]. split; [set_solver|done].
Qed.
Lemma burn_changes accounts amount d s u s' k :
  process_burn program_id accounts amount d s = (Ok u, s') -> 0 <= amount -> cell_changed s s' accounts k.
Proof.
  intros Hr H0. destruct (burn_run _ _ _ _ _ _ Hr H0)
    as (si & mi & ai & sg & a & m & a1 & _ & Ha & Hm & _ & _ & _ & _ & _ & _ & _ & HK & Ha' & Hm').
  eapply cell_account_mint; [exact HK|exact (proj1 Ha)|exact Ha'|exact (proj1 Hm)|exact Hm'|].
  right. right. split; [done|]. split; [done|]. cbn. lia.
Qed.
Lemma approve_changes accounts amount d s u s' k :
  process_approve program_id accounts amount d s = (Ok u, s') -> u64_range amount -> cell_changed s s' accounts k.
Proof.
  intros Hr H0. destruct (approve_run _ _ _ _ _ _ Hr H0) as (si & mi & di & oi & sg & a & _ & Ha & _ & _ & HK & Ha').
  exact (cell_account _ _ _ _ _ _ _ HK (proj1 Ha) Ha').
Qed.
Lemma revoke_changes accounts s u s' k :
  process_revoke program_id accounts s = (Ok u, s') -> cell_changed s s' accounts k.
Proof.
  intros Hr. destruct (revoke_run _ _ _ _ Hr) as (si & oi & sg & a & _ & Ha & _ & _ & HK & Ha').
  exact (cell_account _ _ _ _ _ _ _ HK (proj1 Ha) Ha').
Qed.
Lemma toggle_freeze_changes accounts freeze s u s' k :
  process_toggle_freeze_account program_id accounts freeze s = (Ok u, s') -> cell_changed s s' accounts k.
Proof.
  intros Hr. destruct (toggle_freeze_run _ _ _ _ _ Hr)
    as (si & mi & ai & sg & a & m & au & _ & Ha & _ & _ & _ & _ & _ & _ & HK & Ha').
  exact (cell_account _ _ _ _ _ _ _ HK (proj1 Ha) Ha').
Qed.
Lemma close_changes accounts s u s' k :
  process_close_account program_id accounts s = (Ok u, s') -> cell_changed s s' accounts k.
Proof.
  intros Hr. destruct (close_run _ _ _ _ Hr) as (si & di & ai & sg & a & _ & Ha & _ & _ & HK & Ha').
  exact (cell_account _ _ _ _ _ _ _ HK (proj1 Ha) Ha').
Qed.
Lemma set_authority_changes accounts t new_authority s u s' k :
  process_set_authority program_id accounts t new_authority s = (Ok u, s') -> cell_changed s s' accounts k.
Proof.
  intros Hr. destruct (set_authority_run _ _ _ _ _ _ Hr) as (i & ai & sg & -> & HK & [H|H]).
  - destruct H as (a & a' & Ha & _ & Ha' & _). exact (cell_account _ _ _ _ _ _ _ HK (proj1 Ha) Ha').
  - destruct H as (m & m' & Hm & Hm' & Hset). eapply cell_mint; [exact HK|exact (proj1 Hm)|exact Hm'|].
    destruct Hset as [(_ & (k0 & Hk0 & Hs) & _)|(_ & _ & ->)].
    + right. left. exists k0, ai, sg. split; [done|]. split; [set_solver|done].
    + right. right. split; [done|]. split; [done|]. cbn. lia.
Qed.
Lemma initialize_mint_changes accounts d au f s u s' k :
  process_initialize_mint accounts d au f s = (Ok u, s') -> u8_range d -> cell_changed s s' accounts k.
Proof.
  intros Hr Hd. destruct (initialize_mint_run _ _ _ _ _ _ _ Hr Hd) as (mi & rest & m0 & _ & Hm & H0 & HK & Hm').
  eapply cell_mint; [exact HK|exact Hm|exact Hm'|]. by left.
Qed.
Lemma initialize_account_changes accounts owner s u s' k :
  _process_initialize_account accounts owner s = (Ok u, s') -> store_wf s -> cell_changed s s' accounts k.
Proof.
  intros Hr Hw. destruct (initialize_account_run _ _ _ _ _ Hr Hw)
    as (ni & mi & rest & a0 & o & n & am & _ & Ha & _ & _ & HK & Ha').
  exact (cell_account _ _ _ _ _ _ _ HK Ha Ha').
Qed.
Lemma initialize_multisig_changes accounts m s u s' k :
  process_initialize_multisig accounts m s = (Ok u, s') -> u8_range m -> cell_changed s s' accounts k.
Proof.
  intros Hr Hm. destruct (initialize_multisig_run _ _ _ _ _ Hr Hm)
    as (mi & ri & sg & ms0 & _ & Hms & _ & _ & [_ Hl] & HK & Hms').
  destruct (decide (k = key mi)) as [->|Hne].
  - right. right. right. do 2 eexists. split; [exact Hms|]. split; [exact Hms'|]. cbn. unfold len. lia.
  - eapply cell_same; [exact HK|]. by rewrite list_elem_of_singleton.
Qed.

Lemma instruction_changes accounts instr s u s' k :
  process_token_instruction program_id accounts instr s = (Ok u, s') -> token_instruction_wf instr -> store_wf s ->
  cell_changed s s' accounts k.
Proof.
  intros Hr Hi Hw. destruct instr; cbn [process_token_instruction] in Hr; cbn in Hi.
  - by eapply initialize_mint_changes.
  - by eapply initialize_account_changes.
  - by eapply initialize_multisig_changes.
  - eapply transfer_changes; [exact Hr|apply Hi].
  - by eapply approve_changes.
  - by eapply revoke_changes.
  - by eapply set_authority_changes.
  - eapply mint_to_changes; [exact Hr|apply Hi].
  - eapply burn_changes; [exact Hr|apply Hi].
  - by eapply close_changes.
  - by eapply toggle_freeze_changes.
  - by eapply toggle_freeze_changes.
  - eapply transfer_changes; [exact Hr|apply Hi].
  - eapply approve_changes; [exact Hr|apply Hi].
  - eapply mint_to_changes; [exact Hr|apply Hi].
  - eapply burn_changes; [exact Hr|apply Hi].
  - by eapply initialize_account_changes.
Qed.

(** ** A mint whose authority does not sign *)
Lemma instruction_keeps_mint accounts instr s u s' k m :
  process_token_instruction program_id accounts instr s = (Ok u, s') -> token_instruction_wf instr -> store_wf s ->
  holds Mint s k m -> ~ minting_signed s accounts m ->
  exists m', holds Mint s' k m' /\ mint_authority m' = mint_authority m /\ mint_supply m' <= mint_supply m.
Proof.
  intros Hr Hi Hw [Hm Hin] Hno.
  destruct (instruction_changes _ _ _ _ _ k Hr Hi Hw) as [Hd|[(a & a' & Ha & _)|[(m0 & m' & Hm0 & Hm' & Hc)|(m0 & m' & Hm0 & _)]]].
  - exists m. split; [|done]. split; [|done]. by eapply decodes_get_cell.
  - destruct (decodes_ne _ _ _ _ _ Hm Ha ltac:(done) eq_refl).
  - rewrite (decodes_inj _ _ _ _ Hm0 Hm) in *. destruct Hc as [Hc|[?|(Hau & Hi' & Hs)]]; [cbn in Hin; congruence|done|].
    exists m'. split; [|done]. split; [exact Hm'|]. cbn in *. by rewrite Hi'.
  - destruct (decodes_ne _ _ _ _ _ Hm Hm0 ltac:(done) eq_refl).
Qed.
End Changes.
