(* ===== verification/TokenLedger.v ===== *)
(** * The token ledger

    The abstract specification of the token program: for one mint, a supply
    and a balance per account, and the events that change them.  The program
    refines it, and the supply of a mint stays the sum of its accounts'
    balances. *)
From S2P Require Import Prelude Machine Sdk TokenInstruction TokenState TokenCodec TokenProcessor TokenFacts TokenRuns.

(** ** Sums over a store *)
Definition store_sum (f : Cell -> Z) (s : Store) : Z := map_fold (fun _ c acc => f c + acc) 0 s.

Lemma get_cell_insert (s : Store) k c j : get_cell (<[k:=c]> s) j = if decide (k = j) then c else get_cell s j.
Proof. unfold get_cell. rewrite lookup_insert. by case_decide. Qed.
Section StoreSum.
Context (f : Cell -> Z) (f_empty : f empty_cell = 0).
Implicit Types s : Store.
Lemma store_sum_insert_fresh s k c : s !! k = None -> store_sum f (<[k:=c]> s) = f c + store_sum f s.
Proof. intros Hk. unfold store_sum. rewrite map_fold_insert_L; [done| |done]. intros. lia. Qed.
Lemma store_sum_delete s k : store_sum f (delete k s) = store_sum f s - f (get_cell s k).
Proof.
  unfold get_cell. destruct (s !! k) as [c|] eqn:E; cbn.
  - rewrite <- (insert_delete_id s k c E) at 2. rewrite store_sum_insert_fresh by apply lookup_delete_eq. lia.
  - rewrite delete_id by done. rewrite f_empty. lia.
Qed.
Lemma store_sum_insert s k c : store_sum f (<[k:=c]> s) = store_sum f s - f (get_cell s k) + f c.
Proof.
  rewrite <- insert_delete_eq, store_sum_insert_fresh, store_sum_delete by apply lookup_delete_eq. lia.
Qed.
Lemma store_sum_nonneg s : (forall k, 0 <= f (get_cell s k)) -> 0 <= store_sum f s.
Proof.
  induction s as [|k c s Hk IH] using map_ind; intros Hn; [done|].
  rewrite store_sum_insert_fresh by done. pose proof (Hn k) as Hc. unfold get_cell in Hc.
  rewrite lookup_insert_eq in Hc. enough (0 <= store_sum f s) by (cbn in Hc; lia).
  apply IH. intros j. destruct (decide (j = k)) as [->|Hne].
  - unfold get_cell. rewrite Hk. cbn. by rewrite f_empty.
  - specialize (Hn j). unfold get_cell in *. by rewrite lookup_insert_ne in Hn.
Qed.
Lemma store_sum_zero s : (forall k, f (get_cell s k) = 0) -> store_sum f s = 0.
Proof.
  induction s as [|k c s Hk IH] using map_ind; intros Hz; [done|].
  rewrite store_sum_insert_fresh by done. pose proof (Hz k) as Hc. unfold get_cell in Hc.
  rewrite lookup_insert_eq in Hc. cbn in Hc. rewrite Hc, IH; [done|]. intros j. destruct (decide (j = k)) as [->|Hne].
  - unfold get_cell. rewrite Hk. exact f_empty.
  - specialize (Hz j). unfold get_cell in *. by rewrite lookup_insert_ne in Hz.
Qed.
Lemma store_sum_ext s s' : (forall k, f (get_cell s' k) = f (get_cell s k)) -> store_sum f s' = store_sum f s.
Proof.
  revert s'. induction s as [|k c s Hk IH] using map_ind; intros s' He.
  { apply store_sum_zero. intros k. by rewrite He. }
  rewrite store_sum_insert_fresh by done. pose proof (store_sum_delete s' k) as Hd.
  rewrite (IH (delete k s')), He in Hd.
  - unfold get_cell in Hd. rewrite lookup_insert_eq in Hd. cbn in Hd. lia.
  - intros j. destruct (decide (j = k)) as [->|Hne].
    + unfold get_cell. by rewrite Hk, lookup_delete_eq.
    + specialize (He j). unfold get_cell in *. by rewrite lookup_insert_ne in He; rewrite ?lookup_delete_ne.
Qed.
(** two stores that differ at one or two keys *)
Lemma store_sum_one s s' k :
  (forall j, j <> k -> f (get_cell s' j) = f (get_cell s j)) ->
  store_sum f s' = store_sum f s - f (get_cell s k) + f (get_cell s' k).
Proof.
  intros He. rewrite <- store_sum_insert. apply store_sum_ext. intros j. rewrite get_cell_insert.
  case_decide; [by subst|]. by apply He.
Qed.
Lemma store_sum_two s s' k k' :
  k <> k' -> (forall j, j <> k -> j <> k' -> f (get_cell s' j) = f (get_cell s j)) ->
  store_sum f s' = store_sum f s - f (get_cell s k) + f (get_cell s' k) - f (get_cell s k') + f (get_cell s' k').
Proof.
  intros Hne He. pose proof (store_sum_insert s k (get_cell s' k)) as H1.
  rewrite (store_sum_one (<[k:=get_cell s' k]> s) s' k'), H1.
  - rewrite get_cell_insert, decide_False by done. lia.
  - intros j Hj. rewrite get_cell_insert. case_decide; [by subst|]. by apply He.
Qed.
End StoreSum.

(** ** The ledger of a mint *)
(** the tokens of mint [k] in a cell: an initialised token account's amount *)
Definition token_balance (k : Pubkey) (c : Cell) : Z :=
  if (length (cell_data c) =? ACCOUNT_LEN)%nat then
    match account_unpack_from_slice (cell_data c) with
    | Ok a => if account_is_initialized a && bool_decide (acc_mint a = k) then acc_amount a else 0
    | _ => 0
    end
  else 0.
Definition circulating (k : Pubkey) (s : Store) : Z := store_sum (token_balance k) s.

Inductive ledger_event :=
| LedgerIdle
| LedgerTransfer (src dst : Pubkey) (x : Z)
| LedgerMint (dst : Pubkey) (x : Z)
| LedgerBurn (src : Pubkey) (x : Z).
(** the supply and the balances before and after an event *)
Definition ledger_step (ev : ledger_event) (supply : Z) (bal : Pubkey -> Z) (supply' : Z) (bal' : Pubkey -> Z) : Prop :=
  match ev with
  | LedgerIdle => supply' = supply /\ forall a, bal' a = bal a
  | LedgerTransfer src dst x =>
      src <> dst /\ 0 <= x <= bal src /\ supply' = supply /\
      bal' src = bal src - x /\ bal' dst = bal dst + x /\ forall a, a <> src -> a <> dst -> bal' a = bal a
  | LedgerMint dst x =>
      0 <= x /\ supply' = supply + x /\ bal' dst = bal dst + x /\ forall a, a <> dst -> bal' a = bal a
  | LedgerBurn src x =>
      0 <= x <= bal src /\ supply' = supply - x /\ bal' src = bal src - x /\ forall a, a <> src -> bal' a = bal a
  end.
(** who must have signed for an event: a spender of the source, or the
    mint's minting authority *)
Definition ledger_authorised (program_id : Pubkey) (s : Store) (m : Mint) (ev : ledger_event) : Prop :=
  match ev with
  | LedgerIdle => True
  | LedgerTransfer src _ x | LedgerBurn src x =>
      exists a i signers, holds Account s src a /\ is_frozen a = false /\ spend_authority s program_id a i signers x
  | LedgerMint _ _ => exists k i signers, mint_authority m = Some k /\ signed_by s program_id k i signers
  end.
(** no account of mint [k] wraps SOL *)
Definition no_native (k : Pubkey) (s : Store) : Prop :=
  forall a v, holds Account s a v -> acc_mint v = k -> is_native v = false.

Lemma token_balance_empty k : token_balance k empty_cell = 0.
Proof. done. Qed.
Lemma token_balance_ext k c c' : cell_data c' = cell_data c -> token_balance k c' = token_balance k c.
Proof. unfold token_balance. by intros ->. Qed.
Lemma token_balance_decodes k s a v :
  decodes Account s a v ->
  token_balance k (get_cell s a) = if account_is_initialized v && bool_decide (acc_mint v = k) then acc_amount v else 0.
Proof. intros [Hl Hu]. unfold token_balance. rewrite Hl. cbn [pack_LEN unpack_from_slice Account_Pack] in *. by rewrite Nat.eqb_refl, Hu. Qed.
Lemma token_balance_other {T} `{Pack T} k s a (v : T) :
  decodes T s a v -> pack_LEN T <> ACCOUNT_LEN -> token_balance k (get_cell s a) = 0.
Proof. intros [Hl _] Hne. unfold token_balance. by destruct (Nat.eqb_spec (length (cell_data (get_cell s a))) ACCOUNT_LEN); [congruence|]. Qed.

Lemma ledger_step_sum k ev s s' m m' :
  ledger_step ev (mint_supply m) (fun a => token_balance k (get_cell s a))
    (mint_supply m') (fun a => token_balance k (get_cell s' a)) ->
  mint_supply m' - circulating k s' = mint_supply m - circulating k s.
Proof.
  unfold circulating. pose proof (token_balance_empty k) as H0. destruct ev as [|src dst x|dst x|src x]; cbn.
  - intros [-> He]. by rewrite (store_sum_ext _ H0 s s' He).
  - intros (Hne & _ & -> & Es & Ed & He). rewrite (store_sum_two _ H0 s s' src dst Hne He). lia.
  - intros (_ & -> & Ed & He). rewrite (store_sum_one _ H0 s s' dst He). lia.
  - intros (_ & -> & Es & He). rewrite (store_sum_one _ H0 s s' src He). lia.
Qed.

(** ** The program refines the ledger *)
Section Refinement.
Context `{SDK : SolanaSdk} {LAWS : SolanaSdkLaws SDK}.
Context {program_id : Pubkey} (k : Pubkey).
Implicit Types (s : Store) (a : Pubkey) (v : Account).

(** the ledger of [k] moved by an authorised event *)
Definition ledger_moves s s' : Prop :=
  forall m, holds Mint s k m -> no_native k s ->
  exists ev m', holds Mint s' k m' /\ no_native k s' /\ ledger_authorised program_id s m ev /\
    ledger_step ev (mint_supply m) (fun a => token_balance k (get_cell s a))
      (mint_supply m') (fun a => token_balance k (get_cell s' a)).
(** the tokens of [k] in a token account *)
Definition tokens_of v : Z := if account_is_initialized v && bool_decide (acc_mint v = k) then acc_amount v else 0.

Lemma no_native_kept K s s' :
  data_kept K s s' -> (forall a v, a ∈ K -> holds Account s' a v -> acc_mint v = k -> is_native v = false) ->
  no_native k s -> no_native k s'.
Proof.
  intros HK Hnew Hold a v Hv Hm. destruct (decide (a ∈ K)) as [Hin|Hin]; [exact (Hnew a v Hin Hv Hm)|].
  apply (Hold a); [|done]. destruct Hv as [Hd Hi]. split; [|done].
  eapply decodes_get_cell; [|exact Hd]. by apply HK.
Qed.
Lemma holds_kept {T} `{Pack T} K s s' a (v : T) : data_kept K s s' -> a ∉ K -> holds T s a v -> holds T s' a v.
Proof. intros HK Ha [Hd Hi]. split; [by eapply data_kept_decodes|done]. Qed.
Lemma balance_kept K s s' a : data_kept K s s' -> a ∉ K -> token_balance k (get_cell s' a) = token_balance k (get_cell s a).
Proof. intros HK Ha. apply token_balance_ext. by apply HK. Qed.
Lemma mint_key_ne s a v m : decodes Account s a v -> holds Mint s k m -> k <> a.
Proof. intros Hv [Hm _]. by apply not_eq_sym, (decodes_ne _ _ _ _ _ Hv Hm). Qed.

Lemma idle_moves s s' m m' :
  mint_supply m' = mint_supply m -> (forall b, token_balance k (get_cell s' b) = token_balance k (get_cell s b)) ->
  holds Mint s' k m' -> no_native k s' ->
  exists ev m', holds Mint s' k m' /\ no_native k s' /\ ledger_authorised program_id s m ev /\
    ledger_step ev (mint_supply m) (fun a => token_balance k (get_cell s a))
      (mint_supply m') (fun a => token_balance k (get_cell s' a)).
Proof. intros. exists LedgerIdle, m'. split; [done|]. split; [done|]. split; [exact I|]. by split. Qed.

Lemma account_moves s s' a v v' :
  decodes Account s a v -> decodes Account s' a v' -> data_kept [a] s s' -> tokens_of v' = tokens_of v ->
  (no_native k s -> acc_mint v' = k -> is_native v' = false) -> ledger_moves s s'.
Proof.
  intros Hv Hv' HK Ht Hn m Hm Hno. pose proof (mint_key_ne _ _ _ _ Hv Hm) as Hne.
  apply (idle_moves s s' m m); [done| |by apply (holds_kept [a] s); [|set_solver|]|].
  2: { apply (no_native_kept [a] s); [done| |done]. intros b w ->%list_elem_of_singleton [Hw _] Hk.
    rewrite (decodes_inj _ _ _ _ Hw Hv') in *. by apply Hn. }
  intros b. destruct (decide (b = a)) as [->|Hb].
  - by rewrite (token_balance_decodes _ _ _ _ Hv), (token_balance_decodes _ _ _ _ Hv').
  - apply (balance_kept [a]); [done|set_solver].
Qed.
Lemma mint_moves s s' a (v v' : Mint) :
  decodes Mint s a v -> decodes Mint s' a v' -> data_kept [a] s s' ->
  (mint_is_initialized v = true -> mint_is_initialized v' = true /\ mint_supply v' = mint_supply v) ->
  ledger_moves s s'.
Proof.
  intros Hv Hv' HK Hs m Hm Hno.
  assert (Hbal : forall b, token_balance k (get_cell s' b) = token_balance k (get_cell s b)).
  { intros b. destruct (decide (b = a)) as [->|Hb].
    - by rewrite (token_balance_other _ _ _ _ Hv), (token_balance_other _ _ _ _ Hv').
    - apply (balance_kept [a]); [done|set_solver]. }
  assert (Hno' : no_native k s').
  { apply (no_native_kept [a] s); [done| |done]. intros b w ->%list_elem_of_singleton [Hw _].
    by destruct (decodes_ne _ _ _ _ _ Hw Hv' ltac:(done)). }
  destruct (decide (a = k)) as [->|Hne].
  - destruct Hm as [Hd Hi]. rewrite (decodes_inj _ _ _ _ Hv Hd) in Hs. destruct (Hs Hi) as [Hi' Es].
    by apply (idle_moves s s' m v').
  - apply (idle_moves s s' m m); [done|done| |done]. by apply (holds_kept [a] s); [|set_solver|].
Qed.
Lemma multisig_moves s s' a (v v' : Multisig) :
  decodes Multisig s a v -> decodes Multisig s' a v' -> data_kept [a] s s' -> ledger_moves s s'.
Proof.
  intros Hv Hv' HK m Hm Hno. apply (idle_moves s s' m m); [done| | |].
  - intros b. destruct (decide (b = a)) as [->|Hb].
    + by rewrite (token_balance_other _ _ _ _ Hv), (token_balance_other _ _ _ _ Hv').
    + apply (balance_kept [a]); [done|set_solver].
  - apply (holds_kept [a] s); [done| |done]. rewrite list_elem_of_singleton. intros ->.
    by destruct (decodes_ne _ _ _ _ _ Hv (proj1 Hm) ltac:(done)).
  - apply (no_native_kept [a] s); [done| |done]. intros b w ->%list_elem_of_singleton [Hw _].
    by destruct (decodes_ne _ _ _ _ _ Hw Hv' ltac:(done)).
Qed.

Lemma balance_holds s a v : holds Account s a v -> token_balance k (get_cell s a) = if decide (acc_mint v = k) then acc_amount v else 0.
Proof.
  intros [Hv Hi]. rewrite (token_balance_decodes _ _ _ _ Hv). cbn [pack_is_initialized Account_Pack] in Hi.
  rewrite Hi, bool_decide_decide. cbn. by case_decide.
Qed.
Lemma spent_holds s' a v v1 z :
  account_is_initialized v = true -> spent v v1 -> decodes Account s' a (set_acc_amount z v1) ->
  holds Account s' a (set_acc_amount z v1).
Proof.
  intros Hi (_ & _ & _ & Es & _) Hd. split; [done|]. cbn. unfold account_is_initialized in *. cbn. by rewrite Es.
Qed.

Lemma transfer_moves accounts amount expected_decimals s u s' :
  process_transfer program_id accounts amount expected_decimals s = (Ok u, s') -> 0 <= amount -> ledger_moves s s'.
Proof.
  intros Hr H0. apply transfer_run in Hr as (src_i & mint_i & dst_i & auth_i & signers & a & b & _ & Ha & Hb &
    Hfa & Hfb & Hle & Hmint & Hauth & HK & Hcase); [|done].
  case_decide as Hkeys; [subst s'; intros m Hm Hno; by apply (idle_moves s s m m)|].
  destruct Hcase as (a1 & Hspent & _ & Ha' & Hb').
  apply (spent_holds _ _ _ _ _ (proj2 Ha) Hspent) in Ha'. apply (spent_holds _ _ _ b _ (proj2 Hb) (spent_refl b)) in Hb'.
  destruct Hspent as (Em & _ & _ & _ & En & _).
  intros m Hm Hno. pose proof (mint_key_ne _ _ _ _ (proj1 Ha) Hm) as Hka. pose proof (mint_key_ne _ _ _ _ (proj1 Hb) Hm) as Hkb.
  assert (Hm' : holds Mint s' k m) by (apply (holds_kept _ s s' k m HK); [set_solver|done]).
  assert (Hno' : no_native k s').
  { apply (no_native_kept _ s s' HK); [|done]. intros c w Hin Hw Hk. apply elem_of_cons in Hin as [->|Hin].
    - rewrite (decodes_inj _ _ _ _ (proj1 Hw) (proj1 Ha')) in *. cbn in *. unfold is_native. cbn. rewrite En.
      apply (Hno _ _ Ha). congruence.
    - apply list_elem_of_singleton in Hin as ->. rewrite (decodes_inj _ _ _ _ (proj1 Hw) (proj1 Hb')) in *.
      by apply (Hno _ _ Hb). }
  pose proof (balance_holds _ _ _ Ha) as Ba. pose proof (balance_holds _ _ _ Hb) as Bb.
  pose proof (balance_holds _ _ _ Ha') as Ba'. pose proof (balance_holds _ _ _ Hb') as Bb'. cbn in Ba', Bb'.
  rewrite Em in Ba'. rewrite <- Hmint in Bb, Bb'.
  assert (Hother : forall c, c <> key src_i -> c <> key dst_i -> token_balance k (get_cell s' c) = token_balance k (get_cell s c)).
  { intros c Hc Hc'. apply (balance_kept _ _ _ _ HK). set_solver. }
  case_decide as Hk.
  - exists (LedgerTransfer (key src_i) (key dst_i) amount), m. split; [done|]. split; [done|]. split.
    + exists a, auth_i, signers. by split_and!.
    + cbn. rewrite Ba, Ba', Bb, Bb'. by split_and!.
  - apply (idle_moves s s' m m); [done| |done|done]. intros c.
    destruct (decide (c = key src_i)) as [->|]; [congruence|]. destruct (decide (c = key dst_i)) as [->|]; [congruence|]. auto.
Qed.

(** a token account of the mint at [mk] and the mint itself, both rewritten *)
Lemma account_and_mint_moves s s' mk a v v' m0 m0' :
  holds Account s a v -> holds Account s' a v' -> acc_mint v = mk -> acc_mint v' = mk ->
  acc_is_native v' = acc_is_native v -> holds Mint s mk m0 -> holds Mint s' mk m0' -> data_kept [a; mk] s s' ->
  (mk <> k -> ledger_moves s s') /\
  (mk = k -> forall m, holds Mint s k m -> no_native k s ->
     m = m0 /\ no_native k s' /\ token_balance k (get_cell s a) = acc_amount v /\
     token_balance k (get_cell s' a) = acc_amount v' /\
     forall c, c <> a -> token_balance k (get_cell s' c) = token_balance k (get_cell s c)).
Proof.
  intros Ha Ha' Em Em' En Hm0 Hm0' HK.
  assert (Hno' : no_native k s -> no_native k s').
  { intros Hno. apply (no_native_kept _ s s' HK); [|done]. intros c w Hin Hw Hk.
    apply elem_of_cons in Hin as [->|Hin].
    - rewrite (decodes_inj _ _ _ _ (proj1 Hw) (proj1 Ha')) in *. unfold is_native. rewrite En. apply (Hno _ _ Ha). congruence.
    - apply list_elem_of_singleton in Hin as ->. by destruct (decodes_ne _ _ _ _ _ (proj1 Hw) (proj1 Hm0') ltac:(done)). }
  assert (Hother : forall c, c <> a -> token_balance k (get_cell s' c) = token_balance k (get_cell s c)).
  { intros c Hc. destruct (decide (c = mk)) as [->|Hcm].
    - by rewrite (token_balance_other _ _ _ _ (proj1 Hm0)), (token_balance_other _ _ _ _ (proj1 Hm0')).
    - apply (balance_kept _ _ _ _ HK). set_solver. }
  pose proof (balance_holds _ _ _ Ha) as Ba. pose proof (balance_holds _ _ _ Ha') as Ba'. rewrite Em in Ba. rewrite Em' in Ba'.
  split.
  - intros Hne m Hm Hno. rewrite decide_False in Ba, Ba' by done. apply (idle_moves s s' m m); [done| | |by apply Hno'].
    + intros c. destruct (decide (c = a)) as [->|]; [congruence|]. auto.
    + apply (holds_kept _ s s' k m HK); [|done]. pose proof (mint_key_ne _ _ _ _ (proj1 Ha) Hm). set_solver.
  - intros -> m Hm Hno. rewrite decide_True in Ba, Ba' by done.
    split; [by rewrite (decodes_inj _ _ _ _ (proj1 Hm) (proj1 Hm0))|]. split; [by apply Hno'|]. by split_and!.
Qed.

Lemma mint_to_moves accounts amount expected_decimals s u s' :
  process_mint_to program_id accounts amount expected_decimals s = (Ok u, s') -> 0 <= amount -> ledger_moves s s'.
Proof.
  intros Hr H0. apply mint_to_run in Hr as (mint_i & dst_i & auth_i & signers & m0 & b & authority & _ & Hm0 & Hb &
    _ & Hn & Em & Hauth & Hs & _ & _ & HK & Hb' & Hm0'); [|done].
  apply (spent_holds _ _ _ b _ (proj2 Hb) (spent_refl b)) in Hb'.
  assert (Hm0i : holds Mint s' (key mint_i) (set_mint_supply (mint_supply m0 + amount) m0)) by (split; [done|apply Hm0]).
  destruct (account_and_mint_moves s s' (key mint_i) (key dst_i) b _ m0 _ Hb Hb' Em Em eq_refl Hm0 Hm0i HK) as [Hidle Hev].
  destruct (decide (key mint_i = k)) as [E|E]; [|by apply Hidle].
  intros m Hm Hno. destruct (Hev E m Hm Hno) as (-> & Hno' & Bb & Bb' & Hother). rewrite E in *.
  exists (LedgerMint (key dst_i) amount), (set_mint_supply (mint_supply m0 + amount) m0).
  split; [done|]. split; [done|]. split; [by exists authority, auth_i, signers|].
  cbn. rewrite Bb, Bb'. by split_and!.
Qed.
Lemma burn_moves accounts amount expected_decimals s u s' :
  process_burn program_id accounts amount expected_decimals s = (Ok u, s') -> 0 <= amount -> ledger_moves s s'.
Proof.
  intros Hr H0. apply burn_run in Hr as (src_i & mint_i & auth_i & signers & a & m0 & a1 & _ & Ha & Hm0 &
    Hf & Hn & Em & Hle & _ & Hauth & Hspent & HK & Ha' & Hm0'); [|done].
  apply (spent_holds _ _ _ _ _ (proj2 Ha) Hspent) in Ha'. destruct Hspent as (Em' & _ & _ & _ & En & _).
  assert (Hm0i : holds Mint s' (key mint_i) (set_mint_supply (mint_supply m0 - amount) m0)) by (split; [done|apply Hm0]).
  destruct (account_and_mint_moves s s' (key mint_i) (key src_i) a _ m0 _ Ha Ha' Em (eq_trans Em' Em) En Hm0 Hm0i HK) as [Hidle Hev].
  destruct (decide (key mint_i = k)) as [E|E]; [|by apply Hidle].
  intros m Hm Hno. destruct (Hev E m Hm Hno) as (-> & Hno' & Ba & Ba' & Hother). rewrite E in *.
  exists (LedgerBurn (key src_i) amount), (set_mint_supply (mint_supply m0 - amount) m0).
  split; [done|]. split; [done|]. split; [by exists a, auth_i, signers|].
  cbn. rewrite Ba, Ba'. by split_and!.
Qed.

Lemma initialize_account_moves accounts owner s u s' :
  _process_initialize_account accounts owner s = (Ok u, s') -> store_wf s -> k <> native_mint_id -> ledger_moves s s'.
Proof.
  intros Hr Hw Hk. apply initialize_account_run in Hr as (new_i & mint_i & rest & a0 & o & native & amount & _ & Ha &
    Hi & Hn & HK & Ha'); [|done].
  apply (account_moves _ _ _ _ _ Ha Ha' HK); unfold tokens_of; cbn; rewrite ?Hi; case_decide as E.
  - rewrite E. by rewrite bool_decide_eq_false_2.
  - destruct Hn as (_ & -> & _). by destruct (bool_decide _).
  - intros _ <-. by rewrite E in Hk.
  - intros _ _. by destruct Hn as (-> & _).
Qed.
(** a handler that keeps mint, amount and native flag of an initialised account *)
Lemma account_kept_moves s s' a v v' :
  holds Account s a v -> decodes Account s' a v' -> data_kept [a] s s' -> account_is_initialized v' = true ->
  acc_mint v' = acc_mint v -> acc_is_native v' = acc_is_native v ->
  (is_native v = true /\ k <> acc_mint v \/ acc_amount v' = acc_amount v) -> ledger_moves s s'.
Proof.
  intros Ha Ha' HK Hi Em En Hamt. assert (Hi0 : account_is_initialized v = true) by apply Ha.
  apply (account_moves _ _ _ _ _ (proj1 Ha) Ha' HK).
  - unfold tokens_of. rewrite Hi, Hi0, Em. cbn. case_bool_decide as Hk; [|done]. by destruct Hamt as [[_ ?]|].
  - intros Hno Hk. unfold is_native. rewrite En. apply (Hno _ _ Ha). congruence.
Qed.
Lemma close_moves accounts s u s' :
  process_close_account program_id accounts s = (Ok u, s') -> ledger_moves s s'.
Proof.
  intros Hr m Hm Hno. apply close_run in Hr as (src_i & dst_i & auth_i & signers & a & _ & Ha & Hn & _ & HK & Ha').
  apply (account_kept_moves _ _ _ _ _ Ha Ha' HK); [apply Ha|done|done| |done|done].
  destruct Hn as [Hn|Hz]; [|by right]. left. split; [done|]. intros ->. by rewrite (Hno _ _ Ha eq_refl) in Hn.
Qed.
Lemma set_authority_moves accounts authority_type new_authority s u s' :
  process_set_authority program_id accounts authority_type new_authority s = (Ok u, s') -> ledger_moves s s'.
Proof.
  intros Hr. apply set_authority_run in Hr as (i & auth_i & signers & _ & HK &
    [(a & a' & Ha & _ & Ha' & Hset)|(m & m' & Hm & Hm' & Hset)]).
  - assert (Hi : account_is_initialized a = true) by apply Ha.
    destruct Hset as [(_ & _ & o & _ & ->)|(_ & _ & ->)];
      (apply (account_kept_moves _ _ _ _ _ Ha Ha' HK); [done|done|done|by right]).
  - apply (mint_moves _ _ _ _ _ (proj1 Hm) Hm' HK). intros Hi. by destruct Hset as [(_ & _ & ->)|(_ & _ & ->)].
Qed.
Lemma toggle_freeze_moves accounts freeze s u s' :
  process_toggle_freeze_account program_id accounts freeze s = (Ok u, s') -> ledger_moves s s'.
Proof.
  intros Hr. apply toggle_freeze_run in Hr as (src_i & mint_i & auth_i & signers & a & m & authority & _ & Ha & _ &
    _ & _ & _ & _ & _ & HK & Ha').
  apply (account_kept_moves _ _ _ _ _ Ha Ha' HK); [by destruct freeze|done|done|by right].
Qed.
Lemma approve_moves accounts amount expected_decimals s u s' :
  process_approve program_id accounts amount expected_decimals s = (Ok u, s') -> u64_range amount -> ledger_moves s s'.
Proof.
  intros Hr Hx. apply approve_run in Hr as (src_i & mint_i & delegate_i & owner_i & signers & a & _ & Ha & _ & _ & HK & Ha');
    [|done].
  apply (account_kept_moves _ _ _ _ _ Ha Ha' HK); [apply Ha|done|done|by right].
Qed.
Lemma revoke_moves accounts s u s' : process_revoke program_id accounts s = (Ok u, s') -> ledger_moves s s'.
Proof.
  intros Hr. apply revoke_run in Hr as (src_i & owner_i & signers & a & _ & Ha & _ & _ & HK & Ha').
  apply (account_kept_moves _ _ _ _ _ Ha Ha' HK); [apply Ha|done|done|by right].
Qed.
Lemma initialize_mint_moves accounts decimals authority freeze_authority s u s' :
  process_initialize_mint accounts decimals authority freeze_authority s = (Ok u, s') -> u8_range decimals -> ledger_moves s s'.
Proof.
  intros Hr Hd. apply initialize_mint_run in Hr as (mint_i & rest & m0 & _ & Hm & Hi & HK & Hm'); [|done].
  apply (mint_moves _ _ _ _ _ Hm Hm' HK). by rewrite Hi.
Qed.
Lemma initialize_multisig_moves accounts m s u s' :
  process_initialize_multisig accounts m s = (Ok u, s') -> u8_range m -> ledger_moves s s'.
Proof.
  intros Hr Hm. apply initialize_multisig_run in Hr as (mi & rent_i & signers & ms0 & _ & Hms & _ & _ & _ & HK & Hms'); [|done].
  by apply (multisig_moves _ _ _ _ _ Hms Hms' HK).
Qed.

Lemma instruction_moves accounts instr s u s' :
  process_token_instruction program_id accounts instr s = (Ok u, s') -> token_instruction_wf instr -> store_wf s ->
  k <> native_mint_id -> ledger_moves s s'.
Proof.
  intros Hr Hi Hw Hk. destruct instr; cbn [process_token_instruction] in Hr; cbn in Hi.
  - by eapply initialize_mint_moves.
  - by eapply initialize_account_moves.
  - by eapply initialize_multisig_moves.
  - eapply transfer_moves; [exact Hr|apply Hi].
  - by eapply approve_moves.
  - by eapply revoke_moves.
  - by eapply set_authority_moves.
  - eapply mint_to_moves; [exact Hr|apply Hi].
  - eapply burn_moves; [exact Hr|apply Hi].
  - by eapply close_moves.
  - by eapply toggle_freeze_moves.
  - by eapply toggle_freeze_moves.
  - eapply transfer_moves; [exact Hr|apply Hi].
  - eapply approve_moves; [exact Hr|apply Hi].
  - eapply mint_to_moves; [exact Hr|apply Hi].
  - eapply burn_moves; [exact Hr|apply Hi].
  - by eapply initialize_account_moves.
Qed.
End Refinement.
