(* ===== verification/PoolInstruction.v ===== *)
(** * The stake pool's errors and instructions

    Models [program/src/error.rs] and [program/src/instruction.rs]: the error
    enum and its codes, the instruction enum, its byte codec
    ([pool_instruction_deserialize], [pool_instruction_serialize]) and the
    client-side constructors.

    The program reads and writes [repr(C)] structs by casting pointers into
    the buffers; the class [ReprC] holds the layout of such a struct. *)
From S2P Require Import Prelude Machine Sdk.

(** ** Errors (error.rs) *)
Inductive StakePoolError :=
| AlreadyInUse | InvalidProgramAddress | InvalidState | CalculationFailure | FeeTooHigh
| WrongAccountMint | NonZeroBalance | WrongOwner | SignatureMissing | InvalidValidatorStakeList
| InvalidFeeAccount | WrongPoolMint | WrongStakeState | UserStakeNotActive | ValidatorAlreadyAdded
| ValidatorNotFound | InvalidStakeAccountAddress | StakeListOutOfDate | StakeListAndPoolOutOfDate
| UnknownValidatorStakeAccount | WrongMintingAuthority | AccountNotRentExempt
| IncorrectTokenProgramId | ExpectedMint | ExpectedAccount | ZeroAmount | ConversionFailure
| NotEnoughTokensInThePool.
(** [e as u32] *)
Definition pool_error_code (e : StakePoolError) : Z :=
  match e with
  | AlreadyInUse => 0 | InvalidProgramAddress => 1 | InvalidState => 2 | CalculationFailure => 3
  | FeeTooHigh => 4 | WrongAccountMint => 5 | NonZeroBalance => 6 | WrongOwner => 7
  | SignatureMissing => 8 | InvalidValidatorStakeList => 9 | InvalidFeeAccount => 10
  | WrongPoolMint => 11 | WrongStakeState => 12 | UserStakeNotActive => 13
  | ValidatorAlreadyAdded => 14 | ValidatorNotFound => 15 | InvalidStakeAccountAddress => 16
  | StakeListOutOfDate => 17 | StakeListAndPoolOutOfDate => 18
  | UnknownValidatorStakeAccount => 19 | WrongMintingAuthority => 20 | AccountNotRentExempt => 21
  | IncorrectTokenProgramId => 22 | ExpectedMint => 23 | ExpectedAccount => 24 | ZeroAmount => 25
  | ConversionFailure => 26 | NotEnoughTokensInThePool => 27
  end.
(** [impl From<StakePoolError> for ProgramError] *)
Definition pool_err (e : StakePoolError) : ProgramError := Custom (pool_error_code e).

(** ** Structs laid out by [repr(C)] *)
(** [size_of::<T>()], the value read through a [*const T] into a buffer, and
    the bytes stored through a [*mut T] (given the bytes they replace) *)
Class ReprC (T : Type) := {
  size_of : nat;
  from_raw : list byte -> T;
  to_raw : T -> list byte -> list byte;
}.
#[global] Arguments size_of T {_}.

#[global] Instance u64_ReprC : ReprC Z := {|
  size_of := 8;
  from_raw src := le_decode (take 8 src);
  to_raw v _ := u64_to_le_bytes v |}.

(** Fee rate as a ratio *)
Record Fee := mk_fee { fee_denominator : Z; fee_numerator : Z }.
#[global] Instance Fee_eq_dec : EqDecision Fee.
Proof. solve_decision. Defined.
#[global] Instance Fee_ReprC : ReprC Fee := {|
  size_of := 16;
  from_raw src := mk_fee (le_decode (slice 0 8 src)) (le_decode (slice 8 8 src));
  to_raw v _ := u64_to_le_bytes (fee_denominator v) ++ u64_to_le_bytes (fee_numerator v) |}.

(** Initial values for the stake pool *)
Record InitArgs := mk_init_args { init_fee : Fee }.
#[global] Instance InitArgs_eq_dec : EqDecision InitArgs.
Proof. solve_decision. Defined.
#[global] Instance InitArgs_ReprC : ReprC InitArgs := {|
  size_of := size_of Fee;
  from_raw src := mk_init_args (from_raw src);
  to_raw v dst := to_raw (init_fee v) dst |}.

(** ** Instructions *)
Inductive StakePoolInstruction :=
| Initialize (init : InitArgs)
| CreateValidatorStakeAccount
| AddValidatorStakeAccount
| RemoveValidatorStakeAccount
| UpdateListBalance
| UpdatePoolBalance
| Deposit
| Withdraw (amount : Z)
| SetStakingAuthority
| SetOwner
| AddLiquidity (amount : Z)
| SellstSOL (amount : Z).
#[global] Instance StakePoolInstruction_eq_dec : EqDecision StakePoolInstruction.
Proof. solve_decision. Defined.

(** [size_of::<StakePoolInstruction>()]: the tag word and the largest payload *)
Definition INSTRUCTION_SIZE : nat := 24.

(** [unpack<T>]: a [T] after the tag byte *)
Definition unpack_struct (T : Type) `{ReprC T} (input : list byte) : result T :=
  if (length input <? 1 + size_of T)%nat then Err InvalidAccountData
  else Ok (from_raw (drop 1 input)).

Definition pool_instruction_deserialize (input : list byte) : result StakePoolInstruction :=
  match input with
  | [] => Err InvalidAccountData
  | b :: _ =>
      match u8_of_byte b with
      | 0 => Initialize <$> unpack_struct InitArgs input
      | 1 => Ok CreateValidatorStakeAccount
      | 2 => Ok AddValidatorStakeAccount
      | 3 => Ok RemoveValidatorStakeAccount
      | 4 => Ok UpdateListBalance
      | 5 => Ok UpdatePoolBalance
      | 6 => Ok Deposit
      | 7 => Withdraw <$> unpack_struct Z input
      | 8 => Ok SetStakingAuthority
      | 9 => Ok SetOwner
      | 10 => AddLiquidity <$> unpack_struct Z input
      | 11 => SellstSOL <$> unpack_struct Z input
      | _ => Err InvalidAccountData
      end
  end.

(** [output[0] = tag] and a struct stored at [output[1]] *)
Definition set_tag (tag : Z) (output : list byte) : list byte := write_at 0 [byte_of_u8 tag] output.
Definition put_struct {T} `{ReprC T} (v : T) (output : list byte) : list byte :=
  write_at 1 (to_raw v (slice 1 (size_of T) output)) output.
Definition pool_instruction_serialize (i : StakePoolInstruction) : result (list byte) :=
  let output := replicate INSTRUCTION_SIZE x00 in
  Ok match i with
     | Initialize init => put_struct init (set_tag 0 output)
     | CreateValidatorStakeAccount => set_tag 1 output
     | AddValidatorStakeAccount => set_tag 2 output
     | RemoveValidatorStakeAccount => set_tag 3 output
     | UpdateListBalance => set_tag 4 output
     | UpdatePoolBalance => set_tag 5 output
     | Deposit => set_tag 6 output
     | Withdraw val => put_struct val (set_tag 7 output)
     | SetStakingAuthority => set_tag 8 output
     | SetOwner => set_tag 9 output
     | AddLiquidity val => put_struct val (set_tag 10 output)
     | SellstSOL val => put_struct val (set_tag 11 output)
     end.

(** ** Client-side constructors *)
Section PoolBuilders.
Context `{SDK : SolanaSdk}.
Implicit Types k : Pubkey.

Definition initialize (program_id stake_pool owner validator_stake_list pool_mint owner_pool_account
    token_program_id : Pubkey) (init_args : InitArgs) : result Instruction :=
  let init_data := Initialize init_args in
  data ← pool_instruction_serialize init_data;
  let accounts :=
    [ meta_new stake_pool true; meta_new_readonly owner true; meta_new validator_stake_list false;
      meta_new_readonly pool_mint false; meta_new_readonly owner_pool_account false;
      meta_new_readonly clock_id false; meta_new_readonly rent_id false;
      meta_new_readonly token_program_id false ] in
  Ok (mk_instruction program_id accounts data).

Definition create_validator_stake_account (program_id stake_pool funder stake_account validator
    stake_authority withdraw_authority system_program_id stake_program_id : Pubkey) : result Instruction :=
  let accounts :=
    [ meta_new_readonly stake_pool false; meta_new funder true; meta_new stake_account false;
      meta_new_readonly validator false; meta_new_readonly stake_authority false;
      meta_new_readonly withdraw_authority false; meta_new_readonly rent_id false;
      meta_new_readonly system_program_id false; meta_new_readonly stake_program_id false ] in
  data ← pool_instruction_serialize CreateValidatorStakeAccount;
  Ok (mk_instruction program_id accounts data).

Definition add_validator_stake_account (program_id stake_pool owner stake_pool_deposit
    stake_pool_withdraw validator_stake_list stake_account pool_tokens_to pool_mint token_program_id
    stake_program_id : Pubkey) : result Instruction :=
  let accounts :=
    [ meta_new stake_pool false; meta_new_readonly owner true;
      meta_new_readonly stake_pool_deposit false; meta_new_readonly stake_pool_withdraw false;
      meta_new validator_stake_list false; meta_new stake_account false;
      meta_new pool_tokens_to false; meta_new pool_mint false; meta_new_readonly clock_id false;
      meta_new_readonly stake_history_id false; meta_new_readonly token_program_id false;
      meta_new_readonly stake_program_id false ] in
  data ← pool_instruction_serialize AddValidatorStakeAccount;
  Ok (mk_instruction program_id accounts data).

Definition remove_validator_stake_account (program_id stake_pool owner stake_pool_withdraw
    new_stake_authority validator_stake_list stake_account burn_from pool_mint token_program_id
    stake_program_id : Pubkey) : result Instruction :=
  let accounts :=
    [ meta_new stake_pool false; meta_new_readonly owner true;
      meta_new_readonly stake_pool_withdraw false; meta_new_readonly new_stake_authority false;
      meta_new validator_stake_list false; meta_new stake_account false; meta_new burn_from false;
      meta_new pool_mint false; meta_new_readonly clock_id false;
      meta_new_readonly token_program_id false; meta_new_readonly stake_program_id false ] in
  data ← pool_instruction_serialize RemoveValidatorStakeAccount;
  Ok (mk_instruction program_id accounts data).

Definition update_list_balance (program_id validator_stake_list_storage : Pubkey)
    (validator_stake_list : list Pubkey) : result Instruction :=
  let accounts := (fun k => meta_new_readonly k false) <$> validator_stake_list in
  let accounts := meta_new validator_stake_list_storage false :: meta_new_readonly clock_id false :: accounts in
  data ← pool_instruction_serialize UpdateListBalance;
  Ok (mk_instruction program_id accounts data).

Definition update_pool_balance (program_id stake_pool validator_stake_list_storage : Pubkey) :
    result Instruction :=
  let accounts :=
    [ meta_new stake_pool false; meta_new validator_stake_list_storage false;
      meta_new_readonly clock_id false ] in
  data ← pool_instruction_serialize UpdatePoolBalance;
  Ok (mk_instruction program_id accounts data).

Definition deposit (program_id stake_pool validator_stake_list_storage stake_pool_deposit
    stake_pool_withdraw stake_to_join validator_stake_accont pool_tokens_to pool_fee_to pool_mint
    token_program_id stake_program_id : Pubkey) : result Instruction :=
  data ← pool_instruction_serialize Deposit;
  let accounts :=
    [ meta_new stake_pool false; meta_new validator_stake_list_storage false;
      meta_new_readonly stake_pool_deposit false; meta_new_readonly stake_pool_withdraw false;
      meta_new stake_to_join false; meta_new validator_stake_accont false;
      meta_new pool_tokens_to false; meta_new pool_fee_to false; meta_new pool_mint false;
      meta_new_readonly clock_id false; meta_new_readonly stake_history_id false;
      meta_new_readonly token_program_id false; meta_new_readonly stake_program_id false ] in
  Ok (mk_instruction program_id accounts data).

Definition instruction_add_liquidity (amount : Z) (program_id liq_pool_state_account spl_token_program_id
    meta_lp_mint_account meta_lp_mint_authority user_wsol_source_account user_wsol_withdraw_auth
    liq_pool_wsol_dest_account user_dest_meta_lp_account : Pubkey) : result Instruction :=
  data ← pool_instruction_serialize (AddLiquidity amount);
  let accounts :=
    [ meta_new_readonly liq_pool_state_account false; meta_new_readonly spl_token_program_id false;
      meta_new meta_lp_mint_account false; meta_new_readonly meta_lp_mint_authority false;
      meta_new user_wsol_source_account false; meta_new_readonly user_wsol_withdraw_auth false;
      meta_new liq_pool_wsol_dest_account false; meta_new user_dest_meta_lp_account false ] in
  Ok (mk_instruction program_id accounts data).

Definition instruction_sell_stsol (amount : Z) (program_id stake_pool_state_account
    liq_pool_state_account spl_token_program_id liq_pool_wsol_account liq_pool_st_sol_account
    liq_pool_authority user_wsol_account user_st_sol_account user_withdraw_auth : Pubkey) :
    result Instruction :=
  data ← pool_instruction_serialize (SellstSOL amount);
  let accounts :=
    [ meta_new_readonly stake_pool_state_account false; meta_new_readonly liq_pool_state_account false;
      meta_new_readonly spl_token_program_id false; meta_new liq_pool_wsol_account false;
      meta_new liq_pool_st_sol_account false; meta_new_readonly liq_pool_authority false;
      meta_new user_wsol_account false; meta_new user_st_sol_account false;
      meta_new_readonly user_withdraw_auth false ] in
  Ok (mk_instruction program_id accounts data).

Definition withdraw (program_id stake_pool validator_stake_list_storage stake_pool_withdraw
    stake_to_split stake_to_receive user_withdrawer burn_from pool_mint token_program_id
    stake_program_id : Pubkey) (amount : Z) : result Instruction :=
  data ← pool_instruction_serialize (Withdraw amount);
  let accounts :=
    [ meta_new stake_pool false; meta_new validator_stake_list_storage false;
      meta_new_readonly stake_pool_withdraw false; meta_new stake_to_split false;
      meta_new stake_to_receive false; meta_new_readonly user_withdrawer false;
      meta_new burn_from false; meta_new pool_mint false; meta_new_readonly clock_id false;
      meta_new_readonly token_program_id false; meta_new_readonly stake_program_id false ] in
  Ok (mk_instruction program_id accounts data).

Definition set_staking_authority (program_id stake_pool stake_pool_owner stake_pool_withdraw
    stake_account_to_update stake_account_new_authority stake_program_id : Pubkey) : result Instruction :=
  data ← pool_instruction_serialize SetStakingAuthority;
  let accounts :=
    [ meta_new stake_pool false; meta_new_readonly stake_pool_owner true;
      meta_new_readonly stake_pool_withdraw false; meta_new stake_account_to_update false;
      meta_new_readonly stake_account_new_authority false; meta_new_readonly clock_id false;
      meta_new_readonly stake_program_id false ] in
  Ok (mk_instruction program_id accounts data).

Definition set_owner (program_id stake_pool stake_pool_owner stake_pool_new_owner
    stake_pool_new_fee_receiver : Pubkey) : result Instruction :=
  data ← pool_instruction_serialize SetOwner;
  let accounts :=
    [ meta_new stake_pool false; meta_new_readonly stake_pool_owner true;
      meta_new_readonly stake_pool_new_owner false;
      meta_new_readonly stake_pool_new_fee_receiver false ] in
  Ok (mk_instruction program_id accounts data).
End PoolBuilders.
