(* ===== verification/PoolState.v ===== *)
(** * The stake pool's state

    Models [program/src/state.rs]: the [StakePool] account, the validator
    stake list with its records, their byte layouts, the conversions between
    lamports and pool tokens, and the owner check. *)
From S2P Require Import Prelude Machine Sdk PoolInstruction.

(** ** [StakePool] *)
Record StakePool := mk_stake_pool {
  sp_version : Z;
  sp_owner : Pubkey;
  sp_deposit_bump_seed : Z;
  sp_withdraw_bump_seed : Z;
  sp_validator_stake_list : Pubkey;
  sp_pool_mint : Pubkey;
  sp_owner_fee_account : Pubkey;
  sp_token_program_id : Pubkey;
  sp_stake_total : Z;
  sp_pool_total : Z;
  sp_last_update_epoch : Z;
  sp_fee : Fee;
}.
#[global] Instance StakePool_eq_dec : EqDecision StakePool.
Proof. solve_decision. Defined.

(** field assignment *)
Definition set_sp_owner v (p : StakePool) : StakePool := mk_stake_pool (sp_version p) v (sp_deposit_bump_seed p) (sp_withdraw_bump_seed p) (sp_validator_stake_list p) (sp_pool_mint p) (sp_owner_fee_account p) (sp_token_program_id p) (sp_stake_total p) (sp_pool_total p) (sp_last_update_epoch p) (sp_fee p).
Definition set_sp_owner_fee_account v (p : StakePool) : StakePool := mk_stake_pool (sp_version p) (sp_owner p) (sp_deposit_bump_seed p) (sp_withdraw_bump_seed p) (sp_validator_stake_list p) (sp_pool_mint p) v (sp_token_program_id p) (sp_stake_total p) (sp_pool_total p) (sp_last_update_epoch p) (sp_fee p).
Definition set_sp_stake_total v (p : StakePool) : StakePool := mk_stake_pool (sp_version p) (sp_owner p) (sp_deposit_bump_seed p) (sp_withdraw_bump_seed p) (sp_validator_stake_list p) (sp_pool_mint p) (sp_owner_fee_account p) (sp_token_program_id p) v (sp_pool_total p) (sp_last_update_epoch p) (sp_fee p).
Definition set_sp_pool_total v (p : StakePool) : StakePool := mk_stake_pool (sp_version p) (sp_owner p) (sp_deposit_bump_seed p) (sp_withdraw_bump_seed p) (sp_validator_stake_list p) (sp_pool_mint p) (sp_owner_fee_account p) (sp_token_program_id p) (sp_stake_total p) v (sp_last_update_epoch p) (sp_fee p).
Definition set_sp_last_update_epoch v (p : StakePool) : StakePool := mk_stake_pool (sp_version p) (sp_owner p) (sp_deposit_bump_seed p) (sp_withdraw_bump_seed p) (sp_validator_stake_list p) (sp_pool_mint p) (sp_owner_fee_account p) (sp_token_program_id p) (sp_stake_total p) (sp_pool_total p) v (sp_fee p).

(** the five bytes between [token_program_id] and [stake_total] that
    [repr(C)] leaves as padding: what a struct assignment stores there is
    unspecified, and a parameter of the model *)
Class StructPadding := { pool_padding : StakePool -> list byte -> bytes_n 5 }.

(** [size_of::<StakePool>()] and the chunks of its layout *)
Definition STAKE_POOL_LEN : nat := 208.
Definition stake_pool_sizes : list nat := [1; 32; 1; 1; 32; 32; 32; 32; 5; 8; 8; 8; 16]%nat.
Definition stake_pool_from_raw (src : list byte) : StakePool :=
  let field i := nth i (array_refs stake_pool_sizes (take STAKE_POOL_LEN src)) [] in
  mk_stake_pool (le_decode (field 0%nat)) (new_from_array (field 1%nat)) (le_decode (field 2%nat))
    (le_decode (field 3%nat)) (new_from_array (field 4%nat)) (new_from_array (field 5%nat))
    (new_from_array (field 6%nat)) (new_from_array (field 7%nat)) (le_decode (field 9%nat))
    (le_decode (field 10%nat)) (le_decode (field 11%nat)) (from_raw (field 12%nat)).
Definition stake_pool_to_raw `{StructPadding} (p : StakePool) (dst : list byte) : list byte :=
  concat [ [byte_of_u8 (sp_version p)]; to_bytes (sp_owner p); [byte_of_u8 (sp_deposit_bump_seed p)];
           [byte_of_u8 (sp_withdraw_bump_seed p)]; to_bytes (sp_validator_stake_list p);
           to_bytes (sp_pool_mint p); to_bytes (sp_owner_fee_account p); to_bytes (sp_token_program_id p);
           array_to_list 5 (pool_padding p dst);
           u64_to_le_bytes (sp_stake_total p); u64_to_le_bytes (sp_pool_total p);
           u64_to_le_bytes (sp_last_update_epoch p); to_raw (sp_fee p) [] ].
#[global] Instance StakePool_ReprC `{StructPadding} : ReprC StakePool := {|
  size_of := STAKE_POOL_LEN; from_raw := stake_pool_from_raw; to_raw := stake_pool_to_raw |}.

(** a struct read or stored at the start of a buffer that is checked to be
    long enough *)
Definition struct_deserialize (T : Type) `{ReprC T} (input : list byte) : result T :=
  if (length input <? size_of T)%nat then Err InvalidAccountData else Ok (from_raw input).
Definition struct_serialize {T} `{ReprC T} (v : T) (output : list byte) : result (list byte) :=
  if (length output <? size_of T)%nat then Err InvalidAccountData
  else Ok (write_at 0 (to_raw v (take (size_of T) output)) output).

Definition stake_pool_deserialize `{StructPadding} (input : list byte) : result StakePool :=
  struct_deserialize StakePool input.
Definition stake_pool_serialize `{StructPadding} (p : StakePool) (output : list byte) : result (list byte) :=
  struct_serialize p output.

(** Check if the stake pool is initialized *)
Definition sp_is_initialized (p : StakePool) : bool := 0 <? sp_version p.

(** ** Conversions between lamports and pool tokens *)
(** [u64::try_from((a as u128).checked_mul(b)?.checked_div(c)?).ok()] *)
Definition mul_div (a b c : Z) : option Z :=
  m ← checked_mul128 a b; q ← checked_div128 m c; u64_try_from q.
(** the amount of pool tokens corresponding to a lamport amount *)
Definition calc_pool_withdraw_amount (p : StakePool) (stake_lamports : Z) : option Z :=
  mul_div stake_lamports (sp_pool_total p) (sp_stake_total p).
(** the pool tokens that should be minted for deposited lamports *)
Definition calc_pool_deposit_amount (p : StakePool) (stake_lamports : Z) : option Z :=
  if sp_stake_total p =? 0 then Some stake_lamports else calc_pool_withdraw_amount p stake_lamports.
(** the lamports corresponding to an amount of pool tokens *)
Definition calc_lamports_amount (p : StakePool) (pool_tokens : Z) : option Z :=
  mul_div pool_tokens (sp_stake_total p) (sp_pool_total p).
(** the fee in pool tokens that goes to the owner *)
Definition calc_fee_amount (p : StakePool) (pool_amount : Z) : option Z :=
  if fee_denominator (sp_fee p) =? 0 then Some 0
  else mul_div pool_amount (fee_numerator (sp_fee p)) (fee_denominator (sp_fee p)).

(** Check owner validity and signature *)
Definition check_owner (p : StakePool) (owner_info : AccountInfo) : result unit :=
  _ ← err_if (negb (bool_decide (key owner_info = sp_owner p))) (pool_err WrongOwner);
  _ ← err_if (negb (is_signer owner_info)) (pool_err SignatureMissing);
  Ok tt.

(** ** [ValidatorStakeInfo] *)
Record ValidatorStakeInfo := mk_validator_stake_info {
  vsi_validator_account : Pubkey;
  vsi_balance : Z;
  vsi_last_update_epoch : Z;
}.
#[global] Instance ValidatorStakeInfo_eq_dec : EqDecision ValidatorStakeInfo.
Proof. solve_decision. Defined.
Definition set_vsi_balance v (x : ValidatorStakeInfo) : ValidatorStakeInfo :=
  mk_validator_stake_info (vsi_validator_account x) v (vsi_last_update_epoch x).
Definition set_vsi_last_update_epoch v (x : ValidatorStakeInfo) : ValidatorStakeInfo :=
  mk_validator_stake_info (vsi_validator_account x) (vsi_balance x) v.

Definition VALIDATOR_STAKE_INFO_LEN : nat := 48.
#[global] Instance ValidatorStakeInfo_ReprC : ReprC ValidatorStakeInfo := {|
  size_of := VALIDATOR_STAKE_INFO_LEN;
  from_raw src := mk_validator_stake_info (new_from_array (slice 0 32 src))
                    (le_decode (slice 32 8 src)) (le_decode (slice 40 8 src));
  to_raw v _ := to_bytes (vsi_validator_account v) ++ u64_to_le_bytes (vsi_balance v)
                ++ u64_to_le_bytes (vsi_last_update_epoch v) |}.
Definition validator_stake_info_deserialize (input : list byte) : result ValidatorStakeInfo :=
  struct_deserialize ValidatorStakeInfo input.
Definition validator_stake_info_serialize (v : ValidatorStakeInfo) (output : list byte) :
    result (list byte) :=
  struct_serialize v output.

(** ** [ValidatorStakeList] *)
Record ValidatorStakeList := mk_validator_stake_list {
  vsl_version : Z;
  vsl_validators : list ValidatorStakeInfo;
}.
#[global] Instance ValidatorStakeList_eq_dec : EqDecision ValidatorStakeList.
Proof. solve_decision. Defined.
Definition set_vsl_version v (l : ValidatorStakeList) : ValidatorStakeList :=
  mk_validator_stake_list v (vsl_validators l).
Definition set_vsl_validators v (l : ValidatorStakeList) : ValidatorStakeList :=
  mk_validator_stake_list (vsl_version l) v.

Definition MAX_VALIDATOR_STAKE_ACCOUNTS : nat := 1000.
Definition HEADER_LEN : nat := 3.
Definition VALIDATOR_STAKE_LIST_LEN : nat :=
  HEADER_LEN + VALIDATOR_STAKE_INFO_LEN * MAX_VALIDATOR_STAKE_ACCOUNTS.
Definition VALIDATOR_STAKE_LIST_VERSION : Z := 1.

(** [contains], [find], and [find_mut] (as the index of the found record) *)
Definition vsl_contains (l : ValidatorStakeList) (validator : Pubkey) : bool :=
  existsb (fun x => bool_decide (vsi_validator_account x = validator)) (vsl_validators l).
Definition vsl_find_mut (l : ValidatorStakeList) (validator : Pubkey) : option nat :=
  fst <$> list_find (fun x => vsi_validator_account x = validator) (vsl_validators l).
Definition vsl_find (l : ValidatorStakeList) (validator : Pubkey) : option ValidatorStakeInfo :=
  snd <$> list_find (fun x => vsi_validator_account x = validator) (vsl_validators l).
Definition vsl_is_initialized (l : ValidatorStakeList) : bool := 0 <? vsl_version l.

(** the loop of [ValidatorStakeList::deserialize] over [input[from..to]] *)
Fixpoint deserialize_validators (input : list byte) (from n : nat) : result (list ValidatorStakeInfo) :=
  match n with
  | O => Ok []
  | S n =>
      chunk ← slice_checked from VALIDATOR_STAKE_INFO_LEN input;
      v ← validator_stake_info_deserialize chunk;
      vs ← deserialize_validators input (from + VALIDATOR_STAKE_INFO_LEN) n;
      Ok (v :: vs)
  end.
Definition validator_stake_list_deserialize (input : list byte) : result ValidatorStakeList :=
  _ ← err_if (length input <? VALIDATOR_STAKE_LIST_LEN)%nat InvalidAccountData;
  let version := le_decode (slice 0 1 input) in
  if version =? 0 then Ok (mk_validator_stake_list 0 [])
  else
    let number_of_validators := Z.to_nat (le_decode (slice 1 2 input)) in
    _ ← err_if (MAX_VALIDATOR_STAKE_ACCOUNTS <? number_of_validators)%nat InvalidAccountData;
    validators ← deserialize_validators input HEADER_LEN number_of_validators;
    Ok (mk_validator_stake_list version validators).

(** the loop of [ValidatorStakeList::serialize] over [output[from..to]] *)
Fixpoint serialize_validators (vs : list ValidatorStakeInfo) (from : nat) (output : list byte) :
    result (list byte) :=
  match vs with
  | [] => Ok output
  | v :: vs =>
      chunk ← slice_checked from VALIDATOR_STAKE_INFO_LEN output;
      chunk ← validator_stake_info_serialize v chunk;
      serialize_validators vs (from + VALIDATOR_STAKE_INFO_LEN) (write_at from chunk output)
  end.
Definition validator_stake_list_serialize (l : ValidatorStakeList) (output : list byte) :
    result (list byte) :=
  _ ← err_if (length output <? VALIDATOR_STAKE_LIST_LEN)%nat InvalidAccountData;
  _ ← err_if (MAX_VALIDATOR_STAKE_ACCOUNTS <? length (vsl_validators l))%nat InvalidAccountData;
  let output := write_at 0 [byte_of_u8 (vsl_version l)] output in
  let output := write_at 1 (u16_to_le_bytes (as_u16 (len (vsl_validators l)))) output in
  serialize_validators (vsl_validators l) HEADER_LEN output.
