(* ===== verification/StakeProgram.v ===== *)
(** * The interface to the native stake program

    Models [program/src/stake.rs]: the stake program's instructions and
    account state, the arithmetic of warming up and cooling down stake, and
    the instruction constructors.

    The [f64] arithmetic is the standard library's executable IEEE-754
    [SpecFloat] at 53 bits of precision; [bincode], which encodes
    instructions and decodes stake accounts, is a parameter. *)
From S2P Require Import Prelude Machine Sdk.
From Stdlib Require Import SpecFloat.

(** ** Data *)
Record Authorized := mk_authorized { staker : Pubkey; withdrawer : Pubkey }.
Record Lockup := mk_lockup { unix_timestamp : Z; lockup_epoch : Z; custodian : Pubkey }.
Definition lockup_default : Lockup := mk_lockup 0 0 default_pubkey.
Inductive StakeAuthorize := Staker | Withdrawer.

Inductive StakeInstruction :=
| StakeIxInitialize (authorized : Authorized) (lockup : Lockup)
| StakeIxAuthorize (new_authorized : Pubkey) (stake_authorize : StakeAuthorize)
| StakeIxDelegateStake
| StakeIxSplit (lamports : Z)
| StakeIxWithdraw (lamports : Z)
| StakeIxDeactivate
| StakeIxSetLockupNOTUSED
| StakeIxMerge
| StakeIxAuthorizeWithSeedNOTUSED.

Definition f64 : Type := spec_float.
Record Meta := mk_meta_state { rent_exempt_reserve : Z; meta_authorized : Authorized; meta_lockup : Lockup }.
Record Delegation := mk_delegation {
  voter_pubkey : Pubkey;
  dl_stake : Z;
  activation_epoch : Z;
  deactivation_epoch : Z;
  warmup_cooldown_rate : f64;
}.
Record Stake := mk_stake { stake_delegation : Delegation; credits_observed : Z }.
Inductive StakeState :=
| StakeUninitialized
| StakeInitialized (meta : Meta)
| StakeStake (meta : Meta) (stake : Stake)
| RewardsPool.

(** [size_of::<StakeState>()] *)
Definition STAKE_STATE_SIZE : Z := 200.

(** the [bincode] crate at the two types the program uses it on *)
Class Bincode := {
  bincode_serialize : StakeInstruction -> list byte;
  bincode_deserialize : list byte -> option StakeState;
}.

(** ** [f64] casts *)
(** [x as f64] of a [u64]: the nearest double, ties to even *)
Definition f64_of_u64 (z : Z) : f64 := binary_normalize 53 1024 z 0 false.
Definition f64_mul (a b : f64) : f64 := SFmul 53 1024 a b.
Definition f64_div (a b : f64) : f64 := SFdiv 53 1024 a b.
(** [x as u64] of an [f64]: truncation, saturating; a NaN gives 0 *)
Definition u64_of_f64 (x : f64) : Z :=
  match x with
  | S754_finite false m e => Z.min u64_MAX (Z.shiftl (Zpos m) e)
  | S754_infinity false => u64_MAX
  | _ => 0
  end.

(** ** Stake activation *)
(** [StakeState::delegation] *)
Definition stake_state_delegation (st : StakeState) : option Delegation :=
  match st with StakeStake _ stake => Some (stake_delegation stake) | _ => None end.
(** [Delegation::new] *)
Definition delegation_new (voter_pubkey : Pubkey) (stake activation_epoch : Z)
    (warmup_cooldown_rate : f64) : Delegation :=
  mk_delegation voter_pubkey stake activation_epoch 0 warmup_cooldown_rate.
Definition is_bootstrap (d : Delegation) : bool := activation_epoch d =? u64_MAX.

Section Activation.
Context `{SDK : SolanaSdk} `{BuildProfile}.
Implicit Types (self : Delegation) (target_epoch prev_epoch current_effective_stake : Z).

(** the share of the cluster's newly (in)effective stake an account of
    weight [amount / total] takes in one epoch, at least one lamport *)
Definition entitlement self (amount total cluster_effective : Z) : Z :=
  let weight := f64_div (f64_of_u64 amount) (f64_of_u64 total) in
  let newly_cluster_stake := f64_mul (f64_of_u64 cluster_effective) (warmup_cooldown_rate self) in
  Z.max (u64_of_f64 (f64_mul weight newly_cluster_stake)) 1.

(** The loop of [stake_and_activating]: [None] is the loop cut short. *)
Fixpoint activation_loop (fuel : nat) self target_epoch (history : StakeHistory) prev_epoch
    (prev_cluster_stake : StakeHistoryEntry) current_effective_stake : option (result Z) :=
  match fuel with
  | O => None
  | S fuel =>
      match plain_add (E:=ProgramError) prev_epoch 1 with
      | Ok current_epoch =>
          if activating prev_cluster_stake =? 0 then Some (Ok current_effective_stake)
          else
            match plain_sub (E:=ProgramError) (dl_stake self) current_effective_stake with
            | Ok remaining_activating_stake =>
                let newly_effective_stake :=
                  entitlement self remaining_activating_stake (activating prev_cluster_stake)
                    (effective prev_cluster_stake) in
                match plain_add (E:=ProgramError) current_effective_stake newly_effective_stake with
                | Ok current_effective_stake =>
                    if dl_stake self <=? current_effective_stake then Some (Ok (dl_stake self))
                    else if (target_epoch <=? current_epoch) || (deactivation_epoch self <=? current_epoch)
                    then Some (Ok current_effective_stake)
                    else
                      match stake_history_get history current_epoch with
                      | Some current_cluster_stake =>
                          activation_loop fuel self target_epoch history current_epoch
                            current_cluster_stake current_effective_stake
                      | None => Some (Ok current_effective_stake)
                      end
                | Err e => Some (Err e)
                | Panic => Some Panic
                end
            | Err e => Some (Err e)
            | Panic => Some Panic
            end
      | Err e => Some (Err e)
      | Panic => Some Panic
      end
  end.

(** [history.and_then(|history| history.get(&epoch).map(..))] *)
Definition history_at (history : option StakeHistory) (epoch : Z) :
    option (StakeHistory * StakeHistoryEntry) :=
  h ← history; e ← stake_history_get h epoch; Some (h, e).

(** [(effective, activating)] stake *)
Definition stake_and_activating self target_epoch (history : option StakeHistory)
    (fix_stake_deactivate : bool) : option (result (Z * Z)) :=
  let delegated_stake := dl_stake self in
  if is_bootstrap self then Some (Ok (delegated_stake, 0))
  else if fix_stake_deactivate && (activation_epoch self =? deactivation_epoch self) then Some (Ok (0, 0))
  else if target_epoch =? activation_epoch self then Some (Ok (0, delegated_stake))
  else if target_epoch <? activation_epoch self then Some (Ok (0, 0))
  else
    match history_at history (activation_epoch self) with
    | Some (history, prev_cluster_stake) =>
        r ← activation_loop (Z.to_nat (target_epoch - activation_epoch self)) self target_epoch history
              (activation_epoch self) prev_cluster_stake 0;
        Some (current_effective_stake ← r;
              remaining ← plain_sub delegated_stake current_effective_stake;
              Ok (current_effective_stake, remaining))
    | None => Some (Ok (delegated_stake, 0))
    end.

(** The loop of [stake_activating_and_deactivating]. *)
Fixpoint deactivation_loop (fuel : nat) self target_epoch (history : StakeHistory) prev_epoch
    (prev_cluster_stake : StakeHistoryEntry) current_effective_stake : option (result Z) :=
  match fuel with
  | O => None
  | S fuel =>
      match plain_add (E:=ProgramError) prev_epoch 1 with
      | Ok current_epoch =>
          if deactivating prev_cluster_stake =? 0 then Some (Ok current_effective_stake)
          else
            let newly_not_effective_stake :=
              entitlement self current_effective_stake (deactivating prev_cluster_stake)
                (effective prev_cluster_stake) in
            let current_effective_stake :=
              saturating_sub current_effective_stake newly_not_effective_stake in
            if current_effective_stake =? 0 then Some (Ok current_effective_stake)
            else if target_epoch <=? current_epoch then Some (Ok current_effective_stake)
            else
              match stake_history_get history current_epoch with
              | Some current_cluster_stake =>
                  deactivation_loop fuel self target_epoch history current_epoch
                    current_cluster_stake current_effective_stake
              | None => Some (Ok current_effective_stake)
              end
      | Err e => Some (Err e)
      | Panic => Some Panic
      end
  end.

(** [(effective, activating, deactivating)] stake *)
Definition stake_activating_and_deactivating self target_epoch (history : option StakeHistory)
    (fix_stake_deactivate : bool) : option (result (Z * Z * Z)) :=
  let delegated_stake := dl_stake self in
  r ← stake_and_activating self target_epoch history fix_stake_deactivate;
  match r with
  | Ok (effective_stake, activating_stake) =>
      if target_epoch <? deactivation_epoch self then Some (Ok (effective_stake, activating_stake, 0))
      else if target_epoch =? deactivation_epoch self then
        Some (Ok (effective_stake, 0, Z.min effective_stake delegated_stake))
      else
        match history_at history (deactivation_epoch self) with
        | Some (history, prev_cluster_stake) =>
            r ← deactivation_loop (Z.to_nat (target_epoch - deactivation_epoch self)) self target_epoch
                  history (deactivation_epoch self) prev_cluster_stake effective_stake;
            Some (current_effective_stake ← r;
                  Ok (current_effective_stake, 0, current_effective_stake))
        | None => Some (Ok (0, 0, 0))
        end
  | Err e => Some (Err e)
  | Panic => Some Panic
  end.
End Activation.

(** ** Instruction constructors *)
Section StakeBuilders.
Context `{SDK : SolanaSdk} `{Bincode}.

(** [stake::id()] and the stake config account *)
Definition stake_program_id : Pubkey := declare_id "Stake11111111111111111111111111111111111111".
Definition stake_config_id : Pubkey := declare_id "StakeConfig11111111111111111111111111111111".

(** [Instruction::new] *)
Definition instruction_new (program_id : Pubkey) (data : StakeInstruction)
    (accounts : list AccountMeta) : Instruction :=
  mk_instruction program_id accounts (bincode_serialize data).

Definition split_only (stake_pubkey authorized_pubkey : Pubkey) (lamports : Z)
    (split_stake_pubkey : Pubkey) : Instruction :=
  let account_metas := [ meta_new stake_pubkey false; meta_new split_stake_pubkey false;
                         meta_new_readonly authorized_pubkey true ] in
  instruction_new stake_program_id (StakeIxSplit lamports) account_metas.
Definition authorize (stake_pubkey authorized_pubkey new_authorized_pubkey : Pubkey)
    (stake_authorize : StakeAuthorize) : Instruction :=
  let account_metas := [ meta_new stake_pubkey false; meta_new_readonly clock_id false;
                         meta_new_readonly authorized_pubkey true ] in
  instruction_new stake_program_id (StakeIxAuthorize new_authorized_pubkey stake_authorize) account_metas.
Definition merge (destination_stake_pubkey source_stake_pubkey authorized_pubkey : Pubkey) : Instruction :=
  let account_metas := [ meta_new destination_stake_pubkey false; meta_new source_stake_pubkey false;
                         meta_new_readonly clock_id false; meta_new_readonly stake_history_id false;
                         meta_new_readonly authorized_pubkey true ] in
  instruction_new stake_program_id StakeIxMerge account_metas.
Definition stake_initialize (stake_pubkey : Pubkey) (authorized : Authorized) (lockup : Lockup) : Instruction :=
  instruction_new stake_program_id (StakeIxInitialize authorized lockup)
    [ meta_new stake_pubkey false; meta_new_readonly rent_id false ].
Definition create_account (from_pubkey stake_pubkey : Pubkey) (authorized : Authorized)
    (lockup : Lockup) (lamports : Z) : list Instruction :=
  [ system_create_account from_pubkey stake_pubkey lamports STAKE_STATE_SIZE stake_program_id;
    stake_initialize stake_pubkey authorized lockup ].
Definition delegate_stake (stake_pubkey authorized_pubkey vote_pubkey : Pubkey) : Instruction :=
  let account_metas := [ meta_new stake_pubkey false; meta_new_readonly vote_pubkey false;
                         meta_new_readonly clock_id false; meta_new_readonly stake_history_id false;
                         meta_new_readonly stake_config_id false;
                         meta_new_readonly authorized_pubkey true ] in
  instruction_new stake_program_id StakeIxDelegateStake account_metas.
End StakeBuilders.
