(* ===== verification/PoolProcessor.v ===== *)
(** * The stake pool's instruction processor

    Models [program/src/processor.rs]: program-derived authorities, the
    helpers that issue cross-program invocations, one definition per handler
    in the order of the source, and the dispatcher [pool_process].  The
    invocations go through the [Runtime] interface. *)
From S2P Require Import Prelude Machine Sdk TokenInstruction TokenState TokenProcessor.
From S2P Require Import PoolInstruction PoolState StakeProgram.
From Stdlib Require Strings.String.

(** ** Arithmetic helpers *)
Definition PROGRAM_VERSION : Z := 1.
(** [to_u128]: the conversion from [u64] cannot fail *)
Definition to_u128 (val : Z) : outcome StakePoolError Z := Ok val.
(** amount * numerator / denominator, and the amount itself when the
    denominator is 0 *)
Definition proportional (amount numerator denominator : Z) : option Z :=
  if denominator =? 0 then Some amount else mul_div amount numerator denominator.
Definition value_from_shares (shares total_value total_shares : Z) : option Z :=
  proportional shares total_value total_shares.
Definition shares_from_value (value total_value total_shares : Z) : option Z :=
  proportional value total_shares total_value.

Section PoolProcessor.
Context `{SDK : SolanaSdk} `{RT : Runtime} `{BC : Bincode} `{PAD : StructPadding} `{BP : BuildProfile}.
Implicit Types (program_id : Pubkey) (accounts : list AccountInfo).

(** ** Program-derived authorities *)
Definition AUTHORITY_DEPOSIT : list byte := String.list_byte_of_string "deposit".
Definition AUTHORITY_WITHDRAW : list byte := String.list_byte_of_string "withdraw".
Definition AUTHORITY : list byte := String.list_byte_of_string "authority".

Definition authority_id program_id (base_account_pubkey : Pubkey) (authority_type : list byte)
    (bump_seed : Z) : result Pubkey :=
  ok_or (pool_err InvalidProgramAddress)
    (create_program_address [to_bytes base_account_pubkey; authority_type; [byte_of_u8 bump_seed]] program_id).
Definition find_authority_bump_seed program_id (base_account_pubkey : Pubkey)
    (authority_type : list byte) : Pubkey * Z :=
  find_program_address [to_bytes base_account_pubkey; authority_type] program_id.
Definition find_stake_address_for_validator program_id (validator stake_pool : Pubkey) : Pubkey * Z :=
  find_program_address [to_bytes validator; to_bytes stake_pool] program_id.
Definition check_authority (authority_to_check program_id stake_pool_key : Pubkey)
    (authority_type : list byte) (bump_seed : Z) : result unit :=
  compareto ← authority_id program_id stake_pool_key authority_type bump_seed;
  _ ← err_if (negb (bool_decide (authority_to_check = compareto))) (pool_err InvalidProgramAddress);
  Ok tt.
Definition check_authority_withdraw (p : StakePool) (authority_to_check program_id stake_pool_key : Pubkey) :
    result unit :=
  check_authority authority_to_check program_id stake_pool_key AUTHORITY_WITHDRAW (sp_withdraw_bump_seed p).
Definition check_authority_deposit (p : StakePool) (authority_to_check program_id stake_pool_key : Pubkey) :
    result unit :=
  check_authority authority_to_check program_id stake_pool_key AUTHORITY_DEPOSIT (sp_deposit_bump_seed p).

(** the validator a stake account delegates to *)
Definition get_validator (stake_account_info : AccountInfo) : M Pubkey :=
  d ← borrow_data stake_account_info;
  stake_state ← lift (ok_or InvalidAccountData (bincode_deserialize d));
  match stake_state with
  | StakeStake _ stake => mret (voter_pubkey (stake_delegation stake))
  | _ => throw (pool_err WrongStakeState)
  end.
Definition is_validator_stake_address (validator_account program_id : Pubkey)
    (stake_pool_info stake_account_info : AccountInfo) : bool :=
  let '(stake_address, _) :=
    find_stake_address_for_validator program_id validator_account (key stake_pool_info) in
  bool_decide (stake_address = key stake_account_info).
Definition get_validator_checked program_id (stake_pool_info stake_account_info : AccountInfo) : M Pubkey :=
  validator_account ← get_validator stake_account_info;
  fail_if (negb (is_validator_stake_address validator_account program_id stake_pool_info stake_account_info))
    (pool_err InvalidStakeAccountAddress);;
  mret validator_account.

(** ** Issued invocations *)
(** the seeds of one program-derived signer *)
Definition authority_seeds (base : Pubkey) (authority_type : list byte) (bump_seed : Z) : list (list byte) :=
  [to_bytes base; authority_type; [byte_of_u8 bump_seed]].

Definition stake_split (stake_pool : Pubkey) (stake_account authority : AccountInfo)
    (authority_type : list byte) (bump_seed amount : Z)
    (split_stake reserved stake_program_info : AccountInfo) : M unit :=
  let signers := [authority_seeds stake_pool authority_type bump_seed] in
  let ix := split_only (key stake_account) (key authority) amount (key split_stake) in
  invoke_signed ix [stake_account; reserved; authority; split_stake; stake_program_info] signers.
Definition stake_merge (stake_pool : Pubkey) (stake_account authority : AccountInfo)
    (authority_type : list byte) (bump_seed : Z)
    (merge_with clock stake_history stake_program_info : AccountInfo) : M unit :=
  let signers := [authority_seeds stake_pool authority_type bump_seed] in
  let ix := merge (key merge_with) (key stake_account) (key authority) in
  invoke_signed ix [merge_with; stake_account; clock; stake_history; authority; stake_program_info] signers.
Definition stake_authorize (stake_pool : Pubkey) (stake_account authority : AccountInfo)
    (authority_type : list byte) (bump_seed : Z) (new_staker : Pubkey) (staker_auth : StakeAuthorize)
    (reserved stake_program_info : AccountInfo) : M unit :=
  let signers := [authority_seeds stake_pool authority_type bump_seed] in
  let ix := authorize (key stake_account) (key authority) new_staker staker_auth in
  invoke_signed ix [stake_account; reserved; authority; stake_program_info] signers.
Definition token_burn (stake_pool : Pubkey) (token_program burn_account mint authority : AccountInfo)
    (authority_type : list byte) (bump_seed amount : Z) : M unit :=
  let signers := [authority_seeds stake_pool authority_type bump_seed] in
  ix ← lift (burn (key token_program) (key burn_account) (key mint) (key authority) [] amount);
  invoke_signed ix [burn_account; mint; authority; token_program] signers.
Definition liq_pool_token_mint_to program_id (liq_pool_account : Pubkey)
    (token_program mint destination liq_pool_authority : AccountInfo) (amount : Z) : M unit :=
  let '(_, bump) := find_authority_bump_seed program_id liq_pool_account AUTHORITY in
  let signer_seeds := authority_seeds liq_pool_account AUTHORITY bump in
  ix ← lift (mint_to (key token_program) (key mint) (key destination) (key liq_pool_authority) [] amount);
  invoke_signed ix [mint; destination; liq_pool_authority; token_program] [signer_seeds].
Definition token_mint_to (stake_pool : Pubkey) (token_program mint destination authority : AccountInfo)
    (authority_type : list byte) (bump_seed amount : Z) : M unit :=
  let signers := [authority_seeds stake_pool authority_type bump_seed] in
  ix ← lift (mint_to (key token_program) (key mint) (key destination) (key authority) [] amount);
  invoke_signed ix [mint; destination; authority; token_program] signers.
Definition token_transfer_from_signer (token_program source destination authority : AccountInfo)
    (amount : Z) : M unit :=
  ix ← lift (transfer (key token_program) (key source) (key destination) (key authority) [] amount);
  invoke ix [source; destination; authority; token_program].
Definition token_transfer (token_program source destination authority : AccountInfo)
    (pda_base : Pubkey) (authority_type : list byte) (nonce amount : Z) : M unit :=
  let signers := [authority_seeds pda_base authority_type nonce] in
  ix ← lift (transfer (key token_program) (key source) (key destination) (key authority) [] amount);
  invoke_signed ix [source; destination; authority; token_program] signers.

(** ** Reading and saving the state accounts *)
Definition read_stake_pool (i : AccountInfo) : M StakePool :=
  d ← borrow_data i; lift (stake_pool_deserialize d).
Definition save_stake_pool (p : StakePool) (i : AccountInfo) : M unit :=
  d ← borrow_data i; d' ← lift (stake_pool_serialize p d); write_data i d'.
Definition read_validator_stake_list (i : AccountInfo) : M ValidatorStakeList :=
  d ← borrow_data i; lift (validator_stake_list_deserialize d).
Definition save_validator_stake_list (l : ValidatorStakeList) (i : AccountInfo) : M unit :=
  d ← borrow_data i; d' ← lift (validator_stake_list_serialize l d); write_data i d'.

(** ** Handlers *)
Definition process_initialize program_id (init : InitArgs) accounts : M unit :=
  '(stake_pool_info, it) ← next_info accounts;
  '(owner_info, it) ← next_info it;
  '(validator_stake_list_info, it) ← next_info it;
  '(pool_mint_info, it) ← next_info it;
  '(owner_fee_info, it) ← next_info it;
  '(clock_info, it) ← next_info it;
  clock ← read_clock clock_info;
  '(rent_info, it) ← next_info it;
  rent ← read_rent rent_info;
  '(token_program_info, _) ← next_info it;
  fail_if (negb (is_signer owner_info)) (pool_err SignatureMissing);;
  stake_pool ← read_stake_pool stake_pool_info;
  fail_if (sp_is_initialized stake_pool) (pool_err AlreadyInUse);;
  validator_stake_list ← read_validator_stake_list validator_stake_list_info;
  fail_if (vsl_is_initialized validator_stake_list) (pool_err AlreadyInUse);;
  let validator_stake_list :=
    set_vsl_validators [] (set_vsl_version VALIDATOR_STAKE_LIST_VERSION validator_stake_list) in
  pool_lamports ← lamports stake_pool_info;
  pool_data_len ← data_len stake_pool_info;
  fail_if (negb (rent_is_exempt rent pool_lamports pool_data_len)) (pool_err AccountNotRentExempt);;
  list_lamports ← lamports validator_stake_list_info;
  list_data_len ← data_len validator_stake_list_info;
  fail_if (negb (rent_is_exempt rent list_lamports list_data_len)) (pool_err AccountNotRentExempt);;
  fail_if (fee_denominator (init_fee init) <? fee_numerator (init_fee init)) (pool_err FeeTooHigh);;
  owner_fee_owner ← owner_of owner_fee_info;
  fail_if (negb (bool_decide (owner_fee_owner = key token_program_info))) (pool_err InvalidFeeAccount);;
  pool_mint_owner ← owner_of pool_mint_info;
  fail_if (negb (bool_decide (pool_mint_owner = key token_program_info))) IncorrectProgramId;;
  owner_fee_data ← borrow_data owner_fee_info;
  owner_fee ← lift (unpack_from_slice (T:=Account) owner_fee_data);
  fail_if (negb (bool_decide (key pool_mint_info = acc_mint owner_fee))) (pool_err WrongAccountMint);;
  let '(_, deposit_bump_seed) :=
    find_authority_bump_seed program_id (key stake_pool_info) AUTHORITY_DEPOSIT in
  let '(withdraw_authority_key, withdraw_bump_seed) :=
    find_authority_bump_seed program_id (key stake_pool_info) AUTHORITY_WITHDRAW in
  pool_mint_data ← borrow_data pool_mint_info;
  pool_mint ← lift (unpack_from_slice (T:=Mint) pool_mint_data);
  fail_if (negb (bool_decide (mint_authority pool_mint = Some withdraw_authority_key)))
    (pool_err WrongMintingAuthority);;
  save_validator_stake_list validator_stake_list validator_stake_list_info;;
  let stake_pool :=
    mk_stake_pool PROGRAM_VERSION (key owner_info) deposit_bump_seed withdraw_bump_seed
      (key validator_stake_list_info) (key pool_mint_info) (key owner_fee_info) (key token_program_info)
      (sp_stake_total stake_pool) (sp_pool_total stake_pool) (epoch clock) (init_fee init) in
  save_stake_pool stake_pool stake_pool_info.

Definition process_create_validator_stake_account program_id accounts : M unit :=
  '(stake_pool_info, it) ← next_info accounts;
  '(funder_info, it) ← next_info it;
  '(stake_account_info, it) ← next_info it;
  '(validator_info, it) ← next_info it;
  '(stake_authority_info, it) ← next_info it;
  '(withdraw_authority_info, it) ← next_info it;
  '(rent_info, it) ← next_info it;
  rent ← read_rent rent_info;
  '(system_program_info, it) ← next_info it;
  '(stake_program_info, _) ← next_info it;
  fail_if (negb (bool_decide (key system_program_info = system_program_id))) IncorrectProgramId;;
  fail_if (negb (bool_decide (key stake_program_info = stake_program_id))) IncorrectProgramId;;
  let '(stake_address, bump_seed) :=
    find_stake_address_for_validator program_id (key validator_info) (key stake_pool_info) in
  fail_if (negb (bool_decide (stake_address = key stake_account_info))) (pool_err InvalidStakeAccountAddress);;
  let stake_account_signer_seeds :=
    [to_bytes (key validator_info); to_bytes (key stake_pool_info); [byte_of_u8 bump_seed]] in
  required_lamports ← lift (plain_add one_sol (rent_minimum_balance rent STAKE_STATE_SIZE));
  invoke_signed
    (system_create_account (key funder_info) (key stake_account_info) required_lamports STAKE_STATE_SIZE
       stake_program_id)
    [funder_info; stake_account_info] [stake_account_signer_seeds];;
  invoke
    (stake_initialize (key stake_account_info)
       (mk_authorized (key stake_authority_info) (key withdraw_authority_info)) lockup_default)
    [stake_account_info; rent_info; stake_program_info].

(** [check_stake_activation]: its body is commented out in the source *)
Definition check_stake_activation (_stake_info : AccountInfo) (_clock : Clock)
    (_stake_history : StakeHistory) : result unit := Ok tt.

Definition process_add_validator_stake_account program_id accounts : M unit :=
  '(stake_pool_info, it) ← next_info accounts;
  '(owner_info, it) ← next_info it;
  '(deposit_info, it) ← next_info it;
  '(withdraw_info, it) ← next_info it;
  '(validator_stake_list_info, it) ← next_info it;
  '(stake_account_info, it) ← next_info it;
  '(dest_user_info, it) ← next_info it;
  '(pool_mint_info, it) ← next_info it;
  '(clock_info, it) ← next_info it;
  clock ← read_clock clock_info;
  '(stake_history_info, it) ← next_info it;
  stake_history ← read_stake_history stake_history_info;
  '(token_program_info, it) ← next_info it;
  '(stake_program_info, _) ← next_info it;
  fail_if (negb (bool_decide (key stake_program_info = stake_program_id))) IncorrectProgramId;;
  stake_pool ← read_stake_pool stake_pool_info;
  fail_if (negb (sp_is_initialized stake_pool)) (pool_err InvalidState);;
  lift (check_authority_withdraw stake_pool (key withdraw_info) program_id (key stake_pool_info));;
  lift (check_authority_deposit stake_pool (key deposit_info) program_id (key stake_pool_info));;
  lift (check_owner stake_pool owner_info);;
  fail_if (sp_last_update_epoch stake_pool <? epoch clock) (pool_err StakeListAndPoolOutOfDate);;
  fail_if (negb (bool_decide (sp_token_program_id stake_pool = key token_program_info))) IncorrectProgramId;;
  fail_if (negb (bool_decide (sp_pool_mint stake_pool = key pool_mint_info))) (pool_err WrongPoolMint);;
  fail_if (negb (bool_decide (key validator_stake_list_info = sp_validator_stake_list stake_pool)))
    (pool_err InvalidValidatorStakeList);;
  validator_stake_list ← read_validator_stake_list validator_stake_list_info;
  fail_if (negb (vsl_is_initialized validator_stake_list)) (pool_err InvalidState);;
  validator_account ← get_validator_checked program_id stake_pool_info stake_account_info;
  fail_if (vsl_contains validator_stake_list validator_account) (pool_err ValidatorAlreadyAdded);;
  foldM (fun _ authority =>
      stake_authorize (key stake_pool_info) stake_account_info deposit_info AUTHORITY_DEPOSIT
        (sp_deposit_bump_seed stake_pool) (key withdraw_info) authority clock_info stake_program_info)
    tt [Withdrawer; Staker];;
  stake_lamports ← lamports stake_account_info;
  token_amount ← lift (ok_or (pool_err CalculationFailure)
                         (calc_pool_deposit_amount stake_pool stake_lamports));
  token_mint_to (key stake_pool_info) token_program_info pool_mint_info dest_user_info withdraw_info
    AUTHORITY_WITHDRAW (sp_withdraw_bump_seed stake_pool) token_amount;;
  lift (check_stake_activation stake_account_info clock stake_history);;
  let validator_stake_list :=
    set_vsl_validators
      (vsl_validators validator_stake_list ++
         [mk_validator_stake_info validator_account stake_lamports (epoch clock)])
      validator_stake_list in
  save_validator_stake_list validator_stake_list validator_stake_list_info;;
  pool_total ← lift (plain_add (sp_pool_total stake_pool) token_amount);
  stake_total ← lift (plain_add (sp_stake_total stake_pool) stake_lamports);
  save_stake_pool (set_sp_stake_total stake_total (set_sp_pool_total pool_total stake_pool)) stake_pool_info.

Definition process_remove_validator_stake_account program_id accounts : M unit :=
  '(stake_pool_info, it) ← next_info accounts;
  '(owner_info, it) ← next_info it;
  '(withdraw_info, it) ← next_info it;
  '(new_stake_authority_info, it) ← next_info it;
  '(validator_stake_list_info, it) ← next_info it;
  '(stake_account_info, it) ← next_info it;
  '(burn_from_info, it) ← next_info it;
  '(pool_mint_info, it) ← next_info it;
  '(clock_info, it) ← next_info it;
  clock ← read_clock clock_info;
  '(token_program_info, it) ← next_info it;
  '(stake_program_info, _) ← next_info it;
  fail_if (negb (bool_decide (key stake_program_info = stake_program_id))) IncorrectProgramId;;
  stake_pool ← read_stake_pool stake_pool_info;
  fail_if (negb (sp_is_initialized stake_pool)) (pool_err InvalidState);;
  lift (check_authority_withdraw stake_pool (key withdraw_info) program_id (key stake_pool_info));;
  lift (check_owner stake_pool owner_info);;
  fail_if (sp_last_update_epoch stake_pool <? epoch clock) (pool_err StakeListAndPoolOutOfDate);;
  fail_if (negb (bool_decide (sp_token_program_id stake_pool = key token_program_info))) IncorrectProgramId;;
  fail_if (negb (bool_decide (sp_pool_mint stake_pool = key pool_mint_info))) (pool_err WrongPoolMint);;
  fail_if (negb (bool_decide (key validator_stake_list_info = sp_validator_stake_list stake_pool)))
    (pool_err InvalidValidatorStakeList);;
  validator_stake_list ← read_validator_stake_list validator_stake_list_info;
  fail_if (negb (vsl_is_initialized validator_stake_list)) (pool_err InvalidState);;
  validator_account ← get_validator_checked program_id stake_pool_info stake_account_info;
  fail_if (negb (vsl_contains validator_stake_list validator_account)) (pool_err ValidatorNotFound);;
  foldM (fun _ authority =>
      stake_authorize (key stake_pool_info) stake_account_info withdraw_info AUTHORITY_WITHDRAW
        (sp_withdraw_bump_seed stake_pool) (key new_stake_authority_info) authority clock_info
        stake_program_info)
    tt [Withdrawer; Staker];;
  stake_lamports ← lamports stake_account_info;
  token_amount ← lift (ok_or (pool_err CalculationFailure)
                         (calc_pool_withdraw_amount stake_pool stake_lamports));
  token_burn (key stake_pool_info) token_program_info burn_from_info pool_mint_info withdraw_info
    AUTHORITY_WITHDRAW (sp_withdraw_bump_seed stake_pool) token_amount;;
  let validator_stake_list :=
    set_vsl_validators
      (filter (fun item => vsi_validator_account item <> validator_account)
         (vsl_validators validator_stake_list))
      validator_stake_list in
  save_validator_stake_list validator_stake_list validator_stake_list_info;;
  pool_total ← lift (plain_sub (sp_pool_total stake_pool) token_amount);
  stake_total ← lift (plain_sub (sp_stake_total stake_pool) stake_lamports);
  save_stake_pool (set_sp_stake_total stake_total (set_sp_pool_total pool_total stake_pool)) stake_pool_info.

(** one record of the list against one account passed *)
Definition update_record_from (clock : Clock) (st : ValidatorStakeInfo * bool) (item : AccountInfo) :
    M (ValidatorStakeInfo * bool) :=
  let '(record, changes) := st in
  if bool_decide (key item = vsi_validator_account record) then
    balance ← lamports item;
    mret (set_vsi_balance balance (set_vsi_last_update_epoch (epoch clock) record), true)
  else mret (record, changes).
(** one record of the list against every account passed *)
Definition update_record (clock : Clock) (items : list AccountInfo) (record : ValidatorStakeInfo) :
    M (ValidatorStakeInfo * bool) :=
  if epoch clock <=? vsi_last_update_epoch record then mret (record, false)
  else foldM (update_record_from clock) (record, false) items.
Fixpoint update_records (clock : Clock) (items : list AccountInfo) (records : list ValidatorStakeInfo) :
    M (list ValidatorStakeInfo * bool) :=
  match records with
  | [] => mret ([], false)
  | record :: records =>
      '(record, changed) ← update_record clock items record;
      '(records, changes) ← update_records clock items records;
      mret (record :: records, changed || changes)
  end.
Definition process_update_list_balance (_program_id : Pubkey) accounts : M unit :=
  '(validator_stake_list_info, it) ← next_info accounts;
  '(clock_info, validator_stake_accounts_args) ← next_info it;
  clock ← read_clock clock_info;
  validator_stake_list ← read_validator_stake_list validator_stake_list_info;
  fail_if (negb (vsl_is_initialized validator_stake_list)) (pool_err InvalidState);;
  '(validators, changes) ←
    update_records clock validator_stake_accounts_args (vsl_validators validator_stake_list);
  if (changes : bool) then
    save_validator_stake_list (set_vsl_validators validators validator_stake_list) validator_stake_list_info
  else mret tt.

(** the summing loop of [process_update_pool_balance] *)
Definition add_balance (clock : Clock) (total_balance : Z) (record : ValidatorStakeInfo) : result Z :=
  _ ← err_if (vsi_last_update_epoch record <? epoch clock) (pool_err StakeListOutOfDate);
  plain_add total_balance (vsi_balance record).
Definition process_update_pool_balance (_program_id : Pubkey) accounts : M unit :=
  '(stake_pool_info, it) ← next_info accounts;
  '(validator_stake_list_info, it) ← next_info it;
  '(clock_info, _) ← next_info it;
  clock ← read_clock clock_info;
  stake_pool ← read_stake_pool stake_pool_info;
  fail_if (negb (sp_is_initialized stake_pool)) (pool_err InvalidState);;
  fail_if (negb (bool_decide (key validator_stake_list_info = sp_validator_stake_list stake_pool)))
    (pool_err InvalidValidatorStakeList);;
  validator_stake_list ← read_validator_stake_list validator_stake_list_info;
  fail_if (negb (vsl_is_initialized validator_stake_list)) (pool_err InvalidState);;
  total_balance ← lift (fold_outcome (add_balance clock) 0 (vsl_validators validator_stake_list));
  save_stake_pool (set_sp_last_update_epoch (epoch clock) (set_sp_stake_total total_balance stake_pool))
    stake_pool_info.

(** Unpacks a spl_token [Account] or [Mint] of the cell of an account. *)
Definition unpack_token_account (account : Cell) (token_program_id : Pubkey) :
    outcome StakePoolError Account :=
  if negb (bool_decide (cell_owner account = token_program_id)) then Err IncorrectTokenProgramId
  else map_err (fun _ => ExpectedAccount) (pack_unpack (cell_data account)).
Definition unpack_mint (account : Cell) (token_program_id : Pubkey) : outcome StakePoolError Mint :=
  if negb (bool_decide (cell_owner account = token_program_id)) then Err IncorrectTokenProgramId
  else map_err (fun _ => ExpectedMint) (pack_unpack (cell_data account)).
Definition read_token_account (i : AccountInfo) (token_program_id : Pubkey) : M Account :=
  c ← cell_of i; lift (map_err pool_err (unpack_token_account c token_program_id)).
Definition read_mint (i : AccountInfo) (token_program_id : Pubkey) : M Mint :=
  c ← cell_of i; lift (map_err pool_err (unpack_mint c token_program_id)).

Definition process_add_liquidity program_id (wsol_amount : Z) accounts : M unit :=
  fail_if (wsol_amount =? 0) (pool_err ZeroAmount);;
  '(liq_pool_state_account, it) ← next_info accounts;
  '(token_program, it) ← next_info it;
  '(metalp_token_mint_account, it) ← next_info it;
  '(metalp_mint_authority, it) ← next_info it;
  '(user_wsol_source_account, it) ← next_info it;
  '(user_transfer_authority_info, it) ← next_info it;
  '(liq_pool_wsol_account, it) ← next_info it;
  '(user_metalp_account_destination, _) ← next_info it;
  metalp_mint_info ← read_mint metalp_token_mint_account (key token_program);
  metalp_supply ← lift (map_err pool_err (to_u128 (mint_supply metalp_mint_info)));
  liq_pool_wsol_account_info ← read_token_account liq_pool_wsol_account (key token_program);
  our_wsol_total ← lift (map_err pool_err (to_u128 (acc_amount liq_pool_wsol_account_info)));
  user_account_info ← read_token_account user_wsol_source_account (key token_program);
  assert (bool_decide (acc_mint user_account_info = acc_mint liq_pool_wsol_account_info));;
  token_transfer_from_signer token_program user_wsol_source_account liq_pool_wsol_account
    user_transfer_authority_info wsol_amount;;
  metalp_amount ← lift (ok_or (pool_err CalculationFailure)
                          (shares_from_value wsol_amount our_wsol_total metalp_supply));
  liq_pool_token_mint_to program_id (key liq_pool_state_account) token_program
    metalp_token_mint_account user_metalp_account_destination metalp_mint_authority metalp_amount.

Definition process_sell_stsol program_id (stsol_amount : Z) accounts : M unit :=
  fail_if (stsol_amount =? 0) (pool_err ZeroAmount);;
  '(stake_pool_info, it) ← next_info accounts;
  '(liq_pool_account, it) ← next_info it;
  '(token_program, it) ← next_info it;
  '(liq_pool_wsol_account, it) ← next_info it;
  '(liq_pool_stsol_account, it) ← next_info it;
  '(liq_pool_authority, it) ← next_info it;
  '(user_wsol_account, it) ← next_info it;
  '(user_stsol_account, it) ← next_info it;
  '(user_authority, _) ← next_info it;
  stake_pool_data ← read_stake_pool stake_pool_info;
  fail_if (negb (sp_is_initialized stake_pool_data)) (pool_err InvalidState);;
  let st_sol_mint := sp_pool_mint stake_pool_data in
  our_wsol_token_info ← read_token_account liq_pool_wsol_account (key token_program);
  let our_wsol_total := acc_amount our_wsol_token_info in
  fail_if (our_wsol_total <? stsol_amount) (pool_err NotEnoughTokensInThePool);;
  liq_pool_wsol_token_info ← read_token_account liq_pool_wsol_account (key token_program);
  liq_pool_stsol_token_info ← read_token_account liq_pool_stsol_account (key token_program);
  user_st_sol_token_info ← read_token_account user_stsol_account (key token_program);
  assert (bool_decide (st_sol_mint = acc_mint user_st_sol_token_info));;
  assert (bool_decide (acc_mint user_st_sol_token_info = acc_mint liq_pool_stsol_token_info));;
  user_wsol_token_info ← read_token_account user_wsol_account (key token_program);
  assert (bool_decide (acc_mint user_wsol_token_info = acc_mint liq_pool_wsol_token_info));;
  token_transfer_from_signer token_program user_stsol_account liq_pool_stsol_account user_authority
    stsol_amount;;
  sol_value ← lift (ok_or (pool_err CalculationFailure)
    (proportional stsol_amount (sp_stake_total stake_pool_data) (sp_pool_total stake_pool_data)));
  fee_amount ← lift (ok_or (pool_err CalculationFailure)
    (proportional sol_value (fee_numerator (sp_fee stake_pool_data))
       (fee_denominator (sp_fee stake_pool_data))));
  wsol_amount_to_user ← lift (plain_sub sol_value fee_amount);
  let '(_, bump) := find_program_address [to_bytes (key liq_pool_account); AUTHORITY] program_id in
  token_transfer token_program liq_pool_wsol_account user_wsol_account liq_pool_authority
    (key liq_pool_account) AUTHORITY bump wsol_amount_to_user.

Definition process_deposit program_id accounts : M unit :=
  '(stake_pool_info, it) ← next_info accounts;
  '(validator_stake_list_info, it) ← next_info it;
  '(deposit_info, it) ← next_info it;
  '(withdraw_info, it) ← next_info it;
  '(stake_info, it) ← next_info it;
  '(validator_stake_account_info, it) ← next_info it;
  '(dest_user_info, it) ← next_info it;
  '(owner_fee_info, it) ← next_info it;
  '(pool_mint_info, it) ← next_info it;
  '(clock_info, it) ← next_info it;
  clock ← read_clock clock_info;
  '(stake_history_info, it) ← next_info it;
  stake_history ← read_stake_history stake_history_info;
  '(token_program_info, it) ← next_info it;
  '(stake_program_info, _) ← next_info it;
  fail_if (negb (bool_decide (key stake_program_info = stake_program_id))) IncorrectProgramId;;
  stake_pool ← read_stake_pool stake_pool_info;
  fail_if (negb (sp_is_initialized stake_pool)) (pool_err InvalidState);;
  lift (check_stake_activation stake_info clock stake_history);;
  lift (check_authority_withdraw stake_pool (key withdraw_info) program_id (key stake_pool_info));;
  lift (check_authority_deposit stake_pool (key deposit_info) program_id (key stake_pool_info));;
  fail_if (negb (bool_decide (sp_token_program_id stake_pool = key token_program_info))) IncorrectProgramId;;
  fail_if (negb (bool_decide (key validator_stake_list_info = sp_validator_stake_list stake_pool)))
    (pool_err InvalidValidatorStakeList);;
  fail_if (sp_last_update_epoch stake_pool <? epoch clock) (pool_err StakeListAndPoolOutOfDate);;
  validator_stake_list ← read_validator_stake_list validator_stake_list_info;
  fail_if (negb (vsl_is_initialized validator_stake_list)) (pool_err InvalidState);;
  validator_account ← get_validator_checked program_id stake_pool_info validator_stake_account_info;
  validator_list_item ← lift (ok_or (pool_err ValidatorNotFound)
                                (vsl_find_mut validator_stake_list validator_account));
  stake_lamports ← lamports stake_info;
  pool_amount ← lift (ok_or (pool_err CalculationFailure)
                        (calc_pool_deposit_amount stake_pool stake_lamports));
  let fee_amount := 0 in
  user_amount ← lift (ok_or (pool_err CalculationFailure) (checked_sub pool_amount fee_amount));
  stake_authorize (key stake_pool_info) stake_info deposit_info AUTHORITY_DEPOSIT
    (sp_deposit_bump_seed stake_pool) (key withdraw_info) Withdrawer clock_info stake_program_info;;
  stake_authorize (key stake_pool_info) stake_info deposit_info AUTHORITY_DEPOSIT
    (sp_deposit_bump_seed stake_pool) (key withdraw_info) Staker clock_info stake_program_info;;
  stake_merge (key stake_pool_info) stake_info withdraw_info AUTHORITY_WITHDRAW
    (sp_withdraw_bump_seed stake_pool) validator_stake_account_info clock_info stake_history_info
    stake_program_info;;
  token_mint_to (key stake_pool_info) token_program_info pool_mint_info dest_user_info withdraw_info
    AUTHORITY_WITHDRAW (sp_withdraw_bump_seed stake_pool) user_amount;;
  (if 0 <? fee_amount then
     token_mint_to (key stake_pool_info) token_program_info pool_mint_info owner_fee_info withdraw_info
       AUTHORITY_WITHDRAW (sp_withdraw_bump_seed stake_pool) fee_amount
   else mret tt);;
  pool_total ← lift (plain_add (sp_pool_total stake_pool) pool_amount);
  stake_total ← lift (plain_add (sp_stake_total stake_pool) stake_lamports);
  save_stake_pool (set_sp_stake_total stake_total (set_sp_pool_total pool_total stake_pool))
    stake_pool_info;;
  balance ← lamports validator_stake_account_info;
  save_validator_stake_list
    (set_vsl_validators
       (alter (set_vsi_balance balance) validator_list_item (vsl_validators validator_stake_list))
       validator_stake_list)
    validator_stake_list_info.

Definition process_withdraw program_id (pool_amount : Z) accounts : M unit :=
  '(stake_pool_info, it) ← next_info accounts;
  '(validator_stake_list_info, it) ← next_info it;
  '(withdraw_info, it) ← next_info it;
  '(stake_split_from, it) ← next_info it;
  '(stake_split_to, it) ← next_info it;
  '(user_stake_authority, it) ← next_info it;
  '(burn_from_info, it) ← next_info it;
  '(pool_mint_info, it) ← next_info it;
  '(clock_info, it) ← next_info it;
  clock ← read_clock clock_info;
  '(token_program_info, it) ← next_info it;
  '(stake_program_info, _) ← next_info it;
  fail_if (negb (bool_decide (key stake_program_info = stake_program_id))) IncorrectProgramId;;
  stake_pool ← read_stake_pool stake_pool_info;
  fail_if (negb (sp_is_initialized stake_pool)) (pool_err InvalidState);;
  lift (check_authority_withdraw stake_pool (key withdraw_info) program_id (key stake_pool_info));;
  fail_if (negb (bool_decide (sp_token_program_id stake_pool = key token_program_info))) IncorrectProgramId;;
  fail_if (negb (bool_decide (key validator_stake_list_info = sp_validator_stake_list stake_pool)))
    (pool_err InvalidValidatorStakeList);;
  fail_if (sp_last_update_epoch stake_pool <? epoch clock) (pool_err StakeListAndPoolOutOfDate);;
  validator_stake_list ← read_validator_stake_list validator_stake_list_info;
  fail_if (negb (vsl_is_initialized validator_stake_list)) (pool_err InvalidState);;
  validator_account ← get_validator_checked program_id stake_pool_info stake_split_from;
  validator_list_item ← lift (ok_or (pool_err ValidatorNotFound)
                                (vsl_find_mut validator_stake_list validator_account));
  stake_amount ← lift (ok_or (pool_err CalculationFailure) (calc_lamports_amount stake_pool pool_amount));
  stake_split (key stake_pool_info) stake_split_from withdraw_info AUTHORITY_WITHDRAW
    (sp_withdraw_bump_seed stake_pool) stake_amount stake_split_to clock_info stake_program_info;;
  stake_authorize (key stake_pool_info) stake_split_to withdraw_info AUTHORITY_WITHDRAW
    (sp_withdraw_bump_seed stake_pool) (key user_stake_authority) Withdrawer clock_info stake_program_info;;
  stake_authorize (key stake_pool_info) stake_split_to withdraw_info AUTHORITY_WITHDRAW
    (sp_withdraw_bump_seed stake_pool) (key user_stake_authority) Staker clock_info stake_program_info;;
  token_burn (key stake_pool_info) token_program_info burn_from_info pool_mint_info withdraw_info
    AUTHORITY_WITHDRAW (sp_withdraw_bump_seed stake_pool) pool_amount;;
  pool_total ← lift (plain_sub (sp_pool_total stake_pool) pool_amount);
  stake_total ← lift (plain_sub (sp_stake_total stake_pool) stake_amount);
  save_stake_pool (set_sp_stake_total stake_total (set_sp_pool_total pool_total stake_pool))
    stake_pool_info;;
  balance ← lamports stake_split_from;
  save_validator_stake_list
    (set_vsl_validators
       (alter (set_vsi_balance balance) validator_list_item (vsl_validators validator_stake_list))
       validator_stake_list)
    validator_stake_list_info.

Definition process_set_staking_auth program_id accounts : M unit :=
  '(stake_pool_info, it) ← next_info accounts;
  '(owner_info, it) ← next_info it;
  '(withdraw_info, it) ← next_info it;
  '(stake_info, it) ← next_info it;
  '(staker_info, it) ← next_info it;
  '(reserved, it) ← next_info it;
  '(stake_program_info, _) ← next_info it;
  fail_if (negb (bool_decide (key stake_program_info = stake_program_id))) IncorrectProgramId;;
  stake_pool ← read_stake_pool stake_pool_info;
  fail_if (negb (sp_is_initialized stake_pool)) (pool_err InvalidState);;
  lift (check_authority_withdraw stake_pool (key withdraw_info) program_id (key stake_pool_info));;
  lift (check_owner stake_pool owner_info);;
  stake_authorize (key stake_pool_info) stake_info withdraw_info AUTHORITY_WITHDRAW
    (sp_withdraw_bump_seed stake_pool) (key staker_info) Staker reserved stake_program_info.

Definition process_set_owner (_program_id : Pubkey) accounts : M unit :=
  '(stake_pool_info, it) ← next_info accounts;
  '(owner_info, it) ← next_info it;
  '(new_owner_info, it) ← next_info it;
  '(new_owner_fee_info, _) ← next_info it;
  stake_pool ← read_stake_pool stake_pool_info;
  fail_if (negb (sp_is_initialized stake_pool)) (pool_err InvalidState);;
  lift (check_owner stake_pool owner_info);;
  new_owner_fee_data ← borrow_data new_owner_fee_info;
  new_owner_fee ← lift (unpack_from_slice (T:=Account) new_owner_fee_data);
  fail_if (negb (bool_decide (sp_pool_mint stake_pool = acc_mint new_owner_fee))) (pool_err WrongAccountMint);;
  save_stake_pool
    (set_sp_owner_fee_account (key new_owner_fee_info) (set_sp_owner (key new_owner_info) stake_pool))
    stake_pool_info.

(** Processes an instruction *)
Definition process_pool_instruction program_id accounts (instruction : StakePoolInstruction) : M unit :=
  match instruction with
  | Initialize init => process_initialize program_id init accounts
  | CreateValidatorStakeAccount => process_create_validator_stake_account program_id accounts
  | AddValidatorStakeAccount => process_add_validator_stake_account program_id accounts
  | RemoveValidatorStakeAccount => process_remove_validator_stake_account program_id accounts
  | UpdateListBalance => process_update_list_balance program_id accounts
  | UpdatePoolBalance => process_update_pool_balance program_id accounts
  | Deposit => process_deposit program_id accounts
  | Withdraw amount => process_withdraw program_id amount accounts
  | SetStakingAuthority => process_set_staking_auth program_id accounts
  | SetOwner => process_set_owner program_id accounts
  | AddLiquidity wsol_amount => process_add_liquidity program_id wsol_amount accounts
  | SellstSOL stsol_amount => process_sell_stsol program_id stsol_amount accounts
  end.
Definition pool_process program_id accounts (input : list byte) : M unit :=
  instruction ← lift (pool_instruction_deserialize input);
  process_pool_instruction program_id accounts instruction.
End PoolProcessor.
