(* ===== verification/Entry.v ===== *)
(** * Entrypoints, error lines and the display of token amounts

    Models the two [entrypoint.rs] files, which print a processor's error and
    return it, the lines printed for the programs' own errors
    ([PrintProgramError] in the two [processor.rs]), and the conversions between raw and displayed token amounts of
    [token/program/src/lib.rs], which no program path calls.  [usize] has 64
    bits, as on the chain and on the clients' machines. *)
From S2P Require Import Prelude Machine Sdk TokenInstruction TokenState TokenProcessor.
From S2P Require Import PoolInstruction PoolState StakeProgram PoolProcessor.

Section Entrypoints.
Context `{SDK : SolanaSdk} `{RT : Runtime} `{BC : Bincode} `{PAD : StructPadding} `{BP : BuildProfile}.
(** [if let Err(error) = Processor::process(..)]: the error is printed and
    returned *)
Definition token_process_instruction (program_id : Pubkey) accounts (instruction_data : list byte) : M unit := fun s =>
  match token_process program_id accounts instruction_data s with
  | (Err error, s') => (Err error, s')
  | (Panic, s') => (Panic, s')
  | (Ok _, s') => (Ok tt, s')
  end.
Definition pool_process_instruction (program_id : Pubkey) accounts (instruction_data : list byte) : M unit := fun s =>
  match pool_process program_id accounts instruction_data s with
  | (Err error, s') => (Err error, s')
  | (Panic, s') => (Panic, s')
  | (Ok _, s') => (Ok tt, s')
  end.
(** what is proved of the processors holds of the entrypoints *)
Lemma token_entrypoint program_id accounts data s :
  token_process_instruction program_id accounts data s = token_process program_id accounts data s.
Proof. unfold token_process_instruction. by destruct (token_process _ _ _ s) as [[[]|e|] s']. Qed.
Lemma pool_entrypoint program_id accounts data s :
  pool_process_instruction program_id accounts data s = pool_process program_id accounts data s.
Proof. unfold pool_process_instruction. by destruct (pool_process _ _ _ s) as [[[]|e|] s']. Qed.
End Entrypoints.

(** ** The printed errors
    [impl PrintProgramError]: the line an entrypoint prints for an error of the
    program's own (the other errors' lines are the SDK's) *)
Section Messages.
#[local] Open Scope string_scope.
Definition token_error_print (e : TokenError) : string :=
  match e with
  | NotRentExempt => "Error: Lamport balance below rent-exempt threshold"
  | TokenInsufficientFunds => "Error: insufficient funds"
  | InvalidMint => "Error: Invalid Mint"
  | MintMismatch => "Error: Account not associated with this Mint"
  | OwnerMismatch => "Error: owner does not match"
  | FixedSupply => "Error: the total supply of this token is fixed"
  | TokenAlreadyInUse => "Error: account or token already in use"
  | InvalidNumberOfProvidedSigners => "Error: Invalid number of provided signers"
  | InvalidNumberOfRequiredSigners => "Error: Invalid number of required signers"
  | UninitializedState => "Error: State is uninitialized"
  | NativeNotSupported => "Error: Instruction does not support native tokens"
  | NonNativeHasBalance => "Error: Non-native account can only be closed if its balance is zero"
  | InvalidInstruction => "Error: Invalid instruction"
  | TokenInvalidState => "Error: Invalid account state for operation"
  | Overflow => "Error: Operation overflowed"
  | AuthorityTypeNotSupported => "Error: Account does not support specified authority type"
  | MintCannotFreeze => "Error: This token mint cannot freeze accounts"
  | AccountFrozen => "Error: Account is frozen"
  | MintDecimalsMismatch => "Error: decimals different from the Mint decimals"
  end.
Definition pool_error_print (e : StakePoolError) : string :=
  match e with
  | AlreadyInUse => "Error: The account cannot be initialized because it is already being used"
  | InvalidProgramAddress =>
      "Error: The program address provided doesn't match the value generated by the program"
  | InvalidState => "Error: The stake pool state is invalid"
  | CalculationFailure => "Error: The calculation failed"
  | FeeTooHigh => "Error: Stake pool fee > 1"
  | WrongAccountMint => "Error: Token account is associated with the wrong mint"
  | NonZeroBalance => "Error: Account balance should be zero"
  | WrongOwner => "Error: Wrong pool owner account"
  | SignatureMissing => "Error: Required signature is missing"
  | InvalidValidatorStakeList => "Error: Invalid validator stake list account"
  | InvalidFeeAccount => "Error: Invalid owner fee account"
  | WrongPoolMint => "Error: Specified pool mint account is wrong"
  | WrongStakeState => "Error: Stake account is not in the state expected by the program"
  | UserStakeNotActive => "Error: User stake is not active"
  | ValidatorAlreadyAdded =>
      "Error: Stake account voting for this validator already exists in the pool"
  | ValidatorNotFound => "Error: Stake account for this validator not found in the pool"
  | InvalidStakeAccountAddress =>
      "Error: Stake account address not properly derived from the validator address"
  | StakeListOutOfDate => "Error: Identify validator stake accounts with old balances and update them"
  | StakeListAndPoolOutOfDate =>
      "Error: First update old validator stake account balances and then pool stake balance"
  | UnknownValidatorStakeAccount => "Error: Validator stake account is not found in the list storage"
  | WrongMintingAuthority => "Error: Wrong minting authority set for mint pool account"
  | AccountNotRentExempt => "Error: Account is not rent-exempt"
  | IncorrectTokenProgramId => "Error: IncorrectTokenProgramId"
  | ExpectedMint => "Error: Expected a Mint Account"
  | ExpectedAccount => "Error: Expected an Account"
  | ZeroAmount => "Error: Amount must be greater than zero"
  | ConversionFailure => "Error: Data Conversion Failure"
  | NotEnoughTokensInThePool => "Error: Not Enough Tokens In The Pool"
  end.
End Messages.
(** an error's code and the line printed for it each tell which error it was *)
Lemma token_error_reported e e' :
  token_error_code e = token_error_code e' \/ token_error_print e = token_error_print e' -> e = e'.
Proof. destruct e, e'; intros [H|H]; first [reflexivity|discriminate H]. Qed.
Lemma pool_error_reported e e' :
  pool_error_code e = pool_error_code e' \/ pool_error_print e = pool_error_print e' -> e = e'.
Proof. destruct e, e'; intros [H|H]; first [reflexivity|discriminate H]. Qed.

Section UiAmounts.
Context `{BP : BuildProfile}.
(** [10_usize.pow(decimals as u32)]: its intermediate products are at most the
    result *)
Definition pow10 (decimals : Z) : result Z := u64_result (10 ^ decimals).
Definition ui_amount_to_amount (ui_amount : f64) (decimals : Z) : result Z :=
  p ← pow10 decimals; Ok (u64_of_f64 (f64_mul ui_amount (f64_of_u64 p))).
Definition amount_to_ui_amount (amount decimals : Z) : result f64 :=
  p ← pow10 decimals; Ok (f64_div (f64_of_u64 amount) (f64_of_u64 p)).

(** up to nineteen decimals the power fits; with more it panics in a build
    with overflow checks and wraps otherwise *)
Lemma pow10_spec decimals :
  0 <= decimals ->
  pow10 decimals = if decimals <=? 19 then Ok (10 ^ decimals)
                   else if overflow_checks then Panic else Ok (wrap 64 (10 ^ decimals)).
Proof.
  intros H0. unfold pow10, u64_result, u64_range. pose proof (Z.pow_pos_nonneg 10 decimals ltac:(done) H0).
  destruct (Z.leb_spec decimals 19) as [Hd|Hd].
  - rewrite decide_True; [done|]. pose proof (Z.pow_le_mono_r 10 decimals 19 ltac:(done) Hd).
    change (10 ^ 19) with 10000000000000000000 in *. lia.
  - rewrite decide_False; [done|]. pose proof (Z.pow_le_mono_r 10 20 decimals ltac:(done) ltac:(lia)).
    change (10 ^ 20) with 100000000000000000000 in *. lia.
Qed.
(** one and a half SOL, shown and read back *)
Lemma ui_amount_example :
  (ui ← amount_to_ui_amount 1500000000 9; ui_amount_to_amount ui 9) = Ok 1500000000.
Proof. vm_compute. reflexivity. Qed.
End UiAmounts.
