(* ===== verification/PoolCodec.v ===== *)
(** * The stake pool's byte layouts are lossless

    The interface [ReprCLaws] states what a [repr(C)] struct promises: its
    bytes have the struct's size and reading them back gives the struct,
    whatever follows.  Every struct of the program discharges it, including
    [StakePool] whatever its padding holds; on top of it the stake-pool
    account, the validator stake list and the instructions round-trip. *)
From S2P Require Import Prelude Machine Sdk PoolInstruction PoolState.
From S2P Require Import TokenCodec.

Class ReprCLaws (T : Type) `{ReprC T} := {
  repr_wf : T -> Prop;
  length_to_raw v d : length (to_raw v d) = size_of T;
  from_to_raw v d rest : repr_wf v -> from_raw (to_raw v d ++ rest) = v;
  from_raw_wf l : (size_of T <= length l)%nat -> repr_wf (from_raw l);
}.

(** ** Well-formed values: integers at their width *)
Definition Fee_wf (f : Fee) : Prop := u64_range (fee_denominator f) /\ u64_range (fee_numerator f).
Definition ValidatorStakeInfo_wf (v : ValidatorStakeInfo) : Prop :=
  u64_range (vsi_balance v) /\ u64_range (vsi_last_update_epoch v).
Definition StakePool_wf (p : StakePool) : Prop :=
  u8_range (sp_version p) /\ u8_range (sp_deposit_bump_seed p) /\ u8_range (sp_withdraw_bump_seed p) /\
  u64_range (sp_stake_total p) /\ u64_range (sp_pool_total p) /\ u64_range (sp_last_update_epoch p) /\
  Fee_wf (sp_fee p).
(** a list the program can store: at most a thousand records, none in an
    uninitialised list *)
Definition ValidatorStakeList_wf (l : ValidatorStakeList) : Prop :=
  u8_range (vsl_version l) /\ (vsl_version l = 0 -> vsl_validators l = []) /\
  (length (vsl_validators l) <= MAX_VALIDATOR_STAKE_ACCOUNTS)%nat /\
  Forall ValidatorStakeInfo_wf (vsl_validators l).
Definition pool_instruction_wf (i : StakePoolInstruction) : Prop :=
  match i with
  | Initialize init => Fee_wf (init_fee init)
  | Withdraw a | AddLiquidity a | SellstSOL a => u64_range a
  | _ => True
  end.

(** ** Chunks of a concatenation *)
Lemma slice_app_l off n l r : (off + n <= length l)%nat -> slice off n (l ++ r) = slice off n l.
Proof.
  intros. unfold slice. rewrite drop_app_le by lia. rewrite take_app_le; [done|].
  rewrite length_drop. lia.
Qed.
Lemma slice_app_r off n l r : (length l <= off)%nat -> slice off n (l ++ r) = slice (off - length l) n r.
Proof. intros. unfold slice. by rewrite drop_app_ge by lia. Qed.
Lemma slice_0_app n l r : length l = n -> slice 0 n (l ++ r) = l.
Proof. intros <-. unfold slice. by rewrite drop_0, take_app_length. Qed.
Lemma slice_all n l : length l = n -> slice 0 n l = l.
Proof. intros <-. unfold slice. by rewrite drop_0, firstn_all. Qed.
Lemma le_decode_slice_u64 off l : (off + 8 <= length l)%nat -> u64_range (le_decode (slice off 8 l)).
Proof. intros. apply le_decode_u64. by apply length_slice. Qed.

(** ** Structs *)
#[global] Program Instance u64_ReprCLaws : ReprCLaws Z := {| repr_wf := u64_range |}.
Next Obligation. intros v d. exact (length_u64_to_le_bytes v). Qed.
Next Obligation.
  intros v d rest Hv. cbn [from_raw to_raw u64_ReprC].
  rewrite take_app_length' by (by rewrite length_u64_to_le_bytes). by apply u64_le_roundtrip.
Qed.
Next Obligation.
  intros l Hl. cbn [from_raw u64_ReprC size_of] in *. apply le_decode_u64. rewrite length_take. lia.
Qed.

Lemma fee_from_to_raw f d rest : Fee_wf f -> from_raw (to_raw f d ++ rest) = f.
Proof.
  intros [Hd Hn]. cbn [from_raw to_raw Fee_ReprC]. rewrite <- app_assoc.
  rewrite slice_0_app by apply length_u64_to_le_bytes.
  rewrite (slice_app_r 8) by (by rewrite length_u64_to_le_bytes).
  rewrite length_u64_to_le_bytes, slice_0_app by apply length_u64_to_le_bytes.
  rewrite !u64_le_roundtrip by done. by destruct f.
Qed.
#[global] Program Instance Fee_ReprCLaws : ReprCLaws Fee := {| repr_wf := Fee_wf |}.
Next Obligation. intros. cbn. by rewrite length_app, !length_u64_to_le_bytes. Qed.
Next Obligation. intros. by apply fee_from_to_raw. Qed.
Next Obligation.
  intros l Hl. cbn [from_raw Fee_ReprC size_of] in *. split; cbn -[slice]; apply le_decode_slice_u64; lia.
Qed.
#[global] Program Instance InitArgs_ReprCLaws : ReprCLaws InitArgs :=
  {| repr_wf i := Fee_wf (init_fee i) |}.
Next Obligation. intros. apply (length_to_raw (T:=Fee)). Qed.
Next Obligation.
  intros v d rest Hv. cbn [from_raw to_raw InitArgs_ReprC].
  rewrite fee_from_to_raw by done. by destruct v.
Qed.
Next Obligation. intros l Hl. exact (from_raw_wf (T:=Fee) l Hl). Qed.

#[global] Program Instance ValidatorStakeInfo_ReprCLaws : ReprCLaws ValidatorStakeInfo :=
  {| repr_wf := ValidatorStakeInfo_wf |}.
Next Obligation. intros. cbn. by rewrite !length_app, !length_u64_to_le_bytes, length_to_bytes. Qed.
Next Obligation.
  intros v d rest [Hb He]. cbn [from_raw to_raw ValidatorStakeInfo_ReprC]. rewrite <- !app_assoc.
  rewrite slice_0_app by apply length_to_bytes.
  rewrite (slice_app_r 32), (slice_app_r 40) by (rewrite length_to_bytes; lia).
  rewrite length_to_bytes, slice_0_app by apply length_u64_to_le_bytes.
  rewrite slice_app_r by (rewrite length_u64_to_le_bytes; lia).
  rewrite length_u64_to_le_bytes, slice_0_app by apply length_u64_to_le_bytes.
  rewrite new_to_bytes, !u64_le_roundtrip by done. by destruct v.
Qed.
Next Obligation.
  intros l Hl. cbn [from_raw ValidatorStakeInfo_ReprC size_of] in *. unfold VALIDATOR_STAKE_INFO_LEN in Hl.
  split; cbn -[slice]; apply le_decode_slice_u64; lia.
Qed.

Section StakePoolLayout.
Context `{PAD : StructPadding}.
Lemma stake_pool_chunks p d :
  length <$> [ [byte_of_u8 (sp_version p)]; to_bytes (sp_owner p); [byte_of_u8 (sp_deposit_bump_seed p)];
         [byte_of_u8 (sp_withdraw_bump_seed p)]; to_bytes (sp_validator_stake_list p);
         to_bytes (sp_pool_mint p); to_bytes (sp_owner_fee_account p); to_bytes (sp_token_program_id p);
         array_to_list 5 (pool_padding p d);
         u64_to_le_bytes (sp_stake_total p); u64_to_le_bytes (sp_pool_total p);
         u64_to_le_bytes (sp_last_update_epoch p); to_raw (sp_fee p) [] ] = stake_pool_sizes.
Proof.
  rewrite !fmap_cons, fmap_nil, !length_to_bytes, !length_u64_to_le_bytes, length_array_to_list.
  by rewrite (length_to_raw (T:=Fee)).
Qed.
#[global] Program Instance StakePool_ReprCLaws : ReprCLaws StakePool := {| repr_wf := StakePool_wf |}.
Next Obligation. intros p d. by apply (length_concat_chunks _ _ (stake_pool_chunks p d)). Qed.
Next Obligation.
  intros p d rest (H1 & H2 & H3 & H4 & H5 & H6 & H7). cbn [from_raw to_raw StakePool_ReprC].
  unfold stake_pool_from_raw. rewrite take_app_length'.
  - unfold stake_pool_to_raw. rewrite array_refs_concat' by apply stake_pool_chunks.
    cbn [nth]. rewrite !u8_decode_roundtrip, !new_to_bytes, !u64_le_roundtrip by done.
    rewrite <- (app_nil_r (to_raw _ _)), fee_from_to_raw by done. by destruct p.
  - symmetry. by apply (length_concat_chunks _ _ (stake_pool_chunks p d)).
Qed.
Next Obligation.
  intros l Hl. cbn [from_raw StakePool_ReprC size_of] in *. unfold stake_pool_from_raw.
  assert (Hc : length (take STAKE_POOL_LEN l) = sum_list stake_pool_sizes).
  { rewrite length_take. change (sum_list stake_pool_sizes) with STAKE_POOL_LEN. lia. }
  apply buffer_chunks in Hc as (cs & -> & Hs). rewrite array_refs_concat' by done.
  destruct_chunks cs Hs. cbn [nth].
  assert (Hf : Fee_wf (from_raw c11)) by exact (from_raw_wf (T:=Fee) c11 (Nat.eq_le_incl _ _ (eq_sym E11))).
  unfold StakePool_wf; cbn -[le_decode from_raw]. split_and!; auto using u8_bytes_range, le_decode_u64; apply Hf.
Qed.
End StakePoolLayout.

Section Structs.
Context {T : Type} `{ReprCLaws T}.
Implicit Types (v : T) (d : list byte).
Lemma struct_serialize_long v d :
  (size_of T <= length d)%nat ->
  struct_serialize v d = Ok (to_raw v (take (size_of T) d) ++ drop (size_of T) d).
Proof.
  intros Hl. unfold struct_serialize. rewrite (proj2 (Nat.ltb_ge _ _)) by done.
  unfold write_at. by rewrite length_to_raw.
Qed.
Lemma struct_deserialize_long d :
  (size_of T <= length d)%nat -> struct_deserialize T d = Ok (from_raw d).
Proof. intros Hl. unfold struct_deserialize. by rewrite (proj2 (Nat.ltb_ge _ _)) by done. Qed.
Lemma struct_deserialize_short d :
  (length d < size_of T)%nat -> struct_deserialize T d = Err InvalidAccountData.
Proof. intros Hl. unfold struct_deserialize. by rewrite (proj2 (Nat.ltb_lt _ _)) by done. Qed.
Lemma struct_roundtrip v d :
  repr_wf v -> (size_of T <= length d)%nat ->
  exists d', struct_serialize v d = Ok d' /\ length d' = length d /\
             struct_deserialize T d' = Ok v /\ drop (size_of T) d' = drop (size_of T) d.
Proof.
  intros Hw Hl. rewrite struct_serialize_long by done. eexists. split; [done|].
  assert (Hn : length (to_raw v (take (size_of T) d) ++ drop (size_of T) d) = length d).
  { rewrite length_app, length_to_raw, length_drop. lia. }
  split; [done|split].
  - rewrite struct_deserialize_long by lia. by rewrite from_to_raw.
  - by rewrite drop_app_length' by (by rewrite length_to_raw).
Qed.
Lemma struct_deserialize_Ok d v :
  struct_deserialize T d = Ok v -> (size_of T <= length d)%nat /\ repr_wf v.
Proof.
  unfold struct_deserialize. destruct (Nat.ltb_spec (length d) (size_of T)); [done|].
  intros [= <-]. split; [done|]. by apply from_raw_wf.
Qed.
Lemma struct_serialize_Ok v d d' :
  struct_serialize v d = Ok d' -> (size_of T <= length d)%nat.
Proof. unfold struct_serialize. by destruct (Nat.ltb_spec (length d) (size_of T)). Qed.
Lemma struct_serialize_length v d d' : struct_serialize v d = Ok d' -> length d' = length d.
Proof.
  intros Hs. pose proof (struct_serialize_Ok v d d' Hs) as Hl. rewrite struct_serialize_long in Hs by done.
  injection Hs as <-. rewrite length_app, length_to_raw, length_drop. lia.
Qed.
End Structs.

Lemma pool_serialize_Ok `{PAD : StructPadding} p d d' :
  stake_pool_serialize p d = Ok d' -> StakePool_wf p -> stake_pool_deserialize d' = Ok p.
Proof.
  intros Hs Hw. pose proof (struct_serialize_Ok (T:=StakePool) p d d' Hs) as Hl.
  assert (Hr : repr_wf p) by exact Hw.
  destruct (struct_roundtrip (T:=StakePool) p d Hr Hl) as (d1 & E & _ & Hd & _).
  unfold stake_pool_serialize in Hs. rewrite E in Hs. injection Hs as <-. exact Hd.
Qed.

Lemma pool_store `{PAD : StructPadding} p d :
  StakePool_wf p -> (STAKE_POOL_LEN <= length d)%nat ->
  exists d', stake_pool_serialize p d = Ok d' /\ length d' = length d /\
             stake_pool_deserialize d' = Ok p /\ drop STAKE_POOL_LEN d' = drop STAKE_POOL_LEN d.
Proof. exact (struct_roundtrip (T:=StakePool) p d). Qed.

(** ** The validator stake list *)
Lemma serialize_validators_roundtrip vs from out :
  Forall ValidatorStakeInfo_wf vs -> (from + VALIDATOR_STAKE_INFO_LEN * length vs <= length out)%nat ->
  exists out', serialize_validators vs from out = Ok out' /\ length out' = length out /\
    deserialize_validators out' from (length vs) = Ok vs /\
    forall off n, (off + n <= from)%nat -> slice off n out' = slice off n out.
Proof.
  intros Hf. revert from out. induction Hf as [|v vs Hv Hf IH]; intros from out Hl.
  { exists out. naive_solver. }
  cbn [length] in Hl. cbn [serialize_validators]. unfold slice_checked.
  rewrite (proj2 (Nat.leb_le _ _)) by lia. cbn [mbind outcome_bind].
  unfold validator_stake_info_serialize.
  assert (Hc : length (slice from VALIDATOR_STAKE_INFO_LEN out) = VALIDATOR_STAKE_INFO_LEN).
  { apply length_slice. lia. }
  assert (Hw : repr_wf v) by exact Hv.
  destruct (struct_roundtrip v _ Hw (Nat.eq_le_incl _ _ (eq_sym Hc))) as (chunk & -> & Hlc & Hd & _).
  rewrite Hc in Hlc.
  destruct (IH (from + VALIDATOR_STAKE_INFO_LEN)%nat (write_at from chunk out)) as (out' & Hs & Hl' & Hd' & Hpre).
  { rewrite length_write_at by lia. lia. }
  rewrite length_write_at in Hl' by lia.
  exists out'. split_and!; [done|done| |].
  - cbn [deserialize_validators length]. unfold slice_checked. rewrite (proj2 (Nat.leb_le _ _)) by lia.
    cbn [mbind outcome_bind]. rewrite Hpre, slice_write_same by lia.
    unfold validator_stake_info_deserialize. by rewrite Hd, Hd'.
  - intros off n Hoff. rewrite Hpre by lia. by rewrite slice_write_before by lia.
Qed.
Lemma deserialize_validators_Ok out from n :
  (from + VALIDATOR_STAKE_INFO_LEN * n <= length out)%nat ->
  exists vs, deserialize_validators out from n = Ok vs /\ length vs = n /\ Forall ValidatorStakeInfo_wf vs.
Proof.
  revert from. induction n as [|n IH]; intros from Hl; [by exists []|].
  cbn [deserialize_validators]. unfold slice_checked. rewrite (proj2 (Nat.leb_le _ _)) by lia.
  cbn [mbind outcome_bind]. unfold validator_stake_info_deserialize.
  assert (Hc : length (slice from VALIDATOR_STAKE_INFO_LEN out) = VALIDATOR_STAKE_INFO_LEN).
  { apply length_slice. lia. }
  rewrite struct_deserialize_long by (cbn; lia).
  destruct (IH (from + VALIDATOR_STAKE_INFO_LEN)%nat) as (vs & -> & Hn & Hf); [lia|].
  eexists. split; [done|]. split; [by cbn; rewrite Hn|].
  constructor; [|done]. exact (from_raw_wf (T:=ValidatorStakeInfo) _ (Nat.eq_le_incl _ _ (eq_sym Hc))).
Qed.

Lemma err_if_bind {E A} b (e : E) (f : unit -> outcome E A) :
  (err_if b e ≫= f) = if b then Err e else f tt.
Proof. by destruct b. Qed.
Lemma byte_slice_write b l : (1 <= length l)%nat -> slice 0 1 (write_at 0 [b] l) = [b].
Proof. intros. by apply slice_write_same. Qed.

(** whatever is written into a buffer, its size stays *)
Lemma serialize_validators_length vs from out out' :
  serialize_validators vs from out = Ok out' -> length out' = length out.
Proof.
  revert from out. induction vs as [|v vs IH]; intros from out; cbn [serialize_validators]; [by intros [= <-]|].
  unfold slice_checked. destruct (Nat.leb_spec (from + VALIDATOR_STAKE_INFO_LEN) (length out)); [|done].
  rewrite outcome_bind_Ok. intros (c & [= <-] & Hr). apply outcome_bind_Ok in Hr as (c' & Hc & Hr).
  apply (struct_serialize_length (T:=ValidatorStakeInfo)) in Hc. rewrite length_slice in Hc by done.
  rewrite (IH _ _ Hr). apply length_write_at. lia.
Qed.
(** what a stored list is decoded from: the version byte, the count and the records *)
Lemma list_deserialize_long d :
  (VALIDATOR_STAKE_LIST_LEN <= length d)%nat ->
  validator_stake_list_deserialize d =
    if le_decode (slice 0 1 d) =? 0 then Ok (mk_validator_stake_list 0 [])
    else if (MAX_VALIDATOR_STAKE_ACCOUNTS <? Z.to_nat (le_decode (slice 1 2 d)))%nat then Err InvalidAccountData
    else vs ← deserialize_validators d HEADER_LEN (Z.to_nat (le_decode (slice 1 2 d)));
         Ok (mk_validator_stake_list (le_decode (slice 0 1 d)) vs).
Proof.
  intros Hl. unfold validator_stake_list_deserialize.
  rewrite err_if_bind, (proj2 (Nat.ltb_ge _ _)) by done. case_match; [done|]. by rewrite err_if_bind.
Qed.
Lemma list_capacity : Z.of_nat VALIDATOR_STAKE_LIST_LEN = 48003.
Proof. unfold VALIDATOR_STAKE_LIST_LEN, HEADER_LEN, VALIDATOR_STAKE_INFO_LEN, MAX_VALIDATOR_STAKE_ACCOUNTS. lia. Qed.
#[global] Opaque VALIDATOR_STAKE_LIST_LEN.
Lemma list_serialize_length l d d' : validator_stake_list_serialize l d = Ok d' -> length d' = length d.
Proof.
  unfold validator_stake_list_serialize. rewrite !err_if_bind. pose proof list_capacity as Hcap.
  destruct (Nat.ltb_spec (length d) VALIDATOR_STAKE_LIST_LEN); [done|]. case_match; [done|].
  intros Hs. apply serialize_validators_length in Hs. rewrite Hs.
  assert (H1 : length (write_at 0 [byte_of_u8 (vsl_version l)] d) = length d) by (apply length_write_at; cbn; lia).
  rewrite length_write_at; [exact H1|]. rewrite H1. unfold u16_to_le_bytes. rewrite length_le_encode. lia.
Qed.

Lemma list_roundtrip l d :
  ValidatorStakeList_wf l -> (VALIDATOR_STAKE_LIST_LEN <= length d)%nat ->
  exists d', validator_stake_list_serialize l d = Ok d' /\ length d' = length d /\
             validator_stake_list_deserialize d' = Ok l.
Proof.
  intros (Hv & Hz & Hn & Hf) Hl. pose proof list_capacity as Hcap.
  assert (Hm : (length (vsl_validators l) <= 1000)%nat) by exact Hn.
  unfold validator_stake_list_serialize.
  rewrite !err_if_bind, !(proj2 (Nat.ltb_ge _ _)) by done.
  set (out1 := write_at 0 _ d). set (out2 := write_at 1 _ out1).
  assert (H1 : length out1 = length d) by (unfold out1; rewrite length_write_at; cbn; lia).
  assert (Hu : length (u16_to_le_bytes (as_u16 (len (vsl_validators l)))) = 2%nat) by apply length_le_encode.
  assert (H2 : length out2 = length d) by (unfold out2; rewrite length_write_at; lia).
  destruct (serialize_validators_roundtrip (vsl_validators l) HEADER_LEN out2) as (d' & -> & Hd' & Hdv & Hpre); [done| |].
  { rewrite H2. unfold HEADER_LEN, VALIDATOR_STAKE_INFO_LEN. lia. }
  exists d'. split_and!; [done|lia|].
  rewrite list_deserialize_long by lia.
  assert (Hs0 : le_decode (slice 0 1 d') = vsl_version l).
  { rewrite Hpre by (unfold HEADER_LEN; lia). unfold out2. rewrite slice_write_before by lia.
    unfold out1. rewrite byte_slice_write by lia. by apply u8_decode_roundtrip. }
  assert (Hs1 : le_decode (slice 1 2 d') = len (vsl_validators l)).
  { rewrite Hpre by (unfold HEADER_LEN; lia). unfold out2. rewrite slice_write_same by lia.
    assert (Has : as_u16 (len (vsl_validators l)) = len (vsl_validators l)).
    { unfold as_u16, wrap, len. rewrite Z.mod_small; [done|]. change (2 ^ 16) with 65536. lia. }
    rewrite Has. apply u16_le_roundtrip. unfold u16_range, len. change (2 ^ 16) with 65536. lia. }
  rewrite Hs0, Hs1. unfold len. rewrite Nat2Z.id.
  destruct (Z.eqb_spec (vsl_version l) 0) as [E|E].
  - destruct l as [ver vs]; cbn [vsl_version vsl_validators] in *. by rewrite (Hz E), E.
  - rewrite (proj2 (Nat.ltb_ge _ _)) by done. rewrite Hdv. cbn. by destruct l.
Qed.
Lemma list_deserialize_Ok d l :
  validator_stake_list_deserialize d = Ok l ->
  (VALIDATOR_STAKE_LIST_LEN <= length d)%nat /\ ValidatorStakeList_wf l.
Proof.
  intros Hd. destruct (Nat.ltb_spec (length d) VALIDATOR_STAKE_LIST_LEN) as [Hs|Hs].
  { unfold validator_stake_list_deserialize in Hd.
    rewrite err_if_bind, (proj2 (Nat.ltb_lt _ _)) in Hd by done. discriminate. }
  split; [done|]. rewrite list_deserialize_long in Hd by done.
  pose proof list_capacity as Hcap.
  assert (Hr : u8_range (le_decode (slice 0 1 d))) by (apply u8_bytes_range, length_slice; lia).
  destruct (Z.eqb_spec (le_decode (slice 0 1 d)) 0) as [E|E].
  { injection Hd as <-. split; cbn; [done|]. split_and!; try done. lia. }
  destruct (Nat.ltb_spec MAX_VALIDATOR_STAKE_ACCOUNTS (Z.to_nat (le_decode (slice 1 2 d)))) as [|Hm]; [done|].
  destruct (deserialize_validators_Ok d HEADER_LEN (Z.to_nat (le_decode (slice 1 2 d)))) as (vs & E' & Hn & Hf).
  { unfold HEADER_LEN, VALIDATOR_STAKE_INFO_LEN, MAX_VALIDATOR_STAKE_ACCOUNTS in *. lia. }
  rewrite E' in Hd. injection Hd as <-.
  split; cbn; [done|]. split; [done|]. split; [by rewrite Hn|done].
Qed.

(** ** Instructions *)
Lemma set_tag_replicate t : set_tag t (replicate INSTRUCTION_SIZE x00) = byte_of_u8 t :: replicate 23 x00.
Proof. done. Qed.
Section PutStruct.
Context {T : Type} `{ReprCLaws T}.
Lemma put_struct_tag (v : T) t :
  exists rest, put_struct v (set_tag t (replicate INSTRUCTION_SIZE x00)) = byte_of_u8 t :: rest /\
               length rest = (size_of T + (23 - size_of T))%nat /\
               (repr_wf v -> from_raw rest = v).
Proof.
  rewrite set_tag_replicate. unfold put_struct, write_at. rewrite length_to_raw. eexists. split; [done|].
  cbn [drop take Nat.add app]. rewrite length_app, length_to_raw, length_drop, length_replicate.
  split; [done|]. apply from_to_raw.
Qed.
Lemma unpack_put_struct (v : T) t :
  repr_wf v ->
  exists rest, put_struct v (set_tag t (replicate INSTRUCTION_SIZE x00)) = byte_of_u8 t :: rest /\
               unpack_struct T (byte_of_u8 t :: rest) = Ok v.
Proof.
  intros Hw. destruct (put_struct_tag v t) as (rest & E & Hl & Hr). exists rest. split; [done|].
  unfold unpack_struct. rewrite (proj2 (Nat.ltb_ge _ _)) by (cbn [length]; lia).
  change (drop 1 (byte_of_u8 t :: rest)) with rest. by rewrite Hr.
Qed.
(** an instruction with a payload decodes to itself *)
Lemma payload_roundtrip t (v : T) (c : T -> StakePoolInstruction) :
  repr_wf v -> (size_of T <= 23)%nat -> t mod 256 = t ->
  (forall rest, pool_instruction_deserialize (byte_of_u8 t :: rest) =
                (c <$> unpack_struct T (byte_of_u8 t :: rest))) ->
  let bs := put_struct v (set_tag t (replicate INSTRUCTION_SIZE x00)) in
  length bs = INSTRUCTION_SIZE /\ pool_instruction_deserialize bs = Ok (c v).
Proof.
  intros Hw Hs Ht Hd bs. unfold bs. destruct (put_struct_tag v t) as (rest & E & Hl & _).
  destruct (unpack_put_struct v t Hw) as (rest' & E' & Hu). split.
  - rewrite E. cbn. unfold INSTRUCTION_SIZE. lia.
  - rewrite E', Hd, Hu. done.
Qed.
End PutStruct.
Lemma unpack_struct_Ok {T} `{ReprCLaws T} l (v : T) : unpack_struct T l = Ok v -> repr_wf v.
Proof.
  unfold unpack_struct. destruct (Nat.ltb_spec (length l) (1 + size_of T)); [done|]. intros [= <-].
  apply from_raw_wf. rewrite length_drop. lia.
Qed.
Lemma unpack_struct_err {T} `{ReprC T} l e : unpack_struct T l = Err e -> e = InvalidAccountData.
Proof. unfold unpack_struct. case_match; naive_solver. Qed.
Lemma outcome_fmap_Err {E A B} (m : outcome E A) (f : A -> B) e : (f <$> m) = Err e <-> m = Err e.
Proof. destruct m; cbn; naive_solver. Qed.
Lemma unpack_struct_no_panic {T} `{ReprC T} l : unpack_struct T l <> Panic.
Proof. unfold unpack_struct. by case_match. Qed.

(** * Properties *)
Section PoolCodecProperties.
Context `{PAD : StructPadding}.

(** a stake pool saved in an account reads back as the same pool, bit
    for bit in every field and whatever the padding bytes hold; the account
    keeps its length and every byte past the struct. *)
Lemma stake_pool_roundtrip (p : StakePool) (d : list byte) :
  StakePool_wf p -> (STAKE_POOL_LEN <= length d)%nat ->
  exists d', stake_pool_serialize p d = Ok d' /\ length d' = length d /\
             stake_pool_deserialize d' = Ok p /\ drop STAKE_POOL_LEN d' = drop STAKE_POOL_LEN d.
Proof. apply pool_store. Qed.

(** C32: the fixed 48003-byte layout of the validator stake list loses
    nothing: a list of at most a thousand in-range records is stored and
    read back as the same list, in order. *)
Theorem validator_stake_list_roundtrip (l : ValidatorStakeList) (d : list byte) :
  ValidatorStakeList_wf l -> (VALIDATOR_STAKE_LIST_LEN <= length d)%nat ->
  exists d', validator_stake_list_serialize l d = Ok d' /\ length d' = length d /\
             validator_stake_list_deserialize d' = Ok l.
Proof. apply list_roundtrip. Qed.

(** Reading a validator stake list out of arbitrary bytes never panics:
    it returns a well-formed list (at most a thousand records), or
    [InvalidAccountData], exactly when the buffer is shorter than the fixed
    layout or an initialised header counts more than a thousand records. *)
Lemma validator_stake_list_deserialize_total (d : list byte) :
  match validator_stake_list_deserialize d with
  | Ok l => ValidatorStakeList_wf l
  | Err e => e = InvalidAccountData /\
      ((length d < VALIDATOR_STAKE_LIST_LEN)%nat \/
       (le_decode (slice 0 1 d) <> 0 /\ 1000 < le_decode (slice 1 2 d)))
  | Panic => False
  end.
Proof.
  destruct (validator_stake_list_deserialize d) as [l|e|] eqn:E.
  - by apply list_deserialize_Ok in E as [_ ?].
  - destruct (Nat.ltb_spec (length d) VALIDATOR_STAKE_LIST_LEN) as [Hs|Hs].
    { unfold validator_stake_list_deserialize in E.
      rewrite err_if_bind, (proj2 (Nat.ltb_lt _ _)) in E by done. naive_solver. }
    rewrite list_deserialize_long in E by done. pose proof list_capacity as Hcap.
    destruct (Z.eqb_spec (le_decode (slice 0 1 d)) 0) as [|Hv]; [done|].
    destruct (Nat.ltb_spec MAX_VALIDATOR_STAKE_ACCOUNTS (Z.to_nat (le_decode (slice 1 2 d)))) as [Hm|Hm].
    { injection E as <-. split; [done|]. right. split; [done|].
      assert (Z.of_nat MAX_VALIDATOR_STAKE_ACCOUNTS = 1000) by done. lia. }
    destruct (deserialize_validators_Ok d HEADER_LEN (Z.to_nat (le_decode (slice 1 2 d)))) as (vs & E' & _).
    { unfold HEADER_LEN, VALIDATOR_STAKE_INFO_LEN, MAX_VALIDATOR_STAKE_ACCOUNTS in *. lia. }
    by rewrite E' in E.
  - destruct (Nat.ltb_spec (length d) VALIDATOR_STAKE_LIST_LEN) as [Hs|Hs].
    { unfold validator_stake_list_deserialize in E.
      by rewrite err_if_bind, (proj2 (Nat.ltb_lt _ _)) in E by done. }
    rewrite list_deserialize_long in E by done. pose proof list_capacity as Hcap.
    case_match; [done|]. destruct (Nat.ltb_spec MAX_VALIDATOR_STAKE_ACCOUNTS
      (Z.to_nat (le_decode (slice 1 2 d)))) as [Hm|Hm]; [done|].
    destruct (deserialize_validators_Ok d HEADER_LEN (Z.to_nat (le_decode (slice 1 2 d)))) as (vs & E' & _).
    { unfold HEADER_LEN, VALIDATOR_STAKE_INFO_LEN, MAX_VALIDATOR_STAKE_ACCOUNTS in *. lia. }
    by rewrite E' in E.
Qed.
End PoolCodecProperties.

(** padding bytes left at zero *)
Definition zero_padding : StructPadding := {| pool_padding _ _ := array_of_list 5 [] |}.
Definition sample_pool : StakePool :=
  mk_stake_pool 1 (key_of_Z 1) 254 255 (key_of_Z 2) (key_of_Z 3) (key_of_Z 4) (key_of_Z 5)
    (2 ^ 64 - 1) 1000000 73 (mk_fee 100 3).
Definition sample_list : ValidatorStakeList :=
  mk_validator_stake_list 1 [mk_validator_stake_info (key_of_Z 1) 123456789 987654321;
                             mk_validator_stake_info (key_of_Z 2) 998877665544 11223445566].
Lemma sample_list_wf : ValidatorStakeList_wf sample_list.
Proof. split; [done|]. split; [done|]. split; [cbn; unfold MAX_VALIDATOR_STAKE_ACCOUNTS; lia|]. by repeat constructor. Qed.
Lemma stake_pool_roundtrip_witness :
  let d := replicate 210 xff in
  StakePool_wf sample_pool /\ (STAKE_POOL_LEN <= length d)%nat /\
  exists d', stake_pool_serialize (H:=zero_padding) sample_pool d = Ok d' /\ length d' = length d /\
             stake_pool_deserialize (H:=zero_padding) d' = Ok sample_pool /\
             drop STAKE_POOL_LEN d' = drop STAKE_POOL_LEN d.
Proof.
  cbn zeta. assert (Hw : StakePool_wf sample_pool) by (by repeat split).
  assert (Hl : (STAKE_POOL_LEN <= length (replicate 210 xff))%nat) by (rewrite length_replicate; unfold STAKE_POOL_LEN; lia).
  split; [exact Hw|]. split; [exact Hl|]. exact (stake_pool_roundtrip sample_pool _ Hw Hl).
Defined.
Lemma validator_stake_list_roundtrip_witness :
  let d := replicate VALIDATOR_STAKE_LIST_LEN x00 in
  ValidatorStakeList_wf sample_list /\ (VALIDATOR_STAKE_LIST_LEN <= length d)%nat /\
  exists d', validator_stake_list_serialize sample_list d = Ok d' /\ length d' = length d /\
             validator_stake_list_deserialize d' = Ok sample_list.
Proof.
  cbn zeta. assert (Hl : (VALIDATOR_STAKE_LIST_LEN <= length (replicate VALIDATOR_STAKE_LIST_LEN x00))%nat).
  { by rewrite length_replicate. }
  split; [exact sample_list_wf|]. split; [exact Hl|].
  exact (validator_stake_list_roundtrip sample_list _ sample_list_wf Hl).
Defined.

Lemma instruction_roundtrip (i : StakePoolInstruction) :
  pool_instruction_wf i ->
  exists bs, pool_instruction_serialize i = Ok bs /\ length bs = INSTRUCTION_SIZE /\
             pool_instruction_deserialize bs = Ok i.
Proof.
  destruct i; intros Hw; cbn [pool_instruction_wf] in Hw; eexists; (split; [reflexivity|]);
    try (split; reflexivity).
  - apply (payload_roundtrip (T:=InitArgs) 0 init Initialize); solve [exact Hw | by vm_compute; lia | done].
  - apply (payload_roundtrip (T:=Z) 7 amount Withdraw); solve [exact Hw | by vm_compute; lia | done].
  - apply (payload_roundtrip (T:=Z) 10 amount AddLiquidity); solve [exact Hw | by vm_compute; lia | done].
  - apply (payload_roundtrip (T:=Z) 11 amount SellstSOL); solve [exact Hw | by vm_compute; lia | done].
Qed.
(** C33: every instruction with in-range integers is encoded in 24 bytes that
    decode to the same instruction. *)
Theorem pool_instruction_roundtrip (i : StakePoolInstruction) :
  pool_instruction_wf i ->
  exists bs, pool_instruction_serialize i = Ok bs /\ length bs = INSTRUCTION_SIZE /\
             pool_instruction_deserialize bs = Ok i.
Proof. apply instruction_roundtrip. Qed.
Lemma pool_instruction_roundtrip_witness :
  let i := Initialize (mk_init_args (mk_fee 100 3)) in
  pool_instruction_wf i /\ exists bs, pool_instruction_serialize i = Ok bs /\
    length bs = INSTRUCTION_SIZE /\ pool_instruction_deserialize bs = Ok i.
Proof. cbn zeta. split; [|apply pool_instruction_roundtrip]; split; done. Defined.

Lemma pool_instruction_deserialize_cases (input : list byte) :
  match pool_instruction_deserialize input with
  | Ok i => pool_instruction_wf i
  | Err e => e = InvalidAccountData
  | Panic => False
  end.
Proof.
  destruct (pool_instruction_deserialize input) as [i|e|] eqn:E; destruct input as [|b input]; try done;
    cbn [pool_instruction_deserialize] in E; try congruence;
    repeat case_match; simplify_eq; try done.
  all: try (apply outcome_fmap_Ok in E as (v & E & <-); apply unpack_struct_Ok in E; exact E).
  all: try (apply outcome_fmap_Panic in E; by apply unpack_struct_no_panic in E).
  all: apply outcome_fmap_Err in E; by apply unpack_struct_err in E.
Qed.
Lemma pool_instruction_deserialize_wf input i :
  pool_instruction_deserialize input = Ok i -> pool_instruction_wf i.
Proof. intros E. pose proof (pool_instruction_deserialize_cases input) as H. by rewrite E in H. Qed.
(** Decoding an instruction never panics, whatever the bytes: the result
    is an instruction with in-range arguments or [InvalidAccountData]. *)
Lemma pool_instruction_deserialize_total (input : list byte) :
  match pool_instruction_deserialize input with
  | Ok i => pool_instruction_wf i
  | Err e => e = InvalidAccountData
  | Panic => False
  end.
Proof. apply pool_instruction_deserialize_cases. Qed.
