(* ===== verification/PoolMath.v ===== *)
(** * The arithmetic of shares and lamports

    What the 128-bit multiply-and-divide of [PoolState] and [PoolProcessor]
    computes, when it fails, and what rounding down means for the pool: the
    value of a pool token never falls on a deposit or a withdrawal. *)
From S2P Require Import Prelude Machine Sdk PoolInstruction PoolState PoolCodec PoolProcessor.

(** ** Plain operators *)
Section PlainFacts.
Context `{BP : BuildProfile}.
Lemma wrap_range z : u64_range (wrap 64 z).
Proof. apply Z.mod_pos_bound. lia. Qed.
Lemma wrap_small z : u64_range z -> wrap 64 z = z.
Proof. intros. by apply Z.mod_small. Qed.
Lemma u64_result_Ok {E} z c :
  u64_result (E:=E) z = Ok c -> c = wrap 64 z /\ (overflow_checks = true -> c = z /\ u64_range z).
Proof.
  unfold u64_result. destruct (decide (u64_range z)) as [Hr|Hr].
  - intros [= <-]. by rewrite wrap_small.
  - destruct overflow_checks; [done|]. by intros [= <-].
Qed.
Lemma u64_result_no_err {E} z e : u64_result (E:=E) z <> Err e.
Proof. unfold u64_result. by repeat case_match. Qed.
Lemma plain_add_Ok {E} a b c :
  plain_add (E:=E) a b = Ok c -> c = wrap 64 (a + b) /\ (overflow_checks = true -> c = a + b /\ u64_range (a + b)).
Proof. apply u64_result_Ok. Qed.
Lemma plain_sub_Ok {E} a b c :
  plain_sub (E:=E) a b = Ok c -> c = wrap 64 (a - b) /\ (overflow_checks = true -> c = a - b /\ u64_range (a - b)).
Proof. apply u64_result_Ok. Qed.
(** a sum or a difference that has not crossed its first operand is exact *)
Lemma plain_add_exact {E} a b c :
  u64_range a -> u64_range b -> plain_add (E:=E) a b = Ok c -> overflow_checks = true \/ a <= c -> c = a + b /\ a + b < 2 ^ 64.
Proof.
  intros Ha Hb [-> Hov]%plain_add_Ok [H|H].
  - destruct (Hov H) as [-> [? ?]]. by split.
  - unfold wrap, u64_range in *. destruct (Z.ltb_spec (a + b) (2 ^ 64)); [rewrite Z.mod_small in * by lia; lia|].
    replace ((a + b) mod 2 ^ 64) with (a + b - 2 ^ 64) in *; [lia|]. apply (Z.mod_unique_pos _ _ 1); lia.
Qed.
Lemma plain_sub_exact {E} a b c :
  u64_range a -> u64_range b -> plain_sub (E:=E) a b = Ok c -> overflow_checks = true \/ c <= a -> c = a - b /\ b <= a.
Proof.
  intros Ha Hb [-> Hov]%plain_sub_Ok [H|H].
  - destruct (Hov H) as [-> [? ?]]. split; [done|lia].
  - unfold wrap, u64_range in *. destruct (Z.leb_spec b a); [rewrite Z.mod_small in * by lia; lia|].
    replace ((a - b) mod 2 ^ 64) with (a - b + 2 ^ 64) in *; [lia|]. apply (Z.mod_unique_pos _ _ (-1)); lia.
Qed.
End PlainFacts.

(** ** [mul_div] *)
Lemma mul_div_Some a b c r :
  mul_div a b c = Some r <-> c <> 0 /\ a * b < 2 ^ 128 /\ r = a * b / c /\ r < 2 ^ 64.
Proof.
  unfold mul_div. rewrite bind_Some. setoid_rewrite checked_mul128_Some. setoid_rewrite bind_Some.
  setoid_rewrite checked_div128_Some. setoid_rewrite u64_try_from_Some. naive_solver.
Qed.
Lemma mul_u64_u128 a b : u64_range a -> u64_range b -> 0 <= a * b < 2 ^ 128.
Proof.
  unfold u64_range. intros Ha Hb. change (2 ^ 128) with (2 ^ 64 * 2 ^ 64). nia.
Qed.
Lemma mul_div_spec a b c :
  u64_range a -> u64_range b ->
  mul_div a b c = if (c =? 0) || (2 ^ 64 <=? a * b / c) then None else Some (a * b / c).
Proof.
  intros Ha Hb. pose proof (mul_u64_u128 a b Ha Hb) as [_ Hm].
  destruct (mul_div a b c) as [r|] eqn:E.
  - apply mul_div_Some in E as (Hc & _ & -> & Hr).
    destruct (Z.eqb_spec c 0); [done|]. by rewrite (proj2 (Z.leb_gt _ _)) by done.
  - destruct (Z.eqb_spec c 0) as [|Hc]; [done|]. destruct (Z.leb_spec (2 ^ 64) (a * b / c)) as [|Hr]; [done|].
    cbn. rewrite (proj2 (mul_div_Some a b c (a * b / c))) in E by done. done.
Qed.
Lemma mul_div_bounds a b c r :
  0 <= a -> 0 <= b -> 0 <= c -> mul_div a b c = Some r -> 0 < c /\ 0 <= r < 2 ^ 64 /\ r * c <= a * b < (r + 1) * c.
Proof.
  intros Ha Hb Hc (Hn & _ & -> & Hr)%mul_div_Some.
  assert (0 < c) by lia. assert (0 <= a * b) by nia.
  pose proof (Z.div_mod (a * b) c Hn). pose proof (Z.mod_pos_bound (a * b) c ltac:(lia)).
  split_and!; [done|by apply Z.div_pos|done|nia|nia].
Qed.

Lemma calc_pool_deposit_amount_bounds p x t :
  StakePool_wf p -> u64_range x -> calc_pool_deposit_amount p x = Some t ->
  u64_range t /\
  if sp_stake_total p =? 0 then t = x
  else t * sp_stake_total p <= x * sp_pool_total p < (t + 1) * sp_stake_total p.
Proof.
  intros (_ & _ & _ & HS & HP & _) Hx. unfold calc_pool_deposit_amount, calc_pool_withdraw_amount, u64_range in *.
  destruct (Z.eqb_spec (sp_stake_total p) 0); [naive_solver|].
  intros (? & ? & ?)%mul_div_bounds; lia.
Qed.

(** ** The price of a token *)
(** [price_le p q]: a token of [q] is worth at least a token of [p], that is
    [sp_stake_total p / sp_pool_total p <= sp_stake_total q / sp_pool_total q],
    without dividing *)
Definition price_le (p q : StakePool) : Prop :=
  sp_stake_total p * sp_pool_total q <= sp_stake_total q * sp_pool_total p.
(** the pool after [x] lamports came in for [t] tokens, or went out *)
Definition pool_credit (p : StakePool) (x t : Z) : StakePool :=
  set_sp_stake_total (sp_stake_total p + x) (set_sp_pool_total (sp_pool_total p + t) p).
Definition pool_debit (p : StakePool) (x t : Z) : StakePool :=
  set_sp_stake_total (sp_stake_total p - x) (set_sp_pool_total (sp_pool_total p - t) p).

(** neither total has fallen, or risen: in a build without overflow checks,
    the sums, or the differences, have not wrapped around *)
Definition totals_rose (p q : StakePool) : Prop :=
  sp_pool_total p <= sp_pool_total q /\ sp_stake_total p <= sp_stake_total q.
Definition totals_fell (p q : StakePool) : Prop :=
  sp_pool_total q <= sp_pool_total p /\ sp_stake_total q <= sp_stake_total p.
Lemma price_le_trans p q r :
  0 <= sp_pool_total p -> 0 < sp_pool_total q -> 0 <= sp_pool_total r ->
  price_le p q -> price_le q r -> price_le p r.
Proof. unfold price_le. intros. nia. Qed.

Lemma price_le_deposit p x t :
  StakePool_wf p -> u64_range x -> calc_pool_deposit_amount p x = Some t -> price_le p (pool_credit p x t).
Proof.
  intros Hw Hx Ht. pose proof (calc_pool_deposit_amount_bounds p x t Hw Hx Ht) as [Hr Hb].
  destruct Hw as (_ & _ & _ & HS & HP & _). unfold price_le, pool_credit, u64_range in *. cbn.
  destruct (Z.eqb_spec (sp_stake_total p) 0) as [E|E]; [rewrite E in *; nia|]. nia.
Qed.
Lemma price_le_withdraw p l t :
  StakePool_wf p -> u64_range t -> calc_lamports_amount p t = Some l -> price_le p (pool_debit p l t).
Proof.
  intros (_ & _ & _ & HS & HP & _) Ht Hl. unfold price_le, pool_debit, u64_range in *. cbn.
  apply mul_div_bounds in Hl as (? & ? & ?); nia.
Qed.
Lemma deposit_withdraw_le p x t l :
  StakePool_wf p -> u64_range x -> calc_pool_deposit_amount p x = Some t ->
  calc_lamports_amount (pool_credit p x t) t = Some l -> l <= x.
Proof.
  intros Hw Hx Ht Hl. pose proof (calc_pool_deposit_amount_bounds p x t Hw Hx Ht) as [Hr Hb].
  destruct Hw as (_ & _ & _ & HS & HP & _). unfold pool_credit, u64_range in *. cbn in Hl.
  apply mul_div_bounds in Hl as (Hpos & Hl & Hb' & _); cbn in *; [|lia..].
  destruct (Z.eqb_spec (sp_stake_total p) 0) as [E|E].
  - subst t. rewrite E in *. nia.
  - assert (t * (sp_stake_total p + x) <= x * (sp_pool_total p + t)) by nia.
    destruct (Z.le_gt_cases l x); [done|]. nia.
Qed.
