(* ===== verification/PoolFacts.v ===== *)
(** * Running the stake pool's handlers

    Views of a store through the pool's account layouts, the inversion lemmas
    of the handlers' primitive steps, relations on stores that every step of a
    handler respects, and what the runtime's laws give for each invocation. *)
From S2P Require Import Prelude Machine Sdk TokenInstruction TokenState TokenCodec TokenProcessor TokenFacts.
From S2P Require Import PoolInstruction PoolState StakeProgram PoolProcessor PoolCodec PoolMath.

(** ** Views *)
Definition pool_at `{StructPadding} (s : Store) (k : Pubkey) (p : StakePool) : Prop :=
  stake_pool_deserialize (cell_data (get_cell s k)) = Ok p.
Definition list_at (s : Store) (k : Pubkey) (l : ValidatorStakeList) : Prop :=
  validator_stake_list_deserialize (cell_data (get_cell s k)) = Ok l.
(** [s'] is [s] with new data in the cell at [k] *)
Definition data_written (s : Store) (k : Pubkey) (s' : Store) : Prop := exists d, s' = set_data s k d.

Section Views.
Context `{PAD : StructPadding}.
Lemma data_written_ne s k s' k' : k <> k' -> data_written s k s' -> get_cell s' k' = get_cell s k'.
Proof. intros ? [d ->]. by rewrite get_cell_set_data, decide_False by done. Qed.
Lemma data_written_lamports s k s' k' :
  data_written s k s' -> cell_lamports (get_cell s' k') = cell_lamports (get_cell s k').
Proof. intros [d ->]. apply lamports_set_data. Qed.
Lemma data_written_owner s k s' k' :
  data_written s k s' -> cell_owner (get_cell s' k') = cell_owner (get_cell s k').
Proof. intros [d ->]. apply owner_set_data. Qed.
Lemma pool_at_inj s k p p' : pool_at s k p -> pool_at s k p' -> p = p'.
Proof. unfold pool_at. congruence. Qed.
Lemma list_at_inj s k l l' : list_at s k l -> list_at s k l' -> l = l'.
Proof. unfold list_at. congruence. Qed.
Lemma pool_at_wf s k p : pool_at s k p -> StakePool_wf p.
Proof. intros Hp. by apply (struct_deserialize_Ok (T:=StakePool)) in Hp as [_ ?]. Qed.
Lemma list_at_wf s k l : list_at s k l -> ValidatorStakeList_wf l.
Proof. intros Hp. by apply list_deserialize_Ok in Hp as [_ ?]. Qed.
Lemma pool_at_length s k p : pool_at s k p -> (STAKE_POOL_LEN <= length (cell_data (get_cell s k)))%nat.
Proof. intros Hp. by apply (struct_deserialize_Ok (T:=StakePool)) in Hp as [? _]. Qed.
Lemma list_at_length s k l :
  list_at s k l -> (VALIDATOR_STAKE_LIST_LEN <= length (cell_data (get_cell s k)))%nat.
Proof. intros Hp. by apply list_deserialize_Ok in Hp as [? _]. Qed.
(** an initialised list does not read as an uninitialised pool: both layouts
    begin with the version byte *)
Lemma list_reads_initialized s k l p :
  list_at s k l -> pool_at s k p -> vsl_is_initialized l = true -> sp_is_initialized p = true.
Proof.
  intros Hl Hp Hi. pose proof (pool_at_length _ _ _ Hp) as Hlen. pose proof (list_at_length _ _ _ Hl) as Hlen'.
  unfold pool_at, stake_pool_deserialize in Hp. rewrite struct_deserialize_long in Hp by done. injection Hp as <-.
  unfold list_at in Hl. rewrite list_deserialize_long in Hl by done.
  assert (Hv : sp_version (stake_pool_from_raw (cell_data (get_cell s k))) = le_decode (slice 0 1 (cell_data (get_cell s k)))).
  { cbn. unfold slice. by rewrite take_take. }
  change (from_raw (ReprC:=StakePool_ReprC)) with stake_pool_from_raw.
  unfold sp_is_initialized. rewrite Hv. case_match; [by injection Hl as <-|]. case_match; [done|].
  apply outcome_bind_Ok in Hl as (vs & _ & [= <-]). exact Hi.
Qed.
Lemma pool_at_ext s s' k p : get_cell s' k = get_cell s k -> pool_at s k p -> pool_at s' k p.
Proof. unfold pool_at. by intros ->. Qed.
Lemma list_at_ext s s' k l : get_cell s' k = get_cell s k -> list_at s k l -> list_at s' k l.
Proof. unfold list_at. by intros ->. Qed.
End Views.

Section Primitives.
Context `{SDK : SolanaSdk} {LAWS : SolanaSdkLaws SDK}.
Context `{RT : Runtime} `{BC : Bincode} `{PAD : StructPadding} `{BP : BuildProfile}.

Lemma read_stake_pool_Ok i s p s' : read_stake_pool i s = (Ok p, s') <-> s = s' /\ pool_at s (key i) p.
Proof.
  unfold read_stake_pool, borrow_data, pool_at. rewrite stM_bind_Ok. setoid_rewrite gets_Ok.
  setoid_rewrite lift_Ok. naive_solver.
Qed.
Lemma read_validator_stake_list_Ok i s l s' :
  read_validator_stake_list i s = (Ok l, s') <-> s = s' /\ list_at s (key i) l.
Proof.
  unfold read_validator_stake_list, borrow_data, list_at. rewrite stM_bind_Ok. setoid_rewrite gets_Ok.
  setoid_rewrite lift_Ok. naive_solver.
Qed.
Lemma save_stake_pool_Ok p i s u s' :
  save_stake_pool p i s = (Ok u, s') ->
  data_written s (key i) s' /\ (StakePool_wf p -> pool_at s' (key i) p).
Proof.
  unfold save_stake_pool, borrow_data, write_data, pool_at. intros Hr. inv_run.
  split; [by eexists|]. intros Hw. rewrite data_set_data, decide_True by done.
  match goal with H : stake_pool_serialize _ _ = Ok _ |- _ => by eapply pool_serialize_Ok in H end.
Qed.
Lemma list_serialize_long l d d' :
  validator_stake_list_serialize l d = Ok d' ->
  (VALIDATOR_STAKE_LIST_LEN <= length d)%nat /\
  (length (vsl_validators l) <= MAX_VALIDATOR_STAKE_ACCOUNTS)%nat.
Proof.
  unfold validator_stake_list_serialize. rewrite !err_if_bind.
  destruct (Nat.ltb_spec (length d) VALIDATOR_STAKE_LIST_LEN); [done|].
  by destruct (Nat.ltb_spec MAX_VALIDATOR_STAKE_ACCOUNTS (length (vsl_validators l))).
Qed.
(** saving a list whose records are in range: the thousand-record bound is
    the serialiser's own check *)
Lemma save_validator_stake_list_Ok l i s u s' :
  save_validator_stake_list l i s = (Ok u, s') ->
  data_written s (key i) s' /\ (length (vsl_validators l) <= MAX_VALIDATOR_STAKE_ACCOUNTS)%nat /\
  (ValidatorStakeList_wf l -> list_at s' (key i) l).
Proof.
  unfold save_validator_stake_list, borrow_data, write_data, list_at. intros Hr. inv_run.
  match goal with H : validator_stake_list_serialize _ ?d = Ok _ |- _ =>
    pose proof (list_serialize_long _ _ _ H) as [Hl Hn]; rename H into Hser end.
  split; [by eexists|]. split; [done|]. intros Hw. rewrite data_set_data, decide_True by done.
  destruct (list_roundtrip l _ Hw Hl) as (d' & E & _ & ?). rewrite Hser in E. by injection E as ->.
Qed.
Lemma read_clock_Ok i s c s' :
  read_clock i s = (Ok c, s') <-> s = s' /\ clock_from_account_info i (get_cell s (key i)) = Ok c.
Proof.
  unfold read_clock, cell_of. rewrite stM_bind_Ok. setoid_rewrite gets_Ok. setoid_rewrite lift_Ok.
  naive_solver.
Qed.
Lemma read_stake_history_Ok i s c s' :
  read_stake_history i s = (Ok c, s') <->
  s = s' /\ stake_history_from_account_info i (get_cell s (key i)) = Ok c.
Proof.
  unfold read_stake_history, cell_of. rewrite stM_bind_Ok. setoid_rewrite gets_Ok. setoid_rewrite lift_Ok.
  naive_solver.
Qed.
Lemma lamports_Ok i s z s' : lamports i s = (Ok z, s') <-> s = s' /\ z = cell_lamports (get_cell s (key i)).
Proof. unfold lamports. rewrite gets_Ok. naive_solver. Qed.
(** the validator of a stake account at its derived address *)
Definition stake_account_of (s : Store) (program_id pool_key stake_key validator : Pubkey) : Prop :=
  (exists meta st, bincode_deserialize (cell_data (get_cell s stake_key)) = Some (StakeStake meta st) /\
                   voter_pubkey (stake_delegation st) = validator) /\
  (find_stake_address_for_validator program_id validator pool_key).1 = stake_key.
Lemma get_validator_checked_Ok program_id pool_i stake_i s v s' :
  get_validator_checked program_id pool_i stake_i s = (Ok v, s') <->
  s = s' /\ stake_account_of s program_id (key pool_i) (key stake_i) v.
Proof.
  unfold get_validator_checked, get_validator, borrow_data, stake_account_of, is_validator_stake_address.
  destruct (find_stake_address_for_validator program_id v (key pool_i)) as [k z] eqn:Ek. split.
  - intros Hr. inv_run. case_run; inv_run.
    match goal with Hn : negb _ = false |- _ => rewrite Ek in Hn end. bool_hyps. cbn. split_and!; [done| |done].
    by eexists _, _.
  - intros (-> & (meta & st & Hb & Hv) & Hk).
    unfold mbind, stM_bind, gets, lift. rewrite Hb. cbn. rewrite Hv, Ek. cbn.
    by rewrite bool_decide_eq_true_2 by exact Hk.
Qed.
End Primitives.

Ltac inv_run_pool :=
  match goal with
  | H : read_stake_pool _ _ = (Ok _, _) |- _ => apply read_stake_pool_Ok in H as [? H]
  | H : read_validator_stake_list _ _ = (Ok _, _) |- _ => apply read_validator_stake_list_Ok in H as [? H]
  | H : save_stake_pool _ _ _ = (Ok _, _) |- _ => apply save_stake_pool_Ok in H as [? H]
  | H : save_validator_stake_list _ _ _ = (Ok _, _) |- _ => apply save_validator_stake_list_Ok in H as (? & ? & H)
  | H : read_clock _ _ = (Ok _, _) |- _ => apply read_clock_Ok in H as [? H]
  | H : read_stake_history _ _ = (Ok _, _) |- _ => apply read_stake_history_Ok in H as [? H]
  | H : lamports _ _ = (Ok _, _) |- _ => apply lamports_Ok in H as [? H]
  | H : get_validator_checked _ _ _ _ = (Ok _, _) |- _ => apply get_validator_checked_Ok in H as [? H]
  end.
Ltac inv_run_ext ::= first [inv_run_pool | inv_run_token].

(** ** Relations every run respects

    [respects R m]: whatever its outcome, [m] takes a store to one related
    by the preorder [R]; closed under the monad's operations. *)
Definition respects {A} (R : relation Store) (m : M A) : Prop := forall s r s', m s = (r, s') -> R s s'.
Section Respects.
Context (R : relation Store) `{!PreOrder R}.
Lemma respects_pure {A} (m : M A) : (forall s, (m s).2 = s) -> respects R m.
Proof. intros Hm s r s' E. pose proof (Hm s) as H. rewrite E in H. cbn in H. by subst. Qed.
Lemma respects_bind {A B} (m : M A) (f : A -> M B) :
  respects R m -> (forall a, respects R (f a)) -> respects R (m ≫= f).
Proof.
  intros Hm Hf s r s'. unfold mbind, stM_bind. destruct (m s) as [[a|e|] s1] eqn:E; intros E'.
  - etrans; [by eapply Hm|by eapply Hf].
  - injection E' as <- <-. by eapply Hm.
  - injection E' as <- <-. by eapply Hm.
Qed.
Lemma respects_ret {A} (a : A) : respects R (mret a : M A).
Proof. by apply respects_pure. Qed.
Lemma respects_lift {A} (o : result A) : respects R (lift o : M A).
Proof. by apply respects_pure. Qed.
Lemma respects_gets {A} (f : Store -> A) : respects R (gets f : M A).
Proof. by apply respects_pure. Qed.
Lemma respects_throw {A} e : respects R (throw e : M A).
Proof. by apply respects_pure. Qed.
Lemma respects_fail_if b e : respects R (fail_if b e : M unit).
Proof. by apply respects_pure. Qed.
Lemma respects_assert b : respects R (assert b : M unit).
Proof. apply respects_pure. by destruct b. Qed.
End Respects.
Create HintDb respects discriminated.
#[export] Hint Resolve respects_ret respects_lift respects_gets respects_throw respects_fail_if
  respects_assert : respects.
Ltac solve_respects :=
  repeat lazymatch goal with
  | |- respects _ (_ ≫= _) => apply respects_bind; [solve [eauto with respects typeclass_instances]| |]
  | |- forall _ : _ * _, respects _ _ => intros []
  | |- forall _, respects _ _ => intros ?
  | |- respects _ (let '(_, _) := ?p in _) => destruct p
  | |- respects _ (match ?x with _ => _ end) => destruct x
  | |- respects _ _ => solve [eauto with respects typeclass_instances]
  end.

(** lamports stay in range *)
Definition wf_kept (s s' : Store) : Prop := store_wf s -> store_wf s'.
(** no account of [program_id] changes its owner or its size, nor its data
    but for those at the keys [K] *)
Definition owned_kept (K : list Pubkey) (program_id : Pubkey) (s s' : Store) : Prop :=
  forall k, cell_owner (get_cell s k) = program_id ->
    cell_owner (get_cell s' k) = program_id /\
    length (cell_data (get_cell s' k)) = length (cell_data (get_cell s k)) /\
    (k ∉ K -> cell_data (get_cell s' k) = cell_data (get_cell s k)).
#[global] Instance wf_kept_preorder : PreOrder wf_kept.
Proof. unfold wf_kept. split; [intros s Hw; exact Hw|intros s1 s2 s3 H1 H2 Hw; auto]. Qed.
#[global] Instance owned_kept_preorder K pid : PreOrder (owned_kept K pid).
Proof.
  split.
  - by intros s k.
  - intros s1 s2 s3 H12 H23 k Hk. destruct (H12 k Hk) as (O1 & L1 & E1). destruct (H23 k O1) as (O2 & L2 & E2).
    split; [done|]. split; [congruence|]. intros HK. by rewrite (E2 HK), (E1 HK).
Qed.
Lemma data_written_wf s k s' : data_written s k s' -> store_wf s -> store_wf s'.
Proof. intros Hd Hw k'. by rewrite (data_written_lamports _ _ _ _ Hd). Qed.

Section RuntimeFacts.
Context `{SDK : SolanaSdk} {LAWS : SolanaSdkLaws SDK} `{RT : Runtime} `{BC : Bincode}.
Context {program_id : Pubkey} {RTL : RuntimeLaws RT program_id}.
Lemma invoke_respects_wf ix infos : respects wf_kept (invoke ix infos).
Proof. intros s r s' E Hw. by eapply invoke_wf. Qed.
Lemma invoke_signed_respects_wf ix infos seeds : respects wf_kept (invoke_signed ix infos seeds).
Proof. intros s r s' E Hw. by eapply invoke_signed_wf. Qed.
Lemma invoke_respects_owned K ix infos :
  ix_program_id ix <> program_id -> respects (owned_kept K program_id) (invoke ix infos).
Proof.
  intros ? s r s' E k Hk. destruct (invoke_frame _ _ _ _ _ k ltac:(eassumption) Hk E) as [Ed ?].
  split; [done|]. by rewrite Ed.
Qed.
Lemma invoke_signed_respects_owned K ix infos seeds :
  ix_program_id ix <> program_id -> respects (owned_kept K program_id) (invoke_signed ix infos seeds).
Proof.
  intros ? s r s' E k Hk. destruct (invoke_signed_frame _ _ _ _ _ _ k ltac:(eassumption) Hk E) as [Ed ?].
  split; [done|]. by rewrite Ed.
Qed.

(** the issued invocations: a builder that cannot fail, then one call *)
Lemma stake_authorize_wf pool acc auth ty bump st how rsv prog :
  respects wf_kept (stake_authorize pool acc auth ty bump st how rsv prog).
Proof. apply invoke_signed_respects_wf. Qed.
Lemma stake_split_wf pool acc auth ty bump amount sp rsv prog :
  respects wf_kept (stake_split pool acc auth ty bump amount sp rsv prog).
Proof. apply invoke_signed_respects_wf. Qed.
Lemma stake_merge_wf pool acc auth ty bump w c h prog :
  respects wf_kept (stake_merge pool acc auth ty bump w c h prog).
Proof. apply invoke_signed_respects_wf. Qed.
Lemma token_mint_to_wf pool tp m d auth ty bump amount :
  respects wf_kept (token_mint_to pool tp m d auth ty bump amount).
Proof. apply invoke_signed_respects_wf. Qed.
Lemma token_burn_wf pool tp m d auth ty bump amount :
  respects wf_kept (token_burn pool tp m d auth ty bump amount).
Proof. apply invoke_signed_respects_wf. Qed.

Lemma stake_authorize_owned K pool acc auth ty bump st how rsv prog :
  stake_program_id <> program_id ->
  respects (owned_kept K program_id) (stake_authorize pool acc auth ty bump st how rsv prog).
Proof. intros. by apply invoke_signed_respects_owned. Qed.
Lemma stake_split_owned K pool acc auth ty bump amount sp rsv prog :
  stake_program_id <> program_id ->
  respects (owned_kept K program_id) (stake_split pool acc auth ty bump amount sp rsv prog).
Proof. intros. by apply invoke_signed_respects_owned. Qed.
Lemma stake_merge_owned K pool acc auth ty bump w c h prog :
  stake_program_id <> program_id ->
  respects (owned_kept K program_id) (stake_merge pool acc auth ty bump w c h prog).
Proof. intros. by apply invoke_signed_respects_owned. Qed.
Lemma token_mint_to_owned K pool tp m d auth ty bump amount :
  key tp <> program_id -> respects (owned_kept K program_id) (token_mint_to pool tp m d auth ty bump amount).
Proof. intros. by apply invoke_signed_respects_owned. Qed.
Lemma token_burn_owned K pool tp m d auth ty bump amount :
  key tp <> program_id -> respects (owned_kept K program_id) (token_burn pool tp m d auth ty bump amount).
Proof. intros. by apply invoke_signed_respects_owned. Qed.
Lemma liq_pool_token_mint_to_owned K pid k tp m d auth amount :
  key tp <> program_id ->
  respects (owned_kept K program_id) (liq_pool_token_mint_to pid k tp m d auth amount).
Proof. intros. unfold liq_pool_token_mint_to. case_match. by apply invoke_signed_respects_owned. Qed.
Lemma token_transfer_from_signer_owned K tp src dst auth amount :
  key tp <> program_id ->
  respects (owned_kept K program_id) (token_transfer_from_signer tp src dst auth amount).
Proof. intros. by apply invoke_respects_owned. Qed.
Lemma token_transfer_owned K tp src dst auth b ty n amount :
  key tp <> program_id ->
  respects (owned_kept K program_id) (token_transfer tp src dst auth b ty n amount).
Proof. intros. by apply invoke_signed_respects_owned. Qed.
End RuntimeFacts.
#[export] Hint Resolve stake_authorize_owned stake_split_owned stake_merge_owned token_mint_to_owned token_burn_owned liq_pool_token_mint_to_owned token_transfer_from_signer_owned
  token_transfer_owned invoke_respects_owned invoke_signed_respects_owned : respects.
(** [store_wf] across the invocations of a successful run *)
Ltac forward_wf :=
  repeat match goal with
  | Hw : store_wf ?s, H : stake_authorize _ _ _ _ _ _ _ _ _ ?s = (_, ?s') |- _ =>
      assert_fails (assert (store_wf s') by assumption); pose proof (stake_authorize_wf _ _ _ _ _ _ _ _ _ _ _ _ H Hw)
  | Hw : store_wf ?s, H : stake_split _ _ _ _ _ _ _ _ _ ?s = (_, ?s') |- _ =>
      assert_fails (assert (store_wf s') by assumption); pose proof (stake_split_wf _ _ _ _ _ _ _ _ _ _ _ _ H Hw)
  | Hw : store_wf ?s, H : stake_merge _ _ _ _ _ _ _ _ _ ?s = (_, ?s') |- _ =>
      assert_fails (assert (store_wf s') by assumption); pose proof (stake_merge_wf _ _ _ _ _ _ _ _ _ _ _ _ H Hw)
  | Hw : store_wf ?s, H : token_mint_to _ _ _ _ _ _ _ _ ?s = (_, ?s') |- _ =>
      assert_fails (assert (store_wf s') by assumption); pose proof (token_mint_to_wf _ _ _ _ _ _ _ _ _ _ _ H Hw)
  | Hw : store_wf ?s, H : token_burn _ _ _ _ _ _ _ _ ?s = (_, ?s') |- _ =>
      assert_fails (assert (store_wf s') by assumption); pose proof (token_burn_wf _ _ _ _ _ _ _ _ _ _ _ H Hw)
  | Hw : store_wf ?s, H : data_written ?s _ ?s' |- _ =>
      assert_fails (assert (store_wf s') by assumption); pose proof (data_written_wf _ _ _ H Hw)
  end.
