(* ===== verification/Panics.v ===== *)
(** * Where the programs can panic

    A calculus for the runs that end in a panic: [panic_free] handlers, the
    inversion of a panicking sequence, and what each operation of the two
    programs contributes.  [solve_panic_free] composes them; the theorems are
    in [PanicTheorems]. *)
From S2P Require Import Prelude Machine Sdk TokenInstruction TokenState TokenCodec TokenProcessor TokenFacts TokenRuns.
From S2P Require Import PoolInstruction PoolState StakeProgram PoolProcessor PoolCodec PoolFacts.

(** ** Panic-free computations *)
Definition panic_free {S E A} (m : stM S E A) : Prop := forall s s', m s <> (Panic, s').

Section PanicFree.
Context {S E : Type}.
Implicit Types s : S.
Lemma stM_bind_Panic {A B} (m : stM S E A) (f : A -> stM S E B) s s' :
  (m ≫= f) s = (Panic, s') -> m s = (Panic, s') \/ exists a s1, m s = (Ok a, s1) /\ f a s1 = (Panic, s').
Proof. unfold mbind, stM_bind. destruct (m s) as [[] ]; naive_solver. Qed.
Lemma panic_free_bind {A B} (m : stM S E A) (f : A -> stM S E B) :
  panic_free m -> (forall a, panic_free (f a)) -> panic_free (m ≫= f).
Proof. intros Hm Hf s s' [H|(a & s1 & _ & H)]%stM_bind_Panic; [by eapply Hm|by eapply Hf]. Qed.
(** a panicking sequence whose first part never panics *)
Lemma panic_after {A B} (m : stM S E A) (f : A -> stM S E B) s s' :
  panic_free m -> (m ≫= f) s = (Panic, s') -> exists a s1, m s = (Ok a, s1) /\ f a s1 = (Panic, s').
Proof. by intros Hm [H%Hm|H]%stM_bind_Panic. Qed.
Lemma panic_free_absurd {A} (m : stM S E A) s s' : m s = (Panic, s') -> panic_free m -> False.
Proof. intros H Hm. exact (Hm _ _ H). Qed.
Lemma panic_free_ret {A} (a : A) : panic_free (mret a : stM S E A).
Proof. by intros s s' [=]. Qed.
Lemma panic_free_lift {A} (o : outcome E A) : o <> Panic -> panic_free (lift o : stM S E A).
Proof. by intros H s s' [= E']. Qed.
Lemma panic_free_throw {A} e : panic_free (throw e : stM S E A).
Proof. by intros s s' [=]. Qed.
Lemma panic_free_gets {A} (f : S -> A) : panic_free (gets f : stM S E A).
Proof. by intros s s' [=]. Qed.
Lemma panic_free_modify (f : S -> S) : panic_free (modify f : stM S E unit).
Proof. by intros s s' [=]. Qed.
Lemma panic_free_fail_if b e : panic_free (fail_if b e : stM S E unit).
Proof. apply panic_free_lift. by destruct b. Qed.
Lemma panic_free_foldM {A X} (body : A -> X -> stM S E A) a l :
  (forall a x, panic_free (body a x)) -> panic_free (foldM body a l).
Proof.
  intros Hb. revert a. induction l as [|x l IH]; intros a; [apply panic_free_ret|].
  apply panic_free_bind; [apply Hb|apply IH].
Qed.
Lemma fold_outcome_no_panic {A X} (body : A -> X -> outcome E A) a l :
  (forall a x, body a x <> Panic) -> fold_outcome body a l <> Panic.
Proof.
  intros Hb. revert a. induction l as [|x l IH]; intros a; [done|]. by apply bind_no_panic; [apply Hb|apply IH].
Qed.
Lemma err_if_no_panic b (e : E) : err_if b e <> Panic.
Proof. by destruct b. Qed.
Lemma map_err_no_panic {E' A} (f : E' -> E) (m : outcome E' A) : m <> Panic -> map_err f m <> Panic.
Proof. by destruct m. Qed.
End PanicFree.
#[export] Hint Resolve err_if_no_panic map_err_no_panic fold_outcome_no_panic : no_panic.
Create HintDb panic_free discriminated.
#[export] Hint Resolve panic_free_ret panic_free_throw panic_free_gets panic_free_modify panic_free_fail_if : panic_free.
(** composes a handler out of the parts registered in the two databases *)
Ltac solve_panic_free :=
  repeat lazymatch goal with
  | |- panic_free (_ ≫= _) => apply panic_free_bind
  | |- panic_free (lift _) => apply panic_free_lift
  | |- panic_free (foldM _ _ _) => apply panic_free_foldM
  | |- _ ≫= _ <> Panic => apply bind_no_panic
  | |- fold_outcome _ _ _ <> Panic => apply fold_outcome_no_panic
  | |- forall _ : _ * _, _ => intros []
  | |- forall _, _ => intros ?
  | |- panic_free (let '(_, _) := ?p in _) => destruct p
  | |- panic_free (match ?x with _ => _ end) => destruct x
  | |- panic_free _ => solve [eauto with panic_free typeclass_instances]
  | |- _ <> Panic => first [discriminate | solve [eauto with no_panic typeclass_instances]]
  end.

(** ** Packed records of the right length *)
Class PackTotal (T : Type) `{Pack T} : Prop := {
  unpack_total d : length d = pack_LEN T -> unpack_from_slice d <> Panic;
  pack_total (v : T) d : length d = pack_LEN T -> pack_into_slice v d <> Panic;
}.
Lemma unpack_coption_key_no_panic d : unpack_coption_key d <> Panic.
Proof. unfold unpack_coption_key. by repeat case_decide. Qed.
Lemma unpack_coption_u64_no_panic d : unpack_coption_u64 d <> Panic.
Proof. unfold unpack_coption_u64. by repeat case_decide. Qed.
Lemma unpack_bool_no_panic d : unpack_bool d <> Panic.
Proof. unfold unpack_bool. by repeat case_decide. Qed.
#[export] Hint Resolve unpack_coption_key_no_panic unpack_coption_u64_no_panic unpack_bool_no_panic : no_panic.
(** a buffer that is long enough is read and written without a panic *)
Lemma array_ref_long {E} n (d : list byte) : (n <= length d)%nat -> array_ref (E:=E) n d = Ok (take n d).
Proof. intros Hd. unfold array_ref, slice_checked. by rewrite (proj2 (Nat.leb_le _ _)) by (cbn; lia). Qed.
Lemma account_unpack_no_panic d : (ACCOUNT_LEN <= length d)%nat -> account_unpack_from_slice d <> Panic.
Proof.
  intros Hd. unfold account_unpack_from_slice. rewrite (array_ref_long _ _ Hd).
  cbn -[unpack_coption_key unpack_coption_u64 account_state_try_from take drop]. solve_panic_free.
Qed.
Lemma mint_unpack_no_panic d : (MINT_LEN <= length d)%nat -> mint_unpack_from_slice d <> Panic.
Proof.
  intros Hd. unfold mint_unpack_from_slice. rewrite (array_ref_long _ _ Hd).
  cbn -[unpack_coption_key unpack_bool take drop]. solve_panic_free.
Qed.
#[export] Instance Mint_total : PackTotal Mint.
Proof.
  split; cbn -[mint_unpack_from_slice mint_pack_into_slice]; intros.
  - apply mint_unpack_no_panic. lia.
  - unfold mint_pack_into_slice. by rewrite array_ref_long by lia.
Qed.
#[export] Instance Account_total : PackTotal Account.
Proof.
  split; cbn -[account_unpack_from_slice account_pack_into_slice]; intros.
  - apply account_unpack_no_panic. lia.
  - unfold account_pack_into_slice. by rewrite array_ref_long by lia.
Qed.
#[export] Instance Multisig_total : PackTotal Multisig.
Proof.
  split; cbn -[multisig_unpack_from_slice multisig_pack_into_slice]; intros.
  - unfold multisig_unpack_from_slice. rewrite array_ref_long by lia. cbn -[unpack_bool take drop]. solve_panic_free.
  - unfold multisig_pack_into_slice. by rewrite array_ref_long by lia.
Qed.

(** ** The crates' functions *)
(** [Sysvar::from_account_info] reports its failures as errors *)
Class SysvarsTotal (SDK : SolanaSdk) : Prop := {
  clock_no_panic i c : clock_from_account_info i c <> Panic;
  rent_no_panic i c : rent_from_account_info i c <> Panic;
  stake_history_no_panic i c : stake_history_from_account_info i c <> Panic;
}.
(** a program that is invoked does not panic (a panic there ends the transaction) *)
Class RuntimeTotal (RT : Runtime) : Prop := {
  invoke_total ix infos : panic_free (invoke ix infos);
  invoke_signed_total ix infos seeds : panic_free (invoke_signed ix infos seeds);
}.
#[export] Hint Resolve clock_no_panic rent_no_panic stake_history_no_panic : no_panic.
#[export] Hint Resolve invoke_total invoke_signed_total : panic_free.

Section Sdk.
Context `{SDK : SolanaSdk} {LAWS : SolanaSdkLaws SDK}.
Lemma next_info_panic_free l : panic_free (next_info l).
Proof.
  apply panic_free_lift. destruct l; [rewrite next_account_info_nil|rewrite next_account_info_cons]; discriminate.
Qed.
Lemma read_clock_panic_free `{!SysvarsTotal SDK} i : panic_free (read_clock i).
Proof. unfold read_clock, cell_of. solve_panic_free. Qed.
Lemma read_rent_panic_free `{!SysvarsTotal SDK} i : panic_free (read_rent i).
Proof. unfold read_rent, cell_of. solve_panic_free. Qed.
Lemma read_stake_history_panic_free `{!SysvarsTotal SDK} i : panic_free (read_stake_history i).
Proof. unfold read_stake_history, cell_of. solve_panic_free. Qed.
Lemma borrow_data_panic_free i : panic_free (borrow_data i).
Proof. apply panic_free_gets. Qed.
Lemma data_len_panic_free i : panic_free (data_len i).
Proof. apply panic_free_gets. Qed.
Lemma lamports_panic_free i : panic_free (lamports i).
Proof. apply panic_free_gets. Qed.
Lemma owner_of_panic_free i : panic_free (owner_of i).
Proof. apply panic_free_gets. Qed.
Lemma write_data_panic_free i d : panic_free (write_data i d).
Proof. apply panic_free_modify. Qed.
Lemma set_lamports_panic_free i z : panic_free (set_lamports i z).
Proof. apply panic_free_modify. Qed.

Lemma pack_unpack_unchecked_no_panic {T} `{PackTotal T} d : pack_unpack_unchecked (T:=T) d <> Panic.
Proof. rewrite pack_unpack_unchecked_spec. case_decide; [by apply unpack_total|discriminate]. Qed.
Lemma pack_unpack_no_panic {T} `{PackTotal T} d : pack_unpack (T:=T) d <> Panic.
Proof.
  rewrite pack_unpack_spec. apply bind_no_panic; [apply pack_unpack_unchecked_no_panic|].
  intros a. by destruct (pack_is_initialized a).
Qed.
Lemma pack_pack_no_panic {T} `{PackTotal T} (v : T) d : pack_pack v d <> Panic.
Proof. rewrite pack_pack_spec. case_decide; [by apply pack_total|discriminate]. Qed.
Lemma unpack_info_panic_free T `{PackTotal T} i : panic_free (unpack_info T i).
Proof. apply panic_free_bind; [apply panic_free_gets|]. intros d. apply panic_free_lift, pack_unpack_no_panic. Qed.
Lemma unpack_unchecked_info_panic_free T `{PackTotal T} i : panic_free (unpack_unchecked_info T i).
Proof.
  apply panic_free_bind; [apply panic_free_gets|]. intros d. apply panic_free_lift, pack_unpack_unchecked_no_panic.
Qed.
Lemma pack_info_panic_free {T} `{PackTotal T} (v : T) i : panic_free (pack_info v i).
Proof.
  apply panic_free_bind; [apply panic_free_gets|]. intros d.
  apply panic_free_bind; [apply panic_free_lift, pack_pack_no_panic|]. intros d'. apply panic_free_modify.
Qed.
End Sdk.
#[export] Hint Resolve next_info_panic_free read_clock_panic_free read_rent_panic_free read_stake_history_panic_free
  borrow_data_panic_free data_len_panic_free lamports_panic_free owner_of_panic_free write_data_panic_free
  set_lamports_panic_free unpack_info_panic_free unpack_unchecked_info_panic_free pack_info_panic_free : panic_free.
#[export] Hint Resolve pack_unpack_unchecked_no_panic pack_unpack_no_panic pack_pack_no_panic : no_panic.

(** ** The token program *)
(** a stored multisig that claims more signers than it has room for *)
Definition oversized_multisig `{SDK : SolanaSdk} (s : Store) (program_id : Pubkey) (i : AccountInfo) : Prop :=
  exists ms, cell_owner (get_cell s (key i)) = program_id /\ holds Multisig s (key i) ms /\
    Z.of_nat MAX_SIGNERS < ms_n ms.

Section Token.
Context `{SDK : SolanaSdk} {LAWS : SolanaSdkLaws SDK}.
Lemma match_signer_no_panic signer st pk : match_signer signer st pk <> Panic.
Proof. destruct st, pk. cbn. destruct (_ && _); [|discriminate]. solve_panic_free. Qed.
Lemma multisig_positions_Panic ms :
  multisig_positions ms = Panic -> Multisig_wf ms -> Z.of_nat MAX_SIGNERS < ms_n ms.
Proof.
  unfold multisig_positions. case_match eqn:E; [done|]. intros _ (_ & _ & Hl). apply Nat.leb_gt in E. lia.
Qed.
Lemma validate_owner_Panic program_id expected i signers s s' :
  validate_owner program_id expected i signers s = (Panic, s') -> oversized_multisig s program_id i.
Proof.
  unfold validate_owner. intros (? & ? & ? & Hr)%panic_after; [|solve_panic_free]. inv_run.
  apply panic_after in Hr as (? & ? & ? & Hr); [|solve_panic_free]. inv_run.
  apply panic_after in Hr as (? & ? & ? & Hr); [|solve_panic_free]. inv_run.
  destruct (bool_decide _ && _) eqn:Hms; [|exfalso; revert Hr; apply panic_free_fail_if].
  bool_hyps. apply panic_after in Hr as (ms & ? & ? & Hr); [|solve_panic_free]. inv_run.
  exists ms. split; [done|]. split; [done|].
  apply stM_bind_Panic in Hr as [Hr|([? ?] & ? & ? & Hr)]; [|exfalso; revert Hr; apply panic_free_fail_if].
  destruct (multisig_positions ms) as [positions|e|] eqn:Hp.
  - exfalso. revert Hr. apply panic_free_lift, fold_outcome_no_panic. intros st signer.
    apply fold_outcome_no_panic. apply match_signer_no_panic.
  - exfalso. revert Hr. by apply panic_free_lift, fold_outcome_no_panic.
  - apply (multisig_positions_Panic ms Hp).
    match goal with H : holds Multisig _ _ ms |- _ => exact (decodes_wf _ _ _ (proj1 H)) end.
Qed.
Lemma check_expected_mint_panic_free a e : panic_free (check_expected_mint a e).
Proof. unfold check_expected_mint. solve_panic_free. Qed.
Lemma check_expected_decimals_panic_free d m : panic_free (check_expected_decimals d m).
Proof. unfold check_expected_decimals. solve_panic_free. Qed.
Lemma next_expected_mint_panic_free d it : panic_free (next_expected_mint d it).
Proof. unfold next_expected_mint. solve_panic_free. Qed.
End Token.
#[export] Hint Resolve check_expected_mint_panic_free check_expected_decimals_panic_free
  next_expected_mint_panic_free : panic_free.

(** follows a panicking run through the parts that cannot panic *)
Ltac inv_panic_step :=
  match goal with
  | H : (_ ≫= _) _ = (Panic, _) |- _ =>
      apply panic_after in H as (? & ? & ? & H); [cbv beta in H; inv_run|solve [solve_panic_free]]
  | H : (let '(_, _) := ?p in _) _ = (Panic, _) |- _ => first [is_var p; destruct p | destruct p eqn:?]
  | H : (if ?b then _ else _) _ = (Panic, _) |- _ => destruct b eqn:?
  | H : (match ?x with _ => _ end) _ = (Panic, _) |- _ => destruct x eqn:?
  | H : _ = (Panic, _) |- _ => exfalso; apply (panic_free_absurd _ _ _ H); solve [solve_panic_free]
  | H : (_ ≫= _) _ = (Panic, _) |- _ =>
      apply stM_bind_Panic in H as [H|(? & ? & ? & H)]; [|exfalso; apply (panic_free_absurd _ _ _ H); solve [solve_panic_free]]
  | H : (_ ≫= _) _ = (Panic, _) |- _ =>
      apply stM_bind_Panic in H as [H|(? & ? & ? & H)]; [|cbv beta in H; inv_run]
  end.
Ltac inv_run_ext ::= first [inv_run_owner | inv_run_pool | inv_run_token].
Ltac inv_panic := repeat (inv_panic_step; simplify_eq).

Section TokenHandlers.
Context `{SDK : SolanaSdk} {LAWS : SolanaSdkLaws SDK} {TOT : SysvarsTotal SDK} (program_id : Pubkey).
Implicit Types (accounts : list AccountInfo) (s : Store).
(** one of the accounts passed is such a multisig *)
Definition multisig_passed s accounts : Prop := exists i, i ∈ accounts /\ oversized_multisig s program_id i.

Lemma authorize_spend_Panic a i signers amount spend s s' :
  authorize_spend program_id a i signers amount spend s = (Panic, s') -> oversized_multisig s program_id i.
Proof. unfold authorize_spend. intros Hr. inv_panic; by eapply validate_owner_Panic. Qed.
Ltac multisig_found :=
  match goal with
  | H : validate_owner _ _ ?i _ _ = (Panic, _) |- _ => apply validate_owner_Panic in H; exists i
  | H : authorize_spend _ _ ?i _ _ _ _ = (Panic, _) |- _ => apply authorize_spend_Panic in H; exists i
  end; split; [set_solver|assumption].

Lemma transfer_Panic accounts amount expected_decimals s s' :
  process_transfer program_id accounts amount expected_decimals s = (Panic, s') -> multisig_passed s accounts.
Proof. unfold process_transfer. intros Hr. inv_panic; multisig_found. Qed.
Lemma approve_Panic accounts amount expected_decimals s s' :
  process_approve program_id accounts amount expected_decimals s = (Panic, s') -> multisig_passed s accounts.
Proof. unfold process_approve. intros Hr. inv_panic; multisig_found. Qed.
Lemma revoke_Panic accounts s s' : process_revoke program_id accounts s = (Panic, s') -> multisig_passed s accounts.
Proof. unfold process_revoke. intros Hr. inv_panic; multisig_found. Qed.
Lemma mint_to_Panic accounts amount expected_decimals s s' :
  process_mint_to program_id accounts amount expected_decimals s = (Panic, s') -> multisig_passed s accounts.
Proof. unfold process_mint_to. intros Hr. inv_panic; multisig_found. Qed.
Lemma burn_Panic accounts amount expected_decimals s s' :
  process_burn program_id accounts amount expected_decimals s = (Panic, s') -> multisig_passed s accounts.
Proof. unfold process_burn. intros Hr. inv_panic; multisig_found. Qed.
Lemma close_account_Panic accounts s s' :
  process_close_account program_id accounts s = (Panic, s') -> multisig_passed s accounts.
Proof. unfold process_close_account. intros Hr. inv_panic; multisig_found. Qed.
Lemma toggle_freeze_Panic accounts freeze s s' :
  process_toggle_freeze_account program_id accounts freeze s = (Panic, s') -> multisig_passed s accounts.
Proof. unfold process_toggle_freeze_account. intros Hr. inv_panic; multisig_found. Qed.
Lemma set_authority_Panic accounts authority_type new_authority s s' :
  process_set_authority program_id accounts authority_type new_authority s = (Panic, s') ->
  multisig_passed s accounts.
Proof.
  unfold process_set_authority, set_account_authority, set_mint_authorities. intros Hr. inv_panic; multisig_found.
Qed.
Lemma initialize_mint_panic_free accounts d a f : panic_free (process_initialize_mint accounts d a f).
Proof. unfold process_initialize_mint. solve_panic_free. Qed.
Lemma initialize_account_panic_free accounts owner : panic_free (_process_initialize_account accounts owner).
Proof. unfold _process_initialize_account. solve_panic_free. Qed.

Lemma set_signers_fit n0 ks l :
  (n0 + length ks <= length l)%nat -> fold_outcome set_signer l (imap (fun j k => ((n0 + j)%nat, k)) ks) <> Panic.
Proof.
  revert n0 l. induction ks as [|k ks IH]; intros n0 l Hl; cbn [imap fold_outcome length] in *; [done|].
  assert (E : set_signer l ((n0 + 0)%nat, k) = Ok (<[n0 := k]> l)).
  { unfold set_signer. cbn [fst snd]. rewrite Nat.add_0_r. by destruct (Nat.ltb_spec n0 (length l)); [|lia]. }
  rewrite E. cbn [mbind outcome_bind]. rewrite (imap_ext ((fun j k => ((n0 + j)%nat, k)) ∘ S) (fun j k => ((S n0 + j)%nat, k)) ks).
  - apply IH. rewrite length_insert. lia.
  - intros j x _. cbn. f_equal. lia.
Qed.
(** more than 256 signers wrap around in the [u8] that counts them *)
Lemma initialize_multisig_Panic accounts m s s' :
  process_initialize_multisig accounts m s = (Panic, s') -> (258 < length accounts)%nat.
Proof.
  unfold process_initialize_multisig. intros Hr. inv_panic.
  injection Hr as Hr _. bool_hyps.
  match goal with H : decodes Multisig _ _ _ |- _ => pose proof (decodes_wf _ _ _ H) as (_ & _ & Hl) end.
  match goal with H : is_valid_signer_index (as_u8 (len ?l)) = true |- _ => rename H into Hv; set (n := length l) in * end.
  assert (Hn : (MAX_SIGNERS < n)%nat).
  { destruct (Nat.lt_ge_cases MAX_SIGNERS n) as [?|Hle]; [done|exfalso]. revert Hr.
    apply (set_signers_fit 0). rewrite length_fmap, Hl. exact Hle. }
  unfold is_valid_signer_index, as_u8, wrap, len, MIN_SIGNERS, MAX_SIGNERS in *. fold n in Hv.
  cbn [length]. fold n. apply andb_true_iff in Hv as [Hv1 Hv2]. apply Z.leb_le in Hv1, Hv2.
  destruct (Z.lt_ge_cases (Z.of_nat n) (2 ^ 8)) as [Hs|?]; [rewrite Z.mod_small in Hv2 by lia; lia|].
  destruct (decide (n = 256)%nat) as [E|?]; [rewrite E in Hv1; vm_compute in Hv1; done|]. lia.
Qed.

(** what a panicking instruction points to *)
Definition token_panic_cause s accounts (instr : TokenInstruction) : Prop :=
  match instr with
  | InitializeMint _ _ _ | InitializeAccount | InitializeAccount2 _ => False
  | InitializeMultisig _ => (258 < length accounts)%nat
  | _ => multisig_passed s accounts
  end.
Lemma token_instruction_Panic accounts instr s s' :
  process_token_instruction program_id accounts instr s = (Panic, s') -> token_panic_cause s accounts instr.
Proof.
  intros Hr. destruct instr; cbn [process_token_instruction token_panic_cause] in *;
    eauto using transfer_Panic, approve_Panic, revoke_Panic, mint_to_Panic, burn_Panic, close_account_Panic,
      toggle_freeze_Panic, set_authority_Panic, initialize_multisig_Panic.
  - exact (initialize_mint_panic_free _ _ _ _ _ _ Hr).
  - exact (initialize_account_panic_free accounts None _ _ Hr).
  - match goal with |- False => exact (initialize_account_panic_free accounts (Some owner) _ _ Hr) end.
Qed.
End TokenHandlers.

(** ** The stake pool program *)
Section PoolParts.
Context `{SDK : SolanaSdk} {LAWS : SolanaSdkLaws SDK} {TOT : SysvarsTotal SDK}.
Context `{RT : Runtime} {RTT : RuntimeTotal RT} `{BC : Bincode} `{PAD : StructPadding} `{BP : BuildProfile}.
Implicit Types (accounts : list AccountInfo) (s : Store).

Lemma struct_deserialize_no_panic T `{ReprC T} d : struct_deserialize T d <> Panic.
Proof. unfold struct_deserialize. by case_match. Qed.
Lemma struct_serialize_no_panic {T} `{ReprC T} (v : T) d : struct_serialize v d <> Panic.
Proof. unfold struct_serialize. by case_match. Qed.
Lemma validator_stake_list_deserialize_no_panic d : validator_stake_list_deserialize d <> Panic.
Proof. pose proof (validator_stake_list_deserialize_total d) as H. intros E. by rewrite E in H. Qed.
Lemma serialize_validators_no_panic vs from out :
  (from + VALIDATOR_STAKE_INFO_LEN * length vs <= length out)%nat -> serialize_validators vs from out <> Panic.
Proof.
  revert from out. induction vs as [|v vs IH]; intros from out Hl; [done|]. cbn [serialize_validators length] in *.
  unfold slice_checked. rewrite (proj2 (Nat.leb_le _ _)) by lia. cbn [mbind outcome_bind].
  assert (Hc : length (slice from VALIDATOR_STAKE_INFO_LEN out) = VALIDATOR_STAKE_INFO_LEN) by (apply length_slice; lia).
  unfold validator_stake_info_serialize. destruct (struct_serialize v _) as [chunk|e|] eqn:E; [|done|].
  - apply struct_serialize_length in E. apply IH. rewrite length_write_at; lia.
  - by apply struct_serialize_no_panic in E.
Qed.
Lemma validator_stake_list_serialize_no_panic l d : validator_stake_list_serialize l d <> Panic.
Proof.
  unfold validator_stake_list_serialize. rewrite !err_if_bind.
  destruct (Nat.ltb_spec (length d) VALIDATOR_STAKE_LIST_LEN) as [|Hd]; [done|].
  destruct (Nat.ltb_spec MAX_VALIDATOR_STAKE_ACCOUNTS (length (vsl_validators l))) as [|Hn]; [done|].
  pose proof list_capacity as Hcap. assert (Hm : (length (vsl_validators l) <= 1000)%nat) by exact Hn.
  apply serialize_validators_no_panic.
  assert (Hu : length (u16_to_le_bytes (as_u16 (len (vsl_validators l)))) = 2%nat) by apply length_le_encode.
  rewrite !length_write_at; rewrite ?Hu; rewrite ?length_write_at; unfold HEADER_LEN, VALIDATOR_STAKE_INFO_LEN; cbn [length]; lia.
Qed.
Lemma read_stake_pool_panic_free i : panic_free (read_stake_pool i).
Proof. apply panic_free_bind; [apply panic_free_gets|]. intros d. apply panic_free_lift, struct_deserialize_no_panic. Qed.
Lemma save_stake_pool_panic_free p i : panic_free (save_stake_pool p i).
Proof.
  apply panic_free_bind; [apply panic_free_gets|]. intros d.
  apply panic_free_bind; [apply panic_free_lift, struct_serialize_no_panic|]. intros d'. apply panic_free_modify.
Qed.
Lemma read_validator_stake_list_panic_free i : panic_free (read_validator_stake_list i).
Proof.
  apply panic_free_bind; [apply panic_free_gets|]. intros d.
  apply panic_free_lift, validator_stake_list_deserialize_no_panic.
Qed.
Lemma save_validator_stake_list_panic_free l i : panic_free (save_validator_stake_list l i).
Proof.
  apply panic_free_bind; [apply panic_free_gets|]. intros d.
  apply panic_free_bind; [apply panic_free_lift, validator_stake_list_serialize_no_panic|]. intros d'.
  apply panic_free_modify.
Qed.
Lemma check_authority_no_panic a pid k t b : check_authority a pid k t b <> Panic.
Proof. unfold check_authority, authority_id. solve_panic_free. Qed.
Lemma check_owner_no_panic p i : check_owner p i <> Panic.
Proof. unfold check_owner. solve_panic_free. Qed.
Lemma get_validator_checked_panic_free pid p i : panic_free (get_validator_checked pid p i).
Proof. unfold get_validator_checked, get_validator. solve_panic_free. Qed.
Lemma stake_split_panic_free p a au t b x sp r pr : panic_free (stake_split p a au t b x sp r pr).
Proof. apply invoke_signed_total. Qed.
Lemma stake_merge_panic_free p a au t b w c h pr : panic_free (stake_merge p a au t b w c h pr).
Proof. apply invoke_signed_total. Qed.
Lemma stake_authorize_panic_free p a au t b n how r pr : panic_free (stake_authorize p a au t b n how r pr).
Proof. apply invoke_signed_total. Qed.
Lemma token_burn_panic_free p tp x m a t b n : panic_free (token_burn p tp x m a t b n).
Proof. unfold token_burn. solve_panic_free. Qed.
Lemma token_mint_to_panic_free p tp m d a t b n : panic_free (token_mint_to p tp m d a t b n).
Proof. unfold token_mint_to. solve_panic_free. Qed.
Lemma liq_pool_token_mint_to_panic_free pid k tp m d a n : panic_free (liq_pool_token_mint_to pid k tp m d a n).
Proof. unfold liq_pool_token_mint_to. solve_panic_free. Qed.
Lemma token_transfer_from_signer_panic_free tp a b au x : panic_free (token_transfer_from_signer tp a b au x).
Proof. unfold token_transfer_from_signer. solve_panic_free. Qed.
Lemma token_transfer_panic_free tp a b au base t n x : panic_free (token_transfer tp a b au base t n x).
Proof. unfold token_transfer. solve_panic_free. Qed.
Lemma read_token_account_panic_free i k : panic_free (read_token_account i k).
Proof.
  unfold read_token_account, unpack_token_account, cell_of. apply panic_free_bind; [apply panic_free_gets|]. intros c.
  apply panic_free_lift, map_err_no_panic. destruct (negb _); [done|]. apply map_err_no_panic, pack_unpack_no_panic.
Qed.
Lemma read_mint_panic_free i k : panic_free (read_mint i k).
Proof.
  unfold read_mint, unpack_mint, cell_of. apply panic_free_bind; [apply panic_free_gets|]. intros c.
  apply panic_free_lift, map_err_no_panic. destruct (negb _); [done|]. apply map_err_no_panic, pack_unpack_no_panic.
Qed.
Lemma update_records_panic_free c items records : panic_free (update_records c items records).
Proof.
  induction records as [|r records IH]; cbn [update_records]; [apply panic_free_ret|].
  unfold update_record, update_record_from. solve_panic_free.
Qed.
End PoolParts.
#[export] Hint Resolve read_stake_pool_panic_free save_stake_pool_panic_free read_validator_stake_list_panic_free
  save_validator_stake_list_panic_free get_validator_checked_panic_free stake_split_panic_free stake_merge_panic_free
  stake_authorize_panic_free token_burn_panic_free token_mint_to_panic_free liq_pool_token_mint_to_panic_free
  token_transfer_from_signer_panic_free token_transfer_panic_free read_token_account_panic_free
  read_mint_panic_free update_records_panic_free : panic_free.
#[export] Hint Resolve check_authority_no_panic check_owner_no_panic : no_panic.

(** a build without overflow checks, as programs are deployed *)
Class ReleaseBuild (BP : BuildProfile) : Prop := no_overflow_checks : overflow_checks = false.
Lemma u64_result_no_panic {E} `{ReleaseBuild} z : u64_result (E:=E) z <> Panic.
Proof. unfold u64_result. rewrite no_overflow_checks. by case_decide. Qed.
Lemma plain_add_no_panic {E} `{ReleaseBuild} a b : plain_add (E:=E) a b <> Panic.
Proof. apply u64_result_no_panic. Qed.
Lemma plain_sub_no_panic {E} `{ReleaseBuild} a b : plain_sub (E:=E) a b <> Panic.
Proof. apply u64_result_no_panic. Qed.
#[export] Hint Resolve plain_add_no_panic plain_sub_no_panic : no_panic.

Section PoolHandlers.
Context `{SDK : SolanaSdk} {LAWS : SolanaSdkLaws SDK} {TOT : SysvarsTotal SDK}.
Context `{RT : Runtime} {RTT : RuntimeTotal RT} `{BC : Bincode} `{PAD : StructPadding}.
Context `{BP : BuildProfile} {RELEASE : ReleaseBuild BP} (program_id : Pubkey).
Implicit Types (accounts : list AccountInfo) (s : Store).

Lemma create_stake_account_panic_free accounts : panic_free (process_create_validator_stake_account program_id accounts).
Proof. unfold process_create_validator_stake_account. solve_panic_free. Qed.
Lemma add_validator_panic_free accounts : panic_free (process_add_validator_stake_account program_id accounts).
Proof. unfold process_add_validator_stake_account, check_authority_withdraw, check_authority_deposit, check_stake_activation.
  solve_panic_free. Qed.
Lemma remove_validator_panic_free accounts : panic_free (process_remove_validator_stake_account program_id accounts).
Proof. unfold process_remove_validator_stake_account, check_authority_withdraw. solve_panic_free. Qed.
Lemma update_list_panic_free accounts : panic_free (process_update_list_balance program_id accounts).
Proof. unfold process_update_list_balance. solve_panic_free. Qed.
Lemma update_pool_panic_free accounts : panic_free (process_update_pool_balance program_id accounts).
Proof. unfold process_update_pool_balance, add_balance. solve_panic_free. Qed.
Lemma deposit_panic_free accounts : panic_free (process_deposit program_id accounts).
Proof. unfold process_deposit, check_authority_withdraw, check_authority_deposit, check_stake_activation. solve_panic_free. Qed.
Lemma withdraw_panic_free amount accounts : panic_free (process_withdraw program_id amount accounts).
Proof. unfold process_withdraw, check_authority_withdraw. solve_panic_free. Qed.
Lemma set_staking_auth_panic_free accounts : panic_free (process_set_staking_auth program_id accounts).
Proof. unfold process_set_staking_auth, check_authority_withdraw. solve_panic_free. Qed.
End PoolHandlers.
