(* ===== verification/PoolSpec.v ===== *)
(** * The stake pool as a state machine

    The abstract specification of the pool: its state is the [StakePool]
    record with its validator list, its steps are what deposits, withdrawals,
    validator changes and balance updates do to that state, and each handler
    refines a step, as long as the account it is passed as the pool is no
    impostor of this one.  Invariants of the machine are proved by rule induction
    and carry over to the program through the refinement. *)
From S2P Require Import Prelude Machine Sdk TokenInstruction TokenState TokenCodec TokenProcessor TokenFacts.
From S2P Require Import PoolInstruction PoolState StakeProgram PoolProcessor PoolCodec PoolMath PoolFacts.

(** ** The machine *)
Record PState := mk_pstate { st_pool : StakePool; st_list : ValidatorStakeList }.

Inductive pool_event :=
| EvDeposit (v : Pubkey) (lamports tokens : Z)
| EvWithdraw (v : Pubkey) (lamports tokens : Z)
| EvAdd (v : Pubkey) (lamports tokens : Z)
| EvRemove (v : Pubkey) (lamports tokens : Z)
| EvUpdateList
| EvUpdatePool
| EvSetOwner (owner fee_account : Pubkey)
| EvIdle.

(** a record after a balance update at epoch [now]: kept, or refreshed when
    it was out of date *)
Definition record_updated (now : Z) (r r' : ValidatorStakeInfo) : Prop :=
  r' = r \/ (vsi_last_update_epoch r < now /\ vsi_validator_account r' = vsi_validator_account r /\
             vsi_last_update_epoch r' = now /\ ValidatorStakeInfo_wf r').
Definition set_totals (P S : Z) (p : StakePool) : StakePool := set_sp_stake_total S (set_sp_pool_total P p).
Definition set_balance_at (i : nat) (b : Z) (l : ValidatorStakeList) : ValidatorStakeList :=
  set_vsl_validators (alter (set_vsi_balance b) i (vsl_validators l)) l.

Inductive pool_step `{BuildProfile} (now : Z) : PState -> pool_event -> PState -> Prop :=
| StepDeposit p l v i x t b P S :
    u64_range x -> u64_range b ->
    now <= sp_last_update_epoch p -> vsl_find_mut l v = Some i ->
    calc_pool_deposit_amount p x = Some t ->
    plain_add (E:=ProgramError) (sp_pool_total p) t = Ok P ->
    plain_add (E:=ProgramError) (sp_stake_total p) x = Ok S ->
    pool_step now (mk_pstate p l) (EvDeposit v x t) (mk_pstate (set_totals P S p) (set_balance_at i b l))
| StepWithdraw p l v i x t b P S :
    u64_range t -> u64_range b ->
    now <= sp_last_update_epoch p -> vsl_find_mut l v = Some i ->
    calc_lamports_amount p t = Some x ->
    plain_sub (E:=ProgramError) (sp_pool_total p) t = Ok P ->
    plain_sub (E:=ProgramError) (sp_stake_total p) x = Ok S ->
    pool_step now (mk_pstate p l) (EvWithdraw v x t) (mk_pstate (set_totals P S p) (set_balance_at i b l))
| StepAdd p l v x t P S :
    u64_range x -> u64_range now ->
    now <= sp_last_update_epoch p -> vsl_contains l v = false ->
    calc_pool_deposit_amount p x = Some t ->
    (length (vsl_validators l) < MAX_VALIDATOR_STAKE_ACCOUNTS)%nat ->
    plain_add (E:=ProgramError) (sp_pool_total p) t = Ok P ->
    plain_add (E:=ProgramError) (sp_stake_total p) x = Ok S ->
    pool_step now (mk_pstate p l) (EvAdd v x t)
      (mk_pstate (set_totals P S p)
         (set_vsl_validators (vsl_validators l ++ [mk_validator_stake_info v x now]) l))
| StepRemove p l v x t P S :
    u64_range x ->
    now <= sp_last_update_epoch p -> vsl_contains l v = true ->
    calc_pool_withdraw_amount p x = Some t ->
    plain_sub (E:=ProgramError) (sp_pool_total p) t = Ok P ->
    plain_sub (E:=ProgramError) (sp_stake_total p) x = Ok S ->
    pool_step now (mk_pstate p l) (EvRemove v x t)
      (mk_pstate (set_totals P S p)
         (set_vsl_validators (filter (fun r => vsi_validator_account r <> v) (vsl_validators l)) l))
| StepUpdateList p l rs :
    Forall2 (record_updated now) (vsl_validators l) rs ->
    pool_step now (mk_pstate p l) EvUpdateList (mk_pstate p (set_vsl_validators rs l))
| StepUpdatePool p l total :
    u64_range now ->
    fold_outcome (add_balance (mk_clock now)) 0 (vsl_validators l) = Ok total ->
    pool_step now (mk_pstate p l) EvUpdatePool
      (mk_pstate (set_sp_last_update_epoch now (set_sp_stake_total total p)) l)
| StepSetOwner p l o f :
    pool_step now (mk_pstate p l) (EvSetOwner o f)
      (mk_pstate (set_sp_owner_fee_account f (set_sp_owner o p)) l)
| StepIdle st : pool_step now st EvIdle st.

(** some step at some epoch *)
Definition pool_moves `{BuildProfile} (a b : PState) : Prop := exists now ev, pool_step now a ev b.

(** the state accounts an instruction may write: the pool's and the list's *)
Definition state_slots (i : StakePoolInstruction) : option nat * option nat :=
  match i with
  | Initialize _ => (Some 0, Some 2)%nat
  | AddValidatorStakeAccount | RemoveValidatorStakeAccount => (Some 0, Some 4)%nat
  | UpdateListBalance => (None, Some 0)%nat
  | UpdatePoolBalance | Deposit | Withdraw _ => (Some 0, Some 1)%nat
  | SetOwner => (Some 0, None)%nat
  | CreateValidatorStakeAccount | SetStakingAuthority | AddLiquidity _ | SellstSOL _ => (None, None)
  end.
Definition slot_key (slot : option nat) (accounts : list AccountInfo) : option Pubkey :=
  n ← slot; key <$> accounts !! n.
(** An impostor of the pool at [kp] with its list at [kl]: another account
    that reads as an initialised pool and names that list, or is it.  No
    handler checks who owns the account it is passed as the pool, so only the
    state of the chain can rule impostors out. *)
Definition impostor `{StructPadding} (s : Store) (kp kl k : Pubkey) : Prop :=
  k <> kp /\ exists p, pool_at s k p /\ sp_is_initialized p = true /\ (k = kl \/ sp_validator_stake_list p = kl).
(** the account an instruction is passed as the pool is no impostor *)
Definition genuine `{StructPadding} (s : Store) (i : StakePoolInstruction) (accounts : list AccountInfo)
    (kp kl : Pubkey) : Prop :=
  forall k, slot_key (state_slots i).1 accounts = Some k -> ~ impostor s kp kl k.

(** ** The invariant *)
(** the total of the recorded balances *)
Definition total_balance (rs : list ValidatorStakeInfo) : Z := foldr (fun r acc => vsi_balance r + acc) 0 rs.
Definition validator_keys (l : ValidatorStakeList) : list Pubkey := vsi_validator_account <$> vsl_validators l.
Definition PoolInv (st : PState) : Prop :=
  StakePool_wf (st_pool st) /\ ValidatorStakeList_wf (st_list st) /\
  sp_version (st_pool st) <> 0 /\ vsl_version (st_list st) <> 0 /\
  NoDup (validator_keys (st_list st)).
(** the fields no instruction changes once the pool is initialised *)
Definition pool_constants (p : StakePool) : Z * Z * Z * Pubkey * Pubkey * Pubkey * Fee :=
  (sp_version p, sp_deposit_bump_seed p, sp_withdraw_bump_seed p, sp_validator_stake_list p,
   sp_pool_mint p, sp_token_program_id p, sp_fee p).

Lemma contains_spec l v : vsl_contains l v = true <-> v ∈ validator_keys l.
Proof.
  unfold vsl_contains, validator_keys. rewrite existsb_exists, list_elem_of_fmap.
  setoid_rewrite bool_decide_eq_true. setoid_rewrite <- list_elem_of_In. naive_solver.
Qed.
Lemma not_contains_spec l v : vsl_contains l v = false <-> v ∉ validator_keys l.
Proof. rewrite <- contains_spec. by rewrite not_true_iff_false. Qed.
Lemma validator_keys_alter l i b : validator_keys (set_balance_at i b l) = validator_keys l.
Proof.
  unfold validator_keys, set_balance_at. cbn. apply list_eq. intros j.
  rewrite !list_lookup_fmap. destruct (decide (i = j)) as [<-|].
  - rewrite list_lookup_alter_eq. by destruct (vsl_validators l !! i).
  - by rewrite list_lookup_alter_ne.
Qed.
Lemma set_balance_wf l i b : ValidatorStakeList_wf l -> u64_range b -> ValidatorStakeList_wf (set_balance_at i b l).
Proof.
  intros (Hv & Hz & Hn & Hf) Hb. unfold set_balance_at. split_and!; cbn; [done| | |].
  - intros E. by rewrite (Hz E).
  - by rewrite length_alter.
  - apply Forall_alter; [done|]. intros r _ [_ ?]. by split.
Qed.
Lemma add_record_wf l r :
  ValidatorStakeList_wf l -> vsl_is_initialized l = true -> ValidatorStakeInfo_wf r ->
  (length (vsl_validators l ++ [r]) <= MAX_VALIDATOR_STAKE_ACCOUNTS)%nat ->
  ValidatorStakeList_wf (set_vsl_validators (vsl_validators l ++ [r]) l).
Proof.
  intros (Hv & _ & _ & Hf) Hi Hr Hn. split_and!; cbn; [done| |done|].
  - intros E. unfold vsl_is_initialized in Hi. by rewrite E in Hi.
  - apply Forall_app. split; [done|]. by apply Forall_singleton.
Qed.
Definition drop_validator (v : Pubkey) (l : ValidatorStakeList) : ValidatorStakeList :=
  set_vsl_validators (filter (fun r => vsi_validator_account r <> v) (vsl_validators l)) l.
Lemma drop_validator_wf l v : ValidatorStakeList_wf l -> ValidatorStakeList_wf (drop_validator v l).
Proof.
  intros (Hv & Hz & Hn & Hf). split_and!; cbn; [done| | |].
  - intros E. by rewrite (Hz E).
  - etrans; [apply length_filter|done].
  - rewrite Forall_forall in *. intros r [_ ?]%list_elem_of_filter. auto.
Qed.
Lemma set_totals_wf p P S :
  StakePool_wf p -> u64_range P -> u64_range S -> StakePool_wf (set_totals P S p).
Proof. unfold StakePool_wf. naive_solver. Qed.
Lemma filter_validators_keys l v :
  validator_keys (set_vsl_validators (filter (fun r => vsi_validator_account r <> v) (vsl_validators l)) l) =
  filter (fun k => k <> v) (validator_keys l).
Proof.
  unfold validator_keys. cbn. induction (vsl_validators l) as [|r rs IH]; [done|].
  rewrite filter_cons, fmap_cons, filter_cons. repeat case_decide; cbn; by rewrite ?IH.
Qed.
Lemma records_updated_keys now rs rs' :
  Forall2 (record_updated now) rs rs' -> vsi_validator_account <$> rs' = vsi_validator_account <$> rs.
Proof.
  induction 1 as [|r r' rs rs' Hr _ IH]; [done|]. cbn. rewrite IH. f_equal.
  destruct Hr as [->|(_ & ? & _)]; done.
Qed.
Lemma records_updated_wf now rs rs' :
  Forall2 (record_updated now) rs rs' -> Forall ValidatorStakeInfo_wf rs -> Forall ValidatorStakeInfo_wf rs'.
Proof. induction 1 as [|r r' rs rs' Hr _ IH]; [done|]. intros [? ?]%Forall_cons. constructor; [|auto]. destruct Hr; naive_solver. Qed.

Section Invariant.
Context `{BP : BuildProfile}.
Lemma plain_add_range {E} a b c : plain_add (E:=E) a b = Ok c -> u64_range c.
Proof. apply u64_result_range. Qed.
Lemma plain_sub_range {E} a b c : plain_sub (E:=E) a b = Ok c -> u64_range c.
Proof. apply u64_result_range. Qed.
Lemma add_balances_range clock acc rs total :
  u64_range acc -> fold_outcome (add_balance clock) acc rs = Ok total -> u64_range total.
Proof.
  revert acc. induction rs as [|r rs IH]; intros acc Ha; cbn [fold_outcome]; [by intros [= <-]|].
  rewrite outcome_bind_Ok. intros (acc' & Hadd & Hr). apply (IH acc'); [|done].
  unfold add_balance in Hadd. rewrite err_if_bind in Hadd. case_match; [done|]. by eapply plain_add_range.
Qed.

Lemma pool_step_preserves now ev a b : PoolInv a -> pool_step now a ev b -> PoolInv b.
Proof.
  intros (Hp & Hl & Hv & Hv' & Hnd) Hs. unfold PoolInv.
  destruct Hs as [p l v i x t b P S|p l v i x t b P S|p l v x t P S|p l v x t P S|p l rs|p l total|p l o f|st];
    cbn [st_pool st_list] in *.
  - split_and!; try done; [apply set_totals_wf; eauto using plain_add_range|by apply set_balance_wf|].
    by rewrite validator_keys_alter.
  - split_and!; try done; [apply set_totals_wf; eauto using plain_sub_range|by apply set_balance_wf|].
    by rewrite validator_keys_alter.
  - split_and!; try done; [apply set_totals_wf; eauto using plain_add_range| |].
    + destruct Hl as (? & ? & ? & Hf). split_and!; cbn; [done|naive_solver|rewrite length_app; cbn; lia|].
      apply Forall_app. split; [done|]. apply Forall_singleton. by split.
    + unfold validator_keys. cbn. rewrite fmap_app. apply NoDup_app. split_and!; [done| |apply NoDup_singleton].
      intros k Hk. cbn. rewrite list_elem_of_singleton. intros ->. by apply not_contains_spec in H2.
  - split_and!; try done; [apply set_totals_wf; eauto using plain_sub_range| |].
    + by apply (drop_validator_wf l v).
    + rewrite filter_validators_keys. by apply NoDup_filter.
  - split_and!; try done.
    + destruct Hl as (? & Hz & Hn & Hf). split_and!; cbn; [done|naive_solver| |by eapply records_updated_wf].
      by rewrite <- (Forall2_length _ _ _ H).
    + unfold validator_keys in *. cbn. by rewrite (records_updated_keys _ _ _ H).
  - split_and!; try done. destruct Hp as (? & ? & ? & ? & ? & ? & ?). split_and!; cbn; try done.
    eapply add_balances_range; [|done]. by split.
  - by split_and!.
  - by split_and!.
Qed.
Lemma pool_step_constants now ev a b :
  pool_step now a ev b -> pool_constants (st_pool b) = pool_constants (st_pool a).
Proof. by destruct 1. Qed.
End Invariant.
