(* ===== verification/PoolFrame.v ===== *)
(** * What a pool instruction cannot touch

    Whatever its outcome, an instruction of the stake pool changes the data of
    no account the program owns except the pool and the list it was passed:
    proved for each handler by going through its steps, the invocations being
    bounded by the runtime's laws. *)
From S2P Require Import Prelude Machine Sdk TokenInstruction TokenState TokenCodec TokenProcessor TokenFacts.
From S2P Require Import PoolInstruction PoolState StakeProgram PoolProcessor PoolCodec PoolMath PoolFacts PoolSpec.

Section Frame.
Context `{SDK : SolanaSdk} {LAWS : SolanaSdkLaws SDK}.
Context `{RT : Runtime} `{BC : Bincode} `{PAD : StructPadding} `{BP : BuildProfile}.
Context {program_id : Pubkey} {RTL : RuntimeLaws RT program_id}.
Implicit Types (K : list Pubkey) (accounts : list AccountInfo).

Lemma respects_next R `{!PreOrder R} {B} l (f : AccountInfo * list AccountInfo -> M B) :
  (forall i l', l = i :: l' -> respects R (f (i, l'))) -> respects R (next_info l ≫= f).
Proof.
  intros Hf s r s'. unfold mbind, stM_bind, next_info, lift.
  destruct (next_account_info l) as [[i l']|e|] eqn:E; [|by intros [= <- <-]..].
  apply next_account_info_Ok in E. by apply (Hf i l').
Qed.
Lemma respects_guard R `{!PreOrder R} {B} b e (f : unit -> M B) :
  (b = false -> respects R (f tt)) -> respects R (fail_if b e ≫= f).
Proof.
  intros Hf s r s'. unfold mbind, stM_bind, fail_if, lift.
  destruct b; [by intros [= <- <-]|by apply Hf].
Qed.
Lemma write_owned K s k0 d :
  k0 ∈ K -> length d = length (cell_data (get_cell s k0)) -> owned_kept K program_id s (set_data s k0 d).
Proof.
  intros Hi Hd k Ho. rewrite data_set_data, owner_set_data. split; [done|]. case_decide; [|done]. by subst.
Qed.
Lemma respects_borrow R `{!PreOrder R} i : respects R (borrow_data i).
Proof. by apply respects_pure. Qed.
Lemma save_stake_pool_owned K p i :
  key i ∈ K -> respects (owned_kept K program_id) (save_stake_pool p i).
Proof.
  intros Hi s r s'. unfold save_stake_pool, borrow_data, gets, write_data, modify, lift, mbind, stM_bind.
  destruct (stake_pool_serialize p (cell_data (get_cell s (key i)))) as [d| |] eqn:E; [|by intros [= <- <-]..].
  intros [= <- <-]. apply write_owned; [done|]. by apply (struct_serialize_length (T:=StakePool)) in E.
Qed.
Lemma save_validator_stake_list_owned K l i :
  key i ∈ K -> respects (owned_kept K program_id) (save_validator_stake_list l i).
Proof.
  intros Hi s r s'. unfold save_validator_stake_list, borrow_data, gets, write_data, modify, lift, mbind, stM_bind.
  destruct (validator_stake_list_serialize l (cell_data (get_cell s (key i)))) as [d| |] eqn:E; [|by intros [= <- <-]..].
  intros [= <- <-]. apply write_owned; [done|]. by apply list_serialize_length in E.
Qed.
(** the reading steps *)
Lemma read_clock_respects R `{!PreOrder R} i : respects R (read_clock i).
Proof. by apply respects_pure. Qed.
Lemma read_rent_respects R `{!PreOrder R} i : respects R (read_rent i).
Proof. by apply respects_pure. Qed.
Lemma read_stake_history_respects R `{!PreOrder R} i : respects R (read_stake_history i).
Proof. by apply respects_pure. Qed.
Lemma read_stake_pool_respects R `{!PreOrder R} i : respects R (read_stake_pool i).
Proof. by apply respects_pure. Qed.
Lemma read_list_respects R `{!PreOrder R} i : respects R (read_validator_stake_list i).
Proof. by apply respects_pure. Qed.
Lemma read_token_account_respects R `{!PreOrder R} i k : respects R (read_token_account i k).
Proof. by apply respects_pure. Qed.
Lemma read_mint_respects R `{!PreOrder R} i k : respects R (read_mint i k).
Proof. by apply respects_pure. Qed.
Lemma lamports_respects R `{!PreOrder R} i : respects R (lamports i).
Proof. by apply respects_pure. Qed.
Lemma data_len_respects R `{!PreOrder R} i : respects R (data_len i).
Proof. by apply respects_pure. Qed.
Lemma owner_of_respects R `{!PreOrder R} i : respects R (owner_of i).
Proof. by apply respects_pure. Qed.
Lemma get_validator_respects R `{!PreOrder R} pid i j : respects R (get_validator_checked pid i j).
Proof.
  unfold get_validator_checked, get_validator. solve_respects. all: by apply respects_borrow, _ || auto with respects.
Qed.
Lemma update_record_respects R `{!PreOrder R} c items r : respects R (update_record c items r).
Proof.
  unfold update_record. destruct (epoch c <=? vsi_last_update_epoch r); [by apply respects_pure|].
  generalize (r, false). induction items as [|i items IH]; intros st; [by apply respects_pure|].
  cbn [foldM]. apply respects_bind; [done| |exact IH]. unfold update_record_from. destruct st.
  case_match; [|by apply respects_pure]. apply respects_bind; [done|by apply lamports_respects|].
  intros. by apply respects_pure.
Qed.
Lemma update_records_respects R `{!PreOrder R} c items rs : respects R (update_records c items rs).
Proof.
  induction rs as [|r rs IH]; [by apply respects_pure|]. cbn [update_records].
  apply respects_bind; [done|by apply update_record_respects|]. intros [? ?].
  apply respects_bind; [done|exact IH|]. intros [? ?]. by apply respects_pure.
Qed.
End Frame.

#[export] Hint Resolve respects_borrow read_clock_respects read_rent_respects read_stake_history_respects
  read_stake_pool_respects read_list_respects read_token_account_respects read_mint_respects
  lamports_respects data_len_respects owner_of_respects get_validator_respects
  update_records_respects save_stake_pool_owned save_validator_stake_list_owned : respects.

Lemma not_elem_keys_cons k i (l : list AccountInfo) :
  k ∉ key <$> i :: l -> key i <> k /\ k ∉ key <$> l.
Proof. rewrite fmap_cons, not_elem_of_cons. intros [? ?]. by split; [apply not_eq_sym|]. Qed.
Lemma bool_decide_negb_false P `{Decision P} : negb (bool_decide P) = false -> P.
Proof. by intros ?%negb_false_iff%bool_decide_eq_true. Qed.

(** Goes through a handler: the accounts it takes, the guards it passes, its
    reads, its invocations and its writes. *)
Ltac frame_leaf :=
  match goal with
  | |- key _ ∈ _ => match goal with HK : forall n k, _ -> slot_key _ _ = _ -> k ∈ _ |- _ =>
      first [by eapply (HK 0%nat) | by eapply (HK 1%nat) | by eapply (HK 2%nat) | by eapply (HK 4%nat)] end
  | |- _ <> _ => first [assumption | congruence]
  end.
Ltac frame_step :=
  lazymatch goal with
  | |- respects _ (next_info _ ≫= _) =>
      apply respects_next; [apply _|]; intros ? ? ->; cbv beta iota;
      match goal with H : _ ∉ key <$> _ :: _ |- _ => apply not_elem_keys_cons in H as [? H] end
  | |- respects _ (fail_if _ _ ≫= _) =>
      apply respects_guard; [apply _|]; let Hg := fresh "G" in intros Hg; try apply bool_decide_negb_false in Hg
  | |- respects _ (_ ≫= _) => apply respects_bind; [apply _| |]
  | |- forall _ : _ * _, respects _ _ => intros []
  | |- forall _, respects _ _ => intros ?
  | |- respects _ (let '(_, _) := ?p in _) => destruct p
  | |- respects _ (if ?x then _ else _) => destruct x
  | |- respects _ (match ?x with _ => _ end) => destruct x
  | |- respects _ (invoke _ _) => apply invoke_respects_owned
  | |- respects _ (invoke_signed _ _ _) => apply invoke_signed_respects_owned
  | |- respects _ (foldM _ _ _) => cbn [foldM]
  | |- ix_program_id (system_create_account _ _ _ _ _) <> _ => rewrite system_create_account_program; frame_leaf
  | |- ix_program_id _ <> _ => cbn; frame_leaf
  | |- respects _ _ => solve [eauto with respects typeclass_instances]
  end.
#[export] Hint Extern 1 (_ ∈ _) => frame_leaf : respects.
#[export] Hint Extern 1 (_ <> _) => frame_leaf : respects.
Ltac frame_handler := repeat frame_step.

Section Handlers.
Context `{SDK : SolanaSdk} {LAWS : SolanaSdkLaws SDK}.
Context `{RT : Runtime} `{BC : Bincode} `{PAD : StructPadding} `{BP : BuildProfile}.
Context {program_id : Pubkey} {RTL : RuntimeLaws RT program_id}.
Context (accounts : list AccountInfo) (K : list Pubkey) (NS : program_id ∉ key <$> accounts).

Lemma deposit_frame :
  (forall n k, (n = 0 \/ n = 1)%nat -> slot_key (Some n) accounts = Some k -> k ∈ K) ->
  respects (owned_kept K program_id) (process_deposit program_id accounts).
Proof. intros HK. unfold process_deposit. frame_handler. Qed.
Lemma withdraw_frame amount :
  (forall n k, (n = 0 \/ n = 1)%nat -> slot_key (Some n) accounts = Some k -> k ∈ K) ->
  respects (owned_kept K program_id) (process_withdraw program_id amount accounts).
Proof. intros HK. unfold process_withdraw. frame_handler. Qed.
Lemma add_frame :
  (forall n k, (n = 0 \/ n = 4)%nat -> slot_key (Some n) accounts = Some k -> k ∈ K) ->
  respects (owned_kept K program_id) (process_add_validator_stake_account program_id accounts).
Proof. intros HK. unfold process_add_validator_stake_account. frame_handler. Qed.
Lemma remove_frame :
  (forall n k, (n = 0 \/ n = 4)%nat -> slot_key (Some n) accounts = Some k -> k ∈ K) ->
  respects (owned_kept K program_id) (process_remove_validator_stake_account program_id accounts).
Proof. intros HK. unfold process_remove_validator_stake_account. frame_handler. Qed.
Lemma initialize_frame init :
  (forall n k, (n = 0 \/ n = 2)%nat -> slot_key (Some n) accounts = Some k -> k ∈ K) ->
  respects (owned_kept K program_id) (process_initialize program_id init accounts).
Proof. intros HK. unfold process_initialize. frame_handler. Qed.
Lemma create_frame :
  respects (owned_kept K program_id) (process_create_validator_stake_account program_id accounts).
Proof. unfold process_create_validator_stake_account. frame_handler. Qed.
Lemma update_list_frame :
  (forall n k, (n = 0)%nat -> slot_key (Some n) accounts = Some k -> k ∈ K) ->
  respects (owned_kept K program_id) (process_update_list_balance program_id accounts).
Proof. intros HK. unfold process_update_list_balance. frame_handler. Qed.
Lemma update_pool_frame :
  (forall n k, (n = 0)%nat -> slot_key (Some n) accounts = Some k -> k ∈ K) ->
  respects (owned_kept K program_id) (process_update_pool_balance program_id accounts).
Proof. intros HK. unfold process_update_pool_balance. frame_handler. Qed.
Lemma set_staking_frame : respects (owned_kept K program_id) (process_set_staking_auth program_id accounts).
Proof. unfold process_set_staking_auth. frame_handler. Qed.
Lemma set_owner_frame :
  (forall n k, (n = 0)%nat -> slot_key (Some n) accounts = Some k -> k ∈ K) ->
  respects (owned_kept K program_id) (process_set_owner program_id accounts).
Proof. intros HK. unfold process_set_owner. frame_handler. Qed.
Lemma add_liquidity_frame amount :
  respects (owned_kept K program_id) (process_add_liquidity program_id amount accounts).
Proof. unfold process_add_liquidity. frame_handler. Qed.
Lemma sell_frame amount :
  respects (owned_kept K program_id) (process_sell_stsol program_id amount accounts).
Proof. unfold process_sell_stsol. frame_handler. Qed.
End Handlers.
