(* ===== verification/PoolRefine.v ===== *)
(** * The stake pool's handlers refine the pool machine

    For each handler, what a successful run has checked, which invocations it
    issued and what it left in the pool's state accounts.  [PoolSim] makes
    steps of [PoolSpec.pool_step] of these runs. *)
From S2P Require Import Prelude Machine Sdk TokenInstruction TokenState TokenCodec TokenProcessor TokenFacts.
From S2P Require Import PoolInstruction PoolState StakeProgram PoolProcessor PoolCodec PoolMath PoolFacts PoolSpec.

(** identifies the pools and the lists read twice at the same key *)
Ltac same_views :=
  repeat match goal with
  | H : pool_at ?s ?k ?p, H' : pool_at ?s ?k ?q |- _ =>
      first [constr_eq p q; clear H' | pose proof (pool_at_inj _ _ _ _ H H'); clear H'; subst q]
  | H : list_at ?s ?k ?p, H' : list_at ?s ?k ?q |- _ =>
      first [constr_eq p q; clear H' | pose proof (list_at_inj _ _ _ _ H H'); clear H'; subst q]
  end.

(** names the save of the pool: [Hpool], [Hwp : data_written s1 _ s2] *)
Ltac name_pool_save :=
  match goal with Hp' : StakePool_wf _ -> pool_at ?sb _ _, Hd : data_written ?sa _ ?sb |- _ =>
    rename Hp' into Hpool; rename Hd into Hwp; rename sa into s1; rename sb into s2 end.
(** names the save of a list that comes before the pool's *)
Ltac name_list_save :=
  match goal with Hp' : ValidatorStakeList_wf _ -> list_at ?sb _ _, Hd : data_written ?sa _ ?sb |- _ =>
    rename Hp' into Hlist; rename Hd into Hwl; rename sa into s1; rename sb into s2 end.
(** the state of a successful run of a handler whose list is saved last *)
Ltac start_run :=
  inv_run; cbn [slot_key mbind option_bind lookup list_lookup fmap option_fmap option_map] in *;
  simplify_eq; bool_hyps; same_views.
(** ... with the list at the key the pool names *)
Ltac start_run_list :=
  start_run;
  let Hkl := fresh "Hkl" in intros Hkl;
  match goal with Hk : key _ = sp_validator_stake_list _ |- _ =>
    rewrite Hkl in Hk; revert Hkl; match type of Hk with _ = ?k => subst k end end;
  intros Hkl; same_views.
Ltac replay_invocations := repeat (erewrite stM_bind_run; [|eassumption]); eassumption.

Section Runs.
Context `{SDK : SolanaSdk} {LAWS : SolanaSdkLaws SDK}.
Context `{RT : Runtime} `{BC : Bincode} `{PAD : StructPadding} `{BP : BuildProfile}.
Context {program_id : Pubkey} {RTL : RuntimeLaws RT program_id}.
Implicit Types (s : Store) (p : StakePool) (l : ValidatorStakeList) (accounts : list AccountInfo).

(** [s'] keeps every cell of [s] but those at the pool's and the list's keys *)
Definition others_kept (kp kl : Pubkey) s s' : Prop :=
  forall k, k <> kp -> k <> kl -> get_cell s' k = get_cell s k.
Lemma written_others_kept s1 s2 s3 kp kl :
  data_written s1 kp s2 -> data_written s2 kl s3 -> others_kept kp kl s1 s3.
Proof.
  intros H12 H23 k Hp Hl. transitivity (get_cell s2 k); [|by eapply data_written_ne, H12; apply not_eq_sym].
  by eapply data_written_ne, H23; apply not_eq_sym.
Qed.
Lemma save_both s1 s2 s3 kp kl p l :
  kp <> kl -> data_written s1 kp s2 -> pool_at s2 kp p -> data_written s2 kl s3 -> list_at s3 kl l ->
  pool_at s3 kp p /\ list_at s3 kl l /\ others_kept kp kl s1 s3.
Proof.
  intros Hne H12 Hp H23 Hl. split_and!; [|done|by eapply written_others_kept].
  eapply pool_at_ext; [|done]. by eapply data_written_ne.
Qed.

(** the totals are exact when they have not wrapped around *)
Lemma totals_exact_add p x t P S :
  StakePool_wf p -> u64_range x -> u64_range t ->
  plain_add (E:=ProgramError) (sp_pool_total p) t = Ok P -> plain_add (E:=ProgramError) (sp_stake_total p) x = Ok S ->
  overflow_checks = true \/ totals_rose p (set_totals P S p) -> set_totals P S p = pool_credit p x t.
Proof.
  intros (_ & _ & _ & HSr & HPr & _) Hx Ht HP HS Hov.
  apply plain_add_exact in HP as [-> _], HS as [-> _]; try done; destruct Hov as [|[? ?]]; auto.
Qed.
Lemma totals_exact_sub p x t P S :
  StakePool_wf p -> u64_range x -> u64_range t ->
  plain_sub (E:=ProgramError) (sp_pool_total p) t = Ok P -> plain_sub (E:=ProgramError) (sp_stake_total p) x = Ok S ->
  overflow_checks = true \/ totals_fell p (set_totals P S p) -> set_totals P S p = pool_debit p x t.
Proof.
  intros (_ & _ & _ & HSr & HPr & _) Hx Ht HP HS Hov.
  apply plain_sub_exact in HP as [-> _], HS as [-> _]; try done; destruct Hov as [|[? ?]]; auto.
Qed.

(** *** Deposit *)
(** the invocations of a deposit: the stake account's two authorities move
    to the pool, it is merged into the validator's, the tokens are minted *)
Definition deposit_invocations p (pool_i deposit_i withdraw_i stake_i vstake_i dest_i mint_i clock_i
    history_i token_i stake_prog_i : AccountInfo) (user_amount : Z) : M unit :=
  stake_authorize (key pool_i) stake_i deposit_i AUTHORITY_DEPOSIT (sp_deposit_bump_seed p)
    (key withdraw_i) Withdrawer clock_i stake_prog_i;;
  stake_authorize (key pool_i) stake_i deposit_i AUTHORITY_DEPOSIT (sp_deposit_bump_seed p)
    (key withdraw_i) Staker clock_i stake_prog_i;;
  stake_merge (key pool_i) stake_i withdraw_i AUTHORITY_WITHDRAW (sp_withdraw_bump_seed p) vstake_i clock_i
    history_i stake_prog_i;;
  token_mint_to (key pool_i) token_i mint_i dest_i withdraw_i AUTHORITY_WITHDRAW (sp_withdraw_bump_seed p)
    user_amount.

Lemma deposit_run accounts s s' p l kp kl :
  process_deposit program_id accounts s = (Ok tt, s') -> store_wf s ->
  slot_key (Some 0%nat) accounts = Some kp -> kp <> kl ->
  pool_at s kp p -> list_at s kl l -> sp_validator_stake_list p = kl ->
  exists pool_i list_i deposit_i withdraw_i stake_i vstake_i dest_i fee_i mint_i clock_i history_i token_i
         stake_prog_i rest c v i t P S s1,
    let x := cell_lamports (get_cell s (key stake_i)) in
    let b := cell_lamports (get_cell s1 (key vstake_i)) in
    accounts = pool_i :: list_i :: deposit_i :: withdraw_i :: stake_i :: vstake_i :: dest_i :: fee_i ::
               mint_i :: clock_i :: history_i :: token_i :: stake_prog_i :: rest /\
    key pool_i = kp /\ key list_i = kl /\
    clock_from_account_info clock_i (get_cell s (key clock_i)) = Ok c /\
    key stake_prog_i = stake_program_id /\ key token_i = sp_token_program_id p /\
    kl = sp_validator_stake_list p /\
    sp_is_initialized p = true /\ vsl_is_initialized l = true /\
    check_authority_withdraw p (key withdraw_i) program_id kp = Ok tt /\
    check_authority_deposit p (key deposit_i) program_id kp = Ok tt /\
    epoch c <= sp_last_update_epoch p /\
    stake_account_of s program_id kp (key vstake_i) v /\ vsl_find_mut l v = Some i /\
    calc_pool_deposit_amount p x = Some t /\
    deposit_invocations p pool_i deposit_i withdraw_i stake_i vstake_i dest_i mint_i clock_i history_i
      token_i stake_prog_i t s = (Ok tt, s1) /\ store_wf s1 /\
    plain_add (E:=ProgramError) (sp_pool_total p) t = Ok P /\
    plain_add (E:=ProgramError) (sp_stake_total p) x = Ok S /\
    pool_at s' kp (set_totals P S p) /\ list_at s' kl (set_balance_at i b l) /\ others_kept kp kl s1 s'.
Proof.
  unfold process_deposit. intros Hr Hw Hkp Hne Hp Hl. start_run_list. rewrite Z.sub_0_r in *.
  change (0 <? 0) with false in *. cbn iota in *. inv_run. forward_wf.
  name_pool_save.
  rewrite (data_written_lamports _ _ _ _ Hwp) in Hr.
  edestruct (save_both s1 s2 s') as (Hp1 & Hl1 & Ho); [done|done| |done| |].
  { apply Hpool. apply set_totals_wf; eauto using pool_at_wf, plain_add_range. }
  { apply Hr. apply set_balance_wf; eauto using list_at_wf. }
  do 14 eexists. eexists _, _, _, _, _, _, s1. split_and!; try done.
  unfold deposit_invocations. replay_invocations.
Qed.

(** *** Withdraw *)
(** the invocations of a withdrawal: the lamports are split off the
    validator's stake account, the new account's two authorities move to
    the user, the tokens are burned *)
Definition withdraw_invocations p (pool_i withdraw_i from_i to_i user_i burn_i mint_i clock_i token_i
    stake_prog_i : AccountInfo) (stake_amount pool_amount : Z) : M unit :=
  stake_split (key pool_i) from_i withdraw_i AUTHORITY_WITHDRAW (sp_withdraw_bump_seed p) stake_amount
    to_i clock_i stake_prog_i;;
  stake_authorize (key pool_i) to_i withdraw_i AUTHORITY_WITHDRAW (sp_withdraw_bump_seed p) (key user_i)
    Withdrawer clock_i stake_prog_i;;
  stake_authorize (key pool_i) to_i withdraw_i AUTHORITY_WITHDRAW (sp_withdraw_bump_seed p) (key user_i)
    Staker clock_i stake_prog_i;;
  token_burn (key pool_i) token_i burn_i mint_i withdraw_i AUTHORITY_WITHDRAW (sp_withdraw_bump_seed p)
    pool_amount.

Lemma withdraw_run pool_amount accounts s s' p l kp kl :
  process_withdraw program_id pool_amount accounts s = (Ok tt, s') -> store_wf s ->
  slot_key (Some 0%nat) accounts = Some kp -> kp <> kl ->
  pool_at s kp p -> list_at s kl l -> sp_validator_stake_list p = kl ->
  exists pool_i list_i withdraw_i from_i to_i user_i burn_i mint_i clock_i token_i stake_prog_i rest
         c v i x P S s1,
    let b := cell_lamports (get_cell s1 (key from_i)) in
    accounts = pool_i :: list_i :: withdraw_i :: from_i :: to_i :: user_i :: burn_i :: mint_i :: clock_i ::
               token_i :: stake_prog_i :: rest /\
    key pool_i = kp /\ key list_i = kl /\
    clock_from_account_info clock_i (get_cell s (key clock_i)) = Ok c /\
    key stake_prog_i = stake_program_id /\ key token_i = sp_token_program_id p /\
    kl = sp_validator_stake_list p /\
    sp_is_initialized p = true /\ vsl_is_initialized l = true /\
    check_authority_withdraw p (key withdraw_i) program_id kp = Ok tt /\
    epoch c <= sp_last_update_epoch p /\
    stake_account_of s program_id kp (key from_i) v /\ vsl_find_mut l v = Some i /\
    calc_lamports_amount p pool_amount = Some x /\
    withdraw_invocations p pool_i withdraw_i from_i to_i user_i burn_i mint_i clock_i token_i stake_prog_i
      x pool_amount s = (Ok tt, s1) /\ store_wf s1 /\
    plain_sub (E:=ProgramError) (sp_pool_total p) pool_amount = Ok P /\
    plain_sub (E:=ProgramError) (sp_stake_total p) x = Ok S /\
    pool_at s' kp (set_totals P S p) /\ list_at s' kl (set_balance_at i b l) /\ others_kept kp kl s1 s'.
Proof.
  unfold process_withdraw. intros Hr Hw Hkp Hne Hp Hl. start_run_list. forward_wf. name_pool_save.
  rewrite (data_written_lamports _ _ _ _ Hwp) in Hr.
  edestruct (save_both s1 s2 s') as (Hp1 & Hl1 & Ho); [done|done| |done| |].
  { apply Hpool. apply set_totals_wf; eauto using pool_at_wf, plain_sub_range. }
  { apply Hr. apply set_balance_wf; eauto using list_at_wf. }
  do 12 eexists. eexists _, _, _, _, _, _, s1. split_and!; try done.
  unfold withdraw_invocations. replay_invocations.
Qed.

(** *** Adding a validator *)
Lemma save_list_then_pool s1 s2 s3 kp kl p l :
  kp <> kl -> data_written s1 kl s2 -> list_at s2 kl l -> data_written s2 kp s3 -> pool_at s3 kp p ->
  pool_at s3 kp p /\ list_at s3 kl l /\ others_kept kp kl s1 s3.
Proof.
  intros Hne H12 Hl H23 Hp. split_and!; [done| |].
  - eapply list_at_ext; [|done]. by eapply data_written_ne.
  - intros k ? ?. by eapply (written_others_kept s1 s2 s3 kl kp).
Qed.
Definition add_invocations p (pool_i deposit_i withdraw_i stake_i dest_i mint_i clock_i token_i
    stake_prog_i : AccountInfo) (amount : Z -> option Z) : M Z :=
  stake_authorize (key pool_i) stake_i deposit_i AUTHORITY_DEPOSIT (sp_deposit_bump_seed p)
    (key withdraw_i) Withdrawer clock_i stake_prog_i;;
  stake_authorize (key pool_i) stake_i deposit_i AUTHORITY_DEPOSIT (sp_deposit_bump_seed p)
    (key withdraw_i) Staker clock_i stake_prog_i;;
  x ← lamports stake_i;
  t ← lift (ok_or (pool_err CalculationFailure) (amount x));
  token_mint_to (key pool_i) token_i mint_i dest_i withdraw_i AUTHORITY_WITHDRAW (sp_withdraw_bump_seed p) t;;
  mret x.

Lemma add_run accounts s s' p l kp kl :
  process_add_validator_stake_account program_id accounts s = (Ok tt, s') -> store_wf s ->
  slot_key (Some 0%nat) accounts = Some kp -> kp <> kl ->
  pool_at s kp p -> list_at s kl l -> sp_validator_stake_list p = kl ->
  exists pool_i owner_i deposit_i withdraw_i list_i stake_i dest_i mint_i clock_i history_i token_i
         stake_prog_i rest c v x t P S s1,
    accounts = pool_i :: owner_i :: deposit_i :: withdraw_i :: list_i :: stake_i :: dest_i :: mint_i ::
               clock_i :: history_i :: token_i :: stake_prog_i :: rest /\
    key pool_i = kp /\ key list_i = kl /\
    clock_from_account_info clock_i (get_cell s (key clock_i)) = Ok c /\ u64_range (epoch c) /\
    key stake_prog_i = stake_program_id /\ key token_i = sp_token_program_id p /\
    key mint_i = sp_pool_mint p /\ kl = sp_validator_stake_list p /\
    sp_is_initialized p = true /\ vsl_is_initialized l = true /\
    check_authority_withdraw p (key withdraw_i) program_id kp = Ok tt /\
    check_authority_deposit p (key deposit_i) program_id kp = Ok tt /\
    check_owner p owner_i = Ok tt /\
    epoch c <= sp_last_update_epoch p /\
    stake_account_of s program_id kp (key stake_i) v /\ vsl_contains l v = false /\
    add_invocations p pool_i deposit_i withdraw_i stake_i dest_i mint_i clock_i token_i stake_prog_i
      (calc_pool_deposit_amount p) s = (Ok x, s1) /\
    u64_range x /\ calc_pool_deposit_amount p x = Some t /\
    (length (vsl_validators l) < MAX_VALIDATOR_STAKE_ACCOUNTS)%nat /\
    plain_add (E:=ProgramError) (sp_pool_total p) t = Ok P /\
    plain_add (E:=ProgramError) (sp_stake_total p) x = Ok S /\
    pool_at s' kp (set_totals P S p) /\
    list_at s' kl (set_vsl_validators (vsl_validators l ++ [mk_validator_stake_info v x (epoch c)]) l) /\
    others_kept kp kl s1 s'.
Proof.
  unfold process_add_validator_stake_account. intros Hr Hw Hkp Hne Hp Hl.
  start_run_list. cbn [foldM] in *. inv_run. forward_wf. name_list_save.
  match goal with H : clock_from_account_info _ _ = Ok _ |- _ => pose proof (clock_epoch_range _ _ _ H) end.
  match goal with H : store_wf ?s0, H' : token_mint_to _ _ _ _ _ _ _ _ ?s0 = _ |- _ =>
    pose proof (fun k => H k : u64_range _) as Hlam end.
  edestruct (save_list_then_pool s1 s2 s') as (Hp1 & Hl1 & Ho); [done|done| |done| |].
  { apply Hlist. apply add_record_wf; [by eapply list_at_wf|done|split; [apply Hlam|done]|done]. }
  { apply Hr. apply set_totals_wf; eauto using pool_at_wf, plain_add_range. }
  match goal with H : calc_pool_deposit_amount _ ?x = Some _ |- _ =>
    do 13 eexists; eexists _, _, x, _, _, _, s1; split_and!; try done end.
  - unfold add_invocations. do 2 (erewrite stM_bind_run; [|eassumption]).
    erewrite stM_bind_run; [|reflexivity].
    match goal with H : calc_pool_deposit_amount _ _ = Some _ |- _ => rewrite H end.
    erewrite stM_bind_run; [|reflexivity]. erewrite stM_bind_run; [|eassumption]. reflexivity.
  - cbn in *. rewrite length_app in *. cbn in *. lia.
Qed.

(** *** Removing a validator *)
Definition remove_invocations p (pool_i withdraw_i new_auth_i stake_i burn_i mint_i clock_i token_i
    stake_prog_i : AccountInfo) (amount : Z -> option Z) : M Z :=
  stake_authorize (key pool_i) stake_i withdraw_i AUTHORITY_WITHDRAW (sp_withdraw_bump_seed p)
    (key new_auth_i) Withdrawer clock_i stake_prog_i;;
  stake_authorize (key pool_i) stake_i withdraw_i AUTHORITY_WITHDRAW (sp_withdraw_bump_seed p)
    (key new_auth_i) Staker clock_i stake_prog_i;;
  x ← lamports stake_i;
  t ← lift (ok_or (pool_err CalculationFailure) (amount x));
  token_burn (key pool_i) token_i burn_i mint_i withdraw_i AUTHORITY_WITHDRAW (sp_withdraw_bump_seed p) t;;
  mret x.

Lemma remove_run accounts s s' p l kp kl :
  process_remove_validator_stake_account program_id accounts s = (Ok tt, s') -> store_wf s ->
  slot_key (Some 0%nat) accounts = Some kp -> kp <> kl ->
  pool_at s kp p -> list_at s kl l -> sp_validator_stake_list p = kl ->
  exists pool_i owner_i withdraw_i new_auth_i list_i stake_i burn_i mint_i clock_i token_i
         stake_prog_i rest c v x t P S s1,
    accounts = pool_i :: owner_i :: withdraw_i :: new_auth_i :: list_i :: stake_i :: burn_i :: mint_i ::
               clock_i :: token_i :: stake_prog_i :: rest /\
    key pool_i = kp /\ key list_i = kl /\
    clock_from_account_info clock_i (get_cell s (key clock_i)) = Ok c /\
    key stake_prog_i = stake_program_id /\ key token_i = sp_token_program_id p /\
    key mint_i = sp_pool_mint p /\ kl = sp_validator_stake_list p /\
    sp_is_initialized p = true /\ vsl_is_initialized l = true /\
    check_authority_withdraw p (key withdraw_i) program_id kp = Ok tt /\
    check_owner p owner_i = Ok tt /\
    epoch c <= sp_last_update_epoch p /\
    stake_account_of s program_id kp (key stake_i) v /\ vsl_contains l v = true /\
    remove_invocations p pool_i withdraw_i new_auth_i stake_i burn_i mint_i clock_i token_i stake_prog_i
      (calc_pool_withdraw_amount p) s = (Ok x, s1) /\
    u64_range x /\ calc_pool_withdraw_amount p x = Some t /\
    plain_sub (E:=ProgramError) (sp_pool_total p) t = Ok P /\
    plain_sub (E:=ProgramError) (sp_stake_total p) x = Ok S /\
    pool_at s' kp (set_totals P S p) /\ list_at s' kl (drop_validator v l) /\ others_kept kp kl s1 s'.
Proof.
  unfold process_remove_validator_stake_account. intros Hr Hw Hkp Hne Hp Hl.
  start_run_list. cbn [foldM] in *. inv_run. forward_wf. name_list_save.
  match goal with H : store_wf ?s0, H' : token_burn _ _ _ _ _ _ _ _ ?s0 = _ |- _ =>
    pose proof (fun k => H k : u64_range _) as Hlam end.
  edestruct (save_list_then_pool s1 s2 s') as (Hp1 & Hl1 & Ho); [done|done| |done| |].
  { apply Hlist. apply drop_validator_wf. by eapply list_at_wf. }
  { apply Hr. apply set_totals_wf; eauto using pool_at_wf, plain_sub_range. }
  match goal with H : calc_pool_withdraw_amount _ ?x = Some _ |- _ =>
    do 12 eexists; eexists _, _, x, _, _, _, s1; split_and!; try done end.
  unfold remove_invocations. do 2 (erewrite stM_bind_run; [|eassumption]).
  erewrite stM_bind_run; [|reflexivity].
  match goal with H : calc_pool_withdraw_amount _ _ = Some _ |- _ => rewrite H end.
  erewrite stM_bind_run; [|reflexivity]. erewrite stM_bind_run; [|eassumption]. reflexivity.
Qed.

(** *** Balance updates *)
(** the record a pass over the passed accounts leaves: an out-of-date
    record whose account is among them is refreshed *)
Definition refreshed (now : Z) (items : list AccountInfo) s (r : ValidatorStakeInfo) : ValidatorStakeInfo :=
  if (vsi_last_update_epoch r <? now) && bool_decide (vsi_validator_account r ∈ key <$> items)
  then mk_validator_stake_info (vsi_validator_account r)
         (cell_lamports (get_cell s (vsi_validator_account r))) now
  else r.
Lemma update_record_loop clock items s r0 changes :
  foldM (update_record_from clock) (r0, changes) items s =
    (Ok (if bool_decide (vsi_validator_account r0 ∈ key <$> items)
         then (mk_validator_stake_info (vsi_validator_account r0)
                 (cell_lamports (get_cell s (vsi_validator_account r0))) (epoch clock), true)
         else (r0, changes)), s).
Proof.
  revert r0 changes. induction items as [|i items IH]; intros r0 changes.
  { reflexivity. }
  cbn [foldM].
  assert (Hb : update_record_from clock (r0, changes) i s =
    (Ok (if decide (key i = vsi_validator_account r0)
         then (mk_validator_stake_info (vsi_validator_account r0) (cell_lamports (get_cell s (key i)))
                 (epoch clock), true)
         else (r0, changes)), s)).
  { unfold update_record_from. case_decide as E; [by rewrite bool_decide_eq_true_2|by rewrite bool_decide_eq_false_2]. }
  erewrite stM_bind_run; [|exact Hb]. rewrite fmap_cons. case_decide as E; rewrite IH; cbn [vsi_validator_account].
  - rewrite (bool_decide_eq_true_2 (_ ∈ key i :: _)) by (rewrite E; left). rewrite E.
    by case_bool_decide.
  - do 2 f_equal. repeat case_bool_decide; try done; rewrite elem_of_cons in *; naive_solver.
Qed.
Lemma update_record_run clock items s r :
  update_record clock items r s =
    (Ok (refreshed (epoch clock) items s r,
         (vsi_last_update_epoch r <? epoch clock) &&
         bool_decide (vsi_validator_account r ∈ key <$> items)), s).
Proof.
  unfold update_record, refreshed. rewrite Z.leb_antisym. destruct (vsi_last_update_epoch r <? epoch clock); cbn; [|done].
  rewrite update_record_loop. by case_bool_decide.
Qed.
Lemma update_records_run clock items s rs :
  update_records clock items rs s =
    (Ok (refreshed (epoch clock) items s <$> rs,
         existsb (fun r => (vsi_last_update_epoch r <? epoch clock) &&
                           bool_decide (vsi_validator_account r ∈ key <$> items)) rs), s).
Proof.
  induction rs as [|r rs IH]; [done|]. cbn [update_records].
  erewrite stM_bind_run; [|apply update_record_run]. cbv beta iota.
  erewrite stM_bind_run; [|exact IH]. done.
Qed.

Lemma refreshed_updated now items s r :
  store_wf s -> u64_range now -> record_updated now r (refreshed now items s r).
Proof.
  intros Hw Hn. unfold refreshed. destruct (Z.ltb_spec (vsi_last_update_epoch r) now); cbn; [|by left].
  case_bool_decide; [|by left]. right. split_and!; try done. split; [apply Hw|done].
Qed.
Lemma refreshed_all now items s rs :
  store_wf s -> u64_range now -> Forall2 (record_updated now) rs (refreshed now items s <$> rs).
Proof. intros. induction rs; cbn; constructor; auto using refreshed_updated. Qed.
Lemma refreshed_none now items s rs :
  existsb (fun r => (vsi_last_update_epoch r <? now) &&
                    bool_decide (vsi_validator_account r ∈ key <$> items)) rs = false ->
  refreshed now items s <$> rs = rs.
Proof.
  induction rs as [|r rs IH]; [done|]. cbn [existsb]. intros [Hr Hrs]%orb_false_iff.
  rewrite fmap_cons, (IH Hrs). f_equal. unfold refreshed. by rewrite Hr.
Qed.
Lemma records_wf_list now l rs :
  ValidatorStakeList_wf l -> vsl_is_initialized l = true ->
  Forall2 (record_updated now) (vsl_validators l) rs -> ValidatorStakeList_wf (set_vsl_validators rs l).
Proof.
  intros (Hv & Hz & Hn & Hf) Hi Hr. split_and!; cbn; [done| | |by eapply records_updated_wf].
  - intros E. unfold vsl_is_initialized in Hi. by rewrite E in Hi.
  - by rewrite <- (Forall2_length _ _ _ Hr).
Qed.
Lemma update_list_run accounts s s' l kl :
  process_update_list_balance program_id accounts s = (Ok tt, s') -> store_wf s ->
  slot_key (Some 0%nat) accounts = Some kl -> list_at s kl l ->
  exists list_i clock_i items c,
    accounts = list_i :: clock_i :: items /\ key list_i = kl /\
    clock_from_account_info clock_i (get_cell s (key clock_i)) = Ok c /\ u64_range (epoch c) /\
    vsl_is_initialized l = true /\
    list_at s' kl (set_vsl_validators (refreshed (epoch c) items s <$> vsl_validators l) l) /\
    forall k, k <> kl -> get_cell s' k = get_cell s k.
Proof.
  unfold process_update_list_balance. intros Hr Hw Hkl Hl. start_run.
  match goal with H : update_records _ _ _ _ = _ |- _ => rewrite update_records_run in H; injection H as <- <- <- end.
  match goal with H : clock_from_account_info _ _ = Ok _ |- _ => pose proof (clock_epoch_range _ _ _ H) end.
  do 4 eexists. do 5 (split; [done|]).
  destruct (existsb _ _) eqn:Ex; inv_run.
  - match goal with H : data_written _ _ _ |- _ => split; [|by intros; eapply data_written_ne, H] end.
    apply Hr. eapply records_wf_list; eauto using list_at_wf, refreshed_all.
  - rewrite (refreshed_none _ _ _ _ Ex). split; [|done].
    by match goal with |- list_at _ _ (set_vsl_validators _ ?l0) => destruct l0 end.
Qed.

Lemma update_pool_run accounts s s' p l kp kl :
  process_update_pool_balance program_id accounts s = (Ok tt, s') ->
  slot_key (Some 0%nat) accounts = Some kp ->
  pool_at s kp p -> list_at s kl l -> sp_validator_stake_list p = kl ->
  exists pool_i list_i clock_i rest c total,
    accounts = pool_i :: list_i :: clock_i :: rest /\ key pool_i = kp /\ key list_i = kl /\
    clock_from_account_info clock_i (get_cell s (key clock_i)) = Ok c /\ u64_range (epoch c) /\
    kl = sp_validator_stake_list p /\ sp_is_initialized p = true /\ vsl_is_initialized l = true /\
    fold_outcome (add_balance c) 0 (vsl_validators l) = Ok total /\
    pool_at s' kp (set_sp_last_update_epoch (epoch c) (set_sp_stake_total total p)) /\
    forall k, k <> kp -> get_cell s' k = get_cell s k.
Proof.
  unfold process_update_pool_balance. intros Hr Hkp Hp Hl. start_run_list.
  match goal with H : clock_from_account_info _ _ = Ok _ |- _ => pose proof (clock_epoch_range _ _ _ H) end.
  do 6 eexists. do 9 (split; [done|]).
  match goal with H : data_written _ _ _ |- _ => split; [|by intros; eapply data_written_ne, H] end.
  apply Hr. match goal with H : pool_at _ _ _ |- _ => apply pool_at_wf in H as (? & ? & ? & ? & ? & ? & ?) end.
  split_and!; cbn; try done.
  eapply add_balances_range; [|done]. by split.
Qed.

Lemma set_owner_run accounts s s' p kp :
  process_set_owner program_id accounts s = (Ok tt, s') ->
  slot_key (Some 0%nat) accounts = Some kp -> pool_at s kp p ->
  exists pool_i owner_i new_owner_i new_fee_i rest fee,
    accounts = pool_i :: owner_i :: new_owner_i :: new_fee_i :: rest /\ key pool_i = kp /\
    sp_is_initialized p = true /\ check_owner p owner_i = Ok tt /\
    account_unpack_from_slice (cell_data (get_cell s (key new_fee_i))) = Ok fee /\
    acc_mint fee = sp_pool_mint p /\
    pool_at s' kp (set_sp_owner_fee_account (key new_fee_i) (set_sp_owner (key new_owner_i) p)) /\
    forall k, k <> kp -> get_cell s' k = get_cell s k.
Proof.
  unfold process_set_owner. intros Hr Hkp Hp. start_run.
  do 6 eexists. do 6 (split; [done|]).
  match goal with H : data_written _ _ _ |- _ => split; [|by intros; eapply data_written_ne, H] end.
  apply Hr. by match goal with H : pool_at _ _ _ |- _ => apply (pool_at_wf _ _ _ H) end.
Qed.

(** *** Initialisation *)
(** the record [process_initialize] stores *)
Definition initial_pool (kp kl owner mint fee_account token : Pubkey) (S P now : Z) (fee : Fee) : StakePool :=
  mk_stake_pool PROGRAM_VERSION owner (find_authority_bump_seed program_id kp AUTHORITY_DEPOSIT).2
    (find_authority_bump_seed program_id kp AUTHORITY_WITHDRAW).2 kl mint fee_account token S P now fee.
Definition empty_list : ValidatorStakeList := mk_validator_stake_list VALIDATOR_STAKE_LIST_VERSION [].
Lemma empty_list_wf : ValidatorStakeList_wf empty_list.
Proof. split_and!; cbn; [done|done|unfold MAX_VALIDATOR_STAKE_ACCOUNTS; lia|done]. Qed.
Lemma initial_pool_wf kp kl owner mint fee_account token S P now fee :
  u64_range S -> u64_range P -> u64_range now -> Fee_wf fee ->
  StakePool_wf (initial_pool kp kl owner mint fee_account token S P now fee).
Proof. intros. split_and!; cbn; try done; apply find_program_address_bump. Qed.

(** the derived address passes the authority check with its bump seed *)
Lemma derived_authority_checks k ty :
  check_authority (find_authority_bump_seed program_id k ty).1 program_id k ty
    (find_authority_bump_seed program_id k ty).2 = Ok tt.
Proof.
  unfold check_authority, authority_id.
  destruct (find_authority_bump_seed program_id k ty) as [a bump] eqn:E. cbn [fst snd].
  apply find_program_address_create in E. cbn [app] in E. rewrite E. cbn.
  by rewrite bool_decide_eq_true_2.
Qed.
Lemma initialize_run init accounts s s' kp kl :
  process_initialize program_id init accounts s = (Ok tt, s') -> Fee_wf (init_fee init) ->
  slot_key (Some 0%nat) accounts = Some kp -> slot_key (Some 2%nat) accounts = Some kl -> kp <> kl ->
  exists pool_i owner_i list_i mint_i fee_i clock_i rent_i token_i rest c p0 l0 fee_acc mint,
    accounts = pool_i :: owner_i :: list_i :: mint_i :: fee_i :: clock_i :: rent_i :: token_i :: rest /\
    key pool_i = kp /\ key list_i = kl /\
    clock_from_account_info clock_i (get_cell s (key clock_i)) = Ok c /\
    is_signer owner_i = true /\
    pool_at s kp p0 /\ sp_is_initialized p0 = false /\ list_at s kl l0 /\ vsl_is_initialized l0 = false /\
    fee_numerator (init_fee init) <= fee_denominator (init_fee init) /\
    cell_owner (get_cell s (key fee_i)) = key token_i /\ cell_owner (get_cell s (key mint_i)) = key token_i /\
    account_unpack_from_slice (cell_data (get_cell s (key fee_i))) = Ok fee_acc /\
    acc_mint fee_acc = key mint_i /\
    mint_unpack_from_slice (cell_data (get_cell s (key mint_i))) = Ok mint /\
    mint_authority mint = Some (find_authority_bump_seed program_id kp AUTHORITY_WITHDRAW).1 /\
    pool_at s' kp (initial_pool kp kl (key owner_i) (key mint_i) (key fee_i) (key token_i)
                     (sp_stake_total p0) (sp_pool_total p0) (epoch c) (init_fee init)) /\
    list_at s' kl empty_list /\ others_kept kp kl s s'.
Proof.
  unfold process_initialize. intros Hr Hfee Hkp Hkl Hne. start_run. name_list_save.
  match goal with H : clock_from_account_info _ _ = Ok _ |- _ => pose proof (clock_epoch_range _ _ _ H) end.
  match goal with Ed : find_authority_bump_seed _ _ AUTHORITY_DEPOSIT = _,
                  Ew : find_authority_bump_seed _ _ AUTHORITY_WITHDRAW = _, H : pool_at s1 (key ?a) ?p0 |- _ =>
    pose proof (pool_at_wf _ _ _ H) as (_ & _ & _ & HS & HP & _);
    edestruct (save_list_then_pool s1 s2 s' (key a)) as (Hp1 & Hl1 & Ho);
      [done|done|by apply Hlist, empty_list_wf|done| |];
      [apply Hr; pose proof (find_program_address_bump) as Hb;
       pose proof (Hb [to_bytes (key a); AUTHORITY_DEPOSIT] program_id) as Hd;
       pose proof (Hb [to_bytes (key a); AUTHORITY_WITHDRAW] program_id) as Hw;
       unfold find_authority_bump_seed in Ed, Ew; rewrite Ed in Hd; rewrite Ew in Hw;
       split_and!; cbn; done|]
  end.
  do 14 eexists. unfold initial_pool. split_and!; try done.
  all: match goal with Ew : find_authority_bump_seed _ _ AUTHORITY_WITHDRAW = _ |- _ => rewrite Ew; try done end.
  match goal with Ed : find_authority_bump_seed _ _ AUTHORITY_DEPOSIT = _ |- _ => by rewrite Ed end.
Qed.

(** *** The state accounts a success has read *)
Definition is_initialize (instr : StakePoolInstruction) : bool :=
  match instr with Initialize _ => true | _ => false end.
(** the pool and the list at the slots the instruction takes them from: both
    initialised (both not, for [Initialize]), and the list is the pool's *)
Definition state_read s (instr : StakePoolInstruction) accounts : Prop :=
  (is_Some (state_slots instr).1 -> is_Some (slot_key (state_slots instr).1 accounts)) /\
  (is_Some (state_slots instr).2 -> is_Some (slot_key (state_slots instr).2 accounts)) /\
  (forall k, slot_key (state_slots instr).1 accounts = Some k ->
    exists p, pool_at s k p /\ sp_is_initialized p = negb (is_initialize instr) /\
      (is_initialize instr = false -> forall k', slot_key (state_slots instr).2 accounts = Some k' ->
         sp_validator_stake_list p = k')) /\
  (forall k, slot_key (state_slots instr).2 accounts = Some k ->
    exists l, list_at s k l /\ vsl_is_initialized l = negb (is_initialize instr)).
Ltac solve_state_read :=
  split; [intros _; by eexists|]; split; [intros _; by eexists|]; split; intros ? [= <-]; eexists; (split; [eassumption|]);
    [split; [assumption|first [done|intros _ ? [= <-]; congruence]]|assumption].
Lemma untouching_reads s instr accounts : state_slots instr = (None, None) -> state_read s instr accounts.
Proof. intros E. unfold state_read. rewrite E. do 2 (split; [by intros []|]). split; by intros k. Qed.
Lemma instruction_reads instr accounts s s' :
  process_pool_instruction program_id accounts instr s = (Ok tt, s') -> state_read s instr accounts.
Proof.
  intros Hr. destruct (decide (state_slots instr = (None, None))) as [E|E]; [by apply untouching_reads|].
  unfold state_read.
  destruct instr; try done; cbn [process_pool_instruction state_slots is_initialize fst snd negb] in *; clear E;
    [unfold process_initialize in Hr|unfold process_add_validator_stake_account in Hr
    |unfold process_remove_validator_stake_account in Hr|unfold process_update_list_balance in Hr
    |unfold process_update_pool_balance in Hr|unfold process_deposit in Hr|unfold process_withdraw in Hr
    |unfold process_set_owner in Hr]; start_run; try solve_state_read.
  - split; [by intros []|]. split; [by eexists|]. split; [done|]. intros ? [= <-]. by eexists.
  - split; [by eexists|]. split; [by intros []|]. split; [|done]. intros ? [= <-]. eexists. by split_and!.
Qed.
(** the list a success was passed is the one the pool it was passed names *)
Lemma list_address instr accounts s s' p kp kl :
  process_pool_instruction program_id accounts instr s = (Ok tt, s') -> is_initialize instr = false ->
  slot_key (state_slots instr).1 accounts = Some kp -> slot_key (state_slots instr).2 accounts = Some kl ->
  pool_at s kp p -> sp_validator_stake_list p = kl.
Proof.
  intros Hr Hi Hkp Hkl Hp. destruct (instruction_reads _ _ _ _ Hr) as (_ & _ & Hread & _).
  destruct (Hread _ Hkp) as (p' & Hp' & _ & Hl). rewrite (pool_at_inj _ _ _ _ Hp Hp'). by apply Hl.
Qed.
Lemma list_passed instr accounts s s' p kp :
  process_pool_instruction program_id accounts instr s = (Ok tt, s') -> is_initialize instr = false ->
  is_Some (state_slots instr).2 -> slot_key (state_slots instr).1 accounts = Some kp -> pool_at s kp p ->
  exists l, list_at s (sp_validator_stake_list p) l.
Proof.
  intros Hr Hi Hlo Hkp Hp. pose proof (instruction_reads _ _ _ _ Hr) as (_ & Hslot & _ & Hread).
  destruct (Hslot Hlo) as [kl Hkl]. rewrite (list_address _ _ _ _ _ _ _ Hr Hi Hkp Hkl Hp).
  destruct (Hread _ Hkl) as (l & Hl & _). by exists l.
Qed.
End Runs.
