(* ===== verification/PoolSim.v ===== *)
(** * The refinement theorem of the stake pool

    Every successful instruction that is passed no impostor is the step of the
    pool machine that is named after it, and the machine's invariants hold of
    the program's accounts. *)
From S2P Require Import Prelude Machine Sdk TokenInstruction TokenState TokenCodec TokenProcessor TokenFacts.
From S2P Require Import PoolInstruction PoolState StakeProgram PoolProcessor PoolCodec PoolMath PoolFacts.
From S2P Require Import PoolSpec PoolFrame PoolRefine.
From stdpp Require Import relations.
#[local] Open Scope Z_scope.

(** the keys of the state accounts an instruction is passed *)
Definition state_keys (i : StakePoolInstruction) (accounts : list AccountInfo) : list Pubkey :=
  let '(po, lo) := state_slots i in omap (fun slot => slot_key slot accounts) [po; lo].
(** the pool [p] at [kp] with its list [l] at [kl], both owned by the program;
    the pool's account is too short for a list *)
Definition pool_state_at `{StructPadding} (program_id kp kl : Pubkey) (s : Store) (st : PState) : Prop :=
  pool_at s kp (st_pool st) /\ list_at s kl (st_list st) /\ sp_validator_stake_list (st_pool st) = kl /\
  sp_is_initialized (st_pool st) = true /\ vsl_is_initialized (st_list st) = true /\
  cell_owner (get_cell s kp) = program_id /\ cell_owner (get_cell s kl) = program_id /\
  (length (cell_data (get_cell s kp)) < VALIDATOR_STAKE_LIST_LEN)%nat.
(** the event an instruction that is passed [accounts] is to the pool *)
Definition event_of (instr : StakePoolInstruction) (accounts : list AccountInfo) (kp kl : Pubkey)
    (ev : pool_event) : Prop :=
  match ev with
  | EvDeposit _ _ _ => instr = Deposit
  | EvWithdraw _ _ tokens => instr = Withdraw tokens
  | EvAdd _ _ _ => instr = AddValidatorStakeAccount
  | EvRemove _ _ _ => instr = RemoveValidatorStakeAccount
  | EvUpdateList => instr = UpdateListBalance
  | EvUpdatePool => instr = UpdatePoolBalance
  | EvSetOwner _ _ => instr = SetOwner
  | EvIdle => True
  end /\
  (ev = EvIdle <-> (kp ∉ state_keys instr accounts) /\ (kl ∉ state_keys instr accounts)).

Lemma state_keys_in i accounts n k :
  Some n = (state_slots i).1 \/ Some n = (state_slots i).2 ->
  slot_key (Some n) accounts = Some k -> k ∈ state_keys i accounts.
Proof.
  unfold state_keys. destruct (state_slots i) as [po lo]. cbn [fst snd]. intros [<-|<-] E; cbn [omap list_omap].
  - rewrite E. by left.
  - rewrite E. destruct (slot_key po accounts); [right|]; by left.
Qed.
Lemma elem_state_keys i accounts k :
  k ∈ state_keys i accounts ->
  slot_key (state_slots i).1 accounts = Some k \/ slot_key (state_slots i).2 accounts = Some k.
Proof.
  unfold state_keys. destruct (state_slots i) as [po lo]. rewrite list_elem_of_omap.
  cbn [fst snd]. intros (slot & Hs & E). rewrite !elem_of_cons in Hs. destruct Hs as [->|[->|Hs]]; [auto..|].
  by apply elem_of_nil in Hs.
Qed.

Ltac solve_state_keys :=
  let n := fresh in let k := fresh in let Hn := fresh in let E := fresh in
  intros n k Hn E; eapply state_keys_in; [|exact E]; cbn; destruct_or?; subst; auto.

Section Simulation.
Context `{SDK : SolanaSdk} {LAWS : SolanaSdkLaws SDK}.
Context `{RT : Runtime} `{BC : Bincode} `{PAD : StructPadding} `{BP : BuildProfile}.
Context {program_id : Pubkey} {RTL : RuntimeLaws RT program_id}.

Lemma process_frame instr accounts :
  program_id ∉ key <$> accounts ->
  respects (owned_kept (state_keys instr accounts) program_id)
    (process_pool_instruction program_id accounts instr).
Proof.
  intros NS. destruct instr; cbn [process_pool_instruction].
  - apply initialize_frame; [done|solve_state_keys].
  - by apply create_frame.
  - apply add_frame; [done|solve_state_keys].
  - apply remove_frame; [done|solve_state_keys].
  - apply update_list_frame; [done|solve_state_keys].
  - apply update_pool_frame; [done|solve_state_keys].
  - apply deposit_frame; [done|solve_state_keys].
  - apply withdraw_frame; [done|solve_state_keys].
  - by apply set_staking_frame.
  - apply set_owner_frame; [done|solve_state_keys].
  - by apply add_liquidity_frame.
  - by apply sell_frame.
Qed.


(** a step that targets neither the pool nor its list is idle *)
Lemma idle_step instr accounts s s' r kp kl st :
  program_id ∉ key <$> accounts -> pool_state_at program_id kp kl s st ->
  kp ∉ state_keys instr accounts -> kl ∉ state_keys instr accounts ->
  process_pool_instruction program_id accounts instr s = (r, s') ->
  pool_state_at program_id kp kl s' st.
Proof.
  intros NS (Hp & Hl & Hk & Hi & Hi' & Hop & Hol & Hlen) Hnp Hnl Hr.
  pose proof (process_frame instr accounts NS _ _ _ Hr) as HF.
  destruct (HF kp Hop) as (? & ? & Ep), (HF kl Hol) as (? & _ & El).
  split_and!; try done; [unfold pool_at|unfold list_at|lia]; [by rewrite (Ep Hnp)|by rewrite (El Hnl)].
Qed.

(** ... and so is what leaves the program's accounts alone *)
Lemma idle_state s s' kp kl st :
  owned_kept [] program_id s s' -> pool_state_at program_id kp kl s st -> pool_state_at program_id kp kl s' st.
Proof using Type.
  intros HK (Hp & Hl & Hk & Hi & Hi' & Hop & Hol & Hlen).
  destruct (HK kp Hop) as (? & ? & Ep), (HK kl Hol) as (? & _ & El).
  split_and!; try done; [unfold pool_at|unfold list_at|lia]; [rewrite Ep|rewrite El]; try done; apply not_elem_of_nil.
Qed.

(** the pool after a step that targets it *)
Lemma active_step instr accounts s s' kp kl st p' l' :
  program_id ∉ key <$> accounts -> pool_state_at program_id kp kl s st ->
  process_pool_instruction program_id accounts instr s = (Ok tt, s') ->
  pool_at s' kp p' -> list_at s' kl l' -> sp_validator_stake_list p' = kl ->
  sp_is_initialized p' = true -> vsl_is_initialized l' = true ->
  pool_state_at program_id kp kl s' (mk_pstate p' l').
Proof.
  intros NS (_ & _ & _ & _ & _ & Hop & Hol & Hlen) Hr. pose proof (process_frame instr accounts NS _ _ _ Hr) as HF.
  destruct (HF kp Hop) as (? & ? & _), (HF kl Hol) as [? _].
  intros. split_and!; try done. lia.
Qed.
Lemma step_keeps_initialized now a ev b :
  pool_step now a ev b ->
  sp_validator_stake_list (st_pool b) = sp_validator_stake_list (st_pool a) /\
  sp_is_initialized (st_pool b) = sp_is_initialized (st_pool a) /\
  vsl_is_initialized (st_list b) = vsl_is_initialized (st_list a).
Proof. by destruct 1. Qed.

(** what [pool_process_refines] shows of one instruction *)
Definition simulates (instr : StakePoolInstruction) accounts : Prop :=
  forall s s' kp kl st,
    pool_instruction_wf instr ->
    process_pool_instruction program_id accounts instr s = (Ok tt, s') -> store_wf s ->
    kp <> kl -> genuine s instr accounts kp kl -> pool_state_at program_id kp kl s st ->
    exists now ev st', pool_step now st ev st' /\ event_of instr accounts kp kl ev /\ pool_state_at program_id kp kl s' st'.

(** an account too short for a list is not where a success takes its list from *)
Lemma pool_not_list instr accounts s s' kp kl st :
  process_pool_instruction program_id accounts instr s = (Ok tt, s') -> pool_state_at program_id kp kl s st ->
  slot_key (state_slots instr).2 accounts <> Some kp.
Proof.
  intros Hr (_ & _ & _ & _ & _ & _ & _ & Hlen) E. destruct (instruction_reads _ _ _ _ Hr) as (_ & _ & _ & Hread).
  destruct (Hread _ E) as (l & Hl & _). apply list_at_length in Hl. lia.
Qed.
(** a success that takes a pool and targets this one is passed this one *)
Lemma targeted_pool instr accounts s s' kp kl st :
  process_pool_instruction program_id accounts instr s = (Ok tt, s') -> is_Some (state_slots instr).1 ->
  genuine s instr accounts kp kl -> pool_state_at program_id kp kl s st ->
  kp ∈ state_keys instr accounts \/ kl ∈ state_keys instr accounts ->
  slot_key (state_slots instr).1 accounts = Some kp.
Proof.
  intros Hr Hpo Hg Hst Hin. pose proof (pool_not_list _ _ _ _ _ _ _ Hr Hst) as Hnl.
  destruct (instruction_reads _ _ _ _ Hr) as (Hslot & _ & Hread & Hreadl). destruct (Hslot Hpo) as [k Hk]. rewrite Hk.
  destruct (decide (k = kp)) as [->|Hne]; [done|]. exfalso. apply (Hg k Hk). split; [done|].
  destruct (Hread k Hk) as (p & Hp & Hi & Hlist). exists p. split; [done|].
  destruct Hst as (_ & Hl & _ & _ & Hli & _).
  assert (Hcase : k = kl \/ slot_key (state_slots instr).2 accounts = Some kl).
  { destruct Hin as [Hin|Hin]; apply elem_state_keys in Hin as [E|E]; [congruence|done|left; congruence|by right]. }
  destruct (is_initialize instr) eqn:Ei; cbn [negb] in *.
  - exfalso. destruct Hcase as [->|E].
    + rewrite (list_reads_initialized _ _ _ _ Hl Hp Hli) in Hi. done.
    + destruct (Hreadl _ E) as (l & Hl' & Hi'). rewrite (list_at_inj _ _ _ _ Hl Hl') in Hli. congruence.
  - split; [done|]. destruct Hcase as [->|E]; [by left|right; by apply Hlist].
Qed.
Lemma simulates_intro instr accounts :
  program_id ∉ key <$> accounts ->
  (forall s s' kp kl p l,
    pool_instruction_wf instr ->
    process_pool_instruction program_id accounts instr s = (Ok tt, s') -> store_wf s ->
    kp <> kl -> pool_state_at program_id kp kl s (mk_pstate p l) ->
    (is_Some (state_slots instr).1 -> slot_key (state_slots instr).1 accounts = Some kp) ->
    kp ∈ state_keys instr accounts \/ kl ∈ state_keys instr accounts ->
    exists now ev p' l', pool_step now (mk_pstate p l) ev (mk_pstate p' l') /\
      event_of instr accounts kp kl ev /\ pool_at s' kp p' /\ list_at s' kl l') ->
  simulates instr accounts.
Proof.
  intros NS Hact s s' kp kl [p l] Hi0 Hr Hw Hne Ha Hst.
  destruct (decide (kp ∈ state_keys instr accounts \/ kl ∈ state_keys instr accounts)) as [Hin|Hout].
  - destruct (Hact s s' kp kl p l) as (now & ev & p' & l' & Hs & He & Hp' & Hl'); try done.
    { intros Hpo. by eapply targeted_pool. }
    exists now, ev, (mk_pstate p' l'). split; [done|]. split; [done|].
    pose proof (step_keeps_initialized _ _ _ _ Hs) as (E1 & E2 & E3).
    pose proof Hst as (_ & _ & Hk & Hi & Hi' & _). eapply active_step; try done; cbn in *; congruence.
  - exists 0, EvIdle, (mk_pstate p l). split; [constructor|]. apply Decidable.not_or in Hout as [Hnp Hnl].
    split; [by split|]. by eapply idle_step.
Qed.
(** an event of the instruction that targets the pool *)
Lemma event_targets instr accounts kp kl ev :
  ev <> EvIdle -> kp ∈ state_keys instr accounts \/ kl ∈ state_keys instr accounts ->
  match ev with
  | EvDeposit _ _ _ => instr = Deposit | EvWithdraw _ _ tokens => instr = Withdraw tokens
  | EvAdd _ _ _ => instr = AddValidatorStakeAccount | EvRemove _ _ _ => instr = RemoveValidatorStakeAccount
  | EvUpdateList => instr = UpdateListBalance | EvUpdatePool => instr = UpdatePoolBalance
  | EvSetOwner _ _ => instr = SetOwner | EvIdle => True
  end -> event_of instr accounts kp kl ev.
Proof. intros Hev Hin Hm. split; [exact Hm|]. split; [done|]. intros [H1 H2]. by destruct Hin. Qed.

Section PerHandler.
Context (accounts : list AccountInfo) (NS : program_id ∉ key <$> accounts).
Lemma deposit_simulates : simulates Deposit accounts.
Proof.
  apply simulates_intro; [done|]. intros s s' kp kl p l _ Hr Hw Hne (Hp & Hl & Hk & _) Htgt Hin.
  specialize (Htgt ltac:(by eexists)).
  destruct (deposit_run accounts s s' p l kp kl Hr Hw Htgt Hne Hp Hl Hk)
    as (? & ? & ? & ? & ? & ? & ? & ? & ? & ? & ? & ? & ? & ? & c & v & i & t & P & S & s1 & Hrun).
  cbv zeta in Hrun. destruct_and? Hrun.
  eexists (epoch c), (EvDeposit v _ t), _, _. split; [|split; [by apply event_targets|by split]]. eapply StepDeposit; try done; auto.
Qed.
Lemma withdraw_simulates amount : simulates (Withdraw amount) accounts.
Proof.
  apply simulates_intro; [done|]. intros s s' kp kl p l Ht Hr Hw Hne (Hp & Hl & Hk & _) Htgt Hin.
  specialize (Htgt ltac:(by eexists)).
  destruct (withdraw_run amount accounts s s' p l kp kl Hr Hw Htgt Hne Hp Hl Hk)
    as (? & ? & ? & ? & ? & ? & ? & ? & ? & ? & ? & ? & c & v & i & x & P & S & s1 & Hrun).
  cbv zeta in Hrun. destruct_and? Hrun.
  eexists (epoch c), (EvWithdraw v x amount), _, _. split; [|split; [by apply event_targets|by split]]. eapply StepWithdraw; try done; auto.
Qed.
Lemma add_simulates : simulates AddValidatorStakeAccount accounts.
Proof.
  apply simulates_intro; [done|]. intros s s' kp kl p l _ Hr Hw Hne (Hp & Hl & Hk & _) Htgt Hin.
  specialize (Htgt ltac:(by eexists)).
  destruct (add_run accounts s s' p l kp kl Hr Hw Htgt Hne Hp Hl Hk)
    as (? & ? & ? & ? & ? & ? & ? & ? & ? & ? & ? & ? & ? & c & v & x & t & P & S & s1 & Hrun).
  destruct_and? Hrun.
  eexists (epoch c), (EvAdd v x t), _, _. split; [|split; [by apply event_targets|by split]]. by eapply StepAdd.
Qed.
Lemma remove_simulates : simulates RemoveValidatorStakeAccount accounts.
Proof.
  apply simulates_intro; [done|]. intros s s' kp kl p l _ Hr Hw Hne (Hp & Hl & Hk & _) Htgt Hin.
  specialize (Htgt ltac:(by eexists)).
  destruct (remove_run accounts s s' p l kp kl Hr Hw Htgt Hne Hp Hl Hk)
    as (? & ? & ? & ? & ? & ? & ? & ? & ? & ? & ? & ? & c & v & x & t & P & S & s1 & Hrun).
  destruct_and? Hrun.
  eexists (epoch c), (EvRemove v x t), _, _. split; [|split; [by apply event_targets|by split]]. by eapply StepRemove.
Qed.
Lemma update_list_simulates : simulates UpdateListBalance accounts.
Proof.
  apply simulates_intro; [done|]. intros s s' kp kl p l _ Hr Hw Hne Hst _ Hin. pose proof Hst as (Hp & Hl & _).
  pose proof (pool_not_list UpdateListBalance _ _ _ _ _ _ Hr Hst) as Hkp. pose proof Hin as Hin'.
  assert (Hs : slot_key (Some 0%nat) accounts = Some kl).
  { destruct Hin' as [Hin'|Hin']; apply elem_state_keys in Hin' as [E|E]; naive_solver. }
  destruct (update_list_run (program_id:=program_id) accounts s s' l kl Hr Hw Hs Hl) as (? & ? & items & c & Hrun).
  destruct_and? Hrun.
  eexists (epoch c), EvUpdateList, p, _. split; [|split; [by apply event_targets|split; [|done]]].
  - apply StepUpdateList. by apply refreshed_all.
  - eapply pool_at_ext; [|done]. auto.
Qed.
Lemma update_pool_simulates : simulates UpdatePoolBalance accounts.
Proof.
  apply simulates_intro; [done|]. intros s s' kp kl p l _ Hr Hw Hne (Hp & Hl & Hk & _) Htgt Hin.
  specialize (Htgt ltac:(by eexists)).
  destruct (update_pool_run (program_id:=program_id) accounts s s' p l kp kl Hr Htgt Hp Hl Hk) as (? & ? & ? & ? & c & total & Hrun).
  destruct_and? Hrun. destruct c as [now].
  eexists now, EvUpdatePool, _, l. split; [|split; [by apply event_targets|split; [done|]]].
  - by apply StepUpdatePool.
  - eapply list_at_ext; [|done]. auto.
Qed.
Lemma set_owner_simulates : simulates SetOwner accounts.
Proof.
  apply simulates_intro; [done|]. intros s s' kp kl p l _ Hr Hw Hne (Hp & Hl & Hk & _) Htgt Hin.
  specialize (Htgt ltac:(by eexists)).
  destruct (set_owner_run (program_id:=program_id) accounts s s' p kp Hr Htgt Hp) as (? & ? & o & f & ? & ? & Hrun).
  destruct_and? Hrun.
  eexists 0, (EvSetOwner (key o) (key f)), _, l. split; [|split; [by apply event_targets|split; [done|]]].
  - by apply StepSetOwner.
  - eapply list_at_ext; [|done]. auto.
Qed.
(** an initialised pool cannot be initialised again *)
Lemma initialize_simulates init : simulates (Initialize init) accounts.
Proof.
  apply simulates_intro; [done|]. intros s s' kp kl p l Hf Hr Hw Hne (Hp & _ & _ & Hi & _) Htgt _.
  specialize (Htgt ltac:(by eexists)). exfalso. destruct (instruction_reads _ _ _ _ Hr) as (_ & _ & Hread & _).
  destruct (Hread _ Htgt) as (p' & Hp' & Hi' & _). rewrite (pool_at_inj _ _ _ _ Hp' Hp) in Hi'. cbn in *. congruence.
Qed.
Lemma untouching_simulates instr :
  state_slots instr = (None, None) -> simulates instr accounts.
Proof.
  intros E. apply simulates_intro; [done|]. intros s s' kp kl p l _ _ _ _ _ _ [Hin|Hin];
    apply elem_state_keys in Hin; rewrite E in Hin; naive_solver.
Qed.
Lemma instruction_simulates instr : simulates instr accounts.
Proof.
  destruct instr; [apply initialize_simulates|by apply untouching_simulates|apply add_simulates
    |apply remove_simulates|apply update_list_simulates|apply update_pool_simulates|apply deposit_simulates
    |apply withdraw_simulates|by apply untouching_simulates|apply set_owner_simulates
    |by apply untouching_simulates|by apply untouching_simulates].
Qed.
End PerHandler.

(** the accounts are genuine for whatever instruction the bytes are *)
Definition input_genuine s (input : list byte) accounts kp kl : Prop :=
  forall instr, pool_instruction_deserialize input = Ok instr -> genuine s instr accounts kp kl.
Lemma process_simulates accounts input s s' kp kl st :
  pool_process program_id accounts input s = (Ok tt, s') -> store_wf s ->
  program_id ∉ key <$> accounts -> kp <> kl -> input_genuine s input accounts kp kl ->
  pool_state_at program_id kp kl s st ->
  exists instr now ev st', pool_instruction_deserialize input = Ok instr /\
    pool_step now st ev st' /\ event_of instr accounts kp kl ev /\ pool_state_at program_id kp kl s' st'.
Proof.
  intros Hr Hw NS Hne Ha Hst. unfold pool_process in Hr.
  apply stM_bind_Ok in Hr as (instr & s1 & Hl & Hr). apply lift_Ok in Hl as [E ->]. exists instr.
  destruct (instruction_simulates accounts NS instr s1 s' kp kl st) as (now & ev & st' & ?); try done; [|by apply Ha|].
  - by eapply pool_instruction_deserialize_wf.
  - by exists now, ev, st'.
Qed.
End Simulation.
