(* ===== verification/Models.v ===== *)
(** * Concrete instances of the interfaces

    An executable [SolanaSdk] with its laws, a runtime, a [bincode] and the
    two build profiles, on which the witnesses evaluate the programs.
    [declare_id] is the real base-58 decoding; program addresses come from a
    toy hash, which the laws allow. *)
From S2P Require Import Prelude Machine Sdk TokenInstruction TokenState TokenProcessor.
From S2P Require Import PoolInstruction PoolState StakeProgram PoolProcessor PoolCodec.
From Stdlib Require Strings.String.
#[local] Open Scope Z_scope.

(** ** Base 58 *)
Definition base58_digit (b : byte) : Z :=
  let alphabet := String.list_byte_of_string "123456789ABCDEFGHJKLMNPQRSTUVWXYZabcdefghijkmnopqrstuvwxyz" in
  match list_find (fun c => c = b) alphabet with Some (i, _) => Z.of_nat i | None => 0 end.
Definition base58_key (s : string) : Pubkey :=
  new_from_array (rev (le_encode 32 (fold_left (fun z b => z * 58 + base58_digit b) (String.list_byte_of_string s) 0))).

(** ** Program addresses *)
Definition toy_hash (l : list byte) : Z :=
  fold_left (fun h b => (h * 257 + u8_of_byte b + 1) mod 2 ^ 256) l 7.
Definition toy_address (seeds : list (list byte)) (pid : Pubkey) : Pubkey :=
  key_of_Z (toy_hash (concat seeds ++ to_bytes pid)).

(** ** Sysvars *)
Definition model_clock_id : Pubkey := base58_key "SysvarC1ock11111111111111111111111111111111".
Definition model_rent_id : Pubkey := base58_key "SysvarRent111111111111111111111111111111111".
Definition model_history_id : Pubkey := base58_key "SysvarStakeHistory1111111111111111111111111".
(** [Clock] is 40 bytes with the epoch at offset 16 *)
Definition clock_data (e : Z) : list byte := replicate 16 x00 ++ u64_to_le_bytes e ++ replicate 16 x00.
Definition model_clock (i : AccountInfo) (c : Cell) : result Clock :=
  if negb (bool_decide (key i = model_clock_id)) then Err InvalidArgument
  else if (length (cell_data c) <? 40)%nat then Err InvalidArgument
  else Ok (mk_clock (le_decode (slice 16 8 (cell_data c)))).
Definition sysvar {A} (id : Pubkey) (v : A) (i : AccountInfo) (_ : Cell) : result A :=
  if bool_decide (key i = id) then Ok v else Err InvalidArgument.

Definition model_next (l : list AccountInfo) : result (AccountInfo * list AccountInfo) :=
  match l with i :: l => Ok (i, l) | [] => Err NotEnoughAccountKeys end.
Definition model_unpack_unchecked {T} `{Pack T} (d : list byte) : result T :=
  if decide (length d = pack_LEN T) then unpack_from_slice d else Err InvalidAccountData.

#[local] Instance model_sdk : SolanaSdk := {|
  next_account_info := model_next;
  pack_unpack T _ d := v ← model_unpack_unchecked d;
    if pack_is_initialized v then Ok v else Err UninitializedAccount;
  pack_unpack_unchecked T _ := model_unpack_unchecked;
  pack_pack T _ v d :=
    if decide (length d = pack_LEN T) then pack_into_slice v d else Err InvalidAccountData;
  declare_id := base58_key;
  create_program_address seeds pid := Some (toy_address seeds pid);
  find_program_address seeds pid := (toy_address (seeds ++ [[byte_of_u8 255]]) pid, 255);
  Rent := Z;
  StakeHistory := list (Z * StakeHistoryEntry);
  clock_id := model_clock_id;
  rent_id := model_rent_id;
  stake_history_id := model_history_id;
  clock_from_account_info := model_clock;
  rent_from_account_info := sysvar model_rent_id 2;
  stake_history_from_account_info := sysvar model_history_id [];
  rent_is_exempt rent lam n := rent * n <=? lam;
  rent_minimum_balance rent n := wrap 64 (rent * n);
  stake_history_get h e := snd <$> list_find (fun p => p.1 = e) h ≫= fun '(_, p) => Some p;
  system_program_id := default_pubkey;
  system_create_account from to lam space owner :=
    mk_instruction default_pubkey [meta_new from true; meta_new to true]
      (u64_to_le_bytes lam ++ u64_to_le_bytes space ++ to_bytes owner);
  one_sol := 1000000000;
|}.
#[local] Instance model_sdk_laws : SolanaSdkLaws model_sdk.
Proof.
  split; try done.
  - intros i c clock. cbn. unfold model_clock. case_match; [done|].
    destruct (Nat.ltb_spec (length (cell_data c)) 40); [done|]. intros [= <-]. cbn.
    apply le_decode_slice_u64. lia.
  - intros rent n. apply Z.mod_pos_bound. lia.
  - intros seeds pid k bump. cbn. intros [= <- <-]. done.
Qed.

(** ** The runtime whose invocations succeed without effect *)
#[local] Instance idle_runtime : Runtime := {| invoke _ _ := mret tt; invoke_signed _ _ _ := mret tt |}.
#[local] Instance idle_runtime_laws pid : RuntimeLaws idle_runtime pid.
Proof.
  split; cbn; unfold mret, stM_ret.
  - by intros ix infos s r s' ? [= <- <-].
  - by intros ix infos seeds s r s' ? [= <- <-].
  - by intros ix infos s r s' k ? ? [= <- <-].
  - by intros ix infos seeds s r s' k ? ? [= <- <-].
Qed.

(** ** [bincode]: a delegated stake account is its voter's key *)
#[local] Instance model_bincode : Bincode := {|
  bincode_serialize ix :=
    match ix with
    | StakeIxSplit lam => byte_of_u8 3 :: u64_to_le_bytes lam
    | StakeIxAuthorize k a => byte_of_u8 1 :: to_bytes k ++ [byte_of_bool (match a with Staker => false | Withdrawer => true end)]
    | StakeIxMerge => [byte_of_u8 7]
    | StakeIxDelegateStake => [byte_of_u8 2]
    | _ => [byte_of_u8 0]
    end;
  bincode_deserialize d :=
    if decide (length d = 32%nat) then
      Some (StakeStake (mk_meta_state 0 (mk_authorized default_pubkey default_pubkey) lockup_default)
              (mk_stake (mk_delegation (new_from_array d) 0 0 0 (f64_of_u64 0)) 0))
    else None;
|}.

(** ** Build profiles *)
Definition debug_build : BuildProfile := {| overflow_checks := true |}.
Definition release_build : BuildProfile := {| overflow_checks := false |}.
