(* ===== verification/PoolForward.v ===== *)
(** * When a pool instruction succeeds

    The converse of [PoolRefine] for deposits and withdrawals: if the guards
    hold and the issued invocations succeed, the handler succeeds; and the
    automation that runs a handler forward. *)
From S2P Require Import Prelude Machine Sdk TokenInstruction TokenState TokenCodec TokenProcessor TokenFacts.
From S2P Require Import PoolInstruction PoolState StakeProgram PoolProcessor PoolCodec PoolMath PoolFacts.
From S2P Require Import PoolSpec PoolFrame PoolRefine Models.

(** ** Forward execution *)
Definition succeeds (m : M unit) (s : Store) : Prop := exists s', m s = (Ok tt, s').
Lemma succeeds_bind {A} (m : M A) (f : A -> M unit) s a s1 :
  m s = (Ok a, s1) -> succeeds (f a) s1 -> succeeds (m ≫= f) s.
Proof. intros Hm [s' Hf]. exists s'. by rewrite (stM_bind_run m f s a s1 Hm). Qed.
Lemma succeeds_bind_unit (m : M unit) (f : unit -> M unit) s :
  succeeds m s -> (forall s1, m s = (Ok tt, s1) -> succeeds (f tt) s1) -> succeeds (m ≫= f) s.
Proof. intros [s1 Hm] Hf. by eapply succeeds_bind; [|apply Hf]. Qed.
Lemma fail_if_run b e s : b = false -> (fail_if b e : M unit) s = (Ok tt, s).
Proof. by intros ->. Qed.
Lemma lift_run {A} (o : result A) a s : o = Ok a -> (lift o : M A) s = (Ok a, s).
Proof. by intros ->. Qed.

Section Forward.
Context `{SDK : SolanaSdk} {LAWS : SolanaSdkLaws SDK}.
Context `{RT : Runtime} `{BC : Bincode} `{PAD : StructPadding} `{BP : BuildProfile}.
Lemma save_stake_pool_run p i s :
  (STAKE_POOL_LEN <= length (cell_data (get_cell s (key i))))%nat -> succeeds (save_stake_pool p i) s.
Proof.
  intros Hl. unfold save_stake_pool, borrow_data.
  eapply succeeds_bind; [reflexivity|]. cbv beta.
  eapply succeeds_bind; [apply lift_run; by apply (struct_serialize_long (T:=StakePool))|]. by eexists.
Qed.
Lemma save_validator_stake_list_run l i s :
  (VALIDATOR_STAKE_LIST_LEN <= length (cell_data (get_cell s (key i))))%nat -> ValidatorStakeList_wf l ->
  succeeds (save_validator_stake_list l i) s.
Proof.
  intros Hl Hw. unfold save_validator_stake_list, borrow_data.
  destruct (list_roundtrip l _ Hw Hl) as (d' & E & _ & _).
  eapply succeeds_bind; [reflexivity|]. cbv beta.
  eapply succeeds_bind; [by apply lift_run|]. by eexists.
Qed.
End Forward.

Ltac solve_guard :=
  first [ assumption | apply negb_false_iff; first [assumption | apply bool_decide_eq_true_2; congruence]
        | apply Z.ltb_ge; lia | apply bool_decide_eq_false_2; assumption | congruence ].
Ltac forward_step :=
  first [ apply next_info_run
        | apply read_clock_Ok; split; [reflexivity|eassumption]
        | apply read_stake_history_Ok; split; [reflexivity|eassumption]
        | apply read_stake_pool_Ok; split; [reflexivity|eassumption]
        | apply read_validator_stake_list_Ok; split; [reflexivity|eassumption]
        | apply get_validator_checked_Ok; split; [reflexivity|eassumption]
        | apply fail_if_run; solve_guard
        | apply lift_run; first [eassumption | reflexivity]
        | apply lift_run; match goal with H : _ = Some _ |- ok_or _ _ = _ => rewrite H; reflexivity end
        | eassumption
        | reflexivity ].
Ltac forward := repeat (eapply succeeds_bind; [solve [forward_step]|]; cbv beta iota).

Section Completeness.
Context `{SDK : SolanaSdk} {LAWS : SolanaSdkLaws SDK}.
Context `{RT : Runtime} `{BC : Bincode} `{PAD : StructPadding} `{BP : BuildProfile}.
Context {program_id : Pubkey} {RTL : RuntimeLaws RT program_id}.

Lemma deposit_completes s pool_i list_i deposit_i withdraw_i stake_i vstake_i dest_i fee_i mint_i clock_i
    history_i token_i stake_prog_i rest p l c h v i t P S s1 :
  let accounts := pool_i :: list_i :: deposit_i :: withdraw_i :: stake_i :: vstake_i :: dest_i :: fee_i ::
                  mint_i :: clock_i :: history_i :: token_i :: stake_prog_i :: rest in
  let x := cell_lamports (get_cell s (key stake_i)) in
  key pool_i <> key list_i -> store_wf s1 ->
  pool_at s (key pool_i) p -> list_at s (key list_i) l ->
  clock_from_account_info clock_i (get_cell s (key clock_i)) = Ok c ->
  stake_history_from_account_info history_i (get_cell s (key history_i)) = Ok h ->
  key stake_prog_i = stake_program_id -> key token_i = sp_token_program_id p ->
  key list_i = sp_validator_stake_list p ->
  sp_is_initialized p = true -> vsl_is_initialized l = true ->
  check_authority_withdraw p (key withdraw_i) program_id (key pool_i) = Ok tt ->
  check_authority_deposit p (key deposit_i) program_id (key pool_i) = Ok tt ->
  epoch c <= sp_last_update_epoch p ->
  stake_account_of s program_id (key pool_i) (key vstake_i) v -> vsl_find_mut l v = Some i ->
  calc_pool_deposit_amount p x = Some t -> 0 <= t ->
  deposit_invocations p pool_i deposit_i withdraw_i stake_i vstake_i dest_i mint_i clock_i history_i
    token_i stake_prog_i t s = (Ok tt, s1) ->
  cell_data (get_cell s1 (key pool_i)) = cell_data (get_cell s (key pool_i)) ->
  cell_data (get_cell s1 (key list_i)) = cell_data (get_cell s (key list_i)) ->
  plain_add (E:=ProgramError) (sp_pool_total p) t = Ok P ->
  plain_add (E:=ProgramError) (sp_stake_total p) x = Ok S ->
  succeeds (process_deposit program_id accounts) s.
Proof.
  cbv zeta. intros Hne Hw Hp Hl Hc Hh Hsp Ht Hlk Hpi Hli Haw Had He Hsa Hf Hcalc H0 Hinv Hdp Hdl HP HS.
  unfold deposit_invocations in Hinv. inv_run. unfold process_deposit.
  assert (Hsub : checked_sub t 0 = Some t) by (apply checked_sub_Some; lia).
  change (0 <? 0) with false. forward.
  apply succeeds_bind_unit.
  { apply save_stake_pool_run. rewrite Hdp. by eapply pool_at_length. }
  intros s2 Hs2. apply save_stake_pool_Ok in Hs2 as [Hs2 _]. forward.
  apply save_validator_stake_list_run.
  - rewrite (data_written_ne _ _ _ _ Hne Hs2), Hdl. by eapply list_at_length.
  - apply set_balance_wf; [by eapply list_at_wf|]. rewrite (data_written_lamports _ _ _ _ Hs2). apply Hw.
Qed.

Lemma withdraw_completes s amount pool_i list_i withdraw_i from_i to_i user_i burn_i mint_i clock_i token_i
    stake_prog_i rest p l c v i x P S s1 :
  let accounts := pool_i :: list_i :: withdraw_i :: from_i :: to_i :: user_i :: burn_i :: mint_i ::
                  clock_i :: token_i :: stake_prog_i :: rest in
  key pool_i <> key list_i -> store_wf s1 ->
  pool_at s (key pool_i) p -> list_at s (key list_i) l ->
  clock_from_account_info clock_i (get_cell s (key clock_i)) = Ok c ->
  key stake_prog_i = stake_program_id -> key token_i = sp_token_program_id p ->
  key list_i = sp_validator_stake_list p ->
  sp_is_initialized p = true -> vsl_is_initialized l = true ->
  check_authority_withdraw p (key withdraw_i) program_id (key pool_i) = Ok tt ->
  epoch c <= sp_last_update_epoch p ->
  stake_account_of s program_id (key pool_i) (key from_i) v -> vsl_find_mut l v = Some i ->
  calc_lamports_amount p amount = Some x ->
  withdraw_invocations p pool_i withdraw_i from_i to_i user_i burn_i mint_i clock_i token_i stake_prog_i
    x amount s = (Ok tt, s1) ->
  cell_data (get_cell s1 (key pool_i)) = cell_data (get_cell s (key pool_i)) ->
  cell_data (get_cell s1 (key list_i)) = cell_data (get_cell s (key list_i)) ->
  plain_sub (E:=ProgramError) (sp_pool_total p) amount = Ok P ->
  plain_sub (E:=ProgramError) (sp_stake_total p) x = Ok S ->
  succeeds (process_withdraw program_id amount accounts) s.
Proof.
  cbv zeta. intros Hne Hw Hp Hl Hc Hsp Ht Hlk Hpi Hli Haw He Hsa Hf Hcalc Hinv Hdp Hdl HP HS.
  unfold withdraw_invocations in Hinv. inv_run. unfold process_withdraw. forward.
  apply succeeds_bind_unit.
  { apply save_stake_pool_run. rewrite Hdp. by eapply pool_at_length. }
  intros s2 Hs2. apply save_stake_pool_Ok in Hs2 as [Hs2 _]. forward.
  apply save_validator_stake_list_run.
  - rewrite (data_written_ne _ _ _ _ Hne Hs2), Hdl. by eapply list_at_length.
  - apply set_balance_wf; [by eapply list_at_wf|]. rewrite (data_written_lamports _ _ _ _ Hs2). apply Hw.
Qed.
End Completeness.
