(* ===== verification/Composition.v ===== *)
(** * The stake pool over the token program

    The pool's handlers mint and burn through cross-program invocations, which
    [Sdk.Runtime] leaves to the runtime.  Here the runtime is one that answers
    an invocation of the token program with a run of [token_process]: the
    interface [TokenRuntime].  Under it the pool's count of its tokens and the
    supply its mint records move together. *)
From S2P Require Import Prelude Machine Sdk TokenInstruction TokenState TokenCodec TokenProcessor TokenFacts TokenRuns.
From S2P Require Import PoolInstruction PoolState StakeProgram PoolProcessor PoolCodec PoolMath PoolFacts PoolSpec PoolRefine PoolForward.

(** the account the runtime passes for one listed in an instruction *)
Definition info_of (m : AccountMeta) : AccountInfo := mk_info (meta_pubkey m) (meta_is_signer m) (meta_is_writable m).

(** An invocation of the token program that succeeds was a successful run of
    its processor on the listed accounts; who has signed is the runtime's
    decision.  Other programs leave the token program's accounts alone. *)
Class TokenRuntime `{SDK : SolanaSdk} (RT : Runtime) : Prop := {
  token_runtime_laws :: RuntimeLaws RT spl_token_id;
  invoke_signed_token ix infos seeds s s' :
    ix_program_id ix = spl_token_id -> invoke_signed ix infos seeds s = (Ok tt, s') ->
    exists accounts, key <$> accounts = meta_pubkey <$> ix_accounts ix /\
      token_process spl_token_id accounts (ix_data ix) s = (Ok tt, s');
  invoke_token ix infos s s' :
    ix_program_id ix = spl_token_id -> invoke ix infos s = (Ok tt, s') ->
    exists accounts, key <$> accounts = meta_pubkey <$> ix_accounts ix /\
      token_process spl_token_id accounts (ix_data ix) s = (Ok tt, s');
}.

Section TokenCalls.
Context `{SDK : SolanaSdk} {LAWS : SolanaSdkLaws SDK} `{RT : Runtime} {TRT : TokenRuntime RT}.
Implicit Types (s : Store) (i : AccountInfo) (k : Pubkey).

(** the token program owns the account at [k] and it holds the mint [m] *)
Definition token_mint_at s k (m : Mint) : Prop := cell_owner (get_cell s k) = spl_token_id /\ holds Mint s k m.

(** the instructions the pool sends, whatever the amount: eight bytes hold it
    modulo 2^64 *)
Lemma unpack_amount_wrapped x : unpack_amount (u64_to_le_bytes x) = Ok (wrap 64 x).
Proof.
  unfold unpack_amount. rewrite length_u64_to_le_bytes, Nat.leb_refl.
  rewrite take_ge by (by rewrite length_u64_to_le_bytes). unfold u64_to_le_bytes. by rewrite le_decode_encode.
Qed.
Ltac unpack_sent :=
  unfold token_unpack, token_pack; rewrite split_first_cons;
  cbn -[unpack_amount u64_to_le_bytes u8_of_byte byte_of_u8]; rewrite u8_of_byte_of_u8, Z.mod_small by done;
  by rewrite unpack_amount_wrapped.
Lemma unpack_mint_to x : token_unpack (token_pack (MintTo x)) = Ok (MintTo (wrap 64 x)).
Proof. unpack_sent. Qed.
Lemma unpack_burn x : token_unpack (token_pack (Burn x)) = Ok (Burn (wrap 64 x)).
Proof. unpack_sent. Qed.
Lemma unpack_transfer x : token_unpack (token_pack (Transfer x)) = Ok (Transfer (wrap 64 x)).
Proof. unpack_sent. Qed.
Lemma sent_nonneg x : 0 <= wrap 64 x.
Proof. apply Z.mod_pos_bound. lia. Qed.
(** a call of the token program is a run of the handler its bytes name *)
Lemma token_ran accounts data instr s s' :
  token_process spl_token_id accounts data s = (Ok tt, s') -> token_unpack data = Ok instr ->
  process_token_instruction spl_token_id accounts instr s = (Ok tt, s').
Proof.
  unfold token_process. intros (i & ? & Hi & Ht)%stM_bind_Ok Hu. apply lift_Ok in Hi as [Hi <-]. congruence.
Qed.
Lemma token_call ix infos seeds s s' instr :
  invoke_signed ix infos seeds s = (Ok tt, s') -> ix_program_id ix = spl_token_id ->
  token_unpack (ix_data ix) = Ok instr ->
  exists accounts, key <$> accounts = meta_pubkey <$> ix_accounts ix /\
    process_token_instruction spl_token_id accounts instr s = (Ok tt, s').
Proof.
  intros Hr Hid Hu. destruct (invoke_signed_token _ _ _ _ _ Hid Hr) as (accounts & Hk & Ht).
  exists accounts. split; [exact Hk|]. by eapply token_ran.
Qed.
Lemma token_call_unsigned ix infos s s' instr :
  invoke ix infos s = (Ok tt, s') -> ix_program_id ix = spl_token_id -> token_unpack (ix_data ix) = Ok instr ->
  exists accounts, key <$> accounts = meta_pubkey <$> ix_accounts ix /\
    process_token_instruction spl_token_id accounts instr s = (Ok tt, s').
Proof.
  intros Hr Hid Hu. destruct (invoke_token _ _ _ _ Hid Hr) as (accounts & Hk & Ht).
  exists accounts. split; [exact Hk|]. by eapply token_ran.
Qed.
(** a mint rewritten with a new supply *)
Lemma token_mint_written s s' k K m z :
  token_mint_at s k m -> data_kept K s s' -> decodes Mint s' k (set_mint_supply z m) ->
  token_mint_at s' k (set_mint_supply z m).
Proof. intros [Ho [_ Hi]] HK Hd. split; [|by split]. by rewrite (proj1 (HK k)). Qed.

Lemma token_mint_to_run pool token_i mint_i dest_i auth_i ty bump x s s' m :
  token_mint_to pool token_i mint_i dest_i auth_i ty bump x s = (Ok tt, s') -> u64_range x ->
  key token_i = spl_token_id -> token_mint_at s (key mint_i) m ->
  token_mint_at s' (key mint_i) (set_mint_supply (mint_supply m + x) m) /\ mint_supply m + x < 2 ^ 64.
Proof.
  unfold token_mint_to. intros Hr Hx Hid Hm.
  apply stM_bind_Ok in Hr as (ix & ? & Hix & Hr). apply lift_Ok in Hix as [[= <-] <-].
  destruct (token_call _ _ _ _ _ _ Hr Hid (unpack_mint_to x)) as (accounts & Hk & Ht).
  rewrite (wrap_small x Hx) in Ht.
  apply mint_to_run in Ht as (mi & di & ai & signers & m' & b & authority & -> & Hm' & _ & _ & _ & _ & _ & _ & _ &
    Hle & HK & _ & Hd); [|by destruct Hx].
  injection Hk as Hmi _. rewrite Hmi in *.
  rewrite (decodes_inj _ _ _ _ (proj1 Hm') (proj1 (proj2 Hm))) in *. split; [by eapply token_mint_written|done].
Qed.
Lemma token_burn_run pool token_i burn_i mint_i auth_i ty bump x s s' m :
  token_burn pool token_i burn_i mint_i auth_i ty bump x s = (Ok tt, s') -> u64_range x ->
  key token_i = spl_token_id -> token_mint_at s (key mint_i) m ->
  token_mint_at s' (key mint_i) (set_mint_supply (mint_supply m - x) m) /\ x <= mint_supply m.
Proof.
  unfold token_burn. intros Hr Hx Hid Hm.
  apply stM_bind_Ok in Hr as (ix & ? & Hix & Hr). apply lift_Ok in Hix as [[= <-] <-].
  destruct (token_call _ _ _ _ _ _ Hr Hid (unpack_burn x)) as (accounts & Hk & Ht).
  rewrite (wrap_small x Hx) in Ht.
  apply burn_run in Ht as (bi & mi & ai & signers & a & m' & a1 & -> & _ & Hm' & _ & _ & _ & _ &
    Hle & _ & _ & HK & _ & Hd); [|by destruct Hx].
  injection Hk as _ Hmi _. rewrite Hmi in *.
  rewrite (decodes_inj _ _ _ _ (proj1 Hm') (proj1 (proj2 Hm))) in *. split; [by eapply token_mint_written|done].
Qed.
(** calls of other programs *)
Lemma token_mint_kept K s s' k m : owned_kept K spl_token_id s s' -> k ∉ K -> token_mint_at s k m -> token_mint_at s' k m.
Proof.
  intros HK Hk [Ho [Hd Hi]]. destruct (HK k Ho) as [Ho' He]. split; [done|]. split; [|done].
  eapply decodes_get_cell; [|exact Hd]. symmetry. by apply He.
Qed.
End TokenCalls.

Section Trading.
Context `{SDK : SolanaSdk} {LAWS : SolanaSdkLaws SDK} `{RT : Runtime} {TRT : TokenRuntime RT}.
Context `{BC : Bincode} `{PAD : StructPadding} `{BP : BuildProfile}.
Context {program_id : Pubkey} {RTL : RuntimeLaws RT program_id} (NS : stake_program_id <> spl_token_id).
Implicit Types (s : Store) (p : StakePool) (l : ValidatorStakeList) (accounts : list AccountInfo).

(** where the mint is among the accounts of a trading instruction *)
Definition mint_position (instr : StakePoolInstruction) : option nat :=
  match instr with
  | Deposit => Some 8%nat
  | Withdraw _ | AddValidatorStakeAccount | RemoveValidatorStakeAccount => Some 7%nat
  | _ => None
  end.
(** the pool's token is one of the token program's, and as many tokens exist
    as the pool has counted *)
Definition supply_in_step s p : Prop :=
  sp_token_program_id p = spl_token_id /\
  exists m, token_mint_at s (sp_pool_mint p) m /\ mint_supply m = sp_pool_total p.

(** the supply of the mint [m] of the pool [p] has changed by [d], and the
    pool's count by as much, modulo 2^64 *)
Definition books_moved s' kp p m (d : Z) : Prop :=
  exists p' m',
    pool_at s' kp p' /\ pool_constants p' = pool_constants p /\ token_mint_at s' (sp_pool_mint p) m' /\
    mint_authority m' = mint_authority m /\ mint_supply m' = mint_supply m + d /\
    sp_pool_total p' = wrap 64 (sp_pool_total p + d).
Lemma token_mint_supply s k m : token_mint_at s k m -> u64_range (mint_supply m).
Proof. intros [_ [Hd _]]. exact (proj1 (decodes_wf _ _ _ Hd)). Qed.
(** the token program checks its sums, so that a count in step does not wrap *)
Lemma books_moved_in_step s s' kp p :
  supply_in_step s p -> (forall m, token_mint_at s (sp_pool_mint p) m -> exists d, books_moved s' kp p m d) ->
  exists p', pool_at s' kp p' /\ supply_in_step s' p'.
Proof.
  intros (Hid & m & Hm & Hs) Hb. destruct (Hb m Hm) as (d & p' & m' & Hp' & [= _ _ _ _ Emint Etok _] & Hm' & _ & Hsup & Ht).
  exists p'. split; [exact Hp'|]. split; [congruence|]. exists m'. rewrite Emint. split; [exact Hm'|].
  rewrite Ht, <- Hs, <- Hsup. symmetry. by apply wrap_small, (token_mint_supply s' (sp_pool_mint p)).
Qed.

Lemma stake_kept {A} (f : M A) s a s' k m :
  respects (owned_kept [] spl_token_id) f -> f s = (Ok a, s') -> token_mint_at s k m -> token_mint_at s' k m.
Proof. intros Hf Hr. apply (token_mint_kept []); [exact (Hf _ _ _ Hr)|apply not_elem_of_nil]. Qed.
(** takes [Hm], a mint, past the stake program's calls *)
Ltac keep_mint Hm :=
  repeat match type of Hm with token_mint_at ?s0 _ _ =>
    match goal with H : _ s0 = (Ok _, _) |- _ =>
      apply (fun Hf => stake_kept _ _ _ _ _ _ Hf H) in Hm;
        [|first [by apply stake_authorize_owned|by apply stake_split_owned|by apply stake_merge_owned]]
    end end.
Lemma deposit_calls_supply p pool_i deposit_i withdraw_i stake_i vstake_i dest_i mint_i clock_i history_i
    token_i stake_prog_i x s s1 m :
  deposit_invocations p pool_i deposit_i withdraw_i stake_i vstake_i dest_i mint_i clock_i history_i
    token_i stake_prog_i x s = (Ok tt, s1) ->
  u64_range x -> key token_i = spl_token_id -> token_mint_at s (key mint_i) m ->
  token_mint_at s1 (key mint_i) (set_mint_supply (mint_supply m + x) m).
Proof.
  unfold deposit_invocations. intros (? & ? & H1 & (? & ? & H2 & (? & ? & H3 & Hr)%stM_bind_Ok)%stM_bind_Ok)%stM_bind_Ok
    Hx Ht Hm.
  keep_mint Hm. exact (proj1 (token_mint_to_run _ _ _ _ _ _ _ _ _ _ _ Hr Hx Ht Hm)).
Qed.
Lemma withdraw_calls_supply p pool_i withdraw_i from_i to_i user_i burn_i mint_i clock_i token_i stake_prog_i
    y x s s1 m :
  withdraw_invocations p pool_i withdraw_i from_i to_i user_i burn_i mint_i clock_i token_i stake_prog_i
    y x s = (Ok tt, s1) ->
  u64_range x -> key token_i = spl_token_id -> token_mint_at s (key mint_i) m ->
  token_mint_at s1 (key mint_i) (set_mint_supply (mint_supply m - x) m).
Proof.
  unfold withdraw_invocations. intros (? & ? & H1 & (? & ? & H2 & (? & ? & H3 & Hr)%stM_bind_Ok)%stM_bind_Ok)%stM_bind_Ok
    Hx Ht Hm.
  keep_mint Hm. exact (proj1 (token_burn_run _ _ _ _ _ _ _ _ _ _ _ Hr Hx Ht Hm)).
Qed.
Lemma add_calls_supply p pool_i deposit_i withdraw_i stake_i dest_i mint_i clock_i token_i stake_prog_i
    amount y x s s1 m :
  add_invocations p pool_i deposit_i withdraw_i stake_i dest_i mint_i clock_i token_i stake_prog_i amount s
    = (Ok y, s1) ->
  amount y = Some x -> u64_range x -> key token_i = spl_token_id -> token_mint_at s (key mint_i) m ->
  token_mint_at s1 (key mint_i) (set_mint_supply (mint_supply m + x) m).
Proof.
  unfold add_invocations. intros (? & ? & H1 & (? & ? & H2 & (z & ? & [= <- <-] & Hr)%stM_bind_Ok)%stM_bind_Ok)%stM_bind_Ok
    Hy Hx Ht Hm.
  apply stM_bind_Ok in Hr as (t & ? & [Ha%ok_or_Ok <-]%lift_Ok & Hr).
  apply stM_bind_Ok in Hr as ([] & ? & Hr & [= <- <-]). rewrite Hy in Ha. injection Ha as <-.
  keep_mint Hm. exact (proj1 (token_mint_to_run _ _ _ _ _ _ _ _ _ _ _ Hr Hx Ht Hm)).
Qed.
Lemma remove_calls_supply p pool_i withdraw_i new_auth_i stake_i burn_i mint_i clock_i token_i stake_prog_i
    amount y x s s1 m :
  remove_invocations p pool_i withdraw_i new_auth_i stake_i burn_i mint_i clock_i token_i stake_prog_i amount s
    = (Ok y, s1) ->
  amount y = Some x -> u64_range x -> key token_i = spl_token_id -> token_mint_at s (key mint_i) m ->
  token_mint_at s1 (key mint_i) (set_mint_supply (mint_supply m - x) m).
Proof.
  unfold remove_invocations. intros (? & ? & H1 & (? & ? & H2 & (z & ? & [= <- <-] & Hr)%stM_bind_Ok)%stM_bind_Ok)%stM_bind_Ok
    Hy Hx Ht Hm.
  apply stM_bind_Ok in Hr as (t & ? & [Ha%ok_or_Ok <-]%lift_Ok & Hr).
  apply stM_bind_Ok in Hr as ([] & ? & Hr & [= <- <-]). rewrite Hy in Ha. injection Ha as <-.
  keep_mint Hm. exact (proj1 (token_burn_run _ _ _ _ _ _ _ _ _ _ _ Hr Hx Ht Hm)).
Qed.

(** the pool's two saves leave the mint alone *)
Lemma saves_keep_mint s s1 s' p l kp kl k m m1 :
  pool_at s kp p -> list_at s kl l -> token_mint_at s k m -> token_mint_at s1 k m1 -> others_kept kp kl s1 s' ->
  token_mint_at s' k m1.
Proof.
  intros Hp%pool_at_length Hl%list_at_length [_ [[Hlen _] _]] [Ho [Hd Hi]] Hk.
  assert (E : get_cell s' k = get_cell s1 k).
  { pose proof list_capacity. unfold STAKE_POOL_LEN in Hp. change (pack_LEN Mint) with 82%nat in Hlen.
    apply Hk; intros ->; lia. }
  split; [by rewrite E|]. split; [|done]. eapply decodes_get_cell; [|exact Hd]. by rewrite E.
Qed.
(** the books after a minting and after a burning *)
Lemma books_minted s s1 s' p l kp kl m t P S :
  pool_at s kp p -> list_at s kl l -> token_mint_at s (sp_pool_mint p) m ->
  plain_add (E:=ProgramError) (sp_pool_total p) t = Ok P ->
  token_mint_at s1 (sp_pool_mint p) (set_mint_supply (mint_supply m + t) m) -> others_kept kp kl s1 s' ->
  pool_at s' kp (set_totals P S p) -> books_moved s' kp p m t.
Proof.
  intros Hp Hl Hm [HP _]%plain_add_Ok Hm1 Ho Hp'. exists (set_totals P S p), (set_mint_supply (mint_supply m + t) m).
  split; [exact Hp'|]. split; [done|]. split; [exact (saves_keep_mint _ _ _ _ _ _ _ _ _ _ Hp Hl Hm Hm1 Ho)|]. done.
Qed.
Lemma books_burned s s1 s' p l kp kl m t P S :
  pool_at s kp p -> list_at s kl l -> token_mint_at s (sp_pool_mint p) m ->
  plain_sub (E:=ProgramError) (sp_pool_total p) t = Ok P ->
  token_mint_at s1 (sp_pool_mint p) (set_mint_supply (mint_supply m - t) m) -> others_kept kp kl s1 s' ->
  pool_at s' kp (set_totals P S p) -> books_moved s' kp p m (- t).
Proof.
  intros Hp Hl Hm [HP _]%plain_sub_Ok Hm1 Ho Hp'. exists (set_totals P S p), (set_mint_supply (mint_supply m - t) m).
  split; [exact Hp'|]. split; [done|]. split; [exact (saves_keep_mint _ _ _ _ _ _ _ _ _ _ Hp Hl Hm Hm1 Ho)|]. done.
Qed.

Lemma deposit_books accounts s s' p l kp m :
  process_deposit program_id accounts s = (Ok tt, s') -> store_wf s ->
  slot_key (Some 0%nat) accounts = Some kp -> kp <> sp_validator_stake_list p ->
  pool_at s kp p -> list_at s (sp_validator_stake_list p) l ->
  slot_key (Some 8%nat) accounts = Some (sp_pool_mint p) -> sp_token_program_id p = spl_token_id -> token_mint_at s (sp_pool_mint p) m ->
  exists t, u64_range t /\ books_moved s' kp p m t.
Proof.
  intros Hr Hw Hkp Hne Hp Hl Hmint Hid Hm.
  destruct (deposit_run _ s s' p l _ _ Hr Hw Hkp Hne Hp Hl eq_refl)
    as (? & ? & ? & ? & stake_i & ? & ? & ? & mint_i & ? & ? & ? & ? & ? & c & v & i & t & P & S & s1 & Hrun).
  cbv zeta in Hrun. destruct Hrun as (-> & _ & _ & _ & _ & Htok & _ & _ & _ & _ & _ & _ & _ & _ & Ht & Hinv & _ & HP & HS &
    Hp' & _ & Ho).
  injection Hmint as Hmint. rewrite <- Hmint in Hm. rewrite Hid in Htok.
  apply calc_pool_deposit_amount_bounds in Ht as [Htr _]; [|by eapply pool_at_wf|apply Hw].
  pose proof (deposit_calls_supply _ _ _ _ _ _ _ _ _ _ _ _ _ _ _ _ Hinv Htr Htok Hm) as Hm1.
  rewrite Hmint in Hm, Hm1. exists t. split; [done|]. by eapply books_minted.
Qed.
Lemma withdraw_books amount accounts s s' p l kp m :
  process_withdraw program_id amount accounts s = (Ok tt, s') -> u64_range amount -> store_wf s ->
  slot_key (Some 0%nat) accounts = Some kp -> kp <> sp_validator_stake_list p ->
  pool_at s kp p -> list_at s (sp_validator_stake_list p) l ->
  slot_key (Some 7%nat) accounts = Some (sp_pool_mint p) -> sp_token_program_id p = spl_token_id -> token_mint_at s (sp_pool_mint p) m ->
  exists t, u64_range t /\ books_moved s' kp p m (- t).
Proof.
  intros Hr Hx Hw Hkp Hne Hp Hl Hmint Hid Hm.
  destruct (withdraw_run _ _ s s' p l _ _ Hr Hw Hkp Hne Hp Hl eq_refl)
    as (? & ? & ? & ? & ? & ? & ? & mint_i & ? & ? & ? & ? & c & v & i & x & P & S & s1 & Hrun).
  cbv zeta in Hrun. destruct Hrun as (-> & _ & _ & _ & _ & Htok & _ & _ & _ & _ & _ & _ & _ & _ & Hinv & _ & HP & HS &
    Hp' & _ & Ho).
  injection Hmint as Hmint. rewrite <- Hmint in Hm. rewrite Hid in Htok.
  pose proof (withdraw_calls_supply _ _ _ _ _ _ _ _ _ _ _ _ _ _ _ _ Hinv Hx Htok Hm) as Hm1.
  rewrite Hmint in Hm, Hm1. exists amount. split; [done|]. by eapply books_burned.
Qed.
Lemma add_books accounts s s' p l kp m :
  process_add_validator_stake_account program_id accounts s = (Ok tt, s') -> store_wf s ->
  slot_key (Some 0%nat) accounts = Some kp -> kp <> sp_validator_stake_list p ->
  pool_at s kp p -> list_at s (sp_validator_stake_list p) l -> sp_token_program_id p = spl_token_id -> token_mint_at s (sp_pool_mint p) m ->
  exists t, u64_range t /\ books_moved s' kp p m t.
Proof.
  intros Hr Hw Hkp Hne Hp Hl Hid Hm.
  destruct (add_run _ s s' p l _ _ Hr Hw Hkp Hne Hp Hl eq_refl)
    as (? & ? & ? & ? & ? & ? & ? & mint_i & ? & ? & ? & ? & ? & c & v & x & t & P & S & s1 & Hrun).
  destruct Hrun as (-> & _ & _ & _ & _ & _ & Htok & Hmint & _ & _ & _ & _ & _ & _ & _ & _ & _ & Hinv & Hx & Ht & _ & HP & HS &
    Hp' & _ & Ho).
  rewrite <- Hmint in Hm. rewrite Hid in Htok. pose proof Ht as Htr.
  apply calc_pool_deposit_amount_bounds in Htr as [Htr _]; [|by eapply pool_at_wf|done].
  pose proof (add_calls_supply _ _ _ _ _ _ _ _ _ _ _ _ _ _ _ _ Hinv Ht Htr Htok Hm) as Hm1.
  rewrite Hmint in Hm, Hm1. exists t. split; [done|]. by eapply books_minted.
Qed.
Lemma remove_books accounts s s' p l kp m :
  process_remove_validator_stake_account program_id accounts s = (Ok tt, s') -> store_wf s ->
  slot_key (Some 0%nat) accounts = Some kp -> kp <> sp_validator_stake_list p ->
  pool_at s kp p -> list_at s (sp_validator_stake_list p) l -> sp_token_program_id p = spl_token_id -> token_mint_at s (sp_pool_mint p) m ->
  exists t, u64_range t /\ books_moved s' kp p m (- t).
Proof.
  intros Hr Hw Hkp Hne Hp Hl Hid Hm.
  destruct (remove_run _ s s' p l _ _ Hr Hw Hkp Hne Hp Hl eq_refl)
    as (? & ? & ? & ? & ? & ? & ? & mint_i & ? & ? & ? & ? & c & v & x & t & P & S & s1 & Hrun).
  destruct Hrun as (-> & _ & _ & _ & _ & Htok & Hmint & _ & _ & _ & _ & _ & _ & _ & _ & Hinv & Hx & Ht & HP & HS &
    Hp' & _ & Ho).
  rewrite <- Hmint in Hm. rewrite Hid in Htok. pose proof (pool_at_wf _ _ _ Hp) as (_ & _ & _ & HSr & HPr & _).
  assert (Htr : u64_range t).
  { pose proof Ht as Hb. unfold u64_range in *. apply mul_div_bounds in Hb as (_ & ? & _); lia. }
  pose proof (remove_calls_supply _ _ _ _ _ _ _ _ _ _ _ _ _ _ _ _ Hinv Ht Htr Htok Hm) as Hm1.
  rewrite Hmint in Hm, Hm1. exists t. split; [done|]. by eapply books_burned.
Qed.
End Trading.
