(* ===== verification/Samples.v ===== *)
(** * A concrete pool

    The accounts on which the witnesses run the stake pool: a pool of one
    validator, its list, the clock, a stake account to deposit. *)
From S2P Require Import Prelude Machine Sdk TokenInstruction TokenState TokenCodec TokenProcessor TokenFacts.
From S2P Require Import PoolInstruction PoolState StakeProgram PoolProcessor PoolCodec PoolMath PoolFacts.
From S2P Require Import PoolSpec PoolRefine PoolSim Models PoolForward.

(** ** Stored accounts, behind their codecs' round trips *)
#[local] Existing Instances model_sdk model_sdk_laws idle_runtime model_bincode zero_padding debug_build.

Lemma stored_pool (p : StakePool) :
  { d : list byte | StakePool_wf p -> stake_pool_deserialize d = Ok p /\ length d = STAKE_POOL_LEN }.
Proof.
  pose proof (pool_store p (replicate STAKE_POOL_LEN x00)) as Hex. rewrite length_replicate in Hex.
  destruct (stake_pool_serialize p (replicate STAKE_POOL_LEN x00)) as [d| |] eqn:E.
  - exists d. intros Hw. destruct (Hex Hw) as (? & [= ->] & -> & ? & _); done.
  - exists []. intros Hw. by destruct (Hex Hw) as (? & ? & _).
  - exists []. intros Hw. by destruct (Hex Hw) as (? & ? & _).
Qed.
Lemma stored_list (l : ValidatorStakeList) :
  { d : list byte | ValidatorStakeList_wf l ->
                    validator_stake_list_deserialize d = Ok l /\ length d = VALIDATOR_STAKE_LIST_LEN }.
Proof.
  pose proof (list_roundtrip l (replicate VALIDATOR_STAKE_LIST_LEN x00)) as Hex. rewrite length_replicate in Hex.
  destruct (validator_stake_list_serialize l (replicate VALIDATOR_STAKE_LIST_LEN x00)) as [d| |] eqn:E.
  - exists d. intros Hw. destruct (Hex Hw) as (? & [= ->] & -> & ?); done.
  - exists []. intros Hw. by destruct (Hex Hw) as (? & ? & _).
  - exists []. intros Hw. by destruct (Hex Hw) as (? & ? & _).
Qed.
Definition pool_bytes (p : StakePool) : list byte := proj1_sig (stored_pool p).
Definition list_bytes (l : ValidatorStakeList) : list byte := proj1_sig (stored_list l).
Lemma pool_bytes_short p : StakePool_wf p -> (length (pool_bytes p) < VALIDATOR_STAKE_LIST_LEN)%nat.
Proof.
  intros Hw. unfold pool_bytes. rewrite (proj2 (proj2_sig (stored_pool p) Hw)). pose proof list_capacity.
  unfold STAKE_POOL_LEN. lia.
Qed.

(** ** Keys *)
Definition PID : Pubkey := key_of_Z 1000.
Definition KP : Pubkey := key_of_Z 1.
Definition KL : Pubkey := key_of_Z 2.
Definition OWNER : Pubkey := key_of_Z 3.
Definition MINT : Pubkey := key_of_Z 4.
Definition FEE_ACCOUNT : Pubkey := key_of_Z 5.
Definition VOTE : Pubkey := key_of_Z 6.
Definition USER_STAKE : Pubkey := key_of_Z 7.
Definition USER_TOKENS : Pubkey := key_of_Z 8.
Definition USER : Pubkey := key_of_Z 9.
Definition WITHDRAW_AUTH : Pubkey := (find_authority_bump_seed PID KP AUTHORITY_WITHDRAW).1.
Definition DEPOSIT_AUTH : Pubkey := (find_authority_bump_seed PID KP AUTHORITY_DEPOSIT).1.
Definition VOTE_STAKE : Pubkey := (find_stake_address_for_validator PID VOTE KP).1.
Definition info (k : Pubkey) : AccountInfo := mk_info k false true.
Definition signer (k : Pubkey) : AccountInfo := mk_info k true true.

(** 3000 lamports under management back 1500 pool tokens *)
Definition the_pool : StakePool :=
  mk_stake_pool 1 OWNER 255 255 KL MINT FEE_ACCOUNT spl_token_id 3000 1500 7 (mk_fee 100 3).
Definition the_list : ValidatorStakeList :=
  mk_validator_stake_list 1 [mk_validator_stake_info VOTE 3000 7].
(** a second validator to add, a new owner's fee account *)
Definition VOTE2 : Pubkey := key_of_Z 10.
Definition VOTE2_STAKE : Pubkey := (find_stake_address_for_validator PID VOTE2 KP).1.
Definition NEW_FEE : Pubkey := key_of_Z 11.
Definition NEW_OWNER : Pubkey := key_of_Z 12.
(** a pool and a list still to be initialised, their mint and fee account *)
Definition KP0 : Pubkey := key_of_Z 20.
Definition KL0 : Pubkey := key_of_Z 21.
Definition MINT0 : Pubkey := key_of_Z 22.
Definition FEE0 : Pubkey := key_of_Z 23.
Definition WITHDRAW_AUTH0 : Pubkey := (find_authority_bump_seed PID KP0 AUTHORITY_WITHDRAW).1.
(** the liquidity pool: its state account, token accounts and METALP mint *)
Definition LIQ : Pubkey := key_of_Z 30.
Definition LIQ_WSOL : Pubkey := key_of_Z 31.
Definition LIQ_STSOL : Pubkey := key_of_Z 32.
Definition USER_WSOL : Pubkey := key_of_Z 33.
Definition USER_STSOL : Pubkey := key_of_Z 34.
Definition METALP : Pubkey := key_of_Z 35.
Definition WSOL : Pubkey := key_of_Z 36.
Definition LIQ_AUTH : Pubkey := (find_program_address [to_bytes LIQ; AUTHORITY] PID).1.

Definition zero_pool : StakePool :=
  mk_stake_pool 0 default_pubkey 0 0 default_pubkey default_pubkey default_pubkey default_pubkey 0 0 0 (mk_fee 0 0).
Definition zero_list : ValidatorStakeList := mk_validator_stake_list 0 [].
(** a pool record with a zero fee in an account of no program's *)
Definition forged_pool : StakePool :=
  mk_stake_pool 1 USER 0 0 USER MINT USER spl_token_id 1000 10 0 (mk_fee 0 0).
Definition FORGED : Pubkey := key_of_Z 40.
(** the bytes of a token account of [mint] with [amount] tokens, and of a mint *)
Definition token_account (mint owner : Pubkey) (amount : Z) : Account :=
  mk_account mint owner amount None Initialized None 0 None.
Definition token_mint (authority : Pubkey) (supply : Z) : Mint := mk_mint (Some authority) supply 9 true None.
Definition packed {T} `{Pack T} (v : T) : list byte :=
  match pack_into_slice v (replicate (pack_LEN T) x00) with Ok d => d | _ => [] end.
Definition token_cell {T} `{Pack T} (v : T) : Cell := mk_cell 10 (packed v) spl_token_id.

Definition the_cells : list (Pubkey * Cell) :=
  [ (KP, mk_cell 5000 (pool_bytes the_pool) PID);
    (KL, mk_cell 100000 (list_bytes the_list) PID);
    (clock_id, mk_cell 1 (clock_data 7) default_pubkey);
    (VOTE_STAKE, mk_cell 3000 (to_bytes VOTE) stake_program_id);
    (VOTE, mk_cell 26 [] default_pubkey);
    (USER_STAKE, mk_cell 900 (to_bytes VOTE) stake_program_id);
    (VOTE2_STAKE, mk_cell 1200 (to_bytes VOTE2) stake_program_id);
    (NEW_FEE, token_cell (token_account MINT NEW_OWNER 0));
    (KP0, mk_cell 5000 (pool_bytes zero_pool) PID);
    (KL0, mk_cell 100000 (list_bytes zero_list) PID);
    (MINT0, token_cell (token_mint WITHDRAW_AUTH0 0));
    (FEE0, token_cell (token_account MINT0 OWNER 0));
    (LIQ_WSOL, token_cell (token_account WSOL LIQ_AUTH 1000));
    (LIQ_STSOL, token_cell (token_account MINT LIQ_AUTH 0));
    (USER_WSOL, token_cell (token_account WSOL USER 60));
    (USER_STSOL, token_cell (token_account MINT USER 80));
    (METALP, token_cell (token_mint LIQ_AUTH 500));
    (FORGED, mk_cell 1 (pool_bytes forged_pool) USER) ].
Definition store_of (cells : list (Pubkey * Cell)) : Store := list_to_map cells.
Definition the_store : Store := store_of the_cells.

Lemma the_pool_wf : StakePool_wf the_pool.
Proof. by repeat split. Qed.
Lemma the_list_wf : ValidatorStakeList_wf the_list.
Proof. split_and!; cbn; [done|done|unfold MAX_VALIDATOR_STAKE_ACCOUNTS; lia|]. apply Forall_singleton. by split. Qed.
Lemma pool_cell : get_cell the_store KP = mk_cell 5000 (pool_bytes the_pool) PID.
Proof. vm_compute. reflexivity. Qed.
Lemma list_cell : get_cell the_store KL = mk_cell 100000 (list_bytes the_list) PID.
Proof. vm_compute. reflexivity. Qed.
Lemma clock_cell : get_cell the_store clock_id = mk_cell 1 (clock_data 7) default_pubkey.
Proof. vm_compute. reflexivity. Qed.
Lemma vote_stake_cell : get_cell the_store VOTE_STAKE = mk_cell 3000 (to_bytes VOTE) stake_program_id.
Proof. vm_compute. reflexivity. Qed.
Lemma user_stake_cell : get_cell the_store USER_STAKE = mk_cell 900 (to_bytes VOTE) stake_program_id.
Proof. vm_compute. reflexivity. Qed.
Lemma the_pool_at : pool_at the_store KP the_pool.
Proof. unfold pool_at. rewrite pool_cell. exact (proj1 (proj2_sig (stored_pool the_pool) the_pool_wf)). Qed.
Lemma the_list_at : list_at the_store KL the_list.
Proof. unfold list_at. rewrite list_cell. exact (proj1 (proj2_sig (stored_list the_list) the_list_wf)). Qed.
Lemma store_of_wf cells : Forall (fun c => u64_range (cell_lamports c.2)) cells -> store_wf (store_of cells).
Proof.
  intros Hf k. unfold get_cell, store_of. destruct (list_to_map cells !! k) as [c|] eqn:E; [|done].
  apply elem_of_list_to_map_2 in E. by apply (proj1 (Forall_forall _ _) Hf) in E.
Qed.
Lemma the_store_wf : store_wf the_store.
Proof. apply store_of_wf. unfold the_cells. repeat (apply Forall_cons; split; [by cbn|]). by apply Forall_nil. Qed.
Lemma the_clock : clock_from_account_info (info clock_id) (get_cell the_store clock_id) = Ok (mk_clock 7).
Proof. rewrite clock_cell. vm_compute. reflexivity. Qed.
Lemma the_stake_account : stake_account_of the_store PID KP VOTE_STAKE VOTE.
Proof.
  split; [|reflexivity]. rewrite vote_stake_cell. cbn [cell_data]. eexists _, _. split; [vm_compute; reflexivity|].
  vm_compute. reflexivity.
Qed.
Lemma withdraw_auth_ok : check_authority_withdraw the_pool WITHDRAW_AUTH PID KP = Ok tt.
Proof. vm_compute. reflexivity. Qed.
Lemma deposit_auth_ok : check_authority_deposit the_pool DEPOSIT_AUTH PID KP = Ok tt.
Proof. vm_compute. reflexivity. Qed.
Lemma the_state_at : pool_state_at PID KP KL the_store (mk_pstate the_pool the_list).
Proof.
  split; [apply the_pool_at|]. split; [apply the_list_at|]. do 3 (split; [reflexivity|]).
  split; [by rewrite pool_cell|]. split; [by rewrite list_cell|]. rewrite pool_cell. exact (pool_bytes_short _ the_pool_wf).
Qed.

(** ** Sample instructions *)
Definition clock_info : AccountInfo := info clock_id.
Definition history_info : AccountInfo := info stake_history_id.
Definition token_info : AccountInfo := info spl_token_id.
Definition stake_program_info : AccountInfo := info stake_program_id.
Definition deposit_accounts : list AccountInfo :=
  [ info KP; info KL; info DEPOSIT_AUTH; info WITHDRAW_AUTH; info USER_STAKE; info VOTE_STAKE;
    info USER_TOKENS; info FEE_ACCOUNT; info MINT; clock_info; history_info; token_info; stake_program_info ].
Definition withdraw_accounts : list AccountInfo :=
  [ info KP; info KL; info WITHDRAW_AUTH; info VOTE_STAKE; info USER_STAKE; info USER; info USER_TOKENS;
    info MINT; clock_info; token_info; stake_program_info ].

Lemma the_history : stake_history_from_account_info history_info (get_cell the_store (key history_info)) = Ok [].
Proof. vm_compute. reflexivity. Qed.
Lemma KP_KL : KP <> KL.
Proof. by vm_compute. Qed.
Lemma user_stake_lamports : cell_lamports (get_cell the_store (key (info USER_STAKE))) = 900.
Proof. cbn [key info]. by rewrite user_stake_cell. Qed.
Lemma deposit_succeeds : succeeds (process_deposit PID deposit_accounts) the_store.
Proof.
  eapply (deposit_completes (program_id:=PID) the_store) with (p := the_pool) (l := the_list)
    (c := mk_clock 7) (v := VOTE) (i := 0%nat) (t := 450) (P := 1950) (S := 3900) (s1 := the_store);
    rewrite ?user_stake_lamports;
    [exact KP_KL|exact the_store_wf|exact the_pool_at|exact the_list_at|exact the_clock|exact the_history
    |reflexivity|reflexivity|reflexivity|reflexivity|reflexivity|exact withdraw_auth_ok|exact deposit_auth_ok
    |done|exact the_stake_account|reflexivity|reflexivity|done|reflexivity|reflexivity|reflexivity
    |reflexivity|reflexivity].
Qed.
Lemma withdraw_succeeds : succeeds (process_withdraw PID 100 withdraw_accounts) the_store.
Proof.
  eapply (withdraw_completes (program_id:=PID) the_store) with (p := the_pool) (l := the_list)
    (c := mk_clock 7) (v := VOTE) (i := 0%nat) (x := 200) (P := 1400) (S := 2800) (s1 := the_store);
    [exact KP_KL|exact the_store_wf|exact the_pool_at|exact the_list_at|exact the_clock
    |reflexivity|reflexivity|reflexivity|reflexivity|reflexivity|exact withdraw_auth_ok
    |done|exact the_stake_account|reflexivity|reflexivity|reflexivity|reflexivity|reflexivity
    |reflexivity|reflexivity].
Qed.
