(* ===== verification/Liquidity.v ===== *)
(** * The liquidity pool

    Views of the token accounts the liquidity pool reads, the inversion of a
    successful sale, forward execution of both liquidity handlers, and the
    arithmetic of the shares they hand out. *)
From S2P Require Import Prelude Machine Sdk TokenInstruction TokenState TokenCodec TokenProcessor TokenFacts.
From S2P Require Import PoolInstruction PoolState StakeProgram PoolProcessor PoolCodec PoolMath PoolFacts.
From S2P Require Import PoolSpec PoolRefine Models PoolForward Samples.

(** ** [proportional] *)
Lemma proportional_value a n d r : proportional a n d = Some r -> r = if d =? 0 then a else a * n / d.
Proof. unfold proportional. case_match; [by intros [= <-]|]. by intros (_ & _ & -> & _)%mul_div_Some. Qed.
Lemma proportional_spec a n d r :
  u64_range a -> 0 <= n -> 0 <= d -> proportional a n d = Some r ->
  u64_range r /\ if d =? 0 then r = a else r * d <= a * n < (r + 1) * d.
Proof.
  intros Ha Hn Hd. unfold proportional. destruct (Z.eqb_spec d 0); [naive_solver|].
  intros Hr. unfold u64_range in *. apply mul_div_bounds in Hr as (? & ? & ?); lia.
Qed.

Section Liquidity.
Context `{SDK : SolanaSdk} {LAWS : SolanaSdkLaws SDK}.
Context `{RT : Runtime} `{BC : Bincode} `{PAD : StructPadding} `{BP : BuildProfile}.
Implicit Types (s : Store) (i : AccountInfo).

(** an initialised token account, or mint, of the token program [tp] *)
Definition token_account_at s (k tp : Pubkey) (a : Account) : Prop :=
  cell_owner (get_cell s k) = tp /\ holds Account s k a.
Definition mint_at s (k tp : Pubkey) (m : Mint) : Prop :=
  cell_owner (get_cell s k) = tp /\ holds Mint s k m.

Lemma read_token_account_Ok i tp s a s' :
  read_token_account i tp s = (Ok a, s') <-> s = s' /\ token_account_at s (key i) tp a.
Proof.
  unfold read_token_account, cell_of, unpack_token_account, token_account_at, holds, decodes. rewrite stM_bind_Ok.
  setoid_rewrite gets_Ok. setoid_rewrite lift_Ok. setoid_rewrite map_err_Ok.
  split.
  - intros (c & s1 & [<- <-] & Hu & <-). case_bool_decide; cbn in Hu; [|done].
    apply map_err_Ok, pack_unpack_Ok in Hu. naive_solver.
  - intros (<- & Ho & [Hl Hu] & Hi). exists (get_cell s (key i)), s. split; [done|]. split; [|done].
    rewrite bool_decide_eq_true_2 by done. cbn. apply map_err_Ok, pack_unpack_Ok. done.
Qed.
Lemma read_mint_Ok i tp s a s' :
  read_mint i tp s = (Ok a, s') <-> s = s' /\ mint_at s (key i) tp a.
Proof.
  unfold read_mint, cell_of, unpack_mint, mint_at, holds, decodes. rewrite stM_bind_Ok.
  setoid_rewrite gets_Ok. setoid_rewrite lift_Ok. setoid_rewrite map_err_Ok.
  split.
  - intros (c & s1 & [<- <-] & Hu & <-). case_bool_decide; cbn in Hu; [|done].
    apply map_err_Ok, pack_unpack_Ok in Hu. naive_solver.
  - intros (<- & Ho & [Hl Hu] & Hi). exists (get_cell s (key i)), s. split; [done|]. split; [|done].
    rewrite bool_decide_eq_true_2 by done. cbn. apply map_err_Ok, pack_unpack_Ok. done.
Qed.
Lemma mint_at_inj s k tp a b : mint_at s k tp a -> mint_at s k tp b -> a = b.
Proof. intros [_ [Ha _]] [_ [Hb _]]. by eapply decodes_inj. Qed.
Lemma token_account_at_inj s k tp a b : token_account_at s k tp a -> token_account_at s k tp b -> a = b.
Proof. intros [_ [Ha _]] [_ [Hb _]]. by eapply decodes_inj. Qed.
End Liquidity.

Ltac inv_run_liquidity :=
  match goal with
  | H : read_token_account _ _ _ = (Ok _, _) |- _ => apply read_token_account_Ok in H as [? H]
  | H : read_mint _ _ _ = (Ok _, _) |- _ => apply read_mint_Ok in H as [? H]
  | H : to_u128 _ = Ok _ |- _ => injection H as ?
  end.
Ltac inv_run_ext ::= first [inv_run_pool | inv_run_token | inv_run_liquidity].
Lemma run_bind {A B} (m : M A) (f : A -> M B) s a s1 r :
  m s = (Ok a, s1) -> f a s1 = r -> (m ≫= f) s = r.
Proof. intros Hm <-. by apply stM_bind_run. Qed.
Lemma assert_run b s : b = true -> (assert b : M unit) s = (Ok tt, s).
Proof. by intros ->. Qed.
Ltac forward_liquidity :=
  first [ apply read_token_account_Ok; split; [reflexivity|eassumption]
        | apply read_mint_Ok; split; [reflexivity|eassumption]
        | apply assert_run, bool_decide_eq_true_2; congruence ].
Ltac forward_liq := repeat (eapply run_bind; [solve [forward_step | forward_liquidity]|]; cbv beta iota).

Section Runs.
Context `{SDK : SolanaSdk} {LAWS : SolanaSdkLaws SDK}.
Context `{RT : Runtime} `{BC : Bincode} `{PAD : StructPadding} `{BP : BuildProfile}.
Context {program_id : Pubkey}.

Lemma sell_run amount accounts s s' :
  process_sell_stsol program_id amount accounts s = (Ok tt, s') ->
  exists pool_i liq_i token_i pool_wsol_i pool_stsol_i auth_i user_wsol_i user_stsol_i user_i rest
         p pool_wsol pool_stsol user_wsol user_stsol value fee out s1,
    accounts = pool_i :: liq_i :: token_i :: pool_wsol_i :: pool_stsol_i :: auth_i :: user_wsol_i ::
               user_stsol_i :: user_i :: rest /\
    amount <> 0 /\ pool_at s (key pool_i) p /\ sp_is_initialized p = true /\
    token_account_at s (key pool_wsol_i) (key token_i) pool_wsol /\ amount <= acc_amount pool_wsol /\
    token_account_at s (key pool_stsol_i) (key token_i) pool_stsol /\
    token_account_at s (key user_stsol_i) (key token_i) user_stsol /\
    token_account_at s (key user_wsol_i) (key token_i) user_wsol /\
    acc_mint user_stsol = sp_pool_mint p /\ acc_mint pool_stsol = sp_pool_mint p /\
    acc_mint user_wsol = acc_mint pool_wsol /\
    token_transfer_from_signer token_i user_stsol_i pool_stsol_i user_i amount s = (Ok tt, s1) /\
    proportional amount (sp_stake_total p) (sp_pool_total p) = Some value /\
    proportional value (fee_numerator (sp_fee p)) (fee_denominator (sp_fee p)) = Some fee /\
    plain_sub (E:=ProgramError) value fee = Ok out /\
    token_transfer token_i pool_wsol_i user_wsol_i auth_i (key liq_i) AUTHORITY
      (find_program_address [to_bytes (key liq_i); AUTHORITY] program_id).2 out s1 = (Ok tt, s').
Proof.
  unfold process_sell_stsol. intros Hr. inv_run. bool_hyps.
  repeat match goal with H : token_account_at ?s ?k ?t ?a, H' : token_account_at ?s ?k ?t ?b |- _ =>
    first [constr_eq a b; clear H' | pose proof (token_account_at_inj _ _ _ _ _ H H'); clear H'; subst b] end.
  match goal with H : find_program_address ?a ?b = _, H' : token_transfer _ _ _ _ _ _ ?n _ _ = _ |- _ =>
    replace n with (find_program_address a b).2 in H' by (by rewrite H) end.
  do 10 eexists. eexists _, _, _, _, _, _, _, _, _. split_and!; try done; congruence.
Qed.
End Runs.
