(* ===== verification/SampleRuns.v ===== *)
(** * Concrete runs

    Successful runs of the pool's handlers on the accounts of [Samples], with
    a runtime whose invocations succeed. *)
From S2P Require Import Prelude Machine Sdk TokenInstruction TokenState TokenCodec TokenProcessor TokenFacts.
From S2P Require Import PoolInstruction PoolState StakeProgram PoolProcessor PoolCodec PoolMath PoolFacts.
From S2P Require Import PoolSpec PoolRefine PoolSim Models PoolForward Samples Liquidity.
#[local] Existing Instances model_sdk model_sdk_laws idle_runtime model_bincode zero_padding debug_build.

(** ** The stored accounts *)
Lemma stored_pool_at s k p lam pid :
  get_cell s k = mk_cell lam (pool_bytes p) pid -> StakePool_wf p -> pool_at s k p.
Proof. intros E Hw. unfold pool_at. rewrite E. exact (proj1 (proj2_sig (stored_pool p) Hw)). Qed.
Lemma stored_list_at s k l lam pid :
  get_cell s k = mk_cell lam (list_bytes l) pid -> ValidatorStakeList_wf l -> list_at s k l.
Proof. intros E Hw. unfold list_at. rewrite E. exact (proj1 (proj2_sig (stored_list l) Hw)). Qed.
Lemma zero_pool_cell : get_cell the_store KP0 = mk_cell 5000 (pool_bytes zero_pool) PID.
Proof. vm_compute. reflexivity. Qed.
Lemma zero_list_cell : get_cell the_store KL0 = mk_cell 100000 (list_bytes zero_list) PID.
Proof. vm_compute. reflexivity. Qed.
Lemma forged_cell : get_cell the_store FORGED = mk_cell 1 (pool_bytes forged_pool) USER.
Proof. vm_compute. reflexivity. Qed.
Lemma zero_list_wf : ValidatorStakeList_wf zero_list.
Proof. split_and!; cbn; [done|done|unfold MAX_VALIDATOR_STAKE_ACCOUNTS; lia|by apply Forall_nil]. Qed.
Lemma zero_pool_at : pool_at the_store KP0 zero_pool.
Proof. eapply stored_pool_at; [exact zero_pool_cell|by repeat split]. Qed.
Lemma zero_list_at : list_at the_store KL0 zero_list.
Proof. eapply stored_list_at; [exact zero_list_cell|exact zero_list_wf]. Qed.
Lemma forged_pool_at : pool_at the_store FORGED forged_pool.
Proof. eapply stored_pool_at; [exact forged_cell|by repeat split]. Qed.
Lemma zero_pool_length : len (cell_data (get_cell the_store KP0)) = 208.
Proof.
  rewrite zero_pool_cell. cbn [cell_data]. unfold len, pool_bytes.
  rewrite (proj2 (proj2_sig (stored_pool zero_pool) ltac:(by repeat split))). done.
Qed.
Lemma zero_list_length : len (cell_data (get_cell the_store KL0)) = 48003.
Proof.
  rewrite zero_list_cell. cbn [cell_data]. unfold len, list_bytes.
  rewrite (proj2 (proj2_sig (stored_list zero_list) zero_list_wf)). exact list_capacity.
Qed.
Lemma vote2_stake_account : stake_account_of the_store PID KP VOTE2_STAKE VOTE2.
Proof.
  split; [|reflexivity]. assert (E : cell_data (get_cell the_store VOTE2_STAKE) = to_bytes VOTE2) by (vm_compute; reflexivity).
  rewrite E. eexists _, _. split; [vm_compute; reflexivity|]. vm_compute. reflexivity.
Qed.

Lemma the_rent : read_rent (info rent_id) the_store = (Ok 2, the_store).
Proof. unfold read_rent. erewrite stM_bind_run by reflexivity. apply lift_run. vm_compute. reflexivity. Qed.

(** the pool after a successful deposit or withdrawal *)
Lemma deposit_pool_after s' :
  process_deposit PID deposit_accounts the_store = (Ok tt, s') -> exists P S, pool_at s' KP (set_totals P S the_pool).
Proof.
  intros Hr.
  destruct (deposit_run (RTL:=idle_runtime_laws PID) _ the_store s' the_pool the_list _ _ Hr the_store_wf eq_refl
              KP_KL the_pool_at the_list_at eq_refl)
    as (? & ? & ? & ? & ? & ? & ? & ? & ? & ? & ? & ? & ? & ? & c & v & i & t & P & S & s1 & Hrun).
  cbv zeta in Hrun. destruct_and? Hrun. by exists P, S.
Qed.
Lemma withdraw_pool_after s' :
  process_withdraw PID 100 withdraw_accounts the_store = (Ok tt, s') ->
  exists P S, pool_at s' KP (set_totals P S the_pool).
Proof.
  intros Hr.
  destruct (withdraw_run (RTL:=idle_runtime_laws PID) _ _ the_store s' the_pool the_list _ _ Hr the_store_wf eq_refl
              KP_KL the_pool_at the_list_at eq_refl)
    as (? & ? & ? & ? & ? & ? & ? & ? & ? & ? & ? & ? & c & v & i & x & P & S & s1 & Hrun).
  cbv zeta in Hrun. destruct_and? Hrun. by exists P, S.
Qed.

(** ** Execution on the concrete store *)
(** [p], [l] and [v] say what the pool, list and stake account passed hold *)
Ltac sample_step p l v :=
  lazymatch goal with
  | |- next_info _ _ = _ => apply next_info_run
  | |- read_clock _ _ = _ => apply read_clock_Ok; split; [reflexivity|exact the_clock]
  | |- read_stake_history _ _ = _ => apply read_stake_history_Ok; split; [reflexivity|exact the_history]
  | |- read_stake_pool _ _ = _ =>
      apply read_stake_pool_Ok; split; [reflexivity|exact p]
  | |- read_validator_stake_list _ _ = _ =>
      apply read_validator_stake_list_Ok; split; [reflexivity|exact l]
  | |- get_validator_checked _ _ _ _ = _ =>
      apply get_validator_checked_Ok; split; [reflexivity|exact v]
  | |- fail_if (negb (rent_is_exempt _ _ _)) _ _ = _ =>
      apply fail_if_run; cbn [key info]; first [rewrite zero_pool_length|rewrite zero_list_length]; vm_compute; reflexivity
  | |- fail_if _ _ _ = _ => apply fail_if_run; vm_compute; reflexivity
  | |- lift _ _ = _ => apply lift_run; vm_compute; reflexivity
  | |- gets _ _ = _ => reflexivity
  | |- lamports _ _ = _ => reflexivity
  | |- foldM _ _ _ _ = _ => reflexivity
  | |- borrow_data _ _ = _ => reflexivity
  | |- data_len _ _ = _ => reflexivity
  | |- owner_of _ _ = _ => reflexivity
  | |- read_rent _ _ = _ => exact the_rent
  | |- token_burn _ _ _ _ _ _ _ _ _ = _ => reflexivity
  | |- token_mint_to _ _ _ _ _ _ _ _ _ = _ => reflexivity
  end.
Ltac sample_run p l v := repeat (lazymatch goal with |- succeeds (_ ≫= _) _ => idtac end;
  eapply succeeds_bind; [solve [sample_step p l v]|]; cbv beta iota).

(** *** Administration *)
Definition add_accounts : list AccountInfo :=
  [ info KP; signer OWNER; info DEPOSIT_AUTH; info WITHDRAW_AUTH; info KL; info VOTE2_STAKE; info USER_TOKENS;
    info MINT; clock_info; history_info; token_info; stake_program_info ].
Lemma add_succeeds : succeeds (process_add_validator_stake_account PID add_accounts) the_store.
Proof.
  unfold process_add_validator_stake_account, add_accounts. sample_run the_pool_at the_list_at vote2_stake_account.
  apply succeeds_bind_unit.
  { apply save_validator_stake_list_run; [exact (list_at_length _ _ _ the_list_at)|].
    apply add_record_wf; [exact the_list_wf|reflexivity|by vm_compute|unfold MAX_VALIDATOR_STAKE_ACCOUNTS; cbn; lia]. }
  intros s1 [Hs1 _]%save_validator_stake_list_Ok. sample_run the_pool_at the_list_at vote2_stake_account.
  apply save_stake_pool_run. cbn [key info]. rewrite (data_written_ne the_store KL s1 KP ltac:(by vm_compute) Hs1).
  exact (pool_at_length _ _ _ the_pool_at).
Qed.

Definition remove_accounts : list AccountInfo :=
  [ info KP; signer OWNER; info WITHDRAW_AUTH; info NEW_OWNER; info KL; info VOTE_STAKE; info USER_TOKENS;
    info MINT; clock_info; token_info; stake_program_info ].
Lemma remove_succeeds : succeeds (process_remove_validator_stake_account PID remove_accounts) the_store.
Proof.
  unfold process_remove_validator_stake_account, remove_accounts. sample_run the_pool_at the_list_at the_stake_account.
  apply succeeds_bind_unit.
  { apply save_validator_stake_list_run; [exact (list_at_length _ _ _ the_list_at)|].
    apply (drop_validator_wf the_list VOTE). exact the_list_wf. }
  intros s1 [Hs1 _]%save_validator_stake_list_Ok. sample_run the_pool_at the_list_at the_stake_account.
  apply save_stake_pool_run. cbn [key info]. rewrite (data_written_ne the_store KL s1 KP ltac:(by vm_compute) Hs1).
  exact (pool_at_length _ _ _ the_pool_at).
Qed.

Definition set_owner_accounts : list AccountInfo := [ info KP; signer OWNER; info NEW_OWNER; info NEW_FEE ].
Lemma set_owner_succeeds : succeeds (process_set_owner PID set_owner_accounts) the_store.
Proof.
  unfold process_set_owner, set_owner_accounts. sample_run the_pool_at the_list_at the_stake_account.
  apply save_stake_pool_run. exact (pool_at_length _ _ _ the_pool_at).
Qed.

Definition the_init : InitArgs := mk_init_args (mk_fee 100 3).
Definition initialize_accounts : list AccountInfo :=
  [ info KP0; signer OWNER; info KL0; info MINT0; info FEE0; clock_info; info rent_id; token_info ].
Lemma initialize_succeeds : succeeds (process_initialize PID the_init initialize_accounts) the_store.
Proof.
  unfold process_initialize, initialize_accounts. sample_run zero_pool_at zero_list_at the_stake_account.
  rewrite (surjective_pairing (find_authority_bump_seed PID (key (info KP0)) AUTHORITY_DEPOSIT)).
  rewrite (surjective_pairing (find_authority_bump_seed PID (key (info KP0)) AUTHORITY_WITHDRAW)). sample_run zero_pool_at zero_list_at the_stake_account.
  apply succeeds_bind_unit.
  { apply save_validator_stake_list_run; [exact (list_at_length _ _ _ zero_list_at)|].
    split_and!; cbn; [done|done|unfold MAX_VALIDATOR_STAKE_ACCOUNTS; lia|by apply Forall_nil]. }
  intros s1 [Hs1 _]%save_validator_stake_list_Ok.
  apply save_stake_pool_run. cbn [key info]. rewrite (data_written_ne the_store KL0 s1 KP0 ltac:(by vm_compute) Hs1).
  exact (pool_at_length _ _ _ zero_pool_at).
Qed.

(** *** Balance updates *)
Definition update_pool_accounts : list AccountInfo := [ info KP; info KL; clock_info ].
Lemma update_pool_succeeds : succeeds (process_update_pool_balance PID update_pool_accounts) the_store.
Proof.
  unfold process_update_pool_balance, update_pool_accounts. sample_run the_pool_at the_list_at the_stake_account.
  apply save_stake_pool_run. exact (pool_at_length _ _ _ the_pool_at).
Qed.
(** the same accounts an epoch later *)
Definition later_store : Store := store_of ((clock_id, mk_cell 1 (clock_data 8) default_pubkey) :: the_cells).
Definition update_list_accounts : list AccountInfo := [ info KL; clock_info; info VOTE ].
Lemma later_store_wf : store_wf later_store.
Proof. apply store_of_wf. unfold the_cells. repeat (apply Forall_cons; split; [by cbn|]). by apply Forall_nil. Qed.
Lemma later_list_at : list_at later_store KL the_list.
Proof. eapply stored_list_at; [vm_compute; reflexivity|exact the_list_wf]. Qed.
Lemma later_clock : clock_from_account_info clock_info (get_cell later_store clock_id) = Ok (mk_clock 8).
Proof. vm_compute. reflexivity. Qed.
Lemma later_update :
  update_records (mk_clock 8) [info VOTE] (vsl_validators the_list) later_store =
    (Ok ([mk_validator_stake_info VOTE (cell_lamports (get_cell later_store VOTE)) 8], true), later_store).
Proof. reflexivity. Qed.
Lemma update_list_succeeds : succeeds (process_update_list_balance PID update_list_accounts) later_store.
Proof.
  unfold process_update_list_balance, update_list_accounts.
  do 2 (eapply succeeds_bind; [apply next_info_run|]; cbv beta iota).
  eapply succeeds_bind; [apply read_clock_Ok; split; [reflexivity|exact later_clock]|]. cbv beta.
  eapply succeeds_bind; [apply read_validator_stake_list_Ok; split; [reflexivity|exact later_list_at]|]. cbv beta.
  eapply succeeds_bind; [by apply fail_if_run|]. cbv beta.
  eapply succeeds_bind; [exact later_update|]. cbv beta iota.
  apply save_validator_stake_list_run; [exact (list_at_length _ _ _ later_list_at)|].
  split_and!; cbn; [done|done|unfold MAX_VALIDATOR_STAKE_ACCOUNTS; lia|].
  apply Forall_singleton. split; [apply later_store_wf|done].
Qed.

(** *** The liquidity pool *)
Ltac stored_token := split; [vm_compute; reflexivity|split; [split; vm_compute; reflexivity|reflexivity]].
Lemma liq_wsol_at : token_account_at the_store LIQ_WSOL spl_token_id (token_account WSOL LIQ_AUTH 1000).
Proof. stored_token. Qed.
Lemma liq_stsol_at : token_account_at the_store LIQ_STSOL spl_token_id (token_account MINT LIQ_AUTH 0).
Proof. stored_token. Qed.
Lemma user_wsol_at : token_account_at the_store USER_WSOL spl_token_id (token_account WSOL USER 60).
Proof. stored_token. Qed.
Lemma user_stsol_at : token_account_at the_store USER_STSOL spl_token_id (token_account MINT USER 80).
Proof. stored_token. Qed.
Lemma metalp_at : mint_at the_store METALP spl_token_id (token_mint LIQ_AUTH 500).
Proof. stored_token. Qed.

Definition add_liquidity_accounts : list AccountInfo :=
  [ info LIQ; token_info; info METALP; info LIQ_AUTH; info USER_WSOL; signer USER; info LIQ_WSOL; info USER_TOKENS ].
Lemma add_liquidity_succeeds : succeeds (process_add_liquidity PID 50 add_liquidity_accounts) the_store.
Proof.
  unfold process_add_liquidity, add_liquidity_accounts.
  pose proof metalp_at. pose proof liq_wsol_at. pose proof user_wsol_at.
  eapply succeeds_bind; [by apply fail_if_run|]. cbv beta.
  do 8 (eapply succeeds_bind; [apply next_info_run|]; cbv beta iota).
  eapply succeeds_bind; [apply read_mint_Ok; split; [reflexivity|exact metalp_at]|]. cbv beta.
  eapply succeeds_bind; [apply lift_run; reflexivity|]. cbv beta.
  eapply succeeds_bind; [apply read_token_account_Ok; split; [reflexivity|exact liq_wsol_at]|]. cbv beta.
  eapply succeeds_bind; [apply lift_run; reflexivity|]. cbv beta.
  eapply succeeds_bind; [apply read_token_account_Ok; split; [reflexivity|exact user_wsol_at]|]. cbv beta.
  eapply succeeds_bind; [by apply assert_run, bool_decide_eq_true_2|]. cbv beta.
  eapply succeeds_bind; [reflexivity|]. cbv beta.
  eapply succeeds_bind; [apply lift_run; vm_compute; reflexivity|]. cbv beta.
  unfold liq_pool_token_mint_to. rewrite (surjective_pairing (find_authority_bump_seed _ _ _)). by eexists.
Qed.

Definition sell_accounts (pool : Pubkey) : list AccountInfo :=
  [ info pool; info LIQ; token_info; info LIQ_WSOL; info LIQ_STSOL; info LIQ_AUTH; info USER_WSOL;
    info USER_STSOL; signer USER ].
Ltac sample_sell p :=
  unfold process_sell_stsol, sell_accounts;
  eapply succeeds_bind; [by apply fail_if_run|]; cbv beta;
  do 9 (eapply succeeds_bind; [apply next_info_run|]; cbv beta iota);
  eapply succeeds_bind;
    [apply read_stake_pool_Ok; split; [reflexivity|exact p]|]; cbv beta;
  eapply succeeds_bind; [by apply fail_if_run|]; cbv beta;
  eapply succeeds_bind; [apply read_token_account_Ok; split; [reflexivity|exact liq_wsol_at]|]; cbv beta;
  eapply succeeds_bind; [by apply fail_if_run|]; cbv beta;
  eapply succeeds_bind; [apply read_token_account_Ok; split; [reflexivity|exact liq_wsol_at]|]; cbv beta;
  eapply succeeds_bind; [apply read_token_account_Ok; split; [reflexivity|exact liq_stsol_at]|]; cbv beta;
  eapply succeeds_bind; [apply read_token_account_Ok; split; [reflexivity|exact user_stsol_at]|]; cbv beta;
  do 2 (eapply succeeds_bind; [by apply assert_run, bool_decide_eq_true_2|]; cbv beta);
  eapply succeeds_bind; [apply read_token_account_Ok; split; [reflexivity|exact user_wsol_at]|]; cbv beta;
  eapply succeeds_bind; [by apply assert_run, bool_decide_eq_true_2|]; cbv beta;
  eapply succeeds_bind; [reflexivity|]; cbv beta;
  do 3 (eapply succeeds_bind; [apply lift_run; vm_compute; reflexivity|]; cbv beta);
  rewrite (surjective_pairing (find_program_address _ _)); by eexists.
Lemma sell_succeeds : succeeds (process_sell_stsol PID 40 (sell_accounts KP)) the_store.
Proof. sample_sell the_pool_at. Qed.
Lemma sell_forged_succeeds : succeeds (process_sell_stsol PID 40 (sell_accounts FORGED)) the_store.
Proof. sample_sell forged_pool_at. Qed.

(** *** The instruction bytes *)
Definition deposit_input : list byte := replicate INSTRUCTION_SIZE (byte_of_u8 6).
Lemma deposit_input_ok : pool_instruction_deserialize deposit_input = Ok Deposit.
Proof. vm_compute. reflexivity. Qed.
Lemma deposit_process_succeeds : succeeds (pool_process PID deposit_accounts deposit_input) the_store.
Proof.
  unfold pool_process. eapply succeeds_bind; [apply lift_run; exact deposit_input_ok|]. exact deposit_succeeds.
Qed.
Lemma pid_not_passed : PID ∉ key <$> deposit_accounts.
Proof. apply (bool_decide_unpack _). vm_compute. exact I. Qed.
(** the pool itself is passed as the pool *)
Lemma own_pool_genuine s instr i rest : slot_key (state_slots instr).1 (i :: rest) = Some (key i) ->
  genuine s instr (i :: rest) (key i) KL.
Proof. intros E k. rewrite E. intros [= <-] [Hne _]. by destruct Hne. Qed.
Lemma deposit_genuine s : input_genuine s deposit_input deposit_accounts KP KL.
Proof. intros instr. rewrite deposit_input_ok. intros [= <-]. by apply own_pool_genuine. Qed.
Lemma the_state_inv : PoolInv (mk_pstate the_pool the_list).
Proof. split_and!; [exact the_pool_wf|exact the_list_wf|done|done|]. apply NoDup_singleton. Qed.
