(* ===== verification/LiquidityTheorems.v ===== *)
(** * The properties of the liquidity pool

    What [process_add_liquidity] and [process_sell_stsol] do on success, and
    when a sale succeeds. *)
From S2P Require Import Prelude Machine Sdk TokenInstruction TokenState TokenCodec TokenProcessor TokenFacts.
From S2P Require Import PoolInstruction PoolState StakeProgram PoolProcessor PoolCodec PoolMath PoolFacts.
From S2P Require Import PoolSpec PoolRefine Models PoolForward Samples Liquidity SampleRuns.

Section Properties.
Context `{SDK : SolanaSdk} {LAWS : SolanaSdkLaws SDK}.
Context `{RT : Runtime} `{BC : Bincode} `{PAD : StructPadding} `{BP : BuildProfile}.
Context {program_id : Pubkey}.

(** C28: adding liquidity. On success the amount is not zero, the METALP
    account is a mint and both wSOL accounts are token accounts of one mint;
    exactly [amount] wSOL was transferred with the user's authority, and the
    METALP minted is [amount * supply / wSOL in the pool] rounded down, both
    read before the transfer, or [amount] itself when the pool holds no
    wSOL. *)
Theorem process_add_liquidity_spec s s' amount state_i token_i mint_i mint_auth_i user_wsol_i user_auth_i
    pool_wsol_i user_metalp_i rest :
  process_add_liquidity program_id amount
    (state_i :: token_i :: mint_i :: mint_auth_i :: user_wsol_i :: user_auth_i :: pool_wsol_i ::
     user_metalp_i :: rest) s = (Ok tt, s') ->
  u64_range amount ->
  exists m pool_wsol user_wsol shares s1,
    (amount <> 0 /\ mint_at s (key mint_i) (key token_i) m /\
     token_account_at s (key pool_wsol_i) (key token_i) pool_wsol /\
     token_account_at s (key user_wsol_i) (key token_i) user_wsol /\ acc_mint user_wsol = acc_mint pool_wsol) /\
    (shares_from_value amount (acc_amount pool_wsol) (mint_supply m) = Some shares /\
     if acc_amount pool_wsol =? 0 then shares = amount
     else shares * acc_amount pool_wsol <= amount * mint_supply m < (shares + 1) * acc_amount pool_wsol) /\
    (token_transfer_from_signer token_i user_wsol_i pool_wsol_i user_auth_i amount s = (Ok tt, s1) /\
     liq_pool_token_mint_to program_id (key state_i) token_i mint_i user_metalp_i mint_auth_i shares s1 =
       (Ok tt, s')).
Proof.
  unfold process_add_liquidity. intros Hr Ha. inv_run. bool_hyps.
  match goal with
  | Hs : shares_from_value _ (acc_amount ?p) (mint_supply ?m) = Some ?sh,
    Hm : mint_at _ _ _ ?m, Hp : token_account_at _ _ _ ?p |- _ =>
      exists m, p; eexists _, sh, _; split; [by split_and!|]; split; [|by split];
      split; [exact Hs|];
      apply proportional_spec in Hs; [by destruct Hs|done| |];
      [destruct Hm as [_ [Hm _]]; by destruct (decodes_wf _ _ _ Hm) as [[? _] _]
      |destruct Hp as [_ [Hp _]]; by destruct (decodes_wf _ _ _ Hp) as [[? _] _]]
  end.
Qed.

(** C29: selling stSOL. On success the amount is not zero and at most the
    wSOL the pool holds, both stSOL accounts are of the mint of the pool record
    that is passed and both wSOL accounts of one mint; the stSOL are
    transferred with the user's authority to the liquidity pool (none is
    burned, against what instruction.rs says). Its SOL value at the record's
    price is rounded down, the fee is the record's share of that value, rounded
    down (all of it for a zero denominator), and the wSOL paid out is the value
    minus the fee, modulo 2^64: for a fee of at most one never more than the
    value; for a higher one, which a record that is not the pool's can hold, a
    build with overflow checks panics and a release build wraps around. *)
Theorem process_sell_stsol_spec s s' amount pool_i liq_i token_i pool_wsol_i pool_stsol_i auth_i user_wsol_i
    user_stsol_i user_i rest :
  process_sell_stsol program_id amount
    (pool_i :: liq_i :: token_i :: pool_wsol_i :: pool_stsol_i :: auth_i :: user_wsol_i :: user_stsol_i ::
     user_i :: rest) s = (Ok tt, s') ->
  u64_range amount ->
  exists p pool_wsol pool_stsol user_wsol user_stsol value fee out s1,
    (amount <> 0 /\ pool_at s (key pool_i) p /\ sp_is_initialized p = true /\
     token_account_at s (key pool_wsol_i) (key token_i) pool_wsol /\ amount <= acc_amount pool_wsol /\
     token_account_at s (key pool_stsol_i) (key token_i) pool_stsol /\
     token_account_at s (key user_stsol_i) (key token_i) user_stsol /\
     token_account_at s (key user_wsol_i) (key token_i) user_wsol /\
     acc_mint user_stsol = sp_pool_mint p /\ acc_mint pool_stsol = sp_pool_mint p /\
     acc_mint user_wsol = acc_mint pool_wsol) /\
    (proportional amount (sp_stake_total p) (sp_pool_total p) = Some value /\
     value = (if sp_pool_total p =? 0 then amount else amount * sp_stake_total p / sp_pool_total p) /\
     proportional value (fee_numerator (sp_fee p)) (fee_denominator (sp_fee p)) = Some fee /\
     fee = (if fee_denominator (sp_fee p) =? 0 then value
            else value * fee_numerator (sp_fee p) / fee_denominator (sp_fee p)) /\
     out = wrap 64 (value - fee) /\ (overflow_checks = true -> fee <= value) /\
     (fee_numerator (sp_fee p) <= fee_denominator (sp_fee p) -> out = value - fee /\ 0 <= out <= value)) /\
    (token_transfer_from_signer token_i user_stsol_i pool_stsol_i user_i amount s = (Ok tt, s1) /\
     token_transfer token_i pool_wsol_i user_wsol_i auth_i (key liq_i) AUTHORITY
       (find_program_address [to_bytes (key liq_i); AUTHORITY] program_id).2 out s1 = (Ok tt, s')).
Proof.
  intros Hr Ha.
  destruct (sell_run _ _ _ _ Hr) as (? & ? & ? & ? & ? & ? & ? & ? & ? & ? & p & pw & ps & uw & us & value & fee & out & s1 & Hrun).
  destruct_and? Hrun. simplify_eq.
  match goal with H : pool_at _ _ p |- _ => pose proof (pool_at_wf _ _ _ H) as (_ & _ & _ & HS & HP & _ & [Hd Hn]) end.
  unfold u64_range in HS, HP, Hd, Hn.
  match goal with H : proportional amount _ _ = _ |- _ =>
    pose proof (proportional_spec _ _ _ _ Ha (proj1 HS) (proj1 HP) H) as [Hv _] end.
  match goal with H : proportional value _ _ = _ |- _ =>
    pose proof (proportional_spec _ _ _ _ Hv (proj1 Hn) (proj1 Hd) H) as [Hf Hfee] end.
  exists p, pw, ps, uw, us, value, fee, out, s1. split; [by split_and!|]. split; [|by split].
  match goal with H : plain_sub _ _ = Ok _ |- _ => pose proof H as Hout; apply plain_sub_Ok in Hout as [Hwrap Hchk] end.
  split_and!; try done.
  - by apply proportional_value.
  - by apply proportional_value.
  - intros Hov. destruct (Hchk Hov) as [_ [? _]]. lia.
  - intros Hle. unfold u64_range in *.
    assert (fee <= value) by (destruct (Z.eqb_spec (fee_denominator (sp_fee p)) 0); [lia|nia]).
    match goal with H : plain_sub _ _ = Ok _ |- _ => rewrite plain_sub_in in H by (unfold u64_range; lia); injection H as <- end.
    lia.
Qed.

(** With a zero fee denominator, which initialisation accepts with a
    zero numerator, [proportional] makes the fee the whole value: whoever
    sells stSOL to such a pool is paid nothing. *)
Theorem sell_stsol_zero_fee_pays_nothing s s' amount pool_i liq_i token_i pool_wsol_i pool_stsol_i auth_i
    user_wsol_i user_stsol_i user_i rest p :
  process_sell_stsol program_id amount
    (pool_i :: liq_i :: token_i :: pool_wsol_i :: pool_stsol_i :: auth_i :: user_wsol_i :: user_stsol_i ::
     user_i :: rest) s = (Ok tt, s') ->
  pool_at s (key pool_i) p -> fee_denominator (sp_fee p) = 0 ->
  exists s1,
    token_transfer_from_signer token_i user_stsol_i pool_stsol_i user_i amount s = (Ok tt, s1) /\
    token_transfer token_i pool_wsol_i user_wsol_i auth_i (key liq_i) AUTHORITY
      (find_program_address [to_bytes (key liq_i); AUTHORITY] program_id).2 0 s1 = (Ok tt, s').
Proof.
  intros Hr Hp Hd.
  destruct (sell_run _ _ _ _ Hr) as (? & ? & ? & ? & ? & ? & ? & ? & ? & ? & q & pw & ps & uw & us & value & fee & out & s1 & Hrun).
  destruct_and? Hrun. simplify_eq. exists s1. split; [done|]. same_views.
  match goal with H : proportional value _ _ = _ |- _ => unfold proportional in H; rewrite Hd in H; injection H as <- end.
  match goal with H : plain_sub _ _ = Ok _ |- _ => rewrite plain_sub_in in H by (rewrite Z.sub_diag; done); injection H as <- end.
  by rewrite Z.sub_diag in *.
Qed.

(** C30: selling stSOL succeeds under conditions that never mention who owns
    the stake pool account or whether the liquidity accounts are the ones of
    the liquidity pool: only the data of the accounts and their mints
    matter. A pool record in an account of any program is accepted. *)
Theorem process_sell_stsol_completes s s1 s' amount pool_i liq_i token_i pool_wsol_i pool_stsol_i auth_i
    user_wsol_i user_stsol_i user_i rest p pool_wsol pool_stsol user_wsol user_stsol value fee out :
  amount <> 0 -> pool_at s (key pool_i) p -> sp_is_initialized p = true ->
  token_account_at s (key pool_wsol_i) (key token_i) pool_wsol -> amount <= acc_amount pool_wsol ->
  token_account_at s (key pool_stsol_i) (key token_i) pool_stsol ->
  token_account_at s (key user_stsol_i) (key token_i) user_stsol ->
  token_account_at s (key user_wsol_i) (key token_i) user_wsol ->
  acc_mint user_stsol = sp_pool_mint p -> acc_mint pool_stsol = sp_pool_mint p ->
  acc_mint user_wsol = acc_mint pool_wsol ->
  token_transfer_from_signer token_i user_stsol_i pool_stsol_i user_i amount s = (Ok tt, s1) ->
  proportional amount (sp_stake_total p) (sp_pool_total p) = Some value ->
  proportional value (fee_numerator (sp_fee p)) (fee_denominator (sp_fee p)) = Some fee ->
  plain_sub (E:=ProgramError) value fee = Ok out ->
  token_transfer token_i pool_wsol_i user_wsol_i auth_i (key liq_i) AUTHORITY
    (find_program_address [to_bytes (key liq_i); AUTHORITY] program_id).2 out s1 = (Ok tt, s') ->
  process_sell_stsol program_id amount
    (pool_i :: liq_i :: token_i :: pool_wsol_i :: pool_stsol_i :: auth_i :: user_wsol_i :: user_stsol_i ::
     user_i :: rest) s = (Ok tt, s').
Proof.
  intros Ha Hp Hi Hpw Hle Hps Hus Huw Hm1 Hm2 Hm3 Ht1 Hv Hf Ho Ht2.
  assert (Hs : (amount =? 0) = false) by by apply Z.eqb_neq.
  unfold process_sell_stsol. forward_liq.
  destruct (find_program_address [to_bytes (key liq_i); AUTHORITY] program_id) as [k bump]. exact Ht2.
Qed.
End Properties.

Section Witnesses.
#[local] Existing Instances model_sdk model_sdk_laws idle_runtime model_bincode zero_padding debug_build.
Lemma process_add_liquidity_spec_witness :
  exists s' shares, process_add_liquidity PID 50 add_liquidity_accounts the_store = (Ok tt, s') /\
    shares_from_value 50 1000 500 = Some shares.
Proof.
  assert (Ha : u64_range 50) by done.
  destruct add_liquidity_succeeds as [s' Hr].
  destruct (process_add_liquidity_spec the_store s' 50 _ _ _ _ _ _ _ _ _ Hr Ha)
    as (m & w & u & shares & s1 & (_ & Hm & Hw & _) & (Hs & _) & _).
  rewrite (mint_at_inj _ _ _ _ _ Hm metalp_at), (token_account_at_inj _ _ _ _ _ Hw liq_wsol_at) in Hs.
  exists s', shares. split; [exact Hr|exact Hs].
Defined.
Lemma process_sell_stsol_spec_witness :
  exists s' value, process_sell_stsol PID 40 (sell_accounts KP) the_store = (Ok tt, s') /\
    proportional 40 3000 1500 = Some value.
Proof.
  assert (Ha : u64_range 40) by done.
  destruct sell_succeeds as [s' Hr].
  destruct (process_sell_stsol_spec the_store s' 40 _ _ _ _ _ _ _ _ _ _ Hr Ha)
    as (p & pw & ps & uw & us & value & fee & out & s1 & (_ & Hp & _) & (Hv & _) & _).
  rewrite (pool_at_inj _ _ _ _ Hp the_pool_at) in Hv. exists s', value. split; [exact Hr|exact Hv].
Defined.
Lemma sell_stsol_zero_fee_pays_nothing_witness :
  exists s' s1, process_sell_stsol PID 40 (sell_accounts FORGED) the_store = (Ok tt, s') /\
    token_transfer token_info (info LIQ_WSOL) (info USER_WSOL) (info LIQ_AUTH) LIQ AUTHORITY
      (find_program_address [to_bytes LIQ; AUTHORITY] PID).2 0 s1 = (Ok tt, s').
Proof.
  destruct sell_forged_succeeds as [s' Hr].
  destruct (sell_stsol_zero_fee_pays_nothing the_store s' 40 _ _ _ _ _ _ _ _ _ _ forged_pool Hr forged_pool_at eq_refl)
    as (s1 & _ & Ht).
  exists s', s1. split; [exact Hr|exact Ht].
Defined.
(** the pool record of an account that is not the program's is accepted:
    at its price, 40 stSOL are worth 4000 lamports *)
Lemma process_sell_stsol_completes_witness :
  cell_owner (get_cell the_store FORGED) <> PID /\
  process_sell_stsol PID 40 (sell_accounts FORGED) the_store = (Ok tt, the_store).
Proof.
  split; [by vm_compute|].
  apply (process_sell_stsol_completes (SDK:=model_sdk) (program_id:=PID) the_store the_store the_store 40 (info FORGED) (info LIQ)
    token_info (info LIQ_WSOL) (info LIQ_STSOL) (info LIQ_AUTH) (info USER_WSOL) (info USER_STSOL) (signer USER)
    [] forged_pool (token_account WSOL LIQ_AUTH 1000) (token_account MINT LIQ_AUTH 0) (token_account WSOL USER 60)
    (token_account MINT USER 80) 4000 4000 0);
  [done|exact forged_pool_at|done|exact liq_wsol_at|done|exact liq_stsol_at|exact user_stsol_at|exact user_wsol_at
  |reflexivity|reflexivity|reflexivity|reflexivity|reflexivity|reflexivity|reflexivity|reflexivity].
Defined.
End Witnesses.
