(* ===== verification/PoolTheorems.v ===== *)
(** * The properties of the stake pool

    The functional behaviour of each handler on success, when deposits and
    withdrawals succeed, the refinement of the pool machine and what follows
    from its invariants, and who may do what.  Each theorem is followed by its
    witness on the concrete pool of [Samples]. *)
From S2P Require Import Prelude Machine Sdk TokenInstruction TokenState TokenCodec TokenProcessor TokenFacts.
From S2P Require Import PoolInstruction PoolState StakeProgram PoolProcessor PoolCodec PoolMath PoolFacts.
From S2P Require Import PoolSpec PoolFrame PoolRefine PoolSim Models PoolForward Samples SampleRuns.
From stdpp Require Import relations.
#[local] Open Scope Z_scope.

Ltac close_run Hrun :=
  cbv zeta in Hrun; destruct_and? Hrun; simplify_eq.

Section Deposits.
Context `{SDK : SolanaSdk} {LAWS : SolanaSdkLaws SDK}.
Context `{RT : Runtime} `{BC : Bincode} `{PAD : StructPadding} `{BP : BuildProfile}.
Context {program_id : Pubkey} {RTL : RuntimeLaws RT program_id}.

(** C1: a successful deposit. The pool was initialised and up to date in the
    current epoch, the list passed (another account than the pool) is the one
    the pool names, the authorities are the pool's derived addresses and the
    stake account belongs to a validator [v] of the list. Exactly the
    tokens [calc_pool_deposit_amount] gives for the deposited lamports are
    minted by the issued invocations; both totals grow by the deposit, the
    validator's recorded balance becomes its stake account's, and no other
    account changes after the invocations. *)
Theorem process_deposit_spec s s' p l pool_i list_i deposit_i withdraw_i stake_i vstake_i dest_i fee_i
    mint_i clock_i history_i token_i stake_prog_i rest :
  let kp := key pool_i in
  let kl := key list_i in
  let x := cell_lamports (get_cell s (key stake_i)) in
  process_deposit program_id
    (pool_i :: list_i :: deposit_i :: withdraw_i :: stake_i :: vstake_i :: dest_i :: fee_i :: mint_i ::
     clock_i :: history_i :: token_i :: stake_prog_i :: rest) s = (Ok tt, s') ->
  store_wf s -> pool_at s kp p -> list_at s kl l -> kp <> kl ->
  exists c v i t P S s1,
    (clock_from_account_info clock_i (get_cell s (key clock_i)) = Ok c /\
     sp_is_initialized p = true /\ vsl_is_initialized l = true /\ sp_validator_stake_list p = kl /\
     epoch c <= sp_last_update_epoch p /\ key token_i = sp_token_program_id p /\
     check_authority_withdraw p (key withdraw_i) program_id kp = Ok tt /\
     check_authority_deposit p (key deposit_i) program_id kp = Ok tt /\
     stake_account_of s program_id kp (key vstake_i) v /\ vsl_find_mut l v = Some i) /\
    (calc_pool_deposit_amount p x = Some t /\
     deposit_invocations p pool_i deposit_i withdraw_i stake_i vstake_i dest_i mint_i clock_i history_i
       token_i stake_prog_i t s = (Ok tt, s1)) /\
    (plain_add (E:=ProgramError) (sp_pool_total p) t = Ok P /\
     plain_add (E:=ProgramError) (sp_stake_total p) x = Ok S /\
     pool_at s' kp (set_totals P S p) /\
     list_at s' kl (set_balance_at i (cell_lamports (get_cell s1 (key vstake_i))) l) /\
     others_kept kp kl s1 s').
Proof.
  cbv zeta. intros Hr Hw Hp Hl Hne.
  pose proof (list_address Deposit _ _ _ _ _ _ Hr eq_refl eq_refl eq_refl Hp) as Hk.
  destruct (deposit_run _ s s' p l _ _ Hr Hw eq_refl Hne Hp Hl Hk)
    as (? & ? & ? & ? & ? & ? & ? & ? & ? & ? & ? & ? & ? & ? & c & v & i & t & P & S & s1 & Hrun).
  close_run Hrun. exists c, v, i, t, P, S, s1. by split_and!.
Qed.

(** a deposit succeeds whenever its guards hold, the issued invocations
    succeed without touching the pool's two accounts, and the totals fit:
    no other condition can make it fail. *)
Lemma process_deposit_completes s pool_i list_i deposit_i withdraw_i stake_i vstake_i dest_i fee_i mint_i
    clock_i history_i token_i stake_prog_i rest p l c h v i t P S s1 :
  let accounts := pool_i :: list_i :: deposit_i :: withdraw_i :: stake_i :: vstake_i :: dest_i :: fee_i ::
                  mint_i :: clock_i :: history_i :: token_i :: stake_prog_i :: rest in
  let x := cell_lamports (get_cell s (key stake_i)) in
  key pool_i <> key list_i -> store_wf s1 ->
  pool_at s (key pool_i) p -> list_at s (key list_i) l ->
  clock_from_account_info clock_i (get_cell s (key clock_i)) = Ok c ->
  stake_history_from_account_info history_i (get_cell s (key history_i)) = Ok h ->
  key stake_prog_i = stake_program_id -> key token_i = sp_token_program_id p ->
  key list_i = sp_validator_stake_list p ->
  sp_is_initialized p = true -> vsl_is_initialized l = true ->
  check_authority_withdraw p (key withdraw_i) program_id (key pool_i) = Ok tt ->
  check_authority_deposit p (key deposit_i) program_id (key pool_i) = Ok tt ->
  epoch c <= sp_last_update_epoch p ->
  stake_account_of s program_id (key pool_i) (key vstake_i) v -> vsl_find_mut l v = Some i ->
  calc_pool_deposit_amount p x = Some t -> 0 <= t ->
  deposit_invocations p pool_i deposit_i withdraw_i stake_i vstake_i dest_i mint_i clock_i history_i
    token_i stake_prog_i t s = (Ok tt, s1) ->
  cell_data (get_cell s1 (key pool_i)) = cell_data (get_cell s (key pool_i)) ->
  cell_data (get_cell s1 (key list_i)) = cell_data (get_cell s (key list_i)) ->
  plain_add (E:=ProgramError) (sp_pool_total p) t = Ok P ->
  plain_add (E:=ProgramError) (sp_stake_total p) x = Ok S ->
  exists s', process_deposit program_id accounts s = (Ok tt, s').
Proof. apply deposit_completes. Qed.

(** C22: the price of a deposit, in any build. The deposited lamports [x] are
    the stake account's, and both totals grow by what was deposited and
    minted, modulo 2^64.  When the sums fit a u64, which a build with overflow
    checks enforces, the value of a pool token has not fallen, and burning the
    minted tokens right after would return at most [x]: the division rounds in
    favour of the pool. *)
Theorem deposit_price s s' p q accounts kp :
  process_deposit program_id accounts s = (Ok tt, s') -> store_wf s ->
  slot_key (Some 0%nat) accounts = Some kp -> pool_at s kp p -> kp <> sp_validator_stake_list p -> pool_at s' kp q ->
  exists stake_i x t, accounts !! 4%nat = Some stake_i /\ x = cell_lamports (get_cell s (key stake_i)) /\
    calc_pool_deposit_amount p x = Some t /\
    q = set_totals (wrap 64 (sp_pool_total p + t)) (wrap 64 (sp_stake_total p + x)) p /\
    (overflow_checks = true -> sp_pool_total p + t < 2 ^ 64 /\ sp_stake_total p + x < 2 ^ 64) /\
    (sp_pool_total p + t < 2 ^ 64 -> sp_stake_total p + x < 2 ^ 64 ->
     q = pool_credit p x t /\ price_le p q /\ forall back, calc_lamports_amount q t = Some back -> back <= x).
Proof.
  intros Hr Hw Hkp Hp Hne Hq.
  destruct (list_passed Deposit _ _ _ _ _ Hr eq_refl ltac:(by eexists) Hkp Hp) as (l & Hl).
  destruct (deposit_run _ s s' p l _ _ Hr Hw Hkp Hne Hp Hl eq_refl)
    as (? & ? & ? & ? & stake_i & ? & ? & ? & ? & ? & ? & ? & ? & ? & c & v & i & t & P & S & s1 & Hrun).
  cbv zeta in Hrun. destruct_and? Hrun. subst accounts. same_views. pose proof (pool_at_wf _ _ _ Hp) as Hwf.
  pose proof (Hw (key stake_i)) as Hx. remember (cell_lamports (get_cell s (key stake_i))) as z eqn:Ez.
  match goal with H : calc_pool_deposit_amount p z = Some t |- _ => pose proof H as Ht end.
  pose proof (proj1 (calc_pool_deposit_amount_bounds p z t Hwf Hx Ht)) as Htr.
  match goal with HP : plain_add _ t = Ok P, HS : plain_add _ z = Ok S |- _ =>
    apply plain_add_Ok in HP as [-> HovP], HS as [-> HovS] end.
  exists stake_i, z, t. do 4 (split; [done|]). split.
  { intros Hov. split; [apply HovP, Hov|apply HovS, Hov]. }
  intros HP HS. pose proof Hwf as (_ & _ & _ & HSr & HPr & _).
  rewrite !wrap_small by (unfold u64_range in *; lia). split; [done|].
  split; [by apply price_le_deposit|]. intros back Hb. by eapply (deposit_withdraw_le p).
Qed.
End Deposits.

Section DepositWitnesses.
#[local] Existing Instances model_sdk model_sdk_laws idle_runtime idle_runtime_laws model_bincode zero_padding debug_build.
Lemma process_deposit_spec_witness :
  exists s' t P S, process_deposit PID deposit_accounts the_store = (Ok tt, s') /\
    calc_pool_deposit_amount the_pool 900 = Some t /\ pool_at s' KP (set_totals P S the_pool).
Proof.
  destruct deposit_succeeds as [s' Hr].
  destruct (process_deposit_spec the_store s' the_pool the_list _ _ _ _ _ _ _ _ _ _ _ _ _ _ Hr
              the_store_wf the_pool_at the_list_at KP_KL)
    as (c & v & i & t & P & S & s1 & _ & (Ht & _) & (_ & _ & Hp & _)).
  exists s', t, P, S. split; [exact Hr|]. split; [|exact Hp]. rewrite <- Ht. by rewrite user_stake_lamports.
Defined.
Lemma process_deposit_completes_witness :
  exists s', process_deposit PID deposit_accounts the_store = (Ok tt, s').
Proof.
  apply (process_deposit_completes (SDK:=model_sdk) (program_id:=PID) the_store (info KP) (info KL) (info DEPOSIT_AUTH)
    (info WITHDRAW_AUTH) (info USER_STAKE) (info VOTE_STAKE) (info USER_TOKENS) (info FEE_ACCOUNT) (info MINT)
    clock_info history_info token_info stake_program_info [] the_pool the_list (mk_clock 7) [] VOTE 0%nat
    450 1950 3900 the_store); rewrite ?user_stake_lamports;
  [exact KP_KL|exact the_store_wf|exact the_pool_at|exact the_list_at|exact the_clock|exact the_history
  |reflexivity|reflexivity|reflexivity|reflexivity|reflexivity|exact withdraw_auth_ok|exact deposit_auth_ok
  |done|exact the_stake_account|reflexivity|reflexivity|done|reflexivity|reflexivity|reflexivity
  |reflexivity|reflexivity].
Defined.
Lemma deposit_price_witness :
  exists s' P S, process_deposit PID deposit_accounts the_store = (Ok tt, s') /\
    price_le the_pool (set_totals P S the_pool).
Proof.
  destruct deposit_succeeds as [s' Hr]. pose proof (deposit_pool_after s' Hr) as (P & S & Hq).
  destruct (deposit_price the_store s' the_pool _ deposit_accounts KP Hr the_store_wf eq_refl the_pool_at KP_KL Hq)
    as (i & x & t & _ & _ & _ & _ & Hov & Hle).
  destruct (Hov eq_refl) as [HP HS]. destruct (Hle HP HS) as (_ & Hle' & _).
  exists s', P, S. split; [exact Hr|exact Hle'].
Defined.
End DepositWitnesses.

Section Withdrawals.
Context `{SDK : SolanaSdk} {LAWS : SolanaSdkLaws SDK}.
Context `{RT : Runtime} `{BC : Bincode} `{PAD : StructPadding} `{BP : BuildProfile}.
Context {program_id : Pubkey} {RTL : RuntimeLaws RT program_id}.

(** C2: a successful withdrawal of [amount] pool tokens. The pool was
    initialised and up to date, the list passed (another account than the
    pool) is the one the pool names, the split stake account belongs to a
    validator of the list; exactly the lamports [calc_lamports_amount] gives
    are split off and [amount] tokens burned by the issued invocations; both
    totals shrink accordingly, the validator's recorded balance becomes its
    stake account's, and no other account changes after the invocations. *)
Theorem process_withdraw_spec s s' p l amount pool_i list_i withdraw_i from_i to_i user_i burn_i mint_i
    clock_i token_i stake_prog_i rest :
  let kp := key pool_i in
  let kl := key list_i in
  process_withdraw program_id amount
    (pool_i :: list_i :: withdraw_i :: from_i :: to_i :: user_i :: burn_i :: mint_i :: clock_i ::
     token_i :: stake_prog_i :: rest) s = (Ok tt, s') ->
  store_wf s -> pool_at s kp p -> list_at s kl l -> kp <> kl ->
  exists c v i x P S s1,
    (clock_from_account_info clock_i (get_cell s (key clock_i)) = Ok c /\
     sp_is_initialized p = true /\ vsl_is_initialized l = true /\ sp_validator_stake_list p = kl /\
     epoch c <= sp_last_update_epoch p /\ key token_i = sp_token_program_id p /\
     check_authority_withdraw p (key withdraw_i) program_id kp = Ok tt /\
     stake_account_of s program_id kp (key from_i) v /\ vsl_find_mut l v = Some i) /\
    (calc_lamports_amount p amount = Some x /\
     withdraw_invocations p pool_i withdraw_i from_i to_i user_i burn_i mint_i clock_i token_i stake_prog_i
       x amount s = (Ok tt, s1)) /\
    (plain_sub (E:=ProgramError) (sp_pool_total p) amount = Ok P /\
     plain_sub (E:=ProgramError) (sp_stake_total p) x = Ok S /\
     pool_at s' kp (set_totals P S p) /\
     list_at s' kl (set_balance_at i (cell_lamports (get_cell s1 (key from_i))) l) /\
     others_kept kp kl s1 s').
Proof.
  cbv zeta. intros Hr Hw Hp Hl Hne.
  pose proof (list_address (Withdraw amount) _ _ _ _ _ _ Hr eq_refl eq_refl eq_refl Hp) as Hk.
  destruct (withdraw_run _ _ s s' p l _ _ Hr Hw eq_refl Hne Hp Hl Hk)
    as (? & ? & ? & ? & ? & ? & ? & ? & ? & ? & ? & ? & c & v & i & x & P & S & s1 & Hrun).
  close_run Hrun. exists c, v, i, x, P, S, s1. by split_and!.
Qed.

(** C24: a withdrawal succeeds whenever its guards hold, the issued
    invocations succeed without touching the pool's two accounts, and the
    totals cover it. *)
Theorem process_withdraw_completes s amount pool_i list_i withdraw_i from_i to_i user_i burn_i mint_i clock_i
    token_i stake_prog_i rest p l c v i x P S s1 :
  let accounts := pool_i :: list_i :: withdraw_i :: from_i :: to_i :: user_i :: burn_i :: mint_i ::
                  clock_i :: token_i :: stake_prog_i :: rest in
  key pool_i <> key list_i -> store_wf s1 ->
  pool_at s (key pool_i) p -> list_at s (key list_i) l ->
  clock_from_account_info clock_i (get_cell s (key clock_i)) = Ok c ->
  key stake_prog_i = stake_program_id -> key token_i = sp_token_program_id p ->
  key list_i = sp_validator_stake_list p ->
  sp_is_initialized p = true -> vsl_is_initialized l = true ->
  check_authority_withdraw p (key withdraw_i) program_id (key pool_i) = Ok tt ->
  epoch c <= sp_last_update_epoch p ->
  stake_account_of s program_id (key pool_i) (key from_i) v -> vsl_find_mut l v = Some i ->
  calc_lamports_amount p amount = Some x ->
  withdraw_invocations p pool_i withdraw_i from_i to_i user_i burn_i mint_i clock_i token_i stake_prog_i
    x amount s = (Ok tt, s1) ->
  cell_data (get_cell s1 (key pool_i)) = cell_data (get_cell s (key pool_i)) ->
  cell_data (get_cell s1 (key list_i)) = cell_data (get_cell s (key list_i)) ->
  plain_sub (E:=ProgramError) (sp_pool_total p) amount = Ok P ->
  plain_sub (E:=ProgramError) (sp_stake_total p) x = Ok S ->
  exists s', process_withdraw program_id amount accounts s = (Ok tt, s').
Proof. apply withdraw_completes. Qed.

(** C23: the price of a withdrawal, in any build. The lamports paid out are
    never worth more than the burned tokens, and both totals shrink by what
    was paid and burned, modulo 2^64.  When no more tokens are burned than the
    pool has counted, which a build with overflow checks enforces, the totals
    do not wrap around and the value of the remaining tokens has not fallen.
    The handler does not compare the burned mint with the pool's, so in a
    release build more tokens of another mint can be burned than that. *)
Theorem withdraw_price s s' p q amount accounts kp :
  process_withdraw program_id amount accounts s = (Ok tt, s') -> u64_range amount -> store_wf s ->
  slot_key (Some 0%nat) accounts = Some kp -> pool_at s kp p -> kp <> sp_validator_stake_list p -> pool_at s' kp q ->
  exists x, calc_lamports_amount p amount = Some x /\ x * sp_pool_total p <= amount * sp_stake_total p /\
    q = set_totals (wrap 64 (sp_pool_total p - amount)) (wrap 64 (sp_stake_total p - x)) p /\
    (overflow_checks = true -> amount <= sp_pool_total p) /\
    (amount <= sp_pool_total p -> q = pool_debit p x amount /\ price_le p q).
Proof.
  intros Hr Ha Hw Hkp Hp Hne Hq.
  destruct (list_passed (Withdraw amount) _ _ _ _ _ Hr eq_refl ltac:(by eexists) Hkp Hp) as (l & Hl).
  destruct (withdraw_run _ _ s s' p l _ _ Hr Hw Hkp Hne Hp Hl eq_refl)
    as (? & ? & ? & ? & ? & ? & ? & ? & ? & ? & ? & ? & c & v & i & x & P & S & s1 & Hrun).
  cbv zeta in Hrun. destruct_and? Hrun. same_views. pose proof (pool_at_wf _ _ _ Hp) as Hwf.
  match goal with H : calc_lamports_amount p amount = Some x |- _ => pose proof H as Hx end.
  pose proof Hwf as (_ & _ & _ & HSr & HPr & _).
  assert (Hb : 0 < sp_pool_total p /\ 0 <= x /\ x * sp_pool_total p <= amount * sp_stake_total p).
  { unfold u64_range in *. apply mul_div_bounds in Hx; lia. }
  match goal with HP : plain_sub _ amount = Ok P, HS : plain_sub _ x = Ok S |- _ =>
    apply plain_sub_Ok in HP as [-> HovP], HS as [-> HovS] end.
  exists x. split; [done|]. split; [apply Hb|]. split; [done|]. split.
  { intros Hov. destruct (HovP Hov) as [_ [? _]]. lia. }
  intros HP. unfold u64_range in *. assert (x <= sp_stake_total p) by nia.
  rewrite !wrap_small by (unfold u64_range in *; lia). split; [done|]. by apply price_le_withdraw.
Qed.
End Withdrawals.

Section WithdrawalWitnesses.
#[local] Existing Instances model_sdk model_sdk_laws idle_runtime idle_runtime_laws model_bincode zero_padding debug_build.
Lemma process_withdraw_spec_witness :
  exists s' x P S, process_withdraw PID 100 withdraw_accounts the_store = (Ok tt, s') /\
    calc_lamports_amount the_pool 100 = Some x /\ pool_at s' KP (set_totals P S the_pool).
Proof.
  destruct withdraw_succeeds as [s' Hr].
  destruct (process_withdraw_spec the_store s' the_pool the_list _ _ _ _ _ _ _ _ _ _ _ _ _ Hr
              the_store_wf the_pool_at the_list_at KP_KL)
    as (c & v & i & x & P & S & s1 & _ & (Ht & _) & (_ & _ & Hp & _)).
  exists s', x, P, S. split; [exact Hr|]. split; [exact Ht|exact Hp].
Defined.
(** the mint of the burned tokens is the user's choice *)
Lemma process_withdraw_completes_witness :
  exists s', process_withdraw PID 100
    [ info KP; info KL; info WITHDRAW_AUTH; info VOTE_STAKE; info USER_STAKE; info USER; info USER_TOKENS;
      info WSOL; clock_info; token_info; stake_program_info ] the_store = (Ok tt, s').
Proof.
  apply (process_withdraw_completes (SDK:=model_sdk) (program_id:=PID) the_store 100 (info KP) (info KL)
    (info WITHDRAW_AUTH) (info VOTE_STAKE) (info USER_STAKE) (info USER) (info USER_TOKENS) (info WSOL)
    clock_info token_info stake_program_info [] the_pool the_list (mk_clock 7) VOTE 0%nat 200 1400 2800 the_store);
  [exact KP_KL|exact the_store_wf|exact the_pool_at|exact the_list_at|exact the_clock
  |reflexivity|reflexivity|reflexivity|reflexivity|reflexivity|exact withdraw_auth_ok
  |done|exact the_stake_account|reflexivity|reflexivity|reflexivity|reflexivity|reflexivity
  |reflexivity|reflexivity].
Defined.
Lemma withdraw_price_witness :
  exists s' P S, process_withdraw PID 100 withdraw_accounts the_store = (Ok tt, s') /\
    price_le the_pool (set_totals P S the_pool).
Proof.
  assert (Ha : u64_range 100) by done.
  destruct withdraw_succeeds as [s' Hr]. pose proof (withdraw_pool_after s' Hr) as (P & S & Hq).
  destruct (withdraw_price the_store s' the_pool _ 100 withdraw_accounts KP Hr Ha the_store_wf eq_refl the_pool_at KP_KL Hq)
    as (x & _ & _ & _ & Hov & Hle).
  exists s', P, S. split; [exact Hr|exact (proj2 (Hle (Hov eq_refl)))].
Defined.
End WithdrawalWitnesses.

Section Administration.
Context `{SDK : SolanaSdk} {LAWS : SolanaSdkLaws SDK}.
Context `{RT : Runtime} `{BC : Bincode} `{PAD : StructPadding} `{BP : BuildProfile}.
Context {program_id : Pubkey} {RTL : RuntimeLaws RT program_id}.

Lemma check_owner_Ok p i : check_owner p i = Ok tt <-> key i = sp_owner p /\ is_signer i = true.
Proof.
  unfold check_owner. rewrite !err_if_bind. case_bool_decide; cbn; [|naive_solver].
  destruct (is_signer i); naive_solver.
Qed.

(** C25: a successful addition of a validator. It was signed by the pool's
    owner, the pool was up to date, the list passed (another account than the
    pool) is the one the pool names and does not already hold the validator
    of the stake account; the tokens the account's lamports are worth are
    minted, and the validator is appended to the list with its balance and the
    current epoch, which keeps the list within a thousand records. *)
Theorem process_add_spec s s' p l pool_i owner_i deposit_i withdraw_i list_i stake_i dest_i mint_i clock_i
    history_i token_i stake_prog_i rest :
  let kp := key pool_i in
  let kl := key list_i in
  process_add_validator_stake_account program_id
    (pool_i :: owner_i :: deposit_i :: withdraw_i :: list_i :: stake_i :: dest_i :: mint_i :: clock_i ::
     history_i :: token_i :: stake_prog_i :: rest) s = (Ok tt, s') ->
  store_wf s -> pool_at s kp p -> list_at s kl l -> kp <> kl ->
  exists c v x t P S s1,
    (clock_from_account_info clock_i (get_cell s (key clock_i)) = Ok c /\
     key owner_i = sp_owner p /\ is_signer owner_i = true /\ sp_validator_stake_list p = kl /\
     epoch c <= sp_last_update_epoch p /\ key mint_i = sp_pool_mint p /\
     stake_account_of s program_id kp (key stake_i) v /\ (v ∉ validator_keys l)) /\
    (add_invocations p pool_i deposit_i withdraw_i stake_i dest_i mint_i clock_i token_i stake_prog_i
       (calc_pool_deposit_amount p) s = (Ok x, s1) /\ calc_pool_deposit_amount p x = Some t) /\
    (plain_add (E:=ProgramError) (sp_pool_total p) t = Ok P /\
     plain_add (E:=ProgramError) (sp_stake_total p) x = Ok S /\
     pool_at s' kp (set_totals P S p) /\
     list_at s' kl (set_vsl_validators (vsl_validators l ++ [mk_validator_stake_info v x (epoch c)]) l) /\
     (length (vsl_validators l) < MAX_VALIDATOR_STAKE_ACCOUNTS)%nat /\ others_kept kp kl s1 s').
Proof.
  cbv zeta. intros Hr Hw Hp Hl Hne.
  pose proof (list_address AddValidatorStakeAccount _ _ _ _ _ _ Hr eq_refl eq_refl eq_refl Hp) as Hk.
  destruct (add_run _ s s' p l _ _ Hr Hw eq_refl Hne Hp Hl Hk)
    as (? & ? & ? & ? & ? & ? & ? & ? & ? & ? & ? & ? & ? & c & v & x & t & P & S & s1 & Hrun).
  destruct_and? Hrun. simplify_eq.
  match goal with H : check_owner _ _ = Ok tt |- _ => apply check_owner_Ok in H as [? ?] end.
  match goal with H : vsl_contains _ _ = false |- _ => apply not_contains_spec in H end.
  exists c, v, x, t, P, S, s1. by split_and!.
Qed.

(** C26: a successful removal of a validator. It was signed by the pool's
    owner, the pool was up to date, the list passed (another account than the
    pool) is the one the pool names and holds the validator of the stake
    account; the tokens its lamports are worth are burned and exactly the
    records of that validator leave the list. *)
Theorem process_remove_spec s s' p l pool_i owner_i withdraw_i new_auth_i list_i stake_i burn_i mint_i
    clock_i token_i stake_prog_i rest :
  let kp := key pool_i in
  let kl := key list_i in
  process_remove_validator_stake_account program_id
    (pool_i :: owner_i :: withdraw_i :: new_auth_i :: list_i :: stake_i :: burn_i :: mint_i :: clock_i ::
     token_i :: stake_prog_i :: rest) s = (Ok tt, s') ->
  store_wf s -> pool_at s kp p -> list_at s kl l -> kp <> kl ->
  exists c v x t P S s1 l',
    (clock_from_account_info clock_i (get_cell s (key clock_i)) = Ok c /\
     key owner_i = sp_owner p /\ is_signer owner_i = true /\ sp_validator_stake_list p = kl /\
     epoch c <= sp_last_update_epoch p /\ key mint_i = sp_pool_mint p /\
     stake_account_of s program_id kp (key stake_i) v /\ v ∈ validator_keys l) /\
    (remove_invocations p pool_i withdraw_i new_auth_i stake_i burn_i mint_i clock_i token_i stake_prog_i
       (calc_pool_withdraw_amount p) s = (Ok x, s1) /\ calc_pool_withdraw_amount p x = Some t) /\
    (plain_sub (E:=ProgramError) (sp_pool_total p) t = Ok P /\
     plain_sub (E:=ProgramError) (sp_stake_total p) x = Ok S /\
     pool_at s' kp (set_totals P S p) /\ list_at s' kl l' /\ (v ∉ validator_keys l') /\
     (forall r, (r ∈ vsl_validators l') <-> (r ∈ vsl_validators l) /\ vsi_validator_account r <> v) /\
     others_kept kp kl s1 s').
Proof.
  cbv zeta. intros Hr Hw Hp Hl Hne.
  pose proof (list_address RemoveValidatorStakeAccount _ _ _ _ _ _ Hr eq_refl eq_refl eq_refl Hp) as Hk.
  destruct (remove_run _ s s' p l _ _ Hr Hw eq_refl Hne Hp Hl Hk)
    as (? & ? & ? & ? & ? & ? & ? & ? & ? & ? & ? & ? & c & v & x & t & P & S & s1 & Hrun).
  destruct_and? Hrun. simplify_eq.
  match goal with H : check_owner _ _ = Ok tt |- _ => apply check_owner_Ok in H as [? ?] end.
  match goal with H : vsl_contains _ _ = true |- _ => apply contains_spec in H end.
  exists c, v, x, t, P, S, s1, (drop_validator v l). split_and!; try done.
  - unfold drop_validator. rewrite filter_validators_keys, list_elem_of_filter. naive_solver.
  - intros r. cbn. rewrite list_elem_of_filter. naive_solver.
Qed.
End Administration.

Section AdministrationWitnesses.
#[local] Existing Instances model_sdk model_sdk_laws idle_runtime idle_runtime_laws model_bincode zero_padding debug_build.
Lemma process_add_spec_witness :
  exists s' v P S, process_add_validator_stake_account PID add_accounts the_store = (Ok tt, s') /\
    (v ∉ validator_keys the_list) /\ pool_at s' KP (set_totals P S the_pool).
Proof.
  destruct add_succeeds as [s' Hr].
  destruct (process_add_spec the_store s' the_pool the_list _ _ _ _ _ _ _ _ _ _ _ _ _ Hr
              the_store_wf the_pool_at the_list_at KP_KL)
    as (c & v & x & t & P & S & s1 & (_ & _ & _ & _ & _ & _ & _ & Hv) & _ & (_ & _ & Hp & _)).
  exists s', v, P, S. split; [exact Hr|]. split; [exact Hv|exact Hp].
Defined.
Lemma process_remove_spec_witness :
  exists s' v P S, process_remove_validator_stake_account PID remove_accounts the_store = (Ok tt, s') /\
    v ∈ validator_keys the_list /\ pool_at s' KP (set_totals P S the_pool).
Proof.
  destruct remove_succeeds as [s' Hr].
  destruct (process_remove_spec the_store s' the_pool the_list _ _ _ _ _ _ _ _ _ _ _ _ Hr
              the_store_wf the_pool_at the_list_at KP_KL)
    as (c & v & x & t & P & S & s1 & l' & (_ & _ & _ & _ & _ & _ & _ & Hv) & _ & (_ & _ & Hp & _)).
  exists s', v, P, S. split; [exact Hr|]. split; [exact Hv|exact Hp].
Defined.
End AdministrationWitnesses.

Section Updates.
Context `{SDK : SolanaSdk} {LAWS : SolanaSdkLaws SDK}.
Context `{RT : Runtime} `{BC : Bincode} `{PAD : StructPadding} `{BP : BuildProfile}.
Context {program_id : Pubkey}.

Lemma add_balances_spec c acc rs total :
  u64_range acc -> fold_outcome (add_balance c) acc rs = Ok total ->
  Forall (fun r => epoch c <= vsi_last_update_epoch r) rs /\ total = wrap 64 (acc + total_balance rs) /\
  (overflow_checks = true -> total = acc + total_balance rs).
Proof.
  revert acc. induction rs as [|r rs IH]; intros acc Ha; cbn [fold_outcome total_balance foldr].
  { intros [= <-]. rewrite Z.add_0_r, wrap_small by done. by split_and!. }
  rewrite outcome_bind_Ok. intros (acc' & Hadd & Hr). unfold add_balance in Hadd. rewrite err_if_bind in Hadd.
  destruct (Z.ltb_spec (vsi_last_update_epoch r) (epoch c)); [done|].
  pose proof (plain_add_range _ _ _ Hadd) as Ha'. apply plain_add_Ok in Hadd as [Hw He].
  destruct (IH acc' Ha' Hr) as (Hf & Ht & Hte). split_and!; [by constructor| |].
  - rewrite Ht, Hw. unfold wrap. rewrite Zplus_mod_idemp_l. f_equal. unfold total_balance. lia.
  - intros Hov. rewrite (Hte Hov), (proj1 (He Hov)). unfold total_balance. lia.
Qed.

(** a balance update refreshes exactly the out-of-date records whose
    key is among the passed accounts: each gets the lamports of the account
    with that key and the current epoch, every other record and every other
    account is left as it is. *)
Lemma process_update_list_spec s s' l list_i clock_i items :
  let kl := key list_i in
  process_update_list_balance program_id (list_i :: clock_i :: items) s = (Ok tt, s') ->
  store_wf s -> list_at s kl l ->
  exists c, clock_from_account_info clock_i (get_cell s (key clock_i)) = Ok c /\
    list_at s' kl (set_vsl_validators (refreshed (epoch c) items s <$> vsl_validators l) l) /\
    forall k, k <> kl -> get_cell s' k = get_cell s k.
Proof.
  cbv zeta. intros Hr Hw Hl.
  destruct (update_list_run (program_id:=program_id) _ s s' l _ Hr Hw eq_refl Hl) as (? & ? & ? & c & Hrun).
  close_run Hrun. exists c. by split_and!.
Qed.

(** updating the pool's total succeeds only when every record of the
    list is up to date in the current epoch; the pool's stake total becomes
    the sum of the recorded balances (modulo 2^64 in a build without
    overflow checks), its epoch the current one, and nothing else changes. *)
Lemma process_update_pool_spec s s' p l pool_i list_i clock_i rest :
  let kp := key pool_i in
  let kl := key list_i in
  process_update_pool_balance program_id (pool_i :: list_i :: clock_i :: rest) s = (Ok tt, s') ->
  pool_at s kp p -> list_at s kl l -> sp_validator_stake_list p = kl ->
  exists c total,
    clock_from_account_info clock_i (get_cell s (key clock_i)) = Ok c /\
    Forall (fun r => epoch c <= vsi_last_update_epoch r) (vsl_validators l) /\
    total = wrap 64 (total_balance (vsl_validators l)) /\
    (overflow_checks = true -> total = total_balance (vsl_validators l)) /\
    pool_at s' kp (set_sp_last_update_epoch (epoch c) (set_sp_stake_total total p)) /\
    forall k, k <> kp -> get_cell s' k = get_cell s k.
Proof.
  cbv zeta. intros Hr Hp Hl Hk.
  destruct (update_pool_run (program_id:=program_id) _ s s' p l _ _ Hr eq_refl Hp Hl Hk)
    as (? & ? & ? & ? & c & total & Hrun).
  destruct_and? Hrun. simplify_eq.
  match goal with H : fold_outcome _ _ _ = _ |- _ => apply add_balances_spec in H as (Hf & Ht & Hte); [|by split] end.
  exists c, total. by split_and!.
Qed.

(** handing over the pool needs the current owner's signature and a new
    fee account of the pool's mint; it changes the owner and the fee account
    and nothing else. *)
Lemma process_set_owner_spec s s' p pool_i owner_i new_owner_i new_fee_i rest :
  let kp := key pool_i in
  process_set_owner program_id (pool_i :: owner_i :: new_owner_i :: new_fee_i :: rest) s = (Ok tt, s') ->
  pool_at s kp p ->
  exists fee, key owner_i = sp_owner p /\ is_signer owner_i = true /\
    account_unpack_from_slice (cell_data (get_cell s (key new_fee_i))) = Ok fee /\
    acc_mint fee = sp_pool_mint p /\
    pool_at s' kp (set_sp_owner_fee_account (key new_fee_i) (set_sp_owner (key new_owner_i) p)) /\
    forall k, k <> kp -> get_cell s' k = get_cell s k.
Proof.
  cbv zeta. intros Hr Hp.
  destruct (set_owner_run (program_id:=program_id) _ s s' p _ Hr eq_refl Hp) as (? & ? & ? & ? & ? & fee & Hrun).
  destruct_and? Hrun. simplify_eq.
  match goal with H : check_owner _ _ = Ok tt |- _ => apply check_owner_Ok in H as [? ?] end.
  exists fee. by split_and!.
Qed.

(** C27: initialising a pool needs the owner's signature, uninitialised pool
    and list accounts, a fee of at most one, and a fee account and a mint of
    the token program whose minting authority is the pool's withdraw
    address. It stores the passed keys with both derived bump seeds, with
    which the pool's own authority checks accept the derived addresses, an
    empty list, and changes no other account. *)
Theorem process_initialize_spec s s' init pool_i owner_i list_i mint_i fee_i clock_i rent_i token_i rest :
  let kp := key pool_i in
  let kl := key list_i in
  process_initialize program_id init
    (pool_i :: owner_i :: list_i :: mint_i :: fee_i :: clock_i :: rent_i :: token_i :: rest) s = (Ok tt, s') ->
  Fee_wf (init_fee init) -> kp <> kl ->
  exists c p0 l0 p mint,
    (clock_from_account_info clock_i (get_cell s (key clock_i)) = Ok c /\
     is_signer owner_i = true /\ fee_numerator (init_fee init) <= fee_denominator (init_fee init) /\
     pool_at s kp p0 /\ sp_version p0 = 0 /\ list_at s kl l0 /\ vsl_version l0 = 0 /\
     mint_unpack_from_slice (cell_data (get_cell s (key mint_i))) = Ok mint /\
     mint_authority mint = Some (find_authority_bump_seed program_id kp AUTHORITY_WITHDRAW).1) /\
    (pool_at s' kp p /\ sp_version p = 1 /\ sp_owner p = key owner_i /\ sp_validator_stake_list p = kl /\
     sp_pool_mint p = key mint_i /\ sp_owner_fee_account p = key fee_i /\
     sp_token_program_id p = key token_i /\ sp_last_update_epoch p = epoch c /\ sp_fee p = init_fee init /\
     check_authority_withdraw p (find_authority_bump_seed program_id kp AUTHORITY_WITHDRAW).1 program_id kp = Ok tt /\
     check_authority_deposit p (find_authority_bump_seed program_id kp AUTHORITY_DEPOSIT).1 program_id kp = Ok tt) /\
    list_at s' kl (mk_validator_stake_list 1 []) /\ others_kept kp kl s s'.
Proof.
  cbv zeta. intros Hr Hf Hne.
  destruct (initialize_run _ _ s s' _ _ Hr Hf eq_refl eq_refl Hne)
    as (? & ? & ? & ? & ? & ? & ? & ? & ? & c & p0 & l0 & fee_acc & mint & Hrun).
  destruct_and? Hrun. simplify_eq.
  eexists c, p0, l0, _, mint. split; [|split; [|by split]]; split_and!; try done.
  - match goal with H : pool_at _ _ p0, H' : sp_is_initialized p0 = false |- _ =>
      apply pool_at_wf in H as ([? _] & _); apply Z.ltb_ge in H'; lia end.
  - match goal with H : list_at _ _ l0, H' : vsl_is_initialized l0 = false |- _ =>
      apply list_at_wf in H as ([? _] & _); apply Z.ltb_ge in H'; lia end.
  - apply derived_authority_checks.
  - apply derived_authority_checks.
Qed.
End Updates.

Section UpdateWitnesses.
#[local] Existing Instances model_sdk model_sdk_laws idle_runtime idle_runtime_laws model_bincode zero_padding debug_build.
Lemma process_update_list_spec_witness :
  exists s' l', process_update_list_balance PID update_list_accounts later_store = (Ok tt, s') /\
    list_at s' KL l' /\ length (vsl_validators l') = 1%nat.
Proof.
  destruct update_list_succeeds as [s' Hr].
  destruct (process_update_list_spec later_store s' the_list _ _ _ Hr later_store_wf later_list_at) as (c & _ & Hl & _).
  eexists s', _. split; [exact Hr|]. split; [exact Hl|reflexivity].
Defined.
Lemma process_update_pool_spec_witness :
  exists s' q, process_update_pool_balance PID update_pool_accounts the_store = (Ok tt, s') /\
    pool_at s' KP q /\ sp_stake_total q = 3000.
Proof.
  destruct update_pool_succeeds as [s' Hr].
  destruct (process_update_pool_spec the_store s' the_pool the_list _ _ _ _ Hr the_pool_at the_list_at eq_refl)
    as (c & total & _ & _ & -> & _ & Hp & _).
  eexists s', _. split; [exact Hr|]. split; [exact Hp|reflexivity].
Defined.
Lemma process_set_owner_spec_witness :
  exists s' q, process_set_owner PID set_owner_accounts the_store = (Ok tt, s') /\
    pool_at s' KP q /\ sp_owner q = NEW_OWNER.
Proof.
  destruct set_owner_succeeds as [s' Hr].
  destruct (process_set_owner_spec the_store s' the_pool _ _ _ _ _ Hr the_pool_at) as (fee & _ & _ & _ & _ & Hp & _).
  eexists s', _. split; [exact Hr|]. split; [exact Hp|reflexivity].
Defined.
Lemma process_initialize_spec_witness :
  exists s' q, process_initialize PID the_init initialize_accounts the_store = (Ok tt, s') /\
    pool_at s' KP0 q /\ sp_owner q = OWNER.
Proof.
  assert (Hf : Fee_wf (init_fee the_init)) by by split.
  assert (Hne : key (info KP0) <> key (info KL0)) by by vm_compute.
  destruct initialize_succeeds as [s' Hr].
  destruct (process_initialize_spec the_store s' the_init _ _ _ _ _ _ _ _ _ Hr Hf Hne)
    as (c & p0 & l0 & q & mint & _ & (Hp & _ & Ho & _) & _).
  exists s', q. split; [exact Hr|]. split; [exact Hp|exact Ho].
Defined.
End UpdateWitnesses.

(** ** The program as a system *)
Section System.
Context `{SDK : SolanaSdk} {LAWS : SolanaSdkLaws SDK}.
Context `{RT : Runtime} `{BC : Bincode} `{PAD : StructPadding} `{BP : BuildProfile}.
Context {program_id : Pubkey} {RTL : RuntimeLaws RT program_id}.

(** C14: whatever the instruction bytes and whatever the outcome, error and
    panic included, the program leaves the ownership of its accounts and the
    data of all of them but the pool and the list it was passed as they
    were.  (The program is not passed to itself as an account.) *)
Theorem pool_process_frame accounts input s r s' k :
  program_id ∉ key <$> accounts -> pool_process program_id accounts input s = (r, s') ->
  cell_owner (get_cell s k) = program_id ->
  cell_owner (get_cell s' k) = program_id /\
  ((forall instr, pool_instruction_deserialize input = Ok instr -> k ∉ state_keys instr accounts) ->
   cell_data (get_cell s' k) = cell_data (get_cell s k)).
Proof.
  intros NS Hr Ho. unfold pool_process, mbind, stM_bind, lift in Hr.
  destruct (pool_instruction_deserialize input) as [instr|e|] eqn:E; [|by injection Hr as <- <-..].
  destruct (process_frame instr accounts NS _ _ _ Hr k Ho) as [? Hd]. split; [done|].
  intros Hk. by apply Hd, Hk.
Qed.

(** C3: the refinement theorem. Let the pool's account be too short for a
    list (208 bytes, as the client creates it) and let the account the
    instruction takes for a pool be no impostor, that is not the list, nor another
    account that reads as an initialised pool naming this pool's list. Then every
    successful instruction, whoever sent it and whatever else it was passed,
    takes an initialised pool and its list through the step of the pool
    machine that is named after it, and an idle step exactly when neither
    account is in one of its state slots.  The program itself is not among the
    accounts passed. *)
Theorem pool_process_refines accounts input s s' kp kl st :
  pool_process program_id accounts input s = (Ok tt, s') -> store_wf s ->
  program_id ∉ key <$> accounts -> kp <> kl -> input_genuine s input accounts kp kl ->
  pool_state_at program_id kp kl s st ->
  exists instr now ev st', pool_instruction_deserialize input = Ok instr /\
    pool_step now st ev st' /\ event_of instr accounts kp kl ev /\ pool_state_at program_id kp kl s' st'.
Proof. apply process_simulates. Qed.

(** C13: administration is the owner's. Adding or removing a validator,
    setting the staking authority and handing over the pool succeed only
    when the second account passed is the owner recorded in the pool and
    signed the transaction. *)
Theorem administration_needs_owner instr accounts s s' p pool_i owner_i :
  match instr with
  | AddValidatorStakeAccount | RemoveValidatorStakeAccount | SetStakingAuthority | SetOwner => True
  | _ => False
  end ->
  process_pool_instruction program_id accounts instr s = (Ok tt, s') ->
  accounts !! 0%nat = Some pool_i -> accounts !! 1%nat = Some owner_i -> pool_at s (key pool_i) p ->
  key owner_i = sp_owner p /\ is_signer owner_i = true.
Proof.
  intros Hi Hr H0 H1 Hp. rewrite <- check_owner_Ok.
  destruct instr; try done; cbn [process_pool_instruction] in Hr; clear Hi;
    unfold process_add_validator_stake_account, process_remove_validator_stake_account,
      process_set_staking_auth, process_set_owner in Hr; start_run; done.
Qed.

(** one event of the chain, as the pool at [kp] sees it: a successful
    instruction of the program that is passed no impostor as its pool, or
    anything else, which by the runtime's rules leaves the data of the
    program's accounts alone (a failed instruction is rolled back and is no
    event) *)
Inductive chain_step (kp kl : Pubkey) (s s' : Store) : Prop :=
| ChainInstruction accounts input :
    store_wf s -> program_id ∉ key <$> accounts -> input_genuine s input accounts kp kl ->
    pool_process program_id accounts input s = (Ok tt, s') -> chain_step kp kl s s'
| ChainOther : owned_kept [] program_id s s' -> chain_step kp kl s s'.
Lemma chain_step_moves kp kl s s' st :
  kp <> kl -> chain_step kp kl s s' -> pool_state_at program_id kp kl s st ->
  exists st', pool_state_at program_id kp kl s' st' /\ pool_moves st st'.
Proof.
  intros Hne [accounts input Hw NS Ha Hr|HK] Hst.
  - destruct (process_simulates accounts input s s' kp kl st) as (instr & now & ev & st' & _ & Hs & _ & Hst'); try done.
    exists st'. split; [done|]. by exists now, ev.
  - exists st. split; [by eapply idle_state|]. by exists 0, EvIdle; constructor.
Qed.
Lemma moves_inv a b : PoolInv a -> pool_moves a b ->
  PoolInv b /\ pool_constants (st_pool b) = pool_constants (st_pool a).
Proof.
  intros HI (now & ev & Hs). split; [by eapply pool_step_preserves|by eapply pool_step_constants].
Qed.

(** C4: along every chain of the program's successful instructions, none of
    them passed an impostor as its pool, and of anything other programs do,
    the pool stays an initialised, in-range pool whose list holds each
    validator at most once and at most a thousand of them, and its mint, token
    program, list, bump seeds, fee and version never change. (The pool's
    account is too short for a list; the program is not passed to itself.) *)
Theorem pool_invariant_always kp kl s s' st :
  kp <> kl -> rtc (chain_step kp kl) s s' -> pool_state_at program_id kp kl s st -> PoolInv st ->
  exists st', pool_state_at program_id kp kl s' st' /\ PoolInv st' /\
    NoDup (validator_keys (st_list st')) /\ (length (vsl_validators (st_list st')) <= 1000)%nat /\
    pool_constants (st_pool st') = pool_constants (st_pool st).
Proof.
  intros Hne Hc. revert st. induction Hc as [s|s1 s2 s3 H12 _ IH]; intros st Hst HI.
  - exists st. split_and!; try done; by apply HI.
  - destruct (chain_step_moves _ _ _ _ _ Hne H12 Hst) as (st2 & Hst2 & Hm).
    destruct (moves_inv _ _ HI Hm) as [HI2 E]. destruct (IH st2 Hst2 HI2) as (st' & ? & ? & ? & ? & E').
    exists st'. split_and!; try done. by rewrite E'.
Qed.

(** ** The price of a token along a chain *)
(** the totals of the pool [p] have not wrapped around in the instruction
    that left [q]; in a build with overflow checks they cannot *)
Definition unwrapped (instr : StakePoolInstruction) (p q : StakePool) : Prop :=
  overflow_checks = true \/
  match instr with
  | Deposit | AddValidatorStakeAccount => totals_rose p q
  | Withdraw _ => totals_fell p q
  | _ => True
  end.
(** an event of the chain that trades tokens of the pool at [kp] for lamports
    or leaves its totals alone: any but the removal of one of its validators
    and the taking over of its measured balances *)
Inductive trade_step (kp kl : Pubkey) (s s' : Store) : Prop :=
| TradeInstruction instr accounts input :
    store_wf s -> program_id ∉ key <$> accounts -> pool_instruction_deserialize input = Ok instr ->
    genuine s instr accounts kp kl -> pool_process program_id accounts input s = (Ok tt, s') ->
    match instr with
    | RemoveValidatorStakeAccount | UpdatePoolBalance => slot_key (Some 0%nat) accounts <> Some kp
    | _ => True
    end ->
    (forall p q, pool_at s kp p -> pool_at s' kp q -> unwrapped instr p q) -> trade_step kp kl s s'
| TradeOther : owned_kept [] program_id s s' -> trade_step kp kl s s'.

Lemma event_price now ev a b instr accounts kp kl :
  PoolInv a -> pool_step now a ev b -> event_of instr accounts kp kl ev -> unwrapped instr (st_pool a) (st_pool b) ->
  match ev with EvRemove _ _ _ | EvUpdatePool => False | _ => True end -> price_le (st_pool a) (st_pool b).
Proof.
  intros (Hw & _) Hs [Hi _] Hov Hev. unfold unwrapped in Hov. destruct Hs; try done; cbn [st_pool] in *; subst;
    try (unfold price_le; cbn; lia).
  - pose proof (calc_pool_deposit_amount_bounds p x t Hw) as Hb. rewrite (totals_exact_add p x t); try done.
    + by apply price_le_deposit.
    + by apply Hb.
  - assert (u64_range x).
    { pose proof Hw as (_ & _ & _ & HS & HP & _). unfold u64_range in *.
      match goal with H : calc_lamports_amount _ _ = Some x |- _ => apply mul_div_bounds in H as (? & ? & ?) end; lia. }
    rewrite (totals_exact_sub p x t); try done. by apply price_le_withdraw.
  - pose proof (calc_pool_deposit_amount_bounds p x t Hw) as Hb. rewrite (totals_exact_add p x t); try done.
    + by apply price_le_deposit.
    + by apply Hb.
Qed.
Lemma trade_step_price kp kl s s' st :
  kp <> kl -> trade_step kp kl s s' -> pool_state_at program_id kp kl s st -> PoolInv st ->
  exists st', pool_state_at program_id kp kl s' st' /\ PoolInv st' /\ price_le (st_pool st) (st_pool st').
Proof.
  intros Hne [instr accounts input Hw NS Hi Hg Hr Hslot Hov|HK] Hst HI.
  - assert (Hig : input_genuine s input accounts kp kl) by (intros i Hi'; rewrite Hi in Hi'; injection Hi' as <-; exact Hg).
    destruct (process_simulates accounts input s s' kp kl st Hr Hw NS Hne Hig Hst)
      as (i & now & ev & st' & Hi' & Hs & Hev & Hst'). rewrite Hi in Hi'. injection Hi' as <-.
    exists st'. split; [done|]. split; [by eapply pool_step_preserves|].
    eapply event_price; [done|exact Hs|exact Hev|apply Hov; [apply Hst|apply Hst']|].
    unfold pool_process in Hr. apply stM_bind_Ok in Hr as (i & s1 & Hl & Hr). apply lift_Ok in Hl as [E ->].
    rewrite Hi in E. injection E as <-.
    assert (Htgt : is_Some (state_slots instr).1 -> ev <> EvIdle -> slot_key (state_slots instr).1 accounts = Some kp).
    { intros Hpo Hne'. eapply targeted_pool; [exact Hr|done|exact Hg|exact Hst|].
      destruct Hev as [_ Hidle]. destruct (decide (kp ∈ state_keys instr accounts \/ kl ∈ state_keys instr accounts)); [done|].
      apply Decidable.not_or in n. by apply Hidle in n. }
    destruct Hev as [Hev _]. destruct ev; try done; subst instr; apply Hslot, Htgt; done || by eexists.
  - exists st. split; [by eapply idle_state|]. split; [done|]. unfold price_le. lia.
Qed.

(** C5: trading keeps the price. Take any sequence of deposits, withdrawals,
    validator additions, balance refreshes and administrative instructions of
    this or any other pool, none passed an impostor as its pool and none
    wrapping the pool's totals around (no build with overflow checks does),
    and of anything other programs do.  Then the lamports behind a token of
    the pool have not decreased, unless on the way all its tokens were
    redeemed: the next deposit is then priced afresh. Only removing a
    validator and taking over the measured balances are left out. *)
Theorem trading_keeps_price kp kl s s' st :
  kp <> kl -> rtc (trade_step kp kl) s s' -> pool_state_at program_id kp kl s st -> PoolInv st ->
  exists st', pool_state_at program_id kp kl s' st' /\
    (price_le (st_pool st) (st_pool st') \/
     exists s1 st1, rtc (trade_step kp kl) s s1 /\ rtc (trade_step kp kl) s1 s' /\
       pool_state_at program_id kp kl s1 st1 /\ sp_pool_total (st_pool st1) = 0).
Proof.
  intros Hne Hc. revert st. induction Hc as [s|s1 s2 s3 H12 H23 IH]; intros st Hst HI.
  { exists st. split; [done|]. left. unfold price_le. lia. }
  destruct (trade_step_price _ _ _ _ _ Hne H12 Hst HI) as (st2 & Hst2 & HI2 & Hle).
  destruct (IH st2 Hst2 HI2) as (st' & Hst' & Hcase). exists st'. split; [done|].
  destruct (decide (sp_pool_total (st_pool st2) = 0)) as [E|E].
  { right. exists s2, st2. split; [by eapply rtc_l; [|constructor]|done]. }
  destruct Hcase as [Hle'|(sm & stm & Hm & Hm' & ?)].
  - left. pose proof HI as ((_ & _ & _ & _ & ? & _) & _). pose proof HI2 as ((_ & _ & _ & _ & ? & _) & _).
    pose proof (pool_at_wf _ _ _ (proj1 Hst')) as (_ & _ & _ & _ & ? & _). unfold u64_range in *.
    eapply (price_le_trans _ (st_pool st2)); [lia..|done|done].
  - right. exists sm, stm. split; [by eapply rtc_l|done].
Qed.
End System.

Section SystemWitnesses.
#[local] Existing Instances model_sdk model_sdk_laws idle_runtime idle_runtime_laws model_bincode zero_padding debug_build.
Lemma pool_process_frame_witness :
  exists s', pool_process PID deposit_accounts deposit_input the_store = (Ok tt, s') /\
    cell_owner (get_cell s' KP0) = PID /\ cell_data (get_cell s' KP0) = cell_data (get_cell the_store KP0).
Proof.
  assert (Hk : forall instr, pool_instruction_deserialize deposit_input = Ok instr -> KP0 ∉ state_keys instr deposit_accounts).
  { rewrite deposit_input_ok. intros instr [= <-]. apply (bool_decide_unpack _). vm_compute. exact I. }
  assert (Ho : cell_owner (get_cell the_store KP0) = PID) by (vm_compute; reflexivity).
  destruct deposit_process_succeeds as [s' Hr]. exists s'. split; [exact Hr|].
  destruct (pool_process_frame deposit_accounts deposit_input the_store (Ok tt) s' KP0 pid_not_passed Hr Ho)
    as [Ho' Hd].
  split; [exact Ho'|exact (Hd Hk)].
Defined.
Lemma pool_process_refines_witness :
  exists s' now ev st', pool_process PID deposit_accounts deposit_input the_store = (Ok tt, s') /\
    pool_step now (mk_pstate the_pool the_list) ev st' /\ pool_state_at PID KP KL s' st'.
Proof.
  destruct deposit_process_succeeds as [s' Hr].
  destruct (pool_process_refines deposit_accounts deposit_input the_store s' KP KL _ Hr the_store_wf
              pid_not_passed KP_KL (deposit_genuine _) the_state_at) as (instr & now & ev & st' & _ & Hs & _ & Hst).
  exists s', now, ev, st'. split; [exact Hr|]. split; [exact Hs|exact Hst].
Defined.
Lemma administration_needs_owner_witness :
  exists s', process_pool_instruction PID set_owner_accounts SetOwner the_store = (Ok tt, s') /\
    key (signer OWNER) = sp_owner the_pool /\ is_signer (signer OWNER) = true.
Proof.
  destruct set_owner_succeeds as [s' Hr]. exists s'. split; [exact Hr|].
  exact (administration_needs_owner SetOwner set_owner_accounts the_store s' the_pool (info KP) (signer OWNER)
           I Hr eq_refl eq_refl the_pool_at).
Defined.
Lemma pool_invariant_always_witness :
  exists s' st', pool_process PID deposit_accounts deposit_input the_store = (Ok tt, s') /\
    pool_state_at PID KP KL s' st' /\ PoolInv st'.
Proof.
  destruct deposit_process_succeeds as [s' Hr].
  assert (Hc : rtc (chain_step (program_id:=PID) KP KL) the_store s').
  { apply rtc_once. exact (ChainInstruction KP KL the_store s' deposit_accounts deposit_input the_store_wf
      pid_not_passed (deposit_genuine _) Hr). }
  destruct (pool_invariant_always KP KL the_store s' _ KP_KL Hc the_state_at the_state_inv)
    as (st' & Hst & HI & _).
  exists s', st'. split; [exact Hr|]. split; [exact Hst|exact HI].
Defined.
Lemma trading_keeps_price_witness :
  exists s' st', pool_process PID deposit_accounts deposit_input the_store = (Ok tt, s') /\
    pool_state_at PID KP KL s' st' /\
    (price_le the_pool (st_pool st') \/
     exists s1 st1, rtc (trade_step (program_id:=PID) KP KL) the_store s1 /\ rtc (trade_step (program_id:=PID) KP KL) s1 s' /\
       pool_state_at PID KP KL s1 st1 /\ sp_pool_total (st_pool st1) = 0).
Proof.
  destruct deposit_process_succeeds as [s' Hr].
  assert (Hc : rtc (trade_step (program_id:=PID) KP KL) the_store s').
  { apply rtc_once. exact (TradeInstruction KP KL the_store s' Deposit deposit_accounts deposit_input the_store_wf
      pid_not_passed deposit_input_ok (deposit_genuine _ _ deposit_input_ok) Hr I (fun _ _ _ _ => or_introl eq_refl)). }
  destruct (trading_keeps_price KP KL the_store s' _ KP_KL Hc the_state_at the_state_inv) as (st' & Hst & Hp).
  exists s', st'. split; [exact Hr|]. split; [exact Hst|exact Hp].
Defined.

(** *** An impostor at work *)
(** a pool record of somebody else's that names the list of the pool at [KP] *)
Definition IMPOSTOR : Pubkey := key_of_Z 41.
Definition impostor_pool : StakePool :=
  mk_stake_pool 1 USER 255 255 KL MINT USER spl_token_id 10 10 7 (mk_fee 0 0).
(** the stake account that belongs to the validator under that record *)
Definition IMPOSTOR_STAKE : Pubkey := (find_stake_address_for_validator PID VOTE IMPOSTOR).1.
Definition impostor_cells : list (Pubkey * Cell) :=
  (IMPOSTOR, mk_cell 1 (pool_bytes impostor_pool) USER) ::
  (IMPOSTOR_STAKE, mk_cell 777777 (to_bytes VOTE) stake_program_id) :: the_cells.
Definition impostor_store : Store := store_of impostor_cells.
Definition impostor_accounts : list AccountInfo :=
  [ info IMPOSTOR; info KL; info (find_authority_bump_seed PID IMPOSTOR AUTHORITY_WITHDRAW).1; info IMPOSTOR_STAKE;
    info USER_STAKE; info USER; info USER_TOKENS; info MINT; clock_info; token_info; stake_program_info ].
Lemma impostor_pool_wf : StakePool_wf impostor_pool.
Proof. by repeat split. Qed.
Lemma impostor_at : pool_at impostor_store IMPOSTOR impostor_pool.
Proof. eapply stored_pool_at; [vm_compute; reflexivity|exact impostor_pool_wf]. Qed.
Lemma impostor_list_at : list_at impostor_store KL the_list.
Proof. eapply stored_list_at; [vm_compute; reflexivity|exact the_list_wf]. Qed.
Lemma impostor_store_wf : store_wf impostor_store.
Proof. apply store_of_wf. unfold impostor_cells, the_cells. repeat (apply Forall_cons; split; [by cbn|]). by apply Forall_nil. Qed.
Lemma impostor_clock : clock_from_account_info clock_info (get_cell impostor_store clock_id) = Ok (mk_clock 7).
Proof. vm_compute. reflexivity. Qed.
Lemma impostor_stake_account : stake_account_of impostor_store PID IMPOSTOR IMPOSTOR_STAKE VOTE.
Proof.
  split; [|reflexivity].
  assert (E : cell_data (get_cell impostor_store IMPOSTOR_STAKE) = to_bytes VOTE) by (vm_compute; reflexivity).
  rewrite E. eexists _, _. split; [vm_compute; reflexivity|]. vm_compute. reflexivity.
Qed.
Lemma impostor_authority :
  check_authority_withdraw impostor_pool (find_authority_bump_seed PID IMPOSTOR AUTHORITY_WITHDRAW).1 PID IMPOSTOR = Ok tt.
Proof. vm_compute. reflexivity. Qed.
(** the pool at [KP] is genuine, the account at [IMPOSTOR] is not the
    program's; a withdrawal of no tokens from the latter succeeds, leaves its
    record as it was, and gives the validator the impostor's balance in the
    former's list *)
Lemma impostor_rewrites_list :
  pool_at impostor_store KP the_pool /\ impostor impostor_store KP KL IMPOSTOR /\
  cell_owner (get_cell impostor_store IMPOSTOR) = USER /\
  exists s', process_withdraw PID 0 impostor_accounts impostor_store = (Ok tt, s') /\
    pool_at s' IMPOSTOR impostor_pool /\ list_at s' KL (set_balance_at 0 777777 the_list).
Proof.
  assert (Hne : IMPOSTOR <> KL) by by vm_compute. pose proof impostor_at as Hp. pose proof impostor_list_at as Hl.
  split; [eapply stored_pool_at; [vm_compute; reflexivity|exact the_pool_wf]|].
  split; [split; [by vm_compute|]; exists impostor_pool; split; [exact Hp|]; split; [reflexivity|by right]|].
  split; [vm_compute; reflexivity|].
  destruct (withdraw_completes (program_id:=PID) impostor_store 0 (info IMPOSTOR) (info KL)
    (info (find_authority_bump_seed PID IMPOSTOR AUTHORITY_WITHDRAW).1) (info IMPOSTOR_STAKE) (info USER_STAKE) (info USER)
    (info USER_TOKENS) (info MINT) clock_info token_info stake_program_info [] impostor_pool the_list (mk_clock 7) VOTE 0%nat
    0 10 10 impostor_store) as [s' Hr];
    [exact Hne|exact impostor_store_wf|exact Hp|exact Hl|exact impostor_clock|reflexivity|reflexivity|reflexivity|reflexivity
    |reflexivity|exact impostor_authority|done|exact impostor_stake_account|reflexivity|reflexivity|reflexivity|reflexivity
    |reflexivity|reflexivity|reflexivity|].
  exists s'. split; [exact Hr|].
  destruct (withdraw_run (RTL:=idle_runtime_laws PID) _ _ impostor_store s' impostor_pool the_list _ _ Hr impostor_store_wf
    eq_refl Hne Hp Hl eq_refl)
    as (? & ? & ? & from_i & ? & ? & ? & ? & ? & ? & ? & ? & c & v & i & x & P & S & s1 & Hacc & _ & _ & _ & _ & _ & _ & _ & _ &
        _ & _ & Hs & Hf & Hx & Hinv & _ & HP & HS & Hp' & Hl' & _).
  assert (Ex : x = 0) by (vm_compute in Hx; congruence). subst x.
  assert (EP : P = 10) by (vm_compute in HP; congruence). assert (ES : S = 10) by (vm_compute in HS; congruence). subst P S.
  split; [exact Hp'|]. injection Hacc as <- <- <- <- <- <- <- <- <- <- <- <-.
  assert (E1 : s1 = impostor_store) by (injection Hinv as <-; reflexivity). subst s1.
  assert (Elam : cell_lamports (get_cell impostor_store (key (info IMPOSTOR_STAKE))) = 777777) by (vm_compute; reflexivity).
  rewrite Elam in Hl'.
  assert (Ev : v = VOTE).
  { destruct Hs as [(meta & st & Hb & Hv) _]. rewrite <- Hv.
    assert (E : cell_data (get_cell impostor_store (key (info IMPOSTOR_STAKE))) = to_bytes VOTE) by (vm_compute; reflexivity).
    rewrite E in Hb. vm_compute in Hb. injection Hb as _ <-. vm_compute. reflexivity. }
  subst v. assert (Ei : i = 0%nat) by (vm_compute in Hf; congruence). subst i. exact Hl'.
Qed.
End SystemWitnesses.
