(* ===== verification/StakeTheorems.v ===== *)
(** * Warming up and cooling down stake

    The loops of [Delegation::stake_and_activating] and
    [stake_activating_and_deactivating] end within the epochs they run
    through, and what they return adds up to the delegated stake. *)
From S2P Require Import Prelude Machine Sdk StakeProgram PoolState PoolMath Models.

Section Activation.
Context `{SDK : SolanaSdk} `{BP : BuildProfile}.
Implicit Types (d : Delegation) (h : StakeHistory).

(** the epochs and the stake of a delegation are [u64]s *)
Definition Delegation_wf d : Prop :=
  u64_range (dl_stake d) /\ u64_range (activation_epoch d) /\ u64_range (deactivation_epoch d).
(** the loop returned a value satisfying [P], or overflowed where the build
    checks for it *)
Definition ends_in {A} (P : A -> Prop) (o : option (result A)) : Prop :=
  (o = Some Panic /\ overflow_checks = true) \/ exists a, o = Some (Ok a) /\ P a.

Lemma u64_of_f64_range (x : f64) : u64_range (u64_of_f64 x).
Proof.
  unfold u64_range, u64_of_f64, u64_MAX. destruct x as [| [] | |[] m e]; try lia.
  assert (0 <= Z.shiftl (Zpos m) e) by by apply Z.shiftl_nonneg. lia.
Qed.
Lemma entitlement_range d amount total eff : 1 <= entitlement d amount total eff < 2 ^ 64.
Proof. unfold entitlement. cbv zeta. match goal with |- context [u64_of_f64 ?x] => pose proof (u64_of_f64_range x) as H end. unfold u64_range in H. lia. Qed.
Lemma u64_result_cases {E} z :
  (u64_result (E:=E) z = Panic /\ overflow_checks = true) \/ exists c, u64_result (E:=E) z = Ok c /\ u64_range c.
Proof.
  destruct (u64_result (E:=E) z) as [c|e|] eqn:E0.
  - right. exists c. split; [done|]. by eapply u64_result_range.
  - by apply u64_result_no_err in E0.
  - left. split; [done|]. revert E0. unfold u64_result. by repeat case_match.
Qed.

Lemma activation_loop_ends d target h fuel prev entry cur :
  Delegation_wf d -> 0 <= prev < target -> target < 2 ^ 64 -> target <= prev + Z.of_nat fuel ->
  0 <= cur <= dl_stake d ->
  ends_in (fun e => 0 <= e <= dl_stake d) (activation_loop fuel d target h prev entry cur).
Proof.
  intros (Hs & _ & _). revert prev entry cur. unfold u64_range in Hs.
  induction fuel as [|fuel IH]; intros prev entry cur Hp Ht Hf Hc; [lia|]. cbn [activation_loop].
  rewrite plain_add_in by (unfold u64_range; lia).
  destruct (Z.eqb_spec (activating entry) 0); [right; eauto|].
  rewrite plain_sub_in by (unfold u64_range; lia).
  match goal with |- context [plain_add cur ?x] => unfold plain_add; destruct (u64_result_cases (E:=ProgramError) (cur + x)) as [[-> ?]|(c & -> & Hr)] end;
    [by left|]. unfold u64_range in Hr.
  destruct (Z.leb_spec (dl_stake d) c); [right; eexists; split; [done|cbn; lia]|].
  destruct (Z.leb_spec target (prev + 1)); cbn [orb]; [right; eexists; split; [done|cbn; lia]|].
  destruct (deactivation_epoch d <=? prev + 1); [right; eexists; split; [done|cbn; lia]|].
  destruct (stake_history_get h (prev + 1)); [apply IH; lia|right; eexists; split; [done|cbn; lia]].
Qed.
Lemma deactivation_loop_ends d target h fuel prev entry cur :
  0 <= prev < target -> target < 2 ^ 64 -> target <= prev + Z.of_nat fuel -> 0 <= cur ->
  ends_in (fun e => 0 <= e <= cur) (deactivation_loop fuel d target h prev entry cur).
Proof.
  revert prev entry cur. induction fuel as [|fuel IH]; intros prev entry cur Hp Ht Hf Hc; [lia|].
  cbn [deactivation_loop]. rewrite plain_add_in by (unfold u64_range; lia).
  destruct (Z.eqb_spec (deactivating entry) 0); [right; eexists; split; [done|cbn; lia]|].
  match goal with |- context [saturating_sub cur ?x] =>
    pose proof (entitlement_range d cur (deactivating entry) (effective entry)) as Hx end.
  unfold saturating_sub. set (c := Z.max 0 (cur - _)). assert (0 <= c <= cur) by lia.
  destruct (Z.eqb_spec c 0); [right; eexists; split; [done|cbn; lia]|].
  destruct (Z.leb_spec target (prev + 1)); [right; eexists; split; [done|cbn; lia]|].
  destruct (stake_history_get h (prev + 1)) as [e|]; [|right; eexists; split; [done|cbn; lia]].
  destruct (IH (prev + 1) e c) as [?|(r & -> & ?)]; [lia..|by left|right; exists r; split; [done|cbn; lia]].
Qed.

Lemma stake_and_activating_ends d target (h : option StakeHistory) fix_ :
  Delegation_wf d -> u64_range target ->
  ends_in (fun '(eff, act) => 0 <= eff /\ 0 <= act /\ eff + act <= dl_stake d /\
             (activation_epoch d <> deactivation_epoch d -> activation_epoch d <= target ->
              eff + act = dl_stake d))
    (stake_and_activating d target h fix_).
Proof.
  intros Hw Ht. pose proof Hw as (Hs & Ha & Hd). unfold u64_range in *. unfold stake_and_activating.
  destruct (is_bootstrap d); [right; eexists; split; [done|cbn; lia]|].
  destruct fix_; cbn [andb].
  1: destruct (Z.eqb_spec (activation_epoch d) (deactivation_epoch d)); [right; eexists; split; [done|cbn; lia]|].
  all: destruct (Z.eqb_spec target (activation_epoch d)); [right; eexists; split; [done|cbn; lia]|].
  all: destruct (Z.ltb_spec target (activation_epoch d)); [right; eexists; split; [done|cbn; lia]|].
  all: destruct (history_at h (activation_epoch d)) as [[h' e]|]; [|right; eexists; split; [done|cbn; lia]].
  all: destruct (activation_loop_ends d target h' (Z.to_nat (target - activation_epoch d)) (activation_epoch d) e 0)
    as [[-> ?]|(r & -> & ?)]; [done|lia..|by left|right; cbn].
  all: exists (r, dl_stake d - r); rewrite plain_sub_in by (unfold u64_range; lia); split; [done|cbn; lia].
Qed.

(** warming up always ends, within the epochs between activation and
    the target: the fuel is never exhausted and no error is returned. The
    effective and activating stake never exceed the delegated stake
    together, and from activation on they add up to it. The only failure is
    an overflow in a build that checks for it. *)
Lemma stake_and_activating_total d target (h : option StakeHistory) fix_ :
  Delegation_wf d -> u64_range target ->
  (stake_and_activating d target h fix_ = Some Panic /\ overflow_checks = true) \/
  exists eff act, stake_and_activating d target h fix_ = Some (Ok (eff, act)) /\
    0 <= eff /\ 0 <= act /\ eff + act <= dl_stake d /\
    (activation_epoch d <> deactivation_epoch d -> activation_epoch d <= target -> eff + act = dl_stake d).
Proof.
  intros Hw Ht. destruct (stake_and_activating_ends d target h fix_ Hw Ht) as [?|([eff act] & ? & ?)]; [by left|].
  right. by exists eff, act.
Qed.

(** C35: cooling down always ends as well. Effective, activating and
    deactivating stake are within the delegated stake, only effective stake
    is deactivating, nothing deactivates before the deactivation epoch and
    nothing activates from it on. *)
Theorem stake_deactivating_total d target (h : option StakeHistory) fix_ :
  Delegation_wf d -> u64_range target ->
  (stake_activating_and_deactivating d target h fix_ = Some Panic /\ overflow_checks = true) \/
  exists eff act deact, stake_activating_and_deactivating d target h fix_ = Some (Ok (eff, act, deact)) /\
    0 <= eff <= dl_stake d /\ 0 <= act /\ eff + act <= dl_stake d /\ 0 <= deact <= eff /\
    (target < deactivation_epoch d -> deact = 0) /\ (deactivation_epoch d <= target -> act = 0 /\ deact = eff).
Proof.
  intros Hw Ht. pose proof Hw as (Hs & Ha & Hd). unfold stake_activating_and_deactivating, u64_range in *.
  destruct (stake_and_activating_ends d target h fix_ Hw Ht) as [[-> ?]|([eff act] & -> & ?)]; [by left|]. cbn.
  destruct (Z.ltb_spec target (deactivation_epoch d)).
  { right. exists eff, act, 0. split; [done|cbn; lia]. }
  destruct (Z.eqb_spec target (deactivation_epoch d)).
  { right. eexists eff, 0, _. split; [done|cbn; lia]. }
  destruct (history_at h (deactivation_epoch d)) as [[h' e]|].
  2: { right. exists 0, 0, 0. split; [done|cbn; lia]. }
  destruct (deactivation_loop_ends d target h' (Z.to_nat (target - deactivation_epoch d)) (deactivation_epoch d) e eff)
    as [[-> ?]|(r & -> & ?)]; [lia..|by left|]. right. exists r, 0, r. cbn. split; [done|cbn; lia].
Qed.
End Activation.

Section Witnesses.
#[local] Existing Instances model_sdk debug_build.
(** 100 lamports delegated at epoch 3, deactivated at epoch 8, with a
    cluster of 1000 effective and 500 activating lamports *)
Definition a_delegation : Delegation := mk_delegation default_pubkey 100 3 8 (f64_div (f64_of_u64 1) (f64_of_u64 4)).
Definition a_history : StakeHistory :=
  [ (3, mk_history_entry 1000 500 0); (4, mk_history_entry 1250 250 0); (8, mk_history_entry 1500 0 100) ].
Lemma a_delegation_wf : Delegation_wf a_delegation.
Proof. by split_and!. Qed.
Example warming_up : stake_and_activating a_delegation 4 (Some a_history) true = Some (Ok (50, 50)).
Proof. vm_compute. reflexivity. Qed.
Lemma stake_and_activating_total_witness :
  exists eff act, stake_and_activating a_delegation 4 (Some a_history) true = Some (Ok (eff, act)) /\ eff + act = 100.
Proof.
  destruct (stake_and_activating_total a_delegation 4 (Some a_history) true a_delegation_wf ltac:(done))
    as [[E _]|(eff & act & E & _ & _ & _ & Hsum)].
  - by rewrite warming_up in E.
  - exists eff, act. split; [exact E|].
    assert (H38 : activation_epoch a_delegation <> deactivation_epoch a_delegation) by (clear; cbn; lia).
    assert (H34 : activation_epoch a_delegation <= 4) by (clear; cbn; lia). exact (Hsum H38 H34).
Defined.
Example cooling_down : stake_activating_and_deactivating a_delegation 9 (Some a_history) true = Some (Ok (0, 0, 0)).
Proof. vm_compute. reflexivity. Qed.
Lemma stake_deactivating_total_witness :
  exists eff act deact,
    stake_activating_and_deactivating a_delegation 9 (Some a_history) true = Some (Ok (eff, act, deact)) /\
    deact = eff /\ act = 0.
Proof.
  destruct (stake_deactivating_total a_delegation 9 (Some a_history) true a_delegation_wf ltac:(done))
    as [[E _]|(eff & act & deact & E & _ & _ & _ & _ & _ & Hd)].
  - by rewrite cooling_down in E.
  - exists eff, act, deact. split; [exact E|].
    assert (H89 : deactivation_epoch a_delegation <= 9) by (clear; cbn; lia). destruct (Hd H89) as [Ha Hb]. split; [exact Hb|exact Ha].
Defined.
End Witnesses.
