(* ===== verification/TokenFrame.v ===== *)
(** * What a token instruction can touch

    Whatever its outcome, an instruction of the token program keeps every
    account's owner and changes only the accounts it was passed; the lamports
    move in two handlers only, native transfers and closing. *)
From S2P Require Import Prelude Machine Sdk TokenInstruction TokenState TokenCodec TokenProcessor TokenFacts TokenRuns TokenLedger.
From S2P Require Import PoolFacts PoolFrame.

(** only the cells at [K] differ, and those keep their owner *)
Definition touched_only (K : list Pubkey) (s s' : Store) : Prop :=
  forall k, cell_owner (get_cell s' k) = cell_owner (get_cell s k) /\ (k ∉ K -> get_cell s' k = get_cell s k).
#[global] Instance touched_only_preorder K : PreOrder (touched_only K).
Proof.
  split; [by intros s k|]. intros s1 s2 s3 H1 H2 k. destruct (H1 k) as [O1 C1], (H2 k) as [O2 C2].
  split; [congruence|]. intros HK. by rewrite (C2 HK), (C1 HK).
Qed.
Definition lamports_at (s : Store) (k : Pubkey) : Z := cell_lamports (get_cell s k).
Definition same_lamports (s s' : Store) : Prop := forall k, lamports_at s' k = lamports_at s k.
#[global] Instance same_lamports_preorder : PreOrder same_lamports.
Proof. split; [by intros s k|]. intros s1 s2 s3 H1 H2 k. by rewrite (H2 k), (H1 k). Qed.

Lemma set_data_touched K s k d : k ∈ K -> touched_only K s (set_data s k d).
Proof.
  intros Hk j. rewrite owner_set_data, get_cell_set_data. split; [done|]. intros Hj.
  rewrite decide_False; [done|]. congruence.
Qed.
Lemma set_lamports_touched K s k z : k ∈ K -> touched_only K s (set_cell_lamports s k z).
Proof.
  intros Hk j. rewrite owner_set_lamports, get_cell_set_lamports. split; [done|]. intros Hj.
  rewrite decide_False; [done|]. congruence.
Qed.
Lemma set_data_same_lamports s k d : same_lamports s (set_data s k d).
Proof. intros j. apply lamports_set_data. Qed.

Lemma keys_cons_incl i (l : list AccountInfo) (K : list Pubkey) : key <$> i :: l ⊆ K -> key i ∈ K /\ key <$> l ⊆ K.
Proof. rewrite fmap_cons. intros H. split; [apply H; by left|]. intros k Hk. apply H. by right. Qed.

Section Frame.
Context `{SDK : SolanaSdk} {LAWS : SolanaSdkLaws SDK}.
Context {R : relation Store} {PO : PreOrder R} {K : list Pubkey}.
Context (data_ok : forall s k d, k ∈ K -> R s (set_data s k d)).
Implicit Types (accounts signers : list AccountInfo) (i : AccountInfo).

Lemma pack_info_respects {T} `{Pack T} (v : T) i : key i ∈ K -> respects R (pack_info v i).
Proof using PO data_ok.
  intros Hi. unfold pack_info. apply respects_bind; [done|by apply respects_borrow|]. intros d.
  apply respects_bind; [done|by apply respects_lift|]. intros d' s r s' [= <- <-]. by apply data_ok.
Qed.
Lemma unpack_info_respects {T} `{Pack T} i : respects R (unpack_info T i).
Proof using PO. by apply respects_pure. Qed.
Lemma unpack_unchecked_respects {T} `{Pack T} i : respects R (unpack_unchecked_info T i).
Proof using PO. by apply respects_pure. Qed.
Lemma validate_owner_respects pid k i signers : respects R (validate_owner pid k i signers).
Proof using PO.
  unfold validate_owner. apply respects_bind; [done|by apply respects_fail_if|intros _].
  do 2 (apply respects_bind; [done|by apply respects_pure|intros ?]).
  case_match; [|by apply respects_fail_if]. apply respects_bind; [done|apply unpack_info_respects|intros ?].
  apply respects_bind; [done|by apply respects_lift|intros [? ?]]. by apply respects_fail_if.
Qed.
Lemma authorize_spend_respects pid a i signers x b : respects R (authorize_spend pid a i signers x b).
Proof using PO.
  unfold authorize_spend. destruct (acc_delegate a); [case_match|]; (apply respects_bind; [done|apply validate_owner_respects|intros _]).
  2, 3: by apply respects_pure.
  apply respects_bind; [done|by apply respects_fail_if|intros _]. destruct b; [|by apply respects_pure].
  apply respects_bind; [done|by apply respects_lift|intros]. by apply respects_pure.
Qed.
Lemma check_expected_mint_respects a e : respects R (check_expected_mint a e).
Proof using PO.
  unfold check_expected_mint. destruct e as [[? ?]|]; [|by apply respects_pure].
  apply respects_bind; [done|by apply respects_fail_if|intros _].
  apply respects_bind; [done|apply unpack_info_respects|intros]. by apply respects_fail_if.
Qed.
Lemma check_expected_decimals_respects d m : respects R (check_expected_decimals d m).
Proof using PO. unfold check_expected_decimals. destruct d; by apply respects_pure. Qed.
Lemma respects_next_expected {B} d l (f : option (AccountInfo * Z) * list AccountInfo -> M B) :
  (forall e l', (key <$> l ⊆ K -> key <$> l' ⊆ K) -> respects R (f (e, l'))) -> respects R (next_expected_mint d l ≫= f).
Proof using PO LAWS.
  intros Hf. destruct d as [z|]; cbn [next_expected_mint].
  - intros s r s'. unfold mbind, stM_bind, next_info, lift.
    destruct (next_account_info l) as [[i l']|e|] eqn:E; [|by intros [= <- <-]..].
    apply next_account_info_Ok in E as ->. apply Hf. intros HK.
    exact (proj2 (keys_cons_incl _ _ _ HK)).
  - intros s r s'. by apply Hf.
Qed.
End Frame.

Ltac touch_step :=
  lazymatch goal with
  | |- respects _ (next_info _ ≫= _) =>
      apply respects_next; [apply _|]; intros ? ? ->; cbv beta iota;
      try match goal with H : key <$> _ :: _ ⊆ _ |- _ => apply keys_cons_incl in H as [? H] end
  | |- respects _ (next_expected_mint _ _ ≫= _) =>
      match goal with H : key <$> _ ⊆ ?K |- _ =>
        apply (respects_next_expected (K:=K)); let HKe := fresh "HKe" in intros ? ? HKe; cbv beta iota; specialize (HKe H) end
  | |- respects _ (_ ≫= _) => apply respects_bind; [apply _| |]
  | |- forall _ : _ * _, respects _ _ => intros []
  | |- forall _, respects _ _ => intros ?
  | |- respects _ (let '(_, _) := ?p in _) => destruct p
  | |- respects _ (if ?x then _ else _) => destruct x
  | |- respects _ (match ?x with _ => _ end) => destruct x
  | |- respects _ (validate_owner _ _ _ _) => apply validate_owner_respects
  | |- respects _ (authorize_spend _ _ _ _ _ _) => apply authorize_spend_respects
  | |- respects _ (check_expected_mint _ _) => apply check_expected_mint_respects
  | |- respects _ (check_expected_decimals _ _) => apply check_expected_decimals_respects
  | |- respects _ (unpack_info _ _) => apply unpack_info_respects
  | |- respects _ (unpack_unchecked_info _ _) => apply unpack_unchecked_respects
  | |- respects _ (pack_info _ _) => eapply pack_info_respects; eassumption
  | |- respects _ (set_lamports _ _) =>
      intros ? ? ? [= <- <-]; match goal with H : forall s k z, _ -> _ s (set_cell_lamports s k z) |- _ => by apply H end
  | |- respects _ _ => solve [eauto with respects typeclass_instances]
  end.
Ltac touch_handler := repeat touch_step.

Section Handlers.
Context `{SDK : SolanaSdk} {LAWS : SolanaSdkLaws SDK}.
Context {R : relation Store} {PO : PreOrder R} {K : list Pubkey} (pid : Pubkey) (accounts : list AccountInfo).
Context (data_ok : forall s k d, k ∈ K -> R s (set_data s k d)) (HK : key <$> accounts ⊆ K).

Lemma initialize_mint_respects d a f : respects R (process_initialize_mint accounts d a f).
Proof using All. unfold process_initialize_mint. touch_handler.
Qed.
Lemma initialize_account_respects o : respects R (_process_initialize_account accounts o).
Proof using All. unfold _process_initialize_account. touch_handler.
Qed.
Lemma initialize_multisig_respects m : respects R (process_initialize_multisig accounts m).
Proof using All. unfold process_initialize_multisig. touch_handler.
Qed.
Lemma approve_respects x d : respects R (process_approve pid accounts x d).
Proof using All. unfold process_approve. touch_handler.
Qed.
Lemma revoke_respects : respects R (process_revoke pid accounts).
Proof using All. unfold process_revoke. touch_handler.
Qed.
Lemma set_authority_respects t k : respects R (process_set_authority pid accounts t k).
Proof using All. unfold process_set_authority, set_account_authority, set_mint_authorities. touch_handler.
Qed.
Lemma mint_to_respects x d : respects R (process_mint_to pid accounts x d).
Proof using All. unfold process_mint_to. touch_handler.
Qed.
Lemma burn_respects x d : respects R (process_burn pid accounts x d).
Proof using All. unfold process_burn. touch_handler.
Qed.
Lemma toggle_freeze_respects b : respects R (process_toggle_freeze_account pid accounts b).
Proof using All. unfold process_toggle_freeze_account. touch_handler.
Qed.
Context (lamports_ok : forall s k z, k ∈ K -> R s (set_cell_lamports s k z)).
Lemma transfer_respects x d : respects R (process_transfer pid accounts x d).
Proof using All. unfold process_transfer. touch_handler.
Qed.
Lemma close_respects : respects R (process_close_account pid accounts).
Proof using All. unfold process_close_account. touch_handler.
Qed.
End Handlers.

(** ** Lamports *)
Ltac inv_run_ext ::= first [inv_run_owner | inv_run_token].
Section Lamports.
Context `{SDK : SolanaSdk} {LAWS : SolanaSdkLaws SDK}.
Context {program_id : Pubkey}.
Implicit Types (accounts signers : list AccountInfo) (s : Store).

(** [y] lamports have moved from [src] to [dst] *)
Definition lamports_moved s s' (src dst : Pubkey) (y : Z) : Prop :=
  forall k, lamports_at s' k =
    lamports_at s k - (if decide (k = src) then y else 0) + (if decide (k = dst) then y else 0).
Lemma writes_same_lamports {T} `{Pack T} s k (v : T) s' : writes s k v s' -> same_lamports s s'.
Proof. intros (d & _ & ->). apply set_data_same_lamports. Qed.
Lemma lamports_at_set s k z j : lamports_at (set_cell_lamports s k z) j = if decide (k = j) then z else lamports_at s j.
Proof. apply lamports_set_lamports. Qed.
Lemma set_two_lamports s src dst x s' :
  src <> dst ->
  same_lamports (set_cell_lamports (set_cell_lamports s src (lamports_at s src - x)) dst (lamports_at s dst + x)) s' ->
  lamports_moved s s' src dst x.
Proof.
  intros Hne Hs k. rewrite (Hs k), !lamports_at_set.
  repeat case_decide; subst; try congruence; lia.
Qed.

Lemma is_native_set_amount z a : is_native (set_acc_amount z a) = is_native a.
Proof. done. Qed.
Lemma transfer_lamports accounts x d s u s' :
  process_transfer program_id accounts x d s = (Ok u, s') -> 0 <= x ->
  exists src_i mint_i dst_i rest a,
    accounts = src_i :: mint_slot d mint_i ++ dst_i :: rest /\ holds Account s (key src_i) a /\
    lamports_moved s s' (key src_i) (key dst_i)
      (if is_native a && negb (bool_decide (key src_i = key dst_i)) then x else 0).
Proof.
  unfold process_transfer. intros Hr H0. inv_run.
  match goal with H : is_frozen ?a || _ = false, Hs : holds Account _ (key ?si) ?a |- _ =>
    exists si; rename Hs into Ha end.
  do 4 eexists. split; [reflexivity|]. split; [exact Ha|].
  match goal with H : spent _ _ |- _ => destruct H as (_ & _ & _ & _ & En & _) end.
  match type of En with acc_is_native ?a1 = acc_is_native ?a0 =>
    assert (En' : is_native a1 = is_native a0) by (unfold is_native; by rewrite En) end.
  rewrite <- En'. clear En. rewrite bool_decide_decide in *. case_decide as Hkeys; cbn [negb] in *; inv_run.
  { rewrite andb_false_r. intros k. repeat case_decide; lia. }
  rewrite andb_true_r. rewrite is_native_set_amount in *. case_match; inv_run.
  - apply set_two_lamports; [done|]. unfold lamports_at in *.
    match goal with W1 : writes _ _ _ _, W2 : writes _ _ _ s' |- _ =>
      apply writes_same_lamports in W1; apply writes_same_lamports in W2 end.
    rewrite lamports_set_lamports, decide_False in * by done. by etrans; [eassumption|].
  - match goal with W1 : writes _ _ _ _, W2 : writes _ _ _ s' |- _ =>
      apply writes_same_lamports in W1; apply writes_same_lamports in W2;
      assert (Hs : same_lamports x8 s') by (by etrans; [exact W1|]) end.
    intros k. rewrite (Hs k). repeat case_decide; lia.
Qed.
Lemma close_lamports accounts s u s' :
  process_close_account program_id accounts s = (Ok u, s') ->
  exists src_i dst_i rest, accounts = src_i :: dst_i :: rest /\
    forall k, lamports_at s' k =
      if decide (k = key src_i) then 0
      else lamports_at s k + (if decide (k = key dst_i) then lamports_at s (key src_i) else 0).
Proof.
  unfold process_close_account. intros Hr. inv_run. do 3 eexists. split; [reflexivity|].
  intros k. match goal with W : writes _ _ _ s' |- _ => rewrite (writes_same_lamports _ _ _ _ W k) end.
  rewrite !lamports_at_set. unfold lamports_at. repeat case_decide; subst; try congruence; lia.
Qed.

(** every other handler leaves all lamports alone *)
Lemma other_lamports accounts instr s u s' :
  process_token_instruction program_id accounts instr s = (Ok u, s') ->
  (forall x, instr <> Transfer x) -> (forall x d, instr <> TransferChecked x d) -> instr <> CloseAccount ->
  same_lamports s s'.
Proof.
  intros Hr Ht Htc Hc. pose proof (fun s k d (_ : k ∈ key <$> accounts) => set_data_same_lamports s k d) as Hd.
  assert (HK : key <$> accounts ⊆ key <$> accounts) by done.
  assert (Hres : respects same_lamports (process_token_instruction program_id accounts instr)); [|by eapply Hres].
  clear Hr. destruct instr; cbn [process_token_instruction];
    unfold process_initialize_account, process_initialize_account2; try congruence.
  - by eapply initialize_mint_respects.
  - by eapply initialize_account_respects.
  - by eapply initialize_multisig_respects.
  - by eapply approve_respects.
  - by eapply revoke_respects.
  - by eapply set_authority_respects.
  - by eapply mint_to_respects.
  - by eapply burn_respects.
  - by eapply toggle_freeze_respects.
  - by eapply toggle_freeze_respects.
  - by eapply approve_respects.
  - by eapply mint_to_respects.
  - by eapply burn_respects.
  - by eapply initialize_account_respects.
Qed.

(** ** All the lamports of a store *)
Definition total_lamports s : Z := store_sum cell_lamports s.
Lemma same_lamports_total s s' : same_lamports s s' -> total_lamports s' = total_lamports s.
Proof. by apply store_sum_ext. Qed.
Lemma lamports_moved_total s s' src dst y : lamports_moved s s' src dst y -> total_lamports s' = total_lamports s.
Proof.
  intros Hm. destruct (decide (src = dst)) as [->|Hne].
  - apply same_lamports_total. intros k. rewrite (Hm k). repeat case_decide; lia.
  - unfold total_lamports. rewrite (store_sum_two cell_lamports eq_refl s s' src dst Hne).
    + pose proof (Hm src) as Hs. pose proof (Hm dst) as Hd. unfold lamports_at in *.
      repeat case_decide; subst; try congruence; lia.
    + intros k Hk Hk'. specialize (Hm k). unfold lamports_at in Hm. repeat case_decide; try congruence; lia.
Qed.
(** the lamports an instruction loses: those of an account closed into itself *)
Definition lost_lamports (instr : TokenInstruction) accounts s : Z :=
  match instr, accounts with
  | CloseAccount, a :: b :: _ => if decide (key a = key b) then lamports_at s (key a) else 0
  | _, _ => 0
  end.
Lemma instruction_total_lamports accounts instr s u s' :
  process_token_instruction program_id accounts instr s = (Ok u, s') -> token_instruction_wf instr ->
  total_lamports s' = total_lamports s - lost_lamports instr accounts s.
Proof.
  intros Hr Hi.
  assert (Htr : forall x d, process_transfer program_id accounts x d s = (Ok u, s') -> 0 <= x ->
    total_lamports s' = total_lamports s).
  { intros x d Ht Hx. apply transfer_lamports in Ht as (? & ? & ? & ? & ? & _ & _ & Hm); [|done].
    by eapply lamports_moved_total. }
  destruct instr; try (cbn [lost_lamports]; rewrite Z.sub_0_r; apply same_lamports_total;
    eapply other_lamports; [exact Hr|done..]); cbn [lost_lamports]; rewrite ?Z.sub_0_r.
  - exact (Htr amount None Hr (proj1 Hi)).
  - cbn in Hr. apply close_lamports in Hr as (a & b & rest & -> & Hl). cbn. case_decide as Hk.
    + unfold total_lamports. rewrite (store_sum_one cell_lamports eq_refl s s' (key a)).
      * pose proof (Hl (key a)) as Ha. unfold lamports_at in *. rewrite decide_True in Ha by done. lia.
      * intros k Hne. specialize (Hl k). unfold lamports_at in *.
        rewrite !decide_False in Hl by congruence. lia.
    + assert (Hm : lamports_moved s s' (key a) (key b) (lamports_at s (key a))).
      { intros k. rewrite (Hl k). repeat case_decide; subst; try congruence; lia. }
      apply lamports_moved_total in Hm. lia.
  - exact (Htr amount (Some decimals) Hr (proj1 (proj1 Hi))).
Qed.
End Lamports.
