(* ===== verification/TokenNative.v ===== *)
(** * Wrapped SOL

    The accounts of the native mint hold SOL: their token amount never exceeds
    the lamports that back it, and the native flag of an account says whether
    its mint is the native one. Every handler keeps that. *)
From S2P Require Import Prelude Machine Sdk TokenInstruction TokenState TokenCodec TokenProcessor TokenFacts TokenRuns TokenLedger TokenFrame.

Section Native.
Context `{SDK : SolanaSdk} {LAWS : SolanaSdkLaws SDK}.
Context {program_id : Pubkey}.
Implicit Types (accounts : list AccountInfo) (s : Store).

Definition native_ok (v : Account) (lam : Z) : Prop :=
  (is_native v = true <-> acc_mint v = native_mint_id) /\ (is_native v = true -> acc_amount v <= lam).
Definition native_wf s : Prop := forall a v, holds Account s a v -> native_ok v (lamports_at s a).

Lemma native_ok_mono v l l' : native_ok v l -> l <= l' -> native_ok v l'.
Proof. intros [? Hle] Hl. split; [done|]. intros Hn. specialize (Hle Hn). lia. Qed.
Lemma native_wf_kept K s s' :
  data_kept K s s' -> (forall k, k ∉ K -> lamports_at s k <= lamports_at s' k) ->
  (forall a v, a ∈ K -> holds Account s' a v -> native_ok v (lamports_at s' a)) -> native_wf s -> native_wf s'.
Proof.
  intros HK Hl Hnew Hold a v Hv. destruct (decide (a ∈ K)) as [Hin|Hin]; [by apply Hnew|].
  eapply native_ok_mono; [|by apply Hl]. apply Hold. destruct Hv as [Hd Hi]. split; [|done].
  eapply decodes_get_cell; [|exact Hd]. by apply HK.
Qed.
Lemma native_wf_one s s' a (v : Account) :
  data_kept [a] s s' -> (forall k, k <> a -> lamports_at s k <= lamports_at s' k) -> decodes Account s' a v ->
  (account_is_initialized v = true -> native_ok v (lamports_at s' a)) -> native_wf s -> native_wf s'.
Proof.
  intros HK Hl Hv Hok. apply (native_wf_kept _ _ _ HK).
  - intros k Hk. apply Hl. set_solver.
  - intros b w ->%list_elem_of_singleton [Hw Hi]. rewrite (decodes_inj _ _ _ _ Hw Hv) in *. by apply Hok.
Qed.
(** a handler that keeps what matters of one account *)
Lemma native_wf_same s s' a v v' :
  holds Account s a v -> decodes Account s' a v' -> data_kept [a] s s' -> same_lamports s s' ->
  acc_mint v' = acc_mint v -> acc_is_native v' = acc_is_native v -> acc_amount v' = acc_amount v ->
  native_wf s -> native_wf s'.
Proof.
  intros Hv Hv' HK Hl Em En Ea Hwf. apply (native_wf_one _ _ _ v' HK); [intros k _; by rewrite (Hl k)|exact Hv'| |done].
  intros _. unfold native_ok, is_native. rewrite Em, En, Ea, (Hl a). by apply Hwf.
Qed.
(** one that writes an account of another layout *)
Lemma native_wf_other {T} `{Pack T} s s' a (v : T) :
  decodes T s' a v -> pack_LEN T <> ACCOUNT_LEN -> data_kept [a] s s' -> same_lamports s s' -> native_wf s -> native_wf s'.
Proof.
  intros Hv Hne HK Hl. apply (native_wf_kept _ _ _ HK); [intros k _; by rewrite (Hl k)|].
  intros b w ->%list_elem_of_singleton [Hw _]. by destruct (decodes_ne _ _ _ _ _ Hw Hv (not_eq_sym Hne)).
Qed.
(** minting and burning: the account is not native *)
Lemma native_wf_mint s s' a k (v v' : Account) (m : Mint) :
  holds Account s a v -> decodes Account s' a v' -> decodes Mint s' k m -> data_kept [a; k] s s' -> same_lamports s s' ->
  acc_mint v' = acc_mint v -> acc_is_native v' = acc_is_native v -> is_native v = false -> native_wf s -> native_wf s'.
Proof.
  intros Hv Hv' Hm HK Hl Em En Hn Hwf. apply (native_wf_kept _ _ _ HK); [intros j _; by rewrite (Hl j)| |done].
  intros b w [->| ->%list_elem_of_singleton]%elem_of_cons [Hw _].
  - rewrite (decodes_inj _ _ _ _ Hw Hv'). destruct (Hwf _ _ Hv) as [Hiff _]. unfold native_ok, is_native in *.
    rewrite Em, En in *. split; [done|]. by rewrite Hn.
  - by destruct (decodes_ne _ _ _ _ _ Hw Hm ltac:(done)).
Qed.

Lemma transfer_native accounts x d s u s' :
  process_transfer program_id accounts x d s = (Ok u, s') -> 0 <= x -> native_wf s -> native_wf s'.
Proof.
  intros Hr Hx Hwf. pose proof Hr as Hr2.
  apply transfer_run in Hr as (src_i & mint_i & dst_i & auth_i & signers & a & b & E1 & Ha & Hb &
    _ & _ & _ & Emint & _ & HK & Hcase); [|done].
  apply transfer_lamports in Hr2 as (src_i2 & mint_i2 & dst_i2 & rest & a2 & E2 & Ha2 & Hm); [|done].
  rewrite E1 in E2. assert (src_i2 = src_i /\ dst_i2 = dst_i) as [-> ->] by (destruct d; naive_solver). clear E1 E2.
  rewrite (decodes_inj _ _ _ _ (proj1 Ha2) (proj1 Ha)) in Hm. clear Ha2 a2.
  case_decide as Hkeys; [by subst s'|]. destruct Hcase as (a1 & (Em & _ & _ & _ & En & _) & _ & Ha' & Hb').
  rewrite bool_decide_eq_false_2 in Hm by done. cbn [negb] in Hm. rewrite andb_true_r in Hm.
  destruct (Hwf _ _ Ha) as [Hia Hla], (Hwf _ _ Hb) as [Hib Hlb].
  assert (Enb : is_native b = is_native a).
  { clear -Hia Hib Emint. rewrite Emint in Hia. destruct (is_native a), (is_native b); naive_solver. }
  apply (native_wf_kept _ _ _ HK); [| |done].
  { intros k Hk. apply not_elem_of_cons in Hk as [Hk Hk']. apply not_elem_of_cons in Hk' as [Hk' _].
    rewrite (Hm k), !decide_False by done. lia. }
  intros c w [->| ->%list_elem_of_singleton]%elem_of_cons [Hw _].
  - rewrite (decodes_inj _ _ _ _ Hw Ha'). rewrite (Hm (key src_i)), (decide_True (P:=key src_i = key src_i)), (decide_False (P:=key src_i = key dst_i)) by done.
    unfold native_ok. rewrite is_native_set_amount. cbn [acc_mint acc_amount set_acc_amount].
    replace (is_native a1) with (is_native a) by (unfold is_native; by rewrite En). rewrite Em.
    split; [done|]. intros Hn. specialize (Hla Hn). rewrite Hn. lia.
  - rewrite (decodes_inj _ _ _ _ Hw Hb'). rewrite (Hm (key dst_i)), (decide_True (P:=key dst_i = key dst_i)), (decide_False (P:=key dst_i = key src_i)) by congruence.
    unfold native_ok. rewrite is_native_set_amount. cbn [acc_mint acc_amount set_acc_amount].
    split; [done|]. intros Hn. specialize (Hlb Hn). rewrite <- Enb, Hn. lia.
Qed.
Lemma close_native accounts s u s' :
  process_close_account program_id accounts s = (Ok u, s') -> store_wf s -> native_wf s -> native_wf s'.
Proof.
  intros Hr Hs Hwf. pose proof Hr as Hr2.
  apply close_run in Hr as (src_i & dst_i & auth_i & signers & a & E1 & Ha & _ & _ & HK & Ha').
  apply close_lamports in Hr2 as (src_i2 & dst_i2 & rest & E2 & Hl). rewrite E1 in E2. injection E2 as <- <- _.
  apply (native_wf_one _ _ _ (set_acc_amount 0 a) HK); [|done| |done].
  - intros k Hk. rewrite (Hl k), decide_False by done. pose proof (Hs (key src_i)). unfold u64_range, lamports_at in *.
    case_decide; lia.
  - intros _. destruct (Hwf _ _ Ha) as [Hi _]. split; [exact Hi|]. intros _. cbn.
    rewrite (Hl (key src_i)), decide_True by done. lia.
Qed.
Lemma initialize_account_native accounts o s u s' :
  _process_initialize_account accounts o s = (Ok u, s') -> store_wf s -> same_lamports s s' -> native_wf s -> native_wf s'.
Proof.
  intros Hr Hs Hl. apply initialize_account_run in Hr as
    (new_i & mint_i & rest & a0 & owner' & native & amount & _ & _ & _ & Hn & HK & Hv'); [|done].
  intros Hwf. eapply (native_wf_one _ _ _ _ HK); [intros k _; by rewrite (Hl k)|exact Hv'| |done].
  intros _. unfold native_ok, is_native. cbn [acc_is_native acc_mint acc_amount]. rewrite (Hl (key new_i)).
  case_decide as Hk.
  - destruct Hn as (r & -> & Hr & ->). unfold lamports_at. split; [done|]. intros _. lia.
  - by destruct Hn as (-> & _).
Qed.

Lemma instruction_native accounts instr s u s' :
  process_token_instruction program_id accounts instr s = (Ok u, s') -> token_instruction_wf instr -> store_wf s ->
  native_wf s -> native_wf s'.
Proof.
  intros Hr Hi Hs Hwf.
  assert (Hl : (forall x, instr <> Transfer x) -> (forall x d, instr <> TransferChecked x d) ->
    instr <> CloseAccount -> same_lamports s s') by (by eapply other_lamports).
  assert (Happrove : forall x d, process_approve program_id accounts x d s = (Ok u, s') -> u64_range x ->
    same_lamports s s' -> native_wf s').
  { intros x d Ha Hx Hsl. apply approve_run in Ha as (? & ? & ? & ? & ? & a & _ & Ha & _ & _ & HK & Ha'); [|done].
    by apply (native_wf_same _ _ _ _ _ Ha Ha' HK Hsl). }
  assert (Hmint : forall x d, process_mint_to program_id accounts x d s = (Ok u, s') -> 0 <= x ->
    same_lamports s s' -> native_wf s').
  { intros x d Ha Hx Hsl. apply mint_to_run in Ha as (? & ? & ? & ? & m & b & ? & _ & _ & Hb & _ & Hn & _ & _ & _ & _ & _ & HK & Hb' & Hm); [|done].
    by apply (native_wf_mint _ _ _ _ _ _ _ Hb Hb' Hm HK Hsl). }
  assert (Hburn : forall x d, process_burn program_id accounts x d s = (Ok u, s') -> 0 <= x ->
    same_lamports s s' -> native_wf s').
  { intros x d Ha Hx Hsl. apply burn_run in Ha as (? & ? & ? & ? & b & m & b1 & _ & Hb & _ & _ & Hn & _ & _ & _ & _ & Hsp & HK & Hb' & Hm); [|done].
    destruct Hsp as (Em & _ & _ & _ & En & _). by apply (native_wf_mint _ _ _ _ _ _ _ Hb Hb' Hm HK Hsl). }
  assert (Hfreeze : forall b, process_toggle_freeze_account program_id accounts b s = (Ok u, s') ->
    same_lamports s s' -> native_wf s').
  { intros b Ha Hsl. apply toggle_freeze_run in Ha as (? & ? & ? & ? & a & ? & ? & _ & Ha & _ & _ & _ & _ & _ & _ & HK & Ha').
    by apply (native_wf_same _ _ _ _ _ Ha Ha' HK Hsl). }
  destruct instr; cbn [process_token_instruction] in Hr; cbn in Hi;
    try (assert (Hsl : same_lamports s s') by (by apply Hl)); clear Hl.
  - apply initialize_mint_run in Hr as (? & ? & ? & _ & _ & _ & HK & Hm); [|done].
    by apply (native_wf_other _ _ _ _ Hm ltac:(done) HK Hsl).
  - by eapply initialize_account_native.
  - apply initialize_multisig_run in Hr as (? & ? & ? & ? & _ & _ & _ & _ & _ & HK & Hm); [|done].
    by apply (native_wf_other _ _ _ _ Hm ltac:(done) HK Hsl).
  - eapply transfer_native; [exact Hr|apply Hi|done].
  - by eapply Happrove.
  - apply revoke_run in Hr as (? & ? & ? & a & _ & Ha & _ & _ & HK & Ha').
    by apply (native_wf_same _ _ _ _ _ Ha Ha' HK Hsl).
  - apply set_authority_run in Hr as (? & ? & ? & _ & HK & [(a & a' & Ha & _ & Ha' & Hset)|(m & m' & _ & Hm & _)]).
    + apply (native_wf_same _ _ _ _ _ Ha Ha' HK Hsl); [..|done];
        by destruct Hset as [(_ & _ & k & _ & ->)|(_ & _ & ->)].
    + by apply (native_wf_other _ _ _ _ Hm ltac:(done) HK Hsl).
  - exact (Hmint _ _ Hr (proj1 Hi) Hsl).
  - exact (Hburn _ _ Hr (proj1 Hi) Hsl).
  - by eapply close_native.
  - by eapply Hfreeze.
  - by eapply Hfreeze.
  - eapply transfer_native; [exact Hr|apply Hi|done].
  - exact (Happrove _ _ Hr (proj1 Hi) Hsl).
  - exact (Hmint _ _ Hr (proj1 (proj1 Hi)) Hsl).
  - exact (Hburn _ _ Hr (proj1 (proj1 Hi)) Hsl).
  - by eapply initialize_account_native.
Qed.
End Native.
