(* ===== verification/TokenSamples.v ===== *)
(** * A concrete token ledger

    The accounts on which the witnesses run the token program: a mint with a
    minting and a freezing authority, token accounts (one frozen, one
    delegated, two wrapping SOL), a two-of-three multisig and one that was
    initialised with more required signatures than signers. *)
From S2P Require Import Prelude Machine Sdk TokenInstruction TokenState TokenCodec TokenProcessor TokenFacts.
From S2P Require Import PoolInstruction PoolState Models Samples.
#[local] Existing Instances model_sdk model_sdk_laws.

Definition TOK : Pubkey := key_of_Z 100.
Definition MINTER : Pubkey := key_of_Z 101.
Definition FREEZER : Pubkey := key_of_Z 102.
Definition ALICE : Pubkey := key_of_Z 103.
Definition BOB : Pubkey := key_of_Z 104.
Definition A_TOK : Pubkey := key_of_Z 105.
Definition B_TOK : Pubkey := key_of_Z 106.
Definition C_TOK : Pubkey := key_of_Z 107.
Definition MS : Pubkey := key_of_Z 108.
Definition LOCKED_MS : Pubkey := key_of_Z 109.
Definition NEW_MS : Pubkey := key_of_Z 110.
Definition CAROL : Pubkey := key_of_Z 111.
Definition A_SOL : Pubkey := key_of_Z 112.
Definition B_SOL : Pubkey := key_of_Z 113.

Definition tok_mint : Mint := mk_mint (Some MINTER) 150 9 true (Some FREEZER).
Definition a_tok : Account := mk_account TOK ALICE 60 (Some BOB) Initialized None 30 None.
Definition b_tok : Account := mk_account TOK BOB 90 None Frozen None 0 None.
Definition c_tok : Account := mk_account TOK MS 0 None Initialized None 0 None.
Definition a_sol : Account := mk_account native_mint_id ALICE 40 None Initialized (Some 330) 0 None.
Definition b_sol : Account := mk_account native_mint_id BOB 5 None Initialized (Some 330) 0 None.
Definition signer_keys (ks : list Pubkey) : list Pubkey := ks ++ replicate (MAX_SIGNERS - length ks) default_pubkey.
Definition two_of_three : Multisig := mk_multisig 2 3 true (signer_keys [ALICE; BOB; CAROL]).
Definition three_of_two : Multisig := mk_multisig 3 2 true (signer_keys [ALICE; BOB]).
Definition no_multisig : Multisig := mk_multisig 0 0 false (signer_keys []).

Definition tok_cells : list (Pubkey * Cell) :=
  [ (TOK, token_cell tok_mint); (A_TOK, token_cell a_tok); (B_TOK, token_cell b_tok); (C_TOK, token_cell c_tok);
    (MS, token_cell two_of_three); (LOCKED_MS, token_cell three_of_two);
    (NEW_MS, mk_cell 1000 (packed no_multisig) spl_token_id);
    (A_SOL, mk_cell 370 (packed a_sol) spl_token_id); (B_SOL, mk_cell 340 (packed b_sol) spl_token_id) ].
Definition tok_store : Store := store_of tok_cells.

Lemma tok_store_wf : store_wf tok_store.
Proof. apply store_of_wf. unfold tok_cells. repeat (apply Forall_cons; split; [by cbn|]). by apply Forall_nil. Qed.
(** what holds of the listed cells and of the empty cell holds of every cell *)
Lemma store_of_cells (P : Cell -> Prop) cells :
  P empty_cell -> Forall (fun c => P c.2) cells -> forall k, P (get_cell (store_of cells) k).
Proof.
  intros H0 Hf k. unfold get_cell, store_of. destruct (list_to_map cells !! k) as [c|] eqn:E; [|done].
  apply elem_of_list_to_map_2 in E. by apply (proj1 (Forall_forall _ _) Hf) in E.
Qed.
Lemma tok_mint_at : holds Mint tok_store TOK tok_mint.
Proof. split; [split|]; vm_compute; reflexivity. Qed.
Lemma a_tok_at : holds Account tok_store A_TOK a_tok.
Proof. split; [split|]; vm_compute; reflexivity. Qed.
Lemma b_tok_at : holds Account tok_store B_TOK b_tok.
Proof. split; [split|]; vm_compute; reflexivity. Qed.
Lemma a_sol_at : holds Account tok_store A_SOL a_sol.
Proof. split; [split|]; vm_compute; reflexivity. Qed.
Lemma locked_at : holds Multisig tok_store LOCKED_MS three_of_two.
Proof. split; [split|]; vm_compute; reflexivity. Qed.
Lemma TOK_not_native : TOK <> native_mint_id.
Proof. by vm_compute. Qed.

(** a sample instruction: its accounts and its bytes *)
Definition transfer_sample : list AccountInfo := [info A_TOK; info C_TOK; signer ALICE].
Definition thaw_sample : list AccountInfo := [info B_TOK; info TOK; signer FREEZER].
Definition sol_sample : list AccountInfo := [info A_SOL; info B_SOL; signer ALICE].
Definition multisig_sample : list AccountInfo := [info NEW_MS; info rent_id; info ALICE; info BOB; info CAROL].
Definition close_sample : list AccountInfo := [info C_TOK; info A_TOK; info MS; signer ALICE; signer CAROL].
Lemma run_pair {A} (m : M A) (s : Store) r : (m s).1 = r -> m s = (r, (m s).2).
Proof. intros <-. by destruct (m s). Qed.
Lemma transfer_sample_runs : (token_process spl_token_id transfer_sample (token_pack (Transfer 25)) tok_store).1 = Ok tt.
Proof. vm_compute. reflexivity. Qed.
Lemma thaw_sample_runs : (token_process spl_token_id thaw_sample (token_pack ThawAccount) tok_store).1 = Ok tt.
Proof. vm_compute. reflexivity. Qed.
Lemma sol_sample_runs : (token_process spl_token_id sol_sample (token_pack (Transfer 15)) tok_store).1 = Ok tt.
Proof. vm_compute. reflexivity. Qed.
Lemma multisig_sample_runs : (process_initialize_multisig multisig_sample 2 tok_store).1 = Ok tt.
Proof. vm_compute. reflexivity. Qed.
Lemma close_sample_runs : (token_process spl_token_id close_sample (token_pack CloseAccount) tok_store).1 = Ok tt.
Proof. vm_compute. reflexivity. Qed.
Lemma multisig_signed_runs :
  (validate_owner spl_token_id MS (info MS) [signer ALICE; signer CAROL] tok_store).1 = Ok tt.
Proof. vm_compute. reflexivity. Qed.
