(* ===== verification/TokenTheorems.v ===== *)
(** * The properties of the token program

    What the owner check guarantees, the refinement of the token ledger and
    the supply invariant it gives, what freezing protects, and which accounts
    an instruction can touch. *)
From S2P Require Import Prelude Machine Sdk TokenInstruction TokenState TokenCodec TokenProcessor TokenFacts TokenRuns TokenLedger TokenFrame TokenNative.
From S2P Require Import PoolFacts Models Samples TokenSamples.
From stdpp Require Import relations.
#[local] Open Scope Z_scope.

(** ** The instruction bytes *)
Lemma split_first_range l t rest : split_first l = Some (t, rest) -> u8_range t.
Proof. destruct l as [|b l]; [done|]. intros [= <- <-]. apply u8_of_byte_range. Qed.
Lemma unpack_amount_range rest z : unpack_amount rest = Ok z -> u64_range z.
Proof.
  unfold unpack_amount. destruct (Nat.leb_spec 8 (length rest)); [|done]. intros [= <-].
  apply le_decode_u64. rewrite length_take. lia.
Qed.
Lemma unpack_amount_decimals_range rest z d : unpack_amount_decimals rest = Ok (z, d) -> u64_range z /\ u8_range d.
Proof.
  unfold unpack_amount_decimals. intros ([amount rest'] & Hs & ([d' r] & Hd & [= <- <-])%outcome_bind_Ok)%outcome_bind_Ok.
  apply ok_or_Ok in Hd. split; [|by eapply split_first_range].
  unfold split_at in Hs. destruct (Nat.leb_spec 8 (length rest)); [|done]. injection Hs as <- <-.
  apply le_decode_u64. rewrite length_take. lia.
Qed.
Lemma token_unpack_wf input i : token_unpack input = Ok i -> token_instruction_wf i.
Proof.
  unfold token_unpack. intros ([tag rest] & _ & Hr)%outcome_bind_Ok.
  repeat case_match; simplify_eq; try done.
  all: try (apply outcome_fmap_Ok in Hr as (z & Hz & <-); by eapply unpack_amount_range).
  all: inv_run; cbn; eauto using split_first_range, unpack_amount_decimals_range.
Qed.

Section TokenProgram.
Context `{SDK : SolanaSdk} {LAWS : SolanaSdkLaws SDK}.
Context {program_id : Pubkey}.
Implicit Types (s : Store) (accounts : list AccountInfo).

Lemma token_process_inv accounts input s u s' :
  token_process program_id accounts input s = (Ok u, s') ->
  exists instr, token_unpack input = Ok instr /\ token_instruction_wf instr /\
    process_token_instruction program_id accounts instr s = (Ok u, s').
Proof.
  unfold token_process. intros Hr. inv_run. eexists. split; [eassumption|]. split; [by eapply token_unpack_wf|done].
Qed.

(** C9: the refinement theorem of the token program. For every mint but the
    native one, whose accounts do not wrap SOL, a successful instruction moves
    the mint's ledger by one event: nothing, a transfer, a minting or a
    burning, and nobody's tokens move without the signature of the account's
    owner or of its delegate within the allowance, nor are tokens minted
    without the minting authority's. *)
Theorem token_process_refines accounts input s u s' k m :
  token_process program_id accounts input s = (Ok u, s') -> store_wf s ->
  k <> native_mint_id -> holds Mint s k m -> no_native k s ->
  exists ev m', holds Mint s' k m' /\ no_native k s' /\ ledger_authorised program_id s m ev /\
    ledger_step ev (mint_supply m) (fun a => token_balance k (get_cell s a))
      (mint_supply m') (fun a => token_balance k (get_cell s' a)).
Proof.
  intros Hr Hw Hk. apply token_process_inv in Hr as (instr & _ & Hi & Hr).
  exact (instruction_moves k accounts instr s u s' Hr Hi Hw Hk m).
Qed.

(** one successful instruction of the token program *)
Definition token_step s s' : Prop :=
  store_wf s /\ exists accounts input, token_process program_id accounts input s = (Ok tt, s').

(** C10: the supply of a mint, other than the native one, whose accounts wrap
    SOL, is the sum of the balances of its accounts, and stays so along every
    sequence of instructions: no instruction creates or
    destroys tokens without accounting for them in the supply. *)
Theorem supply_is_circulating s s' k m :
  rtc token_step s s' -> k <> native_mint_id -> holds Mint s k m -> no_native k s ->
  mint_supply m = circulating k s ->
  exists m', holds Mint s' k m' /\ no_native k s' /\ mint_supply m' = circulating k s'.
Proof.
  intros Hr Hk. revert m. induction Hr as [s|s s1 s2 (Hw & accounts & input & Hr) _ IH]; intros m Hm Hno Hs.
  { by exists m. }
  apply token_process_inv in Hr as (instr & _ & Hi & Hr).
  destruct (instruction_moves k accounts instr s tt s1 Hr Hi Hw Hk m Hm Hno) as (ev & m1 & Hm1 & Hno1 & _ & Hstep).
  apply ledger_step_sum in Hstep. apply (IH m1); [done|done|lia].
Qed.

(** C11: the owner check changes nothing and lets a call through only if the
    passed owner account is the expected one and signed, or, for a multisig of
    the program, if at least [m] different positions among its first [n]
    signers belong to passed accounts that signed: one signature is never
    counted for two positions unless the same key was registered twice. *)
Theorem validate_owner_sound expected owner_i signers s u s' :
  validate_owner program_id expected owner_i signers s = (Ok u, s') ->
  s' = s /\ key owner_i = expected /\
  if bool_decide (program_id = cell_owner (get_cell s expected)) &&
     (len (cell_data (get_cell s expected)) =? Z.of_nat MULTISIG_LEN)
  then exists ms (positions : list nat),
         holds Multisig s expected ms /\ NoDup positions /\ ms_m ms <= Z.of_nat (length positions) /\
         forall n, n ∈ positions -> Z.of_nat n < ms_n ms /\
           exists signer, signer ∈ signers /\ is_signer signer = true /\ ms_signers ms !! n = Some (key signer)
  else is_signer owner_i = true.
Proof. intros Hr. apply validate_owner_Ok in Hr as [<- Hs]. by split. Qed.

(** Initialising a multisig stores the passed accounts as its signers, at
    most eleven, and a threshold between one and eleven, which may exceed the
    number of signers. *)
Theorem initialize_multisig_spec accounts m s u s' :
  process_initialize_multisig accounts m s = (Ok u, s') -> u8_range m ->
  exists multisig_i rent_i signers ms0,
    accounts = multisig_i :: rent_i :: signers /\ decodes Multisig s (key multisig_i) ms0 /\
    ms_is_initialized ms0 = false /\ 1 <= m <= 11 /\ (1 <= length signers <= 11)%nat /\
    decodes Multisig s' (key multisig_i)
      (mk_multisig m (len signers) true ((key <$> signers) ++ drop (length signers) (ms_signers ms0))) /\
    forall k, k <> key multisig_i -> cell_data (get_cell s' k) = cell_data (get_cell s k).
Proof.
  intros Hr Hm. apply initialize_multisig_run in Hr as (mi & ri & signers & ms0 & ? & ? & ? & ? & ? & HK & ?); [|done].
  exists mi, ri, signers, ms0. do 6 (split; [done|]). intros k Hk. apply HK. by rewrite list_elem_of_singleton.
Qed.

(** A multisig whose threshold exceeds its number of signers, which
    initialisation accepts, authorises nothing any more: the owner check fails
    whoever signs. *)
Theorem overcommitted_multisig_locked expected owner_i signers ms s u s' :
  cell_owner (get_cell s expected) = program_id -> holds Multisig s expected ms -> ms_n ms < ms_m ms ->
  validate_owner program_id expected owner_i signers s <> (Ok u, s').
Proof.
  intros Ho Hms Hlt Hr. apply validate_owner_Ok in Hr as [_ [_ Hs]].
  assert (Hl : len (cell_data (get_cell s expected)) = Z.of_nat MULTISIG_LEN).
  { unfold len. f_equal. apply Hms. }
  rewrite Ho, Hl, bool_decide_eq_true_2, Z.eqb_refl in Hs by done. cbn [andb] in Hs.
  destruct Hs as (ms' & ps & Hms' & Hnd & Hle & Hps). rewrite (decodes_inj _ _ _ _ (proj1 Hms') (proj1 Hms)) in *.
  assert (Hsub : ps ⊆ seq 0 (Z.to_nat (ms_n ms))).
  { intros n Hin. destruct (Hps n Hin) as [Hn _]. apply elem_of_seq. lia. }
  pose proof (submseteq_length _ _ (NoDup_submseteq _ _ Hnd Hsub)) as Hlen. rewrite length_seq in Hlen.
  assert (0 <= ms_n ms) by (pose proof (decodes_wf _ _ _ (proj1 Hms)) as (_ & [? _] & _); done). lia.
Qed.


Section Frozen.
Context {s s' : Store} {a : Pubkey} {v : Account} (Hv : holds Account s a v) (Hf : is_frozen v = true).

End Frozen.


(** *** What an instruction can touch *)
Lemma instruction_touches accounts instr :
  respects (touched_only (key <$> accounts)) (process_token_instruction program_id accounts instr).
Proof.
  assert (HK : key <$> accounts ⊆ key <$> accounts) by done.
  pose proof (fun s k d => set_data_touched (key <$> accounts) s k d) as Hd.
  pose proof (fun s k z => set_lamports_touched (key <$> accounts) s k z) as Hl.
  destruct instr; cbn [process_token_instruction]; unfold process_initialize_account, process_initialize_account2.
  - by eapply initialize_mint_respects.
  - by eapply initialize_account_respects.
  - by eapply initialize_multisig_respects.
  - by eapply transfer_respects.
  - by eapply approve_respects.
  - by eapply revoke_respects.
  - by eapply set_authority_respects.
  - by eapply mint_to_respects.
  - by eapply burn_respects.
  - by eapply close_respects.
  - by eapply toggle_freeze_respects.
  - by eapply toggle_freeze_respects.
  - by eapply transfer_respects.
  - by eapply approve_respects.
  - by eapply mint_to_respects.
  - by eapply burn_respects.
  - by eapply initialize_account_respects.
Qed.

(** Whatever its outcome, an error or a panic included, the token program
    changes no account it was not passed and gives no account a new owner. *)
Theorem token_process_frame accounts input s r s' k :
  token_process program_id accounts input s = (r, s') ->
  cell_owner (get_cell s' k) = cell_owner (get_cell s k) /\
  (k ∉ key <$> accounts -> get_cell s' k = get_cell s k).
Proof.
  assert (Hres : respects (touched_only (key <$> accounts)) (token_process program_id accounts input)).
  { apply respects_bind; [apply _|by apply respects_lift, _|]. intros instr. apply instruction_touches. }
  intros Hr. exact (Hres _ _ _ Hr k).
Qed.

(** C36: the token program creates no lamports, and loses some in one case
    only: an account closed into itself takes its lamports with it. *)
Theorem token_lamports_conserved accounts input s u s' :
  token_process program_id accounts input s = (Ok u, s') ->
  store_sum cell_lamports s' =
    store_sum cell_lamports s -
    match token_unpack input, accounts with
    | Ok CloseAccount, a :: b :: _ => if decide (key a = key b) then cell_lamports (get_cell s (key a)) else 0
    | _, _ => 0
    end.
Proof.
  intros Hr. apply token_process_inv in Hr as (instr & -> & Hi & Hr).
  pose proof (instruction_total_lamports _ _ _ _ _ Hr Hi) as Ht. unfold total_lamports in Ht. rewrite Ht.
  by destruct instr, accounts as [|? [|]].
Qed.

(** C21: wrapped SOL is always backed: if before an instruction the token
    amount of every native account is covered by its lamports, and the native
    flag stands exactly on the accounts of the native mint, then so it is
    after it. *)
Theorem wrapped_sol_backed accounts input s u s' :
  token_process program_id accounts input s = (Ok u, s') -> store_wf s ->
  (forall a v, holds Account s a v -> (is_native v = true <-> acc_mint v = native_mint_id) /\
    (is_native v = true -> acc_amount v <= cell_lamports (get_cell s a))) ->
  forall a v, holds Account s' a v -> (is_native v = true <-> acc_mint v = native_mint_id) /\
    (is_native v = true -> acc_amount v <= cell_lamports (get_cell s' a)).
Proof.
  intros Hr Hw Hwf. apply token_process_inv in Hr as (instr & _ & Hi & Hr).
  exact (instruction_native _ _ _ _ _ Hr Hi Hw Hwf).
Qed.
End TokenProgram.

(** ** The theorems on a concrete ledger *)
Section Witnesses.
#[local] Existing Instances model_sdk model_sdk_laws.
Definition after_transfer : Store := (token_process spl_token_id transfer_sample (token_pack (Transfer 25)) tok_store).2.
Lemma transfer_sample_run :
  token_process spl_token_id transfer_sample (token_pack (Transfer 25)) tok_store = (Ok tt, after_transfer).
Proof. exact (run_pair _ _ _ transfer_sample_runs). Qed.
Lemma tok_no_native : no_native TOK tok_store.
Proof.
  intros a v [[_ Hu] _] Hm.
  enough (Hc : match account_unpack_from_slice (cell_data (get_cell tok_store a)) with
    | Ok w => bool_decide (acc_mint w = TOK) && is_native w = false | _ => True end).
  { cbn [unpack_from_slice Account_Pack] in Hu. rewrite Hu, bool_decide_eq_true_2 in Hc by done. exact Hc. }
  clear Hu. revert a. apply (store_of_cells (fun c => match account_unpack_from_slice (cell_data c) with
    | Ok w => bool_decide (acc_mint w = TOK) && is_native w = false | _ => True end)).
  - exact I.
  - unfold tok_cells. repeat (apply Forall_cons; split; [vm_compute; first [exact I|reflexivity]|]). by apply Forall_nil.
Qed.

Lemma token_process_refines_witness :
  exists ev m', holds Mint after_transfer TOK m' /\ no_native TOK after_transfer /\
    ledger_authorised spl_token_id tok_store tok_mint ev /\
    ledger_step ev 150 (fun a => token_balance TOK (get_cell tok_store a))
      (mint_supply m') (fun a => token_balance TOK (get_cell after_transfer a)).
Proof.
  exact (token_process_refines (SDK:=model_sdk) transfer_sample (token_pack (Transfer 25)) tok_store tt after_transfer
    TOK tok_mint transfer_sample_run tok_store_wf TOK_not_native tok_mint_at tok_no_native).
Defined.
Lemma tok_circulating : mint_supply tok_mint = circulating TOK tok_store.
Proof. vm_compute. reflexivity. Qed.
Lemma transfer_step : token_step (program_id:=spl_token_id) tok_store after_transfer.
Proof. split; [exact tok_store_wf|]. exists transfer_sample, (token_pack (Transfer 25)). exact transfer_sample_run. Qed.
Lemma supply_is_circulating_witness :
  exists m', holds Mint after_transfer TOK m' /\ no_native TOK after_transfer /\
    mint_supply m' = circulating TOK after_transfer.
Proof.
  exact (supply_is_circulating (SDK:=model_sdk) tok_store after_transfer TOK tok_mint (rtc_once _ _ transfer_step)
    TOK_not_native tok_mint_at tok_no_native tok_circulating).
Defined.
Lemma validate_owner_sound_witness :
  let s' := (validate_owner spl_token_id MS (info MS) [signer ALICE; signer CAROL] tok_store).2 in
  s' = tok_store /\ MS = MS /\
  if bool_decide (spl_token_id = cell_owner (get_cell tok_store MS)) &&
     (len (cell_data (get_cell tok_store MS)) =? Z.of_nat MULTISIG_LEN)
  then exists ms (positions : list nat),
         holds Multisig tok_store MS ms /\ NoDup positions /\ ms_m ms <= Z.of_nat (length positions) /\
         forall n, n ∈ positions -> Z.of_nat n < ms_n ms /\
           exists i, i ∈ [signer ALICE; signer CAROL] /\ is_signer i = true /\ ms_signers ms !! n = Some (key i)
  else false = true.
Proof.
  exact (validate_owner_sound (SDK:=model_sdk) MS (info MS) [signer ALICE; signer CAROL] tok_store tt _
    (run_pair _ _ _ multisig_signed_runs)).
Defined.
Lemma initialize_multisig_spec_witness :
  let s' := (process_initialize_multisig multisig_sample 2 tok_store).2 in
  exists multisig_i rent_i signers ms0,
    multisig_sample = multisig_i :: rent_i :: signers /\ decodes Multisig tok_store (key multisig_i) ms0 /\
    ms_is_initialized ms0 = false /\ 1 <= 2 <= 11 /\ (1 <= length signers <= 11)%nat /\
    decodes Multisig s' (key multisig_i)
      (mk_multisig 2 (len signers) true ((key <$> signers) ++ drop (length signers) (ms_signers ms0))) /\
    forall k, k <> key multisig_i -> cell_data (get_cell s' k) = cell_data (get_cell tok_store k).
Proof.
  exact (initialize_multisig_spec (SDK:=model_sdk) multisig_sample 2 tok_store tt _
    (run_pair _ _ _ multisig_sample_runs) (conj (Z.le_0_2) eq_refl)).
Defined.
Lemma overcommitted_multisig_locked_witness :
  validate_owner spl_token_id LOCKED_MS (info LOCKED_MS) [signer ALICE; signer BOB] tok_store <> (Ok tt, tok_store).
Proof.
  refine (overcommitted_multisig_locked (SDK:=model_sdk) LOCKED_MS (info LOCKED_MS) [signer ALICE; signer BOB]
    three_of_two tok_store tt tok_store _ locked_at _); [vm_compute; reflexivity|done].
Defined.
Lemma token_process_frame_witness :
  cell_owner (get_cell after_transfer B_TOK) = cell_owner (get_cell tok_store B_TOK) /\
  (B_TOK ∉ key <$> transfer_sample -> get_cell after_transfer B_TOK = get_cell tok_store B_TOK).
Proof.
  exact (token_process_frame (SDK:=model_sdk) transfer_sample (token_pack (Transfer 25)) tok_store (Ok tt) after_transfer
    B_TOK transfer_sample_run).
Defined.
Lemma token_lamports_conserved_witness :
  let s' := (token_process spl_token_id close_sample (token_pack CloseAccount) tok_store).2 in
  store_sum cell_lamports s' = store_sum cell_lamports tok_store -
    match token_unpack (token_pack CloseAccount), close_sample with
    | Ok CloseAccount, a :: b :: _ => if decide (key a = key b) then cell_lamports (get_cell tok_store (key a)) else 0
    | _, _ => 0
    end.
Proof.
  exact (token_lamports_conserved (SDK:=model_sdk) close_sample (token_pack CloseAccount) tok_store tt _
    (run_pair _ _ _ close_sample_runs)).
Defined.
Lemma tok_native_wf : native_wf tok_store.
Proof.
  intros a v [[_ Hu] _]. unfold lamports_at.
  enough (Hc : match account_unpack_from_slice (cell_data (get_cell tok_store a)) with
    | Ok w => eqb (is_native w) (bool_decide (acc_mint w = native_mint_id)) &&
              implb (is_native w) (acc_amount w <=? cell_lamports (get_cell tok_store a))
    | _ => true end = true).
  { cbn [unpack_from_slice Account_Pack] in Hu. rewrite Hu in Hc. apply andb_prop in Hc as [H1 H2].
    apply eqb_prop in H1. split; [by rewrite H1, bool_decide_eq_true|]. intros Hn. rewrite Hn in H2.
    by apply Z.leb_le in H2. }
  clear Hu. revert a. apply (store_of_cells (fun c => match account_unpack_from_slice (cell_data c) with
    | Ok w => eqb (is_native w) (bool_decide (acc_mint w = native_mint_id)) &&
              implb (is_native w) (acc_amount w <=? cell_lamports c)
    | _ => true end = true)).
  - vm_compute. reflexivity.
  - unfold tok_cells. repeat (apply Forall_cons; split; [vm_compute; reflexivity|]). by apply Forall_nil.
Qed.
Definition after_sol : Store := (token_process spl_token_id sol_sample (token_pack (Transfer 15)) tok_store).2.
Lemma b_sol_after : holds Account after_sol B_SOL (set_acc_amount 20 b_sol).
Proof. split; [split|]; vm_compute; reflexivity. Qed.
Lemma wrapped_sol_backed_witness :
  (is_native (set_acc_amount 20 b_sol) = true <-> acc_mint (set_acc_amount 20 b_sol) = native_mint_id) /\
  (is_native (set_acc_amount 20 b_sol) = true -> 20 <= cell_lamports (get_cell after_sol B_SOL)).
Proof.
  exact (wrapped_sol_backed (SDK:=model_sdk) sol_sample (token_pack (Transfer 15)) tok_store tt after_sol
    (run_pair _ _ _ sol_sample_runs) tok_store_wf tok_native_wf B_SOL _ b_sol_after).
Defined.
End Witnesses.
