(* ===== verification/TokenAtomic.v ===== *)
(** * A failed token instruction changes nothing

    Handlers write through [RefCell]s, so what they wrote before an error would
    stay for a caller that goes on: here, that no error comes after a write. *)
From S2P Require Import Prelude Machine Sdk TokenInstruction TokenState TokenCodec TokenProcessor TokenFacts TokenRuns TokenLedger.
From S2P Require Import PoolInstruction PoolState StakeProgram PoolProcessor PoolCodec PoolFacts PoolFrame.
From S2P Require Import TokenFrame Models Samples TokenSamples.
#[local] Open Scope Z_scope.

(** ** Records of a fixed length *)
(** a value of any content fits a buffer of its type's length *)
Class PackFits (T : Type) `{Pack T} : Prop :=
  pack_fits (v : T) d : length d = pack_LEN T -> exists d', pack_into_slice v d = Ok d' /\ length d' = pack_LEN T.
#[export] Instance Mint_fits : PackFits Mint.
Proof.
  intros m d Hl. apply (buffer_chunks mint_sizes) in Hl as (cs & -> & Hs).
  pose proof Hs as Hs'. destruct_chunks cs Hs. cbn [pack_into_slice Mint_Pack pack_LEN].
  rewrite mint_pack_concat by done. eexists. split; [done|].
  match goal with |- length (concat ?l) = _ => assert (Hn : length <$> l = mint_sizes) by solve_chunk_lengths end.
  by apply (length_concat_chunks _ _ Hn).
Qed.
#[export] Instance Account_fits : PackFits Account.
Proof.
  intros a d Hl. apply (buffer_chunks account_sizes) in Hl as (cs & -> & Hs).
  pose proof Hs as Hs'. destruct_chunks cs Hs. cbn [pack_into_slice Account_Pack pack_LEN].
  rewrite account_pack_concat by done. eexists. split; [done|].
  match goal with |- length (concat ?l) = _ => assert (Hn : length <$> l = account_sizes) by solve_chunk_lengths end.
  by apply (length_concat_chunks _ _ Hn).
Qed.

(** ** Failing without a trace *)
Definition fails_clean {A} (s : Store) (m : M A) : Prop := forall r s', m s = (r, s') -> (forall a, r <> Ok a) -> s' = s.

Section Clean.
Context `{SDK : SolanaSdk} {LAWS : SolanaSdkLaws SDK}.
Implicit Types (s : Store) (i : AccountInfo).

(** a part that only reads *)
Lemma clean_read {A} s (m : M A) : respects eq m -> fails_clean s m.
Proof. intros Hm r s' Hr _. by rewrite (Hm _ _ _ Hr). Qed.
Lemma clean_after_read {A B} s (m : M A) (f : A -> M B) :
  respects eq m -> (forall a, m s = (Ok a, s) -> fails_clean s (f a)) -> fails_clean s (m ≫= f).
Proof.
  intros Hm Hf r s' Hr Hn. unfold mbind, stM_bind in Hr. destruct (m s) as [[a|e|] s1] eqn:E.
  - pose proof (Hm _ _ _ E) as <-. by apply (Hf a eq_refl r).
  - injection Hr as _ <-. by rewrite (Hm _ _ _ E).
  - injection Hr as _ <-. by rewrite (Hm _ _ _ E).
Qed.
Lemma clean_next {B} s l (f : AccountInfo * list AccountInfo -> M B) :
  (forall i l', fails_clean s (f (i, l'))) -> fails_clean s (next_info l ≫= f).
Proof. intros Hf. apply clean_after_read; [by apply respects_lift, _|]. by intros [] _. Qed.
Lemma clean_success {A} s (m : M A) a s1 : m s = (Ok a, s1) -> fails_clean s m.
Proof. intros E r s' Hr Hn. rewrite E in Hr. injection Hr as <- _. by destruct (Hn a). Qed.
(** the write that ends a handler *)
Lemma clean_pack {T} `{Pack T} (v : T) i s : fails_clean s (pack_info v i).
Proof.
  apply clean_after_read; [by apply respects_borrow, _|]. intros d _.
  apply clean_after_read; [by apply respects_lift, _|]. intros d' _. by eapply clean_success.
Qed.

Definition data_length s i : nat := length (cell_data (get_cell s (key i))).
Lemma unpack_length T `{Pack T} i s v s' : unpack_info T i s = (Ok v, s') -> data_length s i = pack_LEN T.
Proof. by intros [_ [[Hl _] _]]%unpack_info_Ok. Qed.
Lemma pack_succeeds {T} `{PackFits T} (v : T) i s :
  data_length s i = pack_LEN T ->
  exists s', pack_info v i s = (Ok tt, s') /\ forall j, data_length s' j = data_length s j.
Proof.
  intros Hl. destruct (pack_fits v _ Hl) as (d' & Hp & Hl').
  exists (set_data s (key i) d'). split.
  - unfold pack_info, borrow_data. erewrite stM_bind_run by reflexivity.
    erewrite stM_bind_run; [reflexivity|]. unfold lift. by rewrite pack_pack_spec, decide_True, Hp.
  - intros j. unfold data_length. rewrite data_set_data. case_decide as Hk; [|done].
    rewrite Hl'. unfold data_length in Hl. by rewrite <- Hl, Hk.
Qed.
(** two writes: the second succeeds *)
Lemma two_packs {T U} `{PackFits T} `{PackFits U} (v : T) (w : U) i j s :
  data_length s i = pack_LEN T -> data_length s j = pack_LEN U ->
  exists s', (pack_info v i;; pack_info w j) s = (Ok tt, s').
Proof.
  intros Hi Hj. destruct (pack_succeeds v i s Hi) as (s1 & E1 & Hl1). erewrite stM_bind_run by exact E1.
  rewrite <- (Hl1 j) in Hj. destruct (pack_succeeds w j s1 Hj) as (s2 & E2 & _). by exists s2.
Qed.
Lemma clean_two_packs {T U} `{PackFits T} `{PackFits U} (v : T) (w : U) i j s :
  data_length s i = pack_LEN T -> data_length s j = pack_LEN U -> fails_clean s (pack_info v i;; pack_info w j).
Proof. intros Hi Hj. destruct (two_packs v w i j s Hi Hj) as [s' E]. by eapply clean_success. Qed.
Lemma data_length_lamports s k z j : data_length (set_cell_lamports s k z) j = data_length s j.
Proof. unfold data_length, set_cell_lamports. rewrite get_cell_insert. case_decide as Hk; [|done]. by rewrite <- Hk. Qed.
End Clean.

(** ** The handlers *)
Lemma next_expected_reads `{SDK : SolanaSdk} d l : respects eq (next_expected_mint d l).
Proof.
  unfold next_expected_mint. destruct d; [|by apply respects_ret, _].
  apply respects_bind; [apply _|by apply respects_lift, _|]. intros []. by apply respects_ret, _.
Qed.
Ltac clean_reads := solve [apply next_expected_reads | repeat touch_step | apply respects_pure; [apply _|reflexivity]].
Ltac clean_step :=
  lazymatch goal with
  | |- fails_clean _ (pack_info _ _) => apply clean_pack
  | |- fails_clean _ (pack_info _ _ ≫= _) => fail
  | |- fails_clean _ (next_info _ ≫= _) => apply clean_next; intros ? ?; cbv beta iota
  | |- fails_clean _ (_ ≫= _) => apply clean_after_read; [clean_reads|let E := fresh "E" in intros ? E; cbv beta iota zeta]
  | |- fails_clean _ (let '(_, _) := ?p in _) => destruct p
  | |- fails_clean _ (throw _) => by apply clean_read, respects_throw, _
  | |- fails_clean _ (if ?x then _ else _) => let B := fresh "B" in destruct x eqn:B
  end.
(** the lengths the reads have found *)
Ltac known_lengths :=
  match goal with H : unpack_info ?T ?i _ = _ |- data_length _ ?i = _ => exact (unpack_length T i _ _ _ H) end.

Section Handlers.
Context `{SDK : SolanaSdk} {LAWS : SolanaSdkLaws SDK} {program_id : Pubkey}.
Implicit Types (s : Store) (accounts : list AccountInfo).

Lemma initialize_mint_clean s accounts d a f : fails_clean s (process_initialize_mint accounts d a f).
Proof. unfold process_initialize_mint. repeat clean_step. Qed.
Lemma initialize_account_clean s accounts o : fails_clean s (_process_initialize_account accounts o).
Proof. unfold _process_initialize_account. repeat clean_step. Qed.
Lemma initialize_multisig_clean s accounts m : fails_clean s (process_initialize_multisig accounts m).
Proof. unfold process_initialize_multisig. repeat clean_step. Qed.
Lemma approve_clean s accounts x d : fails_clean s (process_approve program_id accounts x d).
Proof. unfold process_approve. repeat clean_step. Qed.
Lemma revoke_clean s accounts : fails_clean s (process_revoke program_id accounts).
Proof. unfold process_revoke. repeat clean_step. Qed.
Lemma set_authority_clean s accounts t k : fails_clean s (process_set_authority program_id accounts t k).
Proof. unfold process_set_authority, set_account_authority, set_mint_authorities. repeat clean_step. Qed.
Lemma toggle_freeze_clean s accounts b : fails_clean s (process_toggle_freeze_account program_id accounts b).
Proof. unfold process_toggle_freeze_account. repeat clean_step. Qed.
Lemma mint_to_clean s accounts x d : fails_clean s (process_mint_to program_id accounts x d).
Proof. unfold process_mint_to. repeat clean_step. apply clean_two_packs; known_lengths. Qed.
Lemma burn_clean s accounts x d : fails_clean s (process_burn program_id accounts x d).
Proof. unfold process_burn. repeat clean_step. apply clean_two_packs; known_lengths. Qed.
(** two accounts together have at most all the lamports there are *)
Lemma two_lamports_le s k j : store_wf s -> k <> j -> lamports_at s k + lamports_at s j <= total_lamports s.
Proof.
  intros Hw Hne. pose proof (store_sum_delete cell_lamports eq_refl s k) as H1.
  pose proof (store_sum_delete cell_lamports eq_refl (delete k s) j) as H2.
  assert (Hj : get_cell (delete k s) j = get_cell s j) by (unfold get_cell; by rewrite lookup_delete_ne).
  assert (H0 : 0 <= store_sum cell_lamports (delete j (delete k s))).
  { apply store_sum_nonneg; [done|]. intros i. destruct (decide (i = j)) as [->|Hij]; [unfold get_cell; by rewrite lookup_delete_eq|].
    destruct (decide (i = k)) as [->|Hik];
      [unfold get_cell; by rewrite lookup_delete_ne, lookup_delete_eq by congruence|].
    pose proof (Hw i) as Hi. unfold get_cell in *. rewrite !lookup_delete_ne by congruence. apply Hi. }
  unfold total_lamports, lamports_at. rewrite Hj in H2. lia.
Qed.
Lemma transfer_writes_clean s (si di : AccountInfo) (native : bool) x (a b : Account) :
  store_wf s -> total_lamports s < 2 ^ 64 -> key si <> key di ->
  data_length s si = ACCOUNT_LEN -> data_length s di = ACCOUNT_LEN ->
  fails_clean s
    ((if native then
        source_starting_lamports ← lamports si;
        l ← lift (ok_or (token_err Overflow) (checked_sub source_starting_lamports x));
        set_lamports si l;;
        dest_starting_lamports ← lamports di;
        l ← lift (ok_or (token_err Overflow) (checked_add dest_starting_lamports x));
        set_lamports di l
      else mret tt);; pack_info a si;; pack_info b di).
Proof.
  intros Hw Ht Hne Hs Hd. destruct native.
  - unfold lamports. destruct (checked_sub (lamports_at s (key si)) x) as [l|] eqn:El.
    + pose proof El as [-> Hx]%checked_sub_Some. pose proof (two_lamports_le s _ _ Hw Hne) as Htwo.
      assert (Ea : checked_add (lamports_at s (key di)) x = Some (lamports_at s (key di) + x)).
      { apply checked_add_Some. split; [done|lia]. }
      set (s1 := set_cell_lamports s (key si) (lamports_at s (key si) - x)).
      set (s2 := set_cell_lamports s1 (key di) (lamports_at s (key di) + x)).
      destruct (two_packs a b si di s2) as [s3 E3]; [by unfold s2, s1; rewrite !data_length_lamports..|].
      eapply clean_success. erewrite stM_bind_run; [exact E3|].
      erewrite stM_bind_run by reflexivity. fold (lamports_at s (key si)). rewrite El.
      erewrite stM_bind_run by reflexivity. erewrite stM_bind_run by reflexivity.
      erewrite stM_bind_run by reflexivity. fold s1. fold (lamports_at s1 (key di)).
      unfold s1 at 1. rewrite lamports_at_set, decide_False, Ea by done. reflexivity.
    + intros r s' Hr _. unfold mbind, stM_bind, gets in Hr. fold (lamports_at s (key si)) in Hr.
      rewrite El in Hr. by injection Hr.
  - destruct (two_packs a b si di s) as [s' E]; [exact Hs|exact Hd|]. eapply clean_success. by erewrite stM_bind_run.
Qed.
Lemma transfer_clean s accounts x d :
  store_wf s -> total_lamports s < 2 ^ 64 -> fails_clean s (process_transfer program_id accounts x d).
Proof.
  intros Hw Ht. unfold process_transfer. repeat clean_step; [by apply clean_read, respects_ret, _|].
  apply transfer_writes_clean; [done|done|by apply (bool_decide_eq_false_1 _ B)|known_lengths..].
Qed.
Lemma close_clean s accounts : fails_clean s (process_close_account program_id accounts).
Proof.
  unfold process_close_account. repeat clean_step.
  match goal with |- fails_clean _ (set_lamports ?di ?l;; set_lamports ?si ?z;; pack_info ?a _) =>
    set (s2 := set_cell_lamports (set_cell_lamports s (key di) l) (key si) z);
    destruct (pack_succeeds a si s2) as (s3 & Hs3 & _);
      [unfold s2; rewrite !data_length_lamports; known_lengths|] end.
  eapply clean_success. erewrite stM_bind_run by reflexivity. erewrite stM_bind_run by reflexivity. exact Hs3.
Qed.
Lemma instruction_clean s accounts instr :
  store_wf s -> total_lamports s < 2 ^ 64 -> fails_clean s (process_token_instruction program_id accounts instr).
Proof.
  intros Hw Ht. destruct instr; cbn [process_token_instruction];
    unfold process_initialize_account, process_initialize_account2;
    auto using initialize_mint_clean, initialize_account_clean, initialize_multisig_clean, transfer_clean,
      approve_clean, revoke_clean, set_authority_clean, mint_to_clean, burn_clean, close_clean, toggle_freeze_clean.
Qed.

(** C17: a failed instruction of the token program, an error or a panic on any
    accounts and bytes, leaves every account as it was. The handlers check
    before they write, but for the transfer of wrapped SOL, which writes the
    source's lamports before its last check, that the destination's do not
    overflow: they cannot, because the lamports of the whole chain add up to a
    [u64]. *)
Theorem token_failure_changes_nothing accounts input s r s' :
  token_process program_id accounts input s = (r, s') -> store_wf s -> store_sum cell_lamports s < 2 ^ 64 ->
  r <> Ok tt -> s' = s.
Proof.
  intros Hr Hw Ht Hn.
  refine (clean_after_read s (lift (token_unpack input)) (process_token_instruction program_id accounts) _ _ r s' Hr _).
  - by apply respects_lift, _.
  - intros instr _. by apply instruction_clean.
  - by intros [].
Qed.
End Handlers.

(** ** The theorem on a concrete ledger *)
#[local] Existing Instances model_sdk model_sdk_laws.
(** a transfer of wrapped SOL that exceeds the balance, and one that does not *)
Definition overdraft_sample : list AccountInfo := [info A_SOL; info B_SOL; signer ALICE].
Definition after_overdraft : result unit * Store :=
  token_process spl_token_id overdraft_sample (token_pack (Transfer 41)) tok_store.
Lemma overdraft_fails : after_overdraft.1 = Err (token_err TokenInsufficientFunds).
Proof. vm_compute. reflexivity. Qed.
Lemma small_transfer_runs :
  (token_process spl_token_id overdraft_sample (token_pack (Transfer 40)) tok_store).1 = Ok tt.
Proof. vm_compute. reflexivity. Qed.
Lemma tok_lamports : store_sum cell_lamports tok_store < 2 ^ 64.
Proof. vm_compute. reflexivity. Qed.
Lemma token_failure_changes_nothing_witness : after_overdraft.2 = tok_store.
Proof.
  apply (token_failure_changes_nothing (SDK:=model_sdk) (program_id:=spl_token_id) overdraft_sample
    (token_pack (Transfer 41)) tok_store after_overdraft.1 after_overdraft.2 (surjective_pairing _) tok_store_wf tok_lamports).
  rewrite overdraft_fails. discriminate.
Defined.
