(* ===== verification/PanicTheorems.v ===== *)
(** * The panics of the two programs

    Which instructions can end in a panic, and why: nothing but the listed
    causes does, whatever the accounts, their data and the instruction bytes. *)
From S2P Require Import Prelude Machine Sdk TokenInstruction TokenState TokenCodec TokenProcessor TokenFacts TokenRuns TokenChanges TokenFrame.
From S2P Require Import PoolInstruction PoolState StakeProgram PoolProcessor PoolCodec PoolFacts Panics Liquidity.
From S2P Require Import Models Samples SampleRuns TokenSamples TokenTheorems.
From stdpp Require Import relations.
#[local] Open Scope Z_scope.
Ltac inv_run_ext ::= first [inv_run_owner | inv_run_pool | inv_run_token | inv_run_liquidity].

(** ** The stake pool's instructions *)
(** the account at position [n] has fewer than [size] bytes of data *)
Definition short_data (s : Store) (accounts : list AccountInfo) (n size : nat) : Prop :=
  exists i, accounts !! n = Some i /\ (length (cell_data (get_cell s (key i))) < size)%nat.
(** the token accounts at two positions are of different mints *)
Definition mints_differ (s : Store) (accounts : list AccountInfo) (n m : nat) : Prop :=
  exists i j a b, accounts !! n = Some i /\ accounts !! m = Some j /\
    holds Account s (key i) a /\ holds Account s (key j) b /\ acc_mint a <> acc_mint b.
Definition pool_panic_cause `{PAD : StructPadding} (s : Store) (accounts : list AccountInfo)
    (instr : StakePoolInstruction) : Prop :=
  match instr with
  | Initialize _ => short_data s accounts 4 ACCOUNT_LEN \/ short_data s accounts 3 MINT_LEN
  | SetOwner => short_data s accounts 3 ACCOUNT_LEN
  | AddLiquidity _ => mints_differ s accounts 4 6
  | SellstSOL _ =>
      (exists i j p a, accounts !! 0%nat = Some i /\ accounts !! 7%nat = Some j /\ pool_at s (key i) p /\
         holds Account s (key j) a /\ acc_mint a <> sp_pool_mint p) \/
      mints_differ s accounts 7 4 \/ mints_differ s accounts 6 3
  | _ => False
  end.

Section Pool.
Context `{SDK : SolanaSdk} {LAWS : SolanaSdkLaws SDK} {TOT : SysvarsTotal SDK}.
Context `{RT : Runtime} {RTT : RuntimeTotal RT} `{BC : Bincode} `{PAD : StructPadding}.
Context `{BP : BuildProfile} {RELEASE : ReleaseBuild BP} {program_id : Pubkey}.
Implicit Types (accounts : list AccountInfo) (s : Store).

Lemma assert_Panic b s s' : (assert b : M unit) s = (Panic, s') -> b = false /\ s' = s.
Proof. destruct b; [done|]. by intros [= ->]. Qed.
Lemma short_account_read d : account_unpack_from_slice d = Panic -> (length d < ACCOUNT_LEN)%nat.
Proof. intros H. apply Nat.nle_gt. intros Hl. by apply (account_unpack_no_panic _ Hl). Qed.
Lemma short_mint_read d : mint_unpack_from_slice d = Panic -> (length d < MINT_LEN)%nat.
Proof. intros H. apply Nat.nle_gt. intros Hl. by apply (mint_unpack_no_panic _ Hl). Qed.
Lemma set_owner_Panic accounts s s' :
  process_set_owner program_id accounts s = (Panic, s') -> short_data s accounts 3 ACCOUNT_LEN.
Proof.
  unfold process_set_owner. intros Hr. inv_panic. injection Hr as Hr _.
  eexists. split; [reflexivity|]. exact (short_account_read _ Hr).
Qed.
Lemma initialize_Panic init accounts s s' :
  process_initialize program_id init accounts s = (Panic, s') ->
  short_data s accounts 4 ACCOUNT_LEN \/ short_data s accounts 3 MINT_LEN.
Proof.
  unfold process_initialize. intros Hr. inv_panic; injection Hr as Hr _.
  - left. eexists. split; [reflexivity|]. exact (short_account_read _ Hr).
  - right. eexists. split; [reflexivity|]. exact (short_mint_read _ Hr).
Qed.
Lemma differing_mints s accounts n m i j tp a b :
  accounts !! n = Some i -> accounts !! m = Some j -> token_account_at s (key i) tp a -> token_account_at s (key j) tp b ->
  acc_mint a <> acc_mint b -> mints_differ s accounts n m.
Proof. intros Hi Hj [_ Ha] [_ Hb] Hne. by exists i, j, a, b. Qed.
Lemma add_liquidity_Panic amount accounts s s' :
  process_add_liquidity program_id amount accounts s = (Panic, s') -> mints_differ s accounts 4 6.
Proof.
  unfold process_add_liquidity. intros Hr. inv_panic. apply assert_Panic in Hr as [Hr _]. bool_hyps.
  by eapply differing_mints.
Qed.
Lemma sell_stsol_Panic amount accounts s s' :
  process_sell_stsol program_id amount accounts s = (Panic, s') ->
  pool_panic_cause s accounts (SellstSOL amount).
Proof.
  unfold process_sell_stsol. intros Hr. inv_panic; apply assert_Panic in Hr as [Hr _]; bool_hyps.
  - left. match goal with H : token_account_at _ (key ?j) _ ?a, Hp : pool_at _ (key ?i) ?p, Hn : _ <> acc_mint ?a |- _ =>
      destruct H as [_ H]; exists i, j, p, a; split_and!; [reflexivity|reflexivity|exact Hp|exact H|congruence] end.
  - right. left. by eapply differing_mints.
  - right. right. by eapply differing_mints.
Qed.

(** C15: in a build without overflow checks the pool's program panics for the
    listed causes only: initialising or handing over a pool with a fee account,
    or a mint, that is too short to be read, and the assertions on the mints of
    the liquidity pool's accounts. Every other failure, of any instruction on
    any accounts and bytes, is an error. *)
Theorem pool_panics_only accounts input s s' :
  pool_process program_id accounts input s = (Panic, s') ->
  exists instr, pool_instruction_deserialize input = Ok instr /\ pool_panic_cause s accounts instr.
Proof.
  unfold pool_process. intros [Hr|(instr & s1 & Hi & Hr)]%stM_bind_Panic.
  { injection Hr as Hr _. pose proof (pool_instruction_deserialize_total input) as Ht. by rewrite Hr in Ht. }
  apply lift_Ok in Hi as [Hi <-]. exists instr. split; [done|].
  destruct instr; cbn [process_pool_instruction] in Hr.
  - by eapply initialize_Panic.
  - by apply create_stake_account_panic_free in Hr.
  - by apply add_validator_panic_free in Hr.
  - by apply remove_validator_panic_free in Hr.
  - by apply update_list_panic_free in Hr.
  - by apply update_pool_panic_free in Hr.
  - by apply deposit_panic_free in Hr.
  - by apply withdraw_panic_free in Hr.
  - by apply set_staking_auth_panic_free in Hr.
  - by eapply set_owner_Panic.
  - by eapply add_liquidity_Panic.
  - by eapply sell_stsol_Panic.
Qed.
End Pool.

(** ** The token program's instructions *)
Section Token.
Context `{SDK : SolanaSdk} {LAWS : SolanaSdkLaws SDK} {TOT : SysvarsTotal SDK} {program_id : Pubkey}.
Implicit Types (accounts : list AccountInfo) (s : Store).

(** the program's multisigs keep within their eleven signers *)
Definition multisigs_fit s : Prop :=
  forall k ms, cell_owner (get_cell s k) = program_id -> holds Multisig s k ms -> ms_n ms <= Z.of_nat MAX_SIGNERS.
Lemma instruction_multisigs_fit accounts instr s u s' :
  process_token_instruction program_id accounts instr s = (Ok u, s') -> token_instruction_wf instr -> store_wf s ->
  multisigs_fit s -> multisigs_fit s'.
Proof.
  intros Hr Hi Hw Hfit k ms Ho [Hms Hin]. pose proof (instruction_touches accounts instr _ _ _ Hr k) as [Hk _].
  destruct (instruction_changes _ _ _ _ _ k Hr Hi Hw) as [Hd|[(a & a' & _ & Ha)|[(m & m' & _ & Hm & _)|(m & m' & _ & Hm & Hn)]]].
  - apply (Hfit k); [congruence|]. split; [|done]. by eapply decodes_get_cell.
  - destruct (decodes_ne _ _ _ _ _ Hms Ha ltac:(done) eq_refl).
  - destruct (decodes_ne _ _ _ _ _ Hms Hm ltac:(done) eq_refl).
  - by rewrite (decodes_inj _ _ _ _ Hms Hm).
Qed.
(** what happens outside the program gives it no initialised multisig *)
Definition outside_step s s' : Prop :=
  forall k ms, cell_owner (get_cell s' k) = program_id -> holds Multisig s' k ms ->
    cell_owner (get_cell s k) = program_id /\ holds Multisig s k ms.
Definition chain_step s s' : Prop := token_step (program_id:=program_id) s s' \/ outside_step s s'.
Lemma chain_multisigs_fit s s' : rtc chain_step s s' -> multisigs_fit s -> multisigs_fit s'.
Proof.
  induction 1 as [s|s s1 s2 [(Hw & accounts & input & Hr)|Ho] _ IH]; [done| |]; intros Hf; apply IH.
  - apply token_process_inv in Hr as (instr & _ & Hi & Hr). by eapply instruction_multisigs_fit.
  - intros k ms Hk Hms. destruct (Ho k ms Hk Hms) as [Hk' Hms']. exact (Hf k ms Hk' Hms').
Qed.
(** C16: on every chain of token instructions and steps of other programs that
    started without an oversized multisig, the token program panics only while
    parsing: on the tag of a [Checked] instruction that fewer than eight bytes
    follow. The other panics of the code, past the end of a multisig's signers,
    cannot be reached with fewer than 259 accounts. *)
Theorem token_panics_only s0 s accounts input s' :
  rtc chain_step s0 s -> multisigs_fit s0 -> (length accounts <= 258)%nat ->
  token_process program_id accounts input s = (Panic, s') ->
  exists tag rest, split_first input = Some (tag, rest) /\ checked_tag tag = true /\ (length rest < 8)%nat.
Proof.
  intros Hs Hf Hl [Hr|(instr & s1 & Hi & Hr)]%stM_bind_Panic.
  { injection Hr as Hr _. by apply token_unpack_panics_iff in Hr. }
  exfalso. apply lift_Ok in Hi as [_ <-]. apply (chain_multisigs_fit _ _ Hs) in Hf.
  apply token_instruction_Panic in Hr.
  assert (Hno : ~ multisig_passed program_id s accounts).
  { intros (i & _ & ms & Ho & Hms & Hn). specialize (Hf _ _ Ho Hms). lia. }
  destruct instr; cbn [token_panic_cause] in Hr; try (by apply Hno); lia.
Qed.
End Token.

(** ** The theorems on sample accounts *)
Section Witnesses.
#[local] Existing Instances model_sdk model_sdk_laws idle_runtime model_bincode zero_padding release_build.
#[local] Instance release_model : ReleaseBuild release_build.
Proof. reflexivity. Qed.
#[local] Instance model_sysvars_total : SysvarsTotal model_sdk.
Proof.
  split; intros i c; cbn -[le_decode slice]; unfold model_clock, sysvar; by repeat case_match.
Qed.
#[local] Instance idle_total : RuntimeTotal idle_runtime.
Proof. split; intros; by intros s s'. Qed.

(** wSOL added out of an account of the pool's tokens *)
Definition wrong_mint_accounts : list AccountInfo :=
  [ info LIQ; info spl_token_id; info METALP; info LIQ_AUTH; info USER_STSOL; signer USER; info LIQ_WSOL; info USER_TOKENS ].
Definition wrong_mint_input : list byte :=
  match pool_instruction_serialize (AddLiquidity 5) with Ok d => d | _ => [] end.
Lemma wrong_mint_panics : (pool_process PID wrong_mint_accounts wrong_mint_input the_store).1 = Panic.
Proof. vm_compute. reflexivity. Qed.
Lemma pool_panics_only_witness :
  exists instr, pool_instruction_deserialize wrong_mint_input = Ok instr /\
    pool_panic_cause the_store wrong_mint_accounts instr.
Proof.
  exact (pool_panics_only (SDK:=model_sdk) (RT:=idle_runtime) (BP:=release_build) (program_id:=PID)
    wrong_mint_accounts wrong_mint_input the_store _ (run_pair _ _ _ wrong_mint_panics)).
Defined.

Lemma tok_multisigs_fit : multisigs_fit (program_id:=spl_token_id) tok_store.
Proof.
  intros k ms _ [[_ Hu] _].
  enough (Hc : match multisig_unpack_from_slice (cell_data (get_cell tok_store k)) with
    | Ok w => ms_n w <=? Z.of_nat MAX_SIGNERS | _ => true end = true).
  { cbn [unpack_from_slice Multisig_Pack] in Hu. rewrite Hu in Hc. by apply Z.leb_le in Hc. }
  clear Hu. revert k. apply (store_of_cells (fun c => match multisig_unpack_from_slice (cell_data c) with
    | Ok w => ms_n w <=? Z.of_nat MAX_SIGNERS | _ => true end = true)).
  - vm_compute. reflexivity.
  - unfold tok_cells. repeat (apply Forall_cons; split; [vm_compute; reflexivity|]). by apply Forall_nil.
Qed.
Definition short_input : list byte := [byte_of_u8 12; byte_of_u8 1].
Lemma short_input_panics : (token_process spl_token_id transfer_sample short_input after_transfer).1 = Panic.
Proof. vm_compute. reflexivity. Qed.
Lemma token_panics_only_witness :
  exists tag rest, split_first short_input = Some (tag, rest) /\ checked_tag tag = true /\ (length rest < 8)%nat.
Proof.
  refine (token_panics_only (SDK:=model_sdk) (program_id:=spl_token_id) tok_store after_transfer transfer_sample
    short_input _ (rtc_once _ _ (or_introl transfer_step)) tok_multisigs_fit _ (run_pair _ _ _ short_input_panics)).
  cbn [transfer_sample length]. lia.
Defined.
End Witnesses.
