(* ===== verification/CompositionTheorems.v ===== *)
(** * The pool's tokens and the token program's

    The theorem that the two programs' books stay in step, and its witness: a
    deposit whose minting is a run of the token program in an executable
    runtime. *)
From S2P Require Import Prelude Machine Sdk TokenInstruction TokenState TokenCodec TokenProcessor TokenFacts TokenRuns.
From S2P Require Import PoolInstruction PoolState StakeProgram PoolProcessor PoolCodec PoolMath PoolFacts PoolSpec PoolRefine PoolForward Composition.
From S2P Require Import Models Samples SampleRuns TokenSamples TokenTheorems.

Section Books.
Context `{SDK : SolanaSdk} {LAWS : SolanaSdkLaws SDK} `{RT : Runtime} {TRT : TokenRuntime RT}.
Context `{BC : Bincode} `{PAD : StructPadding} `{BP : BuildProfile}.
Context {program_id : Pubkey} {RTL : RuntimeLaws RT program_id}.

(** C6: the two programs agree on how many pool tokens exist. When the pool
    runs over the token program, and the supply of its mint is the total the
    pool has recorded, then it still is after every deposit, withdrawal,
    validator addition and removal that is passed the pool's mint, in any
    build: the token program checks the sums that the pool does not. (Adding
    and removing a validator check the mint that is passed; depositing and
    withdrawing do not, and there the premise is the sender's to keep.) *)
Theorem books_stay_in_step instr accounts input s s' p l kp :
  stake_program_id <> spl_token_id ->
  pool_process program_id accounts input s = (Ok tt, s') -> pool_instruction_deserialize input = Ok instr ->
  store_wf s -> slot_key (Some 0%nat) accounts = Some kp ->
  slot_key (mint_position instr) accounts = Some (sp_pool_mint p) ->
  pool_at s kp p -> kp <> sp_validator_stake_list p -> list_at s (sp_validator_stake_list p) l ->
  supply_in_step s p ->
  exists p', pool_at s' kp p' /\ supply_in_step s' p'.
Proof.
  intros NS Hr Hi Hw Hkp Hmint Hp Hne Hl Hb. unfold pool_process in Hr.
  apply stM_bind_Ok in Hr as (i & ? & Hi' & Hr). apply lift_Ok in Hi' as [Hi' <-].
  rewrite Hi in Hi'. injection Hi' as <-. apply pool_instruction_deserialize_wf in Hi.
  apply (books_moved_in_step s s' kp p Hb). intros m Hm. destruct Hb as [Hid _].
  assert (Hbooks : (exists t, u64_range t /\ books_moved s' kp p m t) \/ (exists t, u64_range t /\ books_moved s' kp p m (- t)));
    [|destruct Hbooks as [(t & _ & Hb)|(t & _ & Hb)]; eauto].
  destruct instr; try discriminate Hmint; cbn [process_pool_instruction mint_position] in Hr, Hmint.
  - left. by eapply add_books.
  - right. by eapply remove_books.
  - left. by eapply deposit_books.
  - right. by eapply withdraw_books.
Qed.
End Books.

(** ** A runtime that runs the token program *)
Section TokenRuntimeModel.
#[local] Existing Instances model_sdk model_sdk_laws model_bincode zero_padding debug_build.

(** the runtime's rule on a called program: it changes its own accounts only,
    and lamports stay in range *)
Definition allowed_change (s s' : Store) (k : Pubkey) : bool :=
  (bool_decide (cell_owner (get_cell s k) = spl_token_id) || bool_decide (get_cell s' k = get_cell s k)) &&
  bool_decide (0 <= cell_lamports (get_cell s' k)) && (cell_lamports (get_cell s' k) <? 2 ^ 64).
(** a call of the token program runs it and is rolled back when it breaks the
    rule; the other programs' calls do nothing *)
Definition run_token_call (ix : Instruction) : M unit := fun s =>
  if bool_decide (ix_program_id ix = spl_token_id) then
    match token_process spl_token_id (info_of <$> ix_accounts ix) (ix_data ix) s with
    | (Ok tt, s') => if forallb (allowed_change s s') (meta_pubkey <$> ix_accounts ix) then (Ok tt, s')
                     else (Err InvalidArgument, s)
    | (r, _) => (r, s)
    end
  else (Ok tt, s).
#[local] Instance token_runtime : Runtime :=
  {| invoke ix _ := run_token_call ix; invoke_signed ix _ _ := run_token_call ix |}.

Lemma keys_of_metas (metas : list AccountMeta) : key <$> (info_of <$> metas) = meta_pubkey <$> metas.
Proof. rewrite <- list_fmap_compose. by apply list_fmap_ext. Qed.
(** what the rule leaves *)
Lemma run_token_call_cells ix s r s' k :
  run_token_call ix s = (r, s') ->
  (cell_owner (get_cell s k) <> spl_token_id -> get_cell s' k = get_cell s k) /\
  (u64_range (cell_lamports (get_cell s k)) -> u64_range (cell_lamports (get_cell s' k))) /\
  cell_owner (get_cell s' k) = cell_owner (get_cell s k).
Proof.
  unfold run_token_call. case_bool_decide; [|by intros [= <- <-]].
  destruct (token_process spl_token_id _ (ix_data ix) s) as [[[]|e|] s1] eqn:Ht; [|by intros [= <- <-]..].
  destruct (forallb _ _) eqn:Hf; [|by intros [= <- <-]]. intros [= <- <-].
  apply (token_process_frame _ _ _ _ _ k) in Ht as [Ho Hk]. rewrite keys_of_metas in Hk.
  destruct (decide (k ∈ meta_pubkey <$> ix_accounts ix)) as [Hin|Hin]; [|by rewrite (Hk Hin)].
  rewrite forallb_forall in Hf. specialize (Hf k (proj1 (list_elem_of_In _ _) Hin)).
  unfold allowed_change in Hf. bool_hyps. split; [|split; [|done]].
  - intros Hne. match goal with H : _ || _ = true |- _ => apply orb_true_iff in H as [H|H] end; by bool_hyps.
  - intros _. by split.
Qed.
#[local] Instance token_runtime_frame pid : pid <> spl_token_id -> RuntimeLaws token_runtime pid.
Proof.
  intros Hpid. split; cbn [invoke invoke_signed token_runtime].
  - intros ix _ s r s' Hw Hr k. exact (proj1 (proj2 (run_token_call_cells _ _ _ _ k Hr)) (Hw k)).
  - intros ix _ _ s r s' Hw Hr k. exact (proj1 (proj2 (run_token_call_cells _ _ _ _ k Hr)) (Hw k)).
  - intros ix _ s r s' k _ Ho Hr. rewrite (proj1 (run_token_call_cells _ _ _ _ k Hr)) by congruence. done.
  - intros ix _ _ s r s' k _ Ho Hr. rewrite (proj1 (run_token_call_cells _ _ _ _ k Hr)) by congruence. done.
Qed.
#[local] Instance token_runtime_own : RuntimeLaws token_runtime spl_token_id.
Proof.
  assert (Hidle : forall ix s r s', ix_program_id ix <> spl_token_id -> run_token_call ix s = (r, s') -> s' = s).
  { intros ix s r s' Hne. unfold run_token_call. rewrite bool_decide_eq_false_2 by done. by intros [= _ <-]. }
  split; cbn [invoke invoke_signed token_runtime].
  - intros ix _ s r s' Hw Hr k. exact (proj1 (proj2 (run_token_call_cells _ _ _ _ k Hr)) (Hw k)).
  - intros ix _ _ s r s' Hw Hr k. exact (proj1 (proj2 (run_token_call_cells _ _ _ _ k Hr)) (Hw k)).
  - intros ix _ s r s' k Hne Ho Hr. by rewrite (Hidle _ _ _ _ Hne Hr).
  - intros ix _ _ s r s' k Hne Ho Hr. by rewrite (Hidle _ _ _ _ Hne Hr).
Qed.
#[local] Instance token_runtime_runs : TokenRuntime token_runtime.
Proof.
  assert (Hcall : forall ix s s', ix_program_id ix = spl_token_id -> run_token_call ix s = (Ok tt, s') ->
    exists accounts, key <$> accounts = meta_pubkey <$> ix_accounts ix /\
      token_process spl_token_id accounts (ix_data ix) s = (Ok tt, s')).
  { intros ix s s' Hid Hr. exists (info_of <$> ix_accounts ix). split; [apply keys_of_metas|].
    unfold run_token_call in Hr. rewrite bool_decide_eq_true_2 in Hr by done.
    destruct (token_process spl_token_id _ (ix_data ix) s) as [[[]|e|] s1]; [|done..].
    destruct (forallb _ _); [by injection Hr as <-|discriminate Hr]. }
  split; [exact token_runtime_own| |]; cbn [invoke invoke_signed token_runtime]; intros ix infos; intros; by apply Hcall.
Qed.

(** the sample pool with its mint and the depositor's token account *)
Definition books_store : Store :=
  store_of ((MINT, token_cell (token_mint WITHDRAW_AUTH 1500)) :: (USER_TOKENS, token_cell (token_account MINT USER 0)) ::
            the_cells).
Lemma books_store_wf : store_wf books_store.
Proof. apply store_of_wf. unfold the_cells. repeat (apply Forall_cons; split; [by cbn|]). by apply Forall_nil. Qed.
Lemma books_pool_at : pool_at books_store KP the_pool.
Proof. eapply stored_pool_at; [vm_compute; reflexivity|exact the_pool_wf]. Qed.
Lemma books_list_at : list_at books_store KL the_list.
Proof. eapply stored_list_at; [vm_compute; reflexivity|exact the_list_wf]. Qed.
Lemma books_supply : supply_in_step books_store the_pool.
Proof.
  split; [reflexivity|]. exists (token_mint WITHDRAW_AUTH 1500). split; [|reflexivity].
  split; [vm_compute; reflexivity|]. split; [split|]; vm_compute; reflexivity.
Qed.
Lemma pid_not_token : PID <> spl_token_id.
Proof. by vm_compute. Qed.
Lemma stake_not_token : stake_program_id <> spl_token_id.
Proof. by vm_compute. Qed.

Definition books_calls : M unit :=
  deposit_invocations the_pool (info KP) (info DEPOSIT_AUTH) (info WITHDRAW_AUTH) (info USER_STAKE) (info VOTE_STAKE)
    (info USER_TOKENS) (info MINT) clock_info history_info token_info stake_program_info 450.
Lemma books_calls_run : (books_calls books_store).1 = Ok tt.
Proof. vm_compute. reflexivity. Qed.
Lemma books_calls_cell k :
  cell_owner (get_cell books_store k) = PID ->
  cell_data (get_cell (books_calls books_store).2 k) = cell_data (get_cell books_store k).
Proof.
  pose proof (token_runtime_frame PID pid_not_token) as Hrt. intros Ho.
  assert (Hres : respects (owned_kept [] PID) books_calls).
  { assert (Hs : stake_program_id <> PID) by (by vm_compute).
    unfold books_calls, deposit_invocations. apply respects_bind; [apply _|by apply stake_authorize_owned|intros _].
    apply respects_bind; [apply _|by apply stake_authorize_owned|intros _].
    apply respects_bind; [apply _|by apply stake_merge_owned|intros _].
    apply token_mint_to_owned. exact (not_eq_sym pid_not_token). }
  exact (proj2 (proj2 (Hres _ _ _ (surjective_pairing (books_calls books_store)) k Ho)) (not_elem_of_nil _)).
Qed.
Lemma books_calls_wf : store_wf (books_calls books_store).2.
Proof.
  pose proof (token_runtime_frame PID pid_not_token) as Hrt.
  assert (Hres : respects wf_kept books_calls).
  { unfold books_calls, deposit_invocations. do 3 (apply respects_bind; [apply _|apply invoke_signed_respects_wf|intros _]).
    apply token_mint_to_wf. }
  exact (Hres _ _ _ (surjective_pairing (books_calls books_store)) books_store_wf).
Qed.
Lemma books_cell k : k <> MINT -> k <> USER_TOKENS -> get_cell books_store k = get_cell the_store k.
Proof.
  intros H1 H2. unfold books_store, store_of, get_cell. cbn [list_to_map foldr fst snd].
  by rewrite !lookup_insert_ne by congruence.
Qed.
Lemma books_clock : clock_from_account_info clock_info (get_cell books_store clock_id) = Ok (mk_clock 7).
Proof. vm_compute. reflexivity. Qed.
Lemma books_history : stake_history_from_account_info history_info (get_cell books_store stake_history_id) = Ok [].
Proof. vm_compute. reflexivity. Qed.
Lemma books_user_stake : cell_lamports (get_cell books_store USER_STAKE) = 900.
Proof. vm_compute. reflexivity. Qed.
Lemma books_stake_account : stake_account_of books_store PID KP VOTE_STAKE VOTE.
Proof.
  unfold stake_account_of. rewrite books_cell by (by vm_compute). exact the_stake_account.
Qed.
Lemma books_owned k : k = KP \/ k = KL -> cell_owner (get_cell books_store k) = PID.
Proof. intros [-> | ->]; vm_compute; reflexivity. Qed.
Lemma books_amount : calc_pool_deposit_amount the_pool (cell_lamports (get_cell books_store USER_STAKE)) = Some 450.
Proof. by rewrite books_user_stake. Qed.
Lemma books_total :
  plain_add (E:=ProgramError) (sp_stake_total the_pool) (cell_lamports (get_cell books_store USER_STAKE)) = Ok 3900.
Proof. by rewrite books_user_stake. Qed.
Lemma books_deposit_succeeds : succeeds (process_deposit PID deposit_accounts) books_store.
Proof.
  exact (deposit_completes (SDK:=model_sdk) (program_id:=PID) books_store (info KP) (info KL) (info DEPOSIT_AUTH)
    (info WITHDRAW_AUTH) (info USER_STAKE) (info VOTE_STAKE) (info USER_TOKENS) (info FEE_ACCOUNT) (info MINT)
    clock_info history_info token_info stake_program_info [] the_pool the_list (mk_clock 7) [] VOTE 0%nat
    450 1950 3900 (books_calls books_store).2 KP_KL books_calls_wf books_pool_at books_list_at books_clock books_history
    eq_refl eq_refl eq_refl eq_refl eq_refl withdraw_auth_ok deposit_auth_ok (Z.le_refl 7) books_stake_account eq_refl
    books_amount (Zle_0_pos 450) (run_pair _ _ _ books_calls_run)
    (books_calls_cell KP (books_owned KP (or_introl eq_refl)))
    (books_calls_cell KL (books_owned KL (or_intror eq_refl))) eq_refl books_total).
Qed.
Lemma books_deposit_runs : succeeds (pool_process PID deposit_accounts deposit_input) books_store.
Proof.
  unfold pool_process. eapply succeeds_bind; [apply lift_run; exact deposit_input_ok|]. exact books_deposit_succeeds.
Qed.
Lemma books_stay_in_step_witness :
  exists s' p', pool_process PID deposit_accounts deposit_input books_store = (Ok tt, s') /\
    pool_at s' KP p' /\ supply_in_step s' p'.
Proof.
  pose proof (token_runtime_frame PID pid_not_token) as Hrt. destruct books_deposit_runs as [s' Hr]. exists s'.
  destruct (books_stay_in_step (SDK:=model_sdk) (RT:=token_runtime) (BP:=debug_build) (program_id:=PID)
    Deposit deposit_accounts deposit_input books_store s' the_pool the_list KP
    stake_not_token Hr deposit_input_ok books_store_wf eq_refl eq_refl books_pool_at KP_KL books_list_at
    books_supply) as (p' & Hp' & Hb').
  exists p'. split; [exact Hr|]. split; [exact Hp'|exact Hb'].
Defined.
End TokenRuntimeModel.
