(* ===== verification/Solvency.v ===== *)
(** * The pool's tokens along a chain

    The two programs and everybody else take turns: instructions of the pool's
    program for this pool and for others, any of the twelve, instructions of
    the token program, steps of other programs; [solvency_step] says what is
    asked of each.  While the pool's mint obeys the pool's withdraw address
    only, and the pool's withdrawals burn its own token, no more tokens exist
    than the pool has counted. *)
From S2P Require Import Prelude Machine Sdk TokenInstruction TokenState TokenCodec TokenProcessor TokenFacts TokenRuns TokenChanges.
From S2P Require Import PoolInstruction PoolState StakeProgram PoolProcessor PoolCodec PoolMath PoolFacts PoolSpec PoolFrame PoolRefine PoolSim.
From S2P Require Import PoolForward TokenTheorems Composition Models Samples SampleRuns TokenSamples CompositionTheorems.
From stdpp Require Import relations.
#[local] Open Scope Z_scope.

(** ** What a success does to a mint *)
(** every successful run of [f] takes a store to a related one *)
Definition leads_to {A} (R : relation Store) (f : M A) : Prop := forall s a s', f s = (Ok a, s') -> R s s'.
Section LeadsTo.
Context `{SDK : SolanaSdk} {LAWS : SolanaSdkLaws SDK} (R : relation Store) `{!PreOrder R}.
Lemma respects_leads_to {A} (f : M A) : respects R f -> leads_to R f.
Proof. intros Hf s a s' Hr. by eapply Hf. Qed.
Lemma leads_to_bind {A B} (m : M A) (f : A -> M B) :
  leads_to R m -> (forall a, leads_to R (f a)) -> leads_to R (m ≫= f).
Proof. intros Hm Hf s b s' (a & s1 & H1 & H2)%stM_bind_Ok. etrans; [by eapply Hm|by eapply Hf]. Qed.
Lemma leads_to_next {B} l (f : AccountInfo * list AccountInfo -> M B) :
  (forall i l', l = i :: l' -> leads_to R (f (i, l'))) -> leads_to R (next_info l ≫= f).
Proof. intros Hf s b s' ([i l'] & s1 & [E <-]%next_info_Ok & H2)%stM_bind_Ok. by eapply Hf. Qed.
Lemma leads_to_guard {B} b e (f : unit -> M B) : leads_to R (f tt) -> leads_to R (fail_if b e ≫= f).
Proof. intros Hf s a s' ([] & s1 & [_ <-]%fail_if_Ok & H2)%stM_bind_Ok. by eapply Hf. Qed.
End LeadsTo.

(** every mint is as it was *)
Definition mints_kept `{SDK : SolanaSdk} (s s' : Store) : Prop :=
  forall k m, token_mint_at s k m -> token_mint_at s' k m.
#[global] Instance mints_kept_preorder `{SDK : SolanaSdk} : PreOrder mints_kept.
Proof. split; [by intros s k m|]. intros s1 s2 s3 H1 H2 k m Hm. auto. Qed.
(** the mint at [mint] still obeys [auth] and has not gained supply *)
Definition supply_kept `{SDK : SolanaSdk} (mint auth : Pubkey) (s s' : Store) : Prop :=
  forall m, token_mint_at s mint m -> mint_authority m = Some auth ->
    exists m', token_mint_at s' mint m' /\ mint_authority m' = Some auth /\ mint_supply m' <= mint_supply m.
#[global] Instance supply_kept_preorder `{SDK : SolanaSdk} mint auth : PreOrder (supply_kept mint auth).
Proof.
  split; [intros s m Hm Ha; by exists m|]. intros s1 s2 s3 H12 H23 m Hm Ha.
  destruct (H12 m Hm Ha) as (m2 & Hm2 & Ha2 & ?). destruct (H23 m2 Hm2 Ha2) as (m3 & Hm3 & Ha3 & ?).
  exists m3. split; [exact Hm3|]. split; [exact Ha3|lia].
Qed.

Section MintsKept.
Context `{SDK : SolanaSdk} {LAWS : SolanaSdkLaws SDK} `{RT : Runtime} {TRT : TokenRuntime RT}.
Context `{BC : Bincode} `{PAD : StructPadding} `{BP : BuildProfile} {program_id : Pubkey}.
Context (NS : stake_program_id <> spl_token_id) (NSYS : system_program_id <> spl_token_id).
Context (mint auth : Pubkey).
Implicit Types (s : Store) (accounts : list AccountInfo).

Lemma owned_mints_kept {A} (f : M A) : respects (owned_kept [] spl_token_id) f -> respects mints_kept f.
Proof using TRT. intros Hf s r s' Hr k m. apply (token_mint_kept []); [by eapply Hf|apply not_elem_of_nil]. Qed.
Lemma mints_supply {A} (f : M A) : leads_to mints_kept f -> leads_to (supply_kept mint auth) f.
Proof using Type. intros Hf s a s' Hr m Hm Ha. exists m. split; [by eapply Hf|done]. Qed.
(** an account that a pool or a list is saved to is longer than a mint *)
Lemma longer_mints_kept s k d :
  (MINT_LEN < length (cell_data (get_cell s k)))%nat -> mints_kept s (set_data s k d).
Proof using LAWS.
  intros Hl k' m [Ho [Hd Hi]]. assert (Hne : k' <> k).
  { intros ->. destruct Hd as [Hlen _]. change (pack_LEN Mint) with MINT_LEN in Hlen. lia. }
  assert (E : get_cell (set_data s k d) k' = get_cell s k') by (by rewrite get_cell_set_data, decide_False).
  split; [by rewrite E|]. split; [|done]. eapply decodes_get_cell; [|exact Hd]. by rewrite E.
Qed.
Lemma save_pool_mints p i : respects mints_kept (save_stake_pool p i).
Proof using LAWS.
  intros s r s'. unfold save_stake_pool, borrow_data, gets, write_data, modify, lift, mbind, stM_bind.
  destruct (stake_pool_serialize p (cell_data (get_cell s (key i)))) as [d| |] eqn:E; [|by intros [= <- <-]..].
  intros [= <- <-]. apply longer_mints_kept. apply (struct_serialize_Ok (T:=StakePool)) in E.
  change (size_of StakePool) with 208%nat in E. unfold MINT_LEN. lia.
Qed.
Lemma save_list_mints l i : respects mints_kept (save_validator_stake_list l i).
Proof using LAWS.
  intros s r s'. unfold save_validator_stake_list, borrow_data, gets, write_data, modify, lift, mbind, stM_bind.
  destruct (validator_stake_list_serialize l (cell_data (get_cell s (key i)))) as [d| |] eqn:E; [|by intros [= <- <-]..].
  intros [= <- <-]. apply longer_mints_kept. apply list_serialize_long in E as [E _].
  pose proof list_capacity. unfold MINT_LEN. lia.
Qed.
Lemma stake_authorize_mints pool acc auth_i ty bump st how rsv prog :
  respects mints_kept (stake_authorize pool acc auth_i ty bump st how rsv prog).
Proof using TRT NS. apply owned_mints_kept. by apply stake_authorize_owned. Qed.
Lemma stake_merge_mints pool acc auth_i ty bump w c h prog :
  respects mints_kept (stake_merge pool acc auth_i ty bump w c h prog).
Proof using TRT NS. apply owned_mints_kept. by apply stake_merge_owned. Qed.
Lemma stake_split_mints pool acc auth_i ty bump amount sp rsv prog :
  respects mints_kept (stake_split pool acc auth_i ty bump amount sp rsv prog).
Proof using TRT NS. apply owned_mints_kept. by apply stake_split_owned. Qed.

(** *** Calls of the token program, or of whatever is passed for it *)
(** minting needs the authority of the mint, so that it is not this mint that
    grows if either is another *)
Lemma mint_to_supply pool token_i mint_i dest_i auth_i ty bump x :
  key mint_i <> mint \/ key auth_i <> auth ->
  leads_to (supply_kept mint auth) (token_mint_to pool token_i mint_i dest_i auth_i ty bump x).
Proof using TRT LAWS.
  intros Hne s [] s' Hr. destruct (decide (key token_i = spl_token_id)) as [Hid|Hid].
  2: { apply (mints_supply _ (respects_leads_to _ _ (owned_mints_kept _ (token_mint_to_owned _ _ _ _ _ _ _ _ _ Hid))) _ _ _ Hr). }
  unfold token_mint_to in Hr. apply stM_bind_Ok in Hr as (ix & ? & Hix & Hr). apply lift_Ok in Hix as [[= <-] <-].
  destruct (token_call _ _ _ _ _ _ Hr Hid (unpack_mint_to x)) as (accounts & Hkeys & Ht).
  apply mint_to_run in Ht as (mi & di & ai & signers & m' & b & authority & -> & Hm' & Hb & _ & _ & _ & Hau & Hs & _ &
    _ & HK & _ & _); [|apply sent_nonneg].
  injection Hkeys as Hmi Hdi Hai _. destruct Hs as [Hai' _]. intros m [Ho [Hd Hi]] Ha. exists m. split; [|done].
  assert (Hk : key mi <> mint).
  { intros E. rewrite E in Hm'. rewrite (decodes_inj _ _ _ _ (proj1 Hm') Hd) in Hau. destruct Hne; congruence. }
  split; [by rewrite (proj1 (HK mint))|]. split; [|done].
  eapply data_kept_decodes; [exact HK| |exact Hd]. rewrite !not_elem_of_cons. split_and!; [|congruence|apply not_elem_of_nil].
  intros E. rewrite <- E in Hb. exact (decodes_ne _ _ _ _ _ (proj1 Hb) Hd ltac:(done) eq_refl).
Qed.
Lemma liq_mint_to_supply pid liq token_i mint_i dest_i auth_i x :
  key mint_i <> mint \/ key auth_i <> auth ->
  leads_to (supply_kept mint auth) (liq_pool_token_mint_to pid liq token_i mint_i dest_i auth_i x).
Proof using TRT LAWS.
  unfold liq_pool_token_mint_to. destruct (find_authority_bump_seed pid liq AUTHORITY) as [? bump].
  apply (mint_to_supply liq token_i mint_i dest_i auth_i AUTHORITY bump x).
Qed.
Lemma burn_supply pool token_i burn_i mint_i auth_i ty bump x :
  leads_to (supply_kept mint auth) (token_burn pool token_i burn_i mint_i auth_i ty bump x).
Proof using TRT LAWS.
  intros s [] s' Hr. destruct (decide (key token_i = spl_token_id)) as [Hid|Hid].
  2: { apply (mints_supply _ (respects_leads_to _ _ (owned_mints_kept _ (token_burn_owned _ _ _ _ _ _ _ _ _ Hid))) _ _ _ Hr). }
  unfold token_burn in Hr. apply stM_bind_Ok in Hr as (ix & ? & Hix & Hr). apply lift_Ok in Hix as [[= <-] <-].
  destruct (token_call _ _ _ _ _ _ Hr Hid (unpack_burn x)) as (accounts & Hkeys & Ht). pose proof (sent_nonneg x) as Hx0.
  apply burn_run in Ht as (bi & mi & ai & signers & a & m' & a1 & -> & Hb & Hm' & _ & _ & _ & _ & _ & _ & _ & HK & _ & Hm1);
    [|exact Hx0].
  intros m [Ho [Hd Hi]] Ha. destruct (decide (mint = key mi)) as [E|Hk].
  - rewrite <- E in Hm', Hm1. rewrite (decodes_inj _ _ _ _ (proj1 Hm') Hd) in *.
    eexists. split; [split; [by rewrite (proj1 (HK mint))|by split; [exact Hm1|]]|]. split; [done|]. cbn. lia.
  - exists m. split; [|done]. split; [by rewrite (proj1 (HK mint))|]. split; [|done].
    eapply data_kept_decodes; [exact HK| |exact Hd]. rewrite !not_elem_of_cons. split_and!; [|done|apply not_elem_of_nil].
    intros E. rewrite <- E in Hb. exact (decodes_ne _ _ _ _ _ (proj1 Hb) Hd ltac:(done) eq_refl).
Qed.
Lemma transfer_ran_mints accounts x s s' :
  process_token_instruction spl_token_id accounts (Transfer (wrap 64 x)) s = (Ok tt, s') -> mints_kept s s'.
Proof using LAWS.
  intros Ht. apply transfer_run in Ht as (si & mi & di & ai & sg & a & b & _ & Ha & Hb & _ & _ & _ & _ & _ & HK & _);
    [|apply sent_nonneg].
  intros k m [Ho [Hd Hi]]. split; [by rewrite (proj1 (HK k))|]. split; [|done].
  eapply data_kept_decodes; [exact HK| |exact Hd]. rewrite !not_elem_of_cons. split_and!; [| |apply not_elem_of_nil].
  - intros E. rewrite <- E in Ha. exact (decodes_ne _ _ _ _ _ (proj1 Ha) Hd ltac:(done) eq_refl).
  - intros E. rewrite <- E in Hb. exact (decodes_ne _ _ _ _ _ (proj1 Hb) Hd ltac:(done) eq_refl).
Qed.
Lemma transfer_mints token_i src dst auth_i base ty n x :
  leads_to mints_kept (token_transfer token_i src dst auth_i base ty n x).
Proof using TRT LAWS.
  intros s [] s' Hr. destruct (decide (key token_i = spl_token_id)) as [Hid|Hid];
    [|exact (owned_mints_kept _ (token_transfer_owned _ _ _ _ _ _ _ _ _ Hid) _ _ _ Hr)].
  unfold token_transfer in Hr. apply stM_bind_Ok in Hr as (ix & ? & Hix & Hr). apply lift_Ok in Hix as [[= <-] <-].
  destruct (token_call _ _ _ _ _ _ Hr Hid (unpack_transfer x)) as (accounts & _ & Ht). by eapply transfer_ran_mints.
Qed.
Lemma transfer_from_signer_mints token_i src dst auth_i x :
  leads_to mints_kept (token_transfer_from_signer token_i src dst auth_i x).
Proof using TRT LAWS.
  intros s [] s' Hr. destruct (decide (key token_i = spl_token_id)) as [Hid|Hid];
    [|exact (owned_mints_kept _ (token_transfer_from_signer_owned _ _ _ _ _ _ Hid) _ _ _ Hr)].
  unfold token_transfer_from_signer in Hr. apply stM_bind_Ok in Hr as (ix & ? & Hix & Hr). apply lift_Ok in Hix as [[= <-] <-].
  destruct (token_call_unsigned _ _ _ _ _ Hr Hid (unpack_transfer x)) as (accounts & _ & Ht). by eapply transfer_ran_mints.
Qed.

(** *** Every instruction *)
(** where the instructions that mint take the mint and its authority from *)
Definition minting_slots (instr : StakePoolInstruction) : option (nat * nat) :=
  match instr with
  | Deposit => Some (8, 3)%nat
  | AddValidatorStakeAccount => Some (7, 3)%nat
  | AddLiquidity _ => Some (2, 3)%nat
  | _ => None
  end.
(** the instruction is passed [mint] to be minted on the authority of [auth] *)
Definition mints_here (instr : StakePoolInstruction) accounts : Prop :=
  exists i j, minting_slots instr = Some (i, j) /\
    slot_key (Some i) accounts = Some mint /\ slot_key (Some j) accounts = Some auth.
Lemma not_mints_here instr accounts i j mint_i auth_i :
  ~ mints_here instr accounts -> minting_slots instr = Some (i, j) ->
  accounts !! i = Some mint_i -> accounts !! j = Some auth_i -> key mint_i <> mint \/ key auth_i <> auth.
Proof using Type.
  intros Hno Hs Hi Hj. destruct (decide (key mint_i = mint)) as [E|]; [right|by left]. intros E'. apply Hno.
  exists i, j. split; [exact Hs|]. cbn. rewrite Hi, Hj. cbn. by rewrite E, E'.
Qed.
Ltac mints_leaf :=
  first [ apply mints_supply; first [apply transfer_mints | apply transfer_from_signer_mints]
        | apply burn_supply
        | first [apply mint_to_supply | apply liq_mint_to_supply];
          match goal with H : ~ mints_here _ _ |- _ => eapply (not_mints_here _ _ _ _ _ _ H); reflexivity end
        | apply mints_supply, respects_leads_to;
          first [ apply save_pool_mints | apply save_list_mints
                | apply stake_authorize_mints | apply stake_merge_mints | apply stake_split_mints
                | apply owned_mints_kept, invoke_respects_owned; solve [done|rewrite ?system_create_account_program; done]
                | apply owned_mints_kept, invoke_signed_respects_owned; solve [done|rewrite system_create_account_program; done] ]
        | apply respects_leads_to; solve [eauto with respects typeclass_instances] ].
Ltac mints_step :=
  lazymatch goal with
  | |- leads_to _ (next_info _ ≫= _) => apply leads_to_next; intros ? ? ->; cbv beta iota
  | |- leads_to _ (fail_if _ _ ≫= _) => apply leads_to_guard
  | |- leads_to _ (_ ≫= _) => apply leads_to_bind; [apply _| |]
  | |- forall _ : _ * _, leads_to _ _ => intros []
  | |- forall _, leads_to _ _ => intros ?
  | |- leads_to _ (let '(_, _) := ?p in _) => destruct p
  | |- leads_to _ (if ?x then _ else _) => destruct x
  | |- leads_to _ (match ?x with _ => _ end) => destruct x
  | |- leads_to _ (foldM _ _ _) => cbn [foldM]
  | |- leads_to _ _ => solve [mints_leaf]
  end.
(** a success that does not mint here leaves the authority over the mint and
    does not raise its supply *)
Lemma instruction_supply instr accounts :
  ~ mints_here instr accounts -> leads_to (supply_kept mint auth) (process_pool_instruction program_id accounts instr).
Proof using TRT NS NSYS LAWS.
  intros Hno. destruct instr; cbn [process_pool_instruction];
    [unfold process_initialize|unfold process_create_validator_stake_account|unfold process_add_validator_stake_account
    |unfold process_remove_validator_stake_account|unfold process_update_list_balance|unfold process_update_pool_balance
    |unfold process_deposit|unfold process_withdraw|unfold process_set_staking_auth|unfold process_set_owner
    |unfold process_add_liquidity|unfold process_sell_stsol].
  all: repeat mints_step.
Qed.
End MintsKept.

Section Chain.
Context `{SDK : SolanaSdk} {LAWS : SolanaSdkLaws SDK} `{RT : Runtime} {TRT : TokenRuntime RT}.
Context `{BC : Bincode} `{PAD : StructPadding} `{BP : BuildProfile}.
Context {program_id : Pubkey} {RTL : RuntimeLaws RT program_id}.
Context (NS : stake_program_id <> spl_token_id) (NSYS : system_program_id <> spl_token_id).
Context (kp kl mint auth : Pubkey) (Hne : kp <> kl).
Implicit Types (s : Store) (p : StakePool) (l : ValidatorStakeList) (accounts : list AccountInfo).

(** ** The state and the events *)
(** the pool at [kp] of tokens of [mint], which [auth] may mint, and no more
    of them in existence than the pool has counted *)
Definition covered s (st : PState) (m : Mint) : Prop :=
  pool_state_at program_id kp kl s st /\ sp_pool_mint (st_pool st) = mint /\
  sp_token_program_id (st_pool st) = spl_token_id /\ token_mint_at s mint m /\
  mint_authority m = Some auth /\ mint_supply m <= sp_pool_total (st_pool st).
(** What is asked of an instruction of the pool's program. Withdrawals from
    this pool burn its own token (the handler does not check that). The mint
    together with its authority is passed for minting to this pool's
    instructions only: the runtime signs for that address with this pool's
    seeds and no others. Minting does not wrap the pool's count around, which
    a build with overflow checks enforces. *)
Definition orderly (instr : StakePoolInstruction) accounts s s' : Prop :=
  match instr with
  | Deposit | AddValidatorStakeAccount =>
      (mints_here mint auth instr accounts -> slot_key (Some 0%nat) accounts = Some kp) /\
      (overflow_checks = true \/
       forall p q, pool_at s kp p -> pool_at s' kp q -> sp_pool_total p <= sp_pool_total q)
  | AddLiquidity _ => ~ mints_here mint auth instr accounts
  | Withdraw _ => slot_key (Some 0%nat) accounts = Some kp -> slot_key (Some 7%nat) accounts = Some mint
  | _ => True
  end.
Inductive solvency_step s s' : Prop :=
(** any successful instruction of the pool's program, for this pool or
    another, that is passed no impostor *)
| PoolTx instr accounts input :
    store_wf s -> program_id ∉ key <$> accounts -> pool_instruction_deserialize input = Ok instr ->
    genuine s instr accounts kp kl -> orderly instr accounts s s' ->
    pool_process program_id accounts input s = (Ok tt, s') -> solvency_step s s'
(** an instruction of the token program that the minting authority, which is
    an address and no multisig, has not signed *)
| TokenTx accounts input :
    store_wf s -> owned_kept [] program_id s s' -> cell_owner (get_cell s auth) <> spl_token_id ->
    (forall i, i ∈ accounts -> key i = auth -> is_signer i = false) ->
    token_process spl_token_id accounts input s = (Ok tt, s') -> solvency_step s s'
(** anything else: it leaves the pool's program's accounts alone, has no
    authority over the mint and does not raise its supply *)
| OtherTx :
    owned_kept [] program_id s s' ->
    (forall m, token_mint_at s mint m -> exists m', token_mint_at s' mint m' /\
       mint_authority m' = mint_authority m /\ mint_supply m' <= mint_supply m) -> solvency_step s s'.

(** ** The mint and the count in a step *)
Definition margin_kept s' p m : Prop :=
  exists p' m', pool_at s' kp p' /\ pool_constants p' = pool_constants p /\ token_mint_at s' mint m' /\
    mint_authority m' = mint_authority m /\
    mint_supply m' - sp_pool_total p' <= mint_supply m - sp_pool_total p.
Lemma books_minted_margin s' p m t :
  sp_pool_mint p = mint -> u64_range t -> u64_range (sp_pool_total p) -> books_moved s' kp p m t ->
  (forall q, pool_at s' kp q -> sp_pool_total p <= sp_pool_total q) -> margin_kept s' p m.
Proof using Type.
  intros Hmint Ht HP (p' & m' & Hp & Hc & Hm & Ha & Hd & Htot) Hov. rewrite Hmint in Hm. exists p', m'.
  do 4 (split; [done|]). rewrite Hd, Htot. unfold u64_range in *.
  destruct (Z.ltb_spec (sp_pool_total p + t) (2 ^ 64)); [rewrite wrap_small by (unfold u64_range; lia); lia|].
  exfalso. specialize (Hov p' Hp). rewrite Htot in Hov.
  unfold wrap in Hov. replace ((sp_pool_total p + t) mod 2 ^ 64) with (sp_pool_total p + t - 2 ^ 64) in Hov; [lia|].
  apply (Z.mod_unique_pos _ _ 1); lia.
Qed.
Lemma books_burned_margin s' p m t :
  sp_pool_mint p = mint -> u64_range t -> u64_range (sp_pool_total p) -> mint_supply m <= sp_pool_total p ->
  books_moved s' kp p m (- t) -> margin_kept s' p m.
Proof using LAWS.
  intros Hmint Ht HP Hle (p' & m' & Hp & Hc & Hm & Ha & Hd & Htot). rewrite Hmint in Hm. exists p', m'.
  do 4 (split; [done|]). pose proof (token_mint_supply _ _ _ Hm) as Hr. unfold u64_range in *.
  rewrite Hd, Htot. rewrite wrap_small by (unfold u64_range; lia). lia.
Qed.
Lemma supply_margin s s' p p' m :
  supply_kept mint auth s s' -> token_mint_at s mint m -> mint_authority m = Some auth ->
  pool_at s' kp p' -> pool_constants p' = pool_constants p -> sp_pool_total p <= sp_pool_total p' -> margin_kept s' p m.
Proof using Type.
  intros Hs Hm Ha Hp Hc Hle. destruct (Hs m Hm Ha) as (m' & Hm' & Ha' & Hsup). exists p', m'.
  do 3 (split; [done|]). split; [congruence|lia].
Qed.
(** the count falls in withdrawals and removals only, if minting does not wrap it *)
Lemma event_rises now ev a b :
  pool_step now a ev b -> StakePool_wf (st_pool a) ->
  (overflow_checks = true \/ match ev with
    | EvDeposit _ _ _ | EvAdd _ _ _ => sp_pool_total (st_pool a) <= sp_pool_total (st_pool b) | _ => True end) ->
  match ev with
  | EvWithdraw _ _ _ | EvRemove _ _ _ => True
  | _ => sp_pool_total (st_pool a) <= sp_pool_total (st_pool b)
  end.
Proof using Type.
  intros Hs Hw [Hov|Hov]; destruct Hs; cbn in *; try done; try lia;
    match goal with Ht : calc_pool_deposit_amount _ ?x = Some ?t, Hx : u64_range ?x, HP : plain_add _ ?t = Ok _ |- _ =>
      destruct (calc_pool_deposit_amount_bounds _ x t Hw Hx Ht) as [[? _] _];
      apply plain_add_Ok in HP as [_ HP]; destruct (HP Hov) as [-> _]; lia end.
Qed.

Lemma pool_tx_margin instr accounts s s' p l m :
  process_pool_instruction program_id accounts instr s = (Ok tt, s') -> pool_instruction_wf instr -> store_wf s ->
  program_id ∉ key <$> accounts -> genuine s instr accounts kp kl -> orderly instr accounts s s' ->
  covered s (mk_pstate p l) m -> margin_kept s' p m.
Proof.
  intros Hr Hwf Hw Hin Hg Hord (Hst & Hmint & Hid & Hm & Hau & Hle).
  pose proof Hst as (Hp & Hl & Hk & _). cbn in Hmint, Hid, Hk, Hp, Hl, Hle.
  pose proof (pool_at_wf _ _ _ Hp) as Hpwf. pose proof Hpwf as (_ & _ & _ & HSr & HPr & _).
  assert (Hne' : kp <> sp_validator_stake_list p) by congruence.
  pose proof Hl as Hl'. rewrite <- Hk in Hl'. pose proof Hm as Hm'. rewrite <- Hmint in Hm'.
  destruct (instruction_simulates accounts Hin instr s s' kp kl (mk_pstate p l) Hwf Hr Hw Hne Hg Hst)
    as (now & ev & st' & Hs & [Hev Hidle] & Hst'). pose proof (pool_step_constants _ _ _ _ Hs) as Hc. cbn [st_pool] in *.
  assert (Htgt : is_Some (state_slots instr).1 -> ev <> EvIdle -> slot_key (state_slots instr).1 accounts = Some kp).
  { intros Hpo Hev'. eapply targeted_pool; [exact Hr|exact Hpo|exact Hg|exact Hst|].
    destruct (decide (kp ∈ state_keys instr accounts \/ kl ∈ state_keys instr accounts)) as [|Hout]; [done|].
    apply Decidable.not_or in Hout. by apply Hidle in Hout. }
  assert (Hrise := event_rises _ _ _ _ Hs Hpwf). cbn [st_pool] in Hrise.
  assert (Hquiet : ~ mints_here mint auth instr accounts -> sp_pool_total p <= sp_pool_total (st_pool st') -> margin_kept s' p m).
  { intros Hno Htot. eapply supply_margin; [|exact Hm|exact Hau|exact (proj1 Hst')|exact Hc|exact Htot].
    by eapply (instruction_supply NS NSYS). }
  assert (Huniq : sp_pool_total p <= sp_pool_total (st_pool st') -> forall q, pool_at s' kp q -> sp_pool_total p <= sp_pool_total q).
  { intros Htot q Hq. by rewrite (pool_at_inj _ _ _ _ Hq (proj1 Hst')). }
  assert (Hnone : minting_slots instr = None -> ~ mints_here mint auth instr accounts).
  { intros E (i & j & E' & _). congruence. }
  destruct ev; try subst instr; cbn [process_pool_instruction orderly state_slots fst] in *.
  - specialize (Htgt ltac:(by eexists) ltac:(done)). destruct Hord as [_ Hov].
    assert (Htot : sp_pool_total p <= sp_pool_total (st_pool st')).
    { apply Hrise. destruct Hov as [|Hov]; [by left|right]. by apply Hov; [|apply Hst']. }
    destruct (decide (slot_key (Some 8%nat) accounts = Some (sp_pool_mint p))) as [E|E].
    + destruct (deposit_books NS accounts s s' p l kp m Hr Hw Htgt Hne' Hp Hl' E Hid Hm') as (t & Ht & Hb).
      eapply books_minted_margin; [exact Hmint|exact Ht|exact HPr|exact Hb|by apply Huniq].
    + apply Hquiet; [|done]. intros (i & j & [= <- <-] & E' & _). congruence.
  - specialize (Htgt ltac:(by eexists) ltac:(done)).
    destruct (withdraw_books NS _ accounts s s' p l kp m Hr Hwf Hw Htgt Hne' Hp Hl' (eq_trans (Hord Htgt) (f_equal Some (eq_sym Hmint))) Hid Hm') as (t & Ht & Hb).
    by eapply books_burned_margin.
  - specialize (Htgt ltac:(by eexists) ltac:(done)). destruct Hord as [_ Hov].
    destruct (add_books NS accounts s s' p l kp m Hr Hw Htgt Hne' Hp Hl' Hid Hm') as (t & Ht & Hb).
    eapply books_minted_margin; [exact Hmint|exact Ht|exact HPr|exact Hb|apply Huniq, Hrise].
    destruct Hov as [|Hov]; [by left|right]. by apply Hov; [|apply Hst'].
  - specialize (Htgt ltac:(by eexists) ltac:(done)).
    destruct (remove_books NS accounts s s' p l kp m Hr Hw Htgt Hne' Hp Hl' Hid Hm') as (t & Ht & Hb).
    by eapply books_burned_margin.
  - apply Hquiet; [by apply Hnone|apply Hrise; by right].
  - apply Hquiet; [by apply Hnone|apply Hrise; by right].
  - apply Hquiet; [by apply Hnone|apply Hrise; by right].
  - apply Hquiet; [|apply Hrise; by right]. intros Hh. pose proof Hh as (i & j & Hslots & _).
    destruct (proj1 Hidle eq_refl) as [Hnp _]. destruct instr; try discriminate Hslots; cbn in Hord; [| |done];
      apply Hnp, (state_keys_in _ _ 0%nat); [by left|by apply Hord|by left|by apply Hord].
Qed.

(** ** The steps keep the pool covered *)
(** an address that has not signed does not stand for the minting authority *)
Lemma address_signs s accounts m :
  mint_authority m = Some auth -> cell_owner (get_cell s auth) <> spl_token_id ->
  (forall i, i ∈ accounts -> key i = auth -> is_signer i = false) -> ~ minting_signed (program_id:=spl_token_id) s accounts m.
Proof using Type.
  intros Ha Ho Hno (k & i & signers & Hk & Hin & Hkey & Hs). rewrite Ha in Hk. injection Hk as <-.
  rewrite bool_decide_eq_false_2 in Hs by congruence. cbn [andb] in Hs. by rewrite (Hno i Hin Hkey) in Hs.
Qed.
Lemma solvency_step_covered s s' st m :
  solvency_step s s' -> covered s st m -> exists st' m', covered s' st' m'.
Proof.
  intros [instr accounts input Hw Hin Hi Hg Hord Hr|accounts input Hw HK Ho Hno Hr|HK Hmint] Hc.
  - destruct st as [p l]. pose proof Hc as (Hst & Emint & Etok & _ & Hauth & Hle).
    assert (Hig : input_genuine s input accounts kp kl) by (intros i Hi'; rewrite Hi in Hi'; injection Hi' as <-; exact Hg).
    destruct (process_simulates accounts input s s' kp kl (mk_pstate p l) Hr Hw Hin Hne Hig Hst)
      as (_ & now & ev & st' & _ & _ & _ & Hst').
    unfold pool_process in Hr. apply stM_bind_Ok in Hr as (i & s1 & Hi' & Hr). apply lift_Ok in Hi' as [Hi' <-].
    rewrite Hi in Hi'. injection Hi' as <-.
    destruct (pool_tx_margin _ _ _ _ _ _ _ Hr (pool_instruction_deserialize_wf _ _ Hi) Hw Hin Hg Hord Hc)
      as (p' & m' & Hp' & Hcst & Hm' & Ha' & Hd).
    pose proof (pool_at_inj _ _ _ _ Hp' (proj1 Hst')) as Ep. injection Hcst as _ _ _ _ Em Et _. subst p'.
    exists st', m'. cbn in Emint, Etok, Hle. split; [exact Hst'|]. split; [congruence|]. split; [congruence|].
    split; [exact Hm'|]. split; [congruence|lia].
  - destruct Hc as (Hst & Emint & Etok & [Hmo Hm] & Hauth & Hle).
    pose proof (token_process_frame accounts input s (Ok tt) s' mint Hr) as [Hmo' _].
    apply token_process_inv in Hr as (instr & _ & Hi & Hr).
    destruct (instruction_keeps_mint _ _ _ _ _ _ _ Hr Hi Hw Hm (address_signs _ _ _ Hauth Ho Hno))
      as (m' & Hm' & Ha' & Hs'). exists st, m'. split; [by eapply idle_state|].
    split; [done|]. split; [done|].
    split; [split; [congruence|exact Hm']|]. split; [congruence|lia].
  - destruct Hc as (Hst & Emint & Etok & Hm & Hauth & Hle). destruct (Hmint m Hm) as (m' & Hm' & Ha' & Hs').
    exists st, m'. split; [by eapply idle_state|]. split; [done|]. split; [done|].
    split; [exact Hm'|]. split; [congruence|lia].
Qed.
Lemma covered_redeems s st m x :
  covered s st m -> calc_lamports_amount (st_pool st) (mint_supply m) = Some x -> x <= sp_stake_total (st_pool st).
Proof using Type.
  intros (Hst & _ & _ & [_ Hm] & _ & Hle) Hx. pose proof (pool_at_wf _ _ _ (proj1 Hst)) as (_ & _ & _ & HS & HP & _).
  pose proof (decodes_wf _ _ _ (proj1 Hm)) as [Hs _]. unfold calc_lamports_amount in Hx. unfold u64_range in *.
  apply mul_div_bounds in Hx as (? & ? & ?); [|lia..]. nia.
Qed.

Lemma chain_covered s s' st m :
  rtc solvency_step s s' -> covered s st m ->
  exists st' m', covered s' st' m' /\
    forall x, calc_lamports_amount (st_pool st') (mint_supply m') = Some x -> x <= sp_stake_total (st_pool st').
Proof.
  intros Hr. revert st m. induction Hr as [s|s s1 s2 H1 _ IH]; intros st m Hc.
  - exists st, m. split; [exact Hc|]. intros x. by apply (covered_redeems s).
  - destruct (solvency_step_covered _ _ _ _ H1 Hc) as (st1 & m1 & Hc1). exact (IH _ _ Hc1).
Qed.

(** C7: solvency along a chain, in any build. Let no more of the pool's tokens
    exist than the pool has counted, and let only its withdraw address be
    allowed to mint them. Then the same holds after any sequence of steps, each
    one of: a successful instruction of the pool's program, any of the twelve,
    for this pool or another, passed no impostor as its pool, such that a
    withdrawal from this pool burns this pool's token, this pool's mint is
    passed together with its withdraw address for minting to this pool's
    instructions only, and minting does not wrap the count around (no build
    with overflow checks does); an instruction of the token program that the
    withdraw address, which is no multisig, has not signed; or a step of other
    programs that leaves the pool's accounts alone, and the authority over the
    mint, and does not raise its supply. All the tokens in existence then
    together redeem for no more than the lamports the pool manages. *)
Theorem tokens_always_covered s s' st m :
  rtc solvency_step s s' -> covered s st m ->
  exists st' m', covered s' st' m' /\
    forall x, calc_lamports_amount (st_pool st') (mint_supply m') = Some x -> x <= sp_stake_total (st_pool st').
Proof. apply chain_covered. Qed.
End Chain.

(** ** A chain of two transactions *)
Section Witness.
#[local] Existing Instances model_sdk model_sdk_laws model_bincode zero_padding debug_build.
#[local] Existing Instances token_runtime token_runtime_own token_runtime_runs.
Lemma books_state : pool_state_at PID KP KL books_store (mk_pstate the_pool the_list).
Proof.
  split; [exact books_pool_at|]. split; [exact books_list_at|].
  do 3 (split; [reflexivity|]). split; [vm_compute; reflexivity|]. split; [vm_compute; reflexivity|].
  rewrite books_cell by (by vm_compute). exact (proj2 (proj2 (proj2 (proj2 (proj2 (proj2 (proj2 the_state_at))))))).
Qed.
Lemma books_covered :
  covered (program_id:=PID) KP KL MINT WITHDRAW_AUTH books_store (mk_pstate the_pool the_list) (token_mint WITHDRAW_AUTH 1500).
Proof.
  split; [exact books_state|]. split; [reflexivity|]. split; [reflexivity|].
  split; [split; [vm_compute; reflexivity|split; [split|]; vm_compute; reflexivity]|]. split; [reflexivity|].
  cbn. lia.
Qed.
(** the depositor moves no tokens to itself *)
Definition self_transfer : list AccountInfo := [info USER_TOKENS; info USER_TOKENS; signer USER].
Lemma self_transfer_idle i j auth_i u s s' :
  token_process spl_token_id [i; j; auth_i] (token_pack (Transfer 0)) s = (Ok u, s') -> key i = key j -> s' = s.
Proof.
  intros Hr Hk. apply token_process_inv in Hr as (instr & Hu & _ & Hr).
  assert (E : token_unpack (token_pack (Transfer 0)) = Ok (Transfer 0)) by (vm_compute; reflexivity).
  rewrite E in Hu. injection Hu as <-. cbn [process_token_instruction] in Hr.
  destruct (transfer_run _ _ _ _ _ _ Hr (Z.le_refl 0)) as (si & mi & di & ai & sg & a & b & Ha & _ & _ & _ & _ & _ & _ & _ & _ & Hc).
  cbn [mint_slot app] in Ha. injection Ha as <- <- _ _. by rewrite decide_True in Hc.
Qed.
Lemma self_transfer_ok : (token_process spl_token_id self_transfer (token_pack (Transfer 0)) books_store).1 = Ok tt.
Proof. vm_compute. reflexivity. Qed.
Lemma self_transfer_runs :
  token_process spl_token_id self_transfer (token_pack (Transfer 0)) books_store = (Ok tt, books_store).
Proof.
  pose proof (run_pair _ _ _ self_transfer_ok) as Hr.
  exact (eq_trans Hr (f_equal (pair (Ok tt)) (self_transfer_idle _ _ _ _ _ _ Hr eq_refl))).
Qed.
Lemma token_tx : solvency_step (program_id:=PID) KP KL MINT WITHDRAW_AUTH books_store books_store.
Proof.
  apply (TokenTx _ _ _ _ _ _ self_transfer (token_pack (Transfer 0))); [exact books_store_wf|reflexivity| | |exact self_transfer_runs].
  - by vm_compute.
  - intros i Hi Hk. unfold self_transfer in Hi. repeat (apply elem_of_cons in Hi as [->|Hi]); [done|done| |by apply elem_of_nil in Hi].
    exfalso. revert Hk. by vm_compute.
Qed.
Lemma deposit_tx s' :
  pool_process PID deposit_accounts deposit_input books_store = (Ok tt, s') ->
  solvency_step (program_id:=PID) KP KL MINT WITHDRAW_AUTH books_store s'.
Proof.
  intros Hr. apply (PoolTx KP KL MINT WITHDRAW_AUTH books_store s' Deposit deposit_accounts deposit_input books_store_wf
    pid_not_passed deposit_input_ok (deposit_genuine _ _ deposit_input_ok)); [|exact Hr].
  split; [intros _; reflexivity|left; reflexivity].
Qed.
Lemma system_not_token : system_program_id <> spl_token_id.
Proof. by vm_compute. Qed.
Lemma tokens_always_covered_witness :
  exists s' st' m', pool_process PID deposit_accounts deposit_input books_store = (Ok tt, s') /\
    covered (program_id:=PID) KP KL MINT WITHDRAW_AUTH s' st' m' /\
    forall x, calc_lamports_amount (st_pool st') (mint_supply m') = Some x -> x <= sp_stake_total (st_pool st').
Proof.
  pose proof (token_runtime_frame PID pid_not_token) as Hrt. destruct books_deposit_runs as [s' Hr].
  destruct (tokens_always_covered (SDK:=model_sdk) (RT:=token_runtime) (BP:=debug_build) (program_id:=PID)
    stake_not_token system_not_token KP KL MINT WITHDRAW_AUTH KP_KL books_store s'
    (mk_pstate the_pool the_list) (token_mint WITHDRAW_AUTH 1500)
    (rtc_l _ _ _ _ token_tx (rtc_once _ _ (deposit_tx s' Hr))) books_covered) as (st' & m' & Hc & Hx).
  exists s', st', m'. split; [exact Hr|]. split; [exact Hc|exact Hx].
Defined.
End Witness.
