(* ===== verification/Client.v ===== *)
(** * The command-line clients' common part

    The two clients, [cli/src/main.rs] and [metacli/src/main.rs], read the
    chain through an RPC client, assemble instructions and sign a transaction.
    The RPC client, key generation and the transaction type belong to other
    crates: they are the operations of the class [Client], which act on an
    outside world of its own, and what the theorems need of them is the class
    [ClientLaws].  This file models the helpers the two programs share; their
    commands are in [Cli] and [MetaCli]. *)
From S2P Require Import Prelude Machine Sdk TokenInstruction TokenState TokenProcessor.
From S2P Require Import PoolInstruction PoolState StakeProgram PoolProcessor.

(** ** Errors: the messages a command can end with *)
Inductive ClientError :=
| RpcError
| ProgramFailed (e : ProgramError)
| FeePayerInsufficientBalance (who : Pubkey) (required available : Z)
| OwnerInsufficientBalance (who : Pubkey) (required available : Z)
| NoAccountsFound
| WrongTokenAccount
| NotEnoughBalanceToBurn (needed : Z)
| InvalidStakeAccountData
| WrongStakeAccountState
| ValidatorNotInPool
| NotEnoughTokenBalance (amount available : Z)
| NotEnoughStake (amount : Z)
| NotATokenAccount (k : Pubkey)
| FeeReceiverOfDifferentMint
| BadArgument (name : string).

(** ** The crates the clients call *)
Class Client := {
  (** the network and the source of fresh keys *)
  World : Type;
  Signer : Type;
  signer_pubkey : Signer -> Pubkey;
  Blockhash : Type;
  FeeCalculator : Type;
  Transaction : Type;
  (** [Keypair::new()] *)
  keypair_new : stM World ClientError Signer;
  (** the methods of [RpcClient] *)
  rpc_get_balance : Pubkey -> stM World ClientError Z;
  rpc_get_account : Pubkey -> stM World ClientError Cell;
  rpc_get_account_data : Pubkey -> stM World ClientError (list byte);
  rpc_get_minimum_balance : Z -> stM World ClientError Z;
  rpc_get_recent_blockhash : stM World ClientError (Blockhash * FeeCalculator);
  rpc_get_epoch : stM World ClientError Z;
  (** [get_program_accounts_with_config] with a [Memcmp] filter *)
  rpc_get_program_accounts_memcmp : Pubkey -> Z -> list byte -> stM World ClientError (list (Pubkey * Cell));
  rpc_send_and_confirm : Transaction -> stM World ClientError unit;
  (** [fee_calculator.calculate_fee(&transaction.message())] *)
  calculate_fee : FeeCalculator -> Transaction -> Z;
  (** [Transaction::new_with_payer] and [Transaction::sign], which may panic *)
  new_with_payer : list Instruction -> Pubkey -> Transaction;
  transaction_sign : Transaction -> list Signer -> Blockhash -> outcome ClientError Transaction;
  (** the instructions of a transaction's message *)
  tx_instructions : Transaction -> list Instruction;
  (** [native_token::sol_to_lamports] *)
  sol_to_lamports : f64 -> Z;
}.

Abbreviation CM := (stM World ClientError).
Abbreviation client_result := (outcome ClientError).

(** What the commands rely on, for a view [chain] of the world as the accounts
    the RPC node serves: while a command runs the node serves one state of the
    chain, its answers are that state's, a transaction carries the instructions
    it was made of, and [Rent] and [Clock] values are [u64]s. *)
Class ClientLaws (CL : Client) (SDK : SolanaSdk) (chain : World -> Store) : Prop := {
  keypair_new_chain w r w' : keypair_new w = (r, w') -> chain w' = chain w;
  rpc_get_balance_chain k w r w' : rpc_get_balance k w = (r, w') -> chain w' = chain w;
  rpc_get_account_chain k w r w' : rpc_get_account k w = (r, w') -> chain w' = chain w;
  rpc_get_account_data_chain k w r w' : rpc_get_account_data k w = (r, w') -> chain w' = chain w;
  rpc_get_minimum_balance_chain n w r w' : rpc_get_minimum_balance n w = (r, w') -> chain w' = chain w;
  rpc_get_recent_blockhash_chain w r w' : rpc_get_recent_blockhash w = (r, w') -> chain w' = chain w;
  rpc_get_epoch_chain w r w' : rpc_get_epoch w = (r, w') -> chain w' = chain w;
  rpc_get_program_accounts_chain k z d w r w' :
    rpc_get_program_accounts_memcmp k z d w = (r, w') -> chain w' = chain w;
  rpc_get_account_spec k w c w' : rpc_get_account k w = (Ok c, w') -> get_cell (chain w) k = c;
  rpc_get_account_data_spec k w d w' :
    rpc_get_account_data k w = (Ok d, w') -> cell_data (get_cell (chain w) k) = d;
  (** the node's epoch is the [Clock] sysvar's *)
  rpc_get_epoch_spec w e w' i :
    rpc_get_epoch w = (Ok e, w') -> key i = clock_id ->
    clock_from_account_info i (get_cell (chain w) clock_id) = Ok (mk_clock e);
  tx_instructions_new ixs payer : tx_instructions (new_with_payer ixs payer) = ixs;
  tx_instructions_sign tx signers h tx' :
    transaction_sign tx signers h = Ok tx' -> tx_instructions tx' = tx_instructions tx;
}.

(** [result.unwrap()], on a result and on the result of a query *)
Definition unwrap_result {E E' A} (m : outcome E A) : outcome E' A := match m with Ok a => Ok a | _ => Panic end.
Definition unwrap_query {S E A} (m : stM S E A) : stM S E A := fun s => let '(r, s') := m s in (unwrap_result r, s').
(** [?] on a result of the programs' crates *)
Definition try_program {A} (m : result A) : client_result A := map_err ProgramFailed m.

(** ** Sorting and chunks of the standard library *)
(** a stable sort: [leb x y] says that [x] may stay before [y] *)
Fixpoint insert_by {A} (leb : A -> A -> bool) (x : A) (l : list A) : list A :=
  match l with
  | [] => [x]
  | y :: l' => if leb x y then x :: y :: l' else y :: insert_by leb x l'
  end.
Definition sort_by {A} (leb : A -> A -> bool) (l : list A) : list A := foldr (insert_by leb) [] l.
(** [vec.dedup()]: of each run of equal elements the first stays *)
Fixpoint dedup_by {A} (eqb : A -> A -> bool) (l : list A) : list A :=
  match l with
  | x :: l' =>
      match dedup_by eqb l' with
      | y :: l'' => if eqb x y then x :: l'' else x :: y :: l''
      | [] => [x]
      end
  | [] => []
  end.
(** [slice.chunks(n)] *)
Fixpoint chunks_fuel {A} (fuel n : nat) (l : list A) : list (list A) :=
  match fuel, l with
  | S fuel, _ :: _ => take n l :: chunks_fuel fuel n (drop n l)
  | _, _ => []
  end.
Definition chunks {A} (n : nat) (l : list A) : list (list A) := chunks_fuel (length l) n l.
(** the order of [Pubkey]s: their bytes, lexicographically *)
Fixpoint bytes_leb (a b : list byte) : bool :=
  match a, b with
  | [], _ => true
  | _ :: _, [] => false
  | x :: a', y :: b' =>
      if u8_of_byte x <? u8_of_byte y then true else if u8_of_byte y <? u8_of_byte x then false else bytes_leb a' b'
  end.
Definition pubkey_leb (a b : Pubkey) : bool := bytes_leb (to_bytes a) (to_bytes b).

Definition STAKE_STATE_LEN : Z := 200.
Definition MAX_ACCOUNTS_TO_UPDATE : nat := 10.

Section Helpers.
Context `{SDK : SolanaSdk} `{CL : Client} `{BC : Bincode} `{BP : BuildProfile}.

(** [spl_stake_pool::id()] *)
Definition spl_stake_pool_id : Pubkey := declare_id "E2wGYXEPw46FdJWL1MfRoN3JhQY4w6Dmaz9s4ehV2483".
Definition MIN_STAKE_BALANCE : Z := one_sol.

(** the macro [unique_signers!] *)
Definition unique_signers (signers : list Signer) : list Signer :=
  dedup_by (fun a b => bool_decide (signer_pubkey a = signer_pubkey b))
    (sort_by (fun a b => pubkey_leb (signer_pubkey a) (signer_pubkey b)) signers).

Definition check_fee_payer_balance (fee_payer : Signer) (required_balance : Z) : CM unit :=
  balance ← rpc_get_balance (signer_pubkey fee_payer);
  fail_if (balance <? required_balance)
    (FeePayerInsufficientBalance (signer_pubkey fee_payer) required_balance balance).
Definition _check_owner_balance (owner : Signer) (required_balance : Z) : CM unit :=
  balance ← rpc_get_balance (signer_pubkey owner);
  fail_if (balance <? required_balance)
    (OwnerInsufficientBalance (signer_pubkey owner) required_balance balance).

(** the stake accounts whose withdrawer, at offset 44, is [authority] *)
Definition get_authority_accounts (authority : Pubkey) : CM (list (Pubkey * Cell)) :=
  unwrap_query (rpc_get_program_accounts_memcmp stake_program_id 44 (to_bytes authority)).

(** [handler] is called with the rent of a created account and acts on the
    caller's variables *)
Definition unwrap_create_token_account {V} (owner fee_payer : Signer) (token_optional : option Pubkey)
    (keypair : Signer) (mint : Pubkey) (instructions : list Instruction)
    (handler : Z -> V -> client_result V) (vars : V) : CM (Pubkey * list Instruction * V) :=
  match token_optional with
  | Some value => mret (value, instructions, vars)
  | None =>
      min_account_balance ← rpc_get_minimum_balance (Z.of_nat ACCOUNT_LEN);
      init ← lift (try_program (initialize_account spl_token_id (signer_pubkey keypair) mint (signer_pubkey owner)));
      let instructions := instructions ++
        [ system_create_account (signer_pubkey fee_payer) (signer_pubkey keypair) min_account_balance
            (Z.of_nat ACCOUNT_LEN) spl_token_id;
          init ] in
      vars ← lift (handler min_account_balance vars);
      mret (signer_pubkey keypair, instructions, vars)
  end.

(** ** Conversions: [u128] products, the quotient cut to 64 bits *)
Definition client_mul_div (a b c : Z) : client_result Z :=
  product ← unwrap (checked_mul128 a b);
  quotient ← unwrap (checked_div128 product c);
  Ok (wrap 64 quotient).
Definition stake_amount_to_pool_tokens (pool_data : StakePool) (amount : Z) : client_result Z :=
  client_mul_div amount (sp_pool_total pool_data) (sp_stake_total pool_data).
Definition pool_tokens_to_stake_amount (pool_data : StakePool) (tokens : Z) : client_result Z :=
  client_mul_div tokens (sp_stake_total pool_data) (sp_pool_total pool_data).

(** ** Picking the stake accounts to withdraw from *)
Record WithdrawAccount := mk_withdraw_account { wa_pubkey : Pubkey; wa_account : Cell; wa_amount : Z }.

(** the loop over the sorted accounts: the accounts picked so far, the amount
    that remains *)
Fixpoint pick_loop (min_balance : Z) (accounts : list (Pubkey * Cell)) (withdraw_from : list WithdrawAccount)
    (remaining_amount : Z) : client_result (list WithdrawAccount * Z) :=
  match accounts with
  | [] => Ok (withdraw_from, remaining_amount)
  | (pubkey, account) :: accounts =>
      if cell_lamports account <=? min_balance then pick_loop min_balance accounts withdraw_from remaining_amount
      else
        available_for_withdrawal ← plain_sub (cell_lamports account) MIN_STAKE_BALANCE;
        let withdraw_amount := Z.min available_for_withdrawal remaining_amount in
        let withdraw_from := withdraw_from ++ [mk_withdraw_account pubkey account withdraw_amount] in
        remaining_amount ← plain_sub remaining_amount withdraw_amount;
        if remaining_amount =? 0 then Ok (withdraw_from, remaining_amount)
        else pick_loop min_balance accounts withdraw_from remaining_amount
  end.
Definition pick_withdraw_accounts (accounts : list (Pubkey * Cell)) (amount min_balance : Z) :
    client_result (list WithdrawAccount) :=
  let accounts := sort_by (fun a b => cell_lamports b.2 <=? cell_lamports a.2) accounts in
  '(withdraw_from, remaining_amount) ← pick_loop min_balance accounts [] amount;
  _ ← err_if (0 <? remaining_amount) (NotEnoughStake amount);
  Ok withdraw_from.
Definition prepare_withdraw_accounts (pool_withdraw_authority : Pubkey) (amount : Z) : CM (list WithdrawAccount) :=
  accounts ← get_authority_accounts pool_withdraw_authority;
  fail_if (bool_decide (accounts = [])) NoAccountsFound;;
  rent ← rpc_get_minimum_balance STAKE_STATE_LEN;
  min_balance ← lift (plain_add rent 1);
  lift (pick_withdraw_accounts accounts amount min_balance).

(** the record a query reads at a key, as [StakePool::deserialize(..).unwrap()] *)
Definition rpc_get_pool `{PAD : StructPadding} (pool : Pubkey) : CM StakePool :=
  pool_data ← rpc_get_account_data pool;
  lift (unwrap_result (stake_pool_deserialize pool_data)).
End Helpers.
