(* ===== verification/Cli.v ===== *)
(** * The stake pool's command-line client

    The commands of [cli/src/main.rs]: what each reads from the chain, the
    instructions it assembles, who signs, and the dispatch of [main] after the
    arguments are parsed. Printing is left out. *)
From S2P Require Import Prelude Machine Sdk TokenInstruction TokenState TokenProcessor.
From S2P Require Import PoolInstruction PoolState StakeProgram PoolProcessor Client.

(** [owner] and [fee_payer]; the RPC client is the class [Client] *)
Record Config `{CL : Client} := mk_config { verbose : bool; cfg_owner : Signer; cfg_fee_payer : Signer }.

#[global] Arguments mk_config {CL}.

(** the subcommands of [main] with their parsed arguments *)
Inductive CliCommand :=
| CreatePool (numerator denominator : Z)
| CreateValidatorStake (pool validator : Pubkey)
| AddValidatorStake (pool stake : Pubkey) (token_receiver : option Pubkey)
| RemoveValidatorStake (pool stake burn_from : Pubkey) (new_authority : option Pubkey)
| CliDeposit (pool stake : Pubkey) (token_receiver : option Pubkey)
| CliList (pool : Pubkey)
| CliUpdate (pool : Pubkey)
| CliWithdraw (pool : Pubkey) (amount : f64) (burn_from : Pubkey) (stake_receiver : option Pubkey)
| SetStakingAuth (pool stake_account new_staker : Pubkey)
| CliSetOwner (pool : Pubkey) (new_owner new_fee_receiver : option Pubkey).

Section Cli.
Context `{SDK : SolanaSdk} `{CL : Client} `{BC : Bincode} `{PAD : StructPadding} `{BP : BuildProfile}.
Implicit Types (config : Config) (pool stake : Pubkey).

(** [DECIMALS] of the native mint *)
Definition native_decimals : Z := 9.
Definition owner_pubkey config : Pubkey := signer_pubkey (cfg_owner config).
Definition fee_payer_pubkey config : Pubkey := signer_pubkey (cfg_fee_payer config).

Definition command_create_pool config (fee : Fee) : CM (option Transaction) :=
  mint_account ← keypair_new;
  pool_fee_account ← keypair_new;
  pool_account ← keypair_new;
  validator_stake_list ← keypair_new;
  mint_account_balance ← rpc_get_minimum_balance (Z.of_nat MINT_LEN);
  pool_fee_account_balance ← rpc_get_minimum_balance (Z.of_nat ACCOUNT_LEN);
  pool_account_balance ← rpc_get_minimum_balance (Z.of_nat STAKE_POOL_LEN);
  validator_stake_list_balance ← rpc_get_minimum_balance (Z.of_nat VALIDATOR_STAKE_LIST_LEN);
  total ← lift (plain_add mint_account_balance pool_fee_account_balance);
  total ← lift (plain_add total pool_account_balance);
  total_rent_free_balances ← lift (plain_add total validator_stake_list_balance);
  let default_decimals := native_decimals in
  let '(withdraw_authority, _) :=
    find_authority_bump_seed spl_stake_pool_id (signer_pubkey pool_account) AUTHORITY_WITHDRAW in
  init_mint ← lift (try_program (initialize_mint spl_token_id (signer_pubkey mint_account) withdraw_authority None
                                   default_decimals));
  init_fee ← lift (try_program (initialize_account spl_token_id (signer_pubkey pool_fee_account)
                                  (signer_pubkey mint_account) (owner_pubkey config)));
  init_pool ← lift (try_program (initialize spl_stake_pool_id (signer_pubkey pool_account) (owner_pubkey config)
                                   (signer_pubkey validator_stake_list) (signer_pubkey mint_account)
                                   (signer_pubkey pool_fee_account) spl_token_id (mk_init_args fee)));
  let transaction := new_with_payer
    [ system_create_account (fee_payer_pubkey config) (signer_pubkey mint_account) mint_account_balance
        (Z.of_nat MINT_LEN) spl_token_id;
      system_create_account (fee_payer_pubkey config) (signer_pubkey pool_fee_account) pool_fee_account_balance
        (Z.of_nat ACCOUNT_LEN) spl_token_id;
      system_create_account (fee_payer_pubkey config) (signer_pubkey pool_account) pool_account_balance
        (Z.of_nat STAKE_POOL_LEN) spl_stake_pool_id;
      system_create_account (fee_payer_pubkey config) (signer_pubkey validator_stake_list) validator_stake_list_balance
        (Z.of_nat VALIDATOR_STAKE_LIST_LEN) spl_stake_pool_id;
      init_mint; init_fee; init_pool ]
    (fee_payer_pubkey config) in
  '(recent_blockhash, fee_calculator) ← rpc_get_recent_blockhash;
  required ← lift (plain_add total_rent_free_balances (calculate_fee fee_calculator transaction));
  check_fee_payer_balance (cfg_fee_payer config) required;;
  let signers := unique_signers [cfg_fee_payer config; pool_account; validator_stake_list; mint_account;
                                 pool_fee_account; cfg_owner config] in
  transaction ← lift (transaction_sign transaction signers recent_blockhash);
  mret (Some transaction).

Definition command_vsa_create config pool (validator : Pubkey) : CM (option Transaction) :=
  let '(stake_account, _) := find_stake_address_for_validator spl_stake_pool_id validator pool in
  create ← lift (try_program (create_validator_stake_account spl_stake_pool_id pool (fee_payer_pubkey config)
    stake_account validator (owner_pubkey config) (owner_pubkey config) system_program_id stake_program_id));
  let transaction := new_with_payer [create] (fee_payer_pubkey config) in
  '(recent_blockhash, fee_calculator) ← rpc_get_recent_blockhash;
  check_fee_payer_balance (cfg_fee_payer config) (calculate_fee fee_calculator transaction);;
  transaction ← lift (transaction_sign transaction [cfg_fee_payer config] recent_blockhash);
  mret (Some transaction).

(** the closure passed to [unwrap_create_token_account]: the new account signs
    and its rent is added to the total *)
Definition add_token_receiver (token_receiver_account : Signer) (balance : Z) (vars : list Signer * Z) :
    client_result (list Signer * Z) :=
  let '(signers, total_rent_free_balances) := vars in
  total ← plain_add total_rent_free_balances balance;
  Ok (signers ++ [token_receiver_account], total).

Definition command_vsa_add config pool stake (token_receiver : option Pubkey) : CM (option Transaction) :=
  pool_data ← rpc_get_pool pool;
  token_receiver_account ← keypair_new;
  let signers := [cfg_fee_payer config; cfg_owner config] in
  '(token_receiver, instructions, (signers, total_rent_free_balances)) ←
    unwrap_create_token_account (cfg_owner config) (cfg_fee_payer config) token_receiver token_receiver_account
      (sp_pool_mint pool_data) [] (add_token_receiver token_receiver_account) (signers, 0);
  pool_deposit_authority ←
    lift (unwrap_result (authority_id spl_stake_pool_id pool AUTHORITY_DEPOSIT (sp_deposit_bump_seed pool_data)));
  pool_withdraw_authority ←
    lift (unwrap_result (authority_id spl_stake_pool_id pool AUTHORITY_WITHDRAW (sp_withdraw_bump_seed pool_data)));
  add ← lift (try_program (add_validator_stake_account spl_stake_pool_id pool (owner_pubkey config)
    pool_deposit_authority pool_withdraw_authority (sp_validator_stake_list pool_data) stake token_receiver
    (sp_pool_mint pool_data) spl_token_id stake_program_id));
  let instructions := instructions ++
    [ authorize stake (owner_pubkey config) pool_deposit_authority Withdrawer;
      authorize stake (owner_pubkey config) pool_deposit_authority Staker;
      add ] in
  let transaction := new_with_payer instructions (fee_payer_pubkey config) in
  '(recent_blockhash, fee_calculator) ← rpc_get_recent_blockhash;
  required ← lift (plain_add total_rent_free_balances (calculate_fee fee_calculator transaction));
  check_fee_payer_balance (cfg_fee_payer config) required;;
  transaction ← lift (transaction_sign transaction (unique_signers signers) recent_blockhash);
  mret (Some transaction).

Definition command_vsa_remove config pool stake (burn_from : Pubkey) (new_authority : option Pubkey) :
    CM (option Transaction) :=
  pool_data ← rpc_get_pool pool;
  pool_withdraw_authority ←
    lift (unwrap_result (authority_id spl_stake_pool_id pool AUTHORITY_WITHDRAW (sp_withdraw_bump_seed pool_data)));
  let new_authority := default (owner_pubkey config) new_authority in
  stake_account ← rpc_get_account stake;
  tokens_to_burn ← lift (stake_amount_to_pool_tokens pool_data (cell_lamports stake_account));
  account_data ← rpc_get_account_data burn_from;
  account_data ← lift (unwrap_result (account_unpack_from_slice account_data));
  fail_if (negb (bool_decide (acc_mint account_data = sp_pool_mint pool_data))) WrongTokenAccount;;
  fail_if (acc_amount account_data <? tokens_to_burn) (NotEnoughBalanceToBurn tokens_to_burn);;
  approve_ix ← lift (try_program (approve spl_token_id burn_from pool_withdraw_authority (owner_pubkey config) []
    tokens_to_burn));
  remove ← lift (try_program (remove_validator_stake_account spl_stake_pool_id pool (owner_pubkey config)
    pool_withdraw_authority new_authority (sp_validator_stake_list pool_data) stake burn_from
    (sp_pool_mint pool_data) spl_token_id stake_program_id));
  let transaction := new_with_payer [approve_ix; remove] (fee_payer_pubkey config) in
  '(recent_blockhash, fee_calculator) ← rpc_get_recent_blockhash;
  check_fee_payer_balance (cfg_fee_payer config) (calculate_fee fee_calculator transaction);;
  transaction ← lift (transaction_sign transaction [cfg_fee_payer config; cfg_owner config] recent_blockhash);
  mret (Some transaction).

Definition command_deposit config pool stake (token_receiver : option Pubkey) : CM (option Transaction) :=
  pool_data ← rpc_get_pool pool;
  stake_data ← rpc_get_account_data stake;
  stake_data ← lift (ok_or InvalidStakeAccountData (bincode_deserialize stake_data));
  validator ← match stake_data with
              | StakeStake _ stake => mret (voter_pubkey (stake_delegation stake))
              | _ => throw WrongStakeAccountState
              end;
  validator_stake_list_data ← rpc_get_account_data (sp_validator_stake_list pool_data);
  validator_stake_list_data ← lift (try_program (validator_stake_list_deserialize validator_stake_list_data));
  fail_if (negb (vsl_contains validator_stake_list_data validator)) ValidatorNotInPool;;
  let '(validator_stake_account, _) := find_stake_address_for_validator spl_stake_pool_id validator pool in
  let signers := [cfg_fee_payer config; cfg_owner config] in
  token_receiver_account ← keypair_new;
  '(token_receiver, instructions, (signers, total_rent_free_balances)) ←
    unwrap_create_token_account (cfg_owner config) (cfg_fee_payer config) token_receiver token_receiver_account
      (sp_pool_mint pool_data) [] (add_token_receiver token_receiver_account) (signers, 0);
  pool_deposit_authority ←
    lift (unwrap_result (authority_id spl_stake_pool_id pool AUTHORITY_DEPOSIT (sp_deposit_bump_seed pool_data)));
  pool_withdraw_authority ←
    lift (unwrap_result (authority_id spl_stake_pool_id pool AUTHORITY_WITHDRAW (sp_withdraw_bump_seed pool_data)));
  join ← lift (try_program (deposit spl_stake_pool_id pool (sp_validator_stake_list pool_data)
    pool_deposit_authority pool_withdraw_authority stake validator_stake_account token_receiver
    (sp_owner_fee_account pool_data) (sp_pool_mint pool_data) spl_token_id stake_program_id));
  let instructions := instructions ++
    [ authorize stake (owner_pubkey config) pool_deposit_authority Withdrawer;
      authorize stake (owner_pubkey config) pool_deposit_authority Staker;
      join ] in
  let transaction := new_with_payer instructions (fee_payer_pubkey config) in
  '(recent_blockhash, fee_calculator) ← rpc_get_recent_blockhash;
  required ← lift (plain_add total_rent_free_balances (calculate_fee fee_calculator transaction));
  check_fee_payer_balance (cfg_fee_payer config) required;;
  transaction ← lift (transaction_sign transaction (unique_signers signers) recent_blockhash);
  mret (Some transaction).

Definition command_list config pool : CM (option Transaction) :=
  pool_data ← rpc_get_pool pool;
  pool_withdraw_authority ←
    lift (unwrap_result (authority_id spl_stake_pool_id pool AUTHORITY_WITHDRAW (sp_withdraw_bump_seed pool_data)));
  accounts ← get_authority_accounts pool_withdraw_authority;
  fail_if (bool_decide (accounts = [])) NoAccountsFound;;
  _ ← lift (fold_outcome (fun total_balance (a : Pubkey * Cell) => plain_add total_balance (cell_lamports a.2)) 0 accounts);
  mret None.

(** the records older than the epoch *)
Definition accounts_to_update (epoch : Z) (validators : list ValidatorStakeInfo) : list Pubkey :=
  vsi_validator_account <$> filter (fun item => ~ epoch <= vsi_last_update_epoch item) validators.
(** [update_list_balance(..)?] for each chunk *)
Fixpoint update_instructions (validator_stake_list : Pubkey) (accounts : list (list Pubkey)) :
    client_result (list Instruction) :=
  match accounts with
  | [] => Ok []
  | chunk :: accounts =>
      ix ← try_program (update_list_balance spl_stake_pool_id validator_stake_list chunk);
      instructions ← update_instructions validator_stake_list accounts;
      Ok (ix :: instructions)
  end.
Definition command_update config pool : CM (option Transaction) :=
  pool_data ← rpc_get_pool pool;
  validator_stake_list_data ← rpc_get_account_data (sp_validator_stake_list pool_data);
  validator_stake_list_data ← lift (try_program (validator_stake_list_deserialize validator_stake_list_data));
  epoch ← rpc_get_epoch;
  let accounts_to_update := accounts_to_update epoch (vsl_validators validator_stake_list_data) in
  instructions ← lift (update_instructions (sp_validator_stake_list pool_data)
                         (chunks MAX_ACCOUNTS_TO_UPDATE accounts_to_update));
  if bool_decide (instructions = []) then mret None
  else
    last ← lift (try_program (update_pool_balance spl_stake_pool_id pool (sp_validator_stake_list pool_data)));
    let instructions := instructions ++ [last] in
    let transaction := new_with_payer instructions (fee_payer_pubkey config) in
    '(recent_blockhash, fee_calculator) ← rpc_get_recent_blockhash;
    check_fee_payer_balance (cfg_fee_payer config) (calculate_fee fee_calculator transaction);;
    transaction ← lift (transaction_sign transaction [cfg_fee_payer config] recent_blockhash);
    mret (Some transaction).

(** the variables of the withdrawal loop *)
Record WithdrawVars := mk_withdraw_vars {
  wv_instructions : list Instruction; wv_signers : list Signer; wv_total : Z; wv_receiver : option Pubkey }.
(** one iteration: the account that receives the stake is created once *)
Definition withdraw_from_account config pool (pool_data : StakePool) (pool_withdraw_authority burn_from : Pubkey)
    (stake_receiver_account : Signer) (vars : WithdrawVars) (withdraw_stake : WithdrawAccount) : CM WithdrawVars :=
  vars ←
    match wv_receiver vars with
    | Some _ => mret vars
    | None =>
        balance ← rpc_get_minimum_balance STAKE_STATE_LEN;
        let instructions := wv_instructions vars ++
          [system_create_account (fee_payer_pubkey config) (signer_pubkey stake_receiver_account) balance
             STAKE_STATE_LEN stake_program_id] in
        total ← lift (plain_add (wv_total vars) balance);
        mret (mk_withdraw_vars instructions (wv_signers vars ++ [stake_receiver_account]) total
                (Some (signer_pubkey stake_receiver_account)))
    end;
  stake_receiver ← lift (unwrap (wv_receiver vars));
  ix ← lift (try_program (withdraw spl_stake_pool_id pool (sp_validator_stake_list pool_data)
    pool_withdraw_authority (wa_pubkey withdraw_stake) stake_receiver (owner_pubkey config) burn_from
    (sp_pool_mint pool_data) spl_token_id stake_program_id (wa_amount withdraw_stake)));
  mret (mk_withdraw_vars (wv_instructions vars ++ [ix]) (wv_signers vars) (wv_total vars) (wv_receiver vars)).

Definition command_withdraw config pool (amount : Z) (burn_from : Pubkey) (stake_receiver_param : option Pubkey) :
    CM (option Transaction) :=
  pool_data ← rpc_get_pool pool;
  pool_withdraw_authority ←
    lift (unwrap_result (authority_id spl_stake_pool_id pool AUTHORITY_WITHDRAW (sp_withdraw_bump_seed pool_data)));
  account_data ← rpc_get_account_data burn_from;
  account_data ← lift (unwrap_result (account_unpack_from_slice account_data));
  fail_if (negb (bool_decide (acc_mint account_data = sp_pool_mint pool_data))) WrongTokenAccount;;
  fail_if (acc_amount account_data <? amount) (NotEnoughTokenBalance amount (acc_amount account_data));;
  sol_withdraw_amount ← lift (pool_tokens_to_stake_amount pool_data amount);
  withdraw_from ← prepare_withdraw_accounts pool_withdraw_authority sol_withdraw_amount;
  let signers := [cfg_fee_payer config; cfg_owner config] in
  stake_receiver_account ← keypair_new;
  approve_ix ← lift (try_program (approve spl_token_id burn_from pool_withdraw_authority (owner_pubkey config) []
    amount));
  vars ← foldM (withdraw_from_account config pool pool_data pool_withdraw_authority burn_from stake_receiver_account)
    (mk_withdraw_vars [approve_ix] signers 0 stake_receiver_param) withdraw_from;
  let transaction := new_with_payer (wv_instructions vars) (fee_payer_pubkey config) in
  '(recent_blockhash, fee_calculator) ← rpc_get_recent_blockhash;
  required ← lift (plain_add (wv_total vars) (calculate_fee fee_calculator transaction));
  check_fee_payer_balance (cfg_fee_payer config) required;;
  transaction ← lift (transaction_sign transaction (unique_signers (wv_signers vars)) recent_blockhash);
  mret (Some transaction).

Definition command_set_staking_auth config pool (stake_account new_staker : Pubkey) : CM (option Transaction) :=
  pool_data ← rpc_get_pool pool;
  pool_withdraw_authority ←
    lift (unwrap_result (authority_id spl_stake_pool_id pool AUTHORITY_WITHDRAW (sp_withdraw_bump_seed pool_data)));
  ix ← lift (try_program (set_staking_authority spl_stake_pool_id pool (owner_pubkey config) pool_withdraw_authority
    stake_account new_staker stake_program_id));
  let transaction := new_with_payer [ix] (fee_payer_pubkey config) in
  '(recent_blockhash, fee_calculator) ← rpc_get_recent_blockhash;
  check_fee_payer_balance (cfg_fee_payer config) (calculate_fee fee_calculator transaction);;
  let signers := [cfg_fee_payer config; cfg_owner config] in
  transaction ← lift (transaction_sign transaction (unique_signers signers) recent_blockhash);
  mret (Some transaction).

Definition command_set_owner config pool (new_owner new_fee_receiver : option Pubkey) : CM (option Transaction) :=
  pool_data ← rpc_get_pool pool;
  let new_owner := default (sp_owner pool_data) new_owner in
  new_fee_receiver ←
    match new_fee_receiver with
    | None => mret (sp_owner_fee_account pool_data)
    | Some value =>
        account_data ← rpc_get_account_data value;
        account_data ← lift (map_err (fun _ => NotATokenAccount value) (account_unpack_from_slice account_data));
        fail_if (negb (bool_decide (acc_mint account_data = sp_pool_mint pool_data))) FeeReceiverOfDifferentMint;;
        mret value
    end;
  ix ← lift (try_program (set_owner spl_stake_pool_id pool (owner_pubkey config) new_owner new_fee_receiver));
  let transaction := new_with_payer [ix] (fee_payer_pubkey config) in
  '(recent_blockhash, fee_calculator) ← rpc_get_recent_blockhash;
  check_fee_payer_balance (cfg_fee_payer config) (calculate_fee fee_calculator transaction);;
  let signers := [cfg_fee_payer config; cfg_owner config] in
  transaction ← lift (transaction_sign transaction (unique_signers signers) recent_blockhash);
  mret (Some transaction).

(** the dispatch of [main] on the parsed subcommand *)
Definition run_command config (command : CliCommand) : CM (option Transaction) :=
  match command with
  | CreatePool numerator denominator => command_create_pool config (mk_fee denominator numerator)
  | CreateValidatorStake pool_account validator_account => command_vsa_create config pool_account validator_account
  | AddValidatorStake pool_account stake_account token_receiver =>
      command_vsa_add config pool_account stake_account token_receiver
  | RemoveValidatorStake pool_account stake_account burn_from new_authority =>
      command_vsa_remove config pool_account stake_account burn_from new_authority
  | CliDeposit pool_account stake_account token_receiver =>
      command_deposit config pool_account stake_account token_receiver
  | CliList pool_account => command_list config pool_account
  | CliUpdate pool_account => command_update config pool_account
  | CliWithdraw pool_account amount burn_from stake_receiver =>
      command_withdraw config pool_account (sol_to_lamports amount) burn_from stake_receiver
  | SetStakingAuth pool_account stake_account new_staker =>
      command_set_staking_auth config pool_account stake_account new_staker
  | CliSetOwner pool_account new_owner new_fee_receiver =>
      command_set_owner config pool_account new_owner new_fee_receiver
  end.
(** a transaction is sent and confirmed; an error ends the process *)
Definition main config (command : CliCommand) : CM unit :=
  transaction ← run_command config command;
  match transaction with
  | Some transaction => rpc_send_and_confirm transaction
  | None => mret tt
  end.
End Cli.
