(* ===== verification/MetaCli.v ===== *)
(** * The MetaPool command-line client

    The commands of [metacli/src/main.rs], a copy of the stake pool's client
    that fixes the pool and adds the liquidity pool.  The helpers and commands
    it copies unchanged are the definitions of [Client] and [Cli] under names
    of their own; the ones it changes or adds are written out. *)
From S2P Require Import Prelude Machine Sdk TokenInstruction TokenState TokenProcessor.
From S2P Require Import PoolInstruction PoolState StakeProgram PoolProcessor Client Cli.

(** the fixed accounts *)
Record MetaConfig `{CL : Client} := mk_meta_config {
  base_config : Config;
  smart_pool_program_id : Pubkey;
  stake_pool_state_account : Pubkey;
  liq_pool_state_account : Pubkey;
  pda_liq_pool_authority : Pubkey;
  meta_lp_mint_account : Pubkey;
  st_sol_mint_account : Pubkey;
  liq_pool_wsol_account : Pubkey;
  liq_pool_stsol_account : Pubkey;
}.
#[global] Arguments mk_meta_config {CL}.
Inductive MetaCommand :=
| MetaCreateLiqPool
| MetaCreateValidatorStake (validator : Pubkey)
| MetaAddValidatorStake (stake : Pubkey) (token_receiver : option Pubkey)
| MetaRemoveValidatorStake (stake burn_from : Pubkey) (new_authority : option Pubkey)
| MetaDeposit (stake : Pubkey) (token_receiver : option Pubkey)
| MetaList
| MetaUpdate
| MetaUpdateForce
| MetaWithdraw (amount : f64) (burn_from : Pubkey) (stake_receiver : option Pubkey)
| MetaAddLiquidity (source : Pubkey) (amount : f64)
| MetaSell (amount : f64) (source : Pubkey)
| MetaSetStakingAuth (stake_account new_staker : Pubkey)
| MetaSetOwner (new_owner new_fee_receiver : option Pubkey).

Section MetaCli.
Context `{SDK : SolanaSdk} `{CL : Client} `{BC : Bincode} `{PAD : StructPadding} `{BP : BuildProfile}.
Implicit Types (config : MetaConfig) (pool stake : Pubkey).

Definition pubkey_from (str_pubkey : string) : Pubkey := declare_id str_pubkey.
Definition W_SOL_1111111_MINT_ACCOUNT : string := "So11111111111111111111111111111111111111112".
Definition SMART_POOL_PROGRAM_ACCOUNT_ID : string := "E2wGYXEPw46FdJWL1MfRoN3JhQY4w6Dmaz9s4ehV2483".
Definition STAKE_POOL_STATE_ACCOUNT : string := "C3WQybyZc45bhRP4PJnM7JhKQFXmqQR5eWr8n8Lxjgex".
Definition ST_SOL_MINT_ACCOUNT : string := "21ofzqmgounc8bX4CK6j3Ff4zjvX6GmRykUnJAU96zKz".
Definition LIQ_POOL_ACCOUNT : string := "rxTBFFRfwcgx5YedbwLcKntCwMs9tJoQvzYmRnbpLKS".
Definition LIQ_POOL_WSOL_ACCOUNT : string := "2G3TZSRxmPtuwrdcXMQMjzKdebSXuXrPaupVGzZ1Ssf3".
Definition LIQ_POOL_ST_SOL_ACCOUNT : string := "9ipM64eAyTtV5mY27qrdAe5x143QfcjuDRWp72EZBeez".
Definition META_LP_MINT_ACCOUNT : string := "EYbFdPKbRa3MxGxQy9YgFSFs7448Gq17fWRYSeNhVNtq".

(** the configuration [main] builds *)
Definition meta_config (base : Config) : MetaConfig :=
  let smart_pool_program_id := pubkey_from SMART_POOL_PROGRAM_ACCOUNT_ID in
  let liq_pool_state_account := pubkey_from LIQ_POOL_ACCOUNT in
  let '(pda_liq_pool_authority, _) :=
    find_authority_bump_seed smart_pool_program_id liq_pool_state_account AUTHORITY in
  mk_meta_config base smart_pool_program_id (pubkey_from STAKE_POOL_STATE_ACCOUNT) liq_pool_state_account
    pda_liq_pool_authority (pubkey_from META_LP_MINT_ACCOUNT) (pubkey_from ST_SOL_MINT_ACCOUNT)
    (pubkey_from LIQ_POOL_WSOL_ACCOUNT) (pubkey_from LIQ_POOL_ST_SOL_ACCOUNT).

(** ** The helpers, copied unchanged *)
Definition meta_STAKE_STATE_LEN : Z := STAKE_STATE_LEN.
Definition meta_MAX_ACCOUNTS_TO_UPDATE : nat := MAX_ACCOUNTS_TO_UPDATE.
Definition meta_MIN_STAKE_BALANCE : Z := MIN_STAKE_BALANCE.
Definition meta_unique_signers := unique_signers.
Definition meta_check_fee_payer_balance := check_fee_payer_balance.
Definition meta_check_owner_balance := _check_owner_balance.
Definition meta_get_authority_accounts := get_authority_accounts.
Definition meta_unwrap_create_token_account {V} := unwrap_create_token_account (V:=V).
Definition meta_stake_amount_to_pool_tokens := stake_amount_to_pool_tokens.
Definition meta_pool_tokens_to_stake_amount := pool_tokens_to_stake_amount.
Definition MetaWithdrawAccount : Type := WithdrawAccount.
Definition meta_pick_withdraw_accounts : list (Pubkey * Cell) -> Z -> Z -> client_result (list MetaWithdrawAccount) :=
  pick_withdraw_accounts.
Definition meta_prepare_withdraw_accounts : Pubkey -> Z -> CM (list MetaWithdrawAccount) := prepare_withdraw_accounts.

(** ** The unchanged commands *)
Definition meta_command_vsa_create config := command_vsa_create (base_config config).
Definition meta_command_vsa_add config := command_vsa_add (base_config config).
Definition meta_command_vsa_remove config := command_vsa_remove (base_config config).
Definition meta_command_withdraw config := command_withdraw (base_config config).
Definition meta_command_set_staking_auth config := command_set_staking_auth (base_config config).
Definition meta_command_set_owner config := command_set_owner (base_config config).

(** ** The liquidity pool *)
Definition command_create_liquidity_pool config : CM (option Transaction) :=
  let payer := fee_payer_pubkey (base_config config) in
  liq_pool_account ← keypair_new;
  mint_account_balance ← rpc_get_minimum_balance (Z.of_nat MINT_LEN);
  pool_fee_account_balance ← rpc_get_minimum_balance (Z.of_nat ACCOUNT_LEN);
  pool_account_balance ← rpc_get_minimum_balance (Z.of_nat STAKE_POOL_LEN);
  total ← lift (plain_add mint_account_balance pool_fee_account_balance);
  total_rent_free_balances ← lift (plain_add total pool_account_balance);
  let default_decimals := native_decimals in
  pool_wsol_account ← keypair_new;
  pool_st_sol_account ← keypair_new;
  meta_lp_mint_account ← keypair_new;
  init_wsol ← lift (try_program (initialize_account spl_token_id (signer_pubkey pool_wsol_account)
    (pubkey_from W_SOL_1111111_MINT_ACCOUNT) (pda_liq_pool_authority config)));
  init_st_sol ← lift (try_program (initialize_account spl_token_id (signer_pubkey pool_st_sol_account)
    (st_sol_mint_account config) (pda_liq_pool_authority config)));
  init_mint ← lift (try_program (initialize_mint spl_token_id (signer_pubkey meta_lp_mint_account)
    (pda_liq_pool_authority config) None default_decimals));
  let transaction := new_with_payer
    [ system_create_account payer (signer_pubkey liq_pool_account) pool_account_balance
        (Z.of_nat STAKE_POOL_LEN) spl_stake_pool_id;
      system_create_account payer (signer_pubkey pool_wsol_account) pool_fee_account_balance
        (Z.of_nat ACCOUNT_LEN) spl_token_id;
      system_create_account payer (signer_pubkey pool_st_sol_account) pool_fee_account_balance
        (Z.of_nat ACCOUNT_LEN) spl_token_id;
      init_wsol; init_st_sol;
      system_create_account payer (signer_pubkey meta_lp_mint_account) mint_account_balance
        (Z.of_nat MINT_LEN) spl_token_id;
      init_mint ]
    payer in
  '(recent_blockhash, fee_calculator) ← rpc_get_recent_blockhash;
  required ← lift (plain_add total_rent_free_balances (calculate_fee fee_calculator transaction));
  meta_check_fee_payer_balance (cfg_fee_payer (base_config config)) required;;
  let signers := meta_unique_signers [cfg_fee_payer (base_config config); liq_pool_account; meta_lp_mint_account;
                                 pool_st_sol_account; pool_wsol_account; cfg_owner (base_config config)] in
  transaction ← lift (transaction_sign transaction signers recent_blockhash);
  mret (Some transaction).

(** Unlike [Cli.command_deposit]: no change of the stake account's
    authorities, and the receiver is passed as the fee account too. *)
Definition meta_command_deposit config pool (stake_account : Pubkey) (token_receiver : option Pubkey) :
    CM (option Transaction) :=
  pool_data ← rpc_get_pool pool;
  stake_data ← rpc_get_account_data stake_account;
  stake_data ← lift (ok_or InvalidStakeAccountData (bincode_deserialize stake_data));
  validator ← match stake_data with
              | StakeStake _ stake => mret (voter_pubkey (stake_delegation stake))
              | _ => throw WrongStakeAccountState
              end;
  validator_stake_list_data ← rpc_get_account_data (sp_validator_stake_list pool_data);
  validator_stake_list_data ← lift (try_program (validator_stake_list_deserialize validator_stake_list_data));
  fail_if (negb (vsl_contains validator_stake_list_data validator)) ValidatorNotInPool;;
  let '(validator_stake_account, _) := find_stake_address_for_validator spl_stake_pool_id validator pool in
  let signers := [cfg_fee_payer (base_config config); cfg_owner (base_config config)] in
  token_receiver_account ← keypair_new;
  '(token_receiver, instructions, (signers, total_rent_free_balances)) ←
    meta_unwrap_create_token_account (cfg_owner (base_config config)) (cfg_fee_payer (base_config config)) token_receiver
      token_receiver_account (sp_pool_mint pool_data) [] (add_token_receiver token_receiver_account) (signers, 0);
  pool_deposit_authority ←
    lift (unwrap_result (authority_id spl_stake_pool_id pool AUTHORITY_DEPOSIT (sp_deposit_bump_seed pool_data)));
  withdraw_authority ←
    lift (unwrap_result (authority_id spl_stake_pool_id pool AUTHORITY_WITHDRAW (sp_withdraw_bump_seed pool_data)));
  join ← lift (try_program (deposit spl_stake_pool_id pool (sp_validator_stake_list pool_data)
    pool_deposit_authority withdraw_authority stake_account validator_stake_account token_receiver
    token_receiver (sp_pool_mint pool_data) spl_token_id stake_program_id));
  let transaction := new_with_payer (instructions ++ [join]) (fee_payer_pubkey (base_config config)) in
  '(recent_blockhash, fee_calculator) ← rpc_get_recent_blockhash;
  required ← lift (plain_add total_rent_free_balances (calculate_fee fee_calculator transaction));
  meta_check_fee_payer_balance (cfg_fee_payer (base_config config)) required;;
  transaction ← lift (transaction_sign transaction (meta_unique_signers signers) recent_blockhash);
  mret (Some transaction).

Definition command_add_liquidity config (w_sol_source_account : Pubkey) (amount : Z) (token_receiver : option Pubkey) :
    CM (option Transaction) :=
  let signers := [cfg_fee_payer (base_config config); cfg_owner (base_config config)] in
  token_receiver_account ← keypair_new;
  '(token_receiver, instructions, (signers, total_rent_free_balances)) ←
    meta_unwrap_create_token_account (cfg_owner (base_config config)) (cfg_fee_payer (base_config config)) token_receiver
      token_receiver_account (meta_lp_mint_account config) [] (add_token_receiver token_receiver_account) (signers, 0);
  add ← lift (unwrap_result (instruction_add_liquidity amount (smart_pool_program_id config)
    (liq_pool_state_account config) spl_token_id (meta_lp_mint_account config) (pda_liq_pool_authority config)
    w_sol_source_account (fee_payer_pubkey (base_config config)) (liq_pool_wsol_account config) token_receiver));
  let transaction := new_with_payer (instructions ++ [add]) (fee_payer_pubkey (base_config config)) in
  '(recent_blockhash, fee_calculator) ← rpc_get_recent_blockhash;
  required ← lift (plain_add total_rent_free_balances (calculate_fee fee_calculator transaction));
  meta_check_fee_payer_balance (cfg_fee_payer (base_config config)) required;;
  transaction ← lift (transaction_sign transaction (meta_unique_signers signers) recent_blockhash);
  mret (Some transaction).

Definition command_sell_st_sol config (user_st_sol_source_account : Pubkey) (amount : Z)
    (token_receiver : option Pubkey) : CM (option Transaction) :=
  let signers := [cfg_fee_payer (base_config config); cfg_owner (base_config config)] in
  token_receiver_account ← keypair_new;
  '(token_receiver, instructions, (signers, total_rent_free_balances)) ←
    meta_unwrap_create_token_account (cfg_owner (base_config config)) (cfg_fee_payer (base_config config)) token_receiver
      token_receiver_account (pubkey_from W_SOL_1111111_MINT_ACCOUNT) [] (add_token_receiver token_receiver_account)
      (signers, 0);
  sell ← lift (unwrap_result (instruction_sell_stsol amount (smart_pool_program_id config)
    (stake_pool_state_account config) (liq_pool_state_account config) spl_token_id (liq_pool_wsol_account config)
    (liq_pool_stsol_account config) (pda_liq_pool_authority config) token_receiver user_st_sol_source_account
    (fee_payer_pubkey (base_config config))));
  let transaction := new_with_payer (instructions ++ [sell]) (fee_payer_pubkey (base_config config)) in
  '(recent_blockhash, fee_calculator) ← rpc_get_recent_blockhash;
  required ← lift (plain_add total_rent_free_balances (calculate_fee fee_calculator transaction));
  meta_check_fee_payer_balance (cfg_fee_payer (base_config config)) required;;
  transaction ← lift (transaction_sign transaction (meta_unique_signers signers) recent_blockhash);
  mret (Some transaction).

(** ** Listing and updating *)
Definition meta_command_list config (stake_pool_state : Pubkey) : CM (option Transaction) :=
  stake_pool_data ← rpc_get_pool stake_pool_state;
  _ ← lift (unwrap_result (authority_id spl_stake_pool_id stake_pool_state AUTHORITY_DEPOSIT
                             (sp_deposit_bump_seed stake_pool_data)));
  _ ← lift (unwrap_result (authority_id spl_stake_pool_id stake_pool_state AUTHORITY_WITHDRAW
                             (sp_withdraw_bump_seed stake_pool_data)));
  validator_stake_list_acc ← rpc_get_account_data (sp_validator_stake_list stake_pool_data);
  _ ← lift (try_program (validator_stake_list_deserialize validator_stake_list_acc));
  pool_withdraw_authority ← lift (unwrap_result (authority_id (smart_pool_program_id config) stake_pool_state
    AUTHORITY_WITHDRAW (sp_withdraw_bump_seed stake_pool_data)));
  accounts ← meta_get_authority_accounts pool_withdraw_authority;
  fail_if (bool_decide (accounts = [])) NoAccountsFound;;
  _ ← lift (fold_outcome (fun total_balance (a : Pubkey * Cell) => plain_add total_balance (cell_lamports a.2)) 0 accounts);
  mret None.

Definition meta_accounts_to_update (force : bool) (epoch : Z) (validators : list ValidatorStakeInfo) : list Pubkey :=
  vsi_validator_account <$> filter (fun item => (force || (vsi_last_update_epoch item <? epoch)) = true) validators.
Definition meta_command_update config pool (force : bool) : CM (option Transaction) :=
  pool_data ← rpc_get_pool pool;
  validator_stake_list_data ← rpc_get_account_data (sp_validator_stake_list pool_data);
  validator_stake_list_data ← lift (try_program (validator_stake_list_deserialize validator_stake_list_data));
  epoch ← rpc_get_epoch;
  let accounts_to_update := meta_accounts_to_update force epoch (vsl_validators validator_stake_list_data) in
  instructions ← lift (update_instructions (sp_validator_stake_list pool_data)
                         (chunks meta_MAX_ACCOUNTS_TO_UPDATE accounts_to_update));
  if bool_decide (instructions = []) && (0 <? len (vsl_validators validator_stake_list_data)) then mret None
  else
    last ← lift (try_program (update_pool_balance spl_stake_pool_id pool (sp_validator_stake_list pool_data)));
    let instructions := instructions ++ [last] in
    let transaction := new_with_payer instructions (fee_payer_pubkey (base_config config)) in
    '(recent_blockhash, fee_calculator) ← rpc_get_recent_blockhash;
    meta_check_fee_payer_balance (cfg_fee_payer (base_config config)) (calculate_fee fee_calculator transaction);;
    transaction ← lift (transaction_sign transaction [cfg_fee_payer (base_config config)] recent_blockhash);
    mret (Some transaction).

(** the dispatch of [main] *)
Definition meta_run_command config (command : MetaCommand) : CM (option Transaction) :=
  let pool_account := stake_pool_state_account config in
  match command with
  | MetaCreateLiqPool => command_create_liquidity_pool config
  | MetaCreateValidatorStake validator_account => meta_command_vsa_create config pool_account validator_account
  | MetaAddValidatorStake stake_account token_receiver =>
      meta_command_vsa_add config pool_account stake_account token_receiver
  | MetaRemoveValidatorStake stake_account burn_from new_authority =>
      meta_command_vsa_remove config pool_account stake_account burn_from new_authority
  | MetaDeposit stake_account token_receiver => meta_command_deposit config pool_account stake_account token_receiver
  | MetaList => meta_command_list config pool_account
  | MetaUpdate => meta_command_update config pool_account false
  | MetaUpdateForce => meta_command_update config pool_account true
  | MetaWithdraw amount burn_from stake_receiver =>
      meta_command_withdraw config pool_account (sol_to_lamports amount) burn_from stake_receiver
  | MetaAddLiquidity source amount => command_add_liquidity config source (sol_to_lamports amount) None
  | MetaSell amount source => command_sell_st_sol config source (sol_to_lamports amount) None
  | MetaSetStakingAuth stake_account new_staker => meta_command_set_staking_auth config pool_account stake_account new_staker
  | MetaSetOwner new_owner new_fee_receiver => meta_command_set_owner config pool_account new_owner new_fee_receiver
  end.
Definition meta_main config (command : MetaCommand) : CM unit :=
  transaction ← meta_run_command config command;
  match transaction with
  | Some transaction => rpc_send_and_confirm transaction
  | None => mret tt
  end.
End MetaCli.
