(* ===== verification/Args.v ===== *)
(** * Command-line arguments

    The two clients declare their arguments with the [clap] crate and read
    them back with [solana_clap_utils].  This file has the declarations' data,
    in the builder style of the sources, and the interface [Clap] to the two
    crates, with what the clients rely on in [ClapLaws]. *)
From S2P Require Import Prelude Machine Sdk TokenInstruction TokenState TokenProcessor.
From S2P Require Import PoolInstruction PoolState StakeProgram PoolProcessor Client.
#[local] Open Scope string_scope.

(** ** Declarations; names shown in the help are left out *)
Inductive ArgValidator := is_pubkey | is_parsable_u64 | is_amount | is_url | is_keypair.
#[global] Instance ArgValidator_eq_dec : EqDecision ArgValidator.
Proof. solve_decision. Defined.
Record Arg := mk_arg {
  arg_name : string;
  arg_short : option string;
  arg_long : option string;
  arg_index : option nat;
  arg_validator : option ArgValidator;
  arg_takes_value : bool;
  arg_required : bool;
  arg_global : bool;
}.
Record ArgGroup := mk_group {
  group_name : string; group_args : list string; group_required : bool; group_multiple : bool }.
Record SubCommand := mk_subcommand { sub_name : string; sub_args : list Arg; sub_groups : list ArgGroup }.
(** an application that requires a subcommand *)
Record App := mk_app { app_args : list Arg; app_subcommands : list SubCommand }.

(** the builders *)
Definition with_name (n : string) : Arg := mk_arg n None None None None false false false.
Definition short (x : string) (a : Arg) : Arg :=
  mk_arg (arg_name a) (Some x) (arg_long a) (arg_index a) (arg_validator a) (arg_takes_value a) (arg_required a)
    (arg_global a).
Definition long (x : string) (a : Arg) : Arg :=
  mk_arg (arg_name a) (arg_short a) (Some x) (arg_index a) (arg_validator a) (arg_takes_value a) (arg_required a)
    (arg_global a).
Definition index (x : nat) (a : Arg) : Arg :=
  mk_arg (arg_name a) (arg_short a) (arg_long a) (Some x) (arg_validator a) (arg_takes_value a) (arg_required a)
    (arg_global a).
Definition validator (x : ArgValidator) (a : Arg) : Arg :=
  mk_arg (arg_name a) (arg_short a) (arg_long a) (arg_index a) (Some x) (arg_takes_value a) (arg_required a)
    (arg_global a).
Definition takes_value (x : bool) (a : Arg) : Arg :=
  mk_arg (arg_name a) (arg_short a) (arg_long a) (arg_index a) (arg_validator a) x (arg_required a) (arg_global a).
Definition required (x : bool) (a : Arg) : Arg :=
  mk_arg (arg_name a) (arg_short a) (arg_long a) (arg_index a) (arg_validator a) (arg_takes_value a) x (arg_global a).
Definition global (x : bool) (a : Arg) : Arg :=
  mk_arg (arg_name a) (arg_short a) (arg_long a) (arg_index a) (arg_validator a) (arg_takes_value a) (arg_required a) x.
(** [Arg::with_name(n)] and the calls chained to it, in their order *)
Definition arg (n : string) (settings : list (Arg -> Arg)) : Arg := fold_left (fun a f => f a) settings (with_name n).

(** ** The crates *)
Class Clap `{CL : Client} := {
  ArgMatches : Type;
  (** [App::get_matches] on the words of the command line; [clap] prints the
      usage and exits on words it rejects *)
  get_matches : App -> list string -> client_result ArgMatches;
  subcommand : ArgMatches -> string * option ArgMatches;
  value_of : ArgMatches -> string -> option string;
  is_present : ArgMatches -> string -> bool;
  (** [pubkey_of], and [value_t!] at [u64] and [f64] *)
  pubkey_of : ArgMatches -> string -> option Pubkey;
  value_u64 : ArgMatches -> string -> option Z;
  value_f64 : ArgMatches -> string -> option f64;
  (** the validators, on the words of an argument *)
  validates : ArgValidator -> string -> bool;
  (** [signer_from_path] with the name of an argument and the default path *)
  signer_from_path : ArgMatches -> string -> string -> stM World ClientError Signer;
  (** [solana_cli_config]: the address of the node and the path of the key *)
  config_file : option string;
  config_load : string -> option (string * string);
  config_default : string * string;
}.

(** the matches [sm] of a subcommand follow its declaration *)
Definition follows `{Clap} (sc : SubCommand) (sm : ArgMatches) : Prop :=
  (forall a, a ∈ sub_args sc -> arg_required a = true -> is_Some (value_of sm (arg_name a))) /\
  (forall a v k, a ∈ sub_args sc -> value_of sm (arg_name a) = Some v -> arg_validator a = Some k ->
    validates k v = true) /\
  (forall g, g ∈ sub_groups sc -> group_required g = true ->
    exists n, n ∈ group_args g /\ is_Some (value_of sm n)).
Class ClapLaws `{CL : Client} (CP : Clap) : Prop := {
  (** [SubcommandRequiredElseHelp], [required], [validator] and [group] *)
  get_matches_spec app words m :
    get_matches app words = Ok m ->
    exists sc sm, sc ∈ app_subcommands app /\ subcommand m = (sub_name sc, Some sm) /\ follows sc sm;
  (** a validated word is parsed *)
  pubkey_of_spec sm n v : value_of sm n = Some v -> validates is_pubkey v = true -> is_Some (pubkey_of sm n);
  value_u64_spec sm n v : value_of sm n = Some v -> validates is_parsable_u64 v = true ->
    exists z, value_u64 sm n = Some z /\ u64_range z;
  value_f64_spec sm n v : value_of sm n = Some v -> validates is_amount v = true -> is_Some (value_f64 sm n);
}.

Section Reading.
Context `{CP : Clap}.
(** [pubkey_of(matches, name).unwrap()] *)
Definition required_pubkey (sm : ArgMatches) (n : string) : client_result Pubkey := unwrap (pubkey_of sm n).
(** [value_t_or_exit!(matches, name, _)] *)
Definition u64_or_exit (sm : ArgMatches) (n : string) : client_result Z := ok_or (BadArgument n) (value_u64 sm n).
Definition f64_or_exit (sm : ArgMatches) (n : string) : client_result f64 := ok_or (BadArgument n) (value_f64 sm n).

(** ** The arguments both clients share, and their configuration *)
Definition config_file_arg : Arg :=
  arg "config_file" [short "C"; long "config"; takes_value true; global true].
Definition global_args : list Arg :=
  [ config_file_arg;
    arg "verbose" [long "verbose"; short "v"; takes_value false; global true];
    arg "json_rpc_url" [long "url"; takes_value true; validator is_url];
    arg "owner" [long "owner"; validator is_keypair; takes_value true];
    arg "fee_payer" [long "fee-payer"; validator is_keypair; takes_value true] ].
(** the configuration file's values; its argument defaults to [CONFIG_FILE] *)
Definition load_cli_config (m : ArgMatches) : string * string :=
  match (match value_of m "config_file" with Some f => Some f | None => config_file end) with
  | Some file => default config_default (config_load file)
  | None => config_default
  end.
(** the address of the node the client talks to *)
Definition json_rpc_url (m : ArgMatches) : string := default (load_cli_config m).1 (value_of m "json_rpc_url").
(** the signers; an error ends the process *)
Definition read_signers (m : ArgMatches) : stM World ClientError (Signer * Signer) :=
  owner ← signer_from_path m "owner" (load_cli_config m).2;
  fee_payer ← signer_from_path m "fee_payer" (load_cli_config m).2;
  mret (owner, fee_payer).
End Reading.
