(* ===== verification/CliArgs.v ===== *)
(** * The arguments of the stake pool's client

    The declarations [main] of [cli/src/main.rs] makes, a definition per
    subcommand, and how it reads the matched arguments into a command and runs
    it; [Cli.run_command] is the rest of the dispatch. *)
From S2P Require Import Prelude Machine Sdk TokenInstruction TokenState TokenProcessor.
From S2P Require Import PoolInstruction PoolState StakeProgram PoolProcessor Client Cli Args.
#[local] Open Scope string_scope.

(** ** Subcommands *)
Definition pool_arg : Arg := arg "pool" [long "pool"; validator is_pubkey; takes_value true; required true].
Definition create_pool_subcommand : SubCommand := mk_subcommand "create-pool"
  [ arg "fee_numerator"
      [long "fee-numerator"; short "n"; validator is_parsable_u64; takes_value true; required true];
    arg "fee_denominator"
      [long "fee-denominator"; short "d"; validator is_parsable_u64; takes_value true; required true] ] [].
Definition create_validator_stake_subcommand : SubCommand := mk_subcommand "create-validator-stake"
  [ pool_arg;
    arg "validator" [long "validator"; validator is_pubkey; takes_value true; required true] ] [].
Definition add_validator_stake_subcommand : SubCommand := mk_subcommand "add-validator-stake"
  [ pool_arg;
    arg "stake" [long "stake"; validator is_pubkey; takes_value true; required true];
    arg "token_receiver" [long "token-receiver"; validator is_pubkey; takes_value true] ] [].
Definition remove_validator_stake_subcommand : SubCommand := mk_subcommand "remove-validator-stake"
  [ pool_arg;
    arg "stake" [long "stake"; validator is_pubkey; takes_value true; required true];
    arg "burn_from" [long "burn-from"; validator is_pubkey; takes_value true; required true];
    arg "new_authority" [long "new-authority"; validator is_pubkey; takes_value true] ] [].
Definition deposit_subcommand : SubCommand := mk_subcommand "deposit"
  [ pool_arg;
    arg "stake" [long "stake"; validator is_pubkey; takes_value true; required true];
    arg "token_receiver" [long "token-receiver"; validator is_pubkey; takes_value true] ] [].
Definition list_subcommand : SubCommand := mk_subcommand "list" [pool_arg] [].
Definition update_subcommand : SubCommand := mk_subcommand "update" [pool_arg] [].
Definition withdraw_subcommand : SubCommand := mk_subcommand "withdraw"
  [ pool_arg;
    arg "amount" [long "amount"; validator is_amount; takes_value true; required true];
    arg "burn_from" [long "burn-from"; validator is_pubkey; takes_value true; required true];
    arg "stake_receiver" [long "stake-receiver"; validator is_pubkey; takes_value true] ] [].
Definition set_staking_auth_subcommand : SubCommand := mk_subcommand "set-staking-auth"
  [ pool_arg;
    arg "stake_account" [long "stake-account"; validator is_pubkey; takes_value true; required true];
    arg "new_staker" [long "new-staker"; validator is_pubkey; takes_value true; required true] ] [].
Definition set_owner_subcommand : SubCommand := mk_subcommand "set-owner"
  [ pool_arg;
    arg "new_owner" [long "new-owner"; validator is_pubkey; takes_value true];
    arg "new_fee_receiver" [long "new-fee-receiver"; validator is_pubkey; takes_value true] ]
  [ mk_group "new_accounts" ["new_owner"; "new_fee_receiver"] true true ].
Definition cli_app : App := mk_app global_args
  [ create_pool_subcommand; create_validator_stake_subcommand; add_validator_stake_subcommand;
    remove_validator_stake_subcommand; deposit_subcommand; list_subcommand; update_subcommand;
    withdraw_subcommand; set_staking_auth_subcommand; set_owner_subcommand ].

(** ** Reading the matches *)
Section CliArgs.
Context `{SDK : SolanaSdk} `{CL : Client} `{CP : !Clap} `{BC : Bincode} `{PAD : StructPadding} `{BP : BuildProfile}.

(** the arms of [matches.subcommand()]; any other name is [unreachable!()] *)
Definition parse_command (name : string) (arg_matches : ArgMatches) : client_result CliCommand :=
  if bool_decide (name = "create-pool") then
    numerator ← u64_or_exit arg_matches "fee_numerator";
    denominator ← u64_or_exit arg_matches "fee_denominator";
    Ok (CreatePool numerator denominator)
  else if bool_decide (name = "create-validator-stake") then
    pool_account ← required_pubkey arg_matches "pool";
    validator_account ← required_pubkey arg_matches "validator";
    Ok (CreateValidatorStake pool_account validator_account)
  else if bool_decide (name = "add-validator-stake") then
    pool_account ← required_pubkey arg_matches "pool";
    stake_account ← required_pubkey arg_matches "stake";
    Ok (AddValidatorStake pool_account stake_account (pubkey_of arg_matches "token_receiver"))
  else if bool_decide (name = "remove-validator-stake") then
    pool_account ← required_pubkey arg_matches "pool";
    stake_account ← required_pubkey arg_matches "stake";
    burn_from ← required_pubkey arg_matches "burn_from";
    Ok (RemoveValidatorStake pool_account stake_account burn_from (pubkey_of arg_matches "new_authority"))
  else if bool_decide (name = "deposit") then
    pool_account ← required_pubkey arg_matches "pool";
    stake_account ← required_pubkey arg_matches "stake";
    Ok (CliDeposit pool_account stake_account (pubkey_of arg_matches "token_receiver"))
  else if bool_decide (name = "list") then
    pool_account ← required_pubkey arg_matches "pool";
    Ok (CliList pool_account)
  else if bool_decide (name = "update") then
    pool_account ← required_pubkey arg_matches "pool";
    Ok (CliUpdate pool_account)
  else if bool_decide (name = "withdraw") then
    pool_account ← required_pubkey arg_matches "pool";
    burn_from ← required_pubkey arg_matches "burn_from";
    amount ← f64_or_exit arg_matches "amount";
    Ok (CliWithdraw pool_account amount burn_from (pubkey_of arg_matches "stake_receiver"))
  else if bool_decide (name = "set-staking-auth") then
    pool_account ← required_pubkey arg_matches "pool";
    stake_account ← required_pubkey arg_matches "stake_account";
    new_staker ← required_pubkey arg_matches "new_staker";
    Ok (SetStakingAuth pool_account stake_account new_staker)
  else if bool_decide (name = "set-owner") then
    pool_account ← required_pubkey arg_matches "pool";
    Ok (CliSetOwner pool_account (pubkey_of arg_matches "new_owner") (pubkey_of arg_matches "new_fee_receiver"))
  else Panic.

(** [main] on the words of the command line *)
Definition cli_config (matches : ArgMatches) : CM Config :=
  '(owner, fee_payer) ← read_signers matches;
  mret (mk_config (is_present matches "verbose") owner fee_payer).
Definition cli_main (words : list string) : CM unit :=
  matches ← lift (get_matches cli_app words);
  config ← cli_config matches;
  command ← lift (match subcommand matches with
                  | (name, Some arg_matches) => parse_command name arg_matches
                  | (_, None) => Panic
                  end);
  main config command.
End CliArgs.
