(* ===== verification/MetaCliArgs.v ===== *)
(** * The arguments of the MetaPool client

    The declarations [main] of [metacli/src/main.rs] makes and how it reads
    them: the pool is fixed, so no subcommand takes one, and the liquidity
    pool's subcommands are added. *)
From S2P Require Import Prelude Machine Sdk TokenInstruction TokenState TokenProcessor.
From S2P Require Import PoolInstruction PoolState StakeProgram PoolProcessor Client Cli MetaCli Args CliArgs.
#[local] Open Scope string_scope.

(** ** Subcommands *)
Definition create_liq_pool_subcommand : SubCommand := mk_subcommand "create-liq-pool" [] [].
Definition meta_create_validator_stake_subcommand : SubCommand := mk_subcommand "create-validator-stake"
  [ arg "validator" [long "validator"; validator is_pubkey; takes_value true; required true] ] [].
Definition meta_add_validator_stake_subcommand : SubCommand := mk_subcommand "add-validator-stake"
  [ arg "stake" [long "stake"; validator is_pubkey; takes_value true; required true];
    arg "token_receiver" [long "token-receiver"; validator is_pubkey; takes_value true] ] [].
Definition meta_remove_validator_stake_subcommand : SubCommand := mk_subcommand "remove-validator-stake"
  [ arg "stake" [long "stake"; validator is_pubkey; takes_value true; required true];
    arg "burn_from" [long "burn-from"; validator is_pubkey; takes_value true; required true];
    arg "new_authority" [long "new-authority"; validator is_pubkey; takes_value true] ] [].
Definition meta_deposit_subcommand : SubCommand := mk_subcommand "deposit"
  [ arg "stake" [long "stake"; validator is_pubkey; takes_value true; required true];
    arg "token_receiver" [long "token-receiver"; validator is_pubkey; takes_value true] ] [].
Definition meta_list_subcommand : SubCommand := mk_subcommand "list" [] [].
Definition meta_update_subcommand : SubCommand := mk_subcommand "update" [] [].
Definition update_force_subcommand : SubCommand := mk_subcommand "update-force" [] [].
Definition meta_withdraw_subcommand : SubCommand := mk_subcommand "withdraw"
  [ arg "amount" [long "amount"; validator is_amount; takes_value true; required true];
    arg "burn_from" [long "burn-from"; validator is_pubkey; takes_value true; required true];
    arg "stake_receiver" [long "stake-receiver"; validator is_pubkey; takes_value true] ] [].
Definition meta_set_staking_auth_subcommand : SubCommand := mk_subcommand "set-staking-auth"
  [ arg "stake_account" [long "stake-account"; validator is_pubkey; takes_value true; required true];
    arg "new_staker" [long "new-staker"; validator is_pubkey; takes_value true; required true] ] [].
Definition meta_set_owner_subcommand : SubCommand := mk_subcommand "set-owner"
  [ arg "new_owner" [long "new-owner"; validator is_pubkey; takes_value true];
    arg "new_fee_receiver" [long "new-fee-receiver"; validator is_pubkey; takes_value true] ]
  [ mk_group "new_accounts" ["new_owner"; "new_fee_receiver"] true true ].
Definition add_liquidity_subcommand : SubCommand := mk_subcommand "add-liquidity"
  [ arg "amount" [short "a"; index 1; validator is_amount; takes_value true; required true];
    arg "source" [short "s"; long "source"; validator is_pubkey; takes_value true; required true] ] [].
Definition sell_subcommand : SubCommand := mk_subcommand "sell"
  [ arg "amount" [short "a"; index 1; validator is_amount; takes_value true; required true];
    arg "source" [short "s"; long "source"; validator is_pubkey; takes_value true; required true] ] [].
Definition meta_app : App := mk_app global_args
  [ create_liq_pool_subcommand; meta_create_validator_stake_subcommand; meta_add_validator_stake_subcommand;
    meta_remove_validator_stake_subcommand; meta_deposit_subcommand; meta_list_subcommand; meta_update_subcommand;
    update_force_subcommand; meta_withdraw_subcommand; meta_set_staking_auth_subcommand; meta_set_owner_subcommand;
    add_liquidity_subcommand; sell_subcommand ].

(** ** Reading the matches *)
Section MetaCliArgs.
Context `{SDK : SolanaSdk} `{CL : Client} `{CP : !Clap} `{BC : Bincode} `{PAD : StructPadding} `{BP : BuildProfile}.

Definition meta_parse_command (name : string) (arg_matches : ArgMatches) : client_result MetaCommand :=
  if bool_decide (name = "create-liq-pool") then Ok MetaCreateLiqPool
  else if bool_decide (name = "create-validator-stake") then
    validator_account ← required_pubkey arg_matches "validator";
    Ok (MetaCreateValidatorStake validator_account)
  else if bool_decide (name = "add-validator-stake") then
    stake_account ← required_pubkey arg_matches "stake";
    Ok (MetaAddValidatorStake stake_account (pubkey_of arg_matches "token_receiver"))
  else if bool_decide (name = "remove-validator-stake") then
    stake_account ← required_pubkey arg_matches "stake";
    burn_from ← required_pubkey arg_matches "burn_from";
    Ok (MetaRemoveValidatorStake stake_account burn_from (pubkey_of arg_matches "new_authority"))
  else if bool_decide (name = "deposit") then
    stake_account ← required_pubkey arg_matches "stake";
    Ok (MetaDeposit stake_account (pubkey_of arg_matches "token_receiver"))
  else if bool_decide (name = "list") then Ok MetaList
  else if bool_decide (name = "update") then Ok MetaUpdate
  else if bool_decide (name = "update-force") then Ok MetaUpdateForce
  else if bool_decide (name = "withdraw") then
    burn_from ← required_pubkey arg_matches "burn_from";
    amount ← f64_or_exit arg_matches "amount";
    Ok (MetaWithdraw amount burn_from (pubkey_of arg_matches "stake_receiver"))
  else if bool_decide (name = "add-liquidity") then
    source ← required_pubkey arg_matches "source";
    amount ← f64_or_exit arg_matches "amount";
    Ok (MetaAddLiquidity source amount)
  else if bool_decide (name = "sell") then
    amount ← f64_or_exit arg_matches "amount";
    source ← required_pubkey arg_matches "source";
    Ok (MetaSell amount source)
  else if bool_decide (name = "set-staking-auth") then
    stake_account ← required_pubkey arg_matches "stake_account";
    new_staker ← required_pubkey arg_matches "new_staker";
    Ok (MetaSetStakingAuth stake_account new_staker)
  else if bool_decide (name = "set-owner") then
    Ok (MetaSetOwner (pubkey_of arg_matches "new_owner") (pubkey_of arg_matches "new_fee_receiver"))
  else Panic.

(** [main] on the words of the command line *)
Definition meta_cli_config (matches : ArgMatches) : CM MetaConfig :=
  base ← cli_config matches;
  mret (meta_config base).
Definition metacli_main (words : list string) : CM unit :=
  matches ← lift (get_matches meta_app words);
  config ← meta_cli_config matches;
  command ← lift (match subcommand matches with
                  | (name, Some arg_matches) => meta_parse_command name arg_matches
                  | (_, None) => Panic
                  end);
  meta_main config command.
End MetaCliArgs.
