(* ===== verification/ClientFacts.v ===== *)
(** * Facts about the clients' helpers

    Sorting and chunking, the greedy choice of the accounts to withdraw from,
    and the laws of the RPC client with the inversion of runs they give. *)
From S2P Require Import Prelude Machine Sdk TokenInstruction TokenState TokenProcessor.
From S2P Require Import PoolInstruction PoolState StakeProgram PoolProcessor PoolMath PoolFacts Client.
From Stdlib Require Import Sorted.

(** ** Sorting *)
Section Sorting.
Context {A : Type} (leb : A -> A -> bool).
Lemma insert_by_Permutation x l : insert_by leb x l ≡ₚ x :: l.
Proof.
  induction l as [|y l IH]; cbn; [done|]. case_match; [done|]. rewrite IH. apply Permutation_swap.
Qed.
Lemma sort_by_Permutation l : sort_by leb l ≡ₚ l.
Proof. induction l as [|x l IH]; cbn; [done|]. by rewrite insert_by_Permutation, IH. Qed.
Context (leb_total : forall x y, leb x y = true \/ leb y x = true).
Context (leb_trans : forall x y z, leb x y = true -> leb y z = true -> leb x z = true).
Lemma insert_by_sorted x l :
  StronglySorted (fun a b => leb a b = true) l -> StronglySorted (fun a b => leb a b = true) (insert_by leb x l).
Proof.
  induction 1 as [|y l Hs IH Hf]; cbn; [by repeat constructor|]. destruct (leb x y) eqn:E.
  - constructor; [by constructor|]. constructor; [done|].
    eapply Forall_impl; [exact Hf|]. intros z. by apply leb_trans.
  - constructor; [done|]. rewrite insert_by_Permutation. constructor; [|done].
    destruct (leb_total x y) as [E'|?]; [by rewrite E' in E|done].
Qed.
Lemma sort_by_sorted l : StronglySorted (fun a b => leb a b = true) (sort_by leb l).
Proof. induction l as [|x l IH]; cbn; [constructor|by apply insert_by_sorted]. Qed.
End Sorting.

(** ** Chunks *)
Lemma chunks_fuel_concat {A} fuel n (l : list A) : (0 < n)%nat -> (length l <= fuel)%nat -> concat (chunks_fuel fuel n l) = l.
Proof.
  intros Hn. revert l. induction fuel as [|fuel IH]; intros l Hl; [by destruct l; cbn in *; [|lia]|].
  cbn. destruct l as [|x l]; [done|]. cbn [concat]. rewrite IH; [by rewrite take_drop|].
  rewrite length_drop. cbn in *. lia.
Qed.
Lemma chunks_concat {A} n (l : list A) : (0 < n)%nat -> concat (chunks n l) = l.
Proof. intros. by apply chunks_fuel_concat. Qed.
Lemma chunks_sizes {A} n (l : list A) : Forall (fun c => (length c <= n)%nat) (chunks n l).
Proof.
  unfold chunks. generalize (length l). intros fuel. revert l. induction fuel as [|fuel IH]; intros l; cbn; [done|].
  destruct l; constructor; [rewrite length_take; lia|done].
Qed.

(** ** Picking accounts *)
Section Pick.
Context `{SDK : SolanaSdk} `{BP : BuildProfile}.
Implicit Types (accounts : list (Pubkey * Cell)) (ws : list WithdrawAccount).

Definition picked_of (w : WithdrawAccount) : Pubkey * Cell := (wa_pubkey w, wa_account w).
Definition total_picked ws : Z := foldr (fun w z => wa_amount w + z) 0 ws.
(** what the loop takes an account to be able to give: all but the balance
    that must stay, modulo 2^64; and what all above the minimum can *)
Definition capacity (a : Pubkey * Cell) : Z := wrap 64 (cell_lamports a.2 - MIN_STAKE_BALANCE).
(** the picked account holds less than what must stay *)
Definition deficient (w : WithdrawAccount) : bool := cell_lamports (wa_account w) <? MIN_STAKE_BALANCE.
Lemma capacity_range a : u64_range (capacity a).
Proof. apply wrap_range. Qed.
Lemma capacity_value a :
  u64_range MIN_STAKE_BALANCE -> u64_range (cell_lamports a.2) ->
  capacity a = if MIN_STAKE_BALANCE <=? cell_lamports a.2 then cell_lamports a.2 - MIN_STAKE_BALANCE
               else 2 ^ 64 + cell_lamports a.2 - MIN_STAKE_BALANCE.
Proof.
  intros Hm Hl. unfold capacity, u64_range in *. destruct (Z.leb_spec MIN_STAKE_BALANCE (cell_lamports a.2)).
  - apply wrap_small. unfold u64_range. lia.
  - unfold wrap. symmetry. apply (Z.mod_unique_pos _ _ (-1)); lia.
Qed.
Definition total_capacity accounts : Z := foldr (fun a z => capacity a + z) 0 accounts.
Definition eligible (min_balance : Z) accounts : list (Pubkey * Cell) :=
  filter (fun a => min_balance < cell_lamports a.2) accounts.
(** every picked account gives what it can, the last one what remains *)
Inductive picks : list (Pubkey * Cell) -> Z -> list WithdrawAccount -> Z -> Prop :=
| picks_none x : picks [] x [] x
| picks_last k c accounts x :
    0 <= x <= capacity (k, c) -> picks ((k, c) :: accounts) x [mk_withdraw_account k c x] 0
| picks_all k c accounts x ws r :
    0 <= capacity (k, c) < x -> picks accounts (x - capacity (k, c)) ws r ->
    picks ((k, c) :: accounts) x (mk_withdraw_account k c (capacity (k, c)) :: ws) r.

Lemma eligible_cons mb k c accounts :
  eligible mb ((k, c) :: accounts) = if cell_lamports c <=? mb then eligible mb accounts else (k, c) :: eligible mb accounts.
Proof.
  unfold eligible. rewrite filter_cons. cbn [snd]. destruct (Z.leb_spec (cell_lamports c) mb).
  - by rewrite decide_False by lia.
  - by rewrite decide_True by lia.
Qed.
(** the loop is the greedy choice, but for a panic at the first account
    visited that holds too little *)
Lemma pick_loop_picks mb accounts acc x :
  u64_range MIN_STAKE_BALANCE -> u64_range x -> Forall (fun a => u64_range (cell_lamports a.2)) accounts ->
  exists ws r, picks (eligible mb accounts) x ws r /\
    pick_loop mb accounts acc x = if overflow_checks && existsb deficient ws then Panic else Ok (acc ++ ws, r).
Proof.
  intros H0. revert acc x. induction accounts as [|[k c] accounts IH]; intros acc x Hx Hf.
  { exists [], x. split; [constructor|]. cbn. by rewrite andb_false_r, app_nil_r. }
  apply Forall_cons in Hf as [Hc Hf]. cbn [snd] in Hc.
  rewrite eligible_cons in *. cbn [pick_loop]. destruct (Z.leb_spec (cell_lamports c) mb); [by apply IH|].
  set (cap := capacity (k, c)). pose proof (capacity_range (k, c)) as Hcap. fold cap in Hcap.
  assert (Hsub : plain_sub (E:=ClientError) (cell_lamports c) MIN_STAKE_BALANCE =
    if overflow_checks && (cell_lamports c <? MIN_STAKE_BALANCE) then Panic else Ok cap).
  { unfold cap, capacity, plain_sub, u64_result. cbn [snd]. unfold u64_range in *. case_decide.
    - rewrite (proj2 (Z.ltb_ge _ _)), andb_false_r by lia. by rewrite wrap_small.
    - rewrite (proj2 (Z.ltb_lt _ _)), andb_true_r by lia. done. }
  assert (Hrem : plain_sub (E:=ClientError) x (Z.min cap x) = Ok (x - Z.min cap x))
    by (apply plain_sub_in; unfold u64_range in *; lia).
  destruct (Z.leb_spec x cap) as [Hle|Hlt].
  - exists [mk_withdraw_account k c x], 0. split; [constructor; fold cap; unfold u64_range in *; lia|].
    rewrite Hsub. cbn [existsb]. change (deficient (mk_withdraw_account k c x)) with (cell_lamports c <? MIN_STAKE_BALANCE).
    rewrite orb_false_r. destruct (overflow_checks && (cell_lamports c <? MIN_STAKE_BALANCE)); [done|].
    cbn [mbind outcome_bind]. rewrite Hrem. cbn [mbind outcome_bind]. rewrite Z.min_r by lia. by rewrite Z.sub_diag.
  - edestruct (IH (acc ++ [mk_withdraw_account k c cap]) (x - cap)) as (ws & r & Hp & Hr); [unfold u64_range in *; lia|done|].
    exists (mk_withdraw_account k c cap :: ws), r. split; [apply (picks_all k c _ x ws r); [fold cap; unfold u64_range in *; lia|exact Hp]|].
    rewrite Hsub. cbn [existsb]. change (deficient (mk_withdraw_account k c cap)) with (cell_lamports c <? MIN_STAKE_BALANCE).
    destruct (overflow_checks && (cell_lamports c <? MIN_STAKE_BALANCE)) eqn:E.
    + apply andb_true_iff in E as [-> ->]. done.
    + cbn [mbind outcome_bind]. rewrite Hrem. cbn [mbind outcome_bind]. rewrite Z.min_l by lia.
      rewrite (proj2 (Z.eqb_neq _ _)) by lia. rewrite Hr, <- app_assoc, andb_orb_distrib_r, E. done.
Qed.
Lemma total_picked_cons w ws : total_picked (w :: ws) = wa_amount w + total_picked ws.
Proof. done. Qed.
Lemma total_capacity_cons a accounts : total_capacity (a :: accounts) = capacity a + total_capacity accounts.
Proof. done. Qed.
Lemma total_capacity_nonneg accounts : Forall (fun a => 0 <= capacity a) accounts -> 0 <= total_capacity accounts.
Proof. induction 1; [done|]. rewrite total_capacity_cons. lia. Qed.
Lemma picks_spec accounts x ws r :
  picks accounts x ws r -> 0 <= x ->
  total_picked ws + r = x /\ 0 <= r /\ (picked_of <$> ws) `prefix_of` accounts /\
  Forall (fun w => 0 <= wa_amount w <= capacity (picked_of w)) ws /\
  Forall (fun w => wa_amount w = capacity (picked_of w)) (removelast ws) /\
  (0 < r -> (picked_of <$> ws) = accounts /\ total_picked ws = total_capacity accounts) /\
  (Forall (fun a => 0 <= capacity a) accounts ->
     total_picked ws <= total_capacity accounts /\ (x <= total_capacity accounts -> r = 0)).
Proof.
  induction 1 as [x|k c accounts x Hx|k c accounts x ws r Hc Hp IH]; intros H0.
  - split_and!; cbn; try done; lia.
  - cbn. split_and!; [lia|lia| | |constructor|intros; lia|].
    + by exists accounts.
    + constructor; [exact Hx|constructor].
    + intros [Hk Hf]%Forall_cons. apply total_capacity_nonneg in Hf. split; [|done].
      change (x + 0 <= capacity (k, c) + total_capacity accounts). lia.
  - destruct IH as (Ht & Hr & [rest Hpre] & Hf & Hlast & Hall & Hz); [lia|].
    rewrite total_picked_cons, total_capacity_cons, fmap_cons. cbn [wa_amount]. split_and!; [lia|done| | | | |].
    + exists rest. by rewrite Hpre.
    + constructor; [cbn [wa_amount]; change (picked_of _) with (k, c); lia|done].
    + destruct ws; constructor; done.
    + intros Hr0. by destruct (Hall Hr0) as [-> ->].
    + intros [Hcap Hcaps]%Forall_cons. destruct (Hz Hcaps) as [Hle H1]. split; [lia|]. intros. apply H1. lia.
Qed.
(** without any assumption the amounts still add up *)
Lemma pick_loop_total mb accounts acc x ws r :
  0 <= x < 2 ^ 64 -> pick_loop mb accounts acc x = Ok (ws, r) -> total_picked ws + r = total_picked acc + x /\ 0 <= r /\
  (Forall (fun w => 0 <= wa_amount w) acc -> Forall (fun w => 0 <= wa_amount w) ws).
Proof.
  assert (Happ : forall a b, total_picked (a ++ b) = total_picked a + total_picked b).
  { intros a b. induction a as [|w a IH]; [done|]. cbn [app]. rewrite !total_picked_cons. lia. }
  revert acc x. induction accounts as [|[k c] accounts IH]; intros acc x Hx; cbn [pick_loop]; [intros [= <- <-]; split_and!; [lia|lia|done]|].
  destruct (_ <=? _); [by apply IH|]. intros (av & Hav & (rem & Hrem & Hr)%outcome_bind_Ok)%outcome_bind_Ok.
  apply u64_result_range in Hav. rewrite plain_sub_in in Hrem by (unfold u64_range in *; lia). injection Hrem as <-.
  unfold u64_range in *.
  assert (Hacc : Forall (fun w => 0 <= wa_amount w) acc ->
    Forall (fun w => 0 <= wa_amount w) (acc ++ [mk_withdraw_account k c (Z.min av x)])).
  { intros Hf. apply Forall_app. split; [done|]. apply Forall_singleton. cbn. lia. }
  destruct (_ =? _).
  - injection Hr as <- <-. rewrite Happ. cbn. split_and!; [lia|lia|done].
  - apply IH in Hr as (Ht & H0 & Hf); [|lia]. rewrite Happ in Ht. cbn in Ht. split_and!; [lia|done|auto].
Qed.
Lemma total_picked_le ws : Forall (fun w => 0 <= wa_amount w) ws -> Forall (fun w => wa_amount w <= total_picked ws) ws.
Proof.
  induction 1 as [|w ws Hw Hf IH]; [done|]. rewrite total_picked_cons.
  assert (0 <= total_picked ws) by (clear -Hf; induction Hf; [done|rewrite total_picked_cons; lia]).
  constructor; [lia|]. eapply Forall_impl; [exact IH|]. cbn. intros. lia.
Qed.
Lemma pick_accounts_total accounts x mb ws :
  u64_range x -> pick_withdraw_accounts accounts x mb = Ok ws ->
  total_picked ws = x /\ Forall (fun w => u64_range (wa_amount w)) ws.
Proof.
  intros Hx. unfold pick_withdraw_accounts. intros ([ws' r] & Hp & Hr)%outcome_bind_Ok.
  apply outcome_bind_Ok in Hr as (u & Hu & [= ->]). apply err_if_Ok, Z.ltb_ge in Hu.
  apply pick_loop_total in Hp as (Ht & H0 & Hf); [|done]. cbn in Ht. split; [lia|]. specialize (Hf ltac:(constructor)).
  pose proof (total_picked_le _ Hf) as Hle. rewrite Forall_forall in *. intros w Hw.
  specialize (Hf w Hw). specialize (Hle w Hw). unfold u64_range in *. cbn in *. lia.
Qed.
End Pick.

(** ** Runs of queries *)
Section Queries.
Context `{CL : Client} `{SDK : SolanaSdk} {chain : World -> Store} {CLL : ClientLaws CL SDK chain}.
Implicit Types w : World.
Lemma keypair_new_run w k w' : keypair_new w = (Ok k, w') -> chain w' = chain w.
Proof. apply keypair_new_chain. Qed.
Lemma get_account_run k w c w' : rpc_get_account k w = (Ok c, w') -> get_cell (chain w) k = c /\ chain w' = chain w.
Proof. intros H. split; [by eapply rpc_get_account_spec|by eapply rpc_get_account_chain]. Qed.
Lemma get_account_data_run k w d w' :
  rpc_get_account_data k w = (Ok d, w') -> cell_data (get_cell (chain w) k) = d /\ chain w' = chain w.
Proof. intros H. split; [by eapply rpc_get_account_data_spec|by eapply rpc_get_account_data_chain]. Qed.
Lemma get_epoch_run w e w' :
  rpc_get_epoch w = (Ok e, w') ->
  (forall i, key i = clock_id -> clock_from_account_info i (get_cell (chain w) clock_id) = Ok (mk_clock e)) /\
  chain w' = chain w.
Proof. intros H. split; [intros; by eapply rpc_get_epoch_spec|by eapply rpc_get_epoch_chain]. Qed.
Lemma unwrap_result_Ok {E E' A} (m : outcome E A) (a : A) : unwrap_result (E':=E') m = Ok a -> m = Ok a.
Proof. destruct m; cbn; naive_solver. Qed.
Lemma unwrap_query_run {S E A} (m : stM S E A) s a s' : unwrap_query m s = (Ok a, s') -> m s = (Ok a, s').
Proof. unfold unwrap_query. destruct (m s) as [[] ?]; cbn; naive_solver. Qed.
Lemma get_pool_run `{PAD : StructPadding} k w p w' :
  rpc_get_pool k w = (Ok p, w') -> pool_at (chain w) k p /\ chain w' = chain w.
Proof.
  unfold rpc_get_pool. intros (d & w1 & Hd & [Hp <-]%lift_Ok)%stM_bind_Ok.
  apply unwrap_result_Ok in Hp.
  apply get_account_data_run in Hd as [<- Hc]. by split.
Qed.
Lemma check_fee_payer_run k z w u w' : check_fee_payer_balance k z w = (Ok u, w') -> chain w' = chain w.
Proof.
  unfold check_fee_payer_balance. intros (b & w1 & Hb & [_ <-]%fail_if_Ok)%stM_bind_Ok. by eapply rpc_get_balance_chain.
Qed.
Lemma get_minimum_balance_run n w z w' : rpc_get_minimum_balance n w = (Ok z, w') -> chain w' = chain w.
Proof. apply rpc_get_minimum_balance_chain. Qed.
Lemma get_recent_blockhash_run w z w' : rpc_get_recent_blockhash w = (Ok z, w') -> chain w' = chain w.
Proof. apply rpc_get_recent_blockhash_chain. Qed.
Lemma get_authority_accounts_run k w l w' : get_authority_accounts k w = (Ok l, w') -> chain w' = chain w.
Proof.
  unfold get_authority_accounts. intros Hr. apply unwrap_query_run in Hr.
  exact (rpc_get_program_accounts_chain _ _ _ _ _ _ Hr).
Qed.
End Queries.

(** inverts a query of a successful command: the world's chain stays *)
Ltac inv_query :=
  match goal with
  | H : keypair_new _ = (Ok _, _) |- _ => apply keypair_new_run in H as ?Hc
  | H : rpc_get_account _ _ = (Ok _, _) |- _ => apply get_account_run in H as [? ?Hc]
  | H : rpc_get_account_data _ _ = (Ok _, _) |- _ => apply get_account_data_run in H as [? ?Hc]
  | H : rpc_get_epoch _ = (Ok _, _) |- _ => apply get_epoch_run in H as [? ?Hc]
  | H : rpc_get_pool _ _ = (Ok _, _) |- _ => apply get_pool_run in H as [? ?Hc]
  | H : check_fee_payer_balance _ _ _ = (Ok _, _) |- _ => apply check_fee_payer_run in H
  | H : rpc_get_minimum_balance _ _ = (Ok _, _) |- _ => apply get_minimum_balance_run in H
  | H : rpc_get_recent_blockhash _ = (Ok _, _) |- _ => apply get_recent_blockhash_run in H
  | H : get_authority_accounts _ _ = (Ok _, _) |- _ => apply get_authority_accounts_run in H
  | H : unwrap_result _ = Ok _ |- _ => apply unwrap_result_Ok in H
  | H : try_program _ = Ok _ |- _ => apply map_err_Ok in H
  | H : transaction_sign _ _ _ = Ok _ |- _ => apply tx_instructions_sign in H; rewrite tx_instructions_new in H
  end.
