(* ===== verification/Transactions.v ===== *)
(** * Transactions over the modelled programs

    A transaction's instructions are run one after the other, each by the
    program it addresses: the token program and the stake pool by their models,
    the system program by the interface [SystemProgram], any other by the
    runtime.  Then what the initialising instructions leave in accounts that
    the system program has just created. *)
From S2P Require Import Prelude Machine Sdk TokenInstruction TokenState TokenCodec TokenProcessor TokenFacts TokenRuns.
From S2P Require Import PoolInstruction PoolState StakeProgram PoolProcessor PoolCodec PoolFacts PoolRefine PoolForward.
From S2P Require Import TokenAtomic Composition Client.

(** ** The system program *)
(** it creates an account of zero bytes, paid by another *)
Definition account_created (from to : Pubkey) (lam space : Z) (owner : Pubkey) (s s' : Store) : Prop :=
  get_cell s' to = mk_cell lam (replicate (Z.to_nat space) x00) owner /\
  get_cell s' from = mk_cell (cell_lamports (get_cell s from) - lam) (cell_data (get_cell s from)) (cell_owner (get_cell s from)) /\
  forall k, k <> from -> k <> to -> get_cell s' k = get_cell s k.
Class SystemProgram := { system_process : list AccountInfo -> list byte -> M unit }.
(** the system program's limit on an account's data, 10 MiB *)
Definition MAX_PERMITTED_DATA_LENGTH : Z := 10 * 1024 * 1024.
Definition space_permitted (space : Z) : Prop := 0 <= space <= MAX_PERMITTED_DATA_LENGTH.
(** an unused address is funded by an account without data of its own *)
Class SystemLaws `{SDK : SolanaSdk} (SYS : SystemProgram) : Prop := {
  create_account_runs from to lam space owner s :
    let ix := system_create_account from to lam space owner in
    from <> to -> get_cell s to = empty_cell -> cell_owner (get_cell s from) = system_program_id ->
    cell_data (get_cell s from) = [] -> u64_range lam -> space_permitted space -> lam <= cell_lamports (get_cell s from) ->
    exists s', system_process (info_of <$> ix_accounts ix) (ix_data ix) s = (Ok tt, s') /\
      account_created from to lam space owner s s';
}.

Section Execution.
Context `{SDK : SolanaSdk} `{RT : Runtime} `{BC : Bincode} `{PAD : StructPadding} `{BP : BuildProfile}.
Context `{SYS : SystemProgram}.
(** one instruction of a transaction *)
Definition execute (ix : Instruction) : M unit :=
  let accounts := info_of <$> ix_accounts ix in
  if bool_decide (ix_program_id ix = system_program_id) then system_process accounts (ix_data ix)
  else if bool_decide (ix_program_id ix = spl_token_id) then token_process spl_token_id accounts (ix_data ix)
  else if bool_decide (ix_program_id ix = spl_stake_pool_id) then pool_process spl_stake_pool_id accounts (ix_data ix)
  else invoke ix accounts.
(** all of them: the first that fails ends the transaction *)
Fixpoint execute_all (ixs : list Instruction) : M unit :=
  match ixs with
  | [] => mret tt
  | ix :: ixs => execute ix;; execute_all ixs
  end.
Lemma execute_all_app ixs ixs' s s1 :
  execute_all ixs s = (Ok tt, s1) -> execute_all (ixs ++ ixs') s = execute_all ixs' s1.
Proof.
  revert s. induction ixs as [|ix ixs IH]; intros s; cbn [execute_all app]; [by intros [= <-]|].
  intros ([] & s2 & H1 & H2)%stM_bind_Ok. by erewrite stM_bind_run by exact H1; apply IH.
Qed.
End Execution.

(** ** Accounts of zero bytes *)
(** the fields the programs keep from an account they initialise *)
Lemma zero_mint : exists a f, mint_unpack_from_slice (replicate MINT_LEN x00) = Ok (mk_mint a 0 0 false f).
Proof. do 2 eexists. vm_compute. reflexivity. Qed.
Lemma zero_account : exists m o d,
  account_unpack_from_slice (replicate ACCOUNT_LEN x00) = Ok (mk_account m o 0 d Uninitialized None 0 None).
Proof. do 3 eexists. vm_compute. reflexivity. Qed.
Lemma zero_pool_read `{PAD : StructPadding} : exists p,
  stake_pool_deserialize (replicate STAKE_POOL_LEN x00) = Ok p /\ sp_is_initialized p = false /\
  sp_stake_total p = 0 /\ sp_pool_total p = 0.
Proof. eexists. split; [reflexivity|]. repeat split; vm_compute; reflexivity. Qed.
Lemma zero_list_read :
  validator_stake_list_deserialize (replicate VALIDATOR_STAKE_LIST_LEN x00) = Ok (mk_validator_stake_list 0 []).
Proof.
  rewrite list_deserialize_long by (by rewrite length_replicate). unfold slice. rewrite drop_0, take_replicate.
  pose proof list_capacity. by replace (1 `min` VALIDATOR_STAKE_LIST_LEN)%nat with 1%nat by lia.
Qed.

(** ** The initialising instructions *)
Section Initialising.
Context `{SDK : SolanaSdk} {LAWS : SolanaSdkLaws SDK}.
Implicit Types (s : Store) (i : AccountInfo).

(** only the data at [k] may have changed *)
Definition changed_at (k : Pubkey) s s' : Prop :=
  (forall j, j <> k -> get_cell s' j = get_cell s j) /\
  cell_owner (get_cell s' k) = cell_owner (get_cell s k) /\ cell_lamports (get_cell s' k) = cell_lamports (get_cell s k).
Lemma writes_changed {T} `{PackLaws T} s k (v : T) s' : writes s k v s' -> changed_at k s s'.
Proof.
  intros Hw. split; [|split; [by eapply writes_owner|by eapply writes_lamports]].
  intros j Hj. eapply writes_data_ne; [|exact Hw]. congruence.
Qed.
(** a valid record packed over an account of the right length *)
Lemma pack_over {T} `{PackLaws T, !PackFits T} (v v0 : T) i s :
  decodes T s (key i) v0 -> pack_wf v ->
  exists s', pack_info v i s = (Ok tt, s') /\ decodes T s' (key i) v /\ changed_at (key i) s s'.
Proof.
  intros Hd Hw. destruct (pack_succeeds v i s (proj1 Hd)) as (s' & E & _). exists s'. split; [exact E|].
  apply pack_info_Ok in E. split; [by eapply writes_decodes|by eapply writes_changed].
Qed.
Lemma read_rent_run i s r : rent_from_account_info i (get_cell s (key i)) = Ok r -> read_rent i s = (Ok r, s).
Proof. intros E. unfold read_rent, cell_of. erewrite stM_bind_run by reflexivity. unfold lift. by rewrite E. Qed.
Lemma unpack_unchecked_run T `{Pack T} i s v : decodes T s (key i) v -> unpack_unchecked_info T i s = (Ok v, s).
Proof. intros. by apply unpack_unchecked_info_Ok. Qed.

Lemma fresh_mint_initialised s mint_i rent_i rent d auth fz :
  cell_data (get_cell s (key mint_i)) = replicate MINT_LEN x00 ->
  rent_from_account_info rent_i (get_cell s (key rent_i)) = Ok rent ->
  rent_is_exempt rent (cell_lamports (get_cell s (key mint_i))) (Z.of_nat MINT_LEN) = true -> u8_range d ->
  exists s', process_initialize_mint [mint_i; rent_i] d auth fz s = (Ok tt, s') /\
    decodes Mint s' (key mint_i) (mk_mint (Some auth) 0 d true fz) /\ changed_at (key mint_i) s s'.
Proof.
  intros Hz Hr Hex Hd. destruct zero_mint as (a & f & Hm).
  assert (Hdec : decodes Mint s (key mint_i) (mk_mint a 0 0 false f)).
  { split; rewrite Hz; [by rewrite length_replicate|exact Hm]. }
  destruct (pack_over (mk_mint (Some auth) 0 d true fz) _ mint_i s Hdec) as (s' & E & Hs'); [by split|].
  exists s'. split; [|exact Hs']. unfold process_initialize_mint.
  erewrite stM_bind_run by apply next_info_run. cbv beta iota. erewrite stM_bind_run by reflexivity.
  erewrite stM_bind_run by apply next_info_run. cbv beta iota.
  erewrite stM_bind_run by (apply read_rent_run; exact Hr).
  erewrite stM_bind_run by (apply unpack_unchecked_run; exact Hdec).
  erewrite stM_bind_run by (by apply fail_if_run). erewrite stM_bind_run by reflexivity.
  erewrite stM_bind_run; [exact E|]. apply fail_if_run, negb_false_iff. rewrite Hz. unfold len.
  rewrite length_replicate. exact Hex.
Qed.
(** the steps of [process_initialize_account] up to the mint's *)
Ltac run_initialize_account Hz Hr Hdec Hex :=
  unfold process_initialize_account, _process_initialize_account;
  erewrite stM_bind_run by apply next_info_run; cbv beta iota;
  erewrite stM_bind_run by apply next_info_run; cbv beta iota;
  erewrite stM_bind_run by (erewrite stM_bind_run by apply next_info_run; reflexivity); cbv beta iota;
  erewrite stM_bind_run by reflexivity; erewrite stM_bind_run by apply next_info_run; cbv beta iota;
  erewrite stM_bind_run by (apply read_rent_run; exact Hr);
  erewrite stM_bind_run by (apply unpack_unchecked_run; exact Hdec);
  erewrite stM_bind_run by (by apply fail_if_run); erewrite stM_bind_run by reflexivity;
  erewrite stM_bind_run by
    (apply fail_if_run, negb_false_iff; rewrite Hz; unfold len; rewrite length_replicate; exact Hex).
Lemma fresh_account_initialised s acc_i mint_i owner_i rent_i rent m :
  cell_data (get_cell s (key acc_i)) = replicate ACCOUNT_LEN x00 ->
  holds Mint s (key mint_i) m -> key mint_i <> native_mint_id ->
  rent_from_account_info rent_i (get_cell s (key rent_i)) = Ok rent ->
  rent_is_exempt rent (cell_lamports (get_cell s (key acc_i))) (Z.of_nat ACCOUNT_LEN) = true ->
  exists s', process_initialize_account [acc_i; mint_i; owner_i; rent_i] s = (Ok tt, s') /\
    decodes Account s' (key acc_i) (mk_account (key mint_i) (key owner_i) 0 None Initialized None 0 None) /\
    changed_at (key acc_i) s s'.
Proof.
  intros Hz [[Hml Hmu] Hmi] Hn Hr Hex. destruct zero_account as (mt & o & d & Ha).
  assert (Hdec : decodes Account s (key acc_i) (mk_account mt o 0 d Uninitialized None 0 None)).
  { split; rewrite Hz; [by rewrite length_replicate|exact Ha]. }
  destruct (pack_over (mk_account (key mint_i) (key owner_i) 0 None Initialized None 0 None) _ acc_i s Hdec)
    as (s' & E & Hs'); [by repeat split|].
  exists s'. split; [|exact Hs']. run_initialize_account Hz Hr Hdec Hex.
  rewrite !bool_decide_eq_false_2 by done. cbn [negb].
  erewrite stM_bind_run.
  2: { unfold borrow_data. erewrite stM_bind_run by reflexivity.
       erewrite stM_bind_run by (unfold lift; by rewrite (proj2 (pack_unpack_Ok _ m) (conj Hml (conj Hmu Hmi)))). reflexivity. }
  by erewrite stM_bind_run by reflexivity.
Qed.
(** an account of the native mint starts with its lamports above the reserve *)
Lemma fresh_native_initialised s acc_i mint_i owner_i rent_i rent :
  let reserve := rent_minimum_balance rent (Z.of_nat ACCOUNT_LEN) in
  let lam := cell_lamports (get_cell s (key acc_i)) in
  cell_data (get_cell s (key acc_i)) = replicate ACCOUNT_LEN x00 -> key mint_i = native_mint_id ->
  rent_from_account_info rent_i (get_cell s (key rent_i)) = Ok rent ->
  rent_is_exempt rent lam (Z.of_nat ACCOUNT_LEN) = true -> reserve <= lam -> u64_range lam ->
  exists s', process_initialize_account [acc_i; mint_i; owner_i; rent_i] s = (Ok tt, s') /\
    decodes Account s' (key acc_i)
      (mk_account (key mint_i) (key owner_i) (lam - reserve) None Initialized (Some reserve) 0 None) /\
    changed_at (key acc_i) s s'.
Proof.
  intros reserve lam Hz Hn Hr Hex Hle Hlam. destruct zero_account as (mt & o & d & Ha).
  pose proof (rent_minimum_balance_range rent (Z.of_nat ACCOUNT_LEN)) as Hres. fold reserve in Hres.
  assert (Hdec : decodes Account s (key acc_i) (mk_account mt o 0 d Uninitialized None 0 None)).
  { split; rewrite Hz; [by rewrite length_replicate|exact Ha]. }
  destruct (pack_over (mk_account (key mint_i) (key owner_i) (lam - reserve) None Initialized (Some reserve) 0 None) _ acc_i s Hdec)
    as (s' & E & Hs').
  { clearbody reserve lam. unfold u64_range in Hlam, Hres. split; [|split]; cbn; unfold u64_range; [lia|lia|exact Hres]. }
  exists s'. split; [|exact Hs']. run_initialize_account Hz Hr Hdec Hex.
  rewrite !bool_decide_eq_true_2 by done. cbn [negb].
  erewrite stM_bind_run by reflexivity.
  erewrite stM_bind_run.
  2: { erewrite stM_bind_run by reflexivity. rewrite Hz. unfold len. rewrite length_replicate. fold reserve lam.
       erewrite stM_bind_run; [reflexivity|]. unfold lift, checked_sub. rewrite (proj2 (Z.leb_le _ _) Hle). reflexivity. }
  exact E.
Qed.
End Initialising.

Section InitialisingPool.
Context `{SDK : SolanaSdk} {LAWS : SolanaSdkLaws SDK} `{RT : Runtime} `{BC : Bincode} `{PAD : StructPadding} `{BP : BuildProfile}.
Context {program_id : Pubkey} (s : Store) (init : InitArgs).
Context (pool_i owner_i list_i mint_i fee_i clock_i rent_i token_i : AccountInfo) (c : Clock) (rent : Rent) (m : Mint) (a : Account).
(** zeroed accounts for the pool and its list, and a fee account and a mint
    of the token program, the mint under the pool's withdraw address *)
Definition new_pool_accounts : Prop :=
  key pool_i <> key list_i /\ is_signer owner_i = true /\
  cell_data (get_cell s (key pool_i)) = replicate STAKE_POOL_LEN x00 /\
  cell_data (get_cell s (key list_i)) = replicate VALIDATOR_STAKE_LIST_LEN x00 /\
  rent_is_exempt rent (cell_lamports (get_cell s (key pool_i))) (Z.of_nat STAKE_POOL_LEN) = true /\
  rent_is_exempt rent (cell_lamports (get_cell s (key list_i))) (Z.of_nat VALIDATOR_STAKE_LIST_LEN) = true /\
  cell_owner (get_cell s (key fee_i)) = key token_i /\ cell_owner (get_cell s (key mint_i)) = key token_i /\
  decodes Account s (key fee_i) a /\ acc_mint a = key mint_i /\ decodes Mint s (key mint_i) m /\
  mint_authority m = Some (find_authority_bump_seed program_id (key pool_i) AUTHORITY_WITHDRAW).1 /\
  clock_from_account_info clock_i (get_cell s (key clock_i)) = Ok c /\
  rent_from_account_info rent_i (get_cell s (key rent_i)) = Ok rent.
Context (Hnew : new_pool_accounts).
Let accounts := [pool_i; owner_i; list_i; mint_i; fee_i; clock_i; rent_i; token_i].

(** the checks before the fee's *)
Ltac run_to_fee :=
  destruct Hnew as (Hne & Hs & Hzp & Hzl & Hep & Hel & Hof & Hom & Hda & Ham & Hdm & Hauth & Hc & Hr);
  destruct zero_pool_read as (p0 & Hp0 & Hi0 & _ & _);
  unfold process_initialize, accounts;
  do 6 (erewrite stM_bind_run by apply next_info_run; cbv beta iota);
  erewrite stM_bind_run by (apply read_clock_Ok; split; [reflexivity|exact Hc]);
  erewrite stM_bind_run by apply next_info_run; cbv beta iota;
  erewrite stM_bind_run by (apply read_rent_run; exact Hr);
  erewrite stM_bind_run by apply next_info_run; cbv beta iota;
  erewrite stM_bind_run by (apply fail_if_run; by rewrite Hs);
  erewrite stM_bind_run by (apply read_stake_pool_Ok; split; [reflexivity|unfold pool_at; rewrite Hzp; exact Hp0]);
  erewrite stM_bind_run by (by apply fail_if_run);
  erewrite stM_bind_run by
    (apply read_validator_stake_list_Ok; split; [reflexivity|unfold list_at; rewrite Hzl; exact zero_list_read]);
  erewrite stM_bind_run by (by apply fail_if_run); cbv zeta;
  do 2 (erewrite stM_bind_run by reflexivity);
  erewrite stM_bind_run by (apply fail_if_run, negb_false_iff; rewrite Hzp; unfold len; rewrite length_replicate; exact Hep);
  do 2 (erewrite stM_bind_run by reflexivity);
  erewrite stM_bind_run by (apply fail_if_run, negb_false_iff; rewrite Hzl; unfold len; rewrite length_replicate; exact Hel).
Lemma fresh_pool_initialised :
  fee_numerator (init_fee init) <= fee_denominator (init_fee init) ->
  succeeds (process_initialize program_id init accounts) s.
Proof using Hnew LAWS.
  intros Hfee. unfold succeeds. run_to_fee.
  erewrite stM_bind_run by (apply fail_if_run; by apply Z.ltb_ge).
  erewrite stM_bind_run by reflexivity.
  erewrite stM_bind_run by (apply fail_if_run, negb_false_iff; by apply bool_decide_eq_true_2).
  erewrite stM_bind_run by reflexivity.
  erewrite stM_bind_run by (apply fail_if_run, negb_false_iff; by apply bool_decide_eq_true_2).
  erewrite stM_bind_run by reflexivity.
  erewrite stM_bind_run by (apply lift_run; exact (proj2 Hda)).
  erewrite stM_bind_run by (apply fail_if_run, negb_false_iff; by apply bool_decide_eq_true_2).
  destruct (find_authority_bump_seed program_id (key pool_i) AUTHORITY_DEPOSIT) as [dk db].
  destruct (find_authority_bump_seed program_id (key pool_i) AUTHORITY_WITHDRAW) as [wk wb]. cbn [fst] in Hauth.
  erewrite stM_bind_run by reflexivity.
  erewrite stM_bind_run by (apply lift_run; exact (proj2 Hdm)).
  erewrite stM_bind_run by (apply fail_if_run, negb_false_iff; by apply bool_decide_eq_true_2).
  apply succeeds_bind_unit.
  - apply save_validator_stake_list_run; [by rewrite Hzl, length_replicate|exact empty_list_wf].
  - intros s1 Hs1. apply save_stake_pool_run. apply save_validator_stake_list_Ok in Hs1 as [Hs1 _].
    rewrite (data_written_ne _ _ _ _ (not_eq_sym Hne) Hs1), Hzp. by rewrite length_replicate.
Qed.
(** a fee above one is refused, and nothing is written *)
Lemma fresh_pool_fee_too_high :
  fee_denominator (init_fee init) < fee_numerator (init_fee init) ->
  process_initialize program_id init accounts s = (Err (pool_err FeeTooHigh), s).
Proof using Hnew LAWS.
  intros Hfee. run_to_fee. unfold mbind, stM_bind. by rewrite (proj2 (Z.ltb_lt _ _) Hfee).
Qed.
End InitialisingPool.
