(* ===== verification/ClientSamples.v ===== *)
(** * A concrete network for the clients

    An executable RPC client that serves one store, and the accounts of two
    sample commands: a withdrawal from a pool whose token is worth two
    lamports, and an update of the sample pool an epoch later. *)
From S2P Require Import Prelude Machine Sdk TokenInstruction TokenState TokenCodec TokenProcessor TokenFacts.
From S2P Require Import PoolInstruction PoolState StakeProgram PoolProcessor PoolCodec PoolMath PoolFacts.
From S2P Require Import PoolSpec PoolRefine PoolSim Models PoolForward Samples SampleRuns Client Cli ClientFacts.
#[local] Existing Instances model_sdk model_sdk_laws idle_runtime model_bincode zero_padding debug_build.

Record ModelTransaction := mk_tx { mtx_instructions : list Instruction; mtx_payer : Pubkey; mtx_signers : list Pubkey }.
(** the served accounts and the number of the next fresh key *)
Definition ModelWorld : Type := (Store * Z)%type.
Definition serve {A} (f : Store -> outcome ClientError A) : stM ModelWorld ClientError A := fun w => (f w.1, w).
Definition epoch_of (s : Store) : outcome ClientError Z :=
  match model_clock (mk_info model_clock_id false false) (get_cell s model_clock_id) with
  | Ok c => Ok (epoch c) | _ => Err RpcError end.
Definition memcmp (offset : Z) (bytes d : list byte) : bool := bool_decide (slice (Z.to_nat offset) (length bytes) d = bytes).
#[local] Instance model_client : Client := {|
  World := ModelWorld;
  Signer := Pubkey;
  signer_pubkey k := k;
  Blockhash := unit;
  FeeCalculator := Z;
  Transaction := ModelTransaction;
  keypair_new w := (Ok (key_of_Z w.2), (w.1, w.2 + 1));
  rpc_get_balance k := serve (fun s => Ok (cell_lamports (get_cell s k)));
  rpc_get_account k := serve (fun s => ok_or RpcError (s !! k));
  rpc_get_account_data k := serve (fun s => cell_data <$> ok_or RpcError (s !! k));
  rpc_get_minimum_balance n := serve (fun _ => Ok (wrap 64 (2 * n)));
  rpc_get_recent_blockhash := serve (fun _ => Ok (tt, 5000));
  rpc_get_epoch := serve epoch_of;
  rpc_get_program_accounts_memcmp program offset bytes := serve (fun s =>
    Ok (filter (fun a => (if bool_decide (cell_owner a.2 = program) then memcmp offset bytes (cell_data a.2) else false) = true)
          (map_to_list s)));
  rpc_send_and_confirm _ := mret tt;
  calculate_fee f _ := f;
  new_with_payer ixs payer := mk_tx ixs payer [];
  transaction_sign tx signers _ := Ok (mk_tx (mtx_instructions tx) (mtx_payer tx) signers);
  tx_instructions := mtx_instructions;
  sol_to_lamports f := u64_of_f64 (f64_mul f (f64_of_u64 1000000000));
|}.
Lemma ok_or_lookup_get (s : Store) k c : ok_or RpcError (s !! k) = Ok c -> get_cell s k = c.
Proof. intros H%ok_or_Ok. unfold get_cell. by rewrite H. Qed.
Lemma serve_chain {A} (f : Store -> outcome ClientError A) w r w' : serve f w = (r, w') -> w'.1 = w.1.
Proof. by intros [= _ <-]. Qed.
Lemma serve_Ok {A} (f : Store -> outcome ClientError A) w a w' : serve f w = (Ok a, w') -> f w.1 = Ok a /\ w' = w.
Proof. by intros [= -> <-]. Qed.
Lemma model_clock_key i j c : key i = key j -> model_clock i c = model_clock j c.
Proof. unfold model_clock. by intros ->. Qed.
Lemma served_epoch s e i :
  key i = model_clock_id ->
  epoch_of s = Ok e ->
  model_clock i (get_cell s model_clock_id) = Ok (mk_clock e).
Proof.
  intros Hi. unfold epoch_of. rewrite (model_clock_key i (mk_info model_clock_id false false)) by exact Hi.
  generalize (model_clock (mk_info model_clock_id false false) (get_cell s model_clock_id)).
  intros [[c]| |]; [|done..]. cbn [epoch]. by intros [= ->].
Qed.
#[local] Instance model_client_laws : ClientLaws model_client model_sdk fst.
Proof.
  split.
  - intros w r w' H. exact (eq_sym (f_equal (fun p => p.2.1) H)).
  - intros k w r w' H. exact (serve_chain _ _ _ _ H).
  - intros k w r w' H. exact (serve_chain _ _ _ _ H).
  - intros k w r w' H. exact (serve_chain _ _ _ _ H).
  - intros n w r w' H. exact (serve_chain _ _ _ _ H).
  - intros w r w' H. exact (serve_chain _ _ _ _ H).
  - intros w r w' H. exact (serve_chain _ _ _ _ H).
  - intros k z d w r w' H. exact (serve_chain _ _ _ _ H).
  - intros k w c w' [H _]%serve_Ok. by apply ok_or_lookup_get.
  - intros k w d w' [H _]%serve_Ok. apply outcome_fmap_Ok in H as (c & H & <-). by rewrite (ok_or_lookup_get _ _ _ H).
  - intros w e w' i H Hi. exact (served_epoch _ _ _ Hi (proj1 (serve_Ok epoch_of w e w' H))).
  - intros ixs payer. reflexivity.
  - intros tx signers h tx' H. injection H as <-. reflexivity.
Qed.

Definition PAYER : Pubkey := key_of_Z 200.
Definition sample_config : Config := mk_config false USER PAYER.
(** ** The withdrawal *)
Definition client_pool : StakePool :=
  mk_stake_pool 1 OWNER 255 255 KL MINT FEE_ACCOUNT spl_token_id 6000000000 3000000000 7 (mk_fee 100 3).
Definition BURN_FROM : Pubkey := key_of_Z 201.
Definition STAKE1 : Pubkey := key_of_Z 202.
Definition STAKE2 : Pubkey := key_of_Z 203.
Definition CLIENT_AUTH : Pubkey := (find_authority_bump_seed spl_stake_pool_id KP AUTHORITY_WITHDRAW).1.
Definition stake_bytes : list byte := replicate 44 x00 ++ to_bytes CLIENT_AUTH ++ replicate 124 x00.
Definition client_cells : list (Pubkey * Cell) :=
  [ (KP, mk_cell 5000 (pool_bytes client_pool) spl_stake_pool_id);
    (BURN_FROM, token_cell (token_account MINT USER 2000000000));
    (STAKE1, mk_cell 3000000000 stake_bytes stake_program_id);
    (STAKE2, mk_cell 2500000000 stake_bytes stake_program_id);
    (PAYER, mk_cell 1000000 [] default_pubkey) ].
Definition client_store : Store := store_of client_cells.
Definition client_world : World := (client_store, 1000).

Lemma client_pool_wf : StakePool_wf client_pool.
Proof. by repeat split. Qed.
Lemma served_data (s : Store) n k c : s !! k = Some c -> rpc_get_account_data k (s, n) = (Ok (cell_data c), (s, n)).
Proof. intros H. unfold rpc_get_account_data. cbn [model_client]. unfold serve. cbn [fst]. by rewrite H. Qed.
Lemma served_pool (s : Store) n k c p :
  s !! k = Some c -> stake_pool_deserialize (cell_data c) = Ok p -> rpc_get_pool k (s, n) = (Ok p, (s, n)).
Proof.
  intros Hc Hp. unfold rpc_get_pool. erewrite stM_bind_run; [|exact (served_data _ _ _ _ Hc)].
  unfold lift. by rewrite Hp.
Qed.
Lemma client_pool_cell : client_store !! KP = Some (mk_cell 5000 (pool_bytes client_pool) spl_stake_pool_id).
Proof. vm_compute. reflexivity. Qed.
Lemma client_pool_bytes : stake_pool_deserialize (pool_bytes client_pool) = Ok client_pool.
Proof. exact (proj1 (proj2_sig (stored_pool client_pool) client_pool_wf)). Qed.
Lemma client_get_pool : rpc_get_pool KP client_world = (Ok client_pool, client_world).
Proof. exact (served_pool client_store 1000 KP _ client_pool client_pool_cell client_pool_bytes). Qed.
Lemma withdraw_sample_runs :
  exists tx w', command_withdraw sample_config KP 1500000000 BURN_FROM None client_world = (Ok (Some tx), w').
Proof.
  unfold command_withdraw. erewrite stM_bind_run; [|exact client_get_pool].
  match goal with |- exists tx w', ?m client_world = _ =>
    assert (H : match (m client_world).1 with Ok (Some _) => True | _ => False end) by (vm_compute; exact I);
    destruct (m client_world) as [[[tx|]| |] w'] eqn:E; cbn [fst] in H end; [|contradiction..].
  exists tx, w'. reflexivity.
Qed.

(** ** The update, an epoch later *)
Definition update_store : Store :=
  store_of ((PAYER, mk_cell 1000000 [] default_pubkey) :: (clock_id, mk_cell 1 (clock_data 8) default_pubkey) :: the_cells).
Definition update_world : World := (update_store, 1000).
Lemma update_store_wf : store_wf update_store.
Proof. apply store_of_wf. unfold the_cells. repeat (apply Forall_cons; split; [by cbn|]). by apply Forall_nil. Qed.
Lemma update_pool_cell : update_store !! KP = Some (mk_cell 5000 (pool_bytes the_pool) PID).
Proof. vm_compute. reflexivity. Qed.
Lemma update_list_cell : update_store !! KL = Some (mk_cell 100000 (list_bytes the_list) PID).
Proof. vm_compute. reflexivity. Qed.
Lemma update_pool_at : pool_at update_store KP the_pool.
Proof.
  unfold pool_at, get_cell. rewrite update_pool_cell. exact (proj1 (proj2_sig (stored_pool the_pool) the_pool_wf)).
Qed.
Lemma update_list_at : list_at update_store KL the_list.
Proof.
  unfold list_at, get_cell. rewrite update_list_cell. exact (proj1 (proj2_sig (stored_list the_list) the_list_wf)).
Qed.
Lemma the_list_bytes : try_program (validator_stake_list_deserialize (list_bytes the_list)) = Ok the_list.
Proof. apply map_err_Ok. exact (proj1 (proj2_sig (stored_list the_list) the_list_wf)). Qed.
Lemma the_pool_bytes : stake_pool_deserialize (pool_bytes the_pool) = Ok the_pool.
Proof. exact (proj1 (proj2_sig (stored_pool the_pool) the_pool_wf)). Qed.
Lemma update_sample_runs :
  exists tx w', command_update sample_config KP update_world = (Ok (Some tx), w').
Proof.
  unfold command_update.
  erewrite stM_bind_run; [|exact (served_pool update_store 1000 KP _ the_pool update_pool_cell the_pool_bytes)].
  erewrite stM_bind_run; [|exact (served_data update_store 1000 KL _ update_list_cell)].
  erewrite stM_bind_run; [|unfold lift; cbn [cell_data]; rewrite the_list_bytes; reflexivity].
  match goal with |- exists tx w', ?m ?w0 = _ =>
    assert (H : match (m w0).1 with Ok (Some _) => True | _ => False end) by (vm_compute; exact I);
    destruct (m w0) as [[[tx|]| |] w'] eqn:E; cbn [fst] in H end; [|contradiction..].
  exists tx, w'. reflexivity.
Qed.
Lemma update_clock :
  clock_from_account_info (mk_info clock_id false false) (get_cell update_store clock_id) = Ok (mk_clock 8).
Proof. vm_compute. reflexivity. Qed.
Lemma update_keys : KP <> KL /\ KP <> clock_id /\ KL <> clock_id.
Proof. split; [|split]; by vm_compute. Qed.
