(* ===== verification/ClientTheorems.v ===== *)
(** * The properties of the clients

    The accounts a withdrawal is taken from, the conversions against the
    program's own, what the withdrawal command asks of the program, and the
    update command run against the program. *)
From S2P Require Import Prelude Machine Sdk TokenInstruction TokenState TokenProcessor.
From S2P Require Import PoolInstruction PoolState StakeProgram PoolProcessor PoolCodec PoolMath PoolFacts PoolSpec PoolFrame PoolRefine PoolForward Composition TokenFrame.
From S2P Require Import Client Cli MetaCli ClientFacts Models Samples ClientSamples.
From Stdlib Require Import Sorted.

Section Pick.
Context `{SDK : SolanaSdk} `{BP : BuildProfile}.
Implicit Types accounts : list (Pubkey * Cell).

Definition more_lamports (a b : Pubkey * Cell) : bool := cell_lamports b.2 <=? cell_lamports a.2.
Lemma total_capacity_Permutation a b : a ≡ₚ b -> total_capacity a = total_capacity b.
Proof. unfold total_capacity. induction 1; cbn; lia. Qed.
Lemma sort_eligible mb accounts : eligible mb (sort_by more_lamports accounts) ≡ₚ eligible mb accounts.
Proof. unfold eligible. by rewrite sort_by_Permutation. Qed.

(** C37: the choice of the accounts to withdraw from is the greedy one, in any
    build and for any balances. The accounts come in the order of their
    balances, none is used twice, all but the last give all they are taken to
    be able to give and the last what remains, and together they give the
    amount or all they can; if they cannot give the amount the choice fails.
    What an account above the minimum balance is taken to be able to give is
    its balance less the lamport balance that must stay in it; for an account
    that holds less than that the subtraction wraps around, or panics in a
    build with overflow checks: then picking such an account is a panic, and in
    a release build it is taken to give almost 2^64 lamports. *)
Theorem pick_withdraw_accounts_spec accounts amount min_balance :
  u64_range MIN_STAKE_BALANCE -> u64_range amount -> Forall (fun a => u64_range (cell_lamports a.2)) accounts ->
  let candidates := eligible min_balance (sort_by more_lamports accounts) in
  StronglySorted (fun a b => cell_lamports b.2 <= cell_lamports a.2) (sort_by more_lamports accounts) /\
  Forall (fun a => capacity a = if MIN_STAKE_BALANCE <=? cell_lamports a.2 then cell_lamports a.2 - MIN_STAKE_BALANCE
                                else 2 ^ 64 + cell_lamports a.2 - MIN_STAKE_BALANCE) candidates /\
  exists ws,
    pick_withdraw_accounts accounts amount min_balance =
      (if overflow_checks && existsb deficient ws then Panic
       else if total_capacity (eligible min_balance accounts) <? amount then Err (NotEnoughStake amount)
       else Ok ws) /\
    total_picked ws = Z.min amount (total_capacity (eligible min_balance accounts)) /\
    (picked_of <$> ws) `prefix_of` candidates /\
    Forall (fun w => 0 <= wa_amount w <= capacity (picked_of w)) ws /\
    Forall (fun w => wa_amount w = capacity (picked_of w)) (removelast ws).
Proof.
  intros H0 Hx Hf candidates. split.
  { pose proof (sort_by_sorted more_lamports) as Hs. unfold more_lamports in Hs at 1 2 3 4 5 6.
    specialize (Hs ltac:(intros; rewrite !Z.leb_le; lia) ltac:(intros ???; rewrite !Z.leb_le; lia) accounts).
    revert Hs. generalize (sort_by more_lamports accounts). induction 1 as [|a l Hs IH Ha]; constructor; [done|].
    eapply Forall_impl; [exact Ha|]. intros b. by rewrite Z.leb_le. }
  assert (Hsorted : Forall (fun a => u64_range (cell_lamports a.2)) (sort_by more_lamports accounts))
    by by rewrite sort_by_Permutation.
  split.
  { unfold candidates, eligible. apply Forall_forall. intros a [_ Hin]%list_elem_of_filter.
    apply capacity_value; [done|]. by apply (proj1 (Forall_forall _ _) Hsorted). }
  rewrite <- (total_capacity_Permutation _ _ (sort_eligible min_balance accounts)). fold candidates.
  destruct (pick_loop_picks min_balance (sort_by more_lamports accounts) [] amount H0 Hx Hsorted) as (ws & r & Hp & Hr).
  apply picks_spec in Hp as (Ht & Hr0 & Hpre & Hle & Hlast & Hall & Hz); [|apply Hx]. fold candidates in Hpre, Hall, Hz.
  destruct Hz as [Hle2 Hz]; [by apply Forall_true; intros a; apply capacity_range|].
  exists ws. split; [|split; [|by split_and!]].
  - unfold pick_withdraw_accounts. fold more_lamports. rewrite Hr. case_match; [done|]. cbn [mbind outcome_bind app].
    destruct (Z.ltb_spec (total_capacity candidates) amount) as [Hlt|Hge].
    + by rewrite (proj2 (Z.ltb_lt 0 r)) by lia.
    + by rewrite (Hz Hge).
  - destruct (Z.leb_spec amount (total_capacity candidates)) as [Hge|Hlt]; [rewrite (Hz Hge) in Ht; lia|].
    destruct Hall as [_ Hall]; lia.
Qed.
End Pick.

Section Conversions.
Context `{SDK : SolanaSdk} `{BP : BuildProfile}.
(** In a release build an account above the rent but below that minimum makes
    the subtraction wrap around: the whole amount is taken from it, whatever
    it holds. *)
Theorem pick_withdraw_accounts_underflow k c amount min_balance :
  overflow_checks = false -> min_balance < cell_lamports c < MIN_STAKE_BALANCE -> 0 <= cell_lamports c ->
  MIN_STAKE_BALANCE < 2 ^ 64 -> 0 < amount <= 2 ^ 64 + cell_lamports c - MIN_STAKE_BALANCE ->
  pick_withdraw_accounts [(k, c)] amount min_balance = Ok [mk_withdraw_account k c amount].
Proof.
  intros Hov Hc H0 Hm Hx. unfold pick_withdraw_accounts. cbn [sort_by foldr insert_by pick_loop].
  destruct (Z.leb_spec (cell_lamports c) min_balance); [lia|].
  assert (Hsub : plain_sub (E:=ClientError) (cell_lamports c) MIN_STAKE_BALANCE =
    Ok (2 ^ 64 + cell_lamports c - MIN_STAKE_BALANCE)).
  { unfold plain_sub, u64_result. rewrite decide_False by (unfold u64_range; lia). rewrite Hov. f_equal. unfold wrap.
    rewrite <- (Z.mod_small (2 ^ 64 + cell_lamports c - MIN_STAKE_BALANCE) (2 ^ 64)) by lia.
    replace (2 ^ 64 + cell_lamports c - MIN_STAKE_BALANCE) with (cell_lamports c - MIN_STAKE_BALANCE + 1 * 2 ^ 64) by lia.
    by rewrite Z_mod_plus_full. }
  rewrite Hsub. cbn [mbind outcome_bind]. rewrite Z.min_r by lia.
  rewrite plain_sub_in by (unfold u64_range; lia). cbn [mbind outcome_bind]. by rewrite Z.sub_diag.
Qed.

Lemma client_mul_div_spec a b c :
  u64_range a -> u64_range b -> u64_range c ->
  client_mul_div a b c = match mul_div a b c with
                         | Some t => Ok t
                         | None => if c =? 0 then Panic else Ok (wrap 64 (a * b / c))
                         end.
Proof.
  intros Ha Hb Hc. unfold client_mul_div, mul_div.
  assert (Hm : checked_mul128 a b = Some (a * b)).
  { apply checked_mul128_Some. split; [done|]. unfold u64_range in *. nia. }
  rewrite Hm. cbn. unfold checked_div128, u64_try_from. destruct (Z.eqb_spec c 0); [done|]. cbn.
  destruct (Z.ltb_spec (a * b / c) (2 ^ 64)); cbn; [|done]. f_equal. apply Z.mod_small. split; [|done].
  unfold u64_range in *. apply Z.div_pos; nia.
Qed.
(** C38: the clients convert between lamports and pool tokens as the program
    does whenever the program's conversion succeeds; where the quotient does
    not fit 64 bits the program fails and the client truncates, and on an empty
    pool the client panics. *)
Theorem client_conversions_agree p x :
  StakePool_wf p -> u64_range x ->
  stake_amount_to_pool_tokens p x =
    match calc_pool_withdraw_amount p x with
    | Some t => Ok t
    | None => if sp_stake_total p =? 0 then Panic else Ok (wrap 64 (x * sp_pool_total p / sp_stake_total p))
    end /\
  pool_tokens_to_stake_amount p x =
    match calc_lamports_amount p x with
    | Some l => Ok l
    | None => if sp_pool_total p =? 0 then Panic else Ok (wrap 64 (x * sp_stake_total p / sp_pool_total p))
    end.
Proof.
  intros Hw Hx. destruct Hw as (? & ? & ? & ? & ? & ? & ?). split; by apply client_mul_div_spec.
Qed.
End Conversions.

Section Withdraw.
Context `{CL : Client} `{SDK : SolanaSdk} {chain : World -> Store} {CLL : ClientLaws CL SDK chain}.
Context `{BC : Bincode} `{PAD : StructPadding} `{BP : BuildProfile}.
Ltac inv_run_ext ::= inv_query.

Lemma withdraw_data prog pool lst auth from to user burn mint tok stk x ix :
  withdraw prog pool lst auth from to user burn mint tok stk x = Ok ix -> u64_range x ->
  ix_program_id ix = prog /\ pool_instruction_deserialize (ix_data ix) = Ok (Withdraw x).
Proof.
  unfold withdraw. intros (d & Hd & [= <-])%outcome_bind_Ok Hx. split; [done|].
  destruct (instruction_roundtrip (Withdraw x) Hx) as (bs & Hs & _ & Hp). cbn [ix_data].
  rewrite Hd in Hs. by injection Hs as ->.
Qed.
(** a withdrawal of [wa_amount] from the picked account *)
Definition withdraws_from (wa : WithdrawAccount) (ix : Instruction) : Prop :=
  ix_program_id ix = spl_stake_pool_id /\
  pool_instruction_deserialize (ix_data ix) = Ok (Withdraw (wa_amount wa)) /\
  meta_pubkey <$> (ix_accounts ix !! 3%nat) = Some (wa_pubkey wa).
Lemma withdraw_loop config pool p authority burn receiver ws vars w vars' w' :
  foldM (withdraw_from_account config pool p authority burn receiver) vars ws w = (Ok vars', w') ->
  Forall (fun wa => u64_range (wa_amount wa)) ws ->
  chain w' = chain w /\ exists creates ixs,
    wv_instructions vars' = wv_instructions vars ++ creates ++ ixs /\
    (length creates <= 1)%nat /\ (wv_receiver vars <> None -> creates = []) /\ Forall2 withdraws_from ws ixs.
Proof.
  revert vars w. induction ws as [|wa ws IH]; intros vars w; cbn [foldM].
  { intros Hr _. inv_run. split; [done|]. exists [], []. rewrite !app_nil_r. split_and!; [done|cbn; lia|done|constructor]. }
  intros (vars1 & w1 & Hstep & Hloop)%stM_bind_Ok [Hwa Hws]%Forall_cons.
  apply IH in Hloop as (Hc1 & creates & ixs & Hix & Hlen & Hnone & Hf); [|done].
  assert (Hs : chain w1 = chain w /\ wv_receiver vars1 <> None /\ exists created ix,
    wv_instructions vars1 = wv_instructions vars ++ created ++ [ix] /\ (length created <= 1)%nat /\
    (wv_receiver vars <> None -> created = []) /\ withdraws_from wa ix).
  { unfold withdraw_from_account in Hstep. destruct vars as [ins sg tot rcv]. cbn [wv_receiver wv_instructions wv_signers wv_total] in *.
    destruct rcv as [k|]; inv_run; cbn [wv_receiver wv_instructions] in *; simplify_eq;
    match goal with H : unwrap _ = Ok _ |- _ => apply unwrap_Ok in H end; simplify_eq;
    match goal with H : withdraw _ _ _ _ _ _ _ _ _ _ _ _ = Ok ?ix |- _ =>
      pose proof H as Hacc; apply withdraw_data in H as [Hp Hd]; [|done];
      assert (withdraws_from wa ix) by (split_and!; [done|done|];
        unfold withdraw in Hacc; apply outcome_bind_Ok in Hacc as (? & _ & [= <-]); done) end.
    - split_and!; [done|done|]. exists []; eexists. split_and!; [reflexivity|cbn; lia|done|done].
    - split_and!; [congruence|done|]. do 2 eexists. rewrite <- app_assoc. split_and!; [reflexivity|cbn; lia|done|done]. }
  destruct Hs as (Hc & Hr1 & created & ix & Hix1 & Hlen1 & Hnone1 & Hwf). specialize (Hnone Hr1) as ->.
  split; [congruence|]. exists created, (ix :: ixs). rewrite Hix, Hix1, <- !app_assoc.
  split_and!; [done|done|done|by constructor].
Qed.

Lemma client_mul_div_range a b c x : client_mul_div a b c = Ok x -> u64_range x.
Proof.
  unfold client_mul_div. intros (p & _ & (q & _ & [= <-])%outcome_bind_Ok)%outcome_bind_Ok.
  by apply Z.mod_pos_bound.
Qed.
Lemma prepare_withdraw_run k x w ws w' :
  prepare_withdraw_accounts k x w = (Ok ws, w') -> u64_range x ->
  chain w' = chain w /\ total_picked ws = x /\ Forall (fun wa => u64_range (wa_amount wa)) ws.
Proof.
  unfold prepare_withdraw_accounts. intros (accs & w1 & Hacc & Hr)%stM_bind_Ok Hx.
  apply get_authority_accounts_run in Hacc as C1.
  apply stM_bind_Ok in Hr as (u & ? & Hu & Hr). apply fail_if_Ok in Hu as [_ <-].
  apply stM_bind_Ok in Hr as (rent & w2 & Hrent & Hr). apply get_minimum_balance_run in Hrent as C2.
  apply stM_bind_Ok in Hr as (mb & ? & Hmb & Hr). apply lift_Ok in Hmb as [_ <-]. apply lift_Ok in Hr as [Hr <-].
  split; [congruence|]. by eapply pick_accounts_total.
Qed.

(** C39: the withdrawal command approves the pool tokens it was asked to burn,
    and then asks the program for withdrawals whose arguments add up to the
    lamports those tokens are worth: the program reads each argument as pool
    tokens to burn, so unless a token is worth one lamport the two differ. *)
Theorem command_withdraw_asks config pool amount burn_from receiver w tx w' :
  command_withdraw config pool amount burn_from receiver w = (Ok (Some tx), w') -> u64_range amount ->
  exists p authority ws x approve_ix creates ixs,
    pool_at (chain w) pool p /\
    authority_id spl_stake_pool_id pool AUTHORITY_WITHDRAW (sp_withdraw_bump_seed p) = Ok authority /\
    approve spl_token_id burn_from authority (owner_pubkey config) [] amount = Ok approve_ix /\
    pool_tokens_to_stake_amount p amount = Ok x /\
    tx_instructions tx = approve_ix :: creates ++ ixs /\ (length creates <= 1)%nat /\
    Forall2 withdraws_from ws ixs /\ total_picked ws = x.
Proof.
  unfold command_withdraw. intros Hr Hx.
  apply stM_bind_Ok in Hr as (p & w1 & Hp & Hr). apply get_pool_run in Hp as [Hp C1].
  apply stM_bind_Ok in Hr as (authority & ? & Ha & Hr). apply lift_Ok in Ha as [Ha%unwrap_result_Ok <-].
  apply stM_bind_Ok in Hr as (d & w2 & Hd & Hr). apply get_account_data_run in Hd as [_ C2].
  apply stM_bind_Ok in Hr as (a & ? & Ha' & Hr). apply lift_Ok in Ha' as [_ <-].
  apply stM_bind_Ok in Hr as (u1 & ? & Hu & Hr). apply fail_if_Ok in Hu as [_ <-].
  apply stM_bind_Ok in Hr as (u2 & ? & Hu & Hr). apply fail_if_Ok in Hu as [_ <-].
  apply stM_bind_Ok in Hr as (x & ? & Hsol & Hr). apply lift_Ok in Hsol as [Hsol <-].
  pose proof (client_mul_div_range _ _ _ _ Hsol) as Hxr.
  apply stM_bind_Ok in Hr as (ws & w3 & Hws & Hr). apply prepare_withdraw_run in Hws as (C3 & Ht & Hf); [|done].
  apply stM_bind_Ok in Hr as (rcv & w4 & Hk & Hr). apply keypair_new_run in Hk as C4.
  apply stM_bind_Ok in Hr as (aix & ? & Hap & Hr). apply lift_Ok in Hap as [Hap <-]. apply map_err_Ok in Hap.
  apply stM_bind_Ok in Hr as (vars & w5 & Hloop & Hr).
  apply withdraw_loop in Hloop as (C5 & creates & ixs & Hix & Hlen & _ & Hall); [|done].
  apply stM_bind_Ok in Hr as ([h f] & w6 & Hh & Hr).
  apply stM_bind_Ok in Hr as (z & ? & Hz & Hr). apply lift_Ok in Hz as [_ <-].
  apply stM_bind_Ok in Hr as (u3 & w7 & Hu & Hr).
  apply stM_bind_Ok in Hr as (tx' & ? & Htx & [[= ->] _]%stM_ret_Ok). apply lift_Ok in Htx as [Htx <-].
  apply tx_instructions_sign in Htx. rewrite tx_instructions_new in Htx.
  exists p, authority, ws, x, aix, creates, ixs. rewrite Htx, Hix. cbn [wv_instructions app]. by split_and!.
Qed.
End Withdraw.

(** ** The update command against the program *)
Section Update.
Context `{SDK : SolanaSdk} {LAWS : SolanaSdkLaws SDK}.
Context `{RT : Runtime} `{BC : Bincode} `{PAD : StructPadding} `{BP : BuildProfile}.
Implicit Types (s : Store) (l : ValidatorStakeList) (p : StakePool).

(** the instructions of a transaction to the stake pool, one after the other *)
Fixpoint run_instructions (ixs : list Instruction) : M unit :=
  match ixs with
  | [] => mret tt
  | ix :: ixs => pool_process spl_stake_pool_id (info_of <$> ix_accounts ix) (ix_data ix);; run_instructions ixs
  end.
(** a record after an update in epoch [now]: an old one takes the lamports of
    the account whose key it holds, which is the validator's vote account, not
    the stake account that the documentation of the instruction and of the
    command name *)
Definition fresh_record (now : Z) s (r : ValidatorStakeInfo) : ValidatorStakeInfo :=
  if vsi_last_update_epoch r <? now
  then mk_validator_stake_info (vsi_validator_account r) (cell_lamports (get_cell s (vsi_validator_account r))) now
  else r.
(** the two stores hold the same but for the data at [kl] *)
Definition only_data_at (kl : Pubkey) s s' : Prop :=
  (forall k, k <> kl -> get_cell s' k = get_cell s k) /\ forall k, cell_lamports (get_cell s' k) = cell_lamports (get_cell s k).

Lemma refreshed_lamports now items s s' r :
  (forall k, cell_lamports (get_cell s' k) = cell_lamports (get_cell s k)) -> refreshed now items s' r = refreshed now items s r.
Proof. intros Hl. unfold refreshed. case_match; [|done]. by rewrite Hl. Qed.
Lemma refreshed_app now items1 items2 s r :
  refreshed now items2 s (refreshed now items1 s r) = refreshed now (items1 ++ items2) s r.
Proof.
  unfold refreshed. rewrite fmap_app. destruct (Z.ltb_spec (vsi_last_update_epoch r) now); cbn [andb].
  - destruct (decide (vsi_validator_account r ∈ key <$> items1)) as [H1|H1].
    + rewrite (bool_decide_eq_true_2 _ H1), (bool_decide_eq_true_2 (_ ∈ _ ++ _)) by (apply elem_of_app; by left).
      cbn. by rewrite Z.ltb_irrefl.
    + rewrite (bool_decide_eq_false_2 _ H1). rewrite (proj2 (Z.ltb_lt _ _)) by done. cbn [andb].
      erewrite bool_decide_ext; [reflexivity|]. rewrite elem_of_app. tauto.
  - by rewrite (proj2 (Z.ltb_ge _ _)).
Qed.

Lemma save_list_lamports l i : respects same_lamports (save_validator_stake_list l i).
Proof.
  unfold save_validator_stake_list. apply respects_bind; [apply _|by apply respects_borrow, _|]. intros d.
  apply respects_bind; [apply _|by apply respects_lift, _|]. intros d' s r s' [= <- <-]. apply set_data_same_lamports.
Qed.
Lemma update_list_lamports pid accounts : respects same_lamports (process_update_list_balance pid accounts).
Proof.
  unfold process_update_list_balance. repeat (first [apply save_list_lamports|touch_step]).
Qed.
Lemma update_list_forward s l list_i clock_i items c :
  store_wf s -> list_at s (key list_i) l -> vsl_is_initialized l = true ->
  clock_from_account_info clock_i (get_cell s (key clock_i)) = Ok c ->
  exists s', process_update_list_balance spl_stake_pool_id (list_i :: clock_i :: items) s = (Ok tt, s') /\
    list_at s' (key list_i) (set_vsl_validators (refreshed (epoch c) items s <$> vsl_validators l) l) /\
    only_data_at (key list_i) s s'.
Proof.
  intros Hw Hl Hi Hc.
  assert (Hs : succeeds (process_update_list_balance spl_stake_pool_id (list_i :: clock_i :: items)) s).
  { unfold process_update_list_balance. forward.
    eapply succeeds_bind; [apply update_records_run|]. cbv beta iota. case_match; [|by eexists].
    apply save_validator_stake_list_run; [by eapply list_at_length|].
    eapply records_wf_list; [by eapply list_at_wf|done|]. apply refreshed_all; [done|by eapply clock_epoch_range]. }
  destruct Hs as [s' Hr]. exists s'. split; [done|].
  destruct (update_list_run (program_id:=spl_stake_pool_id) _ s s' l _ Hr Hw eq_refl Hl)
    as (li & ci & its & c' & [= <- <- <-] & _ & Hc' & _ & _ & Hl' & Hne).
  rewrite Hc in Hc'. injection Hc' as <-. split; [done|]. split; [done|].
  exact (update_list_lamports _ _ _ _ _ Hr).
Qed.

(** the list updates of the command, one chunk after the other *)
Definition list_at_epoch now s kl l (keys : list Pubkey) s' : Prop :=
  list_at s' kl (set_vsl_validators
    (refreshed now ((fun k => mk_info k false false) <$> keys) s <$> vsl_validators l) l) /\ only_data_at kl s s'.
Lemma only_data_at_trans kl s1 s2 s3 : only_data_at kl s1 s2 -> only_data_at kl s2 s3 -> only_data_at kl s1 s3.
Proof. intros [H1 L1] [H2 L2]. split; intros; [by rewrite H2, H1|by rewrite L2, L1]. Qed.
Lemma update_list_balance_data prog kl ks ix :
  update_list_balance prog kl ks = Ok ix ->
  ix_accounts ix = meta_new kl false :: meta_new_readonly clock_id false :: ((fun k => meta_new_readonly k false) <$> ks) /\
  pool_instruction_deserialize (ix_data ix) = Ok UpdateListBalance.
Proof.
  unfold update_list_balance. intros (d & Hd & [= <-])%outcome_bind_Ok. split; [done|].
  destruct (instruction_roundtrip UpdateListBalance I) as (bs & Hs & _ & Hp). cbn [ix_data]. congruence.
Qed.
Lemma update_pool_balance_data prog kp kl ix :
  update_pool_balance prog kp kl = Ok ix ->
  ix_accounts ix = [meta_new kp false; meta_new kl false; meta_new_readonly clock_id false] /\
  pool_instruction_deserialize (ix_data ix) = Ok UpdatePoolBalance.
Proof.
  unfold update_pool_balance. intros (d & Hd & [= <-])%outcome_bind_Ok. split; [done|].
  destruct (instruction_roundtrip UpdatePoolBalance I) as (bs & Hs & _ & Hp). cbn [ix_data]. congruence.
Qed.
Lemma pool_process_dispatch accounts d i s :
  pool_instruction_deserialize d = Ok i ->
  pool_process spl_stake_pool_id accounts d s = process_pool_instruction spl_stake_pool_id accounts i s.
Proof. intros Hd. unfold pool_process. erewrite stM_bind_run; [|by apply lift_run]. done. Qed.
Lemma set_validators_twice a b l : set_vsl_validators a (set_vsl_validators b l) = set_vsl_validators a l.
Proof. by destruct l. Qed.

Lemma refreshed_nothing now s (rs : list ValidatorStakeInfo) : refreshed now [] s <$> rs = rs.
Proof.
  induction rs as [|r rs IH]; [done|]. rewrite fmap_cons, IH. f_equal. unfold refreshed.
  by rewrite bool_decide_eq_false_2, andb_false_r by apply not_elem_of_nil.
Qed.
Lemma update_chunks_run now kl l s cs ixs rest :
  store_wf s -> list_at s kl l -> vsl_is_initialized l = true -> kl <> clock_id ->
  clock_from_account_info (info_of (meta_new_readonly clock_id false)) (get_cell s clock_id) = Ok (mk_clock now) ->
  update_instructions kl cs = Ok ixs ->
  exists s', run_instructions (ixs ++ rest) s = run_instructions rest s' /\ list_at_epoch now s kl l (concat cs) s'.
Proof.
  revert l s ixs. induction cs as [|ks cs IH]; intros l s ixs Hw Hl Hi Hne Hc; cbn [update_instructions].
  { intros [= <-]. exists s. split; [done|]. split; [|by split]. cbn [concat]. rewrite refreshed_nothing. by destruct l. }
  intros (ix & Hix & (ixs' & Hixs & [= <-])%outcome_bind_Ok)%outcome_bind_Ok. apply map_err_Ok in Hix.
  apply update_list_balance_data in Hix as [Ha Hd]. cbn [app run_instructions].
  destruct (update_list_forward s l (info_of (meta_new kl false)) (info_of (meta_new_readonly clock_id false))
    (info_of <$> ((fun k => meta_new_readonly k false) <$> ks)) (mk_clock now) Hw Hl Hi Hc) as (s1 & Hr1 & Hl1 & Hd1).
  cbn [key info_of meta_pubkey meta_new meta_new_readonly] in Hl1, Hd1. rewrite <- list_fmap_compose in Hl1.
  destruct (IH _ s1 ixs' ltac:(intros k; unfold u64_range; rewrite (proj2 Hd1); apply Hw) Hl1 Hi Hne) as (s2 & Hr2 & Hl2 & Hd2);
    [by rewrite (proj1 Hd1) by congruence|done|].
  exists s2. split.
  - erewrite stM_bind_run; [exact Hr2|]. rewrite (pool_process_dispatch _ _ UpdateListBalance _ Hd), Ha. exact Hr1.
  - split; [|by eapply only_data_at_trans]. rewrite set_validators_twice in Hl2. cbn [vsl_validators set_vsl_validators] in Hl2.
    rewrite <- list_fmap_compose in Hl2. cbn [concat]. rewrite fmap_app.
    erewrite list_fmap_ext; [exact Hl2|]. intros _ r _. cbn [compose].
    rewrite (refreshed_lamports _ _ s s1) by apply Hd1. symmetry. apply refreshed_app.
Qed.

Lemma add_balances_forward c acc rs :
  0 <= acc -> Forall (fun r => epoch c <= vsi_last_update_epoch r /\ 0 <= vsi_balance r) rs ->
  acc + total_balance rs < 2 ^ 64 -> fold_outcome (add_balance c) acc rs = Ok (acc + total_balance rs).
Proof.
  intros H0 Hf. revert acc H0. induction Hf as [|r rs [He Hb] Hf IH]; intros acc H0; cbn [fold_outcome].
  { intros _. f_equal. cbn. lia. }
  change (total_balance (r :: rs)) with (vsi_balance r + total_balance rs). intros Hlt.
  assert (Hn : 0 <= total_balance rs).
  { clear -Hf. induction Hf as [|r rs [_ ?] _ IH]; [done|]. change (0 <= vsi_balance r + total_balance rs). lia. }
  unfold add_balance at 2. rewrite (proj2 (Z.ltb_ge _ _)) by done. cbn [err_if mbind outcome_bind].
  rewrite plain_add_in by (unfold u64_range; lia). cbn [mbind outcome_bind]. rewrite IH by lia. f_equal. lia.
Qed.
Lemma update_pool_forward s p l kp kl now :
  kp <> kl -> pool_at s kp p -> list_at s kl l -> sp_validator_stake_list p = kl ->
  sp_is_initialized p = true -> vsl_is_initialized l = true ->
  clock_from_account_info (info_of (meta_new_readonly clock_id false)) (get_cell s clock_id) = Ok (mk_clock now) ->
  Forall (fun r => now <= vsi_last_update_epoch r) (vsl_validators l) -> total_balance (vsl_validators l) < 2 ^ 64 ->
  exists s', process_update_pool_balance spl_stake_pool_id
      [info_of (meta_new kp false); info_of (meta_new kl false); info_of (meta_new_readonly clock_id false)] s = (Ok tt, s') /\
    pool_at s' kp (set_sp_last_update_epoch now (set_sp_stake_total (total_balance (vsl_validators l)) p)) /\
    forall k, k <> kp -> get_cell s' k = get_cell s k.
Proof.
  intros Hne Hp Hl Hk Hpi Hli Hc Hf Ht.
  assert (Hsum : fold_outcome (add_balance (mk_clock now)) 0 (vsl_validators l) = Ok (total_balance (vsl_validators l))).
  { apply (add_balances_forward (mk_clock now) 0); [done| |lia]. pose proof (list_at_wf _ _ _ Hl) as (_ & _ & _ & Hw).
    apply Forall_and. split; [exact Hf|]. eapply Forall_impl; [exact Hw|]. by intros r [[? _] _]. }
  assert (Hs : succeeds (process_update_pool_balance spl_stake_pool_id
    [info_of (meta_new kp false); info_of (meta_new kl false); info_of (meta_new_readonly clock_id false)]) s).
  { assert (Hk' : key (info_of (meta_new kl false)) = sp_validator_stake_list p) by (symmetry; exact Hk).
    unfold process_update_pool_balance. forward. apply save_stake_pool_run. by eapply pool_at_length. }
  destruct Hs as [s' Hr]. exists s'. split; [exact Hr|].
  destruct (update_pool_run (program_id:=spl_stake_pool_id) _ s s' p l kp kl Hr eq_refl Hp Hl Hk)
    as (? & ? & ? & ? & c & total & [= <- <- <- <-] & _ & _ & Hc' & _ & _ & _ & _ & Hsum' & Hp' & Hrest).
  cbn [key info_of meta_pubkey meta_new_readonly] in Hc'. rewrite Hc in Hc'. injection Hc' as <-.
  rewrite Hsum in Hsum'. injection Hsum' as <-. by split.
Qed.
Lemma update_instructions_sizes kl cs ixs :
  update_instructions kl cs = Ok ixs -> Forall (fun c => (length c <= MAX_ACCOUNTS_TO_UPDATE)%nat) cs ->
  Forall (fun ix => (length (ix_accounts ix) <= 12)%nat) ixs.
Proof.
  intros Hix Hf. revert ixs Hix. induction Hf as [|ks cs Hk Hf IH]; intros ixs; cbn [update_instructions].
  { intros [= <-]. constructor. }
  intros (ix & Hix & (ixs' & Hixs & [= <-])%outcome_bind_Ok)%outcome_bind_Ok. apply map_err_Ok in Hix.
  apply update_list_balance_data in Hix as [Ha _]. constructor; [|by apply IH].
  rewrite Ha. cbn [length]. rewrite length_fmap. unfold MAX_ACCOUNTS_TO_UPDATE in *. lia.
Qed.
Lemma refreshed_fresh now s rs :
  refreshed now ((fun k => mk_info k false false) <$> accounts_to_update now rs) s <$> rs = fresh_record now s <$> rs.
Proof.
  apply list_fmap_ext. intros i r Hr%list_elem_of_lookup_2. unfold refreshed, fresh_record.
  destruct (Z.ltb_spec (vsi_last_update_epoch r) now); [|done]. rewrite bool_decide_eq_true_2; [done|].
  rewrite <- list_fmap_compose. apply list_elem_of_fmap. exists (vsi_validator_account r). split; [done|].
  apply list_elem_of_fmap. exists r. split; [done|]. apply list_elem_of_filter. split; [lia|done].
Qed.
End Update.

Section UpdateCommand.
Context `{CL : Client} `{SDK : SolanaSdk} {LAWS : SolanaSdkLaws SDK}.
Context {chain : World -> Store} {CLL : ClientLaws CL SDK chain}.
Context `{RT : Runtime} `{BC : Bincode} `{PAD : StructPadding} `{BP : BuildProfile}.

(** the updates begin by reading the pool and its list *)
Lemma read_state_run {A} pool p l (f : StakePool -> ValidatorStakeList -> CM A) w r w' :
  (pool_data ← rpc_get_pool pool;
   validator_stake_list_data ← rpc_get_account_data (sp_validator_stake_list pool_data);
   validator_stake_list_data ← lift (try_program (validator_stake_list_deserialize validator_stake_list_data));
   f pool_data validator_stake_list_data) w = (Ok r, w') ->
  pool_at (chain w) pool p -> list_at (chain w) (sp_validator_stake_list p) l ->
  exists w2, chain w2 = chain w /\ f p l w2 = (Ok r, w').
Proof.
  intros Hr Hp Hl.
  apply stM_bind_Ok in Hr as (p0 & w1 & Hp0 & Hr). apply get_pool_run in Hp0 as [Hp0 C1].
  rewrite (pool_at_inj _ _ _ _ Hp0 Hp) in *. clear p0 Hp0.
  apply stM_bind_Ok in Hr as (d & w2 & Hd & Hr). apply get_account_data_run in Hd as [Hd C2]. rewrite C1 in *.
  apply stM_bind_Ok in Hr as (l0 & ? & Hl0 & Hr). apply lift_Ok in Hl0 as [Hl0 <-]. apply map_err_Ok in Hl0.
  rewrite <- Hd in Hl0. rewrite (list_at_inj _ _ _ _ Hl0 Hl) in *. clear l0 Hl0.
  exists w2. split; [congruence|exact Hr].
Qed.
Lemma command_update_run config pool w tx w' p l e :
  command_update config pool w = (Ok (Some tx), w') ->
  pool_at (chain w) pool p -> list_at (chain w) (sp_validator_stake_list p) l ->
  clock_from_account_info (info_of (meta_new_readonly clock_id false)) (get_cell (chain w) clock_id) = Ok (mk_clock e) ->
  exists ixs last,
    update_instructions (sp_validator_stake_list p)
      (chunks MAX_ACCOUNTS_TO_UPDATE (accounts_to_update e (vsl_validators l))) = Ok ixs /\
    update_pool_balance spl_stake_pool_id pool (sp_validator_stake_list p) = Ok last /\
    tx_instructions tx = ixs ++ [last].
Proof.
  unfold command_update. intros Hr Hp Hl Hc.
  apply (read_state_run pool p l) in Hr as (w2 & C2 & Hr); [|exact Hp|exact Hl].
  apply stM_bind_Ok in Hr as (e0 & w3 & He & Hr). apply get_epoch_run in He as [He C3]. rewrite C2 in *.
  rewrite (He (info_of (meta_new_readonly clock_id false)) eq_refl) in Hc. injection Hc as ->.
  apply stM_bind_Ok in Hr as (ixs & ? & Hix & Hr). apply lift_Ok in Hix as [Hix <-].
  destruct (bool_decide (ixs = [])); [by apply stM_ret_Ok in Hr as [? _]|].
  apply stM_bind_Ok in Hr as (last & ? & Hlast & Hr). apply lift_Ok in Hlast as [Hlast <-]. apply map_err_Ok in Hlast.
  apply stM_bind_Ok in Hr as ([h f] & w4 & _ & Hr).
  apply stM_bind_Ok in Hr as (u & w5 & _ & Hr).
  apply stM_bind_Ok in Hr as (tx' & ? & Htx & [[= ->] _]%stM_ret_Ok). apply lift_Ok in Htx as [Htx <-].
  apply tx_instructions_sign in Htx. rewrite tx_instructions_new in Htx. by exists ixs, last.
Qed.

Lemma accounts_to_update_none e rs :
  Forall (fun v => e <= vsi_last_update_epoch v) rs -> accounts_to_update e rs = [].
Proof.
  unfold accounts_to_update. induction 1 as [|v vs Hv _ IH]; [done|].
  by rewrite filter_cons_False by (intros Hn; by apply Hn).
Qed.
(** When no record is out of date the update command sends nothing, whatever
    the pool's own epoch: a pool without validators is never updated. *)
Lemma command_update_idle config pool w r w' p l e :
  command_update config pool w = (Ok r, w') ->
  pool_at (chain w) pool p -> list_at (chain w) (sp_validator_stake_list p) l ->
  clock_from_account_info (info_of (meta_new_readonly clock_id false)) (get_cell (chain w) clock_id) = Ok (mk_clock e) ->
  Forall (fun v => e <= vsi_last_update_epoch v) (vsl_validators l) -> r = None.
Proof.
  unfold command_update. intros Hr Hp Hl Hc Hf.
  apply (read_state_run pool p l) in Hr as (w2 & C2 & Hr); [|exact Hp|exact Hl].
  apply stM_bind_Ok in Hr as (e0 & w3 & He & Hr). apply get_epoch_run in He as [He C3]. rewrite C2 in *.
  rewrite (He (info_of (meta_new_readonly clock_id false)) eq_refl) in Hc. injection Hc as ->.
  rewrite (accounts_to_update_none _ _ Hf) in Hr. apply stM_bind_Ok in Hr as (ixs & ? & Hix & Hr). apply lift_Ok in Hix as [[= <-] <-].
  by apply stM_ret_Ok in Hr as [-> _].
Qed.
(** The MetaPool client's update does send the pool's own update when the list
    is empty. *)
Lemma meta_command_update_empty config pool force w r w' p l :
  meta_command_update config pool force w = (Ok r, w') ->
  pool_at (chain w) pool p -> list_at (chain w) (sp_validator_stake_list p) l -> vsl_validators l = [] ->
  exists tx last, r = Some tx /\ update_pool_balance spl_stake_pool_id pool (sp_validator_stake_list p) = Ok last /\
    tx_instructions tx = [last].
Proof.
  unfold meta_command_update. intros Hr Hp Hl E.
  apply (read_state_run pool p l) in Hr as (w2 & C2 & Hr); [|exact Hp|exact Hl].
  apply stM_bind_Ok in Hr as (e0 & w3 & _ & Hr). rewrite E in Hr.
  apply stM_bind_Ok in Hr as (ixs & ? & Hix & Hr). apply lift_Ok in Hix as [[= <-] <-].
  cbn [length andb bool_decide] in Hr.
  apply stM_bind_Ok in Hr as (last & ? & Hlast & Hr). apply lift_Ok in Hlast as [Hlast <-]. apply map_err_Ok in Hlast.
  apply stM_bind_Ok in Hr as ([h f] & w4 & _ & Hr).
  apply stM_bind_Ok in Hr as (u & w5 & _ & Hr).
  apply stM_bind_Ok in Hr as (tx & ? & Htx & [<- _]%stM_ret_Ok). apply lift_Ok in Htx as [Htx <-].
  apply tx_instructions_sign in Htx. rewrite tx_instructions_new in Htx. by exists tx, last.
Qed.

(** C18: what the update command leaves. Run by the stake-pool program on the
    chain it was computed from, its instructions all succeed, whatever the
    number of validators.  Every record of the list that was of an earlier epoch
    then holds the current epoch and the lamports of the account whose key it
    holds, the validator's vote account (instruction.rs and the command's help
    say validator stake accounts: the pool's lamports are not what is
    measured); the pool's total is the sum of the recorded balances and its
    epoch the current one, and nothing else has changed. No instruction takes
    more than twelve accounts. *)
Theorem update_command_effect config pool w tx w' p l e :
  let s := chain w in
  let kl := sp_validator_stake_list p in
  let l' := set_vsl_validators (fresh_record e s <$> vsl_validators l) l in
  command_update config pool w = (Ok (Some tx), w') -> store_wf s ->
  pool_at s pool p -> list_at s kl l -> sp_is_initialized p = true -> vsl_is_initialized l = true ->
  clock_from_account_info (info_of (meta_new_readonly clock_id false)) (get_cell s clock_id) = Ok (mk_clock e) ->
  pool <> kl -> pool <> clock_id -> kl <> clock_id -> total_balance (vsl_validators l') < 2 ^ 64 ->
  Forall (fun ix => (length (ix_accounts ix) <= 12)%nat) (tx_instructions tx) /\
  exists s', run_instructions (tx_instructions tx) s = (Ok tt, s') /\ list_at s' kl l' /\
    pool_at s' pool (set_sp_last_update_epoch e (set_sp_stake_total (total_balance (vsl_validators l')) p)) /\
    Forall (fun r => e <= vsi_last_update_epoch r) (vsl_validators l') /\
    forall k, k <> pool -> k <> kl -> get_cell s' k = get_cell s k.
Proof.
  cbv zeta. intros Hr Hw Hp Hl Hpi Hli Hc H1 H2 H3 Ht.
  destruct (command_update_run _ _ _ _ _ _ _ _ Hr Hp Hl Hc) as (ixs & last & Hix & Hlast & ->).
  pose proof (update_pool_balance_data _ _ _ _ Hlast) as [Ha Hd]. split.
  { apply Forall_app. split; [|apply Forall_singleton; rewrite Ha; cbn; lia].
    eapply update_instructions_sizes; [exact Hix|apply chunks_sizes]. }
  destruct (update_chunks_run e _ l (chain w) _ ixs [last] Hw Hl Hli H3 Hc Hix) as (s1 & -> & Hl1 & Hne & Hlam).
  rewrite chunks_concat, refreshed_fresh in Hl1 by (unfold MAX_ACCOUNTS_TO_UPDATE; lia).
  assert (Hf : Forall (fun r => e <= vsi_last_update_epoch r) (fresh_record e (chain w) <$> vsl_validators l)).
  { apply Forall_fmap, Forall_true. intros r. unfold fresh_record. cbn [compose].
    destruct (Z.ltb_spec (vsi_last_update_epoch r) e); cbn; lia. }
  destruct (update_pool_forward s1 p (set_vsl_validators (fresh_record e (chain w) <$> vsl_validators l) l) pool _ e
    H1 (pool_at_ext _ _ _ _ (Hne _ H1) Hp) Hl1 eq_refl Hpi Hli) as (s2 & Hr2 & Hp2 & Hne2);
    [by rewrite Hne by congruence|exact Hf|exact Ht|].
  exists s2. split; [|split; [|split; [exact Hp2|split; [exact Hf|]]]].
  - cbn [run_instructions]. erewrite stM_bind_run; [reflexivity|].
    rewrite (pool_process_dispatch _ _ UpdatePoolBalance _ Hd), Ha. exact Hr2.
  - apply (list_at_ext s1); [by apply Hne2|exact Hl1].
  - intros k Hk Hk'. by rewrite Hne2, Hne.
Qed.
End UpdateCommand.

(** ** The theorems on a concrete network *)
Section Witnesses.
#[local] Existing Instances model_sdk model_sdk_laws idle_runtime model_bincode zero_padding debug_build
  model_client model_client_laws.

(** two accounts to take from, one with less than must stay, one below the
    minimum *)
Definition some_accounts : list (Pubkey * Cell) :=
  [ (STAKE1, mk_cell 2500000000 [] default_pubkey); (STAKE2, mk_cell 3000000000 [] default_pubkey);
    (KL, mk_cell 500 [] default_pubkey); (KP, mk_cell 100 [] default_pubkey) ].
Lemma pick_withdraw_accounts_spec_witness :
  exists ws, pick_withdraw_accounts some_accounts 2600000000 401 = Ok ws /\ total_picked ws = 2600000000 /\
    (picked_of <$> ws) `prefix_of` eligible 401 (sort_by more_lamports some_accounts).
Proof.
  assert (H0 : u64_range MIN_STAKE_BALANCE) by done. assert (Hx : u64_range 2600000000) by done.
  assert (Hf : Forall (fun a : Pubkey * Cell => u64_range (cell_lamports a.2)) some_accounts).
  { unfold some_accounts. repeat (apply Forall_cons; split; [done|]). by apply Forall_nil. }
  destruct (pick_withdraw_accounts_spec (SDK:=model_sdk) (BP:=release_build) some_accounts 2600000000 401 H0 Hx Hf)
    as (_ & _ & ws & Hr & Ht & Hpre & _).
  exists ws. split; [|split; [exact Ht|exact Hpre]].
  assert (E : pick_withdraw_accounts some_accounts 2600000000 401 =
    pick_withdraw_accounts (BP:=release_build) some_accounts 2600000000 401) by (vm_compute; reflexivity).
  rewrite E, Hr. reflexivity.
Defined.
Lemma client_conversions_agree_witness :
  stake_amount_to_pool_tokens client_pool 7 =
    match calc_pool_withdraw_amount client_pool 7 with
    | Some t => Ok t
    | None => if sp_stake_total client_pool =? 0 then Panic
              else Ok (wrap 64 (7 * sp_pool_total client_pool / sp_stake_total client_pool))
    end /\
  pool_tokens_to_stake_amount client_pool 7 =
    match calc_lamports_amount client_pool 7 with
    | Some l => Ok l
    | None => if sp_pool_total client_pool =? 0 then Panic
              else Ok (wrap 64 (7 * sp_stake_total client_pool / sp_pool_total client_pool))
    end.
Proof. exact (client_conversions_agree client_pool 7 client_pool_wf (conj (Zle_0_pos 7) eq_refl)). Defined.
Lemma command_withdraw_asks_witness :
  exists tx p authority ws x approve_ix creates ixs,
    pool_at client_store KP p /\
    authority_id spl_stake_pool_id KP AUTHORITY_WITHDRAW (sp_withdraw_bump_seed p) = Ok authority /\
    approve spl_token_id BURN_FROM authority USER [] 1500000000 = Ok approve_ix /\
    pool_tokens_to_stake_amount p 1500000000 = Ok x /\
    tx_instructions tx = approve_ix :: creates ++ ixs /\ (length creates <= 1)%nat /\
    Forall2 withdraws_from ws ixs /\ total_picked ws = x.
Proof.
  destruct withdraw_sample_runs as (tx & w' & Hr). exists tx.
  exact (command_withdraw_asks (CLL:=model_client_laws) sample_config KP 1500000000 BURN_FROM None client_world tx w' Hr
    (conj (Zle_0_pos _) eq_refl)).
Defined.
Lemma update_command_effect_witness :
  let l' := set_vsl_validators (fresh_record 8 update_store <$> vsl_validators the_list) the_list in
  exists tx, Forall (fun ix => (length (ix_accounts ix) <= 12)%nat) (tx_instructions tx) /\
  exists s', run_instructions (tx_instructions tx) update_store = (Ok tt, s') /\ list_at s' KL l' /\
    pool_at s' KP (set_sp_last_update_epoch 8 (set_sp_stake_total (total_balance (vsl_validators l')) the_pool)) /\
    Forall (fun r => 8 <= vsi_last_update_epoch r) (vsl_validators l') /\
    forall k, k <> KP -> k <> KL -> get_cell s' k = get_cell update_store k.
Proof.
  cbv zeta. destruct update_sample_runs as (tx & w' & Hr). exists tx.
  exact (update_command_effect (CLL:=model_client_laws) sample_config KP update_world tx w' the_pool the_list 8 Hr
    update_store_wf update_pool_at update_list_at eq_refl eq_refl update_clock
    (proj1 update_keys) (proj1 (proj2 update_keys)) (proj2 (proj2 update_keys)) eq_refl).
Defined.
End Witnesses.
