(* ===== verification/ClientDeposit.v ===== *)
(** * The deposit command against the program

    What the deposit command sends, and that the program accepts it: the
    addresses the client derives are the ones the program checks. *)
From S2P Require Import Prelude Machine Sdk TokenInstruction TokenState TokenProcessor.
From S2P Require Import PoolInstruction PoolState StakeProgram PoolProcessor PoolCodec PoolMath PoolFacts PoolSpec PoolFrame PoolRefine PoolForward Composition.
From S2P Require Import Client Cli ClientFacts Models Samples ClientSamples.

(** a listed validator has a record *)
Lemma contains_find_mut l v : vsl_contains l v = true -> is_Some (vsl_find_mut l v).
Proof.
  intros (x & Hx & Hv)%existsb_exists. apply list_elem_of_In in Hx. apply bool_decide_eq_true in Hv.
  unfold vsl_find_mut. apply fmap_is_Some. by apply (list_find_elem_of _ _ x).
Qed.

Section Deposit.
Context `{CL : Client} `{SDK : SolanaSdk} {LAWS : SolanaSdkLaws SDK} {chain : World -> Store} {CLL : ClientLaws CL SDK chain}.
Context `{RT : Runtime} `{BC : Bincode} `{PAD : StructPadding} `{BP : BuildProfile}.
Implicit Types (s : Store) (p : StakePool) (l : ValidatorStakeList).

(** the stake account at [k] delegates to the validator [v] *)
Definition delegates_to s (k v : Pubkey) : Prop :=
  exists meta st, bincode_deserialize (cell_data (get_cell s k)) = Some (StakeStake meta st) /\
    voter_pubkey (stake_delegation st) = v.
(** the accounts the deposit instruction is passed *)
Definition writable (k : Pubkey) : AccountInfo := info_of (meta_new k false).
Definition readonly (k : Pubkey) : AccountInfo := info_of (meta_new_readonly k false).
(** the store [s] when a deposit of [stake] is run: the pool and its list, in
    the current epoch, the validator's account in the pool, and invocations
    that succeed and leave the pool's accounts alone *)
Definition deposit_ready s (pool : Pubkey) p l (v dauth wauth stake vstake receiver : Pubkey) : Prop :=
  pool_at s pool p /\ list_at s (sp_validator_stake_list p) l /\
  stake_account_of s spl_stake_pool_id pool vstake v /\
  exists c h t P S s1,
    clock_from_account_info (readonly clock_id) (get_cell s clock_id) = Ok c /\
    stake_history_from_account_info (readonly stake_history_id) (get_cell s stake_history_id) = Ok h /\
    epoch c <= sp_last_update_epoch p /\
    calc_pool_deposit_amount p (cell_lamports (get_cell s stake)) = Some t /\ 0 <= t /\
    plain_add (E:=ProgramError) (sp_pool_total p) t = Ok P /\
    plain_add (E:=ProgramError) (sp_stake_total p) (cell_lamports (get_cell s stake)) = Ok S /\
    deposit_invocations p (writable pool) (readonly dauth) (readonly wauth) (writable stake) (writable vstake)
      (writable receiver) (writable (sp_pool_mint p)) (readonly clock_id) (readonly stake_history_id)
      (readonly spl_token_id) (readonly stake_program_id) t s = (Ok tt, s1) /\ store_wf s1 /\
    cell_data (get_cell s1 pool) = cell_data (get_cell s pool) /\
    cell_data (get_cell s1 (sp_validator_stake_list p)) = cell_data (get_cell s (sp_validator_stake_list p)).

Lemma authority_checked pool k ty bump : authority_id spl_stake_pool_id pool ty bump = Ok k ->
  check_authority k spl_stake_pool_id pool ty bump = Ok tt.
Proof. intros H. unfold check_authority. rewrite H. cbn. by rewrite bool_decide_eq_true_2. Qed.
Lemma deposit_data prog pool lst dauth wauth stake vstake to fee mint tok stk ix :
  deposit prog pool lst dauth wauth stake vstake to fee mint tok stk = Ok ix ->
  pool_instruction_deserialize (ix_data ix) = Ok Deposit /\
  info_of <$> ix_accounts ix =
    [ writable pool; writable lst; readonly dauth; readonly wauth; writable stake; writable vstake; writable to;
      writable fee; writable mint; readonly clock_id; readonly stake_history_id; readonly tok; readonly stk ].
Proof.
  unfold deposit. intros (d & Hd & [= <-])%outcome_bind_Ok. split; [|done].
  destruct (instruction_roundtrip Deposit I) as (bs & Hs & _ & Hp). cbn [ix_data]. congruence.
Qed.
Lemma built_deposit_accepted s pool p l v dauth wauth stake vstake receiver ix :
  deposit spl_stake_pool_id pool (sp_validator_stake_list p) dauth wauth stake vstake receiver (sp_owner_fee_account p)
    (sp_pool_mint p) spl_token_id stake_program_id = Ok ix ->
  authority_id spl_stake_pool_id pool AUTHORITY_DEPOSIT (sp_deposit_bump_seed p) = Ok dauth ->
  authority_id spl_stake_pool_id pool AUTHORITY_WITHDRAW (sp_withdraw_bump_seed p) = Ok wauth ->
  pool <> sp_validator_stake_list p -> sp_is_initialized p = true -> vsl_is_initialized l = true ->
  sp_token_program_id p = spl_token_id -> vsl_contains l v = true ->
  deposit_ready s pool p l v dauth wauth stake vstake receiver ->
  exists s', pool_process spl_stake_pool_id (info_of <$> ix_accounts ix) (ix_data ix) s = (Ok tt, s').
Proof.
  intros Hix Hd Hw Hne Hp Hl Ht [i Hi]%contains_find_mut (Hpa & Hla & Hsa & c & h & t & P & S & s1 & Hc & Hh & He & Hx & H0 & HP & HS & Hinv &
    Hwf & Dp & Dl).
  apply deposit_data in Hix as [Hdes ->]. unfold pool_process.
  eapply (succeeds_bind _ _ _ Deposit); [by apply lift_run|]. cbn [process_pool_instruction].
  eapply (deposit_completes s (writable pool) _ (readonly dauth) (readonly wauth) (writable stake) (writable vstake)
    (writable receiver) _ (writable (sp_pool_mint p)) (readonly clock_id) (readonly stake_history_id));
    [exact Hne|exact Hwf|exact Hpa|exact Hla|exact Hc|exact Hh|done|done|done|exact Hp|exact Hl| | |exact He|exact Hsa
    |exact Hi|exact Hx|exact H0|exact Hinv|exact Dp|exact Dl|exact HP|exact HS].
  - by apply authority_checked.
  - by apply authority_checked.
Qed.
(** the token account the command deposits to *)
Lemma unwrap_create_run {V} owner payer (receiver : option Pubkey) kp mint handler (vars : V) w rcv ixs vars' w' :
  unwrap_create_token_account owner payer receiver kp mint [] handler vars w = (Ok (rcv, ixs, vars'), w') ->
  chain w' = chain w /\ (length ixs <= 2)%nat /\ (forall k, receiver = Some k -> rcv = k /\ ixs = []).
Proof.
  destruct receiver as [k|]; cbn [unwrap_create_token_account].
  - intros [[= <- <- <-] <-]%stM_ret_Ok. split_and!; [done|cbn; lia|]. by intros ? [= ->].
  - intros (b & w1 & Hb & Hr)%stM_bind_Ok. apply get_minimum_balance_run in Hb.
    apply stM_bind_Ok in Hr as (init & ? & [_ <-]%lift_Ok & Hr).
    apply stM_bind_Ok in Hr as (vs & ? & [_ <-]%lift_Ok & [[= <- <- <-] <-]%stM_ret_Ok).
    split_and!; [done|cbn; lia|done].
Qed.

(** C20: what the deposit command sends, and that the program accepts it. The
    transaction of a successful [command_deposit] creates the receiving token
    account when none is given, hands the two authorities of the stake account
    to the pool's deposit authority (the withdrawer first) and asks for the
    deposit; the stake account delegated to a validator of the list. Whenever
    the deposit instruction is then run, with the pool and its list unchanged
    and up to date and the issued invocations succeeding, [pool_process]
    accepts it: the addresses the client derives (both authorities and the
    validator's stake account) are the ones the program checks. *)
Theorem deposit_command_accepted config pool stake receiver w tx w' p l :
  command_deposit config pool stake receiver w = (Ok (Some tx), w') ->
  pool_at (chain w) pool p -> list_at (chain w) (sp_validator_stake_list p) l ->
  pool <> sp_validator_stake_list p -> sp_is_initialized p = true -> vsl_is_initialized l = true ->
  sp_token_program_id p = spl_token_id ->
  exists creates dauth wauth rcv v join,
    tx_instructions tx = creates ++ [ authorize stake (owner_pubkey config) dauth Withdrawer;
                                      authorize stake (owner_pubkey config) dauth Staker; join ] /\
    (length creates <= 2)%nat /\ (forall k, receiver = Some k -> rcv = k /\ creates = []) /\
    authority_id spl_stake_pool_id pool AUTHORITY_DEPOSIT (sp_deposit_bump_seed p) = Ok dauth /\
    authority_id spl_stake_pool_id pool AUTHORITY_WITHDRAW (sp_withdraw_bump_seed p) = Ok wauth /\
    delegates_to (chain w) stake v /\ vsl_contains l v = true /\
    let vstake := (find_stake_address_for_validator spl_stake_pool_id v pool).1 in
    forall s, deposit_ready s pool p l v dauth wauth stake vstake rcv ->
      exists s', pool_process spl_stake_pool_id (info_of <$> ix_accounts join) (ix_data join) s = (Ok tt, s').
Proof.
  unfold command_deposit. intros Hr Hp Hl Hne Hpi Hli Ht.
  apply stM_bind_Ok in Hr as (p0 & w1 & Hp0 & Hr). apply get_pool_run in Hp0 as [Hp0 C1].
  rewrite (pool_at_inj _ _ _ _ Hp0 Hp) in *. clear p0 Hp0.
  apply stM_bind_Ok in Hr as (d & w2 & Hd & Hr). apply get_account_data_run in Hd as [Hd C2].
  apply stM_bind_Ok in Hr as (st & ? & Hst & Hr). apply lift_Ok in Hst as [Hst%ok_or_Ok <-].
  rewrite C1 in Hd, C2. subst d.
  apply stM_bind_Ok in Hr as (v & w3 & Hv & Hr).
  assert (delegates_to (chain w) stake v /\ w3 = w2) as [Hdel ->].
  { destruct st; try by apply throw_Ok in Hv. apply stM_ret_Ok in Hv as [<- <-]. split; [|done]. by do 2 eexists. }
  apply stM_bind_Ok in Hr as (d & w4 & Hd & Hr). apply get_account_data_run in Hd as [Hd C3]. rewrite C2 in *.
  apply stM_bind_Ok in Hr as (l0 & ? & Hl0 & Hr). apply lift_Ok in Hl0 as [Hl0 <-]. apply map_err_Ok in Hl0.
  rewrite <- Hd in Hl0. rewrite (list_at_inj _ _ _ _ Hl0 Hl) in *. clear l0 Hl0.
  apply stM_bind_Ok in Hr as (u & ? & Hu & Hr). apply fail_if_Ok in Hu as [Hin%negb_false_iff <-].
  destruct (find_stake_address_for_validator spl_stake_pool_id v pool) as [vstake vb] eqn:Ev.
  apply stM_bind_Ok in Hr as (kp & w5 & Hk & Hr). apply keypair_new_run in Hk as C5.
  apply stM_bind_Ok in Hr as ([[rcv creates] [sg tot]] & w6 & Hcr & Hr).
  apply unwrap_create_run in Hcr as (C6 & Hlen & Hrcv).
  apply stM_bind_Ok in Hr as (dauth & ? & Hda & Hr). apply lift_Ok in Hda as [Hda%unwrap_result_Ok <-].
  apply stM_bind_Ok in Hr as (wauth & ? & Hwa & Hr). apply lift_Ok in Hwa as [Hwa%unwrap_result_Ok <-].
  apply stM_bind_Ok in Hr as (join & ? & Hj & Hr). apply lift_Ok in Hj as [Hj <-]. apply map_err_Ok in Hj.
  apply stM_bind_Ok in Hr as ([h f] & w7 & _ & Hr).
  apply stM_bind_Ok in Hr as (z & ? & _ & Hr).
  apply stM_bind_Ok in Hr as (u2 & w8 & _ & Hr).
  apply stM_bind_Ok in Hr as (tx' & ? & Htx & [[= ->] _]%stM_ret_Ok). apply lift_Ok in Htx as [Htx <-].
  apply tx_instructions_sign in Htx. rewrite tx_instructions_new in Htx.
  exists creates, dauth, wauth, rcv, v, join. split_and!; [done|done|done|done|done|done|done|].
  cbv zeta. rewrite Ev. cbn [fst]. intros s. by eapply built_deposit_accepted.
Qed.
End Deposit.

(** ** The theorem on a concrete network *)
Section Witness.
#[local] Existing Instances model_sdk model_sdk_laws idle_runtime model_bincode zero_padding debug_build
  model_client model_client_laws.

(** the sample pool with the stake account its address derivation gives under
    the deployed program's id *)
Definition MAIN_VOTE_STAKE : Pubkey := (find_stake_address_for_validator spl_stake_pool_id VOTE KP).1.
Definition MAIN_DEPOSIT_AUTH : Pubkey := (find_authority_bump_seed spl_stake_pool_id KP AUTHORITY_DEPOSIT).1.
Definition MAIN_WITHDRAW_AUTH : Pubkey := (find_authority_bump_seed spl_stake_pool_id KP AUTHORITY_WITHDRAW).1.
Definition deposit_store : Store :=
  store_of ((PAYER, mk_cell 1000000 [] default_pubkey) ::
            (MAIN_VOTE_STAKE, mk_cell 3000 (to_bytes VOTE) stake_program_id) :: the_cells).
Definition deposit_world : World := (deposit_store, 1000).
Lemma deposit_store_wf : store_wf deposit_store.
Proof. apply store_of_wf. unfold the_cells. repeat (apply Forall_cons; split; [by cbn|]). by apply Forall_nil. Qed.
Lemma deposit_pool_cell : deposit_store !! KP = Some (mk_cell 5000 (pool_bytes the_pool) PID).
Proof. vm_compute. reflexivity. Qed.
Lemma deposit_list_cell : deposit_store !! KL = Some (mk_cell 100000 (list_bytes the_list) PID).
Proof. vm_compute. reflexivity. Qed.
Lemma deposit_user_cell : deposit_store !! USER_STAKE = Some (mk_cell 900 (to_bytes VOTE) stake_program_id).
Proof. vm_compute. reflexivity. Qed.
Lemma deposit_pool_at : pool_at deposit_store KP the_pool.
Proof. unfold pool_at, get_cell. rewrite deposit_pool_cell. exact the_pool_bytes. Qed.
Lemma deposit_list_at : list_at deposit_store KL the_list.
Proof.
  unfold list_at, get_cell. rewrite deposit_list_cell. exact (proj1 (proj2_sig (stored_list the_list) the_list_wf)).
Qed.
Lemma deposit_vote_cell : cell_data (get_cell deposit_store MAIN_VOTE_STAKE) = to_bytes VOTE.
Proof. vm_compute. reflexivity. Qed.
Definition vote_stake_data : StakeState :=
  StakeStake (mk_meta_state 0 (mk_authorized default_pubkey default_pubkey) lockup_default)
    (mk_stake (mk_delegation VOTE 0 0 0 (f64_of_u64 0)) 0).
Lemma vote_stake_state : ok_or InvalidStakeAccountData (bincode_deserialize (to_bytes VOTE)) = Ok vote_stake_data.
Proof. vm_compute. reflexivity. Qed.
Lemma read_run {S E A} (o : outcome E A) a (s : S) : o = Ok a -> lift o s = (Ok a, s).
Proof. by intros ->. Qed.
Lemma deposit_sample_runs :
  exists tx w', command_deposit sample_config KP USER_STAKE None deposit_world = (Ok (Some tx), w').
Proof.
  unfold command_deposit.
  erewrite stM_bind_run; [|exact (served_pool deposit_store 1000 KP _ the_pool deposit_pool_cell the_pool_bytes)].
  erewrite stM_bind_run; [|exact (served_data deposit_store 1000 USER_STAKE _ deposit_user_cell)].
  erewrite stM_bind_run; [|apply read_run, vote_stake_state].
  erewrite stM_bind_run; [|reflexivity].
  erewrite stM_bind_run; [|exact (served_data deposit_store 1000 KL _ deposit_list_cell)].
  erewrite stM_bind_run; [|unfold lift; cbn [cell_data]; rewrite the_list_bytes; reflexivity].
  match goal with |- exists tx w', ?m ?w0 = _ =>
    assert (H : match (m w0).1 with Ok (Some _) => True | _ => False end) by (vm_compute; exact I);
    destruct (m w0) as [[[tx|]| |] w'] eqn:E; cbn [fst] in H end; [|contradiction..].
  exists tx, w'. reflexivity.
Qed.
Lemma deposit_ready_sample rcv :
  deposit_ready deposit_store KP the_pool the_list VOTE MAIN_DEPOSIT_AUTH MAIN_WITHDRAW_AUTH USER_STAKE
    MAIN_VOTE_STAKE rcv.
Proof.
  split; [exact deposit_pool_at|]. split; [exact deposit_list_at|]. split.
  { split; [|reflexivity]. rewrite deposit_vote_cell. eexists _, _. split; vm_compute; reflexivity. }
  assert (Hcell : cell_lamports (get_cell deposit_store USER_STAKE) = 900) by (vm_compute; reflexivity).
  assert (Hclock : clock_from_account_info (readonly clock_id) (get_cell deposit_store clock_id) = Ok (mk_clock 7))
    by (vm_compute; reflexivity).
  exists (mk_clock 7), [], 450, 1950, 3900, deposit_store. rewrite Hcell.
  split; [exact Hclock|]. split; [vm_compute; reflexivity|]. split; [cbn; lia|].
  split; [vm_compute; reflexivity|]. split; [lia|]. split; [vm_compute; reflexivity|]. split; [vm_compute; reflexivity|].
  split; [|split; [exact deposit_store_wf|split; reflexivity]].
  unfold deposit_invocations. erewrite stM_bind_run by reflexivity. erewrite stM_bind_run by reflexivity.
  erewrite stM_bind_run by reflexivity. reflexivity.
Qed.
Lemma the_list_contains v : vsl_contains the_list v = true -> v = VOTE.
Proof. cbn. rewrite orb_false_r. intros H%bool_decide_eq_true. by symmetry. Qed.
Lemma deposit_command_accepted_witness :
  exists tx creates a1 a2 join s', tx_instructions tx = creates ++ [a1; a2; join] /\
    pool_process spl_stake_pool_id (info_of <$> ix_accounts join) (ix_data join) deposit_store = (Ok tt, s').
Proof.
  destruct deposit_sample_runs as (tx & w' & Hr).
  destruct (deposit_command_accepted (CLL:=model_client_laws) sample_config KP USER_STAKE None deposit_world tx w'
    the_pool the_list Hr deposit_pool_at deposit_list_at (proj1 update_keys) eq_refl eq_refl eq_refl)
    as (creates & dauth & wauth & rcv & v & join & Htx & _ & _ & Hd & Hw & _ & Hc & Hacc).
  apply the_list_contains in Hc as ->.
  assert (Ok MAIN_DEPOSIT_AUTH = Ok dauth) as [= <-] by (rewrite <- Hd; vm_compute; reflexivity).
  assert (Ok MAIN_WITHDRAW_AUTH = Ok wauth) as [= <-] by (rewrite <- Hw; vm_compute; reflexivity).
  destruct (Hacc deposit_store (deposit_ready_sample rcv)) as (s' & Hs'). do 6 eexists. split; [exact Htx|exact Hs'].
Defined.
End Witness.
