(* ===== verification/Bootstrap.v ===== *)
(** * The life of a pool begins

    The transaction of the create-pool command, run over the models of the
    system, token and stake-pool programs: it makes a pool that satisfies the
    premise of the solvency invariant of [Solvency]. *)
From S2P Require Import Prelude Machine Sdk TokenInstruction TokenState TokenCodec TokenProcessor TokenFacts TokenRuns.
From S2P Require Import PoolInstruction PoolState StakeProgram PoolProcessor PoolCodec PoolMath PoolFacts PoolSpec PoolFrame PoolRefine PoolSim PoolForward.
From S2P Require Import TokenAtomic Composition CompositionTheorems Solvency Client Cli ClientFacts Transactions Models Samples TokenSamples ClientSamples.
From stdpp Require Import relations.
#[local] Open Scope Z_scope.

(** ** New accounts *)
Record NewAccount := mk_new_account { na_key : Pubkey; na_lamports : Z; na_space : Z; na_owner : Pubkey }.
Definition rent_total (news : list NewAccount) : Z := foldr (fun n z => na_lamports n + z) 0 news.
(** every account of [news] has been created, nothing else but the payer has changed *)
Definition all_created (payer : Pubkey) (news : list NewAccount) (s s' : Store) : Prop :=
  Forall (fun n => get_cell s' (na_key n) = mk_cell (na_lamports n) (replicate (Z.to_nat (na_space n)) x00) (na_owner n)) news /\
  (forall k, k <> payer -> k ∉ na_key <$> news -> get_cell s' k = get_cell s k) /\
  get_cell s' payer =
    mk_cell (cell_lamports (get_cell s payer) - rent_total news) (cell_data (get_cell s payer)) (cell_owner (get_cell s payer)).
(** the payer can fund the accounts and none of them is in use *)
Definition can_create `{SDK : SolanaSdk} (payer : Pubkey) (news : list NewAccount) (s : Store) : Prop :=
  NoDup (payer :: (na_key <$> news)) /\ Forall (fun n => get_cell s (na_key n) = empty_cell) news /\
  cell_owner (get_cell s payer) = system_program_id /\ cell_data (get_cell s payer) = [] /\
  rent_total news <= cell_lamports (get_cell s payer).

Section Creating.
Context `{SDK : SolanaSdk} {LAWS : SolanaSdkLaws SDK} `{RT : Runtime} `{BC : Bincode} `{PAD : StructPadding} `{BP : BuildProfile}.
Context `{SYS : SystemProgram} {SYSL : SystemLaws SYS}.
Implicit Types (s : Store) (news : list NewAccount).

Definition create_instructions (payer : Pubkey) news : list Instruction :=
  (fun n => system_create_account payer (na_key n) (na_lamports n) (na_space n) (na_owner n)) <$> news.
Lemma rent_total_cons n news : rent_total (n :: news) = na_lamports n + rent_total news.
Proof using Type. done. Qed.
Lemma rent_total_nonneg news : Forall (fun n => u64_range (na_lamports n)) news -> 0 <= rent_total news.
Proof using Type. induction 1 as [|n news [H _] _ IH]; [done|]. rewrite rent_total_cons. lia. Qed.
Lemma execute_create payer n s :
  payer <> na_key n -> get_cell s (na_key n) = empty_cell -> cell_owner (get_cell s payer) = system_program_id ->
  cell_data (get_cell s payer) = [] -> u64_range (na_lamports n) -> space_permitted (na_space n) ->
  na_lamports n <= cell_lamports (get_cell s payer) ->
  exists s', execute (system_create_account payer (na_key n) (na_lamports n) (na_space n) (na_owner n)) s = (Ok tt, s') /\
    account_created payer (na_key n) (na_lamports n) (na_space n) (na_owner n) s s'.
Proof.
  intros. destruct (create_account_runs payer (na_key n) (na_lamports n) (na_space n) (na_owner n) s)
    as (s' & E & Hs'); try done. exists s'. split; [|exact Hs'].
  unfold execute. by rewrite system_create_account_program, bool_decide_eq_true_2.
Qed.
Lemma create_all payer news s :
  can_create payer news s -> Forall (fun n => u64_range (na_lamports n) /\ space_permitted (na_space n)) news ->
  exists s', execute_all (create_instructions payer news) s = (Ok tt, s') /\ all_created payer news s s'.
Proof.
  revert s. induction news as [|n news IH]; intros s (Hnd & Hemp & Ho & Hd & Hle) Hf.
  { exists s. split; [done|]. split_and!; [constructor|done|]. cbn. rewrite Z.sub_0_r. by destruct (get_cell s payer). }
  rewrite fmap_cons in Hnd. apply NoDup_cons in Hnd as [Hp Hnd]. apply not_elem_of_cons in Hp as [Hpn Hp].
  apply NoDup_cons in Hnd as [Hn Hnd]. apply Forall_cons in Hemp as [He Hemp], Hf as [[Hl Hsp] Hf]. rewrite rent_total_cons in Hle.
  pose proof (rent_total_nonneg news (Forall_impl _ _ _ Hf (fun n H => proj1 H))) as H0.
  destruct (execute_create payer n s) as (s1 & E1 & Hto & Hfrom & Hoth); try done; [lia|].
  destruct (IH s1) as (s' & E' & Hcr & Hk & Hlam); [|done|].
  { split; [by apply NoDup_cons|]. split; [|rewrite Hfrom; cbn; split_and!; [done|done|lia]].
    apply Forall_forall. intros n' Hn'. assert (na_key n' ∈ na_key <$> news) by by apply list_elem_of_fmap_2.
    rewrite (Hoth (na_key n')); [|congruence|congruence]. by apply (proj1 (Forall_forall _ _) Hemp). }
  exists s'. split; [unfold create_instructions; rewrite fmap_cons; cbn [execute_all]; by erewrite stM_bind_run by exact E1|].
  split; [constructor; [by rewrite Hk by done|exact Hcr]|]. split.
  - intros k Hkp Hkn. rewrite fmap_cons in Hkn. apply not_elem_of_cons in Hkn as [? ?]. rewrite Hk by done. by apply Hoth.
  - rewrite Hlam, Hfrom, rent_total_cons. cbn [cell_lamports cell_data cell_owner]. f_equal. lia.
Qed.
End Creating.

(** ** Owners and sizes *)
(** the program's own writes change the owner and the size of no account *)
Definition shapes_kept s s' : Prop := forall k : Pubkey,
  cell_owner (get_cell s' k) = cell_owner (get_cell s k) /\
  length (cell_data (get_cell s' k)) = length (cell_data (get_cell s k)).
#[global] Instance shapes_kept_preorder : PreOrder shapes_kept.
Proof.
  split; [by intros s k|]. intros s1 s2 s3 H1 H2 k. destruct (H1 k), (H2 k). by split; etrans.
Qed.
Section Shapes.
Context `{SDK : SolanaSdk} {LAWS : SolanaSdkLaws SDK} `{PAD : StructPadding}.
Lemma write_shapes s k d : length d = length (cell_data (get_cell s k)) -> shapes_kept s (set_data s k d).
Proof. intros E j. rewrite owner_set_data, data_set_data. split; [done|]. case_decide; congruence. Qed.
Lemma save_pool_shapes p i : respects shapes_kept (save_stake_pool p i).
Proof.
  intros s r s'. unfold save_stake_pool, borrow_data, gets, write_data, modify, lift, mbind, stM_bind.
  destruct (stake_pool_serialize p (cell_data (get_cell s (key i)))) as [d| |] eqn:E; [|by intros [= <- <-]..].
  intros [= <- <-]. apply write_shapes. by apply (struct_serialize_length (T:=StakePool)) in E.
Qed.
Lemma save_list_shapes l i : respects shapes_kept (save_validator_stake_list l i).
Proof.
  intros s r s'. unfold save_validator_stake_list, borrow_data, gets, write_data, modify, lift, mbind, stM_bind.
  destruct (validator_stake_list_serialize l (cell_data (get_cell s (key i)))) as [d| |] eqn:E; [|by intros [= <- <-]..].
  intros [= <- <-]. apply write_shapes. by apply list_serialize_length in E.
Qed.
#[local] Hint Resolve save_pool_shapes save_list_shapes : respects.
Lemma initialize_shapes program_id init accounts : respects shapes_kept (process_initialize program_id init accounts).
Proof.
  unfold process_initialize.
  repeat (lazymatch goal with
    | |- respects _ (next_info _ ≫= _) => apply respects_next; [apply _|]; intros ? ? _; cbv beta iota
    | _ => frame_step end).
Qed.
End Shapes.

(** ** The transaction *)
Section Creation.
Context `{SDK : SolanaSdk} {LAWS : SolanaSdkLaws SDK} `{RT : Runtime} `{BC : Bincode} `{PAD : StructPadding} `{BP : BuildProfile}.
Context `{SYS : SystemProgram} {SYSL : SystemLaws SYS}.
Context (NTOK : spl_token_id <> system_program_id) (NPOOL : spl_stake_pool_id <> system_program_id)
  (NPT : spl_stake_pool_id <> spl_token_id).
Implicit Types (s : Store).

Lemma Ok_eq {E A} (a b : A) : Ok a = Ok b :> outcome E A -> b = a.
Proof using Type. by intros [= ->]. Qed.
(** an instruction runs as the handler its bytes name *)
Lemma execute_token ix instr s :
  ix_program_id ix = spl_token_id -> ix_data ix = token_pack instr -> token_instruction_wf instr ->
  execute ix s = process_token_instruction spl_token_id (info_of <$> ix_accounts ix) instr s.
Proof using NTOK LAWS.
  intros Hid Hd Hw. unfold execute. rewrite Hid, bool_decide_eq_false_2, bool_decide_eq_true_2 by done.
  unfold token_process. erewrite stM_bind_run; [reflexivity|]. unfold lift. by rewrite Hd, token_roundtrip.
Qed.
Lemma execute_pool ix instr s :
  ix_program_id ix = spl_stake_pool_id -> pool_instruction_serialize instr = Ok (ix_data ix) -> pool_instruction_wf instr ->
  execute ix s = process_pool_instruction spl_stake_pool_id (info_of <$> ix_accounts ix) instr s.
Proof using NPOOL NPT LAWS.
  intros Hid Hd Hw. unfold execute. rewrite Hid, !bool_decide_eq_false_2, bool_decide_eq_true_2 by done.
  destruct (instruction_roundtrip instr Hw) as (bs & Hs & _ & Hp). rewrite Hs in Hd. injection Hd as ->.
  unfold pool_process. erewrite stM_bind_run; [reflexivity|]. unfold lift. by rewrite Hp.
Qed.

(** the accounts of a new pool *)
Record PoolKeys := mk_pool_keys { pk_mint : Pubkey; pk_fee : Pubkey; pk_pool : Pubkey; pk_list : Pubkey }.
Context (payer owner : Pubkey) (keys : PoolKeys) (b1 b2 b3 b4 : Z) (fee : Fee).
Definition withdraw_address : Pubkey := (find_authority_bump_seed spl_stake_pool_id (pk_pool keys) AUTHORITY_WITHDRAW).1.
Definition new_accounts_of_pool : list NewAccount :=
  [ mk_new_account (pk_mint keys) b1 (Z.of_nat MINT_LEN) spl_token_id;
    mk_new_account (pk_fee keys) b2 (Z.of_nat ACCOUNT_LEN) spl_token_id;
    mk_new_account (pk_pool keys) b3 (Z.of_nat STAKE_POOL_LEN) spl_stake_pool_id;
    mk_new_account (pk_list keys) b4 (Z.of_nat VALIDATOR_STAKE_LIST_LEN) spl_stake_pool_id ].
Definition sysvar_info (k : Pubkey) : AccountInfo := info_of (meta_new_readonly k false).
(** the store [s] on which the pool is created: fresh accounts that the payer
    can fund, the sysvars, and balances that are exempt from rent *)
Definition creation_ready s (c : Clock) : Prop :=
  can_create payer new_accounts_of_pool s /\
  Forall (fun k => k <> payer /\ k ∉ na_key <$> new_accounts_of_pool) [clock_id; rent_id] /\
  pk_mint keys <> native_mint_id /\
  clock_from_account_info (sysvar_info clock_id) (get_cell s clock_id) = Ok c /\
  exists rent, rent_from_account_info (sysvar_info rent_id) (get_cell s rent_id) = Ok rent /\
    Forall (fun n => u64_range (na_lamports n) /\ rent_is_exempt rent (na_lamports n) (na_space n) = true) new_accounts_of_pool.
(** the pool, its list, its mint and its fee account just after *)
Definition created_pool (c : Clock) : StakePool :=
  initial_pool (program_id:=spl_stake_pool_id) (pk_pool keys) (pk_list keys) owner (pk_mint keys) (pk_fee keys) spl_token_id 0 0
    (epoch c) fee.
Definition created_mint : Mint := mk_mint (Some withdraw_address) 0 native_decimals true None.
Definition created_fee_account : Account := mk_account (pk_mint keys) owner 0 None Initialized None 0 None.
Definition pool_created s s' (c : Clock) : Prop :=
  covered (program_id:=spl_stake_pool_id) (pk_pool keys) (pk_list keys) (pk_mint keys) withdraw_address s'
    (mk_pstate (created_pool c) empty_list) created_mint /\
  cell_owner (get_cell s' (pk_fee keys)) = spl_token_id /\ holds Account s' (pk_fee keys) created_fee_account /\
  (forall k, k <> payer -> k ∉ na_key <$> new_accounts_of_pool -> get_cell s' k = get_cell s k).

Lemma spaces_ok : Forall (fun n => space_permitted (na_space n)) new_accounts_of_pool.
Proof using Type.
  unfold new_accounts_of_pool. pose proof list_capacity as Hc. repeat (apply Forall_cons; split); try done; cbn;
    unfold space_permitted, MAX_PERMITTED_DATA_LENGTH; lia.
Qed.

(** the stores the accounts hold after the system and the token program's part *)
Definition tokens_ready s s3 (c : Clock) : Prop :=
  (exists rent, new_pool_accounts (program_id:=spl_stake_pool_id) s3 (info_of (meta_new (pk_pool keys) true))
    (info_of (meta_new_readonly owner true)) (info_of (meta_new (pk_list keys) false))
    (info_of (meta_new_readonly (pk_mint keys) false)) (info_of (meta_new_readonly (pk_fee keys) false))
    (sysvar_info clock_id) (sysvar_info rent_id) (info_of (meta_new_readonly spl_token_id false)) c rent
    created_mint created_fee_account) /\
  cell_owner (get_cell s3 (pk_pool keys)) = spl_stake_pool_id /\ cell_owner (get_cell s3 (pk_list keys)) = spl_stake_pool_id /\
  (forall k, k <> payer -> k ∉ na_key <$> new_accounts_of_pool -> get_cell s3 k = get_cell s k).
Lemma keys_distinct s c : creation_ready s c ->
  pk_mint keys <> pk_fee keys /\ pk_mint keys <> pk_pool keys /\ pk_mint keys <> pk_list keys /\
  pk_fee keys <> pk_pool keys /\ pk_fee keys <> pk_list keys /\ pk_pool keys <> pk_list keys.
Proof using Type.
  intros ((Hnd & _) & _). cbn in Hnd. repeat (apply NoDup_cons in Hnd as [? Hnd]).
  repeat match goal with H : _ ∉ _ :: _ |- _ => apply not_elem_of_cons in H as [? H] end. split_and!; congruence.
Qed.
Lemma tokens_initialised s c ix_mint ix_fee :
  creation_ready s c ->
  initialize_mint spl_token_id (pk_mint keys) withdraw_address None native_decimals = Ok ix_mint ->
  initialize_account spl_token_id (pk_fee keys) (pk_mint keys) owner = Ok ix_fee ->
  exists s3, execute_all (create_instructions payer new_accounts_of_pool ++ [ix_mint; ix_fee]) s = (Ok tt, s3) /\
    tokens_ready s s3 c.
Proof using NTOK LAWS SYSL.
  intros Hready Hix1 Hix2. apply Ok_eq in Hix1 as ->. apply Ok_eq in Hix2 as ->. pose proof (keys_distinct _ _ Hready) as (D1 & D2 & D3 & D4 & D5 & D6).
  destruct Hready as (Hcan & Hsys & Hnat & Hclock & rent & Hrent & Hbal).
  apply Forall_cons in Hsys as [[Kc1 Kc2] Hsys]. apply Forall_cons in Hsys as [[Kr1 Kr2] _].
  destruct (create_all payer new_accounts_of_pool s Hcan) as (s1 & E1 & Hcr & Hoth & _).
  { apply Forall_and. split; [eapply Forall_impl; [exact Hbal|]; by intros ? []|exact spaces_ok]. }
  pose proof (Hoth _ Kc1 Kc2) as Kc. pose proof (Hoth _ Kr1 Kr2) as Kr.
  unfold new_accounts_of_pool in Kc2, Kr2. cbn in Kc2, Kr2.
  repeat match goal with H : _ ∉ _ :: _ |- _ => apply not_elem_of_cons in H as [? H] end.
  repeat (apply Forall_cons in Hcr as [? Hcr]). repeat (apply Forall_cons in Hbal as [[_ ?] Hbal]).
  cbn [na_key na_lamports na_space na_owner] in *. rewrite ?Nat2Z.id in *.
  match goal with H1 : get_cell s1 (pk_mint keys) = _, H2 : get_cell s1 (pk_fee keys) = _,
                  H3 : get_cell s1 (pk_pool keys) = _, H4 : get_cell s1 (pk_list keys) = _ |- _ =>
    rename H1 into C1, H2 into C2, H3 into C3, H4 into C4 end.
  destruct (fresh_mint_initialised s1 (info_of (meta_new (pk_mint keys) false)) (sysvar_info rent_id) rent native_decimals
    withdraw_address None) as (s2 & E2 & Hm2 & (Ho2 & Ow2 & _)); cbn [key info_of meta_pubkey meta_new sysvar_info meta_new_readonly] in *.
  { by rewrite C1. } { by rewrite Kr. } { by rewrite C1. } { done. }
  destruct (fresh_account_initialised s2 (info_of (meta_new (pk_fee keys) false)) (info_of (meta_new_readonly (pk_mint keys) false))
    (info_of (meta_new_readonly owner false)) (sysvar_info rent_id) rent (mk_mint (Some withdraw_address) 0 native_decimals true None))
    as (s3 & E3 & Ha3 & (Ho3 & Ow3 & _)); cbn [key info_of meta_pubkey meta_new sysvar_info meta_new_readonly] in *.
  { by rewrite Ho2, C2. } { by split. } { done. } { by rewrite Ho2, Kr. } { by rewrite Ho2, C2. }
  assert (Hkeep : forall k, k <> pk_mint keys -> k <> pk_fee keys -> get_cell s3 k = get_cell s1 k).
  { intros k Hk1 Hk2. by rewrite Ho3, Ho2. }
  exists s3. split.
  { rewrite (execute_all_app _ _ _ _ E1). cbn [execute_all].
    erewrite stM_bind_run by (rewrite (execute_token _ (InitializeMint native_decimals withdraw_address None)) by done; exact E2).
    erewrite stM_bind_run by (rewrite (execute_token _ InitializeAccount) by done; exact E3). done. }
  split.
  - exists rent. unfold new_pool_accounts. cbn [key info_of meta_pubkey meta_new sysvar_info meta_new_readonly is_signer meta_is_signer].
    rewrite (Hkeep (pk_pool keys)), (Hkeep (pk_list keys)), (Hkeep clock_id), (Hkeep rent_id) by done. rewrite C3, C4, Kc, Kr, Ow3, (Ho3 (pk_mint keys)), Ow2, Ho2, C1, C2 by done.
    cbn [cell_data cell_lamports cell_owner]. split_and!; try done.
    eapply decodes_get_cell; [|exact Hm2]. by rewrite Ho3.
  - rewrite (Hkeep (pk_pool keys)), (Hkeep (pk_list keys)), C3, C4 by done. split; [done|]. split; [done|]. intros k Hp Hk. rewrite <- (Hoth k Hp Hk).
    unfold new_accounts_of_pool in Hk. cbn in Hk.
    repeat match goal with H : _ ∉ _ :: _ |- _ => apply not_elem_of_cons in H as [? H] end. by apply Hkeep.
Qed.

Lemma initialize_built ix :
  initialize spl_stake_pool_id (pk_pool keys) owner (pk_list keys) (pk_mint keys) (pk_fee keys) spl_token_id (mk_init_args fee) = Ok ix ->
  ix_program_id ix = spl_stake_pool_id /\ pool_instruction_serialize (Initialize (mk_init_args fee)) = Ok (ix_data ix) /\
  info_of <$> ix_accounts ix =
    [ info_of (meta_new (pk_pool keys) true); info_of (meta_new_readonly owner true); info_of (meta_new (pk_list keys) false);
      info_of (meta_new_readonly (pk_mint keys) false); info_of (meta_new_readonly (pk_fee keys) false);
      sysvar_info clock_id; sysvar_info rent_id; info_of (meta_new_readonly spl_token_id false) ].
Proof using Type.
  unfold initialize. intros (d & Hd & Hix)%outcome_bind_Ok. apply Ok_eq in Hix as ->. by split_and!.
Qed.
Lemma pool_initialised s s3 s4 c :
  tokens_ready s s3 c -> pk_pool keys <> pk_list keys -> Fee_wf fee ->
  process_initialize spl_stake_pool_id (mk_init_args fee)
    [ info_of (meta_new (pk_pool keys) true); info_of (meta_new_readonly owner true); info_of (meta_new (pk_list keys) false);
      info_of (meta_new_readonly (pk_mint keys) false); info_of (meta_new_readonly (pk_fee keys) false);
      sysvar_info clock_id; sysvar_info rent_id; info_of (meta_new_readonly spl_token_id false) ] s3 = (Ok tt, s4) ->
  pk_mint keys <> pk_pool keys -> pk_mint keys <> pk_list keys -> pk_fee keys <> pk_pool keys -> pk_fee keys <> pk_list keys ->
  pool_created s s4 c.
Proof using LAWS.
  intros ((rent & Hnew) & Hop & Hol & Hoth) Hne Hf Hr N1 N2 N3 N4.
  destruct Hnew as (_ & _ & Hzp & _ & _ & _ & Hof & Hom & Hda & _ & Hdm & _ & Hc & _).
  cbn [key info_of meta_pubkey meta_new meta_new_readonly] in Hzp, Hof, Hom, Hda, Hdm.
  pose proof (initialize_shapes _ _ _ _ _ _ Hr) as Hown0.
  destruct (initialize_run (mk_init_args fee) _ s3 s4 (pk_pool keys) (pk_list keys) Hr Hf eq_refl eq_refl Hne)
    as (pi & oi & li & mi & fi & ci & ri & ti & rest & c' & p0 & l0 & fa & m & Hacc & _ & _ & Hc' & _ & Hp0 & _ & _ & _ & _ & _ & _
        & _ & _ & _ & _ & Hp & Hl & Hk).
  injection Hacc as <- <- <- <- <- <- <- <- <-. rewrite Hc in Hc'. injection Hc' as <-.
  destruct zero_pool_read as (z & Hz & _ & Hs0 & Ht0). unfold pool_at in Hp0. rewrite Hzp, Hz in Hp0. injection Hp0 as <-.
  rewrite Hs0, Ht0 in Hp.
  assert (Hown : forall k, cell_owner (get_cell s3 k) = spl_stake_pool_id -> cell_owner (get_cell s4 k) = spl_stake_pool_id).
  { intros k <-. apply Hown0. }
  split; [|split; [by rewrite Hk|split; [|]]].
  - assert (Hshort : (length (cell_data (get_cell s4 (pk_pool keys))) < VALIDATOR_STAKE_LIST_LEN)%nat).
    { rewrite (proj2 (Hown0 _)), Hzp, length_replicate. pose proof list_capacity. unfold STAKE_POOL_LEN. lia. }
    split; [split_and!; try done; by apply Hown|]. split; [done|]. split; [done|]. split; [|split; [done|cbn; lia]].
    split; [by rewrite Hk|]. split; [|done]. eapply decodes_get_cell; [|exact Hdm]. by rewrite Hk.
  - split; [|done]. eapply decodes_get_cell; [|exact Hda]. by rewrite Hk.
  - intros k Hkp Hkn. rewrite <- (Hoth k Hkp Hkn). unfold new_accounts_of_pool in Hkn. cbn in Hkn.
    repeat match goal with H : _ ∉ _ :: _ |- _ => apply not_elem_of_cons in H as [? H] end. by apply Hk.
Qed.
(** the whole transaction, with a fee of at most one and with a higher one *)
Lemma creation_runs s c ix_mint ix_fee ix_pool :
  creation_ready s c -> Fee_wf fee ->
  initialize_mint spl_token_id (pk_mint keys) withdraw_address None native_decimals = Ok ix_mint ->
  initialize_account spl_token_id (pk_fee keys) (pk_mint keys) owner = Ok ix_fee ->
  initialize spl_stake_pool_id (pk_pool keys) owner (pk_list keys) (pk_mint keys) (pk_fee keys) spl_token_id (mk_init_args fee) = Ok ix_pool ->
  exists s', execute_all (create_instructions payer new_accounts_of_pool ++ [ix_mint; ix_fee; ix_pool]) s =
      (if fee_denominator fee <? fee_numerator fee then Err (pool_err FeeTooHigh) else Ok tt, s') /\
    (fee_numerator fee <= fee_denominator fee -> pool_created s s' c).
Proof using NTOK NPOOL NPT LAWS SYSL.
  intros Hready Hf H1 H2 H3. pose proof (keys_distinct _ _ Hready) as (D1 & D2 & D3 & D4 & D5 & D6).
  destruct (tokens_initialised _ _ _ _ Hready H1 H2) as (s3 & E3 & Ht). pose proof Ht as ((rent & Hnew) & _).
  apply initialize_built in H3 as (Hid & Hd & Hacc).
  assert (Hrun : execute_all (create_instructions payer new_accounts_of_pool ++ [ix_mint; ix_fee; ix_pool]) s = execute ix_pool s3).
  { change ([ix_mint; ix_fee; ix_pool]) with ([ix_mint; ix_fee] ++ [ix_pool]). rewrite app_assoc, (execute_all_app _ _ _ _ E3).
    cbn [execute_all]. unfold mbind, stM_bind. by destruct (execute ix_pool s3) as [[[]| |] ?]. }
  rewrite Hrun, (execute_pool _ _ _ Hid Hd Hf), Hacc. cbn [process_pool_instruction].
  destruct (Z.ltb_spec (fee_denominator fee) (fee_numerator fee)) as [Hlt|Hle].
  - exists s3. split; [by eapply (fresh_pool_fee_too_high s3 (mk_init_args fee))|lia].
  - destruct (fresh_pool_initialised s3 (mk_init_args fee) _ _ _ _ _ _ _ _ c rent created_mint created_fee_account Hnew Hle) as (s4 & E4).
    exists s4. split; [exact E4|]. intros _. by eapply pool_initialised.
Qed.
End Creation.

(** ** The command *)
Section Command.
Context `{CL : Client} `{SDK : SolanaSdk} {LAWS : SolanaSdkLaws SDK} {chain : World -> Store} {CLL : ClientLaws CL SDK chain}.
Context `{RT : Runtime} `{BC : Bincode} `{PAD : StructPadding} `{BP : BuildProfile}.
Context `{SYS : SystemProgram} {SYSL : SystemLaws SYS}.
Context (NTOK : spl_token_id <> system_program_id) (NPOOL : spl_stake_pool_id <> system_program_id)
  (NPT : spl_stake_pool_id <> spl_token_id).

(** the balance that the node asks for [n] bytes while the command runs *)
Definition quoted (w : World) (n : nat) (b : Z) : Prop :=
  exists w1 w2, chain w1 = chain w /\ rpc_get_minimum_balance (Z.of_nat n) w1 = (Ok b, w2).
(** the transaction of the command: four accounts are created and three of
    them initialised, for new keys and the balances the node asks for *)
Definition creates_pool config (fee : Fee) w (ixs : list Instruction) keys b1 b2 b3 b4 : Prop :=
  (quoted w MINT_LEN b1 /\ quoted w ACCOUNT_LEN b2 /\ quoted w STAKE_POOL_LEN b3 /\ quoted w VALIDATOR_STAKE_LIST_LEN b4) /\
  exists ix_mint ix_fee ix_pool,
    ixs = create_instructions (fee_payer_pubkey config) (new_accounts_of_pool keys b1 b2 b3 b4) ++ [ix_mint; ix_fee; ix_pool] /\
    initialize_mint spl_token_id (pk_mint keys) (withdraw_address keys) None native_decimals = Ok ix_mint /\
    initialize_account spl_token_id (pk_fee keys) (pk_mint keys) (owner_pubkey config) = Ok ix_fee /\
    initialize spl_stake_pool_id (pk_pool keys) (owner_pubkey config) (pk_list keys) (pk_mint keys) (pk_fee keys)
      spl_token_id (mk_init_args fee) = Ok ix_pool.
Lemma create_pool_built config fee w tx w' :
  command_create_pool config fee w = (Ok (Some tx), w') ->
  exists keys b1 b2 b3 b4, creates_pool config fee w (tx_instructions tx) keys b1 b2 b3 b4.
Proof using CLL.
  unfold command_create_pool. intros Hr.
  apply stM_bind_Ok in Hr as (k1 & w1 & C1%keypair_new_run & Hr). apply stM_bind_Ok in Hr as (k2 & w2 & C2%keypair_new_run & Hr).
  apply stM_bind_Ok in Hr as (k3 & w3 & C3%keypair_new_run & Hr). apply stM_bind_Ok in Hr as (k4 & w4 & C4%keypair_new_run & Hr).
  apply stM_bind_Ok in Hr as (b1 & w5 & B1 & Hr). pose proof (get_minimum_balance_run _ _ _ _ B1) as C5.
  apply stM_bind_Ok in Hr as (b2 & w6 & B2 & Hr). pose proof (get_minimum_balance_run _ _ _ _ B2) as C6.
  apply stM_bind_Ok in Hr as (b3 & w7 & B3 & Hr). pose proof (get_minimum_balance_run _ _ _ _ B3) as C7.
  apply stM_bind_Ok in Hr as (b4 & w8 & B4 & Hr).
  do 3 (apply stM_bind_Ok in Hr as (? & ? & _ & Hr)). cbv zeta in Hr.
  destruct (find_authority_bump_seed spl_stake_pool_id (signer_pubkey k3) AUTHORITY_WITHDRAW) as [wk wb] eqn:Ew.
  apply stM_bind_Ok in Hr as (ix1 & ? & H1 & Hr). apply lift_Ok in H1 as [H1%map_err_Ok <-].
  apply stM_bind_Ok in Hr as (ix2 & ? & H2 & Hr). apply lift_Ok in H2 as [H2%map_err_Ok <-].
  apply stM_bind_Ok in Hr as (ix3 & ? & H3 & Hr). apply lift_Ok in H3 as [H3%map_err_Ok <-].
  apply stM_bind_Ok in Hr as ([h f] & ? & _ & Hr).
  apply stM_bind_Ok in Hr as (? & ? & _ & Hr). apply stM_bind_Ok in Hr as (? & ? & _ & Hr).
  apply stM_bind_Ok in Hr as (tx' & ? & Htx & [[= ->] _]%stM_ret_Ok). apply lift_Ok in Htx as [Htx <-].
  apply tx_instructions_sign in Htx. rewrite tx_instructions_new in Htx.
  exists (mk_pool_keys (signer_pubkey k1) (signer_pubkey k2) (signer_pubkey k3) (signer_pubkey k4)), b1, b2, b3, b4.
  split; [repeat split; eexists _, _; (split; [|eassumption]); congruence|].
  exists ix1, ix2, ix3. split; [exact Htx|]. unfold withdraw_address. cbn [pk_pool pk_mint pk_fee pk_list]. rewrite Ew.
  by split.
Qed.

(** C19: the create-pool command from end to end. The transaction of a
    successful [command_create_pool] creates the mint, the fee account, the
    pool and its list and initialises them. Whenever it is run on a chain where
    the payer can fund the fresh accounts, whose balances are exempt from
    rent, the whole of it succeeds through the models of the token program and
    of the pool, exactly when the fee is at most one, and fails with
    [FeeTooHigh] otherwise. On success the pool is the initial one, with the
    client's owner, mint and fee account, an empty list and no tokens; its
    mint has no supply and obeys the pool's withdraw address only; and no
    other account but the payer's has changed. *)
Theorem create_pool_command_effect config fee w tx w' :
  command_create_pool config fee w = (Ok (Some tx), w') -> Fee_wf fee ->
  exists keys b1 b2 b3 b4,
    creates_pool config fee w (tx_instructions tx) keys b1 b2 b3 b4 /\
    forall s c, creation_ready (fee_payer_pubkey config) keys b1 b2 b3 b4 s c ->
      exists s', execute_all (tx_instructions tx) s =
          (if fee_denominator fee <? fee_numerator fee then Err (pool_err FeeTooHigh) else Ok tt, s') /\
        (fee_numerator fee <= fee_denominator fee ->
           pool_created (fee_payer_pubkey config) (owner_pubkey config) keys b1 b2 b3 b4 fee s s' c).
Proof using NTOK NPOOL NPT LAWS SYSL CLL.
  intros Hr Hf. destruct (create_pool_built _ _ _ _ _ Hr) as (keys & b1 & b2 & b3 & b4 & Hc).
  exists keys, b1, b2, b3, b4. split; [exact Hc|]. intros s c Hready. destruct Hc as (_ & ix1 & ix2 & ix3 & -> & H1 & H2 & H3).
  by eapply creation_runs.
Qed.

Context {TRT : TokenRuntime RT} {RTL : RuntimeLaws RT spl_stake_pool_id}.
Context (NS : stake_program_id <> spl_token_id) (NSYS : system_program_id <> spl_token_id).
(** C8: solvency from the first transaction on, in any build. After the
    transaction of the create-pool command has succeeded, and after any
    sequence of the steps of [solvency_step] that follows it (successful
    instructions of the pool's program without impostors, where this pool's
    withdrawals burn its own token, its minting authority serves its own
    instructions and minting does not wrap its count; instructions of the token
    program its withdraw address has not signed; other programs' steps that
    have no authority over its accounts and its mint), no more of the pool's
    tokens exist than the pool has counted, its mint still obeys its withdraw
    address only, and all the tokens in existence together redeem for no more
    than the lamports the pool manages: the premise of the chain invariant is
    established by the program's own creation transaction. *)
Theorem created_pool_stays_solvent config fee w tx w' :
  command_create_pool config fee w = (Ok (Some tx), w') -> Fee_wf fee ->
  exists keys b1 b2 b3 b4,
    creates_pool config fee w (tx_instructions tx) keys b1 b2 b3 b4 /\
    forall s c s1 s2, creation_ready (fee_payer_pubkey config) keys b1 b2 b3 b4 s c ->
      execute_all (tx_instructions tx) s = (Ok tt, s1) ->
      rtc (solvency_step (program_id:=spl_stake_pool_id) (pk_pool keys) (pk_list keys) (pk_mint keys) (withdraw_address keys)) s1 s2 ->
      exists st m,
        covered (program_id:=spl_stake_pool_id) (pk_pool keys) (pk_list keys) (pk_mint keys) (withdraw_address keys) s2 st m /\
        forall x, calc_lamports_amount (st_pool st) (mint_supply m) = Some x -> x <= sp_stake_total (st_pool st).
Proof.
  intros Hr Hf. destruct (create_pool_built _ _ _ _ _ Hr) as (keys & b1 & b2 & b3 & b4 & Hc).
  exists keys, b1, b2, b3, b4. split; [exact Hc|]. intros s c s1 s2 Hready Hx Hrtc.
  destruct Hc as (_ & ix1 & ix2 & ix3 & E & H1 & H2 & H3). rewrite E in Hx.
  destruct (creation_runs NTOK NPOOL NPT _ _ _ _ _ _ _ _ _ _ _ _ _ Hready Hf H1 H2 H3) as (s' & Hx' & Hp).
  rewrite Hx' in Hx. destruct (Z.ltb_spec (fee_denominator fee) (fee_numerator fee)) as [|Hle]; [done|].
  injection Hx as <-. destruct (Hp Hle) as [Hcov _]. eapply chain_covered; [exact NS|exact NSYS| |exact Hrtc|exact Hcov].
  by destruct (keys_distinct _ _ _ _ _ _ _ _ Hready) as (_ & _ & _ & _ & _ & ?).
Qed.
End Command.

(** ** A concrete network and its system program *)
Section Witness.
#[local] Existing Instances model_sdk model_sdk_laws model_bincode zero_padding debug_build model_client model_client_laws.
#[local] Existing Instances token_runtime token_runtime_own token_runtime_runs.
#[local] Instance model_system : SystemProgram := {|
  system_process accounts data :=
    '(from, it) ← next_info accounts;
    '(to, _) ← next_info it;
    let lam := le_decode (take 8 data) in
    payer ← cell_of from;
    new ← cell_of to;
    fail_if (negb (is_signer from) || negb (is_signer to)) MissingRequiredSignature;;
    fail_if (negb (bool_decide (new = empty_cell))) AccountAlreadyInitialized;;
    fail_if (cell_lamports payer <? lam) InsufficientFunds;;
    modify (fun s => <[key to := mk_cell lam (replicate (Z.to_nat (le_decode (slice 8 8 data))) x00)
                                   (new_from_array (drop 16 data))]>
      (set_cell_lamports s (key from) (cell_lamports payer - lam)))
|}.
#[local] Instance model_system_laws : SystemLaws model_system.
Proof.
  split. intros from to lam space owner s ix Hne He Ho Hd Hl Hs Hle.
  assert (u64_range space) by (unfold space_permitted, MAX_PERMITTED_DATA_LENGTH, u64_range in *; lia). clear Hs.
  eexists. split.
  - unfold system_process, model_system. cbn [info_of ix_accounts ix system_create_account model_sdk ix_data fmap list_fmap].
    erewrite stM_bind_run by reflexivity. cbv beta iota. erewrite stM_bind_run by reflexivity. cbv beta iota.
    erewrite stM_bind_run by reflexivity. erewrite stM_bind_run by reflexivity. erewrite stM_bind_run by reflexivity.
    erewrite stM_bind_run by (apply fail_if_run; by rewrite bool_decide_eq_true_2).
    erewrite stM_bind_run; [reflexivity|]. apply fail_if_run, Z.ltb_ge. rewrite take_app_length', u64_le_roundtrip by done. exact Hle.
  - cbn [ix_data ix system_create_account model_sdk key info_of meta_pubkey meta_new].
    rewrite take_app_length', u64_le_roundtrip by done.
    unfold slice. rewrite (drop_app_length' _ _ 8), take_app_length', u64_le_roundtrip by done.
    rewrite app_assoc, (drop_app_length' _ _ 16), new_to_bytes by done. split_and!.
    + unfold get_cell. by rewrite lookup_insert_eq.
    + unfold get_cell at 1. rewrite lookup_insert_ne by congruence. fold (get_cell (set_cell_lamports s from (cell_lamports (get_cell s from) - lam)) from).
      rewrite get_cell_set_lamports, decide_True by done. done.
    + intros k H1 H2. unfold get_cell at 1. rewrite lookup_insert_ne by congruence.
      fold (get_cell (set_cell_lamports s from (cell_lamports (get_cell s from) - lam)) k).
      by rewrite get_cell_set_lamports, decide_False by congruence.
Qed.

Definition creation_store : Store :=
  store_of [(PAYER, mk_cell 1000000 [] default_pubkey); (clock_id, mk_cell 1 (clock_data 7) default_pubkey)].
Definition creation_world : World := (creation_store, 1000).
Definition creation_fee : Fee := mk_fee 100 3.
Definition creation_keys : PoolKeys := mk_pool_keys (key_of_Z 1000) (key_of_Z 1001) (key_of_Z 1002) (key_of_Z 1003).
(** the keys of the accounts that the instructions pass *)
Definition passed_keys (ixs : list Instruction) : list (list Pubkey) := (fun ix => meta_pubkey <$> ix_accounts ix) <$> take 4 ixs.
Definition expected_keys : list (list Pubkey) :=
  [ [PAYER; key_of_Z 1000]; [PAYER; key_of_Z 1001]; [PAYER; key_of_Z 1002]; [PAYER; key_of_Z 1003] ].
Lemma creation_sample_runs :
  exists tx w', command_create_pool sample_config creation_fee creation_world = (Ok (Some tx), w') /\
    passed_keys (tx_instructions tx) = expected_keys.
Proof.
  assert (H : match (command_create_pool sample_config creation_fee creation_world).1 with
    | Ok (Some tx) => bool_decide (passed_keys (tx_instructions tx) = expected_keys) = true
    | _ => False end) by (vm_compute; reflexivity).
  destruct (command_create_pool sample_config creation_fee creation_world) as [[[tx|]| |] w']; [|contradiction..].
  exists tx, w'. split; [reflexivity|]. exact (bool_decide_eq_true_1 _ H).
Qed.

Lemma passed_created payer n1 n2 n3 n4 ixs :
  passed_keys (create_instructions payer [n1; n2; n3; n4] ++ ixs) =
    [ [payer; na_key n1]; [payer; na_key n2]; [payer; na_key n3]; [payer; na_key n4] ].
Proof. reflexivity. Qed.
Lemma quoted_sample w n z b : Z.of_nat n = z -> quoted (CL:=model_client) (chain:=fst) w n b -> b = wrap 64 (2 * z).
Proof.
  intros <- (w1 & w2 & _ & Hb). unfold rpc_get_minimum_balance in Hb. cbn [model_client] in Hb.
  apply serve_Ok in Hb as [Hb _]. by apply Ok_eq in Hb.
Qed.
Lemma creates_sample ixs keys b1 b2 b3 b4 :
  creates_pool (CL:=model_client) (chain:=fst) sample_config creation_fee creation_world ixs keys b1 b2 b3 b4 ->
  passed_keys ixs = expected_keys ->
  keys = creation_keys /\ b1 = 164 /\ b2 = 330 /\ b3 = 416 /\ b4 = 96006.
Proof.
  intros ((Q1 & Q2 & Q3 & Q4) & ix1 & ix2 & ix3 & -> & _) Hk. unfold new_accounts_of_pool in Hk.
  rewrite passed_created in Hk. unfold expected_keys in Hk. cbn [na_key] in Hk. split.
  - destruct keys as [k1 k2 k3 k4]. cbn [pk_mint pk_fee pk_pool pk_list] in Hk. unfold creation_keys.
    set (x1 := key_of_Z 1000) in *. set (x2 := key_of_Z 1001) in *. set (x3 := key_of_Z 1002) in *. set (x4 := key_of_Z 1003) in *.
    clearbody x1 x2 x3 x4. congruence.
  - apply (quoted_sample _ _ 82) in Q1 as ->; [|reflexivity]. apply (quoted_sample _ _ 165) in Q2 as ->; [|reflexivity].
    apply (quoted_sample _ _ 208) in Q3 as ->; [|reflexivity]. apply (quoted_sample _ _ 48003) in Q4 as ->; [|exact list_capacity].
    repeat split; vm_compute; reflexivity.
Qed.
Lemma creation_sample_ready : creation_ready PAYER creation_keys 164 330 416 96006 creation_store (mk_clock 7).
Proof.
  split; [|split; [|split; [|split]]].
  - split; [|split; [|split; [|split]]].
    + apply (bool_decide_eq_true_1 _). vm_compute. reflexivity.
    + repeat (apply Forall_cons; split; [vm_compute; reflexivity|]). apply Forall_nil. exact I.
    + vm_compute. reflexivity.
    + vm_compute. reflexivity.
    + vm_compute. discriminate.
  - apply (bool_decide_eq_true_1 _). vm_compute. reflexivity.
  - apply (bool_decide_eq_true_1 _). vm_compute. reflexivity.
  - vm_compute. reflexivity.
  - exists 2. split; [vm_compute; reflexivity|].
    repeat (apply Forall_cons; split; [split; [unfold u64_range; cbn; lia|]|]); [vm_compute; reflexivity..| |apply Forall_nil; exact I].
    cbn [na_lamports na_space]. rewrite list_capacity. reflexivity.
Qed.
Lemma system_apart : spl_token_id <> system_program_id /\ spl_stake_pool_id <> system_program_id /\ spl_stake_pool_id <> spl_token_id.
Proof. split; [|split]; apply (bool_decide_eq_true_1 _); vm_compute; reflexivity. Qed.
Lemma create_pool_command_effect_witness :
  exists tx w' s', command_create_pool sample_config creation_fee creation_world = (Ok (Some tx), w') /\
    execute_all (tx_instructions tx) creation_store = (Ok tt, s') /\
    pool_created PAYER USER creation_keys 164 330 416 96006 creation_fee creation_store s' (mk_clock 7).
Proof.
  destruct creation_sample_runs as (tx & w' & Hr & Hk).
  destruct (create_pool_command_effect (CLL:=model_client_laws) (SYS:=model_system) (proj1 system_apart)
    (proj1 (proj2 system_apart)) (proj2 (proj2 system_apart)) sample_config creation_fee creation_world tx w' Hr)
    as (keys & b1 & b2 & b3 & b4 & Hc & He); [split; (split; [discriminate|reflexivity])|].
  destruct (creates_sample _ _ _ _ _ _ Hc Hk) as (-> & -> & -> & -> & ->).
  destruct (He creation_store (mk_clock 7) creation_sample_ready) as (s' & Hx & Hp).
  exists tx, w', s'. split; [exact Hr|]. split; [exact Hx|]. apply Hp. discriminate.
Defined.

(** lamports given to any account *)
Lemma gift_owned pid s k z : owned_kept [] pid s (set_cell_lamports s k z).
Proof. intros j Hj. rewrite get_cell_set_lamports. case_decide as E; [subst j|]; by split. Qed.
Lemma gift_step pid kp kl mint auth s k z :
  solvency_step (program_id:=pid) kp kl mint auth s (set_cell_lamports s k z).
Proof.
  apply OtherTx; [apply gift_owned|]. intros m Hm. exists m. split; [|split; [done|lia]].
  eapply token_mint_kept; [apply gift_owned|apply not_elem_of_nil|exact Hm].
Qed.
Lemma pool_not_token : spl_stake_pool_id <> spl_token_id.
Proof. exact (proj2 (proj2 system_apart)). Qed.
Lemma created_pool_stays_solvent_witness :
  exists tx w' s1 st m, command_create_pool sample_config creation_fee creation_world = (Ok (Some tx), w') /\
    execute_all (tx_instructions tx) creation_store = (Ok tt, s1) /\
    covered (program_id:=spl_stake_pool_id) (key_of_Z 1002) (key_of_Z 1003) (key_of_Z 1000) (withdraw_address creation_keys)
      (set_cell_lamports s1 USER 5) st m.
Proof.
  pose proof (token_runtime_frame spl_stake_pool_id pool_not_token) as Hrt.
  destruct creation_sample_runs as (tx & w' & Hr & Hk).
  destruct (created_pool_stays_solvent (CLL:=model_client_laws) (SYS:=model_system) (BP:=debug_build) (RT:=token_runtime) (proj1 system_apart)
    (proj1 (proj2 system_apart)) (proj2 (proj2 system_apart)) stake_not_token system_not_token
    sample_config creation_fee creation_world tx w' Hr)
    as (keys & b1 & b2 & b3 & b4 & Hc & He); [split; (split; [discriminate|reflexivity])|].
  destruct (creates_sample _ _ _ _ _ _ Hc Hk) as (-> & -> & -> & -> & ->).
  destruct Hc as (_ & ix1 & ix2 & ix3 & E & H1 & H2 & H3).
  destruct (creation_runs (proj1 system_apart) (proj1 (proj2 system_apart)) (proj2 (proj2 system_apart)) PAYER USER
    creation_keys 164 330 416 96006 creation_fee creation_store (mk_clock 7) ix1 ix2 ix3 creation_sample_ready) as (s1 & Hx & _);
    [split; (split; [discriminate|reflexivity])|exact H1|exact H2|exact H3|].
  assert (Hx' : execute_all (tx_instructions tx) creation_store = (Ok tt, s1)) by (rewrite E; exact Hx).
  destruct (He creation_store (mk_clock 7) s1 (set_cell_lamports s1 USER 5) creation_sample_ready Hx'
    (rtc_once _ _ (gift_step _ _ _ _ _ _ _ _))) as (st & m & Hcov & _).
  exists tx, w', s1, st, m. split; [exact Hr|]. split; [exact Hx'|exact Hcov].
Defined.
End Witness.
