(* ===== verification/LiquidityCreation.v ===== *)
(** * Creating the liquidity pool

    The transaction of metacli's create-liq-pool command, run over the models
    of the system and token programs: the accounts it leaves, and to whom they
    belong. *)
From S2P Require Import Prelude Machine Sdk TokenInstruction TokenState TokenCodec TokenProcessor TokenFacts TokenRuns.
From S2P Require Import PoolInstruction PoolState StakeProgram PoolProcessor PoolCodec PoolFacts Client Cli MetaCli ClientFacts.
From S2P Require Import TokenTheorems Composition Transactions Bootstrap Models Samples TokenSamples ClientSamples.
#[local] Open Scope Z_scope.

Section Creation.
Context `{SDK : SolanaSdk} {LAWS : SolanaSdkLaws SDK} `{RT : Runtime} `{BC : Bincode} `{PAD : StructPadding} `{BP : BuildProfile}.
Context `{SYS : SystemProgram} {SYSL : SystemLaws SYS}.
Context (NTOK : spl_token_id <> system_program_id).
Implicit Types (s : Store).

Record LiqKeys := mk_liq_keys { lk_state : Pubkey; lk_wsol : Pubkey; lk_st_sol : Pubkey; lk_mint : Pubkey }.
Context (payer st_sol_mint authority : Pubkey) (keys : LiqKeys) (b_mint b_account b_state : Z).
Definition liq_accounts : list NewAccount :=
  [ mk_new_account (lk_state keys) b_state (Z.of_nat STAKE_POOL_LEN) spl_stake_pool_id;
    mk_new_account (lk_wsol keys) b_account (Z.of_nat ACCOUNT_LEN) spl_token_id;
    mk_new_account (lk_st_sol keys) b_account (Z.of_nat ACCOUNT_LEN) spl_token_id ].
Definition liq_mint : list NewAccount := [ mk_new_account (lk_mint keys) b_mint (Z.of_nat MINT_LEN) spl_token_id ].
(** the chain on which the transaction is run *)
Definition liquidity_ready s (rent : Rent) : Prop :=
  can_create payer (liq_accounts ++ liq_mint) s /\
  Forall (fun k => k <> payer /\ k ∉ na_key <$> liq_accounts ++ liq_mint) [st_sol_mint; rent_id] /\
  st_sol_mint <> native_mint_id /\ (exists m, holds Mint s st_sol_mint m) /\
  rent_from_account_info (sysvar_info rent_id) (get_cell s rent_id) = Ok rent /\
  u64_range b_mint /\ u64_range b_account /\ u64_range b_state /\
  rent_is_exempt rent b_account (Z.of_nat ACCOUNT_LEN) = true /\ rent_is_exempt rent b_mint (Z.of_nat MINT_LEN) = true /\
  rent_minimum_balance rent (Z.of_nat ACCOUNT_LEN) <= b_account.
(** what it leaves: the two token accounts and the mint belong to
    [authority], the state account is still empty *)
Definition liquidity_created s s' (rent : Rent) : Prop :=
  let reserve := rent_minimum_balance rent (Z.of_nat ACCOUNT_LEN) in
  get_cell s' (lk_state keys) = mk_cell b_state (replicate STAKE_POOL_LEN x00) spl_stake_pool_id /\
  Forall (fun k => cell_owner (get_cell s' k) = spl_token_id) [lk_wsol keys; lk_st_sol keys; lk_mint keys] /\
  decodes Account s' (lk_wsol keys)
    (mk_account native_mint_id authority (b_account - reserve) None Initialized (Some reserve) 0 None) /\
  decodes Account s' (lk_st_sol keys) (mk_account st_sol_mint authority 0 None Initialized None 0 None) /\
  decodes Mint s' (lk_mint keys) (mk_mint (Some authority) 0 native_decimals true None) /\
  (forall k, k <> payer -> k ∉ na_key <$> liq_accounts ++ liq_mint -> get_cell s' k = get_cell s k).

Lemma liq_keys_distinct s rent : liquidity_ready s rent ->
  NoDup [payer; lk_state keys; lk_wsol keys; lk_st_sol keys; lk_mint keys].
Proof using Type. by intros ((Hnd & _) & _). Qed.
Lemma rent_total_app (l l' : list NewAccount) : rent_total (l ++ l') = rent_total l + rent_total l'.
Proof using Type. induction l as [|n l IH]; [done|]. cbn [app]. rewrite !rent_total_cons, IH. lia. Qed.
(** the accounts may be created in two parts *)
Lemma can_create_app news news' s :
  Forall (fun n => u64_range (na_lamports n)) news' ->
  can_create payer (news ++ news') s -> can_create payer news s /\
  forall s1 s2, all_created payer news s s1 ->
    get_cell s2 payer = get_cell s1 payer -> (forall k, k ∉ na_key <$> news -> get_cell s2 k = get_cell s1 k) ->
    can_create payer news' s2.
Proof using Type.
  intros Hf (Hnd & He & Ho & Hd & Hle). rewrite fmap_app in Hnd. apply NoDup_cons in Hnd as [Hp Hnd].
  rewrite not_elem_of_app in Hp. destruct Hp as [Hp Hp']. apply NoDup_app in Hnd as (Hn & Hnn & Hn').
  apply Forall_app in He as [He He']. rewrite rent_total_app in Hle. apply rent_total_nonneg in Hf.
  split. { split; [by constructor|]. split_and!; try done. lia. }
  intros s1 s2 (_ & Hoth & Hpay) Hpay2 Hoth2. split; [by constructor|]. split.
  - apply Forall_forall. intros n Hin. assert (Hk : na_key n ∈ na_key <$> news') by by apply list_elem_of_fmap_2.
    assert (Hk' : na_key n ∉ na_key <$> news) by (intros H; by apply (Hnn _ H)).
    rewrite Hoth2, Hoth; [by apply (proj1 (Forall_forall _ _) He')| |done|done]. congruence.
  - rewrite Hpay2, Hpay. cbn. split_and!; [done|done|lia].
Qed.

Ltac split_not_elem :=
  repeat match goal with H : _ ∉ _ :: _ |- _ => apply not_elem_of_cons in H as [? H] end.
(** the store after the accounts' part *)
Definition accounts_made s s3 (rent : Rent) : Prop :=
  let reserve := rent_minimum_balance rent (Z.of_nat ACCOUNT_LEN) in
  get_cell s3 (lk_state keys) = mk_cell b_state (replicate STAKE_POOL_LEN x00) spl_stake_pool_id /\
  cell_owner (get_cell s3 (lk_wsol keys)) = spl_token_id /\ cell_owner (get_cell s3 (lk_st_sol keys)) = spl_token_id /\
  decodes Account s3 (lk_wsol keys)
    (mk_account native_mint_id authority (b_account - reserve) None Initialized (Some reserve) 0 None) /\
  decodes Account s3 (lk_st_sol keys) (mk_account st_sol_mint authority 0 None Initialized None 0 None) /\
  exists s1, all_created payer liq_accounts s s1 /\ get_cell s3 payer = get_cell s1 payer /\
    forall k, k ∉ na_key <$> liq_accounts -> get_cell s3 k = get_cell s1 k.
Lemma accounts_initialised s rent ix_wsol ix_st_sol :
  liquidity_ready s rent ->
  initialize_account spl_token_id (lk_wsol keys) native_mint_id authority = Ok ix_wsol ->
  initialize_account spl_token_id (lk_st_sol keys) st_sol_mint authority = Ok ix_st_sol ->
  exists s3, execute_all (create_instructions payer liq_accounts ++ [ix_wsol; ix_st_sol]) s = (Ok tt, s3) /\
    accounts_made s s3 rent.
Proof using NTOK LAWS SYSL.
  intros Hready H1 H2. apply Ok_eq in H1 as ->. apply Ok_eq in H2 as ->.
  pose proof (liq_keys_distinct _ _ Hready) as Hnd.
  destruct Hready as (Hcan & Hsys & Hnat & [m Hm] & Hrent & Bm & Ba & Bs & Ea & Em & Hres).
  apply Forall_cons in Hsys as [[Ks1 Ks2] Hsys]. apply Forall_cons in Hsys as [[Kr1 Kr2] _].
  rewrite fmap_app, not_elem_of_app in Ks2, Kr2. destruct Ks2 as [Ks2 _], Kr2 as [Kr2 _].
  apply can_create_app in Hcan as [Hcan _]; [|by constructor].
  destruct (create_all payer liq_accounts s Hcan) as (s1 & E1 & Hcr).
  { unfold liq_accounts. repeat (apply Forall_cons; split); try done; cbn; unfold u64_range in *; lia. }
  pose proof Hcr as (Hnew & Hoth & _). pose proof (Hoth _ Ks1 Ks2) as Es. pose proof (Hoth _ Kr1 Kr2) as Er.
  apply Forall_cons in Hnew as [C1 Hnew]. apply Forall_cons in Hnew as [C2 Hnew]. apply Forall_cons in Hnew as [C3 _].
  cbn [na_key na_lamports na_space na_owner] in *. rewrite ?Nat2Z.id in *.
  unfold liq_accounts in Ks2, Kr2. cbn in Ks2, Kr2. repeat (apply NoDup_cons in Hnd as [? Hnd]). split_not_elem.
  destruct (fresh_native_initialised s1 (info_of (meta_new (lk_wsol keys) false)) (info_of (meta_new_readonly native_mint_id false))
    (info_of (meta_new_readonly authority false)) (sysvar_info rent_id) rent)
    as (s2 & E2 & Hw2 & (Ho2 & Ow2 & _)); cbn [key info_of meta_pubkey meta_new sysvar_info meta_new_readonly] in *; try rewrite C2; try done.
  { by rewrite Er. }
  destruct (fresh_account_initialised s2 (info_of (meta_new (lk_st_sol keys) false)) (info_of (meta_new_readonly st_sol_mint false))
    (info_of (meta_new_readonly authority false)) (sysvar_info rent_id) rent m)
    as (s3 & E3 & Ha3 & (Ho3 & Ow3 & _)); cbn [key info_of meta_pubkey meta_new sysvar_info meta_new_readonly] in *.
  { by rewrite Ho2, C3. }
  { destruct Hm as [Hm Hi]. split; [|exact Hi]. eapply decodes_get_cell; [|exact Hm]. by rewrite Ho2, Es. }
  { done. } { by rewrite Ho2, Er. } { by rewrite Ho2, C3. }
  assert (Hkeep : forall k, k <> lk_wsol keys -> k <> lk_st_sol keys -> get_cell s3 k = get_cell s1 k).
  { intros k Hk1 Hk2. by rewrite Ho3, Ho2. }
  exists s3. split.
  { rewrite (execute_all_app _ _ _ _ E1). cbn [execute_all].
    erewrite stM_bind_run by (rewrite (execute_token NTOK _ InitializeAccount) by done; exact E2).
    erewrite stM_bind_run by (rewrite (execute_token NTOK _ InitializeAccount) by done; exact E3). done. }
  unfold accounts_made. rewrite C2 in Hw2.
  split; [by rewrite Hkeep, C1|]. split; [by rewrite Ho3, Ow2, C2|]. split; [by rewrite Ow3, Ho2, C3|].
  split; [eapply decodes_get_cell; [|exact Hw2]; by rewrite Ho3|]. split; [exact Ha3|].
  exists s1. split; [exact Hcr|]. split; [by apply Hkeep|].
  intros k Hk. unfold liq_accounts in Hk. cbn in Hk. split_not_elem. by apply Hkeep.
Qed.
(** the whole transaction *)
Lemma liquidity_runs s rent ix_wsol ix_st_sol ix_mint :
  liquidity_ready s rent ->
  initialize_account spl_token_id (lk_wsol keys) native_mint_id authority = Ok ix_wsol ->
  initialize_account spl_token_id (lk_st_sol keys) st_sol_mint authority = Ok ix_st_sol ->
  initialize_mint spl_token_id (lk_mint keys) authority None native_decimals = Ok ix_mint ->
  exists s', execute_all ((create_instructions payer liq_accounts ++ [ix_wsol; ix_st_sol]) ++
      create_instructions payer liq_mint ++ [ix_mint]) s = (Ok tt, s') /\ liquidity_created s s' rent.
Proof using NTOK LAWS SYSL.
  intros Hready H1 H2 H3. apply Ok_eq in H3 as ->.
  destruct (accounts_initialised _ _ _ _ Hready H1 H2) as (s3 & E3 & Hst & Ow & Os & Hw & Ha & s1 & Hcr & Hpay & Hoth3).
  pose proof (liq_keys_distinct _ _ Hready) as Hnd. repeat (apply NoDup_cons in Hnd as [? Hnd]). split_not_elem.
  destruct Hready as (Hcan & Hsys & _ & _ & Hrent & Bm & _ & _ & _ & Em & _).
  apply Forall_cons in Hsys as [_ Hsys]. apply Forall_cons in Hsys as [[Kr1 Kr2] _].
  rewrite fmap_app, not_elem_of_app in Kr2. destruct Kr2 as [Kr2 Kr3].
  apply can_create_app in Hcan as [_ Hcan]; [|by constructor]. pose proof Hcr as (_ & Hoth & _).
  destruct (create_all payer liq_mint s3 (Hcan _ _ Hcr Hpay Hoth3)) as (s4 & E4 & Hnew & Hoth4 & _); [by repeat constructor; destruct Bm|].
  apply Forall_cons in Hnew as [C1 _]. cbn [na_key na_lamports na_space na_owner] in C1. rewrite Nat2Z.id in C1.
  assert (Er : get_cell s4 rent_id = get_cell s rent_id) by by rewrite Hoth4, Hoth3, Hoth.
  assert (Hk4 : forall k, k <> payer -> k <> lk_mint keys -> get_cell s4 k = get_cell s3 k).
  { intros k Hk Hk'. apply Hoth4; [exact Hk|]. cbn. by apply not_elem_of_cons; split; [|apply not_elem_of_nil]. }
  destruct (fresh_mint_initialised s4 (info_of (meta_new (lk_mint keys) false)) (sysvar_info rent_id) rent native_decimals
    authority None) as (s5 & E5 & Hm5 & (Ho5 & Ow5 & _)); cbn [key info_of meta_pubkey meta_new sysvar_info meta_new_readonly] in *.
  { by rewrite C1. } { by rewrite Er. } { by rewrite C1. } { done. }
  exists s5. split.
  { rewrite (execute_all_app _ _ _ _ E3), (execute_all_app _ _ _ _ E4). cbn [execute_all].
    erewrite stM_bind_run by (rewrite (execute_token NTOK _ (InitializeMint native_decimals authority None)) by done; exact E5).
    done. }
  assert (Hk5 : forall k, k <> payer -> k <> lk_mint keys -> get_cell s5 k = get_cell s3 k).
  { intros k Hk Hk'. by rewrite Ho5, Hk4. }
  split; [by rewrite Hk5 by congruence|]. split.
  { repeat (apply Forall_cons; split); [by rewrite Hk5 by congruence..|by rewrite Ow5, C1|by apply Forall_nil]. }
  split; [eapply decodes_get_cell; [|exact Hw]; by rewrite Hk5 by congruence|].
  split; [eapply decodes_get_cell; [|exact Ha]; by rewrite Hk5 by congruence|]. split; [exact Hm5|].
  intros k Hkp Hkn. rewrite fmap_app, not_elem_of_app in Hkn. destruct Hkn as [Hk1 Hk2].
  rewrite Ho5, Hoth4, Hoth3, Hoth; try done. cbn in Hk2. split_not_elem. done.
Qed.
End Creation.

(** ** The command *)
Section Command.
Context `{CL : Client} `{SDK : SolanaSdk} {LAWS : SolanaSdkLaws SDK} {chain : World -> Store} {CLL : ClientLaws CL SDK chain}.
Context `{RT : Runtime} `{BC : Bincode} `{PAD : StructPadding} `{BP : BuildProfile}.
Context `{SYS : SystemProgram} {SYSL : SystemLaws SYS}.
Context (NTOK : spl_token_id <> system_program_id).

(** the address that signs for the liquidity pool at [state] *)
Definition liquidity_authority (state : Pubkey) : Pubkey := (find_authority_bump_seed spl_stake_pool_id state AUTHORITY).1.
Definition creates_liquidity payer w (ixs : list Instruction) keys b_mint b_account b_state : Prop :=
  let authority := liquidity_authority (pubkey_from LIQ_POOL_ACCOUNT) in
  (quoted (chain:=chain) w MINT_LEN b_mint /\ quoted (chain:=chain) w ACCOUNT_LEN b_account /\
   quoted (chain:=chain) w STAKE_POOL_LEN b_state) /\
  exists ix_wsol ix_st_sol ix_mint,
    ixs = (create_instructions payer (liq_accounts keys b_account b_state) ++ [ix_wsol; ix_st_sol]) ++
          create_instructions payer (liq_mint keys b_mint) ++ [ix_mint] /\
    initialize_account spl_token_id (lk_wsol keys) native_mint_id authority = Ok ix_wsol /\
    initialize_account spl_token_id (lk_st_sol keys) (pubkey_from ST_SOL_MINT_ACCOUNT) authority = Ok ix_st_sol /\
    initialize_mint spl_token_id (lk_mint keys) authority None native_decimals = Ok ix_mint.
Lemma create_liquidity_built base w tx w' :
  command_create_liquidity_pool (meta_config base) w = (Ok (Some tx), w') ->
  exists keys b_mint b_account b_state,
    creates_liquidity (fee_payer_pubkey base) w (tx_instructions tx) keys b_mint b_account b_state.
Proof using CLL.
  unfold command_create_liquidity_pool, meta_config.
  destruct (find_authority_bump_seed (pubkey_from SMART_POOL_PROGRAM_ACCOUNT_ID) (pubkey_from LIQ_POOL_ACCOUNT) AUTHORITY)
    as [pda pb] eqn:Ep.
  assert (Hpda : pda = liquidity_authority (pubkey_from LIQ_POOL_ACCOUNT)).
  { unfold liquidity_authority. change (spl_stake_pool_id) with (pubkey_from SMART_POOL_PROGRAM_ACCOUNT_ID). by rewrite Ep. }
  cbn [base_config pda_liq_pool_authority st_sol_mint_account]. intros Hr.
  apply stM_bind_Ok in Hr as (k1 & w1 & C1%keypair_new_run & Hr).
  apply stM_bind_Ok in Hr as (b1 & w2 & B1 & Hr). pose proof (get_minimum_balance_run _ _ _ _ B1) as C2.
  apply stM_bind_Ok in Hr as (b2 & w3 & B2 & Hr). pose proof (get_minimum_balance_run _ _ _ _ B2) as C3.
  apply stM_bind_Ok in Hr as (b3 & w4 & B3 & Hr).
  do 2 (apply stM_bind_Ok in Hr as (? & ? & _ & Hr)). cbv zeta in Hr.
  apply stM_bind_Ok in Hr as (k2 & ? & _ & Hr). apply stM_bind_Ok in Hr as (k3 & ? & _ & Hr).
  apply stM_bind_Ok in Hr as (k4 & ? & _ & Hr).
  apply stM_bind_Ok in Hr as (ix1 & ? & H1 & Hr). apply lift_Ok in H1 as [H1%map_err_Ok <-].
  apply stM_bind_Ok in Hr as (ix2 & ? & H2 & Hr). apply lift_Ok in H2 as [H2%map_err_Ok <-].
  apply stM_bind_Ok in Hr as (ix3 & ? & H3 & Hr). apply lift_Ok in H3 as [H3%map_err_Ok <-].
  apply stM_bind_Ok in Hr as ([h f] & ? & _ & Hr).
  apply stM_bind_Ok in Hr as (? & ? & _ & Hr). apply stM_bind_Ok in Hr as (? & ? & _ & Hr).
  apply stM_bind_Ok in Hr as (tx' & ? & Htx & [[= ->] _]%stM_ret_Ok). apply lift_Ok in Htx as [Htx <-].
  apply tx_instructions_sign in Htx. rewrite tx_instructions_new in Htx.
  exists (mk_liq_keys (signer_pubkey k1) (signer_pubkey k2) (signer_pubkey k3) (signer_pubkey k4)), b1, b2, b3.
  split; [repeat split; eexists _, _; (split; [|eassumption]); congruence|].
  rewrite Hpda in *. exists ix1, ix2, ix3. by split.
Qed.

(** C31: the create-liq-pool command of metacli. Its transaction, run
    instruction by instruction on a chain where the payer can fund the fresh
    accounts, succeeds. It leaves a wrapped-SOL account, an stSOL account and
    the METALP mint, which obey one address: the one derived from the
    [LIQ_POOL_ACCOUNT] written in the source, whatever account the command has
    created for the pool's state; and that account is left with all its bytes
    zero. No other account but the payer's has changed. *)
Theorem create_liquidity_pool_effect base w tx w' :
  command_create_liquidity_pool (meta_config base) w = (Ok (Some tx), w') ->
  exists keys b_mint b_account b_state,
    creates_liquidity (fee_payer_pubkey base) w (tx_instructions tx) keys b_mint b_account b_state /\
    forall s rent,
      liquidity_ready (fee_payer_pubkey base) (pubkey_from ST_SOL_MINT_ACCOUNT) keys b_mint b_account b_state s rent ->
      exists s', execute_all (tx_instructions tx) s = (Ok tt, s') /\
        liquidity_created (fee_payer_pubkey base) (pubkey_from ST_SOL_MINT_ACCOUNT)
          (liquidity_authority (pubkey_from LIQ_POOL_ACCOUNT)) keys b_mint b_account b_state s s' rent.
Proof using NTOK LAWS SYSL CLL.
  intros Hr. destruct (create_liquidity_built _ _ _ _ Hr) as (keys & b1 & b2 & b3 & Hc).
  exists keys, b1, b2, b3. split; [exact Hc|]. intros s rent Hready. destruct Hc as (_ & ix1 & ix2 & ix3 & -> & H1 & H2 & H3).
  by eapply liquidity_runs.
Qed.
End Command.

(** ** A concrete network *)
Section Witness.
#[local] Existing Instances model_sdk model_sdk_laws model_bincode zero_padding debug_build model_client model_client_laws.
#[local] Existing Instances idle_runtime model_system model_system_laws.
Definition ST_SOL : Pubkey := pubkey_from ST_SOL_MINT_ACCOUNT.
Definition st_sol_mint_record : Mint := mk_mint (Some MINT) 1500 9 true None.
Definition liquidity_store : Store :=
  store_of [(PAYER, mk_cell 1000000 [] default_pubkey); (ST_SOL, token_cell st_sol_mint_record)].
Definition liquidity_world : World := (liquidity_store, 1000).
Definition liquidity_keys : LiqKeys := mk_liq_keys (key_of_Z 1000) (key_of_Z 1001) (key_of_Z 1002) (key_of_Z 1003).
(** the keys passed to the four instructions that create accounts *)
Definition created_keys (ixs : list Instruction) : list (list Pubkey) :=
  (fun ix => meta_pubkey <$> ix_accounts ix) <$> (take 3 ixs ++ take 1 (drop 5 ixs)).
Lemma liquidity_sample_runs :
  exists tx w', command_create_liquidity_pool (meta_config sample_config) liquidity_world = (Ok (Some tx), w') /\
    created_keys (tx_instructions tx) = expected_keys.
Proof.
  assert (H : match (command_create_liquidity_pool (meta_config sample_config) liquidity_world).1 with
    | Ok (Some tx) => bool_decide (created_keys (tx_instructions tx) = expected_keys) = true
    | _ => False end) by (vm_compute; reflexivity).
  destruct (command_create_liquidity_pool (meta_config sample_config) liquidity_world) as [[[tx|]| |] w']; [|contradiction..].
  exists tx, w'. split; [reflexivity|]. exact (bool_decide_eq_true_1 _ H).
Qed.
Lemma created_four payer n1 n2 n3 ix1 ix2 n4 ixs :
  created_keys ((create_instructions payer [n1; n2; n3] ++ [ix1; ix2]) ++ create_instructions payer [n4] ++ ixs) =
    [ [payer; na_key n1]; [payer; na_key n2]; [payer; na_key n3]; [payer; na_key n4] ].
Proof. reflexivity. Qed.
Lemma creates_liquidity_sample ixs keys b1 b2 b3 :
  creates_liquidity (CL:=model_client) (chain:=fst) PAYER liquidity_world ixs keys b1 b2 b3 ->
  created_keys ixs = expected_keys -> keys = liquidity_keys /\ b1 = 164 /\ b2 = 330 /\ b3 = 416.
Proof.
  intros ((Q1 & Q2 & Q3) & ix1 & ix2 & ix3 & -> & _) Hk. unfold liq_accounts, liq_mint in Hk.
  rewrite created_four in Hk. unfold expected_keys in Hk. cbn [na_key] in Hk. split.
  - destruct keys as [k1 k2 k3 k4]. cbn [lk_state lk_wsol lk_st_sol lk_mint] in Hk. unfold liquidity_keys.
    set (x1 := key_of_Z 1000) in *. set (x2 := key_of_Z 1001) in *. set (x3 := key_of_Z 1002) in *. set (x4 := key_of_Z 1003) in *.
    clearbody x1 x2 x3 x4. congruence.
  - apply (quoted_sample _ _ 82) in Q1 as ->; [|reflexivity]. apply (quoted_sample _ _ 165) in Q2 as ->; [|reflexivity].
    apply (quoted_sample _ _ 208) in Q3 as ->; [|reflexivity]. repeat split; vm_compute; reflexivity.
Qed.
Lemma liquidity_sample_ready : liquidity_ready PAYER ST_SOL liquidity_keys 164 330 416 liquidity_store 2.
Proof.
  split; [|split; [|split; [|split; [|split]]]].
  - split; [|split; [|split; [|split]]].
    + apply (bool_decide_eq_true_1 _). vm_compute. reflexivity.
    + repeat (apply Forall_cons; split; [vm_compute; reflexivity|]). apply Forall_nil. exact I.
    + vm_compute. reflexivity.
    + vm_compute. reflexivity.
    + vm_compute. discriminate.
  - apply (bool_decide_eq_true_1 _). vm_compute. reflexivity.
  - apply (bool_decide_eq_true_1 _). vm_compute. reflexivity.
  - exists st_sol_mint_record. split; [split|]; vm_compute; reflexivity.
  - vm_compute. reflexivity.
  - unfold u64_range. do 3 (split; [lia|]). do 2 (split; [vm_compute; reflexivity|]). vm_compute. discriminate.
Qed.
Lemma create_liquidity_pool_effect_witness :
  exists tx w' s', command_create_liquidity_pool (meta_config sample_config) liquidity_world = (Ok (Some tx), w') /\
    execute_all (tx_instructions tx) liquidity_store = (Ok tt, s') /\
    liquidity_created PAYER ST_SOL (liquidity_authority (pubkey_from LIQ_POOL_ACCOUNT)) liquidity_keys 164 330 416
      liquidity_store s' 2.
Proof.
  destruct liquidity_sample_runs as (tx & w' & Hr & Hk).
  destruct (create_liquidity_pool_effect (CLL:=model_client_laws) (proj1 system_apart) sample_config liquidity_world tx w' Hr)
    as (keys & b1 & b2 & b3 & Hc & He).
  destruct (creates_liquidity_sample _ _ _ _ _ Hc Hk) as (-> & -> & -> & ->).
  destruct (He liquidity_store 2 liquidity_sample_ready) as (s' & Hx & Hp).
  exists tx, w', s'. split; [exact Hr|]. split; [exact Hx|exact Hp].
Defined.
End Witness.
