(* ===== verification/ArgsTheorems.v ===== *)
(** * Each subcommand runs its command on the arguments it declares

    [invokes] says of each subcommand of the stake pool client which command
    of [Cli] it runs and which named argument goes to which parameter; the
    theorem is that the dispatch of [main] implements it on every command line
    that [clap] accepts, so the declarations fit what the arms read and no
    [unwrap] of an argument panics.  The MetaPool client has a lemma of its
    own.  The rest is a small argument parser that satisfies the interface. *)
From S2P Require Import Prelude Machine Sdk TokenInstruction TokenState TokenProcessor TokenFacts.
From S2P Require Import PoolInstruction PoolState StakeProgram PoolProcessor PoolCodec Models Samples SampleRuns.
From S2P Require Import Client Cli MetaCli Args CliArgs MetaCliArgs ClientSamples.
#[local] Open Scope string_scope.

(** ** What a subcommand declares *)
(** [sc] requires an argument of name [n] that passes the validator [k] *)
Definition declares (sc : SubCommand) (n : string) (k : ArgValidator) : bool :=
  existsb (fun a => bool_decide (arg_name a = n /\ arg_required a = true /\ arg_validator a = Some k)) (sub_args sc).
(** [sc] validates its arguments of name [n], if it has any, with [k] *)
Definition validated (sc : SubCommand) (n : string) (k : ArgValidator) : bool :=
  existsb (fun a => bool_decide (arg_name a = n /\ arg_validator a = Some k)) (sub_args sc).
(** the group of the owner's handover *)
Definition new_accounts (sc : SubCommand) : Prop :=
  mk_group "new_accounts" ["new_owner"; "new_fee_receiver"] true true ∈ sub_groups sc.

Section Declared.
Context `{CL : Client} `{CP : !Clap} `{CLP : !ClapLaws CP}.
Implicit Types (sc : SubCommand) (sm : ArgMatches).

Lemma declares_value sc sm n k :
  follows sc sm -> declares sc n k = true -> exists v, value_of sm n = Some v /\ validates k v = true.
Proof.
  intros (Hr & Hv & _) (a & Ha & Hd)%existsb_exists. apply list_elem_of_In in Ha.
  apply bool_decide_eq_true in Hd as (<- & Hq & Hk). destruct (Hr a Ha Hq) as [v E]. exists v. split; [exact E|].
  exact (Hv a v k Ha E Hk).
Qed.
Lemma declared_pubkey sc sm n :
  follows sc sm -> declares sc n is_pubkey = true -> exists k, pubkey_of sm n = Some k /\ required_pubkey sm n = Ok k.
Proof.
  intros Hf (v & Hv & Hk)%(declares_value _ _ _ _ Hf). destruct (pubkey_of_spec _ _ _ Hv Hk) as [k E].
  exists k. split; [exact E|]. unfold required_pubkey. by rewrite E.
Qed.
Lemma declared_u64 sc sm n :
  follows sc sm -> declares sc n is_parsable_u64 = true -> exists z, value_u64 sm n = Some z /\ u64_or_exit sm n = Ok z /\ u64_range z.
Proof.
  intros Hf (v & Hv & Hk)%(declares_value _ _ _ _ Hf). destruct (value_u64_spec _ _ _ Hv Hk) as (z & E & Hz).
  exists z. split; [exact E|]. unfold u64_or_exit. by rewrite E.
Qed.
Lemma declared_f64 sc sm n :
  follows sc sm -> declares sc n is_amount = true -> exists f, value_f64 sm n = Some f /\ f64_or_exit sm n = Ok f.
Proof.
  intros Hf (v & Hv & Hk)%(declares_value _ _ _ _ Hf). destruct (value_f64_spec _ _ _ Hv Hk) as [f E].
  exists f. split; [exact E|]. unfold f64_or_exit. by rewrite E.
Qed.
(** an optional argument that is given is parsed *)
Lemma validated_pubkey sc sm n :
  follows sc sm -> validated sc n is_pubkey = true -> is_Some (value_of sm n) -> is_Some (pubkey_of sm n).
Proof.
  intros (_ & Hv & _) (a & Ha & Hd)%existsb_exists [v E]. apply list_elem_of_In in Ha.
  apply bool_decide_eq_true in Hd as [<- Hk]. exact (pubkey_of_spec _ _ _ E (Hv a v _ Ha E Hk)).
Qed.
Lemma new_accounts_given sc sm :
  follows sc sm -> new_accounts sc -> validated sc "new_owner" is_pubkey = true ->
  validated sc "new_fee_receiver" is_pubkey = true ->
  is_Some (pubkey_of sm "new_owner") \/ is_Some (pubkey_of sm "new_fee_receiver").
Proof.
  intros Hf Hg Ho Hr. destruct Hf as (H1 & H2 & H3). destruct (H3 _ Hg eq_refl) as (n & Hn & Hv).
  cbn [group_args] in Hn. apply elem_of_cons in Hn as [->|Hn%list_elem_of_singleton].
  - left. by eapply validated_pubkey.
  - right. subst n. by eapply validated_pubkey.
Qed.
End Declared.

(** ** What a subcommand is to run *)
Section Invocations.
Context `{SDK : SolanaSdk} `{CL : Client} `{CP : !Clap} `{BC : Bincode} `{PAD : StructPadding} `{BP : BuildProfile}.

(** an argument's value, parsed as its validator says; [None]: not given *)
Inductive ArgValue :=
| VKey (v : option Pubkey)
| VU64 (v : option Z)
| VF64 (v : option f64)
| VText (v : option string).
Definition argument (sm : ArgMatches) (a : Arg) : string * ArgValue :=
  let n := arg_name a in
  (n, match arg_validator a with
      | Some is_pubkey => VKey (pubkey_of sm n)
      | Some is_parsable_u64 => VU64 (value_u64 sm n)
      | Some is_amount => VF64 (value_f64 sm n)
      | _ => VText (value_of sm n)
      end).
(** the arguments of a subcommand, in the order of their declarations *)
Definition arguments (sc : SubCommand) (sm : ArgMatches) : list (string * ArgValue) := argument sm <$> sub_args sc.
Definition given (v : ArgValue) : Prop :=
  match v with VKey v => is_Some v | VU64 v => is_Some v | VF64 v => is_Some v | VText v => is_Some v end.

(** the command a subcommand's name and named arguments stand for *)
Inductive invokes (config : Config) : string -> list (string * ArgValue) -> CM (option Transaction) -> Prop :=
| invokes_create_pool n d :
    u64_range n -> u64_range d ->
    invokes config "create-pool" [("fee_numerator", VU64 (Some n)); ("fee_denominator", VU64 (Some d))]
      (command_create_pool config {| fee_denominator := d; fee_numerator := n |})
| invokes_create_validator_stake pool validator :
    invokes config "create-validator-stake" [("pool", VKey (Some pool)); ("validator", VKey (Some validator))]
      (command_vsa_create config pool validator)
| invokes_add_validator_stake pool stake token_receiver :
    invokes config "add-validator-stake"
      [("pool", VKey (Some pool)); ("stake", VKey (Some stake)); ("token_receiver", VKey token_receiver)]
      (command_vsa_add config pool stake token_receiver)
| invokes_remove_validator_stake pool stake burn_from new_authority :
    invokes config "remove-validator-stake"
      [("pool", VKey (Some pool)); ("stake", VKey (Some stake)); ("burn_from", VKey (Some burn_from));
       ("new_authority", VKey new_authority)]
      (command_vsa_remove config pool stake burn_from new_authority)
| invokes_deposit pool stake token_receiver :
    invokes config "deposit"
      [("pool", VKey (Some pool)); ("stake", VKey (Some stake)); ("token_receiver", VKey token_receiver)]
      (command_deposit config pool stake token_receiver)
| invokes_list pool : invokes config "list" [("pool", VKey (Some pool))] (command_list config pool)
| invokes_update pool : invokes config "update" [("pool", VKey (Some pool))] (command_update config pool)
| invokes_withdraw pool amount burn_from stake_receiver :
    invokes config "withdraw"
      [("pool", VKey (Some pool)); ("amount", VF64 (Some amount)); ("burn_from", VKey (Some burn_from));
       ("stake_receiver", VKey stake_receiver)]
      (command_withdraw config pool (sol_to_lamports amount) burn_from stake_receiver)
| invokes_set_staking_auth pool stake_account new_staker :
    invokes config "set-staking-auth"
      [("pool", VKey (Some pool)); ("stake_account", VKey (Some stake_account)); ("new_staker", VKey (Some new_staker))]
      (command_set_staking_auth config pool stake_account new_staker)
| invokes_set_owner pool new_owner new_fee_receiver :
    is_Some new_owner \/ is_Some new_fee_receiver ->
    invokes config "set-owner"
      [("pool", VKey (Some pool)); ("new_owner", VKey new_owner); ("new_fee_receiver", VKey new_fee_receiver)]
      (command_set_owner config pool new_owner new_fee_receiver).
End Invocations.

(** ** The commands *)
Definition meta_command_name (c : MetaCommand) : string :=
  match c with
  | MetaCreateLiqPool => "create-liq-pool" | MetaCreateValidatorStake _ => "create-validator-stake"
  | MetaAddValidatorStake _ _ => "add-validator-stake" | MetaRemoveValidatorStake _ _ _ => "remove-validator-stake"
  | MetaDeposit _ _ => "deposit" | MetaList => "list" | MetaUpdate => "update" | MetaUpdateForce => "update-force"
  | MetaWithdraw _ _ _ => "withdraw" | MetaAddLiquidity _ _ => "add-liquidity" | MetaSell _ _ => "sell"
  | MetaSetStakingAuth _ _ => "set-staking-auth" | MetaSetOwner _ _ => "set-owner"
  end.
Definition meta_command_typed (c : MetaCommand) : Prop :=
  match c with
  | MetaSetOwner new_owner new_fee_receiver => is_Some new_owner \/ is_Some new_fee_receiver
  | _ => True
  end.

(** reads each declared argument of a subcommand, in the order of the arm *)
Ltac read_arg Hf :=
  match goal with
  | |- context [required_pubkey ?sm ?n] =>
      let k := fresh "k" in let V := fresh "V" in let E := fresh "E" in
      destruct (declared_pubkey _ sm n Hf eq_refl) as (k & V & E); rewrite E
  | |- context [u64_or_exit ?sm ?n] =>
      let z := fresh "z" in let V := fresh "V" in let E := fresh "E" in
      destruct (declared_u64 _ sm n Hf eq_refl) as (z & V & E & ?); rewrite E
  | |- context [f64_or_exit ?sm ?n] =>
      let f := fresh "f" in let V := fresh "V" in let E := fresh "E" in
      destruct (declared_f64 _ sm n Hf eq_refl) as (f & V & E); rewrite E
  end.

Section Dispatch.
Context `{SDK : SolanaSdk} `{CL : Client} `{CP : !Clap} `{CLP : !ClapLaws CP}.
Context `{BC : Bincode} `{PAD : StructPadding} `{BP : BuildProfile}.

(** no argument on the command line is dropped *)
Lemma argument_given sc sm a :
  follows sc sm -> a ∈ sub_args sc -> is_Some (value_of sm (arg_name a)) -> given (argument sm a).2.
Proof.
  intros (_ & Hv & _) Ha [v E]. unfold argument. cbn.
  destruct (arg_validator a) as [[]|] eqn:Hk; cbn; try (by rewrite E; eexists);
    pose proof (Hv a v _ Ha E Hk) as Hc.
  - exact (pubkey_of_spec _ _ _ E Hc).
  - destruct (value_u64_spec _ _ _ E Hc) as (z & Hz & _). by exists z.
  - exact (value_f64_spec _ _ _ E Hc).
Qed.
(** the arm of a subcommand reads what the subcommand declares *)
Lemma parse_command_invokes sc sm :
  sc ∈ app_subcommands cli_app -> follows sc sm ->
  exists c, parse_command (sub_name sc) sm = Ok c /\
    forall config, invokes config (sub_name sc) (arguments sc sm) (run_command config c).
Proof.
  intros Hsc Hf. unfold cli_app in Hsc. cbn [app_subcommands] in Hsc.
  repeat (apply elem_of_cons in Hsc as [->|Hsc]); [..|by apply elem_of_nil in Hsc];
    unfold parse_command; cbn -[follows required_pubkey u64_or_exit f64_or_exit arguments]; repeat read_arg Hf;
    eexists; (split; [reflexivity|]); intros config; unfold arguments, argument; cbn -[follows];
    repeat match goal with V : _ = Some _ |- _ => rewrite V; clear V end; constructor; try assumption.
  by apply (new_accounts_given _ _ Hf); [apply list_elem_of_singleton|..].
Qed.
Lemma meta_parse_command_ok sc sm :
  sc ∈ app_subcommands meta_app -> follows sc sm ->
  exists c, meta_parse_command (sub_name sc) sm = Ok c /\ meta_command_name c = sub_name sc /\ meta_command_typed c.
Proof.
  intros Hsc Hf. unfold meta_app in Hsc. cbn [app_subcommands] in Hsc.
  repeat (apply elem_of_cons in Hsc as [->|Hsc]); [..|by apply elem_of_nil in Hsc];
    unfold meta_parse_command; cbn -[follows required_pubkey u64_or_exit f64_or_exit]; repeat read_arg Hf;
    eexists; (split; [reflexivity|]); (split; [reflexivity|]); try exact I.
  by apply (new_accounts_given _ _ Hf); [apply list_elem_of_singleton|..].
Qed.
End Dispatch.

(** ** A small argument parser *)
Definition decimal_digit (c : byte) : option Z :=
  let d := u8_of_byte c - 48 in if bool_decide (0 <= d < 10) then Some d else None.
Fixpoint decimal_from (acc : Z) (l : list byte) : option Z :=
  match l with
  | [] => Some acc
  | c :: l => d ← decimal_digit c; decimal_from (acc * 10 + d) l
  end.
Definition parse_u64 (w : string) : option Z :=
  z ← decimal_from 0 (String.list_byte_of_string w); if decide (u64_range z) then Some z else None.
Lemma parse_u64_range w z : parse_u64 w = Some z -> u64_range z.
Proof. unfold parse_u64. intros (y & _ & H)%bind_Some. case_decide; by simplify_eq. Qed.

(** the subcommand given and the values of its arguments *)
Record ModelMatches := mk_matches { mm_sub : string; mm_values : list (string * string) }.
Definition mm_value (m : ModelMatches) (n : string) : option string :=
  snd <$> find (fun p => String.eqb p.1 n) (mm_values m).
Fixpoint parse_values (args : list Arg) (words : list string) : option (list (string * string)) :=
  match words with
  | [] => Some []
  | w :: rest =>
      match find (fun a => bool_decide ((fun l => "--" ++ l) <$> arg_long a = Some w)) args, rest with
      | Some a, v :: rest => cons (arg_name a, v) <$> parse_values args rest
      | Some _, [] => None
      | None, _ =>
          a ← find (fun a => bool_decide (arg_index a = Some 1%nat)) args; cons (arg_name a, w) <$> parse_values args rest
      end
  end.
Definition model_validates (k : ArgValidator) (w : string) : bool :=
  match k with
  | is_pubkey => bool_decide (32 <= String.length w <= 44)%nat
  | is_parsable_u64 | is_amount => bool_decide (is_Some (parse_u64 w))
  | _ => true
  end.
Definition argument_ok (m : ModelMatches) (a : Arg) : bool :=
  match mm_value m (arg_name a) with
  | Some v => match arg_validator a with Some k => model_validates k v | None => true end
  | None => negb (arg_required a)
  end.
Definition group_ok (m : ModelMatches) (g : ArgGroup) : bool :=
  negb (group_required g) || existsb (fun n => bool_decide (is_Some (mm_value m n))) (group_args g).
Definition model_get_matches (app : App) (words : list string) : outcome ClientError ModelMatches :=
  match words with
  | w :: rest =>
      match find (fun sc => String.eqb (sub_name sc) w) (app_subcommands app) with
      | Some sc =>
          values ← ok_or (BadArgument w) (parse_values (sub_args sc) rest);
          let m := mk_matches (sub_name sc) values in
          if forallb (argument_ok m) (sub_args sc) && forallb (group_ok m) (sub_groups sc) then Ok m
          else Err (BadArgument w)
      | None => Err (BadArgument w)
      end
  | [] => Err (BadArgument "")
  end.
#[local] Existing Instances model_sdk model_sdk_laws idle_runtime model_bincode zero_padding debug_build model_client.
#[local] Instance model_clap : Clap (CL:=model_client) := {|
  ArgMatches := ModelMatches;
  get_matches := model_get_matches;
  subcommand m := (mm_sub m, Some m);
  value_of := mm_value;
  is_present m n := bool_decide (is_Some (mm_value m n));
  pubkey_of m n := option_map base58_key (mm_value m n);
  value_u64 m n := match mm_value m n with Some v => parse_u64 v | None => None end;
  value_f64 m n := match mm_value m n with Some v => option_map f64_of_u64 (parse_u64 v) | None => None end;
  validates := model_validates;
  signer_from_path _ n _ := fun w => (Ok (if String.eqb n "owner" then OWNER else PAYER), w);
  config_file := None;
  config_load _ := None;
  config_default := ("", "");
|}.
Lemma model_follows sc m :
  forallb (argument_ok m) (sub_args sc) = true -> forallb (group_ok m) (sub_groups sc) = true -> follows sc m.
Proof.
  intros Ha Hg. rewrite forallb_forall in Ha, Hg. split; [|split].
  - intros a Hin Hr. specialize (Ha a (proj1 (list_elem_of_In _ _) Hin)). unfold argument_ok in Ha. cbn.
    destruct (mm_value m (arg_name a)); [eauto|]. by rewrite Hr in Ha.
  - intros a v k Hin Hv Hk. specialize (Ha a (proj1 (list_elem_of_In _ _) Hin)). unfold argument_ok in Ha. cbn in Hv.
    by rewrite Hv, Hk in Ha.
  - intros g Hin Hr. specialize (Hg g (proj1 (list_elem_of_In _ _) Hin)). unfold group_ok in Hg. rewrite Hr in Hg.
    apply existsb_exists in Hg as (n & Hn & Hv). exists n. split; [by apply list_elem_of_In|].
    exact (bool_decide_eq_true_1 _ Hv).
Qed.
#[local] Instance model_clap_laws : ClapLaws model_clap.
Proof.
  split.
  - intros app words m. cbn. unfold model_get_matches. destruct words as [|w rest]; [done|].
    destruct (find _ _) as [sc|] eqn:Hs; [|done]. intros (values & _ & H)%outcome_bind_Ok.
    destruct (_ && _) eqn:Hok; [|done]. injection H as <-. apply andb_true_iff in Hok as [Ha Hg].
    apply find_some in Hs as [Hs _]. exists sc. eexists. split; [by apply list_elem_of_In|]. split; [reflexivity|].
    by apply model_follows.
  - intros m n v Hv _. cbn in *. rewrite Hv. by eexists.
  - intros m n v Hv Hk%bool_decide_eq_true. cbn in *. rewrite Hv. destruct Hk as [z Hz]. exists z.
    split; [exact Hz|]. exact (parse_u64_range _ _ Hz).
  - intros m n v Hv Hk%bool_decide_eq_true. cbn in *. rewrite Hv. destruct Hk as [z Hz]. cbn. rewrite Hz. by eexists.
Qed.

(** ** The theorems *)
Section Theorems.
Context `{SDK : SolanaSdk} `{CL : Client} `{CP : !Clap} `{CLP : !ClapLaws CP}.
Context `{BC : Bincode} `{PAD : StructPadding} `{BP : BuildProfile}.

(** C40: On every command line that [clap] accepts, the stake pool client runs
    the command [invokes] gives for the subcommand named on it: each declared
    argument, required or optional, parsed as its validator says, reaches the
    parameter it is named for, an argument given is not dropped, and nothing
    panics or exits on the way; the process then sends the transaction the
    command returns, if any.  The parts of a fee are [u64]s, and a handover of
    the pool names a new owner or a new fee receiver. *)
Theorem cli_runs_named_command words m :
  get_matches cli_app words = Ok m ->
  exists sc sm run,
    sc ∈ app_subcommands cli_app /\ subcommand m = (sub_name sc, Some sm) /\
    (forall a, a ∈ sub_args sc -> is_Some (value_of sm (arg_name a)) -> given (argument sm a).2) /\
    (forall config, invokes config (sub_name sc) (arguments sc sm) (run config)) /\
    forall w, cli_main words w =
      (config ← cli_config m;
       transaction ← run config;
       match transaction with Some t => rpc_send_and_confirm t | None => mret tt end) w.
Proof.
  intros Hm. destruct (get_matches_spec _ _ _ Hm) as (sc & sm & Hsc & Hsub & Hf).
  destruct (parse_command_invokes _ _ Hsc Hf) as (c & Hc & Hi).
  exists sc, sm, (fun config => run_command config c). do 2 (split; [done|]).
  split; [intros a; by apply (argument_given sc)|]. split; [exact Hi|]. intros w. unfold cli_main.
  erewrite stM_bind_run by (unfold lift; by rewrite Hm). unfold mbind, stM_bind.
  destruct (cli_config m w) as [[config| |] w1]; [|done..]. rewrite Hsub. unfold lift. by rewrite Hc.
Qed.

(** The MetaPool client finds the arm of each subcommand and reads all its
    arguments; its subcommands take no pool and include those of the liquidity
    pool. *)
Lemma metacli_arguments_typed words m :
  get_matches meta_app words = Ok m ->
  exists name sm c,
    subcommand m = (name, Some sm) /\ meta_parse_command name sm = Ok c /\ meta_command_name c = name /\
    meta_command_typed c /\
    forall w, metacli_main words w = (config ← meta_cli_config m; meta_main config c) w.
Proof.
  intros Hm. destruct (get_matches_spec _ _ _ Hm) as (sc & sm & Hsc & Hsub & Hf).
  destruct (meta_parse_command_ok _ _ Hsc Hf) as (c & Hc & Hn & Ht).
  exists (sub_name sc), sm, c. repeat (split; [done|]). intros w. unfold metacli_main.
  erewrite stM_bind_run by (unfold lift; by rewrite Hm). unfold mbind, stM_bind.
  destruct (meta_cli_config m w) as [[config| |] w1]; [|done..]. rewrite Hsub. unfold lift. by rewrite Hc.
Qed.
End Theorems.

(** ** Witnesses *)
Definition POOL_WORD : string := "E2wGYXEPw46FdJWL1MfRoN3JhQY4w6Dmaz9s4ehV2483".
Definition sample_words : list string :=
  ["withdraw"; "--pool"; POOL_WORD; "--amount"; "3"; "--burn-from"; POOL_WORD].
Definition meta_words : list string := ["sell"; "3"; "--source"; POOL_WORD].
Definition sample_match : @ArgMatches model_client model_clap :=
  mk_matches "withdraw" [("pool", POOL_WORD); ("amount", "3"); ("burn_from", POOL_WORD)].
Definition meta_match : @ArgMatches model_client model_clap := mk_matches "sell" [("amount", "3"); ("source", POOL_WORD)].
(** the same line without the amount is rejected, as is an owner's handover to nobody *)
Example missing_amount : model_get_matches cli_app ["withdraw"; "--pool"; POOL_WORD; "--burn-from"; POOL_WORD]
  = Err (BadArgument "withdraw").
Proof. vm_compute. reflexivity. Qed.
Example handover_to_nobody : model_get_matches cli_app ["set-owner"; "--pool"; POOL_WORD] = Err (BadArgument "set-owner").
Proof. vm_compute. reflexivity. Qed.

Lemma cli_runs_named_command_witness :
  exists sc sm run,
    sc ∈ app_subcommands cli_app /\ subcommand sample_match = (sub_name sc, Some sm) /\
    (forall a, a ∈ sub_args sc -> is_Some (value_of sm (arg_name a)) -> given (argument sm a).2) /\
    (forall config, invokes config (sub_name sc) (arguments sc sm) (run config)) /\
    forall w, cli_main sample_words w =
      (config ← cli_config sample_match;
       transaction ← run config;
       match transaction with Some t => rpc_send_and_confirm t | None => mret tt end) w.
Proof. apply (cli_runs_named_command sample_words sample_match). vm_compute. reflexivity. Defined.
Lemma metacli_arguments_typed_witness :
  exists name sm c,
    subcommand meta_match = (name, Some sm) /\ meta_parse_command name sm = Ok c /\ meta_command_name c = name /\
    meta_command_typed c /\
    forall w, metacli_main meta_words w = (config ← meta_cli_config meta_match; meta_main config c) w.
Proof. apply (metacli_arguments_typed meta_words meta_match). vm_compute. reflexivity. Defined.
